(* ===== verification/_CoqProject ===== *)
-Q . S2P
Prelude.v
Flags.v
Types.v
RingIndex.v
UserMem.v
Syscall.v
SyscallAsm.v
Sqe.v
SqeFile.v
SqeNet.v
SqeSpec.v
Kernel.v
Ring.v
RingSpec.v
RingCorrect.v
RingTrace.v
RingLive.v
WeakMem.v
WeakRing.v
RingWeak.v
RingRace.v
RingOps.v
System.v
Resources.v
ResourcesRace.v
Split.v
Layout.v
Setup.v
Pbuf.v
PbufSpec.v
PbufRace.v
RecvmsgOut.v
Owned.v
Register.v
RegisterSpec.v
Wrappers.v
OwnedPath.v
OwnedDirect.v
OwnedStaged.v
OwnedArrays.v
OwnedMsg.v
Footprint.v
Display.v
OwnedQueue.v
OwnedExits.v
OwnedSpec.v
OwnedMemory.v
OwnedFds.v
StagedSpec.v
MsgSpec.v
OutcomeSpec.v
Lifecycle.v
Miri.v
MiriIo.v
MiriPaths.v
MiriStaged.v
MiriTests.v
