(* ===== verification/Prelude.v ===== *)
(** * ququmatz: a verified model of an io_uring library

    ququmatz is a `no_std` Rust crate that drives Linux io_uring without libc:
    it encodes submission entries, moves them through the submission ring,
    reaps completions, and owns the mappings and descriptors behind it.  This
    library is a shallow embedding of the crate's own logic, with the theorems
    that make it correct.  Paths below are relative to src/src/.

    ** Parts and files

    - [Prelude] (this file): machine integers as [Z] with explicit wrap-around,
      the [result] type and the state-and-error monad [M] (`?` keeps the writes
      made before it), little-endian images, bit lemmas and the [bits] and
      [wrap_lia] tactics.
    - [Flags]: the `bitflags!` words and raw enumerations of types/.
    - [Types]: error.rs, the [Completion] of ring/mod.rs and the small value
      types of types/.
    - [RingIndex]: the window of a power-of-two ring, shared by the submission
      ring, the completion ring and the provided-buffer ring.
    - [Sqe], [SqeFile], [SqeNet]: the 64-byte entry of types/sqe_cqe.rs and every
      constructor and modifier of op/.  [SqeSpec] holds the abstract request
      type [call], its encoder [build], which is the constructors, and the
      decoder [decode] by opcode.
    - [UserMem]: the process's memory as bytes, the interface [Repr] of the types
      the kernel reads or writes as bytes with its round-trip laws, and the
      `repr(C)` structures of types/ (addresses, message headers, times, events,
      futex waiters, open_how, statx, siginfo) with their accessors.
    - [Syscall]: syscall/: the wrappers over the raw call, the class
      [RawSyscall], the crate's numbers for the four architectures ([Arch]), and,
      apart from them, the kernel's own table of each architecture.
      [SyscallAsm]: the assembly stubs of each architecture, as register blocks
      around the instruction ([Trap]).
    - [Kernel]: the memory both sides share ([Shm]) and `io_uring_enter` as the
      class [Kernel] with its documented laws [KernelLaws]: it consumes entries
      in order, posts completions in order, and touches nothing else.
    - [Ring]: the handles of ring/mod.rs: `IoUring`, `Submitter`, `Completer`
      and the `Completions` iterator, one definition per method, over [Sys], the
      handle with the shared memory and the kernel's private state.
    - [RingSpec], [RingCorrect], [RingTrace]: the queues a handle denotes, the
      invariant [ring_wf], the functional theorems of each operation, and the
      step relation in which library and kernel interleave.
    - [WeakMem], [WeakRing], [RingWeak], [RingRace]: the same methods as access
      programs under release and acquire: the memory with its views, the protocol
      of a ring with one producer and one consumer, the programs and their
      agreement with [Ring], and the systems in which they run beside the kernel.
    - [RingOps]: the synchronous operations of ring/ops.rs.
    - [System]: the wrapper, the stub and the instruction as one [Kernel], beneath
      the handles and the synchronous operations.
    - [Resources]: ring/resources.rs: the setup guard and the refcounted page,
      over [Os], the live mappings and descriptors and a count of faults
      (releases of what is not live).  [ResourcesRace]: the count between threads,
      with the orderings of its two read-modify-writes.
    - [Split]: `IoUring::split` and the drops of the halves.
    - [Layout], [Setup]: ring/layout.rs, ring/no_mmap.rs, ring/builder.rs and
      `IoUring::from_params`, over a kernel that answers mmap and
      io_uring_setup ([SetupKernel]).
    - [RingLive]: progress of submission under [KernelProgress].
    - [Pbuf], [PbufSpec]: ring/pbuf.rs, over [RegisterKernel].  [PbufRace]: its
      descriptors, tail and buffers between the program and the kernel under
      [WeakMem].  [RecvmsgOut]: `RecvmsgOut::parse` of types/net.rs and the
      `recvmsg_parts` of the pools.
    - [Register], [RegisterSpec]: ring/register.rs, ring/rsrc_tags.rs and
      ring/probe.rs over [Syscall], and the kernel's reading of a register call.
    - [Wrappers]: net.rs, eventfd.rs, inotify.rs and fs.rs over [Syscall].
    - [Owned]: owned/: identities, receipts and events, address-stable buffers,
      and the request kinds (read, write, zero-copy send, cancel, ring message,
      multishot receive, read and accept), each an instance of the interface
      [OwnedRequest] the queue is written against, with its laws.  The other
      kinds, each an instance too, by what they publish: [OwnedPath] paths (the
      path storage itself, unlink and mkdir, rename, link, open, openat2, statx);
      [OwnedDirect] slots of the registered file table; [OwnedStaged] one value
      or one address (timeouts, epoll_ctl, bind, connect), through two generic
      engines; [OwnedArrays] arrays and destinations (futexes, table updates,
      epoll waits, pipes, waitid); [OwnedMsg] vectored transfers and messages,
      through the region of owned/msgregion.rs.  [Footprint]: what a request touches of
      the process's memory.
    - [OwnedQueue]: owned/queue.rs: `OwnedSubmitter`, `OwnedCompleter` and
      `split_owned`.  [OwnedSpec] has their theorems.  [StagedSpec] and [MsgSpec]
      say what the kernel sees through the pointers of a staged request, and
      [OutcomeSpec] how its results are classified.  [Lifecycle] composes them
      with the ring.  [OwnedExits]: what comes out of a request, pushed or not.
      [OwnedMemory]: the drops of every kind and what stays mapped.  [OwnedFds]:
      who owns a descriptor a completion installs.
    - [Display]: every `Display` text of error.rs, types/, ring/ and owned/.
    - [Miri]: the harness of owned/miri.rs, on [Machine], a heap that stops a run
      at an access to memory that is not live, by a test, by the stand-in kernel or
      by a method of the library: heap storage, the stand-in kernel
      that reaches it through nothing but an entry, and the submission of every
      kind.  [MiriIo], [MiriPaths] and [MiriStaged] are its 77 tests, each a
      program over the definitions of the files above; [MiriTests] has their
      theorems.

    ** How the parts interact

    [SqeFile] and [SqeNet] produce entries; [Ring.IoUring.push] stores one in
    the slot array; `submit` publishes the tail and calls the kernel, which
    consumes and later posts; `complete` reads the completion array.  The
    indices run modulo [2 ^ 32] and are compared by wrapping subtraction, which
    [RingIndex] makes exact for rings up to [2 ^ 31] slots.  [RingOps.run_one]
    composes push, submit_and_wait and complete.  [Setup.from_params] produces
    the handle and hands its mappings to a [Resources] page; [Split.split] and
    a provided-buffer pool each retain that page.  [OwnedQueue] wraps the
    halves: a push turns a request into a ticket and an entry whose `user_data`
    is the ticket's identity, and a reaped completion becomes the receipt that
    redeems it.  A staged request writes [UserMem] structures into storage it owns
    when it is prepared; the kernel is the reader [StagedSpec.seen], which decodes
    the entry with [SqeSpec.decode] and follows its pointers.  [Register] and
    [Wrappers] marshal into locals and read them back after the call.

    ** What the theorems show

    - Rings: push and complete refine a bounded queue; submission accounts for
      partial consumption and errors on every branch; draining terminates with
      exactly what is available; under any interleaving with the kernel no entry
      and no completion is lost, duplicated or reordered, and the methods are
      runs of that step relation; the halves behave as the whole handle; and a
      caller that keeps submitting gets every entry taken.
    - Weak memory: no slot access of either ring races and both orders are kept,
      however stale the indices read; a wakeup of the polling thread can be lost,
      and a full fence would prevent it; the last handle to be dropped is ordered
      after every use of the mappings; no descriptor and no buffer of a pool is
      used by the program and the kernel at once.
    - Synchronous operations: every outcome, termination, the tags, and that
      `run_one` can return while its entry is still in flight, over any kernel.
    - Entries: every constructor decodes to the request it was given, is well
      formed, and the borrowing forms agree with the pointer forms; modifiers
      and union accessors are lenses; the byte image round-trips.
    - Resources: setup, splitting, dropping and pool registration neither leak
      nor release twice, on any path; the regions cover what is accessed; the
      indirection array is the identity.
    - Owned requests: every accepted request is in exactly one place and its
      storage comes back only after the terminal completion, under any
      interleaving; a refused push returns the request intact; reaping, and the
      leases of multishot deliveries; that a ring message can counterfeit the
      receipt of a request in flight; and, end to end, that a queued request is
      read by the kernel as asked and answered with its own storage.  No drop, in
      any order, unmaps storage of a request queued or in flight.  An installed
      descriptor has one owner as long as each event is recorded once; the receipt
      of a finished multishot can be recorded again, and then it has two.
    - Staged requests: as long as the owned storage is left alone the kernel is
      asked for exactly the operation, paths, addresses, values, descriptors and
      buffers the caller gave, or the preparation is refused, with the storage
      returned, for the first check that fails; destinations are large enough and
      aligned; what the kernel stores there is what the caller reads; and every
      result word is classified faithfully.
    - Memory: no owned request touches a byte outside the storage it was handed,
      whatever it stores or reads back, refusals included.
    - The lifecycle tests: all 77 pass on every target, with the library's accesses
      checked; a method whose footprint is a live block is never stopped by the
      check.  The stand-in kernel touches live memory only; a read of any length anywhere in the heap lands in
      the buffer the receipt buys back, and would be an access to dead memory if
      dropping the ticket freed it.
    - Texts: what is printed identifies the value, numbers included.
    - System calls, registration and wrappers: each method makes one call, which
      the kernel finds in its own table of the architecture under the name of the
      method, with the caller's arguments at the kernel's widths, and reports the
      kernel's answer; a registration is read back as the operation the method is
      named after, but for the clones, which the kernel refuses; the stubs put every argument in its register and
      declare what they change; a handle over the wrapper, the stub and the
      instruction is the handle over the kernel behind them; errors and values
      survive the return register; the probe is exact; an event counter behaves as
      the counter.
    - Provided buffers: conservation of buffers under any interleaving, exact
      publication modulo [2 ^ 16], the delivery ledger, slice bounds, and that a
      token of one pool is accepted by another.

    ** Fuel and bounds

    [RingOps.run_one_loop] takes fuel; [RingOps.run_one_terminates] bounds the
    fuel it needs by the completions the kernel can still post.  So does
    [OwnedQueue.OwnedCompleter.reap], for which one more than the completions
    available is enough ([OwnedSpec.reap_first_terminal]).  The stand-in kernel's
    scan of a path takes one more than the live bytes ([MiriTests.scan_finds]).  The draining
    loops are structural in the count [RingCorrect.drain_exact] gives.  `usize` is
    32 or 64 bits wide ([PtrWidth]); `as` casts wrap; plain arithmetic is that of
    [Z], with theorems that it fits where the code relies on it.

    ** What is not modelled

    - What the system-call instruction does: [RawSyscall] stands for it, with the
      registers [Trap] in [SyscallAsm], and [Kernel], [SetupKernel] and
      [RegisterKernel] for the calls whose effect on the rings and the mappings
      matters.  Every law assumed of them is a field of [KernelLaws],
      [KernelProgress], [SetupLaws], [TrapLaws], [EnterAnswers] or a hypothesis of
      the theorem that uses it, with a concrete instance.  [System] brings
      io_uring_enter down to the instruction; the mappings and registrations of
      [Layout], [Resources] and [Pbuf] stay at the level of their classes.
    - Weak memory beyond the rings, the pools and the count: [Ring], [Pbuf] and what
      is built on them read and write the shared words in program order; [RingWeak]
      and [RingRace] carry the accesses of the two rings, [PbufRace] those of a
      pool, [ResourcesRace] those of the count.  The three field writes of a
      descriptor are one access.
    - The contents of the data buffers of a transfer: a slice is its address and
      length; the kernel's updates of an incremental pool's descriptors in place.
    - Wrap-around of request identities: [OwnedSpec.owned_step] pushes while
      fewer than [2 ^ 64 - 1] identities are used, as the source argues.
    - Of owned/miri.rs, what the interpreter checks of aliasing and provenance.  The
      machine sees every access of the tests and of the stand-in kernel; of a method
      of the library it sees a read of dead memory anywhere that matters to the
      method, and a store within [Miri.RED_ZONE] bytes of a block.  [Footprint]
      bounds both everywhere.
    - The derived `Debug` texts and the sink a text is written to; accessors that
      return a field unchanged; the other tests (tests/, owned/tests.rs and the
      test modules of each file), benches and examples. *)
From stdpp Require Import base numbers list option.
From Stdlib Require Import ZArith Lia.
Local Open Scope Z_scope.

(** ** Machine integers

    A [w]-bit unsigned integer is the [Z] in [[0, 2^w)]; an `as` cast or a
    wrapping operation reduces with [wrap].  Plain `+ - *` of the source is
    the operation on [Z]: the theorems show where its value fits. *)
Definition wrap (w z : Z) : Z := z mod 2 ^ w.
Definition as_signed (w z : Z) : Z :=
  let u := wrap w z in if u <? 2 ^ (w - 1) then u else u - 2 ^ w.

Notation as_u8 := (wrap 8).
Notation as_u16 := (wrap 16).
Notation as_u32 := (wrap 32).
Notation as_u64 := (wrap 64).
Notation as_i32 := (as_signed 32).
Notation as_i64 := (as_signed 64).

Definition u32_add (a b : Z) : Z := as_u32 (a + b).
Definition u32_sub (a b : Z) : Z := as_u32 (a - b).
Definition u64_add (a b : Z) : Z := as_u64 (a + b).

Definition in_u (w z : Z) : Prop := 0 <= z < 2 ^ w.
Definition in_i (w z : Z) : Prop := - 2 ^ (w - 1) <= z < 2 ^ (w - 1).

#[export] Instance in_u_dec w z : Decision (in_u w z).
Proof. unfold in_u. apply _. Defined.
#[export] Instance in_i_dec w z : Decision (in_i w z).
Proof. unfold in_i. apply _. Defined.

(** The width of `usize`, which the crate leaves to the target (x86_64,
    aarch64 and riscv64 are 64-bit, arm is 32-bit). *)
Class PtrWidth := {
  usize_bits : Z;
  usize_cases : usize_bits = 32 \/ usize_bits = 64
}.
#[export] Instance ptr64 : PtrWidth | 10.
Proof. refine {| usize_bits := 64 |}. right; reflexivity. Defined.
Definition ptr32 : PtrWidth.
Proof. refine {| usize_bits := 32 |}. left; reflexivity. Defined.

Declare Scope rust_scope.
Delimit Scope rust_scope with rs.
Infix "&&&" := Z.land (at level 40, left associativity) : rust_scope.
Infix "|||" := Z.lor (at level 50, left associativity) : rust_scope.
Infix "<<<" := Z.shiftl (at level 35, no associativity) : rust_scope.
Infix ">>>" := Z.shiftr (at level 35, no associativity) : rust_scope.
Local Open Scope rust_scope.

Create HintDb wrap.
Create HintDb rust.

(** ** Wrapping: the shared lemmas *)
Lemma wrap_range w z : 0 <= w -> 0 <= wrap w z < 2 ^ w.
Proof. intros Hw. unfold wrap. apply Z.mod_pos_bound. lia. Qed.

Lemma wrap_small w z : in_u w z -> wrap w z = z.
Proof. intros Hz. unfold wrap. apply Z.mod_small. exact Hz. Qed.

Lemma wrap_wrap w z : wrap w (wrap w z) = wrap w z.
Proof. unfold wrap. apply Zmod_mod. Qed.

Lemma wrap_add_l w a b : wrap w (wrap w a + b) = wrap w (a + b).
Proof. unfold wrap. apply Zplus_mod_idemp_l. Qed.

Lemma wrap_add_r w a b : wrap w (a + wrap w b) = wrap w (a + b).
Proof. unfold wrap. apply Zplus_mod_idemp_r. Qed.

Lemma wrap_sub_l w a b : wrap w (wrap w a - b) = wrap w (a - b).
Proof. unfold wrap. apply Zminus_mod_idemp_l. Qed.

Lemma wrap_sub_r w a b : wrap w (a - wrap w b) = wrap w (a - b).
Proof. unfold wrap. apply Zminus_mod_idemp_r. Qed.

#[export] Hint Rewrite wrap_wrap wrap_add_l wrap_add_r wrap_sub_l wrap_sub_r : wrap.

(** A narrower wrap absorbs a wider one. *)
Lemma wrap_narrow w v z : 0 <= w <= v -> wrap w (wrap v z) = wrap w z.
Proof.
  intros [? ?]. unfold wrap. replace v with (w + (v - w)) by lia.
  rewrite Z.pow_add_r by lia. rewrite Z.rem_mul_r by lia.
  rewrite (Z.mul_comm (2 ^ w)), Z_mod_plus_full. apply Zmod_mod.
Qed.

(** Modular distance: if [t] is [n] steps ahead of [h], the wrapping
    subtraction says so. *)
Lemma wrap_distance h t n :
  t = wrap 32 (h + n) -> in_u 32 n -> u32_sub t h = n.
Proof.
  intros -> Hn. unfold u32_sub. autorewrite with wrap.
  replace (h + n - h) with n by lia. by apply wrap_small.
Qed.

Lemma wrap_distance_inv h t :
  in_u 32 t -> t = wrap 32 (h + u32_sub t h).
Proof.
  intros Ht. unfold u32_sub. autorewrite with wrap.
  replace (h + (t - h)) with t by lia. symmetry. by apply wrap_small.
Qed.

(** Turns the wraps of a goal into linear arithmetic over quotients. *)
Ltac wrap_lia :=
  unfold u32_add, u32_sub, u64_add, as_signed, in_u, in_i, wrap in *;
  repeat match goal with
  | |- context [2 ^ ?w] =>
      lazymatch w with
      | Z.sub _ _ => let v := eval vm_compute in (2 ^ w) in change (2 ^ w) with v
      | Zpos _ => let v := eval vm_compute in (2 ^ w) in change (2 ^ w) with v
      end
  | H : context [2 ^ ?w] |- _ =>
      lazymatch w with
      | Z.sub _ _ => let v := eval vm_compute in (2 ^ w) in change (2 ^ w) with v in H
      | Zpos _ => let v := eval vm_compute in (2 ^ w) in change (2 ^ w) with v in H
      end
  end;
  Z.to_euclidean_division_equations; lia.

(** Bit masks. *)
Lemma land_mask_mod z k : 0 <= k -> z &&& (2 ^ k - 1) = z mod 2 ^ k.
Proof.
  intros Hk. rewrite <- (Z.land_ones z k Hk). f_equal.
  rewrite Z.ones_equiv. lia.
Qed.

Lemma land_u_bound w a b : 0 <= w -> in_u w b -> in_u w (a &&& b).
Proof.
  intros Hw [Hb0 Hb]. unfold in_u.
  assert (0 <= a &&& b) as Hpos by (apply Z.land_nonneg; by right).
  split; [done|].
  rewrite <- (Z.mod_small b (2 ^ w)) by done. rewrite <- land_mask_mod by lia.
  rewrite Z.land_assoc, land_mask_mod by lia. apply Z.mod_pos_bound. lia.
Qed.

Lemma lor_u_bound w a b : 0 <= w -> in_u w a -> in_u w b -> in_u w (a ||| b).
Proof.
  intros Hw [Ha0 Ha] [Hb0 Hb]. unfold in_u.
  assert (0 <= a ||| b) as Hpos by (apply Z.lor_nonneg; lia).
  split; [done|].
  rewrite <- (Z.mod_small a (2 ^ w)), <- (Z.mod_small b (2 ^ w)) by done.
  rewrite <- !land_mask_mod by lia. rewrite <- Z.land_lor_distr_l.
  rewrite land_mask_mod by lia. apply Z.mod_pos_bound. lia.
Qed.

#[export] Hint Resolve land_u_bound lor_u_bound : rust.

(** Bit-level reasoning: the bits of a wrap, of a bounded value and of the
    two half-word masks. *)
Lemma wrap_testbit w z n :
  0 <= w -> Z.testbit (wrap w z) n = (n <? w) && Z.testbit z n.
Proof. intros. unfold wrap. by rewrite Z.testbit_mod_pow2 by done. Qed.

Lemma in_u_testbit w z n : 0 <= w <= n -> in_u w z -> Z.testbit z n = false.
Proof.
  intros Hw Hz. rewrite <- (wrap_small w z) by done.
  rewrite wrap_testbit by lia. by destruct (Z.ltb_spec n w); [lia|].
Qed.

Lemma lo_mask_testbit n :
  0 <= n -> Z.testbit 0xFFFFFFFF n = (n <? 32).
Proof.
  intros. change 0xFFFFFFFF with (Z.ones 32). rewrite Z.testbit_ones by lia.
  by destruct (Z.leb_spec 0 n); [|lia].
Qed.

Lemma hi_mask_testbit n :
  0 <= n -> Z.testbit 0xFFFFFFFF00000000 n = (32 <=? n) && (n <? 64).
Proof.
  intros. change 0xFFFFFFFF00000000 with (Z.shiftl (Z.ones 32) 32).
  rewrite Z.shiftl_spec by lia. rewrite Z.testbit_ones by lia.
  destruct (Z.leb_spec 32 n), (Z.ltb_spec n 64), (Z.leb_spec 0 (n - 32)),
    (Z.ltb_spec (n - 32) 32); done || lia.
Qed.

(** Proves an equation between bit expressions of bounded words, bit by bit;
    [in_u] hypotheses are used for the bits above a word's width. *)
Ltac bits_step n :=
  repeat first
    [ rewrite Z.lor_spec | rewrite Z.land_spec
    | rewrite wrap_testbit by lia
    | rewrite lo_mask_testbit by lia | rewrite hi_mask_testbit by lia
    | rewrite Z.shiftl_spec by lia | rewrite Z.shiftr_spec by lia ];
  repeat match goal with
  | |- context [?a <? ?b] => destruct (Z.ltb_spec a b)
  | |- context [?a <=? ?b] => destruct (Z.leb_spec a b)
  end; try lia;
  repeat match goal with
  | H : in_u ?w ?z |- context [Z.testbit ?z ?m] =>
      rewrite (in_u_testbit w z m) by (split; [lia|lia] || exact H)
  | |- context [Z.testbit ?z ?m] => rewrite (Z.testbit_neg_r z m) by lia
  end;
  rewrite ?andb_true_r, ?andb_false_r, ?orb_false_r, ?andb_true_l, ?andb_false_l, ?orb_false_l;
  try reflexivity; try (f_equal; lia).
Ltac bits :=
  let n := fresh "n" in let Hn := fresh "Hn" in
  apply Z.bits_inj'; intros n Hn; bits_step n.

(** ** Fallible code *)
Inductive result (A E : Type) : Type :=
| Ok (a : A)
| Err (e : E).
Arguments Ok {A E} _.
Arguments Err {A E} _.

Definition is_ok {A E} (r : result A E) : bool :=
  match r with Ok _ => true | Err _ => false end.
Definition map_err {A E F} (f : E -> F) (r : result A E) : result A F :=
  match r with Ok a => Ok a | Err e => Err (f e) end.

#[export] Instance result_eq_dec {A E} `{EqDecision A} `{EqDecision E} :
  EqDecision (result A E).
Proof. solve_decision. Defined.

(** Stateful fallible code: the state is threaded through `?` as the source
    threads `&mut self`, so an error keeps every write made before it. *)
Definition M (S E A : Type) : Type := S -> result A E * S.

Section Monad.
  Context {S E : Type}.
Definition ret {A} (a : A) : M S E A := fun s => (Ok a, s).
Definition throw {A} (e : E) : M S E A := fun s => (Err e, s).
Definition bind {A B} (m : M S E A) (k : A -> M S E B) : M S E B :=
  fun s => match m s with
           | (Ok a, s') => k a s'
           | (Err e, s') => (Err e, s')
           end.
Definition get : M S E S := fun s => (Ok s, s).
Definition modify (f : S -> S) : M S E unit := fun s => (Ok tt, f s).
Definition lift {A} (r : result A E) : M S E A := fun s => (r, s).
End Monad.

Notation "'let!' x ':=' m 'in' k" := (bind m (fun x => k))
  (at level 10, x pattern, m at level 100, k at level 200) : rust_scope.
Notation "'do!' m 'in' k" := (bind m (fun _ => k))
  (at level 10, m at level 100, k at level 200) : rust_scope.

Lemma bind_ok {S E A B} (m : M S E A) (k : A -> M S E B) s a s' :
  m s = (Ok a, s') -> bind m k s = k a s'.
Proof. unfold bind. by intros ->. Qed.

Lemma bind_err {S E A B} (m : M S E A) (k : A -> M S E B) s e s' :
  m s = (Err e, s') -> bind m k s = (Err e, s').
Proof. unfold bind. by intros ->. Qed.

Lemma bind_assoc {S E A B C} (m : M S E A) (k : A -> M S E B) (l : B -> M S E C) s :
  bind (bind m k) l s = bind m (fun a => bind (k a) l) s.
Proof. unfold bind. by destruct (m s) as [[?|?] ?]. Qed.

(** ** Little-endian bytes

    Every target of the crate is little-endian; a byte is a [Z] below 256. *)
Fixpoint le_split (n : nat) (z : Z) : list Z :=
  match n with
  | O => []
  | S n => as_u8 z :: le_split n (z >>> 8)
  end.
Fixpoint le_combine (bs : list Z) : Z :=
  match bs with
  | [] => 0
  | b :: bs => b + 256 * le_combine bs
  end.
Fixpoint be_split (n : nat) (z : Z) : list Z :=
  match n with
  | O => []
  | S n => as_u8 (z >>> (8 * Z.of_nat n)) :: be_split n z
  end.

Lemma le_split_length n z : length (le_split n z) = n.
Proof. revert z. induction n as [|n IH]; intros z; simpl; by rewrite ?IH. Qed.

Lemma le_split_bytes n z : Forall (in_u 8) (le_split n z).
Proof.
  revert z. induction n as [|n IH]; intros z; simpl; constructor; [|done].
  unfold in_u. by apply wrap_range.
Qed.

Lemma le_combine_split n z :
  le_combine (le_split n z) = wrap (8 * Z.of_nat n) z.
Proof.
  revert z. induction n as [|n IH]; intros z; cbn [le_split le_combine].
  - unfold wrap. by rewrite Z.mod_1_r.
  - rewrite IH. unfold wrap. rewrite Z.shiftr_div_pow2 by lia.
    replace (8 * Z.of_nat (S n)) with (8 + 8 * Z.of_nat n) by lia.
    rewrite Z.pow_add_r by lia. change (2 ^ 8) with 256.
    rewrite (Z.rem_mul_r z 256) by lia. done.
Qed.

Lemma le_split_combine bs :
  Forall (in_u 8) bs -> le_split (length bs) (le_combine bs) = bs.
Proof.
  induction 1 as [|b bs Hb _ IH]; cbn [length le_combine le_split]; [done|].
  unfold in_u in Hb. change (2 ^ 8) with 256 in Hb. f_equal.
  - unfold wrap. change (2 ^ 8) with 256.
    rewrite (Z.mul_comm 256), Z_mod_plus_full. by apply Z.mod_small.
  - rewrite Z.shiftr_div_pow2 by lia. change (2 ^ 8) with 256.
    rewrite (Z.mul_comm 256), Z.div_add by lia.
    rewrite (Z.div_small b) by lia. done.
Qed.

(** ** Lists *)
Lemma lookup_total_app_l' {A} `{Inhabited A} (l k : list A) i :
  (i < length l)%nat -> (l ++ k) !!! i = l !!! i.
Proof. intros. by apply lookup_total_app_l. Qed.

Lemma fmap_seq_shift {B} (f : nat -> B) i n :
  f <$> seq (S i) n = (fun j => f (S j)) <$> seq i n.
Proof. rewrite <- fmap_S_seq, <- list_fmap_compose. done. Qed.
