(* ===== verification/Flags.v ===== *)
(** * Flag words and enumerations

    The constants of the `bitflags!` newtypes and the raw values of the
    enums, as `types/` declares them.  A flag word is the [Z] of its bits. *)
From stdpp Require Import base numbers list.
From Stdlib Require Import ZArith Lia.
From S2P Require Import Prelude.
Local Open Scope Z_scope.
Local Open Scope rust_scope.

(** ** The operations of every `bitflags!` type *)
(* src/src/types/mod.rs:37-41 bitflags!::contains *)
Definition contains (self flag : Z) : bool := (self &&& flag) =? flag.
(* src/src/types/mod.rs:43-47 bitflags!::union_const *)
Definition union_const (self other : Z) : Z := self ||| other.
(* src/src/types/mod.rs:49-53 bitflags!::empty *)
Definition empty_flags : Z := 0.
(* src/src/types/mod.rs:31-35 bitflags!::bits *)
Definition bits_of (self : Z) : Z := self.
(* src/src/types/mod.rs:56-60 bitflags!::eq *)
Definition flags_eqb (self other : Z) : bool := self =? other.
(* src/src/types/mod.rs:62-67 bitflags!::bitor *)
Definition bitor (self rhs : Z) : Z := self ||| rhs.
(** The assigning forms return the new value of `self`. *)
(* src/src/types/mod.rs:69-73 bitflags!::bitor_assign *)
Definition bitor_assign (self rhs : Z) : Z := self ||| rhs.
(* src/src/types/mod.rs:75-80 bitflags!::bitand *)
Definition bitand (self rhs : Z) : Z := self &&& rhs.
(* src/src/types/mod.rs:82-86 bitflags!::bitand_assign *)
Definition bitand_assign (self rhs : Z) : Z := self &&& rhs.
(** `!self` on a [w]-bit word. *)
(* src/src/types/mod.rs:88-93 bitflags!::not *)
Definition not_flags (w self : Z) : Z := wrap w (Z.lnot self).

(** A flag word is the set of its bits: `contains` is inclusion, `|` union, `&`
    intersection, and `& !` removes. *)
Lemma flags_are_sets w a b :
  0 <= w ->
  (contains a b = true <-> forall i, 0 <= i -> Z.testbit b i = true -> Z.testbit a i = true) /\
  (forall i, Z.testbit (bitor a b) i = Z.testbit a i || Z.testbit b i) /\
  (forall i, Z.testbit (bitand a b) i = Z.testbit a i && Z.testbit b i) /\
  (forall i, 0 <= i < w -> Z.testbit (bitand a (not_flags w b)) i = Z.testbit a i && negb (Z.testbit b i)).
Proof.
  intros Hw. split; [|split; [|split]].
  - unfold contains. rewrite Z.eqb_eq. split.
    + intros E i Hi Hb. rewrite <- E, Z.land_spec, andb_true_iff in Hb. by destruct Hb.
    + intros H. apply Z.bits_inj'. intros i Hi. rewrite Z.land_spec.
      destruct (Z.testbit b i) eqn:Hb; [by rewrite (H i Hi Hb)|by rewrite andb_false_r].
  - intros i. apply Z.lor_spec.
  - intros i. apply Z.land_spec.
  - intros i Hi. unfold bitand, not_flags, wrap. rewrite Z.land_spec, Z.mod_pow2_bits_low by lia.
    by rewrite Z.lnot_spec by lia.
Qed.

(** `EnterFlags` (types/ring_ctrl.rs), a `u32` newtype. *)
Module EnterFlags.
(* src/src/types/ring_ctrl.rs:6-6 EnterFlags::GETEVENTS *)
Definition GETEVENTS : Z := 1.
(* src/src/types/ring_ctrl.rs:8-8 EnterFlags::SQ_WAKEUP *)
Definition SQ_WAKEUP : Z := 2.
(* src/src/types/ring_ctrl.rs:10-10 EnterFlags::EXT_ARG *)
Definition EXT_ARG : Z := 8.
(* src/src/types/ring_ctrl.rs:12-12 EnterFlags::REGISTERED_RING *)
Definition REGISTERED_RING : Z := 16.
(* src/src/types/ring_ctrl.rs:20-20 EnterFlags::NO_IOWAIT *)
Definition NO_IOWAIT : Z := 128.
End EnterFlags.

(** `SetupFlags` (types/ring_ctrl.rs), a `u32` newtype. *)
Module SetupFlags.
(* src/src/types/ring_ctrl.rs:30-30 SetupFlags::IOPOLL *)
Definition IOPOLL : Z := 1.
(* src/src/types/ring_ctrl.rs:32-32 SetupFlags::SQPOLL *)
Definition SQPOLL : Z := 2.
(* src/src/types/ring_ctrl.rs:34-34 SetupFlags::SQ_AFF *)
Definition SQ_AFF : Z := 4.
(* src/src/types/ring_ctrl.rs:36-36 SetupFlags::CQSIZE *)
Definition CQSIZE : Z := 8.
(* src/src/types/ring_ctrl.rs:38-38 SetupFlags::CLAMP *)
Definition CLAMP : Z := 16.
(* src/src/types/ring_ctrl.rs:40-40 SetupFlags::ATTACH_WQ *)
Definition ATTACH_WQ : Z := 32.
(* src/src/types/ring_ctrl.rs:45-45 SetupFlags::R_DISABLED *)
Definition R_DISABLED : Z := 64.
(* src/src/types/ring_ctrl.rs:51-51 SetupFlags::SUBMIT_ALL *)
Definition SUBMIT_ALL : Z := 128.
(* src/src/types/ring_ctrl.rs:53-53 SetupFlags::COOP_TASKRUN *)
Definition COOP_TASKRUN : Z := 256.
(* src/src/types/ring_ctrl.rs:58-58 SetupFlags::TASKRUN_FLAG *)
Definition TASKRUN_FLAG : Z := 512.
(* src/src/types/ring_ctrl.rs:60-60 SetupFlags::SINGLE_ISSUER *)
Definition SINGLE_ISSUER : Z := 4096.
(* src/src/types/ring_ctrl.rs:62-62 SetupFlags::DEFER_TASKRUN *)
Definition DEFER_TASKRUN : Z := 8192.
(* src/src/types/ring_ctrl.rs:64-64 SetupFlags::NO_MMAP *)
Definition NO_MMAP : Z := 16384.
(* src/src/types/ring_ctrl.rs:70-70 SetupFlags::NO_SQARRAY *)
Definition NO_SQARRAY : Z := 65536.
(* src/src/types/ring_ctrl.rs:100-115 SetupFlags::SUPPORTED_MASK *)
Definition SUPPORTED_MASK : Z :=
  IOPOLL ||| SQPOLL ||| SQ_AFF ||| CQSIZE ||| CLAMP ||| ATTACH_WQ ||| R_DISABLED
  ||| SUBMIT_ALL ||| COOP_TASKRUN ||| TASKRUN_FLAG ||| SINGLE_ISSUER ||| DEFER_TASKRUN
  ||| NO_MMAP ||| NO_SQARRAY.
End SetupFlags.

(** `Features` (types/ring_ctrl.rs), a `u32` newtype. *)
Module Features.
(* src/src/types/ring_ctrl.rs:143-143 Features::SINGLE_MMAP *)
Definition SINGLE_MMAP : Z := 1.
(* src/src/types/ring_ctrl.rs:144-144 Features::NODROP *)
Definition NODROP : Z := 2.
(* src/src/types/ring_ctrl.rs:145-145 Features::SUBMIT_STABLE *)
Definition SUBMIT_STABLE : Z := 4.
(* src/src/types/ring_ctrl.rs:146-146 Features::RW_CUR_POS *)
Definition RW_CUR_POS : Z := 8.
(* src/src/types/ring_ctrl.rs:147-147 Features::CUR_PERSONALITY *)
Definition CUR_PERSONALITY : Z := 16.
(* src/src/types/ring_ctrl.rs:148-148 Features::FAST_POLL *)
Definition FAST_POLL : Z := 32.
(* src/src/types/ring_ctrl.rs:149-149 Features::POLL_32BITS *)
Definition POLL_32BITS : Z := 64.
(* src/src/types/ring_ctrl.rs:150-150 Features::SQPOLL_NONFIXED *)
Definition SQPOLL_NONFIXED : Z := 128.
(* src/src/types/ring_ctrl.rs:151-151 Features::EXT_ARG *)
Definition EXT_ARG : Z := 256.
(* src/src/types/ring_ctrl.rs:152-152 Features::NATIVE_WORKERS *)
Definition NATIVE_WORKERS : Z := 512.
(* src/src/types/ring_ctrl.rs:153-153 Features::RSRC_TAGS *)
Definition RSRC_TAGS : Z := 1024.
(* src/src/types/ring_ctrl.rs:154-154 Features::CQE_SKIP *)
Definition CQE_SKIP : Z := 2048.
(* src/src/types/ring_ctrl.rs:155-155 Features::LINKED_FILE *)
Definition LINKED_FILE : Z := 4096.
(* src/src/types/ring_ctrl.rs:156-156 Features::REG_REG_RING *)
Definition REG_REG_RING : Z := 8192.
(* src/src/types/ring_ctrl.rs:157-157 Features::RECVSEND_BUNDLE *)
Definition RECVSEND_BUNDLE : Z := 16384.
(* src/src/types/ring_ctrl.rs:158-158 Features::MIN_TIMEOUT *)
Definition MIN_TIMEOUT : Z := 32768.
(* src/src/types/ring_ctrl.rs:161-161 Features::RW_ATTR *)
Definition RW_ATTR : Z := 65536.
(* src/src/types/ring_ctrl.rs:164-164 Features::NO_IOWAIT *)
Definition NO_IOWAIT : Z := 131072.
End Features.

(** `SqeFlags` (types/ring_ctrl.rs), a `u8` newtype. *)
Module SqeFlags.
(* src/src/types/ring_ctrl.rs:178-178 SqeFlags::FIXED_FILE *)
Definition FIXED_FILE : Z := 1.
(* src/src/types/ring_ctrl.rs:180-180 SqeFlags::IO_DRAIN *)
Definition IO_DRAIN : Z := 2.
(* src/src/types/ring_ctrl.rs:182-182 SqeFlags::IO_LINK *)
Definition IO_LINK : Z := 4.
(* src/src/types/ring_ctrl.rs:184-184 SqeFlags::IO_HARDLINK *)
Definition IO_HARDLINK : Z := 8.
(* src/src/types/ring_ctrl.rs:186-186 SqeFlags::IO_ASYNC *)
Definition IO_ASYNC : Z := 16.
(* src/src/types/ring_ctrl.rs:192-192 SqeFlags::BUFFER_SELECT *)
Definition BUFFER_SELECT : Z := 32.
(* src/src/types/ring_ctrl.rs:194-194 SqeFlags::CQE_SKIP_SUCCESS *)
Definition CQE_SKIP_SUCCESS : Z := 64.
End SqeFlags.

(** `CqeFlags` (types/sqe_cqe.rs), a `u32` newtype. *)
Module CqeFlags.
(* src/src/types/sqe_cqe.rs:179-179 CqeFlags::BUFFER *)
Definition BUFFER : Z := 1.
(* src/src/types/sqe_cqe.rs:181-181 CqeFlags::MORE *)
Definition MORE : Z := 2.
(* src/src/types/sqe_cqe.rs:183-183 CqeFlags::SOCK_NONEMPTY *)
Definition SOCK_NONEMPTY : Z := 4.
(* src/src/types/sqe_cqe.rs:185-185 CqeFlags::NOTIF *)
Definition NOTIF : Z := 8.
(* src/src/types/sqe_cqe.rs:195-195 CqeFlags::BUF_MORE *)
Definition BUF_MORE : Z := 16.
End CqeFlags.

(** `PbufRingFlags` (types/buffers.rs), a `u16` newtype. *)
Module PbufRingFlags.
(* src/src/types/buffers.rs:63-63 PbufRingFlags::INC *)
Definition INC : Z := 2.
End PbufRingFlags.

(** `MsgFlags` (types/net.rs), a `u32` newtype. *)
Module MsgFlags.
(* src/src/types/net.rs:93-93 MsgFlags::DONTWAIT *)
Definition DONTWAIT : Z := 64.
(* src/src/types/net.rs:94-94 MsgFlags::NOSIGNAL *)
Definition NOSIGNAL : Z := 16384.
(* src/src/types/net.rs:95-95 MsgFlags::WAITALL *)
Definition WAITALL : Z := 256.
(* src/src/types/net.rs:102-102 MsgFlags::CMSG_CLOEXEC *)
Definition CMSG_CLOEXEC : Z := 1073741824.
End MsgFlags.

(** `MsgOutFlags` (types/net.rs), a `u32` newtype. *)
Module MsgOutFlags.
(* src/src/types/net.rs:119-119 MsgOutFlags::OOB *)
Definition OOB : Z := 1.
(* src/src/types/net.rs:121-121 MsgOutFlags::CTRUNC *)
Definition CTRUNC : Z := 8.
(* src/src/types/net.rs:123-123 MsgOutFlags::TRUNC *)
Definition TRUNC : Z := 32.
(* src/src/types/net.rs:125-125 MsgOutFlags::EOR *)
Definition EOR : Z := 128.
(* src/src/types/net.rs:127-127 MsgOutFlags::ERRQUEUE *)
Definition ERRQUEUE : Z := 8192.
End MsgOutFlags.

(** `AcceptFlags` (types/net.rs), a `u32` newtype. *)
Module AcceptFlags.
(* src/src/types/net.rs:147-147 AcceptFlags::NONBLOCK *)
Definition NONBLOCK : Z := 2048.
End AcceptFlags.

(** `SocketFlags` (types/net.rs), a `u32` newtype. *)
Module SocketFlags.
(* src/src/types/net.rs:160-160 SocketFlags::NONBLOCK *)
Definition NONBLOCK : Z := 2048.
(* src/src/types/net.rs:162-162 SocketFlags::CLOEXEC *)
Definition CLOEXEC : Z := 524288.
End SocketFlags.

(** `OpenFlags` (types/fs.rs), a `u32` newtype. *)
Module OpenFlags.
(* src/src/types/fs.rs:14-14 OpenFlags::WRONLY *)
Definition WRONLY : Z := 1.
(* src/src/types/fs.rs:15-15 OpenFlags::RDWR *)
Definition RDWR : Z := 2.
(* src/src/types/fs.rs:16-16 OpenFlags::CREAT *)
Definition CREAT : Z := 64.
(* src/src/types/fs.rs:17-17 OpenFlags::EXCL *)
Definition EXCL : Z := 128.
(* src/src/types/fs.rs:18-18 OpenFlags::TRUNC *)
Definition TRUNC : Z := 512.
(* src/src/types/fs.rs:19-19 OpenFlags::APPEND *)
Definition APPEND : Z := 1024.
(* src/src/types/fs.rs:20-20 OpenFlags::NONBLOCK *)
Definition NONBLOCK : Z := 2048.
(* src/src/types/fs.rs:24-24 OpenFlags::DIRECT *)
Definition DIRECT : Z := 16384.
(* src/src/types/fs.rs:25-25 OpenFlags::NOFOLLOW *)
Definition NOFOLLOW : Z := 131072.
(* src/src/types/fs.rs:26-26 OpenFlags::CLOEXEC *)
Definition CLOEXEC : Z := 524288.
(* src/src/types/fs.rs:27-27 OpenFlags::DIRECTORY *)
Definition DIRECTORY : Z := 65536.
(* src/src/types/fs.rs:28-28 OpenFlags::PATH *)
Definition PATH : Z := 2097152.
(* src/src/types/fs.rs:29-29 OpenFlags::TMPFILE *)
Definition TMPFILE : Z := 4259840.
End OpenFlags.

(** `FsyncFlags` (types/fs.rs), a `u32` newtype. *)
Module FsyncFlags.
(* src/src/types/fs.rs:92-92 FsyncFlags::DATASYNC *)
Definition DATASYNC : Z := 1.
End FsyncFlags.

(** `StatxMask` (types/fs.rs), a `u32` newtype. *)
Module StatxMask.
(* src/src/types/fs.rs:133-133 StatxMask::TYPE *)
Definition TYPE : Z := 1.
(* src/src/types/fs.rs:134-134 StatxMask::MODE *)
Definition MODE : Z := 2.
(* src/src/types/fs.rs:135-135 StatxMask::NLINK *)
Definition NLINK : Z := 4.
(* src/src/types/fs.rs:136-136 StatxMask::UID *)
Definition UID : Z := 8.
(* src/src/types/fs.rs:137-137 StatxMask::GID *)
Definition GID : Z := 16.
(* src/src/types/fs.rs:138-138 StatxMask::ATIME *)
Definition ATIME : Z := 32.
(* src/src/types/fs.rs:139-139 StatxMask::MTIME *)
Definition MTIME : Z := 64.
(* src/src/types/fs.rs:140-140 StatxMask::CTIME *)
Definition CTIME : Z := 128.
(* src/src/types/fs.rs:141-141 StatxMask::INO *)
Definition INO : Z := 256.
(* src/src/types/fs.rs:142-142 StatxMask::SIZE *)
Definition SIZE : Z := 512.
(* src/src/types/fs.rs:143-143 StatxMask::BLOCKS *)
Definition BLOCKS : Z := 1024.
(* src/src/types/fs.rs:144-144 StatxMask::BASIC_STATS *)
Definition BASIC_STATS : Z := 2047.
(* src/src/types/fs.rs:145-145 StatxMask::ALL *)
Definition ALL : Z := 4095.
End StatxMask.

(** `InstallFdFlags` (types/fs.rs), a `u32` newtype. *)
Module InstallFdFlags.
(* src/src/types/fs.rs:323-323 InstallFdFlags::NO_CLOEXEC *)
Definition NO_CLOEXEC : Z := 1.
End InstallFdFlags.

(** `MsgRingFlags` (types/msgring.rs), a `u32` newtype. *)
Module MsgRingFlags.
(* src/src/types/msgring.rs:13-13 MsgRingFlags::CQE_SKIP *)
Definition CQE_SKIP : Z := 1.
(* src/src/types/msgring.rs:17-17 MsgRingFlags::FLAGS_PASS *)
Definition FLAGS_PASS : Z := 2.
End MsgRingFlags.

(** `TimeoutFlags` (types/timeout.rs), a `u32` newtype. *)
Module TimeoutFlags.
(* src/src/types/timeout.rs:57-57 TimeoutFlags::ABS *)
Definition ABS : Z := 1.
End TimeoutFlags.

(** `SpliceFlags` (types/splice.rs), a `u32` newtype. *)
Module SpliceFlags.
(* src/src/types/splice.rs:7-7 SpliceFlags::MOVE *)
Definition MOVE : Z := 1.
(* src/src/types/splice.rs:9-9 SpliceFlags::NONBLOCK *)
Definition NONBLOCK : Z := 2.
(* src/src/types/splice.rs:11-11 SpliceFlags::MORE *)
Definition MORE : Z := 4.
(* src/src/types/splice.rs:13-13 SpliceFlags::FD_IN_FIXED *)
Definition FD_IN_FIXED : Z := 2147483648.
End SpliceFlags.

(** `CancelFlags` (types/cancel.rs), a `u32` newtype. *)
Module CancelFlags.
(* src/src/types/cancel.rs:23-23 CancelFlags::ALL *)
Definition ALL : Z := 1.
(* src/src/types/cancel.rs:27-27 CancelFlags::FD *)
Definition FD : Z := 2.
(* src/src/types/cancel.rs:30-30 CancelFlags::ANY *)
Definition ANY : Z := 4.
(* src/src/types/cancel.rs:33-33 CancelFlags::FD_FIXED *)
Definition FD_FIXED : Z := 8.
(* src/src/types/cancel.rs:36-36 CancelFlags::USERDATA *)
Definition USERDATA : Z := 16.
(* src/src/types/cancel.rs:40-40 CancelFlags::OP *)
Definition OP : Z := 32.
End CancelFlags.

(** `FileMode` (types/fs.rs), a `u32` newtype. *)
Module FileMode.
(* src/src/types/fs.rs:62-62 FileMode::OWNER_READ *)
Definition OWNER_READ : Z := 256.
(* src/src/types/fs.rs:63-63 FileMode::OWNER_WRITE *)
Definition OWNER_WRITE : Z := 128.
(* src/src/types/fs.rs:64-64 FileMode::OWNER_EXEC *)
Definition OWNER_EXEC : Z := 64.
(* src/src/types/fs.rs:65-65 FileMode::GROUP_READ *)
Definition GROUP_READ : Z := 32.
(* src/src/types/fs.rs:66-66 FileMode::GROUP_WRITE *)
Definition GROUP_WRITE : Z := 16.
(* src/src/types/fs.rs:67-67 FileMode::GROUP_EXEC *)
Definition GROUP_EXEC : Z := 8.
(* src/src/types/fs.rs:68-68 FileMode::OTHER_READ *)
Definition OTHER_READ : Z := 4.
(* src/src/types/fs.rs:69-69 FileMode::OTHER_WRITE *)
Definition OTHER_WRITE : Z := 2.
(* src/src/types/fs.rs:70-70 FileMode::OTHER_EXEC *)
Definition OTHER_EXEC : Z := 1.
End FileMode.

(** `StatxFlags` (types/fs.rs), a `u32` newtype. *)
Module StatxFlags.
(* src/src/types/fs.rs:126-126 StatxFlags::EMPTY_PATH *)
Definition EMPTY_PATH : Z := 4096.
(* src/src/types/fs.rs:127-127 StatxFlags::SYMLINK_NOFOLLOW *)
Definition SYMLINK_NOFOLLOW : Z := 256.
End StatxFlags.

(** `PipeFlags` (types/fs.rs), a `u32` newtype. *)
Module PipeFlags.
(* src/src/types/fs.rs:332-332 PipeFlags::CLOEXEC *)
Definition CLOEXEC : Z := 524288.
(* src/src/types/fs.rs:333-333 PipeFlags::NONBLOCK *)
Definition NONBLOCK : Z := 2048.
(* src/src/types/fs.rs:335-335 PipeFlags::DIRECT *)
Definition DIRECT : Z := 16384.
(* src/src/types/fs.rs:340-340 PipeFlags::NOTIFICATION_PIPE *)
Definition NOTIFICATION_PIPE : Z := 128.
End PipeFlags.

(** `RenameFlags` (types/fs.rs), a `u32` newtype. *)
Module RenameFlags.
(* src/src/types/fs.rs:346-346 RenameFlags::NOREPLACE *)
Definition NOREPLACE : Z := 1.
(* src/src/types/fs.rs:347-347 RenameFlags::EXCHANGE *)
Definition EXCHANGE : Z := 2.
End RenameFlags.

(** `UnlinkFlags` (types/fs.rs), a `u32` newtype. *)
Module UnlinkFlags.
(* src/src/types/fs.rs:354-354 UnlinkFlags::REMOVEDIR *)
Definition REMOVEDIR : Z := 512.
End UnlinkFlags.

(** `LinkFlags` (types/fs.rs), a `u32` newtype. *)
Module LinkFlags.
(* src/src/types/fs.rs:363-363 LinkFlags::SYMLINK_FOLLOW *)
Definition SYMLINK_FOLLOW : Z := 1024.
(* src/src/types/fs.rs:366-366 LinkFlags::EMPTY_PATH *)
Definition EMPTY_PATH : Z := 4096.
End LinkFlags.

(** `ResolveFlags` (types/fs.rs), a `u64` newtype. *)
Module ResolveFlags.
(* src/src/types/fs.rs:408-408 ResolveFlags::NO_XDEV *)
Definition NO_XDEV : Z := 1.
(* src/src/types/fs.rs:410-410 ResolveFlags::NO_MAGICLINKS *)
Definition NO_MAGICLINKS : Z := 2.
(* src/src/types/fs.rs:412-412 ResolveFlags::NO_SYMLINKS *)
Definition NO_SYMLINKS : Z := 4.
(* src/src/types/fs.rs:414-414 ResolveFlags::BENEATH *)
Definition BENEATH : Z := 8.
(* src/src/types/fs.rs:416-416 ResolveFlags::IN_ROOT *)
Definition IN_ROOT : Z := 16.
(* src/src/types/fs.rs:418-418 ResolveFlags::CACHED *)
Definition CACHED : Z := 32.
End ResolveFlags.

(** `EpollEvents` (types/epoll.rs), a `u32` newtype. *)
Module EpollEvents.
(* src/src/types/epoll.rs:21-21 EpollEvents::IN *)
Definition IN : Z := 1.
(* src/src/types/epoll.rs:22-22 EpollEvents::OUT *)
Definition OUT : Z := 4.
(* src/src/types/epoll.rs:23-23 EpollEvents::ERR *)
Definition ERR : Z := 8.
(* src/src/types/epoll.rs:24-24 EpollEvents::HUP *)
Definition HUP : Z := 16.
(* src/src/types/epoll.rs:25-25 EpollEvents::RDHUP *)
Definition RDHUP : Z := 8192.
(* src/src/types/epoll.rs:26-26 EpollEvents::ET *)
Definition ET : Z := 2147483648.
(* src/src/types/epoll.rs:27-27 EpollEvents::ONESHOT *)
Definition ONESHOT : Z := 1073741824.
End EpollEvents.

(** `WaitOptions` (types/waitid.rs), a `u32` newtype. *)
Module WaitOptions.
(* src/src/types/waitid.rs:13-13 WaitOptions::NOHANG *)
Definition NOHANG : Z := 1.
(* src/src/types/waitid.rs:15-15 WaitOptions::UNTRACED *)
Definition UNTRACED : Z := 2.
(* src/src/types/waitid.rs:17-17 WaitOptions::EXITED *)
Definition EXITED : Z := 4.
(* src/src/types/waitid.rs:19-19 WaitOptions::CONTINUED *)
Definition CONTINUED : Z := 8.
(* src/src/types/waitid.rs:23-23 WaitOptions::NOWAIT *)
Definition NOWAIT : Z := 16777216.
End WaitOptions.

(** `CloneBuffersFlags` (types/buffers.rs), a `u32` newtype. *)
Module CloneBuffersFlags.
(* src/src/types/buffers.rs:247-247 CloneBuffersFlags::SRC_REGISTERED *)
Definition SRC_REGISTERED : Z := 1.
(* src/src/types/buffers.rs:252-252 CloneBuffersFlags::DST_REPLACE *)
Definition DST_REPLACE : Z := 2.
End CloneBuffersFlags.

(** `Futex2Flags` (types/futex.rs), a `u32` newtype. *)
Module Futex2Flags.
(* src/src/types/futex.rs:16-16 Futex2Flags::SIZE_U32 *)
Definition SIZE_U32 : Z := 2.
(* src/src/types/futex.rs:18-18 Futex2Flags::PRIVATE *)
Definition PRIVATE : Z := 128.
(* src/src/types/futex.rs:20-20 Futex2Flags::NUMA *)
Definition NUMA : Z := 4.
End Futex2Flags.

(** `Opcode` (types/opcodes.rs) and its discriminants. *)
Module Opcode.
(* src/src/types/opcodes.rs:7-70 Opcode *)
Inductive t : Set :=
| Nop
| Readv
| Writev
| Fsync
| ReadFixed
| WriteFixed
| PollAdd
| PollRemove
| SyncFileRange
| SendMsg
| RecvMsg
| Timeout
| TimeoutRemove
| Accept
| AsyncCancel
| LinkTimeout
| Connect
| Fallocate
| Openat
| Close
| FilesUpdate
| Statx
| Read
| Write
| Fadvise
| Madvise
| Send
| Recv
| Openat2
| EpollCtl
| Splice
| ProvideBuffers
| RemoveBuffers
| Tee
| Shutdown
| Renameat
| Unlinkat
| Mkdirat
| Symlinkat
| Linkat
| MsgRing
| Fsetxattr
| Setxattr
| Fgetxattr
| Getxattr
| Socket
| UringCmd
| SendZc
| SendmsgZc
| ReadMultishot
| WaitId
| FutexWait
| FutexWake
| FutexWaitv
| FixedFdInstall
| Ftruncate
| Bind
| Listen
| EpollWait
| ReadvFixed
| WritevFixed
| Pipe.
#[export] Instance Opcode_eq_dec : EqDecision t.
Proof. solve_decision. Defined.
(* src/src/types/opcodes.rs:7-70 Opcode *)
Definition raw (x : t) : Z :=
  match x with
  | Nop => 0
  | Readv => 1
  | Writev => 2
  | Fsync => 3
  | ReadFixed => 4
  | WriteFixed => 5
  | PollAdd => 6
  | PollRemove => 7
  | SyncFileRange => 8
  | SendMsg => 9
  | RecvMsg => 10
  | Timeout => 11
  | TimeoutRemove => 12
  | Accept => 13
  | AsyncCancel => 14
  | LinkTimeout => 15
  | Connect => 16
  | Fallocate => 17
  | Openat => 18
  | Close => 19
  | FilesUpdate => 20
  | Statx => 21
  | Read => 22
  | Write => 23
  | Fadvise => 24
  | Madvise => 25
  | Send => 26
  | Recv => 27
  | Openat2 => 28
  | EpollCtl => 29
  | Splice => 30
  | ProvideBuffers => 31
  | RemoveBuffers => 32
  | Tee => 33
  | Shutdown => 34
  | Renameat => 35
  | Unlinkat => 36
  | Mkdirat => 37
  | Symlinkat => 38
  | Linkat => 39
  | MsgRing => 40
  | Fsetxattr => 41
  | Setxattr => 42
  | Fgetxattr => 43
  | Getxattr => 44
  | Socket => 45
  | UringCmd => 46
  | SendZc => 47
  | SendmsgZc => 48
  | ReadMultishot => 49
  | WaitId => 50
  | FutexWait => 51
  | FutexWake => 52
  | FutexWaitv => 53
  | FixedFdInstall => 54
  | Ftruncate => 55
  | Bind => 56
  | Listen => 57
  | EpollWait => 59
  | ReadvFixed => 60
  | WritevFixed => 61
  | Pipe => 62
  end.
End Opcode.

(** `RegisterOp` (types/opcodes.rs) and its discriminants. *)
Module RegisterOp.
(* src/src/types/opcodes.rs:87-160 RegisterOp *)
Inductive t : Set :=
| RegisterBuffers
| UnregisterBuffers
| RegisterFiles
| UnregisterFiles
| RegisterEventFd
| UnregisterEventFd
| RegisterFilesUpdate
| RegisterEventFdAsync
| RegisterProbe
| RegisterRestrictions
| RegisterEnableRings
| RegisterFiles2
| RegisterFilesUpdate2
| RegisterBuffers2
| RegisterBuffersUpdate
| RegisterIowqAff
| UnregisterIowqAff
| RegisterIowqMaxWorkers
| RegisterRingFds
| UnregisterRingFds
| RegisterPbufRing
| UnregisterPbufRing
| RegisterSyncCancel
| RegisterFileAllocRange
| RegisterPbufStatus
| RegisterNapi
| UnregisterNapi
| RegisterCloneBuffers.
#[export] Instance RegisterOp_eq_dec : EqDecision t.
Proof. solve_decision. Defined.
(* src/src/types/opcodes.rs:87-160 RegisterOp *)
Definition raw (x : t) : Z :=
  match x with
  | RegisterBuffers => 0
  | UnregisterBuffers => 1
  | RegisterFiles => 2
  | UnregisterFiles => 3
  | RegisterEventFd => 4
  | UnregisterEventFd => 5
  | RegisterFilesUpdate => 6
  | RegisterEventFdAsync => 7
  | RegisterProbe => 8
  | RegisterRestrictions => 11
  | RegisterEnableRings => 12
  | RegisterFiles2 => 13
  | RegisterFilesUpdate2 => 14
  | RegisterBuffers2 => 15
  | RegisterBuffersUpdate => 16
  | RegisterIowqAff => 17
  | UnregisterIowqAff => 18
  | RegisterIowqMaxWorkers => 19
  | RegisterRingFds => 20
  | UnregisterRingFds => 21
  | RegisterPbufRing => 22
  | UnregisterPbufRing => 23
  | RegisterSyncCancel => 24
  | RegisterFileAllocRange => 25
  | RegisterPbufStatus => 26
  | RegisterNapi => 27
  | UnregisterNapi => 28
  | RegisterCloneBuffers => 30
  end.
End RegisterOp.

(** `RingOffset` (types/opcodes.rs) and its discriminants. *)
Module RingOffset.
(* src/src/types/opcodes.rs:171-175 RingOffset *)
Inductive t : Set :=
| SqRing
| CqRing
| Sqes.
#[export] Instance RingOffset_eq_dec : EqDecision t.
Proof. solve_decision. Defined.
(* src/src/types/opcodes.rs:171-175 RingOffset *)
Definition raw (x : t) : Z :=
  match x with
  | SqRing => 0
  | CqRing => 134217728
  | Sqes => 268435456
  end.
End RingOffset.

(** `ShutdownHow` (types/net.rs) and its discriminants. *)
Module ShutdownHow.
(* src/src/types/net.rs:76-80 ShutdownHow *)
Inductive t : Set :=
| Read
| Write
| Both.
#[export] Instance ShutdownHow_eq_dec : EqDecision t.
Proof. solve_decision. Defined.
(* src/src/types/net.rs:76-80 ShutdownHow *)
Definition raw (x : t) : Z :=
  match x with
  | Read => 0
  | Write => 1
  | Both => 2
  end.
End ShutdownHow.

(** `SocketUringCmdOp` (types/socket_cmd.rs) and its discriminants. *)
Module SocketUringCmdOp.
(* src/src/types/socket_cmd.rs:26-50 SocketUringCmdOp *)
Inductive t : Set :=
| SiocInq
| SiocOutq
| GetSockOpt
| SetSockOpt
| GetSockName.
#[export] Instance SocketUringCmdOp_eq_dec : EqDecision t.
Proof. solve_decision. Defined.
(* src/src/types/socket_cmd.rs:26-50 SocketUringCmdOp *)
Definition raw (x : t) : Z :=
  match x with
  | SiocInq => 0
  | SiocOutq => 1
  | GetSockOpt => 2
  | SetSockOpt => 3
  | GetSockName => 5
  end.
End SocketUringCmdOp.

(** `EpollOp` (types/epoll.rs) and its discriminants. *)
Module EpollOp.
(* src/src/types/epoll.rs:6-10 EpollOp *)
Inductive t : Set :=
| Add
| Del
| Mod.
#[export] Instance EpollOp_eq_dec : EqDecision t.
Proof. solve_decision. Defined.
(* src/src/types/epoll.rs:6-10 EpollOp *)
Definition raw (x : t) : Z :=
  match x with
  | Add => 1
  | Del => 2
  | Mod => 3
  end.
End EpollOp.

(** `FadviseAdvice` (types/fs.rs) and its discriminants. *)
Module FadviseAdvice.
(* src/src/types/fs.rs:440-447 FadviseAdvice *)
Inductive t : Set :=
| Normal
| Random
| Sequential
| WillNeed
| DontNeed
| NoReuse.
#[export] Instance FadviseAdvice_eq_dec : EqDecision t.
Proof. solve_decision. Defined.
(* src/src/types/fs.rs:440-447 FadviseAdvice *)
Definition raw (x : t) : Z :=
  match x with
  | Normal => 0
  | Random => 1
  | Sequential => 2
  | WillNeed => 3
  | DontNeed => 4
  | NoReuse => 5
  end.
End FadviseAdvice.

(** `MadviseAdvice` (types/fs.rs) and its discriminants. *)
Module MadviseAdvice.
(* src/src/types/fs.rs:458-468 MadviseAdvice *)
Inductive t : Set :=
| Normal
| Random
| Sequential
| WillNeed
| DontNeed
| Free
| DontDump
| DoFork
| DontFork.
#[export] Instance MadviseAdvice_eq_dec : EqDecision t.
Proof. solve_decision. Defined.
(* src/src/types/fs.rs:458-468 MadviseAdvice *)
Definition raw (x : t) : Z :=
  match x with
  | Normal => 0
  | Random => 1
  | Sequential => 2
  | WillNeed => 3
  | DontNeed => 4
  | Free => 8
  | DontDump => 16
  | DoFork => 11
  | DontFork => 10
  end.
End MadviseAdvice.
