(* ===== verification/Types.v ===== *)
(** * Errors and the small value types

    The error hierarchy of `error.rs`, the file-descriptor and address types
    of `types/`, and the completion the crate hands to its callers. *)
From stdpp Require Import base numbers list option.
From Stdlib Require Import ZArith Lia.
From S2P Require Import Prelude Flags.
Local Open Scope Z_scope.
Local Open Scope rust_scope.

(** ** Errors *)
(* src/src/error.rs:8-9 Errno *)
Definition Errno : Set := Z.
(* src/src/error.rs:12-13 Errno::ENOENT *)
Definition ENOENT : Errno := 2.
(* src/src/error.rs:14-15 Errno::EAGAIN *)
Definition EAGAIN : Errno := 11.
(* src/src/error.rs:16-17 Errno::EINVAL *)
Definition EINVAL : Errno := 22.

(* src/src/error.rs:48-81 InvalidArgKind *)
Inductive InvalidArgKind : Set :=
| BufferCountZero
| BufferSizeZero
| BufferCountNotPowerOfTwo
| BufferCountTooLarge
| BufferRingSizeOverflow
| UnsupportedSetupFlags (bits : Z)
| IncompatibleSplit (bits : Z).

(* src/src/error.rs:108-114 SubmitError *)
Inductive SubmitError : Set :=
| QueueFull
| SubmitSyscall (e : Errno).

(* src/src/error.rs:126-151 CompletionError *)
Inductive CompletionError : Set :=
| NoCompletion
| Failed (e : Errno)
| UnexpectedCompletion (expected found : Z).

(* src/src/error.rs:167-173 SetupError *)
Inductive SetupError : Set :=
| InvalidArg (k : InvalidArgKind)
| SetupSyscall (e : Errno).

(* src/src/error.rs:189-200 Error *)
Inductive Error : Set :=
| Submit (e : SubmitError)
| Completion_ (e : CompletionError)
| Setup (e : SetupError)
| Syscall (e : Errno).

#[export] Instance InvalidArgKind_eq_dec : EqDecision InvalidArgKind.
Proof. solve_decision. Defined.
#[export] Instance SubmitError_eq_dec : EqDecision SubmitError.
Proof. unfold EqDecision, Errno, Decision. repeat decide equality. Defined.
#[export] Instance CompletionError_eq_dec : EqDecision CompletionError.
Proof. unfold EqDecision, Errno, Decision. repeat decide equality. Defined.
#[export] Instance SetupError_eq_dec : EqDecision SetupError.
Proof. unfold EqDecision, Errno, Decision. repeat decide equality. Defined.
#[export] Instance Error_eq_dec : EqDecision Error.
Proof. unfold EqDecision, Errno, Decision. repeat decide equality. Defined.

(** The `From` conversions `?` applies. *)
(* src/src/error.rs:219-223 From<SubmitError> *)
Definition from_submit (e : SubmitError) : Error := Submit e.
(* src/src/error.rs:229-233 From<SetupError> *)
Definition from_setup (e : SetupError) : Error := Setup e.
(* src/src/error.rs:224-228 From<CompletionError> *)
Definition from_completion (e : CompletionError) : Error := Completion_ e.
(* src/src/error.rs:235-239 From<Errno> *)
Definition from_errno (e : Errno) : Error := Syscall e.

(** `-result` on an `i32`: the negation of [i32::MIN] does not fit (a debug
    build panics there); the kernel never reports it. *)
Definition neg_i32 (r : Z) : Z := as_i32 (- r).

(* src/src/error.rs:249-258 Error::from_failed_cqe *)
Definition from_failed_cqe (result : Z) : option Error :=
  if result <? 0 then Some (Completion_ (Failed (neg_i32 result))) else None.
(* src/src/error.rs:262-265 Error::cqe_is_ok *)
Definition cqe_is_ok (result : Z) : bool := 0 <=? result.

(** ** Completions *)
(* src/src/ring/mod.rs:42-54 Completion *)
Record Completion : Set := mkCompletion {
  c_user_data : Z;
  c_result : Z;
  c_flags : Z
}.
#[export] Instance Completion_eq_dec : EqDecision Completion.
Proof. solve_decision. Defined.

(* src/src/ring/mod.rs:72-81 Completion::into_result *)
Definition into_result (c : Completion) : result Z Error :=
  if c_result c <? 0
  then Err (Completion_ (Failed (neg_i32 (c_result c))))
  else Ok (as_u32 (c_result c)).
(* src/src/ring/mod.rs:85-87 Completion::is_err *)
Definition is_err (c : Completion) : bool := c_result c <? 0.
(* src/src/types/sqe_cqe.rs:212-219 CqeFlags::buffer_id *)
Definition cqe_buffer_id (flags : Z) : option Z :=
  if contains flags CqeFlags.BUFFER then Some (as_u16 (flags >>> 16)) else None.
(* src/src/ring/mod.rs:95-102 Completion::buffer_id *)
Definition buffer_id (c : Completion) : option Z :=
  if contains (c_flags c) CqeFlags.BUFFER
  then Some (as_u16 (c_flags c >>> 16)) else None.

(** ** Descriptors and addresses *)
Module RawFd.
(** A raw fd is the `usize` the syscall returned. *)
(* src/src/types/buffers.rs:107-111 RawFd::as_i32 *)
Definition as_i32 (fd : Z) : Z := as_signed 32 fd.
End RawFd.

Module DirFd.
(* src/src/types/fs.rs:33-34 AT_FDCWD *)
Definition AT_FDCWD : Z := -100.
(* src/src/types/fs.rs:40-46 DirFd *)
Inductive t : Set :=
| Cwd
| Fd (fd : Z).
(* src/src/types/fs.rs:50-56 DirFd::as_raw *)
Definition as_raw (d : t) : Z :=
  match d with Cwd => AT_FDCWD | Fd fd => RawFd.as_i32 fd end.
End DirFd.

Module AddressFamily.
(* src/src/types/net.rs:16-23 AddressFamily *)
Inductive t : Set := Inet | Inet6.
(* src/src/types/net.rs:25-31 AddressFamily::as_raw *)
Definition as_raw (a : t) : Z := match a with Inet => 2 | Inet6 => 10 end.
End AddressFamily.

Module SocketType.
(* src/src/types/net.rs:34-41 SocketType *)
Inductive t : Set := Stream | Dgram.
(* src/src/types/net.rs:45-48 SocketType::as_raw *)
Definition as_raw (a : t) : Z := match a with Stream => 1 | Dgram => 2 end.
(* src/src/types/net.rs:66-70 SocketType::with_flags *)
Definition with_flags (self : t) (flags : Z) : Z := as_u32 (as_raw self) ||| flags.
End SocketType.

Module IdType.
(* src/src/types/waitid.rs:27-38 IdType *)
Inductive t : Set := All | Pid | Pgid | PidFd.
(* src/src/types/waitid.rs:40-46 IdType::as_raw *)
Definition as_raw (i : t) : Z :=
  match i with All => 0 | Pid => 1 | Pgid => 2 | PidFd => 3 end.
End IdType.

(* src/src/types/sendrecv.rs:32-78 SendRecvFlag *)
Inductive SendRecvFlag : Set :=
| PollFirst
| FixedBuf (idx : Z)
| ReportUsage
| Bundle
| Vectorized.
(* src/src/types/sendrecv.rs:94-115 AcceptModifier *)
Inductive AcceptModifier : Set :=
| AcceptDontWait
| AcceptPollFirst.

(* src/src/types/sendrecv.rs:7-7 IORING_ACCEPT_MULTISHOT *)
Definition IORING_ACCEPT_MULTISHOT : Z := 1 <<< 0.
(* src/src/types/sendrecv.rs:10-10 IORING_ACCEPT_DONTWAIT *)
Definition IORING_ACCEPT_DONTWAIT : Z := 1 <<< 1.
(* src/src/types/sendrecv.rs:11-11 IORING_ACCEPT_POLL_FIRST *)
Definition IORING_ACCEPT_POLL_FIRST : Z := 1 <<< 2.
(* src/src/types/sendrecv.rs:16-16 IORING_RECV_MULTISHOT *)
Definition IORING_RECV_MULTISHOT : Z := 1 <<< 1.
(* src/src/types/sendrecv.rs:20-20 IORING_RECVSEND_POLL_FIRST *)
Definition IORING_RECVSEND_POLL_FIRST : Z := 1 <<< 0.
(* src/src/types/sendrecv.rs:21-21 IORING_RECVSEND_FIXED_BUF *)
Definition IORING_RECVSEND_FIXED_BUF : Z := 1 <<< 1.
(* src/src/types/sendrecv.rs:22-22 IORING_SEND_ZC_REPORT_USAGE *)
Definition IORING_SEND_ZC_REPORT_USAGE : Z := 1 <<< 3.
(* src/src/types/sendrecv.rs:23-23 IORING_RECVSEND_BUNDLE *)
Definition IORING_RECVSEND_BUNDLE : Z := 1 <<< 4.
(* src/src/types/sendrecv.rs:24-24 IORING_SEND_VECTORIZED *)
Definition IORING_SEND_VECTORIZED : Z := 1 <<< 5.

(** A borrowed slice is its address and its length. *)
Record Slice : Set := mkSlice { slice_ptr : Z; slice_len : Z }.

(** ** Ranges *)
Lemma as_signed_range w z : 0 < w -> in_i w (as_signed w z).
Proof.
  intros Hw. unfold as_signed, in_i.
  pose proof (wrap_range w z ltac:(lia)).
  assert (2 ^ w = 2 * 2 ^ (w - 1)) as Hp
    by (rewrite <- Z.pow_succ_r by lia; f_equal; lia).
  destruct (Z.ltb_spec (wrap w z) (2 ^ (w - 1))); lia.
Qed.

Lemma as_signed_small w z : 0 < w -> in_i w z -> as_signed w z = z.
Proof.
  intros Hw [Hl Hh]. unfold as_signed, wrap.
  assert (2 ^ w = 2 * 2 ^ (w - 1)) as Hp
    by (rewrite <- Z.pow_succ_r by lia; f_equal; lia).
  destruct (Z_le_gt_dec 0 z) as [Hz|Hz].
  - rewrite Z.mod_small by lia. destruct (Z.ltb_spec z (2 ^ (w - 1))); lia.
  - rewrite <- (Z_mod_plus_full z 1), Z.mod_small by lia.
    destruct (Z.ltb_spec (z + 1 * 2 ^ w) (2 ^ (w - 1))); lia.
Qed.

Lemma as_signed_wrap w z : 0 <= w -> as_signed w (wrap w z) = as_signed w z.
Proof. intros. unfold as_signed. by rewrite wrap_wrap. Qed.

Lemma wrap_as_signed w z : 0 <= w -> wrap w (as_signed w z) = wrap w z.
Proof.
  intros Hw. unfold as_signed. destruct (_ <? _); [apply wrap_wrap|].
  unfold wrap. rewrite <- (Z_mod_plus_full _ 1). rewrite Z.mul_1_l, Z.sub_add.
  apply Zmod_mod.
Qed.

#[export] Hint Resolve as_signed_range wrap_range : rust.

Lemma into_result_ok c :
  in_i 32 (c_result c) -> 0 <= c_result c -> into_result c = Ok (c_result c).
Proof.
  intros Hi H. unfold into_result. destruct (Z.ltb_spec (c_result c) 0); [lia|].
  rewrite wrap_small; [done|]. unfold in_i, in_u in *. change (2 ^ (32 - 1)) with 2147483648 in Hi. 
  change (2 ^ 32) with 4294967296. lia.
Qed.

Lemma neg_i32_exact r : in_i 32 r -> r <> - 2 ^ 31 -> neg_i32 r = - r.
Proof.
  intros [H1 H2] Hn. unfold neg_i32. apply as_signed_small; [lia|].
  unfold in_i. change (32 - 1) with 31 in *. lia.
Qed.
