(* ===== verification/RingIndex.v ===== *)
(** * The index arithmetic of a power-of-two ring

    The submission ring, the completion ring and the provided-buffer ring all
    address a slot array by [index & mask] with indices that run modulo
    [2 ^ 32].  This file holds the window of a ring, the list of the elements
    between two indices, and the lemmas that make `push` an append and `pop`
    a head removal. *)
From stdpp Require Import base numbers list option.
From Stdlib Require Import ZArith Lia.
From S2P Require Import Prelude.
Local Open Scope Z_scope.
Local Open Scope rust_scope.

(** `(index & mask) as usize` *)
Definition slot (mask i : Z) : nat := Z.to_nat (i &&& mask).

(** The elements at indices [head, head + 1, ..., head + n - 1]. *)
Definition window {A} `{Inhabited A} (arr : list A) (mask head : Z) (n : nat) : list A :=
  (fun i : nat => arr !!! slot mask (wrap 32 (head + Z.of_nat i))) <$> seq 0 n.

(** A mask over a power of two and an array of exactly that many slots. *)
Definition ring_shape {A} (arr : list A) (mask : Z) : Prop :=
  exists k : Z, 0 <= k < 32 /\ mask + 1 = 2 ^ k /\ Z.of_nat (length arr) = 2 ^ k.

Section Window.
  Context {A : Type} `{Inhabited A}.
  Implicit Types (arr : list A) (mask head : Z).

Lemma ring_shape_cap arr mask :
  ring_shape arr mask -> 1 <= mask + 1 <= 2 ^ 31 /\ Z.of_nat (length arr) = mask + 1.
Proof.
  intros (k & Hk & -> & ->). split; [|done].
  assert (2 ^ 0 <= 2 ^ k <= 2 ^ 31); [|by rewrite <- Z.pow_0_r with 2].
  split; apply Z.pow_le_mono_r; lia.
Qed.

Lemma slot_mod arr mask i :
  ring_shape arr mask -> slot mask i = Z.to_nat (i mod (mask + 1)).
Proof.
  intros (k & Hk & Hm & _). unfold slot. f_equal.
  replace mask with (2 ^ k - 1) by lia. rewrite land_mask_mod by lia.
  by replace (2 ^ k - 1 + 1) with (2 ^ k) by lia.
Qed.

(** The slot written or read is inside the array: no out-of-bounds access. *)
Lemma slot_in_bounds arr mask i :
  ring_shape arr mask -> (slot mask i < length arr)%nat.
Proof.
  intros Hr. rewrite (slot_mod arr) by done.
  destruct (ring_shape_cap _ _ Hr) as [? Hl].
  pose proof (Z.mod_pos_bound i (mask + 1) ltac:(lia)). lia.
Qed.

(** Wrapping an index to 32 bits does not move its slot. *)
Lemma slot_wrap arr mask i : ring_shape arr mask -> slot mask (wrap 32 i) = slot mask i.
Proof.
  intros Hr. rewrite !(slot_mod arr) by done.
  destruct Hr as (k & Hk & -> & _). f_equal. fold (wrap k i) (wrap k (wrap 32 i)).
  apply wrap_narrow. lia.
Qed.

(** Indices less than a capacity apart have distinct slots. *)
Lemma slot_inj arr mask h i j :
  ring_shape arr mask -> 0 <= i < mask + 1 -> 0 <= j < mask + 1 ->
  slot mask (h + i) = slot mask (h + j) -> i = j.
Proof.
  intros Hr Hi Hj. rewrite !(slot_mod arr) by done. intros Heq.
  destruct (ring_shape_cap _ _ Hr) as [Hc _].
  assert ((h + i) mod (mask + 1) = (h + j) mod (mask + 1)) as Hm.
  { pose proof (Z.mod_pos_bound (h + i) (mask + 1) ltac:(lia)).
    pose proof (Z.mod_pos_bound (h + j) (mask + 1) ltac:(lia)). lia. }
  assert ((i - j) mod (mask + 1) = 0) as Hd.
  { replace (i - j) with ((h + i) - (h + j)) by lia.
    rewrite Zminus_mod, Hm, Z.sub_diag. apply Z.mod_0_l. lia. }
  apply Z.mod_divide in Hd as [q Hq]; [|lia].
  clear -Hi Hj Hq Hc. assert (q = 0); [|nia].
  destruct (Z.lt_trichotomy q 0) as [?|[?|?]]; nia.
Qed.

Lemma window_length arr mask head n : length (window arr mask head n) = n.
Proof. unfold window. by rewrite length_fmap, length_seq. Qed.

Lemma window_lookup arr mask head n i :
  (i < n)%nat ->
  window arr mask head n !! i = Some (arr !!! slot mask (wrap 32 (head + Z.of_nat i))).
Proof.
  intros Hi. unfold window. rewrite list_lookup_fmap, lookup_seq_lt by done. done.
Qed.

Lemma window_S arr mask head n :
  window arr mask head (S n) =
  window arr mask head n ++ [arr !!! slot mask (wrap 32 (head + Z.of_nat n))].
Proof. unfold window. by rewrite seq_S, fmap_app. Qed.

Lemma window_cons arr mask head n :
  window arr mask head (S n) =
  arr !!! slot mask (wrap 32 head) :: window arr mask (wrap 32 (head + 1)) n.
Proof.
  unfold window. cbn [seq fmap list_fmap]. rewrite fmap_seq_shift.
  f_equal; [by rewrite Z.add_0_r|].
  apply list_fmap_ext. intros i x _. do 2 f_equal. rewrite wrap_add_l. f_equal. lia.
Qed.

Lemma window_app arr mask head n m :
  window arr mask head (n + m) =
  window arr mask head n ++ window arr mask (wrap 32 (head + Z.of_nat n)) m.
Proof.
  induction m as [|m IH]; [by rewrite Nat.add_0_r, app_nil_r|].
  rewrite Nat.add_succ_r, !window_S, IH, <- app_assoc. do 5 f_equal.
  rewrite wrap_add_l. f_equal. lia.
Qed.

Lemma window_head_wrap arr mask head n :
  window arr mask (wrap 32 head) n = window arr mask head n.
Proof. unfold window. apply list_fmap_ext. intros i x _. by rewrite wrap_add_l. Qed.

(** A write outside the window leaves it unchanged. *)
Lemma window_insert_ne arr mask head n j (x : A) :
  ring_shape arr mask -> Z.of_nat n <= j < mask + 1 ->
  window (<[slot mask (wrap 32 (head + j)) := x]> arr) mask head n = window arr mask head n.
Proof.
  intros Hr Hj. unfold window. apply list_fmap_ext. intros i y [-> Hi]%lookup_seq.
  rewrite list_lookup_total_insert_ne; [done|].
  rewrite !(slot_wrap arr) by done. intros Heq. apply (slot_inj arr) in Heq; lia || done.
Qed.

(** `push`: writing the slot after the window appends to it. *)
Lemma window_push arr mask head n (x : A) :
  ring_shape arr mask -> Z.of_nat n < mask + 1 ->
  window (<[slot mask (wrap 32 (head + Z.of_nat n)) := x]> arr) mask head (S n) =
  window arr mask head n ++ [x].
Proof.
  intros Hr Hn. rewrite window_S, window_insert_ne by (done || lia).
  rewrite list_lookup_total_insert_eq; [done|]. by apply slot_in_bounds.
Qed.

(** Writing a list of elements after the window, slot by slot. *)
Fixpoint window_write (arr : list A) (mask i : Z) (xs : list A) : list A :=
  match xs with
  | [] => arr
  | x :: xs => window_write (<[slot mask (wrap 32 i) := x]> arr) mask (i + 1) xs
  end.

Lemma window_write_shape arr mask i xs :
  ring_shape arr mask -> ring_shape (window_write arr mask i xs) mask.
Proof.
  revert arr i. induction xs as [|x xs IH]; intros arr i Hr; [done|]. apply IH.
  destruct Hr as (k & ? & ? & ?). exists k. by rewrite length_insert.
Qed.

Lemma window_write_push arr mask head n xs :
  ring_shape arr mask -> Z.of_nat n + Z.of_nat (length xs) <= mask + 1 ->
  window (window_write arr mask (head + Z.of_nat n) xs) mask head (n + length xs) =
  window arr mask head n ++ xs.
Proof.
  revert arr n. induction xs as [|x xs IH]; intros arr n Hr Hn.
  - by rewrite Nat.add_0_r, app_nil_r.
  - cbn [length window_write] in *. rewrite Nat.add_succ_r, <- Nat.add_succ_l.
    replace (head + Z.of_nat n + 1) with (head + Z.of_nat (S n)) by lia.
    rewrite IH; [|destruct Hr as (k & ? & ? & ?); exists k; by rewrite length_insert|lia].
    rewrite window_push by (done || lia). by rewrite <- app_assoc.
Qed.

Lemma window_take arr mask head n k :
  (k <= n)%nat -> take k (window arr mask head n) = window arr mask head k.
Proof.
  intros Hk. replace n with (k + (n - k))%nat by lia. rewrite window_app.
  apply take_app_length'. by rewrite window_length.
Qed.

Lemma window_drop arr mask head n k :
  (k <= n)%nat ->
  drop k (window arr mask head n) = window arr mask (wrap 32 (head + Z.of_nat k)) (n - k).
Proof.
  intros Hk. replace n with (k + (n - k))%nat at 1 by lia. rewrite window_app.
  apply drop_app_length'. by rewrite window_length.
Qed.

Lemma window_write_length arr mask i xs : length (window_write arr mask i xs) = length arr.
Proof.
  revert arr i. induction xs as [|x xs IH]; intros arr i; [done|]. cbn. rewrite IH.
  apply length_insert.
Qed.

(** A run of writes after a window leaves it alone. *)
Lemma window_write_ne arr mask head n j xs :
  ring_shape arr mask -> Z.of_nat n <= j -> j + Z.of_nat (length xs) <= mask + 1 ->
  window (window_write arr mask (head + j) xs) mask head n = window arr mask head n.
Proof.
  revert arr j. induction xs as [|x xs IH]; intros arr j Hr Hj Hl; [done|].
  cbn [window_write length] in *. replace (head + j + 1) with (head + (j + 1)) by lia.
  rewrite IH by (try lia; destruct Hr as (k & ? & ? & ?); exists k; by rewrite length_insert).
  by rewrite window_insert_ne by (done || lia).
Qed.

Lemma window_write_wrap arr mask i xs :
  window_write arr mask (wrap 32 i) xs = window_write arr mask i xs.
Proof.
  revert arr i. induction xs as [|x xs IH]; intros arr i; [done|]. cbn.
  rewrite wrap_wrap. rewrite <- (IH _ (wrap 32 i + 1)), wrap_add_l. apply IH.
Qed.

Lemma ring_shape_insert arr mask i (x : A) :
  ring_shape arr mask -> ring_shape (<[i := x]> arr) mask.
Proof. intros (k & ? & ? & ?). exists k. by rewrite length_insert. Qed.
End Window.

#[export] Hint Resolve ring_shape_insert window_write_shape : rust.
