(* ===== verification/UserMem.v ===== *)
(** * User memory and the structures the kernel reads from it

    The bytes of the process, and the `repr(C)` structures that requests publish
    in storage they own or the kernel fills in.  A structure is laid
    out by [pack], the little-endian image of its fields in order, padding
    included. *)
From stdpp Require Import base numbers list option.
From Stdlib Require Import ZArith Lia.
From S2P Require Import Prelude Flags Types.
Local Open Scope Z_scope.
Local Open Scope rust_scope.

(** ** Bytes *)
Definition UMem : Set := Z -> Z.
Definition read_bytes (a : Z) (n : nat) (m : UMem) : list Z :=
  (fun i => m (a + Z.of_nat i)) <$> seq 0 n.
Definition write_bytes (a : Z) (bs : list Z) (m : UMem) : UMem := fun x =>
  if (a <=? x) && (x <? a + Z.of_nat (length bs)) then nth (Z.to_nat (x - a)) bs 0 else m x.

(** Two ranges that do not meet, and a write that stays within one. *)
Definition apart (a n b k : Z) : Prop := a + n <= b \/ b + k <= a.
Definition only_within (a n : Z) (m m' : UMem) : Prop :=
  forall x, x < a \/ a + n <= x -> m' x = m x.

Lemma read_bytes_length a n m : length (read_bytes a n m) = n.
Proof. unfold read_bytes. by rewrite length_fmap, length_seq. Qed.

Lemma read_bytes_ext a n m m' :
  (forall x, a <= x < a + Z.of_nat n -> m' x = m x) -> read_bytes a n m' = read_bytes a n m.
Proof.
  intros H. apply list_fmap_ext. intros i j Hj. apply H.
  apply lookup_seq in Hj. lia.
Qed.

Lemma read_bytes_app a n k m :
  read_bytes a (n + k) m = read_bytes a n m ++ read_bytes (a + Z.of_nat n) k m.
Proof.
  unfold read_bytes. rewrite seq_app, fmap_app. f_equal. cbn [Nat.add].
  rewrite <- (Nat.add_0_r n) at 1. rewrite <- fmap_add_seq, <- list_fmap_compose.
  apply list_fmap_ext. intros i j _. unfold compose. f_equal. lia.
Qed.

Lemma read_write_same a bs m : read_bytes a (length bs) (write_bytes a bs m) = bs.
Proof.
  apply list_eq. intros i. unfold read_bytes. rewrite list_lookup_fmap.
  destruct (decide (i < length bs)%nat) as [Hi|Hi].
  - rewrite lookup_seq_lt by done. cbn. unfold write_bytes.
    destruct (Z.leb_spec a (a + Z.of_nat i)); [|lia].
    destruct (Z.ltb_spec (a + Z.of_nat i) (a + Z.of_nat (length bs))); [|lia]. cbn.
    replace (Z.to_nat (a + Z.of_nat i - a)) with i by lia.
    rewrite nth_lookup. by destruct (lookup_lt_is_Some_2 bs i Hi) as [x ->].
  - rewrite lookup_seq_ge by lia. cbn. symmetry. apply lookup_ge_None. lia.
Qed.

Lemma write_bytes_within a bs m : only_within a (Z.of_nat (length bs)) m (write_bytes a bs m).
Proof.
  intros x Hx. unfold write_bytes.
  destruct (Z.leb_spec a x), (Z.ltb_spec x (a + Z.of_nat (length bs))); cbn; done || lia.
Qed.

Lemma only_within_weaken a n b k m m' :
  b <= a -> a + n <= b + k -> only_within a n m m' -> only_within b k m m'.
Proof. intros H1 H2 H x Hx. apply H. lia. Qed.
Lemma only_within_refl a n m : only_within a n m m.
Proof. by intros x _. Qed.
Lemma only_within_trans a n m1 m2 m3 :
  only_within a n m1 m2 -> only_within a n m2 m3 -> only_within a n m1 m3.
Proof. intros H1 H2 x Hx. by rewrite (H2 x Hx), (H1 x Hx). Qed.

Lemma read_bytes_apart a n b k m m' :
  only_within b k m m' -> apart a (Z.of_nat n) b k -> read_bytes a n m' = read_bytes a n m.
Proof. intros Hw Ha. apply read_bytes_ext. intros x Hx. apply Hw. destruct Ha; lia. Qed.

(** ** Structures *)
(** Fields in order, each with its width in bytes. *)
Fixpoint pack (ws : list nat) (vs : list Z) : list Z :=
  match ws, vs with
  | w :: ws, v :: vs => le_split w v ++ pack ws vs
  | _, _ => []
  end.
Fixpoint unpack (ws : list nat) (bs : list Z) : list Z :=
  match ws with
  | [] => []
  | w :: ws => le_combine (take w bs) :: unpack ws (drop w bs)
  end.

Lemma pack_length ws vs : length vs = length ws -> length (pack ws vs) = sum_list ws.
Proof.
  revert vs. induction ws as [|w ws IH]; intros [|v vs] H; try done.
  cbn. rewrite length_app, le_split_length, IH; [done|]. by injection H.
Qed.

Lemma unpack_pack ws : forall vs rest, length vs = length ws ->
  unpack ws (pack ws vs ++ rest) = zip_with (fun w v => wrap (8 * Z.of_nat w) v) ws vs.
Proof.
  induction ws as [|w ws IH]; intros [|v vs] rest H; try done. cbn [pack unpack zip_with].
  rewrite <- app_assoc, take_app_length', drop_app_length' by (by rewrite le_split_length).
  rewrite le_combine_split, IH; [done|]. by injection H.
Qed.

(** A type the kernel reads or writes as bytes.  [repr_ok] bounds its fields. *)
Class Repr (T : Type) := {
  size_of : nat;
  align_of : Z;
  to_mem : T -> list Z;
  of_mem : list Z -> T;
  repr_ok : T -> Prop
}.
Arguments size_of T {_}. Arguments align_of T {_}.
Class ReprLaws (T : Type) `{Repr T} := {
  to_mem_length (x : T) : length (to_mem x) = size_of T;
  of_to_mem (x : T) : repr_ok x -> of_mem (to_mem x) = x
}.

Definition ptr_write {T} `{Repr T} (a : Z) (x : T) (m : UMem) : UMem := write_bytes a (to_mem x) m.
Definition ptr_read {T} `{Repr T} (a : Z) (m : UMem) : T := of_mem (read_bytes a (size_of T) m).
Definition is_multiple_of (a n : Z) : bool := a mod n =? 0.

Section Repr.
  Context {T : Type} `{ReprLaws T}.
Lemma ptr_write_within a (x : T) m : only_within a (Z.of_nat (size_of T)) m (ptr_write a x m).
Proof. unfold ptr_write. rewrite <- (to_mem_length x). apply write_bytes_within. Qed.

Lemma ptr_read_write a (x : T) m : repr_ok x -> ptr_read a (ptr_write a x m) = x.
Proof.
  intros Hok. unfold ptr_read, ptr_write. rewrite <- (to_mem_length x), read_write_same.
  by apply of_to_mem.
Qed.

Lemma ptr_read_apart a b k m m' :
  only_within b k m m' -> apart a (Z.of_nat (size_of T)) b k -> ptr_read (T := T) a m' = ptr_read a m.
Proof. intros Hw Ha. unfold ptr_read. by rewrite (read_bytes_apart _ _ _ _ _ _ Hw Ha). Qed.

(** Element by element, as the loops over `addr.add(i)` write and read. *)
Fixpoint write_array (a : Z) (xs : list T) (m : UMem) : UMem :=
  match xs with
  | [] => m
  | x :: xs => write_array (a + Z.of_nat (size_of T)) xs (ptr_write a x m)
  end.
Fixpoint read_array (a : Z) (n : nat) (m : UMem) : list T :=
  match n with
  | O => []
  | S n => ptr_read a m :: read_array (a + Z.of_nat (size_of T)) n m
  end.

Lemma write_array_within xs : forall a m,
  only_within a (Z.of_nat (size_of T * length xs)) m (write_array a xs m).
Proof.
  induction xs as [|x xs IH]; intros a m; cbn [write_array length]; [apply only_within_refl|].
  eapply only_within_trans.
  - apply (only_within_weaken a (Z.of_nat (size_of T))); [lia|nia|apply ptr_write_within].
  - apply (only_within_weaken (a + Z.of_nat (size_of T)) (Z.of_nat (size_of T * length xs)));
      [lia|nia|apply IH].
Qed.

Lemma read_array_apart n : forall a b k m m',
  only_within b k m m' -> apart a (Z.of_nat (size_of T * n)) b k ->
  read_array a n m' = read_array a n m.
Proof.
  induction n as [|n IH]; intros a b k m m' Hw Ha; [done|]. cbn [read_array].
  rewrite (ptr_read_apart a b k m m' Hw) by (unfold apart in *; lia).
  rewrite (IH _ b k m m' Hw); [done|]. unfold apart in *. lia.
Qed.

Lemma read_write_array xs : forall a m,
  Forall repr_ok xs -> read_array a (length xs) (write_array a xs m) = xs.
Proof.
  induction xs as [|x xs IH]; intros a m Hok; [done|].
  inversion_clear Hok as [|? ? Hx Hxs]. cbn [length read_array write_array].
  rewrite (IH _ _ Hxs). f_equal.
  rewrite (ptr_read_apart a _ _ _ _ (write_array_within xs _ _)) by (unfold apart; lia).
  by apply ptr_read_write.
Qed.
End Repr.

Lemma unpack_exact ws vs :
  Forall2 (fun w v => in_u (8 * Z.of_nat w) v) ws vs -> unpack ws (pack ws vs) = vs.
Proof.
  intros H. rewrite <- (app_nil_r (pack ws vs)), unpack_pack
    by (symmetry; by eapply Forall2_length).
  induction H as [|w v ws vs Hv _ IH]; cbn [zip_with]; [done|].
  by rewrite IH, wrap_small.
Qed.

(** Discharges the field bounds of [unpack_exact]. *)
Ltac fields :=
  repeat first [ apply Forall2_nil_2 | apply Forall2_cons_2 ];
  try first [ assumption | exact (conj (Z.le_refl 0) eq_refl) | by apply wrap_range ].

(** `sin_zero`, eight bytes, is their little-endian word. *)
(* src/src/types/net.rs:166-173 SockAddrIn *)
Record SockAddrIn : Set := mkSockAddrIn {
  sin_family : Z; sin_port : Z; sin_addr : Z; sin_zero : Z
}.
(** The derived `Default`. *)
Definition sockaddr_default : SockAddrIn := mkSockAddrIn 0 0 0 0.
(* src/src/types/net.rs:177-183 SockAddrIn::to_bytes *)
Definition to_bytes (self : SockAddrIn) : list Z :=
  let buf := replicate 16 0 in
  let buf := le_split 2 (sin_family self) ++ drop 2 buf in
  let buf := take 2 buf ++ le_split 2 (sin_port self) ++ drop 4 buf in
  take 4 buf ++ le_split 4 (sin_addr self) ++ drop 8 buf.
#[export] Instance sockaddr_repr : Repr SockAddrIn := {
  size_of := 16;
  align_of := 4;
  to_mem a := pack [2; 2; 4; 8]%nat [sin_family a; sin_port a; sin_addr a; sin_zero a];
  of_mem bs := match unpack [2; 2; 4; 8]%nat bs with
               | [f; p; a; z] => mkSockAddrIn f p a z
               | _ => sockaddr_default
               end;
  repr_ok a := in_u 16 (sin_family a) /\ in_u 16 (sin_port a) /\ in_u 32 (sin_addr a) /\
               in_u 64 (sin_zero a)
}.

(* src/src/types/buffers.rs:130-135 IoVec *)
Record IoVec : Set := mkIoVec { iov_base : Z; iov_len : Z }.
(* src/src/types/net.rs:194-204 MsgHdr *)
Record MsgHdr : Set := mkMsgHdr {
  msg_name : Z; msg_namelen : Z; msg_iov : Z; msg_iovlen : Z; msg_control : Z;
  msg_controllen : Z; msg_flags : Z
}.
(* src/src/types/net.rs:216-221 MsgHdr::default *)
Definition msghdr_default : MsgHdr := mkMsgHdr 0 0 0 0 0 0 0.

Section Pointers.
  Context {PW : PtrWidth}.
(** The bytes of a pointer. *)
Definition ptr_bytes : nat := Z.to_nat (usize_bits / 8).
#[export] Instance iovec_repr : Repr IoVec := {
  size_of := 2 * ptr_bytes;
  align_of := usize_bits / 8;
  to_mem v := pack [ptr_bytes; ptr_bytes] [iov_base v; iov_len v];
  of_mem bs := match unpack [ptr_bytes; ptr_bytes] bs with
               | [b; l] => mkIoVec b l
               | _ => mkIoVec 0 0
               end;
  repr_ok v := in_u usize_bits (iov_base v) /\ in_u usize_bits (iov_len v)
}.
(** The two 32-bit members are each padded out to a pointer. *)
Definition msghdr_widths : list nat :=
  [ptr_bytes; 4; ptr_bytes - 4; ptr_bytes; ptr_bytes; ptr_bytes; ptr_bytes; 4; ptr_bytes - 4]%nat.
#[export] Instance msghdr_repr : Repr MsgHdr := {
  size_of := 7 * ptr_bytes;
  align_of := usize_bits / 8;
  to_mem h := pack msghdr_widths
    [msg_name h; msg_namelen h; 0; msg_iov h; msg_iovlen h; msg_control h; msg_controllen h;
     as_u32 (msg_flags h); 0];
  of_mem bs := match unpack msghdr_widths bs with
               | [n; nl; _; v; vl; c; cl; f; _] => mkMsgHdr n nl v vl c cl (as_i32 f)
               | _ => msghdr_default
               end;
  repr_ok h := in_u usize_bits (msg_name h) /\ in_u 32 (msg_namelen h) /\
    in_u usize_bits (msg_iov h) /\ in_u usize_bits (msg_iovlen h) /\
    in_u usize_bits (msg_control h) /\ in_u usize_bits (msg_controllen h) /\ in_i 32 (msg_flags h)
}.

Lemma ptr_bytes_cases :
  ptr_bytes = 4%nat /\ usize_bits = 32 \/ ptr_bytes = 8%nat /\ usize_bits = 64.
Proof. unfold ptr_bytes. destruct usize_cases as [-> | ->]; [by left|by right]. Qed.

#[export] Instance iovec_laws : ReprLaws IoVec.
Proof.
  split.
  - intros []. cbn [to_mem iovec_repr]. rewrite pack_length by done. cbn. lia.
  - intros [b l] [Hb Hl]. cbn [to_mem of_mem iovec_repr iov_base iov_len] in *.
    rewrite unpack_exact; [done|].
    destruct ptr_bytes_cases as [[-> E]|[-> E]]; rewrite E in *; fields.
Qed.
#[export] Instance msghdr_laws : ReprLaws MsgHdr.
Proof.
  split.
  - intros []. cbn [to_mem size_of msghdr_repr]. rewrite pack_length by done.
    unfold msghdr_widths. destruct ptr_bytes_cases as [[-> _]|[-> _]]; done.
  - intros [n nl v vl c cl f] (? & ? & ? & ? & ? & ? & Hf).
    cbn [to_mem of_mem msghdr_repr msg_name msg_namelen msg_iov msg_iovlen msg_control
         msg_controllen msg_flags] in *.
    rewrite unpack_exact.
    + rewrite as_signed_wrap, as_signed_small by done. done.
    + unfold msghdr_widths. destruct ptr_bytes_cases as [[-> E]|[-> E]]; rewrite E in *; fields.
Qed.
End Pointers.
#[export] Existing Instances iovec_repr msghdr_repr iovec_laws msghdr_laws.

#[export] Instance sockaddr_laws : ReprLaws SockAddrIn.
Proof.
  split; [by intros []|]. intros [f p a z] (? & ? & ? & ?). cbn [to_mem of_mem sockaddr_repr] in *.
  rewrite unpack_exact by fields. done.
Qed.
(** `to_bytes` is the structure's image with the trailing bytes cleared. *)
Lemma to_bytes_spec a :
  to_bytes a = to_mem (mkSockAddrIn (sin_family a) (sin_port a) (sin_addr a) 0).
Proof. reflexivity. Qed.

(** ** Times, events, futexes, open_how *)
(* src/src/types/timeout.rs:8-13 Timespec *)
Record Timespec : Set := mkTimespec { tv_sec : Z; tv_nsec : Z }.
(** [Timespec::new] panics outside the range of nanoseconds: [None]. *)
(* src/src/types/timeout.rs:22-31 Timespec::new *)
Definition timespec_new (sec nsec : Z) : option Timespec :=
  if (0 <=? nsec) && (nsec <? 1000000000) then Some (mkTimespec sec nsec) else None.
(* src/src/types/timeout.rs:36-38 Timespec::from_millis *)
Definition from_millis (ms : Z) : option Timespec :=
  timespec_new (as_i64 (ms / 1000)) (as_i64 ((ms mod 1000) * 1000000)).
#[export] Instance timespec_repr : Repr Timespec := {
  size_of := 16;
  align_of := 8;
  to_mem t := pack [8; 8]%nat [as_u64 (tv_sec t); as_u64 (tv_nsec t)];
  of_mem bs := match unpack [8; 8]%nat bs with
               | [s; n] => mkTimespec (as_i64 s) (as_i64 n)
               | _ => mkTimespec 0 0
               end;
  repr_ok t := in_i 64 (tv_sec t) /\ in_i 64 (tv_nsec t)
}.
#[export] Instance timespec_laws : ReprLaws Timespec.
Proof.
  split; [by intros []|]. intros [s n] [? ?]. cbn [to_mem of_mem timespec_repr tv_sec tv_nsec] in *.
  rewrite unpack_exact by fields. by rewrite !as_signed_wrap, !as_signed_small by done.
Qed.

(** `epoll_event` is packed on x86_64 and padded elsewhere. *)
Class TargetArch := { epoll_packed : bool }.
#[export] Instance x86_64 : TargetArch | 10 := { epoll_packed := true }.
(* src/src/types/epoll.rs:40-47 EpollEvent *)
Record EpollEvent : Set := mkEpollEvent { ee_events : Z; ee_data : Z }.
Section Arch.
  Context {TA : TargetArch}.
(** The padding between the members. *)
Definition epoll_pad : nat := if epoll_packed then 0%nat else 4%nat.
#[export] Instance epoll_repr : Repr EpollEvent := {
  size_of := 12 + epoll_pad;
  align_of := if epoll_packed then 1 else 8;
  to_mem e := pack [4; epoll_pad; 8]%nat [ee_events e; 0; ee_data e];
  of_mem bs := match unpack [4; epoll_pad; 8]%nat bs with
               | [e; _; d] => mkEpollEvent e d
               | _ => mkEpollEvent 0 0
               end;
  repr_ok e := in_u 32 (ee_events e) /\ in_u 64 (ee_data e)
}.
#[export] Instance epoll_laws : ReprLaws EpollEvent.
Proof.
  split.
  - intros []. cbn [to_mem size_of epoll_repr]. rewrite pack_length by done. cbn. lia.
  - intros [e d] [? ?]. cbn [to_mem of_mem epoll_repr ee_events ee_data] in *.
    rewrite unpack_exact; [done|]. unfold epoll_pad. destruct epoll_packed; fields.
Qed.
End Arch.
#[export] Existing Instances epoll_repr epoll_laws.

(* src/src/types/futex.rs:45-52 FutexWaitv *)
Record FutexWaitv : Set := mkFutexWaitv { fw_val : Z; fw_uaddr : Z; fw_flags : Z; fw_reserved : Z }.
(* src/src/types/futex.rs:67-74 FutexWaitv::new *)
Definition futex_waitv_new (uaddr val flags : Z) : FutexWaitv := mkFutexWaitv val uaddr flags 0.
(* src/src/types/futex.rs:81-81 FUTEX_WAITV_MAX *)
Definition FUTEX_WAITV_MAX : Z := 128.
#[export] Instance futexwaitv_repr : Repr FutexWaitv := {
  size_of := 24;
  align_of := 8;
  to_mem f := pack [8; 8; 4; 4]%nat [fw_val f; fw_uaddr f; fw_flags f; fw_reserved f];
  of_mem bs := match unpack [8; 8; 4; 4]%nat bs with
               | [v; u; f; r] => mkFutexWaitv v u f r
               | _ => mkFutexWaitv 0 0 0 0
               end;
  repr_ok f := in_u 64 (fw_val f) /\ in_u 64 (fw_uaddr f) /\ in_u 32 (fw_flags f) /\
               in_u 32 (fw_reserved f)
}.
#[export] Instance futexwaitv_laws : ReprLaws FutexWaitv.
Proof.
  split; [by intros []|]. intros [] (? & ? & ? & ?). cbn [to_mem of_mem futexwaitv_repr] in *.
  rewrite unpack_exact by fields. done.
Qed.

(* src/src/types/fs.rs:389-398 OpenHow *)
Record OpenHow : Set := mkOpenHow { how_flags : Z; how_mode : Z; how_resolve : Z }.
#[export] Instance openhow_repr : Repr OpenHow := {
  size_of := 24;
  align_of := 8;
  to_mem h := pack [8; 8; 8]%nat [how_flags h; how_mode h; how_resolve h];
  of_mem bs := match unpack [8; 8; 8]%nat bs with
               | [f; m; r] => mkOpenHow f m r
               | _ => mkOpenHow 0 0 0
               end;
  repr_ok h := in_u 64 (how_flags h) /\ in_u 64 (how_mode h) /\ in_u 64 (how_resolve h)
}.
#[export] Instance openhow_laws : ReprLaws OpenHow.
Proof.
  split; [by intros []|]. intros [] (? & ? & ?). cbn [to_mem of_mem openhow_repr] in *.
  rewrite unpack_exact by fields. done.
Qed.

(** A plain `i32`, as in a descriptor array. *)
#[export] Instance i32_repr : Repr Z := {
  size_of := 4;
  align_of := 4;
  to_mem v := pack [4]%nat [as_u32 v];
  of_mem bs := match unpack [4]%nat bs with [v] => as_i32 v | _ => 0 end;
  repr_ok v := in_i 32 v
}.
#[export] Instance i32_laws : ReprLaws Z.
Proof.
  split; [done|]. intros v ?. cbn [to_mem of_mem i32_repr repr_ok] in *.
  rewrite unpack_exact by fields. by rewrite as_signed_wrap, as_signed_small by done.
Qed.

(** ** Structures the kernel fills in *)
(* src/src/types/fs.rs:149-155 StatxTimestamp *)
Record StatxTimestamp : Set := mkStatxTimestamp { ts_sec : Z; ts_nsec : Z; ts_reserved : Z }.
(** The twelve spare words are one little-endian word. *)
(* src/src/types/fs.rs:158-185 Statx *)
Record Statx : Set := mkStatx {
  stx_mask : Z; stx_blksize : Z; stx_attributes : Z; stx_nlink : Z; stx_uid : Z; stx_gid : Z;
  stx_mode : Z; stx_spare0 : Z; stx_ino : Z; stx_size : Z; stx_blocks : Z;
  stx_attributes_mask : Z; stx_atime : StatxTimestamp; stx_btime : StatxTimestamp;
  stx_ctime : StatxTimestamp; stx_mtime : StatxTimestamp; stx_rdev_major : Z;
  stx_rdev_minor : Z; stx_dev_major : Z; stx_dev_minor : Z; stx_mnt_id : Z;
  stx_dio_mem_align : Z; stx_dio_offset_align : Z; stx_spare3 : Z
}.
Definition time_of (s n r : Z) : StatxTimestamp := mkStatxTimestamp (as_i64 s) n (as_i32 r).
Definition time_words (t : StatxTimestamp) : list Z :=
  [as_u64 (ts_sec t); ts_nsec t; as_u32 (ts_reserved t)].
Definition statx_widths : list nat :=
  ([4; 4; 8; 4; 4; 4; 2; 2; 8; 8; 8; 8] ++ [8; 4; 4] ++ [8; 4; 4] ++ [8; 4; 4] ++ [8; 4; 4] ++
   [4; 4; 4; 4; 8; 4; 4; 96])%nat.
Definition statx_zero : Statx :=
  let t := mkStatxTimestamp 0 0 0 in
  mkStatx 0 0 0 0 0 0 0 0 0 0 0 0 t t t t 0 0 0 0 0 0 0 0.
Definition time_ok (t : StatxTimestamp) : Prop :=
  in_i 64 (ts_sec t) /\ in_u 32 (ts_nsec t) /\ in_i 32 (ts_reserved t).
#[export] Instance statx_repr : Repr Statx := {
  size_of := 256;
  align_of := 8;
  to_mem x := pack statx_widths
    ([stx_mask x; stx_blksize x; stx_attributes x; stx_nlink x; stx_uid x; stx_gid x; stx_mode x;
      stx_spare0 x; stx_ino x; stx_size x; stx_blocks x; stx_attributes_mask x] ++
     time_words (stx_atime x) ++ time_words (stx_btime x) ++ time_words (stx_ctime x) ++
     time_words (stx_mtime x) ++
     [stx_rdev_major x; stx_rdev_minor x; stx_dev_major x; stx_dev_minor x; stx_mnt_id x;
      stx_dio_mem_align x; stx_dio_offset_align x; stx_spare3 x]);
  of_mem bs := match unpack statx_widths bs with
    | mask :: blk :: attr :: nl :: uid :: gid :: mode :: sp :: ino :: size :: blocks :: am ::
      a1 :: a2 :: a3 :: b1 :: b2 :: b3 :: c1 :: c2 :: c3 :: m1 :: m2 :: m3 ::
      rma :: rmi :: dma :: dmi :: mnt :: dm :: dof :: spare :: _ =>
        mkStatx mask blk attr nl uid gid mode sp ino size blocks am (time_of a1 a2 a3)
          (time_of b1 b2 b3) (time_of c1 c2 c3) (time_of m1 m2 m3) rma rmi dma dmi mnt dm dof spare
    | _ => statx_zero
    end;
  repr_ok x := in_u 32 (stx_mask x) /\ in_u 32 (stx_blksize x) /\ in_u 64 (stx_attributes x) /\
    in_u 32 (stx_nlink x) /\ in_u 32 (stx_uid x) /\ in_u 32 (stx_gid x) /\ in_u 16 (stx_mode x) /\
    in_u 16 (stx_spare0 x) /\ in_u 64 (stx_ino x) /\ in_u 64 (stx_size x) /\
    in_u 64 (stx_blocks x) /\ in_u 64 (stx_attributes_mask x) /\ time_ok (stx_atime x) /\
    time_ok (stx_btime x) /\ time_ok (stx_ctime x) /\ time_ok (stx_mtime x) /\
    in_u 32 (stx_rdev_major x) /\ in_u 32 (stx_rdev_minor x) /\ in_u 32 (stx_dev_major x) /\
    in_u 32 (stx_dev_minor x) /\ in_u 64 (stx_mnt_id x) /\ in_u 32 (stx_dio_mem_align x) /\
    in_u 32 (stx_dio_offset_align x) /\ in_u 768 (stx_spare3 x)
}.
#[export] Instance statx_laws : ReprLaws Statx.
Proof.
  split; [by intros []|].
  intros [????????????[][][][]????????] H. cbn [to_mem of_mem statx_repr repr_ok time_ok
    time_words ts_sec ts_nsec ts_reserved stx_mask stx_blksize stx_attributes stx_nlink stx_uid
    stx_gid stx_mode stx_spare0 stx_ino stx_size stx_blocks stx_attributes_mask stx_atime stx_btime
    stx_ctime stx_mtime stx_rdev_major stx_rdev_minor stx_dev_major stx_dev_minor stx_mnt_id
    stx_dio_mem_align stx_dio_offset_align stx_spare3] in *. unfold time_ok in H. destruct_and?.
  rewrite unpack_exact by (unfold statx_widths; cbn [app]; fields). unfold time_of. cbn.
  by rewrite !as_signed_wrap, !as_signed_small by done.
Qed.
(** The accessors guarded by the kernel's result mask. *)
(* src/src/types/fs.rs:207-210 Statx::has *)
Definition statx_has (self : Statx) (wanted : Z) : bool := (stx_mask self &&& wanted) =? wanted.
(* src/src/types/fs.rs:213-220 Statx::size *)
Definition statx_size (self : Statx) : option Z :=
  if statx_has self StatxMask.SIZE then Some (stx_size self) else None.
(* src/src/types/fs.rs:223-230 Statx::mode *)
Definition statx_mode (self : Statx) : option Z :=
  if statx_has self StatxMask.MODE then Some (stx_mode self) else None.
(* src/src/types/fs.rs:233-240 Statx::nlink *)
Definition statx_nlink (self : Statx) : option Z :=
  if statx_has self StatxMask.NLINK then Some (stx_nlink self) else None.
(* src/src/types/fs.rs:243-250 Statx::uid *)
Definition statx_uid (self : Statx) : option Z :=
  if statx_has self StatxMask.UID then Some (stx_uid self) else None.
(* src/src/types/fs.rs:253-260 Statx::gid *)
Definition statx_gid (self : Statx) : option Z :=
  if statx_has self StatxMask.GID then Some (stx_gid self) else None.
(* src/src/types/fs.rs:263-270 Statx::ino *)
Definition statx_ino (self : Statx) : option Z :=
  if statx_has self StatxMask.INO then Some (stx_ino self) else None.
(* src/src/types/fs.rs:273-280 Statx::blocks *)
Definition statx_blocks (self : Statx) : option Z :=
  if statx_has self StatxMask.BLOCKS then Some (stx_blocks self) else None.
(* src/src/types/fs.rs:283-290 Statx::mtime *)
Definition statx_mtime (self : Statx) : option StatxTimestamp :=
  if statx_has self StatxMask.MTIME then Some (stx_mtime self) else None.
(* src/src/types/fs.rs:293-300 Statx::atime *)
Definition statx_atime (self : Statx) : option StatxTimestamp :=
  if statx_has self StatxMask.ATIME then Some (stx_atime self) else None.
(* src/src/types/fs.rs:303-310 Statx::ctime *)
Definition statx_ctime (self : Statx) : option StatxTimestamp :=
  if statx_has self StatxMask.CTIME then Some (stx_ctime self) else None.

(* src/src/types/waitid.rs:49-65 ChildEvent *)
Inductive ChildEvent : Set :=
| Exited | Killed | Dumped | Trapped | Stopped | Continued | Other (code : Z).
(* src/src/types/waitid.rs:69-80 ChildEvent::from_code *)
Definition child_from_code (code : Z) : ChildEvent :=
  if code =? 1 then Exited
  else if code =? 2 then Killed
  else if code =? 3 then Dumped
  else if code =? 4 then Trapped
  else if code =? 5 then Stopped
  else if code =? 6 then Continued
  else Other code.
(* src/src/types/waitid.rs:93-104 WaitidSiginfo *)
Record WaitidSiginfo : Set := mkSiginfo {
  si_signo : Z; si_errno : Z; si_code : Z; si_pad0 : Z; si_pid : Z; si_uid : Z; si_status : Z;
  si_reserved : Z
}.
(* src/src/types/waitid.rs:107-111 WaitidSiginfo::default *)
Definition siginfo_default : WaitidSiginfo := mkSiginfo 0 0 0 0 0 0 0 0.
(** The reserved hundred bytes are one little-endian word. *)
Definition siginfo_widths : list nat := [4; 4; 4; 4; 4; 4; 4; 100]%nat.
#[export] Instance siginfo_repr : Repr WaitidSiginfo := {
  size_of := 128;
  align_of := 4;
  to_mem s := pack siginfo_widths
    [as_u32 (si_signo s); as_u32 (si_errno s); as_u32 (si_code s); as_u32 (si_pad0 s);
     as_u32 (si_pid s); si_uid s; as_u32 (si_status s); si_reserved s];
  of_mem bs := match unpack siginfo_widths bs with
    | [s; e; c; p; pid; uid; st; r] =>
        mkSiginfo (as_i32 s) (as_i32 e) (as_i32 c) (as_i32 p) (as_i32 pid) uid (as_i32 st) r
    | _ => siginfo_default
    end;
  repr_ok s := in_i 32 (si_signo s) /\ in_i 32 (si_errno s) /\ in_i 32 (si_code s) /\
    in_i 32 (si_pad0 s) /\ in_i 32 (si_pid s) /\ in_u 32 (si_uid s) /\ in_i 32 (si_status s) /\
    in_u 800 (si_reserved s)
}.
#[export] Instance siginfo_laws : ReprLaws WaitidSiginfo.
Proof.
  split; [by intros []|]. intros [] (? & ? & ? & ? & ? & ? & ? & ?).
  cbn [to_mem of_mem siginfo_repr si_signo si_errno si_code si_pad0 si_pid si_uid si_status
    si_reserved] in *.
  rewrite unpack_exact by (unfold siginfo_widths; fields).
  by rewrite !as_signed_wrap, !as_signed_small by done.
Qed.
(* src/src/types/waitid.rs:116-119 WaitidSiginfo::event *)
Definition child_event (self : WaitidSiginfo) : ChildEvent := child_from_code (si_code self).
