(* ===== verification/Syscall.v ===== *)
(** * System calls (syscall/)

    The wrappers of syscall/mod.rs over the raw call, which the inline assembly
    of each architecture makes and the class [RawSyscall] stands for.  A raw
    call may read and write the process's memory.  What the kernel makes of a number
    and its words is [read_syscall], over the kernel's own tables, which are literals
    and share nothing with the crate's numbers. *)
From stdpp Require Import base numbers list option.
From Stdlib Require Import ZArith Lia.
From S2P Require Import Prelude Flags Types UserMem.
Local Open Scope Z_scope.
Local Open Scope rust_scope.

(** ** The numbers of each architecture *)
Class Arch := mkArch {
  SYS_READ : Z;
  SYS_WRITE : Z;
  SYS_CLOSE : Z;
  SYS_MMAP : Z;
  SYS_MUNMAP : Z;
  SYS_SOCKET : Z;
  SYS_CONNECT : Z;
  SYS_ACCEPT4 : Z;
  SYS_SENDTO : Z;
  SYS_RECVFROM : Z;
  SYS_SHUTDOWN : Z;
  SYS_BIND : Z;
  SYS_LISTEN : Z;
  SYS_GETSOCKNAME : Z;
  SYS_SETSOCKOPT : Z;
  SYS_GETSOCKOPT : Z;
  SYS_PIPE2 : Z;
  SYS_EVENTFD2 : Z;
  SYS_INOTIFY_INIT1 : Z;
  SYS_INOTIFY_ADD_WATCH : Z;
  SYS_INOTIFY_RM_WATCH : Z;
  SYS_IO_URING_SETUP : Z;
  SYS_IO_URING_ENTER : Z;
  SYS_IO_URING_REGISTER : Z;
  (** What mmap's offset is counted in: bytes, or pages for `mmap2`. *)
  mmap_shift : Z
}.
(* src/src/syscall/x86_64.rs:3-26 SYS_* *)
Definition x86_64_numbers : Arch :=
  {| SYS_READ := 0; SYS_WRITE := 1; SYS_CLOSE := 3; SYS_MMAP := 9; SYS_MUNMAP := 11;
     SYS_SOCKET := 41; SYS_CONNECT := 42; SYS_ACCEPT4 := 288; SYS_SENDTO := 44;
     SYS_RECVFROM := 45; SYS_SHUTDOWN := 48; SYS_BIND := 49; SYS_LISTEN := 50;
     SYS_GETSOCKNAME := 51; SYS_SETSOCKOPT := 54; SYS_GETSOCKOPT := 55; SYS_PIPE2 := 293;
     SYS_EVENTFD2 := 290; SYS_INOTIFY_INIT1 := 294; SYS_INOTIFY_ADD_WATCH := 254;
     SYS_INOTIFY_RM_WATCH := 255; SYS_IO_URING_SETUP := 425; SYS_IO_URING_ENTER := 426;
     SYS_IO_URING_REGISTER := 427; mmap_shift := 0 |}.
(* src/src/syscall/aarch64.rs:3-26 SYS_* *)
Definition aarch64_numbers : Arch :=
  {| SYS_READ := 63; SYS_WRITE := 64; SYS_CLOSE := 57; SYS_MMAP := 222; SYS_MUNMAP := 215;
     SYS_SOCKET := 198; SYS_CONNECT := 203; SYS_ACCEPT4 := 242; SYS_SENDTO := 206;
     SYS_RECVFROM := 207; SYS_SHUTDOWN := 210; SYS_BIND := 200; SYS_LISTEN := 201;
     SYS_GETSOCKNAME := 204; SYS_SETSOCKOPT := 208; SYS_GETSOCKOPT := 209; SYS_PIPE2 := 59;
     SYS_EVENTFD2 := 19; SYS_INOTIFY_INIT1 := 26; SYS_INOTIFY_ADD_WATCH := 27;
     SYS_INOTIFY_RM_WATCH := 28; SYS_IO_URING_SETUP := 425; SYS_IO_URING_ENTER := 426;
     SYS_IO_URING_REGISTER := 427; mmap_shift := 0 |}.
(* src/src/syscall/riscv64.rs:3-26 SYS_* *)
Definition riscv64_numbers : Arch :=
  {| SYS_READ := 63; SYS_WRITE := 64; SYS_CLOSE := 57; SYS_MMAP := 222; SYS_MUNMAP := 215;
     SYS_SOCKET := 198; SYS_CONNECT := 203; SYS_ACCEPT4 := 242; SYS_SENDTO := 206;
     SYS_RECVFROM := 207; SYS_SHUTDOWN := 210; SYS_BIND := 200; SYS_LISTEN := 201;
     SYS_GETSOCKNAME := 204; SYS_SETSOCKOPT := 208; SYS_GETSOCKOPT := 209; SYS_PIPE2 := 59;
     SYS_EVENTFD2 := 19; SYS_INOTIFY_INIT1 := 26; SYS_INOTIFY_ADD_WATCH := 27;
     SYS_INOTIFY_RM_WATCH := 28; SYS_IO_URING_SETUP := 425; SYS_IO_URING_ENTER := 426;
     SYS_IO_URING_REGISTER := 427; mmap_shift := 0 |}.
(* src/src/syscall/arm.rs:3-26 SYS_* *)
Definition arm_numbers : Arch :=
  {| SYS_READ := 3; SYS_WRITE := 4; SYS_CLOSE := 6; SYS_MMAP := 192; SYS_MUNMAP := 91;
     SYS_SOCKET := 281; SYS_CONNECT := 283; SYS_ACCEPT4 := 366; SYS_SENDTO := 290;
     SYS_RECVFROM := 292; SYS_SHUTDOWN := 293; SYS_BIND := 282; SYS_LISTEN := 284;
     SYS_GETSOCKNAME := 286; SYS_SETSOCKOPT := 294; SYS_GETSOCKOPT := 295; SYS_PIPE2 := 359;
     SYS_EVENTFD2 := 356; SYS_INOTIFY_INIT1 := 360; SYS_INOTIFY_ADD_WATCH := 317;
     SYS_INOTIFY_RM_WATCH := 318; SYS_IO_URING_SETUP := 425; SYS_IO_URING_ENTER := 426;
     SYS_IO_URING_REGISTER := 427; mmap_shift := 12 |}.
(** The module `arch` of each target. *)
Inductive Target : Set := X86_64_t | Aarch64_t | Riscv64_t | Arm_t.
(* src/src/syscall/mod.rs:8-26 arch *)
Definition numbers (t : Target) : Arch :=
  match t with
  | X86_64_t => x86_64_numbers | Aarch64_t => aarch64_numbers
  | Riscv64_t => riscv64_numbers | Arm_t => arm_numbers
  end.
#[export] Instance default_arch : Arch | 10 := x86_64_numbers.

(** ** Raw calls *)
(** The process's memory, and whatever the kernel keeps. *)
Record World (K : Type) : Type := mkWorld { w_mem : UMem; w_kernel : K }.
Arguments mkWorld {K} _ _. Arguments w_mem {K} _. Arguments w_kernel {K} _.
(** The number and the arguments, as `usize`; the result is an `isize`. *)
Class RawSyscall (K : Type) := { syscall : Z -> list Z -> World K -> Z * World K }.
Definition set_world_mem {K} (f : UMem -> UMem) (w : World K) : World K :=
  mkWorld (f (w_mem w)) (w_kernel w).

(* src/src/syscall/mod.rs:38-38 MAX_ERRNO *)
Definition MAX_ERRNO : Z := 4095.

Module Syscall.
Section Calls.
  Context {K : Type} {PW : PtrWidth} {A : Arch} {RS : RawSyscall K}.
  Notation Call R := (M (World K) Errno R).
Definition as_usize (z : Z) : Z := wrap usize_bits z.
(* src/src/syscall/mod.rs:40-46 check *)
Definition check (ret : Z) : result Z Errno :=
  if (ret <? 0) && (ret >=? - MAX_ERRNO) then Err (as_i32 (- ret)) else Ok (as_usize ret).
(** `check(syscallN(nr, ...))` *)
Definition call (nr : Z) (args : list Z) : Call Z := fun w =>
  let '(ret, w) := syscall nr args w in (check ret, w).
(** `check(...)?; Ok(())` *)
Definition call_unit (nr : Z) (args : list Z) : Call unit := do! call nr args in ret tt.
(* src/src/syscall/mod.rs:53-59 io_uring_setup *)
Definition io_uring_setup (entries params : Z) : Call Z :=
  call SYS_IO_URING_SETUP [as_usize entries; params].
(* src/src/syscall/mod.rs:61-78 io_uring_enter *)
Definition io_uring_enter (fd to_submit min_complete flags : Z) : Call Z :=
  call SYS_IO_URING_ENTER [fd; as_usize to_submit; as_usize min_complete; as_usize flags; 0; 0].
(* src/src/syscall/mod.rs:87-117 mmap *)
Definition mmap (addr len prot flags fd offset : Z) : Call Z :=
  let off := as_usize offset >>> mmap_shift in
  call SYS_MMAP [addr; len; as_usize prot; as_usize flags; fd; off].
(* src/src/syscall/mod.rs:124-127 munmap *)
Definition munmap (addr len : Z) : Call unit := call_unit SYS_MUNMAP [addr; len].
(* src/src/syscall/mod.rs:129-139 socket *)
Definition socket (domain sock_type protocol : Z) : Call Z :=
  call SYS_SOCKET [as_usize domain; as_usize sock_type; as_usize protocol].
(* src/src/syscall/mod.rs:145-148 connect *)
Definition connect (fd addr addrlen : Z) : Call unit :=
  call_unit SYS_CONNECT [fd; addr; as_usize addrlen].
(* src/src/syscall/mod.rs:155-171 accept4 *)
Definition accept4 (fd addr addrlen flags : Z) : Call Z :=
  call SYS_ACCEPT4 [fd; addr; addrlen; as_usize flags].
(* src/src/syscall/mod.rs:177-180 bind *)
Definition bind_ (fd addr addrlen : Z) : Call unit :=
  call_unit SYS_BIND [fd; addr; as_usize addrlen].
(* src/src/syscall/mod.rs:182-185 listen *)
Definition listen (fd backlog : Z) : Call unit := call_unit SYS_LISTEN [fd; as_usize backlog].
(* src/src/syscall/mod.rs:192-202 getsockname *)
Definition getsockname (fd addr addrlen : Z) : Call unit :=
  call_unit SYS_GETSOCKNAME [fd; addr; addrlen].
(* src/src/syscall/mod.rs:208-226 setsockopt *)
Definition setsockopt (fd level optname optval optlen : Z) : Call unit :=
  call_unit SYS_SETSOCKOPT [fd; as_usize level; as_usize optname; optval; as_usize optlen].
(* src/src/syscall/mod.rs:233-251 getsockopt *)
Definition getsockopt (fd level optname optval optlen : Z) : Call unit :=
  call_unit SYS_GETSOCKOPT [fd; as_usize level; as_usize optname; optval; optlen].
(* src/src/syscall/mod.rs:258-273 io_uring_register *)
Definition io_uring_register (fd opcode arg nr_args : Z) : Call Z :=
  call SYS_IO_URING_REGISTER [fd; as_usize opcode; arg; as_usize nr_args].
(* src/src/syscall/mod.rs:279-291 sendto *)
Definition sendto (fd buf len flags : Z) : Call Z :=
  call SYS_SENDTO [fd; buf; len; as_usize flags; 0; 0].
(* src/src/syscall/mod.rs:297-309 recvfrom *)
Definition recvfrom (fd buf len flags : Z) : Call Z :=
  call SYS_RECVFROM [fd; buf; len; as_usize flags; 0; 0].
(* src/src/syscall/mod.rs:311-314 shutdown *)
Definition shutdown (fd how : Z) : Call unit := call_unit SYS_SHUTDOWN [fd; as_usize how].
(* src/src/syscall/mod.rs:320-322 read *)
Definition read (fd buf len : Z) : Call Z := call SYS_READ [fd; buf; len].
(* src/src/syscall/mod.rs:328-330 write *)
Definition write (fd buf len : Z) : Call Z := call SYS_WRITE [fd; buf; len].
(* src/src/syscall/mod.rs:332-335 close *)
Definition close (fd : Z) : Call unit := call_unit SYS_CLOSE [fd].
(* src/src/syscall/mod.rs:337-339 eventfd2 *)
Definition eventfd2 (initval flags : Z) : Call Z :=
  call SYS_EVENTFD2 [as_usize initval; as_usize flags].
(* src/src/syscall/mod.rs:348-351 pipe2 *)
Definition pipe2 (fds flags : Z) : Call unit := call_unit SYS_PIPE2 [fds; as_usize flags].
(* src/src/syscall/mod.rs:353-355 inotify_init1 *)
Definition inotify_init1 (flags : Z) : Call Z := call SYS_INOTIFY_INIT1 [as_usize flags].
(* src/src/syscall/mod.rs:361-370 inotify_add_watch *)
Definition inotify_add_watch (fd path mask : Z) : Call Z :=
  call SYS_INOTIFY_ADD_WATCH [fd; path; as_usize mask].
(* src/src/syscall/mod.rs:372-375 inotify_rm_watch *)
Definition inotify_rm_watch (fd wd : Z) : Call unit :=
  call_unit SYS_INOTIFY_RM_WATCH [fd; as_usize wd].
End Calls.
End Syscall.

(** ** The kernel's reading of a call

    By the number its own table gives the call, with each argument at the width
    the call has it.  Nothing here comes from the crate. *)
Inductive syscall_request : Set :=
| SRead (fd buf len : Z)
| SWrite (fd buf len : Z)
| SClose (fd : Z)
| SMmap (addr len prot flags fd offset : Z)
| SMunmap (addr len : Z)
| SSocket (domain type protocol : Z)
| SConnect (fd addr len : Z)
| SAccept4 (fd addr len flags : Z)
| SSendto (fd buf len flags dest destlen : Z)
| SRecvfrom (fd buf len flags src srclen : Z)
| SShutdown (fd how : Z)
| SBind (fd addr len : Z)
| SListen (fd backlog : Z)
| SGetsockname (fd addr len : Z)
| SSetsockopt (fd level name val len : Z)
| SGetsockopt (fd level name val len : Z)
| SPipe2 (fds flags : Z)
| SEventfd2 (initval flags : Z)
| SInotifyInit1 (flags : Z)
| SInotifyAddWatch (fd path mask : Z)
| SInotifyRmWatch (fd wd : Z)
| SUringSetup (entries params : Z)
| SUringEnter (fd to_submit min_complete flags sig sigsz : Z)
| SUringRegister (fd opcode arg nr_args : Z).

(** The calls, by the name the kernel gives them.  `mmap2` counts its offset in
    units of 4096 bytes, `mmap` in bytes. *)
Inductive syscall_name : Set :=
| KRead | KWrite | KClose | KMmap | KMmap2 | KMunmap | KSocket | KConnect | KAccept4 | KSendto
| KRecvfrom | KShutdown | KBind | KListen | KGetsockname | KSetsockopt | KGetsockopt | KPipe2
| KEventfd2 | KInotifyInit1 | KInotifyAddWatch | KInotifyRmWatch | KUringSetup | KUringEnter
| KUringRegister.
(** The tables of the kernel, by architecture: arch/x86/entry/syscalls/syscall_64.tbl,
    include/uapi/asm-generic/unistd.h (aarch64 and riscv64) and
    arch/arm/tools/syscall.tbl. *)
Definition x86_64_table (nr : Z) : option syscall_name :=
  match nr with
  | 0 => Some KRead | 1 => Some KWrite | 3 => Some KClose | 9 => Some KMmap | 11 => Some KMunmap
  | 41 => Some KSocket | 42 => Some KConnect | 44 => Some KSendto | 45 => Some KRecvfrom
  | 48 => Some KShutdown | 49 => Some KBind | 50 => Some KListen | 51 => Some KGetsockname
  | 54 => Some KSetsockopt | 55 => Some KGetsockopt | 254 => Some KInotifyAddWatch
  | 255 => Some KInotifyRmWatch | 288 => Some KAccept4 | 290 => Some KEventfd2 | 293 => Some KPipe2
  | 294 => Some KInotifyInit1 | 425 => Some KUringSetup | 426 => Some KUringEnter
  | 427 => Some KUringRegister | _ => None
  end.
Definition generic_table (nr : Z) : option syscall_name :=
  match nr with
  | 19 => Some KEventfd2 | 26 => Some KInotifyInit1 | 27 => Some KInotifyAddWatch
  | 28 => Some KInotifyRmWatch | 57 => Some KClose | 59 => Some KPipe2 | 63 => Some KRead
  | 64 => Some KWrite | 198 => Some KSocket | 200 => Some KBind | 201 => Some KListen
  | 203 => Some KConnect | 204 => Some KGetsockname | 206 => Some KSendto | 207 => Some KRecvfrom
  | 208 => Some KSetsockopt | 209 => Some KGetsockopt | 210 => Some KShutdown | 215 => Some KMunmap
  | 222 => Some KMmap | 242 => Some KAccept4 | 425 => Some KUringSetup | 426 => Some KUringEnter
  | 427 => Some KUringRegister | _ => None
  end.
Definition arm_table (nr : Z) : option syscall_name :=
  match nr with
  | 3 => Some KRead | 4 => Some KWrite | 6 => Some KClose | 91 => Some KMunmap | 192 => Some KMmap2
  | 281 => Some KSocket | 282 => Some KBind | 283 => Some KConnect | 284 => Some KListen
  | 286 => Some KGetsockname | 290 => Some KSendto | 292 => Some KRecvfrom | 293 => Some KShutdown
  | 294 => Some KSetsockopt | 295 => Some KGetsockopt | 317 => Some KInotifyAddWatch
  | 318 => Some KInotifyRmWatch | 356 => Some KEventfd2 | 359 => Some KPipe2
  | 360 => Some KInotifyInit1 | 366 => Some KAccept4 | 425 => Some KUringSetup
  | 426 => Some KUringEnter | 427 => Some KUringRegister | _ => None
  end.
Definition syscall_table (t : Target) : Z -> option syscall_name :=
  match t with
  | X86_64_t => x86_64_table | Aarch64_t | Riscv64_t => generic_table | Arm_t => arm_table
  end.
(** Each call's reading of its arguments. *)
Definition read_args (k : syscall_name) (a : list Z) : option syscall_request :=
  match k, a with
  | KRead, [f; b; n] => Some (SRead (as_i32 f) b n)
  | KWrite, [f; b; n] => Some (SWrite (as_i32 f) b n)
  | KClose, [f] => Some (SClose (as_i32 f))
  | KMmap, [ad; n; p; fl; f; o] => Some (SMmap ad n (as_u32 p) (as_u32 fl) (as_i32 f) o)
  | KMmap2, [ad; n; p; fl; f; o] => Some (SMmap ad n (as_u32 p) (as_u32 fl) (as_i32 f) (o <<< 12))
  | KMunmap, [ad; n] => Some (SMunmap ad n)
  | KSocket, [d; t; p] => Some (SSocket (as_i32 d) (as_i32 t) (as_i32 p))
  | KConnect, [f; ad; n] => Some (SConnect (as_i32 f) ad (as_u32 n))
  | KAccept4, [f; ad; n; fl] => Some (SAccept4 (as_i32 f) ad n (as_i32 fl))
  | KSendto, [f; b; n; fl; d; dl] => Some (SSendto (as_i32 f) b n (as_u32 fl) d dl)
  | KRecvfrom, [f; b; n; fl; s; sl] => Some (SRecvfrom (as_i32 f) b n (as_u32 fl) s sl)
  | KShutdown, [f; h] => Some (SShutdown (as_i32 f) (as_u32 h))
  | KBind, [f; ad; n] => Some (SBind (as_i32 f) ad (as_u32 n))
  | KListen, [f; b] => Some (SListen (as_i32 f) (as_i32 b))
  | KGetsockname, [f; ad; n] => Some (SGetsockname (as_i32 f) ad n)
  | KSetsockopt, [f; l; o; v; n] =>
      Some (SSetsockopt (as_i32 f) (as_i32 l) (as_i32 o) v (as_u32 n))
  | KGetsockopt, [f; l; o; v; n] => Some (SGetsockopt (as_i32 f) (as_i32 l) (as_i32 o) v n)
  | KPipe2, [p; fl] => Some (SPipe2 p (as_i32 fl))
  | KEventfd2, [i; fl] => Some (SEventfd2 (as_u32 i) (as_i32 fl))
  | KInotifyInit1, [fl] => Some (SInotifyInit1 (as_i32 fl))
  | KInotifyAddWatch, [f; p; m] => Some (SInotifyAddWatch (as_i32 f) p (as_u32 m))
  | KInotifyRmWatch, [f; wd] => Some (SInotifyRmWatch (as_i32 f) (as_i32 wd))
  | KUringSetup, [e; p] => Some (SUringSetup (as_u32 e) p)
  | KUringEnter, [f; s; c; fl; sg; sz] =>
      Some (SUringEnter (as_i32 f) (as_u32 s) (as_u32 c) (as_u32 fl) sg sz)
  | KUringRegister, [f; o; ar; n] => Some (SUringRegister (as_i32 f) (as_u32 o) ar (as_u32 n))
  | _, _ => None
  end.
Definition read_syscall (t : Target) (nr : Z) (args : list Z) : option syscall_request :=
  match syscall_table t nr with Some k => read_args k args | None => None end.

(** ** Theorems *)
(** The wrapper [m] makes one raw call, which the kernel reads as [c], and
    decodes its result. *)
Definition issues {K R} {RS : RawSyscall K} {PW : PtrWidth} (t : Target) (m : M (World K) Errno R)
  (f : Z -> R) (c : syscall_request) : Prop :=
  exists nr args, read_syscall t nr args = Some c /\
  forall w, let '(ret, w') := syscall nr args w in
  m w = (match Syscall.check ret with Ok v => Ok (f v) | Err e => Err e end, w').

Lemma i32_usize {PW : PtrWidth} z : in_i 32 z -> as_i32 (Syscall.as_usize z) = z.
Proof.
  intros Hz. unfold Syscall.as_usize, as_signed. rewrite (wrap_narrow 32) by (destruct usize_cases; lia).
  by apply (as_signed_small 32).
Qed.
Lemma u32_usize {PW : PtrWidth} z : in_u 32 z -> as_u32 (Syscall.as_usize z) = z.
Proof.
  intros Hz. unfold Syscall.as_usize. rewrite wrap_narrow by (destruct usize_cases; lia).
  by apply wrap_small.
Qed.
Lemma i32_fd fd : 0 <= fd < 2 ^ 31 -> as_i32 fd = fd.
Proof. intros H. apply as_signed_small; [lia|]. unfold in_i. change (32 - 1) with 31. lia. Qed.

Lemma issues_call {K} {PW : PtrWidth} {RS : RawSyscall K} t nr args c :
  read_syscall t nr args = Some c -> issues t (Syscall.call nr args) (fun v => v) c.
Proof.
  intros Hr. exists nr, args. split; [done|]. intros w. unfold Syscall.call.
  destruct (syscall nr args w) as [r w']. by destruct (Syscall.check r).
Qed.
Lemma issues_unit {K} {PW : PtrWidth} {RS : RawSyscall K} t nr args c :
  read_syscall t nr args = Some c -> issues t (Syscall.call_unit nr args) (fun _ => tt) c.
Proof.
  intros Hr. exists nr, args. split; [done|]. intros w. unfold Syscall.call_unit, Syscall.call, bind.
  destruct (syscall nr args w) as [r w']. by destruct (Syscall.check r).
Qed.
Lemma page_shift {PW : PtrWidth} off s :
  s = 0 \/ s = 12 -> in_u usize_bits off -> off mod 4096 = 0 ->
  (Syscall.as_usize off >>> s) <<< s = off.
Proof.
  intros Hs Ho Hp. unfold Syscall.as_usize. rewrite wrap_small by done.
  destruct Hs as [-> | ->]; [by rewrite Z.shiftr_0_r, Z.shiftl_0_r|].
  rewrite Z.shiftr_div_pow2, Z.shiftl_mul_pow2 by lia. change (2 ^ 12) with 4096.
  pose proof (Z.div_mod off 4096). lia.
Qed.

Lemma page_none {PW : PtrWidth} off : in_u usize_bits off -> Syscall.as_usize off >>> 0 = off.
Proof. intros Ho. unfold Syscall.as_usize. rewrite wrap_small by done. apply Z.shiftr_0_r. Qed.

(** The kernel's table, on each supported architecture. *)
Ltac issue HA :=
  (apply issues_call || apply issues_unit);
    rewrite HA; lazymatch type of HA with _ = numbers ?t => destruct t end;
    cbn -[as_signed wrap Syscall.as_usize Z.shiftl Z.shiftr];
    rewrite ?i32_usize, ?u32_usize, ?i32_fd, ?page_shift, ?page_none by first [done|by left|by right];
    done.

(** C28. On every supported architecture each wrapper makes exactly one system
    call, the one it is named after: the crate's number for it is the one the
    kernel's table of that architecture gives that call, which reads the caller's
    arguments back at their own widths, negative ones sign extended and mmap's
    offset in bytes whether the call counts bytes or pages; and the result is the
    decoded return value. *)
Theorem wrappers_exact {K} {PW : PtrWidth} {A : Arch} {RS : RawSyscall K} t fd a b n i j k u v off :
  A = numbers t -> 0 <= fd < 2 ^ 31 -> in_i 32 i -> in_i 32 j -> in_i 32 k -> in_u 32 u ->
  in_u 32 v -> in_u 32 n -> in_u usize_bits off -> off mod 4096 = 0 ->
  let val := fun r : Z => r in let unit := fun _ : Z => tt in
  issues t (Syscall.io_uring_setup u a) val (SUringSetup u a) /\
  issues t (Syscall.io_uring_enter fd u v n) val (SUringEnter fd u v n 0 0) /\
  issues t (Syscall.io_uring_register fd u a n) val (SUringRegister fd u a n) /\
  issues t (Syscall.mmap a b u v fd off) val (SMmap a b u v fd off) /\
  issues t (Syscall.munmap a b) unit (SMunmap a b) /\
  issues t (Syscall.socket i j k) val (SSocket i j k) /\
  issues t (Syscall.connect fd a n) unit (SConnect fd a n) /\
  issues t (Syscall.accept4 fd a b i) val (SAccept4 fd a b i) /\
  issues t (Syscall.bind_ fd a n) unit (SBind fd a n) /\
  issues t (Syscall.listen fd i) unit (SListen fd i) /\
  issues t (Syscall.getsockname fd a b) unit (SGetsockname fd a b) /\
  issues t (Syscall.setsockopt fd i j a n) unit (SSetsockopt fd i j a n) /\
  issues t (Syscall.getsockopt fd i j a b) unit (SGetsockopt fd i j a b) /\
  issues t (Syscall.sendto fd a b u) val (SSendto fd a b u 0 0) /\
  issues t (Syscall.recvfrom fd a b u) val (SRecvfrom fd a b u 0 0) /\
  issues t (Syscall.shutdown fd u) unit (SShutdown fd u) /\
  issues t (Syscall.read fd a b) val (SRead fd a b) /\
  issues t (Syscall.write fd a b) val (SWrite fd a b) /\
  issues t (Syscall.close fd) unit (SClose fd) /\
  issues t (Syscall.eventfd2 u i) val (SEventfd2 u i) /\
  issues t (Syscall.pipe2 a i) unit (SPipe2 a i) /\
  issues t (Syscall.inotify_init1 i) val (SInotifyInit1 i) /\
  issues t (Syscall.inotify_add_watch fd a u) val (SInotifyAddWatch fd a u) /\
  issues t (Syscall.inotify_rm_watch fd i) unit (SInotifyRmWatch fd i).
Proof.
  intros HA Hfd Hi Hj Hk Hu Hv Hn Ho Hp. cbv zeta. split_and!; issue HA.
Qed.

(** Every error is one the kernel can report. *)
Lemma check_errno {PW : PtrWidth} ret e : Syscall.check ret = Err e -> 1 <= e <= 4095.
Proof.
  unfold Syscall.check, MAX_ERRNO. rewrite Z.geb_leb. intros H.
  destruct (Z.ltb_spec ret 0), (Z.leb_spec (- (4095)) ret); cbn [andb] in H; try done.
  injection H as <-. rewrite as_signed_small; [lia|lia|].
  unfold in_i. change (2 ^ (32 - 1)) with 2147483648. lia.
Qed.

(** The return value the kernel's answer travels as. *)
Definition kernel_return {PW : PtrWidth} (r : result Z Errno) : Z :=
  match r with Ok v => as_signed usize_bits v | Err e => - e end.
(** Every answer survives the return register: an error in [1..4095], and any
    value (an address in the upper half included) outside the last page. *)
Theorem check_roundtrip {PW : PtrWidth} r :
  match r with Ok v => 0 <= v < 2 ^ usize_bits - MAX_ERRNO | Err e => 1 <= e <= MAX_ERRNO end ->
  Syscall.check (kernel_return r) = r.
Proof.
  assert (2 ^ usize_bits = 2 * 2 ^ (usize_bits - 1) /\ 4095 < 2 ^ (usize_bits - 1)) as [Hpow Hbig]
    by by destruct usize_cases as [-> | ->].
  unfold MAX_ERRNO. destruct r as [v|e]; intros H; unfold Syscall.check, kernel_return; rewrite Z.geb_leb.
  - unfold MAX_ERRNO, as_signed. rewrite (wrap_small usize_bits v) by (unfold in_u; lia).
    destruct (Z.ltb_spec v (2 ^ (usize_bits - 1))).
    + destruct (Z.ltb_spec v 0); [lia|]. cbn [andb]. unfold Syscall.as_usize.
      by rewrite wrap_small by (unfold in_u; lia).
    + destruct (Z.leb_spec (- (4095)) (v - 2 ^ usize_bits)); [lia|]. rewrite andb_false_r.
      unfold Syscall.as_usize, wrap. rewrite <- (Z.mod_add _ 1) by lia.
      rewrite Z.mul_1_l, Z.sub_add. by rewrite Z.mod_small by lia.
  - destruct (Z.ltb_spec (- e) 0); [|lia]. unfold MAX_ERRNO.
    destruct (Z.leb_spec (- (4095)) (- e)); [|lia]. cbn [andb]. rewrite Z.opp_involutive.
    rewrite as_signed_small; [done|lia|]. unfold in_i. change (2 ^ (32 - 1)) with 2147483648. lia.
Qed.

(** A kernel that answers every call with 0. *)
#[export] Instance zero_kernel : RawSyscall unit := { syscall _ _ w := (0, w) }.
Lemma wrappers_exact_witness :
  issues (K := unit) Arm_t (Syscall.mmap (A := arm_numbers) 0 8192 3 1 7 268435456) (fun r => r)
    (SMmap 0 8192 3 1 7 268435456).
Proof.
  refine (proj1 (proj2 (proj2 (proj2 (wrappers_exact (K := unit) (A := arm_numbers) Arm_t 7 0 8192 1 0 0 0 3 1
    268435456 _ _ _ _ _ _ _ _ _ _))))); try (split; vm_compute; congruence).
Defined.
