(* ===== verification/SyscallAsm.v ===== *)
(** * The raw calls (syscall/x86_64.rs, aarch64.rs, riscv64.rs, arm.rs)

    [Syscall] makes its calls through [RawSyscall].  Here are the stubs behind
    it, an `asm!` block for each architecture and number of arguments: the
    operands it places in registers, its instruction, and the registers it
    declares to change.  [stubs_exact] shows that with the kernel's calling
    convention a stub makes exactly the call it is asked for, and that what it
    leaves undeclared is unchanged. *)
From stdpp Require Import base numbers list option gmap strings.
From Stdlib Require Import ZArith Lia.
From S2P Require Import Prelude Flags Types UserMem Syscall.
Local Open Scope Z_scope.
Local Open Scope rust_scope.

(** ** Blocks *)
(** `asm!(instr, inlateout(reg) v => ret, in(reg) v, .., lateout(reg) _, ..)`. *)
Record Asm : Set := mkAsm {
  instr : string; inlateout : string * Z; ins : list (string * Z); lateouts : list string
}.
Notation regs := (gmap string Z).
(** What an instruction does to the registers and the world is the kernel's. *)
Class Trap (K : Type) := trap : string -> regs -> World K -> regs * World K.
(** The operands are placed, the instruction runs, `ret` is read back. *)
Definition placed (b : Asm) (r : regs) : regs :=
  list_to_map (inlateout b :: ins b) ∪ r.
Definition run_asm {K} `{Trap K} (b : Asm) (r : regs) (w : World K) : Z * regs * World K :=
  let '(r', w') := trap (instr b) (placed b r) w in
  (r' !!! (inlateout b).1, r', w').

(** ** The stubs *)
Module X86_64.
(* src/src/syscall/x86_64.rs:29-42 syscall1 *)
Definition syscall1 (nr a1 : Z) : Asm :=
  mkAsm "syscall" ("rax", nr) [("rdi", a1)] ["rcx"; "r11"].
(* src/src/syscall/x86_64.rs:45-59 syscall2 *)
Definition syscall2 (nr a1 a2 : Z) : Asm :=
  mkAsm "syscall" ("rax", nr) [("rdi", a1); ("rsi", a2)] ["rcx"; "r11"].
(* src/src/syscall/x86_64.rs:62-77 syscall3 *)
Definition syscall3 (nr a1 a2 a3 : Z) : Asm :=
  mkAsm "syscall" ("rax", nr) [("rdi", a1); ("rsi", a2); ("rdx", a3)] ["rcx"; "r11"].
(* src/src/syscall/x86_64.rs:80-96 syscall4 *)
Definition syscall4 (nr a1 a2 a3 a4 : Z) : Asm :=
  mkAsm "syscall" ("rax", nr) [("rdi", a1); ("rsi", a2); ("rdx", a3); ("r10", a4)] ["rcx"; "r11"].
(* src/src/syscall/x86_64.rs:99-116 syscall5 *)
Definition syscall5 (nr a1 a2 a3 a4 a5 : Z) : Asm :=
  mkAsm "syscall" ("rax", nr) [("rdi", a1); ("rsi", a2); ("rdx", a3); ("r10", a4); ("r8", a5)] ["rcx"; "r11"].
(* src/src/syscall/x86_64.rs:119-145 syscall6 *)
Definition syscall6 (nr a1 a2 a3 a4 a5 a6 : Z) : Asm :=
  mkAsm "syscall" ("rax", nr) [("rdi", a1); ("rsi", a2); ("rdx", a3); ("r10", a4); ("r8", a5); ("r9", a6)] ["rcx"; "r11"].
End X86_64.
Module Aarch64.
(* src/src/syscall/aarch64.rs:29-40 syscall1 *)
Definition syscall1 (nr a1 : Z) : Asm :=
  mkAsm "svc #0" ("x0", a1) [("x8", nr)] [].
(* src/src/syscall/aarch64.rs:43-55 syscall2 *)
Definition syscall2 (nr a1 a2 : Z) : Asm :=
  mkAsm "svc #0" ("x0", a1) [("x1", a2); ("x8", nr)] [].
(* src/src/syscall/aarch64.rs:58-71 syscall3 *)
Definition syscall3 (nr a1 a2 a3 : Z) : Asm :=
  mkAsm "svc #0" ("x0", a1) [("x1", a2); ("x2", a3); ("x8", nr)] [].
(* src/src/syscall/aarch64.rs:74-88 syscall4 *)
Definition syscall4 (nr a1 a2 a3 a4 : Z) : Asm :=
  mkAsm "svc #0" ("x0", a1) [("x1", a2); ("x2", a3); ("x3", a4); ("x8", nr)] [].
(* src/src/syscall/aarch64.rs:91-106 syscall5 *)
Definition syscall5 (nr a1 a2 a3 a4 a5 : Z) : Asm :=
  mkAsm "svc #0" ("x0", a1) [("x1", a2); ("x2", a3); ("x3", a4); ("x4", a5); ("x8", nr)] [].
(* src/src/syscall/aarch64.rs:109-133 syscall6 *)
Definition syscall6 (nr a1 a2 a3 a4 a5 a6 : Z) : Asm :=
  mkAsm "svc #0" ("x0", a1) [("x1", a2); ("x2", a3); ("x3", a4); ("x4", a5); ("x5", a6); ("x8", nr)] [].
End Aarch64.
Module Riscv64.
(* src/src/syscall/riscv64.rs:29-40 syscall1 *)
Definition syscall1 (nr a1 : Z) : Asm :=
  mkAsm "ecall" ("a0", a1) [("a7", nr)] [].
(* src/src/syscall/riscv64.rs:43-55 syscall2 *)
Definition syscall2 (nr a1 a2 : Z) : Asm :=
  mkAsm "ecall" ("a0", a1) [("a1", a2); ("a7", nr)] [].
(* src/src/syscall/riscv64.rs:58-71 syscall3 *)
Definition syscall3 (nr a1 a2 a3 : Z) : Asm :=
  mkAsm "ecall" ("a0", a1) [("a1", a2); ("a2", a3); ("a7", nr)] [].
(* src/src/syscall/riscv64.rs:74-88 syscall4 *)
Definition syscall4 (nr a1 a2 a3 a4 : Z) : Asm :=
  mkAsm "ecall" ("a0", a1) [("a1", a2); ("a2", a3); ("a3", a4); ("a7", nr)] [].
(* src/src/syscall/riscv64.rs:91-106 syscall5 *)
Definition syscall5 (nr a1 a2 a3 a4 a5 : Z) : Asm :=
  mkAsm "ecall" ("a0", a1) [("a1", a2); ("a2", a3); ("a3", a4); ("a4", a5); ("a7", nr)] [].
(* src/src/syscall/riscv64.rs:109-133 syscall6 *)
Definition syscall6 (nr a1 a2 a3 a4 a5 a6 : Z) : Asm :=
  mkAsm "ecall" ("a0", a1) [("a1", a2); ("a2", a3); ("a3", a4); ("a4", a5); ("a5", a6); ("a7", nr)] [].
End Riscv64.
Module Arm.
(* src/src/syscall/arm.rs:29-40 syscall1 *)
Definition syscall1 (nr a1 : Z) : Asm :=
  mkAsm "svc #0" ("r0", a1) [("r7", nr)] [].
(* src/src/syscall/arm.rs:43-55 syscall2 *)
Definition syscall2 (nr a1 a2 : Z) : Asm :=
  mkAsm "svc #0" ("r0", a1) [("r1", a2); ("r7", nr)] [].
(* src/src/syscall/arm.rs:58-71 syscall3 *)
Definition syscall3 (nr a1 a2 a3 : Z) : Asm :=
  mkAsm "svc #0" ("r0", a1) [("r1", a2); ("r2", a3); ("r7", nr)] [].
(* src/src/syscall/arm.rs:74-88 syscall4 *)
Definition syscall4 (nr a1 a2 a3 a4 : Z) : Asm :=
  mkAsm "svc #0" ("r0", a1) [("r1", a2); ("r2", a3); ("r3", a4); ("r7", nr)] [].
(* src/src/syscall/arm.rs:91-106 syscall5 *)
Definition syscall5 (nr a1 a2 a3 a4 a5 : Z) : Asm :=
  mkAsm "svc #0" ("r0", a1) [("r1", a2); ("r2", a3); ("r3", a4); ("r4", a5); ("r7", nr)] [].
(* src/src/syscall/arm.rs:109-133 syscall6 *)
Definition syscall6 (nr a1 a2 a3 a4 a5 a6 : Z) : Asm :=
  mkAsm "svc #0" ("r0", a1) [("r1", a2); ("r2", a3); ("r3", a4); ("r4", a5); ("r5", a6); ("r7", nr)] [].
End Arm.
(** The stub a wrapper uses is the one for its number of arguments. *)
Record Stubs : Type := mkStubs {
  stub1 : Z -> Z -> Asm; stub2 : Z -> Z -> Z -> Asm; stub3 : Z -> Z -> Z -> Z -> Asm;
  stub4 : Z -> Z -> Z -> Z -> Z -> Asm; stub5 : Z -> Z -> Z -> Z -> Z -> Z -> Asm;
  stub6 : Z -> Z -> Z -> Z -> Z -> Z -> Z -> Asm
}.
Definition stub (s : Stubs) (nr : Z) (args : list Z) : option Asm :=
  match args with
  | [a] => Some (stub1 s nr a)
  | [a; b] => Some (stub2 s nr a b)
  | [a; b; c] => Some (stub3 s nr a b c)
  | [a; b; c; d] => Some (stub4 s nr a b c d)
  | [a; b; c; d; e] => Some (stub5 s nr a b c d e)
  | [a; b; c; d; e; f] => Some (stub6 s nr a b c d e f)
  | _ => None
  end.

(** ** The calling convention *)
(** Linux's, by architecture: the instruction, the registers of the number, the
    arguments and the result, and those the call may overwrite besides. *)
Record Abi : Set := mkAbi {
  abi_instr : string; abi_nr : string; abi_args : list string; abi_ret : string;
  abi_scratch : list string
}.
Definition abi (t : Target) : Abi :=
  match t with
  | X86_64_t => mkAbi "syscall" "rax" ["rdi"; "rsi"; "rdx"; "r10"; "r8"; "r9"] "rax" ["rcx"; "r11"]
  | Aarch64_t => mkAbi "svc #0" "x8" ["x0"; "x1"; "x2"; "x3"; "x4"; "x5"] "x0" []
  | Riscv64_t => mkAbi "ecall" "a7" ["a0"; "a1"; "a2"; "a3"; "a4"; "a5"] "a0" []
  | Arm_t => mkAbi "svc #0" "r7" ["r0"; "r1"; "r2"; "r3"; "r4"; "r5"] "r0" []
  end.
Definition stubs (t : Target) : Stubs :=
  match t with
  | X86_64_t => mkStubs X86_64.syscall1 X86_64.syscall2 X86_64.syscall3 X86_64.syscall4 X86_64.syscall5 X86_64.syscall6
  | Aarch64_t => mkStubs Aarch64.syscall1 Aarch64.syscall2 Aarch64.syscall3 Aarch64.syscall4 Aarch64.syscall5 Aarch64.syscall6
  | Riscv64_t => mkStubs Riscv64.syscall1 Riscv64.syscall2 Riscv64.syscall3 Riscv64.syscall4 Riscv64.syscall5 Riscv64.syscall6
  | Arm_t => mkStubs Arm.syscall1 Arm.syscall2 Arm.syscall3 Arm.syscall4 Arm.syscall5 Arm.syscall6
  end.

(** A kernel that follows it: given a call's number and as many arguments as the
    call has, it makes the call [RawSyscall] describes. *)
Class TrapLaws (t : Target) (arity : Z -> nat) (K : Type) `{Trap K, RawSyscall K} := {
  trap_calls r w nr args :
    r !! abi_nr (abi t) = Some nr -> length args = arity nr ->
    (forall i a reg, args !! i = Some a -> abi_args (abi t) !! i = Some reg -> r !! reg = Some a) ->
    exists r', trap (abi_instr (abi t)) r w = (r', snd (syscall nr args w)) /\
      r' !! abi_ret (abi t) = Some (fst (syscall nr args w)) /\
      forall x, x ∉ abi_ret (abi t) :: abi_scratch (abi t) -> r' !! x = r !! x
}.

Lemma placed_lookup b r x v :
  (list_to_map (inlateout b :: ins b) : regs) !! x = Some v -> placed b r !! x = Some v.
Proof. apply lookup_union_Some_l. Qed.

(** What a stub places, and what running it gives. *)
Lemma stub_places t nr args b r :
  stub (stubs t) nr args = Some b ->
  instr b = abi_instr (abi t) /\ (inlateout b).1 = abi_ret (abi t) /\
  lateouts b = abi_scratch (abi t) /\ placed b r !! abi_nr (abi t) = Some nr /\
  (forall i a reg, args !! i = Some a -> abi_args (abi t) !! i = Some reg ->
    placed b r !! reg = Some a).
Proof.
  intros Hb. destruct args as [|? [|? [|? [|? [|? [|? [|? args]]]]]]]; try done; destruct t; injection Hb as <-;
    (split_and!; [reflexivity..|by apply placed_lookup|]; intros i a reg Hi Hr; apply placed_lookup;
     do 6 (destruct i as [|i]; [injection Hr as <-; first [done|injection Hi as <-; reflexivity]|try done]); done).
Qed.
Lemma stub_runs t arity {K} `{TrapLaws t arity K} r (w : World K) nr args b :
  length args = arity nr -> stub (stubs t) nr args = Some b ->
  exists r', run_asm b r w = (fst (syscall nr args w), r', snd (syscall nr args w)) /\
    forall x, x ∉ (inlateout b).1 :: lateouts b -> r' !! x = placed b r !! x.
Proof.
  intros Har Hb. destruct (stub_places t nr args b r Hb) as (Ei & Er & El & Hn & Ha).
  destruct (trap_calls (placed b r) w nr args Hn Har Ha) as (r' & Ht & Hret & Hx).
  exists r'. unfold run_asm. rewrite Ei, Ht, Er. split; [|by rewrite El].
  by rewrite (lookup_total_correct _ _ _ Hret).
Qed.

(** C29. On each architecture every stub puts the number and its arguments where
    the kernel looks for them, whatever the registers held, returns the kernel's
    result, and declares every register the call may change; there is one for
    each number of arguments from one to six. *)
Theorem stubs_exact t arity {K} `{TrapLaws t arity K} r (w : World K) nr args :
  length args = arity nr ->
  match stub (stubs t) nr args with
  | Some b =>
      let '(ret, r', w') := run_asm b r w in
      (ret, w') = syscall nr args w /\
      forall x, x ∉ (inlateout b).1 :: lateouts b -> r' !! x = placed b r !! x
  | None => args = [] \/ (6 < length args)%nat
  end.
Proof.
  intros Har. destruct (stub (stubs t) nr args) as [b|] eqn:Hb.
  - destruct (stub_runs t arity r w nr args b Har Hb) as (r' & -> & Hx).
    split; [|done]. by destruct (syscall nr args w).
  - destruct args as [|? [|? [|? [|? [|? [|? [|? args]]]]]]]; try done; [by left|right; cbn; lia].
Qed.

(** ** A kernel that follows the convention *)
Definition following (t : Target) (arity : Z -> nat) {K} `{RawSyscall K} : Trap K := fun i r w =>
  if decide (i = abi_instr (abi t)) then
    match r !! abi_nr (abi t) with
    | Some nr =>
        let '(ret, w') := syscall nr ((r !!!.) <$> take (arity nr) (abi_args (abi t))) w in
        (<[abi_ret (abi t) := ret]> (foldr (fun x => <[x := 0]>) r (abi_scratch (abi t))), w')
    | None => (r, w)
    end
  else (r, w).
Lemma following_laws t arity {K} `{RawSyscall K} :
  (forall nr, arity nr <= 6)%nat -> TrapLaws t arity K (H := following t arity).
Proof.
  intros H6. constructor. intros r w nr args Hn Hl Ha. unfold trap, following.
  rewrite decide_True, Hn by done.
  assert ((r !!!.) <$> take (arity nr) (abi_args (abi t)) = args) as ->.
  { apply list_eq_same_length with (length args); [done| |].
    - rewrite length_fmap, length_take, Hl. specialize (H6 nr). destruct t; cbn; lia.
    - intros i x y Hi Hx Hy. rewrite list_lookup_fmap, lookup_take_lt in Hx by lia.
      destruct (abi_args (abi t) !! i) as [reg|] eqn:Er; [|done]. injection Hx as <-.
      by apply lookup_total_correct, (Ha i). }
  destruct (syscall nr args w) as [ret w']. eexists. split; [done|]. cbn [fst].
  split; [by rewrite lookup_insert_eq|]. intros x Hx. apply not_elem_of_cons in Hx as [Hx Hs].
  rewrite lookup_insert_ne by done. destruct t; cbn in *; try done.
  apply not_elem_of_cons in Hs as [? Hs]. apply not_elem_of_cons in Hs as [? _].
  by rewrite !lookup_insert_ne.
Qed.

(** `eventfd2(3, 1)` on 32-bit ARM, by a kernel that answers a sum; `r4` keeps
    what it held. *)
Definition summing : RawSyscall unit := {| syscall nr args w := (foldr Z.add nr args, w) |}.
Definition two (nr : Z) : nat := 2.
Lemma stubs_exact_witness :
  let r : regs := {[ "r4" := 9 ]} in
  let w := mkWorld (fun _ => 0) tt in
  exists r', run_asm (H := following (H := summing) Arm_t two) (Arm.syscall2 356 3 1) r w = (360, r', w) /\
    r' !! "r4" = Some 9.
Proof.
  intros r w.
  pose proof (stubs_exact (H := following (H := summing) Arm_t two) (H0 := summing)
    (H1 := following_laws (H := summing) Arm_t two (fun _ => ltac:(unfold two; lia)))
    Arm_t two r w 356 [3; 1] eq_refl) as Hs.
  cbn [stub stubs stub2] in Hs. destruct (run_asm _ _ _) as [[ret r'] w'] eqn:Hr.
  destruct Hs as [Hc Hx]. injection Hc as -> ->. exists r'. split; [reflexivity|].
  rewrite Hx; [reflexivity|]. vm_compute. intros Hin. inversion Hin as [|? ? ? Hn]. inversion Hn.
Defined.
