(* ===== verification/Sqe.v ===== *)
(** * The 64-byte submission entry

    `IoUringSqe` (types/sqe_cqe.rs) with its union accessors, the chainable
    modifiers of `Sqe` (op/mod.rs), and the `repr(C)` byte image the kernel
    reads. *)
From stdpp Require Import base numbers list option.
From Stdlib Require Import ZArith Lia.
From S2P Require Import Prelude Flags Types.
Local Open Scope Z_scope.
Local Open Scope rust_scope.

Module IoUringSqe.
(* src/src/types/sqe_cqe.rs:21-52 IoUringSqe *)
Record t : Set := mk {
  opcode : Z;
  flags : Z;
  ioprio : Z;
  fd : Z;
  off : Z;
  addr : Z;
  len : Z;
  op_flags : Z;
  user_data : Z;
  buf_index : Z;
  personality : Z;
  splice_fd_in : Z;
  addr3 : Z;
  pad2 : Z
}.
End IoUringSqe.
Notation Sqe := IoUringSqe.t.

#[export] Instance Sqe_eq_dec : EqDecision Sqe.
Proof. unfold EqDecision, Decision. decide equality; apply Z.eq_dec. Defined.

(** Field assignment, `sqe.f = v`. *)
Section Setters.
  Import IoUringSqe.
  Implicit Types (s : Sqe) (v : Z).
Definition set_opcode v s := mk v (flags s) (ioprio s) (fd s) (off s) (addr s) (len s)
  (op_flags s) (user_data s) (buf_index s) (personality s) (splice_fd_in s) (addr3 s) (pad2 s).
Definition set_flags v s := mk (opcode s) v (ioprio s) (fd s) (off s) (addr s) (len s)
  (op_flags s) (user_data s) (buf_index s) (personality s) (splice_fd_in s) (addr3 s) (pad2 s).
Definition set_ioprio v s := mk (opcode s) (flags s) v (fd s) (off s) (addr s) (len s)
  (op_flags s) (user_data s) (buf_index s) (personality s) (splice_fd_in s) (addr3 s) (pad2 s).
Definition set_fd v s := mk (opcode s) (flags s) (ioprio s) v (off s) (addr s) (len s)
  (op_flags s) (user_data s) (buf_index s) (personality s) (splice_fd_in s) (addr3 s) (pad2 s).
Definition set_off v s := mk (opcode s) (flags s) (ioprio s) (fd s) v (addr s) (len s)
  (op_flags s) (user_data s) (buf_index s) (personality s) (splice_fd_in s) (addr3 s) (pad2 s).
Definition set_addr v s := mk (opcode s) (flags s) (ioprio s) (fd s) (off s) v (len s)
  (op_flags s) (user_data s) (buf_index s) (personality s) (splice_fd_in s) (addr3 s) (pad2 s).
Definition set_len v s := mk (opcode s) (flags s) (ioprio s) (fd s) (off s) (addr s) v
  (op_flags s) (user_data s) (buf_index s) (personality s) (splice_fd_in s) (addr3 s) (pad2 s).
Definition set_op_flags v s := mk (opcode s) (flags s) (ioprio s) (fd s) (off s) (addr s)
  (len s) v (user_data s) (buf_index s) (personality s) (splice_fd_in s) (addr3 s) (pad2 s).
Definition set_user_data v s := mk (opcode s) (flags s) (ioprio s) (fd s) (off s) (addr s)
  (len s) (op_flags s) v (buf_index s) (personality s) (splice_fd_in s) (addr3 s) (pad2 s).
Definition set_buf_index v s := mk (opcode s) (flags s) (ioprio s) (fd s) (off s) (addr s)
  (len s) (op_flags s) (user_data s) v (personality s) (splice_fd_in s) (addr3 s) (pad2 s).
Definition set_personality v s := mk (opcode s) (flags s) (ioprio s) (fd s) (off s) (addr s)
  (len s) (op_flags s) (user_data s) (buf_index s) v (splice_fd_in s) (addr3 s) (pad2 s).
Definition set_splice_fd_in v s := mk (opcode s) (flags s) (ioprio s) (fd s) (off s) (addr s)
  (len s) (op_flags s) (user_data s) (buf_index s) (personality s) v (addr3 s) (pad2 s).
Definition set_addr3 v s := mk (opcode s) (flags s) (ioprio s) (fd s) (off s) (addr s)
  (len s) (op_flags s) (user_data s) (buf_index s) (personality s) (splice_fd_in s) v (pad2 s).
Definition set_pad2 v s := mk (opcode s) (flags s) (ioprio s) (fd s) (off s) (addr s)
  (len s) (op_flags s) (user_data s) (buf_index s) (personality s) (splice_fd_in s) (addr3 s) v.
End Setters.

(* src/src/op/mod.rs:68-71 ZEROED *)
Definition ZEROED : Sqe := IoUringSqe.mk 0 0 0 0 0 0 0 0 0 0 0 0 0 0.

#[export] Instance Sqe_inhabited : Inhabited Sqe := populate ZEROED.

(** ** Well-formedness: every field fits its declared width *)
Record sqe_wf (s : Sqe) : Prop := {
  wf_opcode : in_u 8 (IoUringSqe.opcode s);
  wf_flags : in_u 8 (IoUringSqe.flags s);
  wf_ioprio : in_u 16 (IoUringSqe.ioprio s);
  wf_fd : in_i 32 (IoUringSqe.fd s);
  wf_off : in_u 64 (IoUringSqe.off s);
  wf_addr : in_u 64 (IoUringSqe.addr s);
  wf_len : in_u 32 (IoUringSqe.len s);
  wf_op_flags : in_u 32 (IoUringSqe.op_flags s);
  wf_user_data : in_u 64 (IoUringSqe.user_data s);
  wf_buf_index : in_u 16 (IoUringSqe.buf_index s);
  wf_personality : in_u 16 (IoUringSqe.personality s);
  wf_splice_fd_in : in_i 32 (IoUringSqe.splice_fd_in s);
  wf_addr3 : in_u 64 (IoUringSqe.addr3 s);
  wf_pad2 : in_u 64 (IoUringSqe.pad2 s)
}.

#[export] Instance sqe_wf_dec s : Decision (sqe_wf s).
Proof.
  destruct s as [a b c d e f g h i j k l m n].
  destruct (decide (in_u 8 a /\ in_u 8 b /\ in_u 16 c /\ in_i 32 d /\ in_u 64 e /\ in_u 64 f
    /\ in_u 32 g /\ in_u 32 h /\ in_u 64 i /\ in_u 16 j /\ in_u 16 k /\ in_i 32 l
    /\ in_u 64 m /\ in_u 64 n)) as [H|H].
  - left. split; simpl; tauto.
  - right. intros []. apply H. simpl in *. tauto.
Defined.

(** ** The union accessors *)
Module Accessors.
Import IoUringSqe.
(* src/src/types/sqe_cqe.rs:57-60 IoUringSqe::attr_ptr *)
Definition attr_ptr (self : Sqe) : Z := addr3 self.
(* src/src/types/sqe_cqe.rs:64-66 IoUringSqe::set_attr_ptr *)
Definition set_attr_ptr (ptr : Z) (self : Sqe) : Sqe := set_addr3 ptr self.
(* src/src/types/sqe_cqe.rs:70-73 IoUringSqe::attr_type_mask *)
Definition attr_type_mask (self : Sqe) : Z := pad2 self.
(* src/src/types/sqe_cqe.rs:77-79 IoUringSqe::set_attr_type_mask *)
Definition set_attr_type_mask (mask : Z) (self : Sqe) : Sqe := set_pad2 mask self.
(* src/src/types/sqe_cqe.rs:86-90 IoUringSqe::cmd_op *)
Definition cmd_op (self : Sqe) : Z := as_u32 (off self).
(* src/src/types/sqe_cqe.rs:96-98 IoUringSqe::set_cmd_op *)
Definition set_cmd_op (op : Z) (self : Sqe) : Sqe :=
  set_off ((off self &&& 0xFFFFFFFF00000000) ||| op) self.
(* src/src/types/sqe_cqe.rs:103-107 IoUringSqe::sock_level *)
Definition sock_level (self : Sqe) : Z := as_u32 (addr self).
(* src/src/types/sqe_cqe.rs:110-112 IoUringSqe::set_sock_level *)
Definition set_sock_level (level : Z) (self : Sqe) : Sqe :=
  set_addr ((addr self &&& 0xFFFFFFFF00000000) ||| level) self.
(* src/src/types/sqe_cqe.rs:116-120 IoUringSqe::sock_optname *)
Definition sock_optname (self : Sqe) : Z := as_u32 (addr self >>> 32).
(* src/src/types/sqe_cqe.rs:124-126 IoUringSqe::set_sock_optname *)
Definition set_sock_optname (optname : Z) (self : Sqe) : Sqe :=
  set_addr ((addr self &&& 0xFFFFFFFF) ||| as_u64 (optname <<< 32)) self.
(* src/src/types/sqe_cqe.rs:130-133 IoUringSqe::optlen *)
Definition optlen (self : Sqe) : Z := as_u32 (splice_fd_in self).
(* src/src/types/sqe_cqe.rs:136-138 IoUringSqe::set_optlen *)
Definition set_optlen (len : Z) (self : Sqe) : Sqe := set_splice_fd_in (as_i32 len) self.
(* src/src/types/sqe_cqe.rs:148-151 IoUringSqe::sock_optval *)
Definition sock_optval (self : Sqe) : Z := addr3 self.
(* src/src/types/sqe_cqe.rs:154-156 IoUringSqe::set_sock_optval *)
Definition set_sock_optval (optval : Z) (self : Sqe) : Sqe := set_addr3 optval self.
End Accessors.

(** A setter of one field keeps the other fields in range. *)
Ltac wf_field := intros [? ? ? ? ? ? ? ? ? ? ? ? ? ?] ?; split; cbn; assumption.
Lemma set_off_wf s v : sqe_wf s -> in_u 64 v -> sqe_wf (set_off v s).
Proof. wf_field. Qed.
Lemma set_addr_wf s v : sqe_wf s -> in_u 64 v -> sqe_wf (set_addr v s).
Proof. wf_field. Qed.
Lemma set_splice_fd_in_wf s v : sqe_wf s -> in_i 32 v -> sqe_wf (set_splice_fd_in v s).
Proof. wf_field. Qed.
Lemma set_flags_wf s v : sqe_wf s -> in_u 8 v -> sqe_wf (set_flags v s).
Proof. wf_field. Qed.
Lemma set_ioprio_wf s v : sqe_wf s -> in_u 16 v -> sqe_wf (set_ioprio v s).
Proof. wf_field. Qed.
Lemma set_buf_index_wf s v : sqe_wf s -> in_u 16 v -> sqe_wf (set_buf_index v s).
Proof. wf_field. Qed.
Lemma set_user_data_wf s v : sqe_wf s -> in_u 64 v -> sqe_wf (set_user_data v s).
Proof. wf_field. Qed.
Lemma set_personality_wf s v : sqe_wf s -> in_u 16 v -> sqe_wf (set_personality v s).
Proof. wf_field. Qed.
Lemma set_op_flags_wf s v : sqe_wf s -> in_u 32 v -> sqe_wf (set_op_flags v s).
Proof. wf_field. Qed.

Lemma set_opcode_wf s v : sqe_wf s -> in_u 8 v -> sqe_wf (set_opcode v s).
Proof. wf_field. Qed.
Lemma set_fd_wf s v : sqe_wf s -> in_i 32 v -> sqe_wf (set_fd v s).
Proof. wf_field. Qed.
Lemma set_len_wf s v : sqe_wf s -> in_u 32 v -> sqe_wf (set_len v s).
Proof. wf_field. Qed.
Lemma set_addr3_wf s v : sqe_wf s -> in_u 64 v -> sqe_wf (set_addr3 v s).
Proof. wf_field. Qed.
Lemma set_pad2_wf s v : sqe_wf s -> in_u 64 v -> sqe_wf (set_pad2 v s).
Proof. wf_field. Qed.
Lemma ZEROED_wf : sqe_wf ZEROED.
Proof. split; cbn; split; by vm_compute. Qed.

Create HintDb sqe_wf.
#[export] Hint Resolve set_off_wf set_addr_wf set_splice_fd_in_wf set_flags_wf set_ioprio_wf
  set_buf_index_wf set_user_data_wf set_personality_wf set_op_flags_wf set_opcode_wf
  set_fd_wf set_len_wf set_addr3_wf set_pad2_wf ZEROED_wf : sqe_wf.

Lemma in_u_mono w v z : 0 <= w <= v -> in_u w z -> in_u v z.
Proof. intros [? ?] [? ?]. split; [done|]. pose proof (Z.pow_le_mono_r 2 w v). lia. Qed.

(** The union accessors are lenses on disjoint bits: each setter is read
    back by its getter, and the two halves of `addr` (`sock_level`,
    `sock_optname`), like the two halves of `off`, do not disturb each other;
    the entry stays well formed. *)
Theorem accessors_are_lenses s x :
  sqe_wf s -> in_u 32 x ->
  (Accessors.cmd_op (Accessors.set_cmd_op x s) = x /\
   IoUringSqe.off (Accessors.set_cmd_op x s) >>> 32 = IoUringSqe.off s >>> 32 /\
   sqe_wf (Accessors.set_cmd_op x s)) /\
  (Accessors.sock_level (Accessors.set_sock_level x s) = x /\
   Accessors.sock_optname (Accessors.set_sock_level x s) = Accessors.sock_optname s /\
   sqe_wf (Accessors.set_sock_level x s)) /\
  (Accessors.sock_optname (Accessors.set_sock_optname x s) = x /\
   Accessors.sock_level (Accessors.set_sock_optname x s) = Accessors.sock_level s /\
   sqe_wf (Accessors.set_sock_optname x s)) /\
  Accessors.optlen (Accessors.set_optlen x s) = x /\ sqe_wf (Accessors.set_optlen x s).
Proof.
  intros Hwf Hx. pose proof (wf_off s Hwf) as Ho. pose proof (wf_addr s Hwf) as Ha.
  assert (in_u 64 x) as Hx' by (apply (in_u_mono 32); [lia|done]).
  assert (in_u 64 0xFFFFFFFF00000000) as Hm by (vm_compute; split; congruence).
  unfold Accessors.cmd_op, Accessors.set_cmd_op, Accessors.sock_level, Accessors.set_sock_level,
    Accessors.sock_optname, Accessors.set_sock_optname, Accessors.optlen, Accessors.set_optlen.
  destruct s; cbn in *. repeat split_and.
  - bits.
  - bits.
  - apply (set_off_wf _ _ Hwf). by apply lor_u_bound; [lia|apply land_u_bound|].
  - bits.
  - bits.
  - apply (set_addr_wf _ _ Hwf). by apply lor_u_bound; [lia|apply land_u_bound|].
  - bits.
  - bits.
  - apply (set_addr_wf _ _ Hwf). apply lor_u_bound; [lia| |by apply wrap_range].
    apply land_u_bound; [lia|]. vm_compute; split; congruence.
  - rewrite wrap_as_signed by lia. by apply wrap_small.
  - apply (set_splice_fd_in_wf _ _ Hwf). by apply as_signed_range.
Qed.

Lemma accessors_are_lenses_witness :
  sqe_wf ZEROED /\ Accessors.sock_level (Accessors.set_sock_level 41 ZEROED) = 41.
Proof.
  split; [exact ZEROED_wf|].
  exact (proj1 (proj1 (proj2 (accessors_are_lenses ZEROED 41 ZEROED_wf
    ltac:(split; vm_compute; congruence))))).
Defined.

(** ** The modifiers of [Sqe] *)
Module Modifiers.
Import IoUringSqe.
(* src/src/op/mod.rs:106-110 Sqe::user_data *)
Definition with_user_data (self : Sqe) (data : Z) : Sqe := set_user_data data self.
(* src/src/op/mod.rs:113-116 Sqe::get_user_data *)
Definition get_user_data (self : Sqe) : Z := user_data self.
(* src/src/op/mod.rs:119-123 Sqe::flags *)
Definition with_flags (self : Sqe) (f : Z) : Sqe := set_flags (flags self ||| f) self.
(* src/src/op/mod.rs:128-132 Sqe::link *)
Definition link (self : Sqe) : Sqe := set_flags (flags self ||| SqeFlags.IO_LINK) self.
(* src/src/op/mod.rs:137-141 Sqe::hardlink *)
Definition hardlink (self : Sqe) : Sqe :=
  set_flags (flags self ||| SqeFlags.IO_HARDLINK) self.
(* src/src/op/mod.rs:146-150 Sqe::fixed_file *)
Definition fixed_file (self : Sqe) : Sqe :=
  set_flags (flags self ||| SqeFlags.FIXED_FILE) self.
(* src/src/op/mod.rs:153-157 Sqe::drain *)
Definition drain (self : Sqe) : Sqe := set_flags (flags self ||| SqeFlags.IO_DRAIN) self.
(* src/src/op/mod.rs:164-168 Sqe::cqe_skip_success *)
Definition cqe_skip_success (self : Sqe) : Sqe :=
  set_flags (flags self ||| SqeFlags.CQE_SKIP_SUCCESS) self.
(* src/src/op/mod.rs:179-184 Sqe::buffer_select *)
Definition buffer_select (self : Sqe) (group_id : Z) : Sqe :=
  let self := set_flags (flags self ||| SqeFlags.BUFFER_SELECT) self in
  set_buf_index group_id self.
(* src/src/op/mod.rs:190-203 Sqe::with *)
Definition with_send_recv (self : Sqe) (flag : SendRecvFlag) : Sqe :=
  match flag with
  | PollFirst => set_ioprio (ioprio self ||| IORING_RECVSEND_POLL_FIRST) self
  | FixedBuf idx =>
      let self := set_ioprio (ioprio self ||| IORING_RECVSEND_FIXED_BUF) self in
      set_buf_index idx self
  | ReportUsage => set_ioprio (ioprio self ||| IORING_SEND_ZC_REPORT_USAGE) self
  | Bundle => set_ioprio (ioprio self ||| IORING_RECVSEND_BUNDLE) self
  | Vectorized => set_ioprio (ioprio self ||| IORING_SEND_VECTORIZED) self
  end.
(* src/src/op/mod.rs:211-218 Sqe::with_accept *)
Definition with_accept (self : Sqe) (flag : AcceptModifier) : Sqe :=
  match flag with
  | AcceptDontWait => set_ioprio (ioprio self ||| IORING_ACCEPT_DONTWAIT) self
  | AcceptPollFirst => set_ioprio (ioprio self ||| IORING_ACCEPT_POLL_FIRST) self
  end.
(** [RwAttrFlags::PI], the only attribute the kernel defines. *)
(* src/src/op/mod.rs:242-247 Sqe::with_pi_attr *)
Definition with_pi_attr (self : Sqe) (attr : Z) : Sqe :=
  let self := Accessors.set_attr_ptr (as_u64 attr) self in
  Accessors.set_attr_type_mask (1 <<< 0) self.
(* src/src/op/mod.rs:254-258 Sqe::personality *)
Definition with_personality (self : Sqe) (id : Z) : Sqe := set_personality id self.
End Modifiers.

Create HintDb sqe_ops.
#[export] Hint Unfold Accessors.set_cmd_op Accessors.set_sock_level Accessors.set_sock_optname
  Accessors.set_optlen Accessors.set_sock_optval Modifiers.buffer_select : sqe_ops.

(** ** The `repr(C)` image: 64 bytes, little-endian, no padding *)
(** The fields in declaration order with their widths in bytes. *)
Definition sqe_fields (s : Sqe) : list (nat * Z) :=
  [ (1%nat, IoUringSqe.opcode s); (1%nat, IoUringSqe.flags s); (2%nat, IoUringSqe.ioprio s);
    (4%nat, IoUringSqe.fd s); (8%nat, IoUringSqe.off s); (8%nat, IoUringSqe.addr s);
    (4%nat, IoUringSqe.len s); (4%nat, IoUringSqe.op_flags s); (8%nat, IoUringSqe.user_data s);
    (2%nat, IoUringSqe.buf_index s); (2%nat, IoUringSqe.personality s);
    (4%nat, IoUringSqe.splice_fd_in s); (8%nat, IoUringSqe.addr3 s); (8%nat, IoUringSqe.pad2 s) ].
(* src/src/types/sqe_cqe.rs:21-52 IoUringSqe *)
Definition sqe_bytes (s : Sqe) : list Z :=
  flat_map (fun '(n, v) => le_split n v) (sqe_fields s).

(** Reads the [n] bytes at offset [o]. *)
Definition read_le (bs : list Z) (o n : nat) : Z := le_combine (take n (drop o bs)).
(* src/src/types/sqe_cqe.rs:21-52 IoUringSqe *)
Definition sqe_of_bytes (bs : list Z) : Sqe :=
  IoUringSqe.mk (read_le bs 0 1) (read_le bs 1 1) (read_le bs 2 2)
    (as_i32 (read_le bs 4 4)) (read_le bs 8 8) (read_le bs 16 8) (read_le bs 24 4)
    (read_le bs 28 4) (read_le bs 32 8) (read_le bs 40 2) (read_le bs 42 2)
    (as_i32 (read_le bs 44 4)) (read_le bs 48 8) (read_le bs 56 8).

Lemma read_le_skip n v bs o m :
  (n <= o)%nat -> read_le (le_split n v ++ bs) o m = read_le bs (o - n) m.
Proof. intros. unfold read_le. rewrite drop_app_ge by (by rewrite le_split_length). by rewrite le_split_length. Qed.

Lemma read_le_here n v bs : read_le (le_split n v ++ bs) 0 n = wrap (8 * Z.of_nat n) v.
Proof.
  unfold read_le. rewrite drop_0, take_app_le by (by rewrite le_split_length).
  rewrite take_ge by (by rewrite le_split_length). apply le_combine_split.
Qed.

(** The byte image of an SQE is 64 bytes long and determines it: reading
    the image back at the offsets of the kernel's `struct io_uring_sqe` gives
    the same entry. *)
Theorem sqe_bytes_roundtrip s :
  sqe_wf s -> length (sqe_bytes s) = 64%nat /\ sqe_of_bytes (sqe_bytes s) = s.
Proof.
  intros [? ? ? ? ? ? ? ? ? ? ? ? ? ?]. split.
  { unfold sqe_bytes, sqe_fields. cbn [flat_map]. rewrite !length_app, !le_split_length. done. }
  unfold sqe_of_bytes, sqe_bytes, sqe_fields. cbn [flat_map].
  repeat (rewrite ?read_le_here; rewrite read_le_skip by lia; cbn [Nat.sub]).
  rewrite !read_le_here.
  change (8 * Z.of_nat 1) with 8. change (8 * Z.of_nat 2) with 16.
  change (8 * Z.of_nat 4) with 32. change (8 * Z.of_nat 8) with 64.
  destruct s; cbn in *. rewrite !as_signed_wrap by lia.
  rewrite !as_signed_small by (done || lia). by rewrite !wrap_small by done.
Qed.

Lemma sqe_bytes_roundtrip_witness :
  sqe_wf ZEROED /\ sqe_of_bytes (sqe_bytes ZEROED) = ZEROED.
Proof. split; [exact ZEROED_wf|]. exact (proj2 (sqe_bytes_roundtrip ZEROED ZEROED_wf)). Defined.
