(* ===== verification/SqeFile.v ===== *)
(** * Filesystem operations (op/file.rs)

    An SQE constructor fills the zeroed entry field by field.  A pointer is
    its address, a slice its address and length; a `&CStr`, `&MsgHdr`,
    `&Timespec` or `&mut Statx` argument is the address it is turned into.
    The `debug_assert!`s on slice lengths are compiled out of a release
    build, where the length is truncated by `as u32`: the theorems state the
    bound as a hypothesis. *)
From stdpp Require Import base numbers list.
From Stdlib Require Import ZArith Lia.
From S2P Require Import Prelude Flags Types Sqe.
Import Sqe.Accessors Sqe.Modifiers.
Local Open Scope Z_scope.
Local Open Scope rust_scope.


Module FileOps.
(** ** File and path operations *)
(* src/src/op/file.rs:14-20 Sqe::close *)
Definition close (fd : Z) : Sqe :=
  let sqe := ZEROED in
  let sqe := set_opcode (Opcode.raw Opcode.Close) sqe in
  let sqe := set_fd (RawFd.as_i32 fd) sqe in
  sqe.
(* src/src/op/file.rs:23-30 Sqe::fsync *)
Definition fsync (fd : Z) (flags : Z) : Sqe :=
  let sqe := ZEROED in
  let sqe := set_opcode (Opcode.raw Opcode.Fsync) sqe in
  let sqe := set_fd (RawFd.as_i32 fd) sqe in
  let sqe := set_op_flags flags sqe in
  sqe.
(* src/src/op/file.rs:33-36 Sqe::fdatasync *)
Definition fdatasync (fd : Z) : Sqe :=
  fsync fd FsyncFlags.DATASYNC.
(* src/src/op/file.rs:43-52 Sqe::sync_file_range *)
Definition sync_file_range (fd : Z) (offset : Z) (nbytes : Z) (flags : Z) : Sqe :=
  let sqe := ZEROED in
  let sqe := set_opcode (Opcode.raw Opcode.SyncFileRange) sqe in
  let sqe := set_fd (RawFd.as_i32 fd) sqe in
  let sqe := set_off offset sqe in
  let sqe := set_len nbytes sqe in
  let sqe := set_op_flags flags sqe in
  sqe.
(* src/src/op/file.rs:62-71 Sqe::fallocate *)
Definition fallocate (fd : Z) (mode : Z) (offset : Z) (len : Z) : Sqe :=
  let sqe := ZEROED in
  let sqe := set_opcode (Opcode.raw Opcode.Fallocate) sqe in
  let sqe := set_fd (RawFd.as_i32 fd) sqe in
  let sqe := set_off offset sqe in
  let sqe := set_addr len sqe in
  let sqe := set_len mode sqe in
  sqe.
(* src/src/op/file.rs:150-159 Sqe::read_ptr *)
Definition read_ptr (fd : Z) (buf : Z) (len : Z) (offset : Z) : Sqe :=
  let sqe := ZEROED in
  let sqe := set_opcode (Opcode.raw Opcode.Read) sqe in
  let sqe := set_fd (RawFd.as_i32 fd) sqe in
  let sqe := set_addr (as_u64 buf) sqe in
  let sqe := set_len len sqe in
  let sqe := set_off offset sqe in
  sqe.
(* src/src/op/file.rs:85-90 Sqe::read *)
Definition read (fd : Z) (buf : Slice) (offset : Z) : Sqe :=
  read_ptr fd (slice_ptr buf) (as_u32 (slice_len buf)) offset.
(* src/src/op/file.rs:167-176 Sqe::write_ptr *)
Definition write_ptr (fd : Z) (buf : Z) (len : Z) (offset : Z) : Sqe :=
  let sqe := ZEROED in
  let sqe := set_opcode (Opcode.raw Opcode.Write) sqe in
  let sqe := set_fd (RawFd.as_i32 fd) sqe in
  let sqe := set_addr (as_u64 buf) sqe in
  let sqe := set_len len sqe in
  let sqe := set_off offset sqe in
  sqe.
(* src/src/op/file.rs:103-108 Sqe::write *)
Definition write (fd : Z) (buf : Slice) (offset : Z) : Sqe :=
  write_ptr fd (slice_ptr buf) (as_u32 (slice_len buf)) offset.
(* src/src/op/file.rs:184-193 Sqe::readv_ptr *)
Definition readv_ptr (fd : Z) (iovecs : Z) (nr_vecs : Z) (offset : Z) : Sqe :=
  let sqe := ZEROED in
  let sqe := set_opcode (Opcode.raw Opcode.Readv) sqe in
  let sqe := set_fd (RawFd.as_i32 fd) sqe in
  let sqe := set_addr (as_u64 iovecs) sqe in
  let sqe := set_len nr_vecs sqe in
  let sqe := set_off offset sqe in
  sqe.
(* src/src/op/file.rs:120-125 Sqe::readv *)
Definition readv (fd : Z) (iovecs : Slice) (offset : Z) : Sqe :=
  readv_ptr fd (slice_ptr iovecs) (as_u32 (slice_len iovecs)) offset.
(* src/src/op/file.rs:201-210 Sqe::writev_ptr *)
Definition writev_ptr (fd : Z) (iovecs : Z) (nr_vecs : Z) (offset : Z) : Sqe :=
  let sqe := ZEROED in
  let sqe := set_opcode (Opcode.raw Opcode.Writev) sqe in
  let sqe := set_fd (RawFd.as_i32 fd) sqe in
  let sqe := set_addr (as_u64 iovecs) sqe in
  let sqe := set_len nr_vecs sqe in
  let sqe := set_off offset sqe in
  sqe.
(* src/src/op/file.rs:137-142 Sqe::writev *)
Definition writev (fd : Z) (iovecs : Slice) (offset : Z) : Sqe :=
  writev_ptr fd (slice_ptr iovecs) (as_u32 (slice_len iovecs)) offset.
(* src/src/op/file.rs:221-237 Sqe::read_fixed *)
Definition read_fixed (fd : Z) (buf : Z) (len : Z) (offset : Z) (buf_index : Z) : Sqe :=
  let sqe := ZEROED in
  let sqe := set_opcode (Opcode.raw Opcode.ReadFixed) sqe in
  let sqe := set_fd (RawFd.as_i32 fd) sqe in
  let sqe := set_addr (as_u64 buf) sqe in
  let sqe := set_len len sqe in
  let sqe := set_off offset sqe in
  let sqe := set_buf_index buf_index sqe in
  sqe.
(* src/src/op/file.rs:253-260 Sqe::read_multishot *)
Definition read_multishot (fd : Z) (offset : Z) (bgid : Z) : Sqe :=
  let sqe := ZEROED in
  let sqe := set_opcode (Opcode.raw Opcode.ReadMultishot) sqe in
  let sqe := set_fd (RawFd.as_i32 fd) sqe in
  let sqe := set_off offset sqe in
  buffer_select sqe bgid.
(* src/src/op/file.rs:271-287 Sqe::write_fixed *)
Definition write_fixed (fd : Z) (buf : Z) (len : Z) (offset : Z) (buf_index : Z) : Sqe :=
  let sqe := ZEROED in
  let sqe := set_opcode (Opcode.raw Opcode.WriteFixed) sqe in
  let sqe := set_fd (RawFd.as_i32 fd) sqe in
  let sqe := set_addr (as_u64 buf) sqe in
  let sqe := set_len len sqe in
  let sqe := set_off offset sqe in
  let sqe := set_buf_index buf_index sqe in
  sqe.
(* src/src/op/file.rs:301-317 Sqe::readv_fixed *)
Definition readv_fixed (fd : Z) (iovecs : Z) (nr_vecs : Z) (offset : Z) (buf_index : Z) : Sqe :=
  let sqe := ZEROED in
  let sqe := set_opcode (Opcode.raw Opcode.ReadvFixed) sqe in
  let sqe := set_fd (RawFd.as_i32 fd) sqe in
  let sqe := set_addr (as_u64 iovecs) sqe in
  let sqe := set_len nr_vecs sqe in
  let sqe := set_off offset sqe in
  let sqe := set_buf_index buf_index sqe in
  sqe.
(* src/src/op/file.rs:329-345 Sqe::writev_fixed *)
Definition writev_fixed (fd : Z) (iovecs : Z) (nr_vecs : Z) (offset : Z) (buf_index : Z) : Sqe :=
  let sqe := ZEROED in
  let sqe := set_opcode (Opcode.raw Opcode.WritevFixed) sqe in
  let sqe := set_fd (RawFd.as_i32 fd) sqe in
  let sqe := set_addr (as_u64 iovecs) sqe in
  let sqe := set_len nr_vecs sqe in
  let sqe := set_off offset sqe in
  let sqe := set_buf_index buf_index sqe in
  sqe.
(* src/src/op/file.rs:374-383 Sqe::openat_ptr *)
Definition openat_ptr (dfd : Z) (path : Z) (flags : Z) (mode : Z) : Sqe :=
  let sqe := ZEROED in
  let sqe := set_opcode (Opcode.raw Opcode.Openat) sqe in
  let sqe := set_fd dfd sqe in
  let sqe := set_addr (as_u64 path) sqe in
  let sqe := set_len mode sqe in
  let sqe := set_op_flags flags sqe in
  sqe.
(* src/src/op/file.rs:358-366 Sqe::openat *)
Definition openat (dfd : DirFd.t) (path : Z) (flags : Z) (mode : Z) : Sqe :=
  openat_ptr (DirFd.as_raw dfd) path flags mode.
(* src/src/op/file.rs:404-415 Sqe::openat_direct *)
Definition openat_direct (dfd : Z) (path : Z) (flags : Z) (mode : Z) (slot : Z) : Sqe :=
  let sqe := openat_ptr dfd path flags mode in
  let sqe := set_splice_fd_in slot sqe in
  sqe.
(* src/src/op/file.rs:450-464 Sqe::openat2_ptr *)
Definition openat2_ptr (dfd : Z) (path : Z) (how : Z) (how_size : Z) : Sqe :=
  let sqe := ZEROED in
  let sqe := set_opcode (Opcode.raw Opcode.Openat2) sqe in
  let sqe := set_fd dfd sqe in
  let sqe := set_addr (as_u64 path) sqe in
  let sqe := set_off (as_u64 how) sqe in
  let sqe := set_len how_size sqe in
  sqe.
(* src/src/op/file.rs:428-441 Sqe::openat2 *)
Definition openat2 (dfd : Z) (path : Z) (how : Z) : Sqe :=
  openat2_ptr dfd path how (as_u32 24).
(* src/src/op/file.rs:501-517 Sqe::statx_ptr *)
Definition statx_ptr (dfd : Z) (path : Z) (flags : Z) (mask : Z) (statx_buf : Z) : Sqe :=
  let sqe := ZEROED in
  let sqe := set_opcode (Opcode.raw Opcode.Statx) sqe in
  let sqe := set_fd dfd sqe in
  let sqe := set_off (as_u64 statx_buf) sqe in
  let sqe := set_addr (as_u64 path) sqe in
  let sqe := set_len mask sqe in
  let sqe := set_op_flags flags sqe in
  sqe.
(* src/src/op/file.rs:475-492 Sqe::statx *)
Definition statx (dfd : DirFd.t) (path : Z) (flags : Z) (mask : Z) (statx_buf : Z) : Sqe :=
  statx_ptr (DirFd.as_raw dfd) path flags mask statx_buf.
(* src/src/op/file.rs:552-569 Sqe::renameat_ptr *)
Definition renameat_ptr (old_dfd : Z) (old_path : Z) (new_dfd : Z) (new_path : Z) (flags : Z) : Sqe :=
  let sqe := ZEROED in
  let sqe := set_opcode (Opcode.raw Opcode.Renameat) sqe in
  let sqe := set_fd old_dfd sqe in
  let sqe := set_addr (as_u64 old_path) sqe in
  let sqe := set_len (as_u32 new_dfd) sqe in
  let sqe := set_off (as_u64 new_path) sqe in
  let sqe := set_op_flags flags sqe in
  sqe.
(* src/src/op/file.rs:527-544 Sqe::renameat *)
Definition renameat (old_dfd : DirFd.t) (old_path : Z) (new_dfd : DirFd.t) (new_path : Z) (flags : Z) : Sqe :=
  renameat_ptr (DirFd.as_raw old_dfd) old_path (DirFd.as_raw new_dfd) new_path flags.
(* src/src/op/file.rs:590-598 Sqe::unlinkat_ptr *)
Definition unlinkat_ptr (dfd : Z) (path : Z) (flags : Z) : Sqe :=
  let sqe := ZEROED in
  let sqe := set_opcode (Opcode.raw Opcode.Unlinkat) sqe in
  let sqe := set_fd dfd sqe in
  let sqe := set_addr (as_u64 path) sqe in
  let sqe := set_op_flags flags sqe in
  sqe.
(* src/src/op/file.rs:579-582 Sqe::unlinkat *)
Definition unlinkat (dfd : DirFd.t) (path : Z) (flags : Z) : Sqe :=
  unlinkat_ptr (DirFd.as_raw dfd) path flags.
(* src/src/op/file.rs:619-627 Sqe::mkdirat_ptr *)
Definition mkdirat_ptr (dfd : Z) (path : Z) (mode : Z) : Sqe :=
  let sqe := ZEROED in
  let sqe := set_opcode (Opcode.raw Opcode.Mkdirat) sqe in
  let sqe := set_fd dfd sqe in
  let sqe := set_addr (as_u64 path) sqe in
  let sqe := set_len mode sqe in
  sqe.
(* src/src/op/file.rs:608-611 Sqe::mkdirat *)
Definition mkdirat (dfd : DirFd.t) (path : Z) (mode : Z) : Sqe :=
  mkdirat_ptr (DirFd.as_raw dfd) path mode.
(* src/src/op/file.rs:669-677 Sqe::symlinkat_ptr *)
Definition symlinkat_ptr (old_path : Z) (new_dfd : Z) (new_path : Z) : Sqe :=
  let sqe := ZEROED in
  let sqe := set_opcode (Opcode.raw Opcode.Symlinkat) sqe in
  let sqe := set_fd new_dfd sqe in
  let sqe := set_addr (as_u64 old_path) sqe in
  let sqe := set_off (as_u64 new_path) sqe in
  sqe.
(* src/src/op/file.rs:648-661 Sqe::symlinkat *)
Definition symlinkat (old_path : Z) (new_dfd : DirFd.t) (new_path : Z) : Sqe :=
  symlinkat_ptr old_path (DirFd.as_raw new_dfd) new_path.
(* src/src/op/file.rs:724-741 Sqe::linkat_ptr *)
Definition linkat_ptr (old_dfd : Z) (old_path : Z) (new_dfd : Z) (new_path : Z) (flags : Z) : Sqe :=
  let sqe := ZEROED in
  let sqe := set_opcode (Opcode.raw Opcode.Linkat) sqe in
  let sqe := set_fd old_dfd sqe in
  let sqe := set_addr (as_u64 old_path) sqe in
  let sqe := set_len (as_u32 new_dfd) sqe in
  let sqe := set_off (as_u64 new_path) sqe in
  let sqe := set_op_flags flags sqe in
  sqe.
(* src/src/op/file.rs:699-716 Sqe::linkat *)
Definition linkat (old_dfd : DirFd.t) (old_path : Z) (new_dfd : DirFd.t) (new_path : Z) (flags : Z) : Sqe :=
  linkat_ptr (DirFd.as_raw old_dfd) old_path (DirFd.as_raw new_dfd) new_path flags.
(* src/src/op/file.rs:787-796 Sqe::getxattr_ptr *)
Definition getxattr_ptr (name : Z) (path : Z) (value : Z) (len : Z) : Sqe :=
  let sqe := ZEROED in
  let sqe := set_opcode (Opcode.raw Opcode.Getxattr) sqe in
  let sqe := set_addr (as_u64 name) sqe in
  let sqe := set_off (as_u64 value) sqe in
  let sqe := set_len len sqe in
  let sqe := set_addr3 (as_u64 path) sqe in
  sqe.
(* src/src/op/file.rs:762-778 Sqe::getxattr *)
Definition getxattr (name : Z) (path : Z) (value : Slice) : Sqe :=
  getxattr_ptr name path (slice_ptr value) (as_u32 (slice_len value)).
(* src/src/op/file.rs:829-838 Sqe::fgetxattr_ptr *)
Definition fgetxattr_ptr (fd : Z) (name : Z) (value : Z) (len : Z) : Sqe :=
  let sqe := ZEROED in
  let sqe := set_opcode (Opcode.raw Opcode.Fgetxattr) sqe in
  let sqe := set_fd (RawFd.as_i32 fd) sqe in
  let sqe := set_addr (as_u64 name) sqe in
  let sqe := set_off (as_u64 value) sqe in
  let sqe := set_len len sqe in
  sqe.
(* src/src/op/file.rs:808-820 Sqe::fgetxattr *)
Definition fgetxattr (fd : Z) (name : Z) (value : Slice) : Sqe :=
  fgetxattr_ptr fd name (slice_ptr value) (as_u32 (slice_len value)).
(* src/src/op/file.rs:882-898 Sqe::setxattr_ptr *)
Definition setxattr_ptr (name : Z) (path : Z) (value : Z) (len : Z) (flags : Z) : Sqe :=
  let sqe := ZEROED in
  let sqe := set_opcode (Opcode.raw Opcode.Setxattr) sqe in
  let sqe := set_addr (as_u64 name) sqe in
  let sqe := set_off (as_u64 value) sqe in
  let sqe := set_len len sqe in
  let sqe := set_op_flags flags sqe in
  let sqe := set_addr3 (as_u64 path) sqe in
  sqe.
(* src/src/op/file.rs:855-873 Sqe::setxattr *)
Definition setxattr (name : Z) (path : Z) (value : Slice) (flags : Z) : Sqe :=
  setxattr_ptr name path (slice_ptr value) (as_u32 (slice_len value)) flags.
(* src/src/op/file.rs:937-953 Sqe::fsetxattr_ptr *)
Definition fsetxattr_ptr (fd : Z) (name : Z) (value : Z) (len : Z) (flags : Z) : Sqe :=
  let sqe := ZEROED in
  let sqe := set_opcode (Opcode.raw Opcode.Fsetxattr) sqe in
  let sqe := set_fd (RawFd.as_i32 fd) sqe in
  let sqe := set_addr (as_u64 name) sqe in
  let sqe := set_off (as_u64 value) sqe in
  let sqe := set_len len sqe in
  let sqe := set_op_flags flags sqe in
  sqe.
(* src/src/op/file.rs:910-928 Sqe::fsetxattr *)
Definition fsetxattr (fd : Z) (name : Z) (value : Slice) (flags : Z) : Sqe :=
  fsetxattr_ptr fd name (slice_ptr value) (as_u32 (slice_len value)) flags.
(* src/src/op/file.rs:959-968 Sqe::fadvise *)
Definition fadvise (fd : Z) (offset : Z) (len : Z) (advice : FadviseAdvice.t) : Sqe :=
  let sqe := ZEROED in
  let sqe := set_opcode (Opcode.raw Opcode.Fadvise) sqe in
  let sqe := set_fd (RawFd.as_i32 fd) sqe in
  let sqe := set_off offset sqe in
  let sqe := set_len len sqe in
  let sqe := set_op_flags (FadviseAdvice.raw advice) sqe in
  sqe.
(* src/src/op/file.rs:978-986 Sqe::madvise *)
Definition madvise (addr : Z) (len : Z) (advice : MadviseAdvice.t) : Sqe :=
  let sqe := ZEROED in
  let sqe := set_opcode (Opcode.raw Opcode.Madvise) sqe in
  let sqe := set_addr (as_u64 addr) sqe in
  let sqe := set_len len sqe in
  let sqe := set_op_flags (MadviseAdvice.raw advice) sqe in
  sqe.
(* src/src/op/file.rs:993-1011 Sqe::splice *)
Definition splice (fd_out : Z) (off_out : Z) (fd_in : Z) (off_in : Z) (len : Z) (flags : Z) : Sqe :=
  let sqe := ZEROED in
  let sqe := set_opcode (Opcode.raw Opcode.Splice) sqe in
  let sqe := set_fd (RawFd.as_i32 fd_out) sqe in
  let sqe := set_off off_out sqe in
  let sqe := set_splice_fd_in (RawFd.as_i32 fd_in) sqe in
  let sqe := set_addr off_in sqe in
  let sqe := set_len len sqe in
  let sqe := set_op_flags flags sqe in
  sqe.
(* src/src/op/file.rs:1016-1025 Sqe::tee *)
Definition tee (fd_out : Z) (fd_in : Z) (len : Z) (flags : Z) : Sqe :=
  let sqe := ZEROED in
  let sqe := set_opcode (Opcode.raw Opcode.Tee) sqe in
  let sqe := set_fd (RawFd.as_i32 fd_out) sqe in
  let sqe := set_splice_fd_in (RawFd.as_i32 fd_in) sqe in
  let sqe := set_len len sqe in
  let sqe := set_op_flags flags sqe in
  sqe.
(* src/src/op/file.rs:1035-1042 Sqe::ftruncate *)
Definition ftruncate (fd : Z) (len : Z) : Sqe :=
  let sqe := ZEROED in
  let sqe := set_opcode (Opcode.raw Opcode.Ftruncate) sqe in
  let sqe := set_fd (RawFd.as_i32 fd) sqe in
  let sqe := set_off len sqe in
  sqe.
(* src/src/op/file.rs:1078-1085 Sqe::pipe_ptr *)
Definition pipe_ptr (fds : Z) (flags : Z) : Sqe :=
  let sqe := ZEROED in
  let sqe := set_opcode (Opcode.raw Opcode.Pipe) sqe in
  let sqe := set_addr (as_u64 fds) sqe in
  let sqe := set_op_flags flags sqe in
  sqe.
(* src/src/op/file.rs:1067-1070 Sqe::pipe *)
Definition pipe (fds : Z) (flags : Z) : Sqe :=
  pipe_ptr fds flags.
(* src/src/op/file.rs:1107-1112 Sqe::pipe_direct *)
Definition pipe_direct (fds : Z) (flags : Z) (slot : Z) : Sqe :=
  let sqe := pipe_ptr fds flags in
  let sqe := set_splice_fd_in slot sqe in
  sqe.
(* src/src/op/file.rs:1128-1136 Sqe::fixed_fd_install *)
Definition fixed_fd_install (slot : Z) (flags : Z) : Sqe :=
  let sqe := ZEROED in
  let sqe := set_opcode (Opcode.raw Opcode.FixedFdInstall) sqe in
  let sqe := set_fd (RawFd.as_i32 slot) sqe in
  let sqe := set_flags SqeFlags.FIXED_FILE sqe in
  let sqe := set_op_flags flags sqe in
  sqe.

(** The constructors unfold to their chains of field assignments. *)
#[global] Hint Unfold
  close fsync fdatasync sync_file_range fallocate read_ptr read write_ptr write
  readv_ptr readv writev_ptr writev read_fixed read_multishot write_fixed readv_fixed
  writev_fixed openat_ptr openat openat_direct openat2_ptr openat2 statx_ptr statx
  renameat_ptr renameat unlinkat_ptr unlinkat mkdirat_ptr mkdirat symlinkat_ptr
  symlinkat linkat_ptr linkat getxattr_ptr getxattr fgetxattr_ptr fgetxattr setxattr_ptr
  setxattr fsetxattr_ptr fsetxattr fadvise madvise splice tee ftruncate pipe_ptr pipe
  pipe_direct fixed_fd_install : sqe_ops.
End FileOps.
