(* ===== verification/SqeNet.v ===== *)
(** * Network, control and ring operations

    An SQE constructor fills the zeroed entry field by field.  A pointer is
    its address, a slice its address and length; a `&CStr`, `&MsgHdr`,
    `&Timespec` or `&mut Statx` argument is the address it is turned into.
    The `debug_assert!`s on slice lengths are compiled out of a release
    build, where the length is truncated by `as u32`: the theorems state the
    bound as a hypothesis. *)
From stdpp Require Import base numbers list.
From Stdlib Require Import ZArith Lia.
From S2P Require Import Prelude Flags Types Sqe.
Import Sqe.Accessors Sqe.Modifiers.
Local Open Scope Z_scope.
Local Open Scope rust_scope.


Module NetOps.
(** ** Sockets (op/net.rs) *)
(* src/src/op/net.rs:20-33 Sqe::socket *)
Definition socket (domain : AddressFamily.t) (sock_type : SocketType.t) (protocol : Z) (flags : Z) : Sqe :=
  let sqe := ZEROED in
  let sqe := set_opcode (Opcode.raw Opcode.Socket) sqe in
  let sqe := set_fd (AddressFamily.as_raw domain) sqe in
  let sqe := set_off (SocketType.with_flags sock_type flags) sqe in
  let sqe := set_len (as_u32 protocol) sqe in
  sqe.
(* src/src/op/net.rs:70-85 Sqe::socket_direct_at *)
Definition socket_direct_at (domain : AddressFamily.t) (sock_type : SocketType.t) (protocol : Z) (flags : Z) (slot : Z) : Sqe :=
  let sqe := ZEROED in
  let sqe := set_opcode (Opcode.raw Opcode.Socket) sqe in
  let sqe := set_fd (AddressFamily.as_raw domain) sqe in
  let sqe := set_off (SocketType.with_flags sock_type flags) sqe in
  let sqe := set_len (as_u32 protocol) sqe in
  let sqe := set_splice_fd_in slot sqe in
  sqe.
(* src/src/op/net.rs:49-59 Sqe::socket_direct *)
Definition socket_direct (domain : AddressFamily.t) (sock_type : SocketType.t) (protocol : Z) (flags : Z) : Sqe :=
  socket_direct_at domain sock_type protocol flags (-1).
(* src/src/op/net.rs:88-95 Sqe::shutdown *)
Definition shutdown (fd : Z) (how : ShutdownHow.t) : Sqe :=
  let sqe := ZEROED in
  let sqe := set_opcode (Opcode.raw Opcode.Shutdown) sqe in
  let sqe := set_fd (RawFd.as_i32 fd) sqe in
  let sqe := set_len (ShutdownHow.raw how) sqe in
  sqe.
(* src/src/op/net.rs:123-131 Sqe::bind_ptr *)
Definition bind_ptr (fd : Z) (addr : Z) (addrlen : Z) : Sqe :=
  let sqe := ZEROED in
  let sqe := set_opcode (Opcode.raw Opcode.Bind) sqe in
  let sqe := set_fd (RawFd.as_i32 fd) sqe in
  let sqe := set_addr (as_u64 addr) sqe in
  let sqe := set_off addrlen sqe in
  sqe.
(* src/src/op/net.rs:108-112 Sqe::bind *)
Definition bind (fd : Z) (addr : Slice) : Sqe :=
  bind_ptr fd (slice_ptr addr) (as_u32 (slice_len addr)).
(* src/src/op/net.rs:138-145 Sqe::listen *)
Definition listen (fd : Z) (backlog : Z) : Sqe :=
  let sqe := ZEROED in
  let sqe := set_opcode (Opcode.raw Opcode.Listen) sqe in
  let sqe := set_fd (RawFd.as_i32 fd) sqe in
  let sqe := set_len backlog sqe in
  sqe.
(* src/src/op/net.rs:167-175 Sqe::connect_ptr *)
Definition connect_ptr (fd : Z) (addr : Z) (addrlen : Z) : Sqe :=
  let sqe := ZEROED in
  let sqe := set_opcode (Opcode.raw Opcode.Connect) sqe in
  let sqe := set_fd (RawFd.as_i32 fd) sqe in
  let sqe := set_addr (as_u64 addr) sqe in
  let sqe := set_off addrlen sqe in
  sqe.
(* src/src/op/net.rs:155-159 Sqe::connect *)
Definition connect (fd : Z) (addr : Slice) : Sqe :=
  connect_ptr fd (slice_ptr addr) (as_u32 (slice_len addr)).
(* src/src/op/net.rs:192-206 Sqe::accept_ptr *)
Definition accept_ptr (fd : Z) (addr : Z) (addrlen : Z) (flags : Z) : Sqe :=
  let sqe := ZEROED in
  let sqe := set_opcode (Opcode.raw Opcode.Accept) sqe in
  let sqe := set_fd (RawFd.as_i32 fd) sqe in
  let sqe := set_addr (as_u64 addr) sqe in
  let sqe := set_off (as_u64 addrlen) sqe in
  let sqe := set_op_flags flags sqe in
  sqe.
(* src/src/op/net.rs:180-183 Sqe::accept *)
Definition accept (fd : Z) (flags : Z) : Sqe :=
  accept_ptr fd 0 0 flags.
(* src/src/op/net.rs:220-235 Sqe::accept_with_addr *)
Definition accept_with_addr (fd : Z) (addr : Z) (addrlen : Z) (flags : Z) : Sqe :=
  accept_ptr fd addr addrlen flags.
(* src/src/op/net.rs:241-249 Sqe::accept_multishot *)
Definition accept_multishot (fd : Z) (flags : Z) : Sqe :=
  let sqe := ZEROED in
  let sqe := set_opcode (Opcode.raw Opcode.Accept) sqe in
  let sqe := set_fd (RawFd.as_i32 fd) sqe in
  let sqe := set_op_flags flags sqe in
  let sqe := set_ioprio IORING_ACCEPT_MULTISHOT sqe in
  sqe.
(* src/src/op/net.rs:270-278 Sqe::accept_multishot_direct *)
Definition accept_multishot_direct (fd : Z) (flags : Z) : Sqe :=
  let sqe := accept_multishot fd flags in
  let sqe := set_splice_fd_in (-1) sqe in
  sqe.
(* src/src/op/net.rs:301-310 Sqe::send_ptr *)
Definition send_ptr (fd : Z) (buf : Z) (len : Z) (flags : Z) : Sqe :=
  let sqe := ZEROED in
  let sqe := set_opcode (Opcode.raw Opcode.Send) sqe in
  let sqe := set_fd (RawFd.as_i32 fd) sqe in
  let sqe := set_addr (as_u64 buf) sqe in
  let sqe := set_len len sqe in
  let sqe := set_op_flags flags sqe in
  sqe.
(* src/src/op/net.rs:288-293 Sqe::send *)
Definition send (fd : Z) (buf : Slice) (flags : Z) : Sqe :=
  send_ptr fd (slice_ptr buf) (as_u32 (slice_len buf)) flags.
(* src/src/op/net.rs:334-343 Sqe::recv_ptr *)
Definition recv_ptr (fd : Z) (buf : Z) (len : Z) (flags : Z) : Sqe :=
  let sqe := ZEROED in
  let sqe := set_opcode (Opcode.raw Opcode.Recv) sqe in
  let sqe := set_fd (RawFd.as_i32 fd) sqe in
  let sqe := set_addr (as_u64 buf) sqe in
  let sqe := set_len len sqe in
  let sqe := set_op_flags flags sqe in
  sqe.
(* src/src/op/net.rs:321-326 Sqe::recv *)
Definition recv (fd : Z) (buf : Slice) (flags : Z) : Sqe :=
  recv_ptr fd (slice_ptr buf) (as_u32 (slice_len buf)) flags.
(* src/src/op/net.rs:350-360 Sqe::recv_multishot *)
Definition recv_multishot (fd : Z) (flags : Z) : Sqe :=
  let sqe := ZEROED in
  let sqe := set_opcode (Opcode.raw Opcode.Recv) sqe in
  let sqe := set_fd (RawFd.as_i32 fd) sqe in
  let sqe := set_op_flags flags sqe in
  let sqe := set_ioprio IORING_RECV_MULTISHOT sqe in
  sqe.
(* src/src/op/net.rs:382-391 Sqe::sendmsg_ptr *)
Definition sendmsg_ptr (fd : Z) (msg : Z) (flags : Z) : Sqe :=
  let sqe := ZEROED in
  let sqe := set_opcode (Opcode.raw Opcode.SendMsg) sqe in
  let sqe := set_fd (RawFd.as_i32 fd) sqe in
  let sqe := set_addr (as_u64 msg) sqe in
  let sqe := set_len 1 sqe in
  let sqe := set_op_flags flags sqe in
  sqe.
(* src/src/op/net.rs:371-374 Sqe::sendmsg *)
Definition sendmsg (fd : Z) (msg : Z) (flags : Z) : Sqe :=
  sendmsg_ptr fd msg flags.
(* src/src/op/net.rs:413-422 Sqe::recvmsg_ptr *)
Definition recvmsg_ptr (fd : Z) (msg : Z) (flags : Z) : Sqe :=
  let sqe := ZEROED in
  let sqe := set_opcode (Opcode.raw Opcode.RecvMsg) sqe in
  let sqe := set_fd (RawFd.as_i32 fd) sqe in
  let sqe := set_addr (as_u64 msg) sqe in
  let sqe := set_len 1 sqe in
  let sqe := set_op_flags flags sqe in
  sqe.
(* src/src/op/net.rs:402-405 Sqe::recvmsg *)
Definition recvmsg (fd : Z) (msg : Z) (flags : Z) : Sqe :=
  recvmsg_ptr fd msg flags.
(* src/src/op/net.rs:434-446 Sqe::recvmsg_multishot *)
Definition recvmsg_multishot (fd : Z) (msg : Z) (flags : Z) : Sqe :=
  let sqe := ZEROED in
  let sqe := set_opcode (Opcode.raw Opcode.RecvMsg) sqe in
  let sqe := set_fd (RawFd.as_i32 fd) sqe in
  let sqe := set_addr (as_u64 msg) sqe in
  let sqe := set_len 1 sqe in
  let sqe := set_op_flags flags sqe in
  let sqe := set_ioprio IORING_RECV_MULTISHOT sqe in
  sqe.
(* src/src/op/net.rs:474-483 Sqe::send_zc_ptr *)
Definition send_zc_ptr (fd : Z) (buf : Z) (len : Z) (flags : Z) : Sqe :=
  let sqe := ZEROED in
  let sqe := set_opcode (Opcode.raw Opcode.SendZc) sqe in
  let sqe := set_fd (RawFd.as_i32 fd) sqe in
  let sqe := set_addr (as_u64 buf) sqe in
  let sqe := set_len len sqe in
  let sqe := set_op_flags flags sqe in
  sqe.
(* src/src/op/net.rs:461-466 Sqe::send_zc *)
Definition send_zc (fd : Z) (buf : Slice) (flags : Z) : Sqe :=
  send_zc_ptr fd (slice_ptr buf) (as_u32 (slice_len buf)) flags.
(* src/src/op/net.rs:514-523 Sqe::sendmsg_zc_ptr *)
Definition sendmsg_zc_ptr (fd : Z) (msg : Z) (flags : Z) : Sqe :=
  let sqe := ZEROED in
  let sqe := set_opcode (Opcode.raw Opcode.SendmsgZc) sqe in
  let sqe := set_fd (RawFd.as_i32 fd) sqe in
  let sqe := set_addr (as_u64 msg) sqe in
  let sqe := set_len 1 sqe in
  let sqe := set_op_flags flags sqe in
  sqe.
(* src/src/op/net.rs:502-505 Sqe::sendmsg_zc *)
Definition sendmsg_zc (fd : Z) (msg : Z) (flags : Z) : Sqe :=
  sendmsg_zc_ptr fd msg flags.

(** ** Timeouts, cancellation, polling (op/control.rs) *)
(* src/src/op/control.rs:8-13 Sqe::nop *)
Definition nop : Sqe :=
  let sqe := ZEROED in
  let sqe := set_opcode (Opcode.raw Opcode.Nop) sqe in
  sqe.
(* src/src/op/control.rs:18-24 Sqe::timeout_remove *)
Definition timeout_remove (target_user_data : Z) : Sqe :=
  let sqe := ZEROED in
  let sqe := set_opcode (Opcode.raw Opcode.TimeoutRemove) sqe in
  let sqe := set_addr target_user_data sqe in
  sqe.
(* src/src/op/control.rs:44-51 Sqe::cancel_with_flags *)
Definition cancel_with_flags (target_user_data : Z) (flags : Z) : Sqe :=
  let sqe := ZEROED in
  let sqe := set_opcode (Opcode.raw Opcode.AsyncCancel) sqe in
  let sqe := set_addr target_user_data sqe in
  let sqe := set_op_flags flags sqe in
  sqe.
(* src/src/op/control.rs:33-36 Sqe::cancel *)
Definition cancel (target_user_data : Z) : Sqe :=
  cancel_with_flags target_user_data empty_flags.
(* src/src/op/control.rs:66-73 Sqe::cancel_fd *)
Definition cancel_fd (fd : Z) (extra : Z) : Sqe :=
  let sqe := ZEROED in
  let sqe := set_opcode (Opcode.raw Opcode.AsyncCancel) sqe in
  let sqe := set_fd (RawFd.as_i32 fd) sqe in
  let sqe := set_op_flags (CancelFlags.FD ||| extra) sqe in
  sqe.
(* src/src/op/control.rs:83-89 Sqe::cancel_any *)
Definition cancel_any (extra : Z) : Sqe :=
  let sqe := ZEROED in
  let sqe := set_opcode (Opcode.raw Opcode.AsyncCancel) sqe in
  let sqe := set_op_flags (CancelFlags.ANY ||| extra) sqe in
  sqe.
(* src/src/op/control.rs:108-115 Sqe::poll_add *)
Definition poll_add (fd : Z) (mask : Z) : Sqe :=
  let sqe := ZEROED in
  let sqe := set_opcode (Opcode.raw Opcode.PollAdd) sqe in
  let sqe := set_fd (RawFd.as_i32 fd) sqe in
  let sqe := set_op_flags mask sqe in
  sqe.
(* src/src/op/control.rs:120-126 Sqe::poll_remove *)
Definition poll_remove (target_user_data : Z) : Sqe :=
  let sqe := ZEROED in
  let sqe := set_opcode (Opcode.raw Opcode.PollRemove) sqe in
  let sqe := set_addr target_user_data sqe in
  sqe.
(* src/src/op/control.rs:166-175 Sqe::timeout_ptr *)
Definition timeout_ptr (ts : Z) (count : Z) (flags : Z) : Sqe :=
  let sqe := ZEROED in
  let sqe := set_opcode (Opcode.raw Opcode.Timeout) sqe in
  let sqe := set_addr (as_u64 ts) sqe in
  let sqe := set_len 1 sqe in
  let sqe := set_off count sqe in
  let sqe := set_op_flags flags sqe in
  sqe.
(* src/src/op/control.rs:139-142 Sqe::timeout *)
Definition timeout (ts : Z) (count : Z) (flags : Z) : Sqe :=
  timeout_ptr ts count flags.
(* src/src/op/control.rs:183-191 Sqe::link_timeout_ptr *)
Definition link_timeout_ptr (ts : Z) (flags : Z) : Sqe :=
  let sqe := ZEROED in
  let sqe := set_opcode (Opcode.raw Opcode.LinkTimeout) sqe in
  let sqe := set_addr (as_u64 ts) sqe in
  let sqe := set_len 1 sqe in
  let sqe := set_op_flags flags sqe in
  sqe.
(* src/src/op/control.rs:155-158 Sqe::link_timeout *)
Definition link_timeout (ts : Z) (flags : Z) : Sqe :=
  link_timeout_ptr ts flags.
(* src/src/op/control.rs:98-103 Sqe::cancel_matching_opcode *)
Definition cancel_matching_opcode (sqe : Sqe) (opcode : Opcode.t) : Sqe :=
  let sqe := set_op_flags (IoUringSqe.op_flags sqe ||| CancelFlags.OP) sqe in
  let sqe := set_len (Opcode.raw opcode) sqe in
  sqe.

(** ** Socket commands (op/socket_cmd.rs) *)
(* src/src/op/socket_cmd.rs:26-32 Sqe::uring_cmd_sock_op *)
Definition uring_cmd_sock_op (fd : Z) (op : SocketUringCmdOp.t) : Sqe :=
  let sqe := ZEROED in
  let sqe := set_opcode (Opcode.raw Opcode.UringCmd) sqe in
  let sqe := set_fd (RawFd.as_i32 fd) sqe in
  let sqe := set_cmd_op (SocketUringCmdOp.raw op) sqe in
  sqe.
(* src/src/op/socket_cmd.rs:14-17 Sqe::uring_cmd_sock_inq *)
Definition uring_cmd_sock_inq (fd : Z) : Sqe :=
  uring_cmd_sock_op fd SocketUringCmdOp.SiocInq.
(* src/src/op/socket_cmd.rs:21-24 Sqe::uring_cmd_sock_outq *)
Definition uring_cmd_sock_outq (fd : Z) : Sqe :=
  uring_cmd_sock_op fd SocketUringCmdOp.SiocOutq.
(* src/src/op/socket_cmd.rs:48-65 Sqe::uring_cmd_sock_getsockopt *)
Definition uring_cmd_sock_getsockopt (fd : Z) (level : Z) (optname : Z) (optval : Slice) : Sqe :=
  let sqe := ZEROED in
  let sqe := set_opcode (Opcode.raw Opcode.UringCmd) sqe in
  let sqe := set_fd (RawFd.as_i32 fd) sqe in
  let sqe := set_cmd_op (SocketUringCmdOp.raw SocketUringCmdOp.GetSockOpt) sqe in
  let sqe := set_sock_level level sqe in
  let sqe := set_sock_optname optname sqe in
  let sqe := set_sock_optval (as_u64 (slice_ptr optval)) sqe in
  let sqe := set_optlen (as_u32 (slice_len optval)) sqe in
  sqe.
(* src/src/op/socket_cmd.rs:79-96 Sqe::uring_cmd_sock_setsockopt *)
Definition uring_cmd_sock_setsockopt (fd : Z) (level : Z) (optname : Z) (optval : Slice) : Sqe :=
  let sqe := ZEROED in
  let sqe := set_opcode (Opcode.raw Opcode.UringCmd) sqe in
  let sqe := set_fd (RawFd.as_i32 fd) sqe in
  let sqe := set_cmd_op (SocketUringCmdOp.raw SocketUringCmdOp.SetSockOpt) sqe in
  let sqe := set_sock_level level sqe in
  let sqe := set_sock_optname optname sqe in
  let sqe := set_sock_optval (as_u64 (slice_ptr optval)) sqe in
  let sqe := set_optlen (as_u32 (slice_len optval)) sqe in
  sqe.
(* src/src/op/socket_cmd.rs:127-136 Sqe::uring_cmd_sock_name *)
Definition uring_cmd_sock_name (fd : Z) (addr : Z) (addr_len : Z) (peer : bool) : Sqe :=
  let sqe := ZEROED in
  let sqe := set_opcode (Opcode.raw Opcode.UringCmd) sqe in
  let sqe := set_fd (RawFd.as_i32 fd) sqe in
  let sqe := set_cmd_op (SocketUringCmdOp.raw SocketUringCmdOp.GetSockName) sqe in
  let sqe := set_addr (as_u64 addr) sqe in
  let sqe := set_addr3 (as_u64 addr_len) sqe in
  let sqe := set_optlen (Z.b2z peer) sqe in
  sqe.
(* src/src/op/socket_cmd.rs:110-113 Sqe::uring_cmd_sock_getsockname *)
Definition uring_cmd_sock_getsockname (fd : Z) (addr : Z) (addr_len : Z) : Sqe :=
  uring_cmd_sock_name fd addr addr_len false.
(* src/src/op/socket_cmd.rs:122-125 Sqe::uring_cmd_sock_getpeername *)
Definition uring_cmd_sock_getpeername (fd : Z) (addr : Z) (addr_len : Z) : Sqe :=
  uring_cmd_sock_name fd addr addr_len true.

(** ** Cross-ring messages (op/msgring.rs) *)
(* src/src/op/msgring.rs:12-14 IORING_MSG_SEND_FD *)
Definition IORING_MSG_SEND_FD : Z := 1.
(* src/src/op/msgring.rs:34-48 Sqe::msg_ring_with_flags *)
Definition msg_ring_with_flags (target_ring : Z) (len : Z) (data : Z) (flags : Z) : Sqe :=
  let sqe := ZEROED in
  let sqe := set_opcode (Opcode.raw Opcode.MsgRing) sqe in
  let sqe := set_fd (RawFd.as_i32 target_ring) sqe in
  let sqe := set_len len sqe in
  let sqe := set_off data sqe in
  let sqe := set_op_flags flags sqe in
  sqe.
(* src/src/op/msgring.rs:28-31 Sqe::msg_ring *)
Definition msg_ring (target_ring : Z) (len : Z) (data : Z) : Sqe :=
  msg_ring_with_flags target_ring len data empty_flags.
(* src/src/op/msgring.rs:55-65 Sqe::msg_ring_cqe_flags *)
Definition msg_ring_cqe_flags (target_ring : Z) (len : Z) (data : Z) (cqe_flags : Z) : Sqe :=
  let sqe := msg_ring_with_flags target_ring len data MsgRingFlags.FLAGS_PASS in
  let sqe := set_splice_fd_in (as_i32 cqe_flags) sqe in
  sqe.
(* src/src/op/msgring.rs:93-113 Sqe::msg_ring_fd_with_flags *)
Definition msg_ring_fd_with_flags (target_ring : Z) (source_fd : Z) (target : Z) (data : Z) (flags : Z) : Sqe :=
  let sqe := ZEROED in
  let sqe := set_opcode (Opcode.raw Opcode.MsgRing) sqe in
  let sqe := set_fd (RawFd.as_i32 target_ring) sqe in
  let sqe := set_addr IORING_MSG_SEND_FD sqe in
  let sqe := set_off data sqe in
  let sqe := set_addr3 (as_u64 (RawFd.as_i32 source_fd)) sqe in
  let sqe := set_splice_fd_in target sqe in
  let sqe := set_op_flags flags sqe in
  sqe.
(* src/src/op/msgring.rs:86-89 Sqe::msg_ring_fd *)
Definition msg_ring_fd (target_ring : Z) (source_fd : Z) (target : Z) (data : Z) : Sqe :=
  msg_ring_fd_with_flags target_ring source_fd target data empty_flags.

(** ** Futexes (op/futex.rs) *)
(* src/src/op/futex.rs:34-46 Sqe::futex_wait *)
Definition futex_wait (uaddr : Z) (val : Z) (mask : Z) (flags : Z) : Sqe :=
  let sqe := ZEROED in
  let sqe := set_opcode (Opcode.raw Opcode.FutexWait) sqe in
  let sqe := set_addr (as_u64 uaddr) sqe in
  let sqe := set_off val sqe in
  let sqe := set_addr3 mask sqe in
  let sqe := set_fd (as_i32 flags) sqe in
  sqe.
(* src/src/op/futex.rs:63-75 Sqe::futex_wake *)
Definition futex_wake (uaddr : Z) (count : Z) (mask : Z) (flags : Z) : Sqe :=
  let sqe := ZEROED in
  let sqe := set_opcode (Opcode.raw Opcode.FutexWake) sqe in
  let sqe := set_addr (as_u64 uaddr) sqe in
  let sqe := set_off count sqe in
  let sqe := set_addr3 mask sqe in
  let sqe := set_fd (as_i32 flags) sqe in
  sqe.
(* src/src/op/futex.rs:108-115 Sqe::futex_waitv_ptr *)
Definition futex_waitv_ptr (waiters : Z) (count : Z) : Sqe :=
  let sqe := ZEROED in
  let sqe := set_opcode (Opcode.raw Opcode.FutexWaitv) sqe in
  let sqe := set_addr (as_u64 waiters) sqe in
  let sqe := set_len count sqe in
  sqe.
(* src/src/op/futex.rs:94-99 Sqe::futex_waitv *)
Definition futex_waitv (waiters : Slice) : Sqe :=
  futex_waitv_ptr (slice_ptr waiters) (as_u32 (slice_len waiters)).

(** ** Epoll (op/epoll.rs) *)
(* src/src/op/epoll.rs:65-72 Sqe::clamp_max_events *)
Definition clamp_max_events (len : Z) : Z :=
  if len >? 4294967295 then 4294967295 else as_u32 len.
(* src/src/op/epoll.rs:29-43 Sqe::epoll_ctl_ptr *)
Definition epoll_ctl_ptr (epfd : Z) (op : EpollOp.t) (fd : Z) (event : Z) : Sqe :=
  let sqe := ZEROED in
  let sqe := set_opcode (Opcode.raw Opcode.EpollCtl) sqe in
  let sqe := set_fd (RawFd.as_i32 epfd) sqe in
  let sqe := set_off (as_u64 (RawFd.as_i32 fd)) sqe in
  let sqe := set_addr (as_u64 event) sqe in
  let sqe := set_len (EpollOp.raw op) sqe in
  sqe.
(* src/src/op/epoll.rs:18-21 Sqe::epoll_ctl *)
Definition epoll_ctl (epfd : Z) (op : EpollOp.t) (fd : Z) (event : Z) : Sqe :=
  epoll_ctl_ptr epfd op fd event.
(* src/src/op/epoll.rs:80-88 Sqe::epoll_wait_ptr *)
Definition epoll_wait_ptr (epfd : Z) (events : Z) (max_events : Z) : Sqe :=
  let sqe := ZEROED in
  let sqe := set_opcode (Opcode.raw Opcode.EpollWait) sqe in
  let sqe := set_fd (RawFd.as_i32 epfd) sqe in
  let sqe := set_addr (as_u64 events) sqe in
  let sqe := set_len max_events sqe in
  sqe.
(* src/src/op/epoll.rs:59-63 Sqe::epoll_wait *)
Definition epoll_wait (epfd : Z) (events : Slice) : Sqe :=
  let max_events := (clamp_max_events (slice_len events)) in
  epoll_wait_ptr epfd (slice_ptr events) max_events.

(** ** Legacy provided buffers and file tables (op/buffers.rs) *)
(* src/src/op/buffers.rs:16-33 Sqe::provide_buffers *)
Definition provide_buffers (addr : Z) (buf_size : Z) (count : Z) (bgid : Z) (buf_id : Z) : Sqe :=
  let sqe := ZEROED in
  let sqe := set_opcode (Opcode.raw Opcode.ProvideBuffers) sqe in
  let sqe := set_fd count sqe in
  let sqe := set_addr (as_u64 addr) sqe in
  let sqe := set_len buf_size sqe in
  let sqe := set_off buf_id sqe in
  let sqe := set_buf_index bgid sqe in
  sqe.
(* src/src/op/buffers.rs:38-45 Sqe::remove_buffers *)
Definition remove_buffers (count : Z) (bgid : Z) : Sqe :=
  let sqe := ZEROED in
  let sqe := set_opcode (Opcode.raw Opcode.RemoveBuffers) sqe in
  let sqe := set_fd count sqe in
  let sqe := set_buf_index bgid sqe in
  sqe.
(* src/src/op/buffers.rs:56-65 Sqe::files_update_ptr *)
Definition files_update_ptr (fds : Z) (nr_fds : Z) (offset : Z) : Sqe :=
  let sqe := ZEROED in
  let sqe := set_opcode (Opcode.raw Opcode.FilesUpdate) sqe in
  let sqe := set_addr (as_u64 fds) sqe in
  let sqe := set_len nr_fds sqe in
  let sqe := set_off offset sqe in
  sqe.
(* src/src/op/buffers.rs:75-80 Sqe::files_update *)
Definition files_update (fds : Slice) (offset : Z) : Sqe :=
  files_update_ptr (slice_ptr fds) (as_u32 (slice_len fds)) offset.

(** ** Child processes (op/waitid.rs) *)
(* src/src/op/waitid.rs:26-45 Sqe::waitid *)
Definition waitid (id_type : IdType.t) (id : Z) (infop : Z) (options : Z) : Sqe :=
  let sqe := ZEROED in
  let sqe := set_opcode (Opcode.raw Opcode.WaitId) sqe in
  let sqe := set_fd id sqe in
  let sqe := set_len (IdType.as_raw id_type) sqe in
  let sqe := set_splice_fd_in (as_i32 options) sqe in
  let sqe := set_off (as_u64 infop) sqe in
  sqe.

(** The constructors unfold to their chains of field assignments. *)
#[global] Hint Unfold
  socket socket_direct_at socket_direct shutdown bind_ptr bind listen connect_ptr
  connect accept_ptr accept accept_with_addr accept_multishot accept_multishot_direct
  send_ptr send recv_ptr recv recv_multishot sendmsg_ptr sendmsg recvmsg_ptr recvmsg
  recvmsg_multishot send_zc_ptr send_zc sendmsg_zc_ptr sendmsg_zc nop timeout_remove
  cancel_with_flags cancel cancel_fd cancel_any poll_add poll_remove timeout_ptr timeout
  link_timeout_ptr link_timeout cancel_matching_opcode uring_cmd_sock_op
  uring_cmd_sock_inq uring_cmd_sock_outq uring_cmd_sock_getsockopt
  uring_cmd_sock_setsockopt uring_cmd_sock_name uring_cmd_sock_getsockname
  uring_cmd_sock_getpeername msg_ring_with_flags msg_ring msg_ring_cqe_flags
  msg_ring_fd_with_flags msg_ring_fd futex_wait futex_wake futex_waitv_ptr futex_waitv
  epoll_ctl_ptr epoll_ctl epoll_wait_ptr epoll_wait provide_buffers remove_buffers
  files_update_ptr files_update waitid : sqe_ops.
End NetOps.
