(* ===== verification/SqeSpec.v ===== *)
(** * The operation encodings against their reading

    A [call] is a request with its arguments; [build] is the constructor of
    `op/` that encodes it and [decode] reads the operands back from the
    fields the io_uring ABI assigns to its opcode.  The theorems: every
    encoding is well formed, travels under its own opcode, leaves the user
    tag and the personality zero, and determines every argument. *)
From stdpp Require Import base numbers list option.
From Stdlib Require Import ZArith Lia.
From S2P Require Import Prelude Flags Types Sqe SqeFile SqeNet.
Import Sqe.Accessors.
Local Open Scope Z_scope.
Local Open Scope rust_scope.

Section Spec.
  Context {PW : PtrWidth}.
  Import IoUringSqe.

Definition fd_ok (fd : Z) : Prop := 0 <= fd < 2 ^ 31.
Definition ptr_ok (p : Z) : Prop := in_u usize_bits p.
Definition slice_ok (s : Slice) : Prop := ptr_ok (slice_ptr s) /\ in_u 32 (slice_len s).

(** Reading the enumerated operands. *)
Definition fadvise_of (z : Z) : FadviseAdvice.t :=
  match z with
  | 0 => FadviseAdvice.Normal | 1 => FadviseAdvice.Random | 2 => FadviseAdvice.Sequential
  | 3 => FadviseAdvice.WillNeed | 4 => FadviseAdvice.DontNeed | _ => FadviseAdvice.NoReuse
  end.
Definition madvise_of (z : Z) : MadviseAdvice.t :=
  match z with
  | 0 => MadviseAdvice.Normal | 1 => MadviseAdvice.Random | 2 => MadviseAdvice.Sequential
  | 3 => MadviseAdvice.WillNeed | 4 => MadviseAdvice.DontNeed | 8 => MadviseAdvice.Free
  | 16 => MadviseAdvice.DontDump | 11 => MadviseAdvice.DoFork | _ => MadviseAdvice.DontFork
  end.
Definition family_of (z : Z) : AddressFamily.t :=
  match z with 2 => AddressFamily.Inet | _ => AddressFamily.Inet6 end.
(** `socket(2)`: the low four bits are the type, the rest are its flags. *)
Definition socktype_of (z : Z) : SocketType.t :=
  match z &&& 15 with 1 => SocketType.Stream | _ => SocketType.Dgram end.
Definition sockflags_of (z : Z) : Z := z &&& 0xFFFFFFF0.
Definition shutdown_of (z : Z) : ShutdownHow.t :=
  match z with 0 => ShutdownHow.Read | 1 => ShutdownHow.Write | _ => ShutdownHow.Both end.
Definition epollop_of (z : Z) : EpollOp.t :=
  match z with 1 => EpollOp.Add | 2 => EpollOp.Del | _ => EpollOp.Mod end.
Definition idtype_of (z : Z) : IdType.t :=
  match z with 0 => IdType.All | 1 => IdType.Pid | 2 => IdType.Pgid | _ => IdType.PidFd end.
(** The caller's cancel flags, less the key bits `cancel_fd`/`cancel_any` add. *)
Definition cancel_extra (z : Z) : Z := z &&& 0xFFFFFFF9.
Definition sockopt_slice (s : Sqe) : Slice := mkSlice (sock_optval s) (optlen s).
Definition peer_of (s : Sqe) : bool := negb (optlen s =? 0).

(** ** Requests

    One constructor per distinct request the crate can encode, with the
    arguments its caller gives. *)
Inductive call : Set :=
| CClose (fd : Z)
| CFsync (fd : Z) (flags : Z)
| CSyncFileRange (fd : Z) (offset : Z) (nbytes : Z) (flags : Z)
| CFallocate (fd : Z) (mode : Z) (offset : Z) (length : Z)
| CRead (fd : Z) (buf : Z) (length : Z) (offset : Z)
| CWrite (fd : Z) (buf : Z) (length : Z) (offset : Z)
| CReadv (fd : Z) (iov : Z) (nr : Z) (offset : Z)
| CWritev (fd : Z) (iov : Z) (nr : Z) (offset : Z)
| CReadFixed (fd : Z) (buf : Z) (length : Z) (offset : Z) (idx : Z)
| CWriteFixed (fd : Z) (buf : Z) (length : Z) (offset : Z) (idx : Z)
| CReadvFixed (fd : Z) (iov : Z) (nr : Z) (offset : Z) (idx : Z)
| CWritevFixed (fd : Z) (iov : Z) (nr : Z) (offset : Z) (idx : Z)
| CReadMultishot (fd : Z) (offset : Z) (bgid : Z)
| COpenat (dfd : Z) (path : Z) (flags : Z) (mode : Z) (slot : Z)
| COpenat2 (dfd : Z) (path : Z) (how : Z) (size : Z)
| CStatx (dfd : Z) (path : Z) (flags : Z) (mask : Z) (buf : Z)
| CRenameat (odfd : Z) (opath : Z) (ndfd : Z) (npath : Z) (flags : Z)
| CUnlinkat (dfd : Z) (path : Z) (flags : Z)
| CMkdirat (dfd : Z) (path : Z) (mode : Z)
| CSymlinkat (opath : Z) (ndfd : Z) (npath : Z)
| CLinkat (odfd : Z) (opath : Z) (ndfd : Z) (npath : Z) (flags : Z)
| CGetxattr (name : Z) (path : Z) (value : Z) (length : Z)
| CFgetxattr (fd : Z) (name : Z) (value : Z) (length : Z)
| CSetxattr (name : Z) (path : Z) (value : Z) (length : Z) (flags : Z)
| CFsetxattr (fd : Z) (name : Z) (value : Z) (length : Z) (flags : Z)
| CFadvise (fd : Z) (offset : Z) (length : Z) (advice : FadviseAdvice.t)
| CMadvise (ad : Z) (length : Z) (advice : MadviseAdvice.t)
| CSplice (ofd : Z) (ooff : Z) (ifd : Z) (ioff : Z) (length : Z) (flags : Z)
| CTee (ofd : Z) (ifd : Z) (length : Z) (flags : Z)
| CFtruncate (fd : Z) (length : Z)
| CPipe (fds : Z) (flags : Z) (slot : Z)
| CFixedFdInstall (slot : Z) (flags : Z)
| CSocket (dom : AddressFamily.t) (ty : SocketType.t) (proto : Z) (flags : Z) (slot : Z)
| CShutdown (fd : Z) (how : ShutdownHow.t)
| CBind (fd : Z) (ad : Z) (adlen : Z)
| CListen (fd : Z) (backlog : Z)
| CConnect (fd : Z) (ad : Z) (adlen : Z)
| CAccept (fd : Z) (ad : Z) (adlen : Z) (flags : Z)
| CAcceptMultishot (fd : Z) (flags : Z)
| CAcceptMultishotDirect (fd : Z) (flags : Z)
| CSend (fd : Z) (buf : Z) (length : Z) (flags : Z)
| CRecv (fd : Z) (buf : Z) (length : Z) (flags : Z)
| CRecvMultishot (fd : Z) (flags : Z)
| CSendmsg (fd : Z) (msg : Z) (flags : Z)
| CRecvmsg (fd : Z) (msg : Z) (flags : Z)
| CRecvmsgMultishot (fd : Z) (msg : Z) (flags : Z)
| CSendZc (fd : Z) (buf : Z) (length : Z) (flags : Z)
| CSendmsgZc (fd : Z) (msg : Z) (flags : Z)
| CNop
| CTimeoutRemove (target : Z)
| CCancel (target : Z) (flags : Z)
| CCancelFd (fd : Z) (extra : Z)
| CCancelAny (extra : Z)
| CPollAdd (fd : Z) (mask : Z)
| CPollRemove (target : Z)
| CTimeout (ts : Z) (count : Z) (flags : Z)
| CLinkTimeout (ts : Z) (flags : Z)
| CSockInq (fd : Z)
| CSockOutq (fd : Z)
| CGetSockOpt (fd : Z) (level : Z) (optname : Z) (val : Slice)
| CSetSockOpt (fd : Z) (level : Z) (optname : Z) (val : Slice)
| CSockName (fd : Z) (ad : Z) (adlen : Z) (peer : bool)
| CMsgRing (target : Z) (length : Z) (data : Z) (flags : Z)
| CMsgRingCqeFlags (target : Z) (length : Z) (data : Z) (cflags : Z)
| CMsgRingFd (target : Z) (src : Z) (slot : Z) (data : Z) (flags : Z)
| CFutexWait (uaddr : Z) (val : Z) (mask : Z) (flags : Z)
| CFutexWake (uaddr : Z) (count : Z) (mask : Z) (flags : Z)
| CFutexWaitv (waiters : Z) (count : Z)
| CEpollCtl (epfd : Z) (op : EpollOp.t) (fd : Z) (event : Z)
| CEpollWait (epfd : Z) (events : Z) (maxev : Z)
| CProvideBuffers (ad : Z) (size : Z) (count : Z) (bgid : Z) (bid : Z)
| CRemoveBuffers (count : Z) (bgid : Z)
| CFilesUpdate (fds : Z) (nr : Z) (offset : Z)
| CWaitId (idt : IdType.t) (id : Z) (infop : Z) (opts : Z).

(** The constructor of `op/` that encodes it. *)
Definition build (c : call) : Sqe :=
  match c with
  | CClose fd => FileOps.close fd
  | CFsync fd flags => FileOps.fsync fd flags
  | CSyncFileRange fd offset nbytes flags => FileOps.sync_file_range fd offset nbytes flags
  | CFallocate fd mode offset length => FileOps.fallocate fd mode offset length
  | CRead fd buf length offset => FileOps.read_ptr fd buf length offset
  | CWrite fd buf length offset => FileOps.write_ptr fd buf length offset
  | CReadv fd iov nr offset => FileOps.readv_ptr fd iov nr offset
  | CWritev fd iov nr offset => FileOps.writev_ptr fd iov nr offset
  | CReadFixed fd buf length offset idx => FileOps.read_fixed fd buf length offset idx
  | CWriteFixed fd buf length offset idx => FileOps.write_fixed fd buf length offset idx
  | CReadvFixed fd iov nr offset idx => FileOps.readv_fixed fd iov nr offset idx
  | CWritevFixed fd iov nr offset idx => FileOps.writev_fixed fd iov nr offset idx
  | CReadMultishot fd offset bgid => FileOps.read_multishot fd offset bgid
  | COpenat dfd path flags mode slot => FileOps.openat_direct dfd path flags mode slot
  | COpenat2 dfd path how size => FileOps.openat2_ptr dfd path how size
  | CStatx dfd path flags mask buf => FileOps.statx_ptr dfd path flags mask buf
  | CRenameat odfd opath ndfd npath flags => FileOps.renameat_ptr odfd opath ndfd npath flags
  | CUnlinkat dfd path flags => FileOps.unlinkat_ptr dfd path flags
  | CMkdirat dfd path mode => FileOps.mkdirat_ptr dfd path mode
  | CSymlinkat opath ndfd npath => FileOps.symlinkat_ptr opath ndfd npath
  | CLinkat odfd opath ndfd npath flags => FileOps.linkat_ptr odfd opath ndfd npath flags
  | CGetxattr name path value length => FileOps.getxattr_ptr name path value length
  | CFgetxattr fd name value length => FileOps.fgetxattr_ptr fd name value length
  | CSetxattr name path value length flags => FileOps.setxattr_ptr name path value length flags
  | CFsetxattr fd name value length flags => FileOps.fsetxattr_ptr fd name value length flags
  | CFadvise fd offset length advice => FileOps.fadvise fd offset length advice
  | CMadvise ad length advice => FileOps.madvise ad length advice
  | CSplice ofd ooff ifd ioff length flags => FileOps.splice ofd ooff ifd ioff length flags
  | CTee ofd ifd length flags => FileOps.tee ofd ifd length flags
  | CFtruncate fd length => FileOps.ftruncate fd length
  | CPipe fds flags slot => FileOps.pipe_direct fds flags slot
  | CFixedFdInstall slot flags => FileOps.fixed_fd_install slot flags
  | CSocket dom ty proto flags slot => NetOps.socket_direct_at dom ty proto flags slot
  | CShutdown fd how => NetOps.shutdown fd how
  | CBind fd ad adlen => NetOps.bind_ptr fd ad adlen
  | CListen fd backlog => NetOps.listen fd backlog
  | CConnect fd ad adlen => NetOps.connect_ptr fd ad adlen
  | CAccept fd ad adlen flags => NetOps.accept_ptr fd ad adlen flags
  | CAcceptMultishot fd flags => NetOps.accept_multishot fd flags
  | CAcceptMultishotDirect fd flags => NetOps.accept_multishot_direct fd flags
  | CSend fd buf length flags => NetOps.send_ptr fd buf length flags
  | CRecv fd buf length flags => NetOps.recv_ptr fd buf length flags
  | CRecvMultishot fd flags => NetOps.recv_multishot fd flags
  | CSendmsg fd msg flags => NetOps.sendmsg_ptr fd msg flags
  | CRecvmsg fd msg flags => NetOps.recvmsg_ptr fd msg flags
  | CRecvmsgMultishot fd msg flags => NetOps.recvmsg_multishot fd msg flags
  | CSendZc fd buf length flags => NetOps.send_zc_ptr fd buf length flags
  | CSendmsgZc fd msg flags => NetOps.sendmsg_zc_ptr fd msg flags
  | CNop => NetOps.nop
  | CTimeoutRemove target => NetOps.timeout_remove target
  | CCancel target flags => NetOps.cancel_with_flags target flags
  | CCancelFd fd extra => NetOps.cancel_fd fd extra
  | CCancelAny extra => NetOps.cancel_any extra
  | CPollAdd fd mask => NetOps.poll_add fd mask
  | CPollRemove target => NetOps.poll_remove target
  | CTimeout ts count flags => NetOps.timeout_ptr ts count flags
  | CLinkTimeout ts flags => NetOps.link_timeout_ptr ts flags
  | CSockInq fd => NetOps.uring_cmd_sock_inq fd
  | CSockOutq fd => NetOps.uring_cmd_sock_outq fd
  | CGetSockOpt fd level optname val => NetOps.uring_cmd_sock_getsockopt fd level optname val
  | CSetSockOpt fd level optname val => NetOps.uring_cmd_sock_setsockopt fd level optname val
  | CSockName fd ad adlen peer => NetOps.uring_cmd_sock_name fd ad adlen peer
  | CMsgRing target length data flags => NetOps.msg_ring_with_flags target length data flags
  | CMsgRingCqeFlags target length data cflags => NetOps.msg_ring_cqe_flags target length data cflags
  | CMsgRingFd target src slot data flags => NetOps.msg_ring_fd_with_flags target src slot data flags
  | CFutexWait uaddr val mask flags => NetOps.futex_wait uaddr val mask flags
  | CFutexWake uaddr count mask flags => NetOps.futex_wake uaddr count mask flags
  | CFutexWaitv waiters count => NetOps.futex_waitv_ptr waiters count
  | CEpollCtl epfd op fd event => NetOps.epoll_ctl_ptr epfd op fd event
  | CEpollWait epfd events maxev => NetOps.epoll_wait_ptr epfd events maxev
  | CProvideBuffers ad size count bgid bid => NetOps.provide_buffers ad size count bgid bid
  | CRemoveBuffers count bgid => NetOps.remove_buffers count bgid
  | CFilesUpdate fds nr offset => NetOps.files_update_ptr fds nr offset
  | CWaitId idt id infop opts => NetOps.waitid idt id infop opts
  end.

(** The opcode each request travels under. *)
Definition call_opcode (c : call) : Opcode.t :=
  match c with
  | CClose _ => Opcode.Close
  | CFsync _ _ => Opcode.Fsync
  | CSyncFileRange _ _ _ _ => Opcode.SyncFileRange
  | CFallocate _ _ _ _ => Opcode.Fallocate
  | CRead _ _ _ _ => Opcode.Read
  | CWrite _ _ _ _ => Opcode.Write
  | CReadv _ _ _ _ => Opcode.Readv
  | CWritev _ _ _ _ => Opcode.Writev
  | CReadFixed _ _ _ _ _ => Opcode.ReadFixed
  | CWriteFixed _ _ _ _ _ => Opcode.WriteFixed
  | CReadvFixed _ _ _ _ _ => Opcode.ReadvFixed
  | CWritevFixed _ _ _ _ _ => Opcode.WritevFixed
  | CReadMultishot _ _ _ => Opcode.ReadMultishot
  | COpenat _ _ _ _ _ => Opcode.Openat
  | COpenat2 _ _ _ _ => Opcode.Openat2
  | CStatx _ _ _ _ _ => Opcode.Statx
  | CRenameat _ _ _ _ _ => Opcode.Renameat
  | CUnlinkat _ _ _ => Opcode.Unlinkat
  | CMkdirat _ _ _ => Opcode.Mkdirat
  | CSymlinkat _ _ _ => Opcode.Symlinkat
  | CLinkat _ _ _ _ _ => Opcode.Linkat
  | CGetxattr _ _ _ _ => Opcode.Getxattr
  | CFgetxattr _ _ _ _ => Opcode.Fgetxattr
  | CSetxattr _ _ _ _ _ => Opcode.Setxattr
  | CFsetxattr _ _ _ _ _ => Opcode.Fsetxattr
  | CFadvise _ _ _ _ => Opcode.Fadvise
  | CMadvise _ _ _ => Opcode.Madvise
  | CSplice _ _ _ _ _ _ => Opcode.Splice
  | CTee _ _ _ _ => Opcode.Tee
  | CFtruncate _ _ => Opcode.Ftruncate
  | CPipe _ _ _ => Opcode.Pipe
  | CFixedFdInstall _ _ => Opcode.FixedFdInstall
  | CSocket _ _ _ _ _ => Opcode.Socket
  | CShutdown _ _ => Opcode.Shutdown
  | CBind _ _ _ => Opcode.Bind
  | CListen _ _ => Opcode.Listen
  | CConnect _ _ _ => Opcode.Connect
  | CAccept _ _ _ _ => Opcode.Accept
  | CAcceptMultishot _ _ => Opcode.Accept
  | CAcceptMultishotDirect _ _ => Opcode.Accept
  | CSend _ _ _ _ => Opcode.Send
  | CRecv _ _ _ _ => Opcode.Recv
  | CRecvMultishot _ _ => Opcode.Recv
  | CSendmsg _ _ _ => Opcode.SendMsg
  | CRecvmsg _ _ _ => Opcode.RecvMsg
  | CRecvmsgMultishot _ _ _ => Opcode.RecvMsg
  | CSendZc _ _ _ _ => Opcode.SendZc
  | CSendmsgZc _ _ _ => Opcode.SendmsgZc
  | CNop => Opcode.Nop
  | CTimeoutRemove _ => Opcode.TimeoutRemove
  | CCancel _ _ => Opcode.AsyncCancel
  | CCancelFd _ _ => Opcode.AsyncCancel
  | CCancelAny _ => Opcode.AsyncCancel
  | CPollAdd _ _ => Opcode.PollAdd
  | CPollRemove _ => Opcode.PollRemove
  | CTimeout _ _ _ => Opcode.Timeout
  | CLinkTimeout _ _ => Opcode.LinkTimeout
  | CSockInq _ => Opcode.UringCmd
  | CSockOutq _ => Opcode.UringCmd
  | CGetSockOpt _ _ _ _ => Opcode.UringCmd
  | CSetSockOpt _ _ _ _ => Opcode.UringCmd
  | CSockName _ _ _ _ => Opcode.UringCmd
  | CMsgRing _ _ _ _ => Opcode.MsgRing
  | CMsgRingCqeFlags _ _ _ _ => Opcode.MsgRing
  | CMsgRingFd _ _ _ _ _ => Opcode.MsgRing
  | CFutexWait _ _ _ _ => Opcode.FutexWait
  | CFutexWake _ _ _ _ => Opcode.FutexWake
  | CFutexWaitv _ _ => Opcode.FutexWaitv
  | CEpollCtl _ _ _ _ => Opcode.EpollCtl
  | CEpollWait _ _ _ => Opcode.EpollWait
  | CProvideBuffers _ _ _ _ _ => Opcode.ProvideBuffers
  | CRemoveBuffers _ _ => Opcode.RemoveBuffers
  | CFilesUpdate _ _ _ => Opcode.FilesUpdate
  | CWaitId _ _ _ _ => Opcode.WaitId
  end.

(** The arguments are values of their Rust types: descriptors the kernel
    issues, addresses of this address space, `u32` lengths and so on. *)
Definition args_ok (c : call) : Prop :=
  match c with
  | CClose fd => fd_ok fd
  | CFsync fd flags => fd_ok fd /\ in_u 32 flags
  | CSyncFileRange fd offset nbytes flags => fd_ok fd /\ in_u 64 offset /\ in_u 32 nbytes /\ in_u 32 flags
  | CFallocate fd mode offset length => fd_ok fd /\ in_u 32 mode /\ in_u 64 offset /\ in_u 64 length
  | CRead fd buf length offset => fd_ok fd /\ ptr_ok buf /\ in_u 32 length /\ in_u 64 offset
  | CWrite fd buf length offset => fd_ok fd /\ ptr_ok buf /\ in_u 32 length /\ in_u 64 offset
  | CReadv fd iov nr offset => fd_ok fd /\ ptr_ok iov /\ in_u 32 nr /\ in_u 64 offset
  | CWritev fd iov nr offset => fd_ok fd /\ ptr_ok iov /\ in_u 32 nr /\ in_u 64 offset
  | CReadFixed fd buf length offset idx => fd_ok fd /\ ptr_ok buf /\ in_u 32 length /\ in_u 64 offset /\ in_u 16 idx
  | CWriteFixed fd buf length offset idx => fd_ok fd /\ ptr_ok buf /\ in_u 32 length /\ in_u 64 offset /\ in_u 16 idx
  | CReadvFixed fd iov nr offset idx => fd_ok fd /\ ptr_ok iov /\ in_u 32 nr /\ in_u 64 offset /\ in_u 16 idx
  | CWritevFixed fd iov nr offset idx => fd_ok fd /\ ptr_ok iov /\ in_u 32 nr /\ in_u 64 offset /\ in_u 16 idx
  | CReadMultishot fd offset bgid => fd_ok fd /\ in_u 64 offset /\ in_u 16 bgid
  | COpenat dfd path flags mode slot => in_i 32 dfd /\ ptr_ok path /\ in_u 32 flags /\ in_u 32 mode /\ in_i 32 slot
  | COpenat2 dfd path how size => in_i 32 dfd /\ ptr_ok path /\ ptr_ok how /\ in_u 32 size
  | CStatx dfd path flags mask buf => in_i 32 dfd /\ ptr_ok path /\ in_u 32 flags /\ in_u 32 mask /\ ptr_ok buf
  | CRenameat odfd opath ndfd npath flags => in_i 32 odfd /\ ptr_ok opath /\ in_i 32 ndfd /\ ptr_ok npath /\ in_u 32 flags
  | CUnlinkat dfd path flags => in_i 32 dfd /\ ptr_ok path /\ in_u 32 flags
  | CMkdirat dfd path mode => in_i 32 dfd /\ ptr_ok path /\ in_u 32 mode
  | CSymlinkat opath ndfd npath => ptr_ok opath /\ in_i 32 ndfd /\ ptr_ok npath
  | CLinkat odfd opath ndfd npath flags => in_i 32 odfd /\ ptr_ok opath /\ in_i 32 ndfd /\ ptr_ok npath /\ in_u 32 flags
  | CGetxattr name path value length => ptr_ok name /\ ptr_ok path /\ ptr_ok value /\ in_u 32 length
  | CFgetxattr fd name value length => fd_ok fd /\ ptr_ok name /\ ptr_ok value /\ in_u 32 length
  | CSetxattr name path value length flags => ptr_ok name /\ ptr_ok path /\ ptr_ok value /\ in_u 32 length /\ in_u 32 flags
  | CFsetxattr fd name value length flags => fd_ok fd /\ ptr_ok name /\ ptr_ok value /\ in_u 32 length /\ in_u 32 flags
  | CFadvise fd offset length advice => fd_ok fd /\ in_u 64 offset /\ in_u 32 length
  | CMadvise ad length advice => ptr_ok ad /\ in_u 32 length
  | CSplice ofd ooff ifd ioff length flags => fd_ok ofd /\ in_u 64 ooff /\ fd_ok ifd /\ in_u 64 ioff /\ in_u 32 length /\ in_u 32 flags
  | CTee ofd ifd length flags => fd_ok ofd /\ fd_ok ifd /\ in_u 32 length /\ in_u 32 flags
  | CFtruncate fd length => fd_ok fd /\ in_u 64 length
  | CPipe fds flags slot => ptr_ok fds /\ in_u 32 flags /\ in_i 32 slot
  | CFixedFdInstall slot flags => fd_ok slot /\ in_u 32 flags
  | CSocket dom ty proto flags slot => in_i 32 proto /\ (in_u 32 flags /\ flags &&& 15 = 0) /\ in_i 32 slot
  | CShutdown fd how => fd_ok fd
  | CBind fd ad adlen => fd_ok fd /\ ptr_ok ad /\ in_u 32 adlen
  | CListen fd backlog => fd_ok fd /\ in_u 32 backlog
  | CConnect fd ad adlen => fd_ok fd /\ ptr_ok ad /\ in_u 32 adlen
  | CAccept fd ad adlen flags => fd_ok fd /\ ptr_ok ad /\ ptr_ok adlen /\ in_u 32 flags
  | CAcceptMultishot fd flags => fd_ok fd /\ in_u 32 flags
  | CAcceptMultishotDirect fd flags => fd_ok fd /\ in_u 32 flags
  | CSend fd buf length flags => fd_ok fd /\ ptr_ok buf /\ in_u 32 length /\ in_u 32 flags
  | CRecv fd buf length flags => fd_ok fd /\ ptr_ok buf /\ in_u 32 length /\ in_u 32 flags
  | CRecvMultishot fd flags => fd_ok fd /\ in_u 32 flags
  | CSendmsg fd msg flags => fd_ok fd /\ ptr_ok msg /\ in_u 32 flags
  | CRecvmsg fd msg flags => fd_ok fd /\ ptr_ok msg /\ in_u 32 flags
  | CRecvmsgMultishot fd msg flags => fd_ok fd /\ ptr_ok msg /\ in_u 32 flags
  | CSendZc fd buf length flags => fd_ok fd /\ ptr_ok buf /\ in_u 32 length /\ in_u 32 flags
  | CSendmsgZc fd msg flags => fd_ok fd /\ ptr_ok msg /\ in_u 32 flags
  | CNop => True
  | CTimeoutRemove target => in_u 64 target
  | CCancel target flags => in_u 64 target /\ (in_u 32 flags /\ flags &&& 6 = 0)
  | CCancelFd fd extra => fd_ok fd /\ (in_u 32 extra /\ extra &&& 6 = 0)
  | CCancelAny extra => (in_u 32 extra /\ extra &&& 6 = 0)
  | CPollAdd fd mask => fd_ok fd /\ in_u 32 mask
  | CPollRemove target => in_u 64 target
  | CTimeout ts count flags => ptr_ok ts /\ in_u 32 count /\ in_u 32 flags
  | CLinkTimeout ts flags => ptr_ok ts /\ in_u 32 flags
  | CSockInq fd => fd_ok fd
  | CSockOutq fd => fd_ok fd
  | CGetSockOpt fd level optname val => fd_ok fd /\ in_u 32 level /\ in_u 32 optname /\ slice_ok val
  | CSetSockOpt fd level optname val => fd_ok fd /\ in_u 32 level /\ in_u 32 optname /\ slice_ok val
  | CSockName fd ad adlen peer => fd_ok fd /\ ptr_ok ad /\ ptr_ok adlen
  | CMsgRing target length data flags => fd_ok target /\ in_u 32 length /\ in_u 64 data /\ (in_u 32 flags /\ flags &&& 2 = 0)
  | CMsgRingCqeFlags target length data cflags => fd_ok target /\ in_u 32 length /\ in_u 64 data /\ in_u 32 cflags
  | CMsgRingFd target src slot data flags => fd_ok target /\ fd_ok src /\ in_i 32 slot /\ in_u 64 data /\ in_u 32 flags
  | CFutexWait uaddr val mask flags => ptr_ok uaddr /\ in_u 64 val /\ in_u 64 mask /\ in_u 32 flags
  | CFutexWake uaddr count mask flags => ptr_ok uaddr /\ in_u 64 count /\ in_u 64 mask /\ in_u 32 flags
  | CFutexWaitv waiters count => ptr_ok waiters /\ in_u 32 count
  | CEpollCtl epfd op fd event => fd_ok epfd /\ fd_ok fd /\ ptr_ok event
  | CEpollWait epfd events maxev => fd_ok epfd /\ ptr_ok events /\ in_u 32 maxev
  | CProvideBuffers ad size count bgid bid => ptr_ok ad /\ in_u 32 size /\ in_u 16 count /\ in_u 16 bgid /\ in_u 16 bid
  | CRemoveBuffers count bgid => in_u 16 count /\ in_u 16 bgid
  | CFilesUpdate fds nr offset => ptr_ok fds /\ in_u 32 nr /\ in_u 32 offset
  | CWaitId idt id infop opts => in_i 32 id /\ ptr_ok infop /\ in_u 32 opts
  end.

(** ** The kernel's reading of an entry

    `decode` reads the operands of each opcode at the fields io_uring_enter(2)
    documents for it. *)
Definition decode (s : Sqe) : option call :=
  match opcode s with
  | 0 => Some (CNop)
  | 1 => Some (CReadv (fd s) (addr s) (len s) (off s))
  | 2 => Some (CWritev (fd s) (addr s) (len s) (off s))
  | 3 => Some (CFsync (fd s) (op_flags s))
  | 4 => Some (CReadFixed (fd s) (addr s) (len s) (off s) (buf_index s))
  | 5 => Some (CWriteFixed (fd s) (addr s) (len s) (off s) (buf_index s))
  | 6 => Some (CPollAdd (fd s) (op_flags s))
  | 7 => Some (CPollRemove (addr s))
  | 8 => Some (CSyncFileRange (fd s) (off s) (len s) (op_flags s))
  | 9 => Some (CSendmsg (fd s) (addr s) (op_flags s))
  | 10 => 
      if (ioprio s) =? 0 then Some (CRecvmsg (fd s) (addr s) (op_flags s)) else
      Some (CRecvmsgMultishot (fd s) (addr s) (op_flags s))
  | 11 => Some (CTimeout (addr s) (off s) (op_flags s))
  | 12 => Some (CTimeoutRemove (addr s))
  | 13 => 
      if (ioprio s) =? 0 then Some (CAccept (fd s) (addr s) (off s) (op_flags s)) else
      if (splice_fd_in s) =? 0 then Some (CAcceptMultishot (fd s) (op_flags s)) else
      Some (CAcceptMultishotDirect (fd s) (op_flags s))
  | 14 => 
      if (op_flags s &&& 6) =? 0 then Some (CCancel (addr s) (op_flags s)) else
      if (op_flags s &&& 4) =? 0 then Some (CCancelFd (fd s) (cancel_extra (op_flags s))) else
      Some (CCancelAny (cancel_extra (op_flags s)))
  | 15 => Some (CLinkTimeout (addr s) (op_flags s))
  | 16 => Some (CConnect (fd s) (addr s) (off s))
  | 17 => Some (CFallocate (fd s) (len s) (off s) (addr s))
  | 18 => Some (COpenat (fd s) (addr s) (op_flags s) (len s) (splice_fd_in s))
  | 19 => Some (CClose (fd s))
  | 20 => Some (CFilesUpdate (addr s) (len s) (off s))
  | 21 => Some (CStatx (fd s) (addr s) (op_flags s) (len s) (off s))
  | 22 => Some (CRead (fd s) (addr s) (len s) (off s))
  | 23 => Some (CWrite (fd s) (addr s) (len s) (off s))
  | 24 => Some (CFadvise (fd s) (off s) (len s) (fadvise_of (op_flags s)))
  | 25 => Some (CMadvise (addr s) (len s) (madvise_of (op_flags s)))
  | 26 => Some (CSend (fd s) (addr s) (len s) (op_flags s))
  | 27 => 
      if (ioprio s) =? 0 then Some (CRecv (fd s) (addr s) (len s) (op_flags s)) else
      Some (CRecvMultishot (fd s) (op_flags s))
  | 28 => Some (COpenat2 (fd s) (addr s) (off s) (len s))
  | 29 => Some (CEpollCtl (fd s) (epollop_of (len s)) (off s) (addr s))
  | 30 => Some (CSplice (fd s) (off s) (splice_fd_in s) (addr s) (len s) (op_flags s))
  | 31 => Some (CProvideBuffers (addr s) (len s) (fd s) (buf_index s) (off s))
  | 32 => Some (CRemoveBuffers (fd s) (buf_index s))
  | 33 => Some (CTee (fd s) (splice_fd_in s) (len s) (op_flags s))
  | 34 => Some (CShutdown (fd s) (shutdown_of (len s)))
  | 35 => Some (CRenameat (fd s) (addr s) (as_i32 (len s)) (off s) (op_flags s))
  | 36 => Some (CUnlinkat (fd s) (addr s) (op_flags s))
  | 37 => Some (CMkdirat (fd s) (addr s) (len s))
  | 38 => Some (CSymlinkat (addr s) (fd s) (off s))
  | 39 => Some (CLinkat (fd s) (addr s) (as_i32 (len s)) (off s) (op_flags s))
  | 40 => 
      if (addr s + (op_flags s &&& 2)) =? 0 then Some (CMsgRing (fd s) (len s) (off s) (op_flags s)) else
      if (addr s) =? 0 then Some (CMsgRingCqeFlags (fd s) (len s) (off s) (as_u32 (splice_fd_in s))) else
      Some (CMsgRingFd (fd s) (addr3 s) (splice_fd_in s) (off s) (op_flags s))
  | 41 => Some (CFsetxattr (fd s) (addr s) (off s) (len s) (op_flags s))
  | 42 => Some (CSetxattr (addr s) (addr3 s) (off s) (len s) (op_flags s))
  | 43 => Some (CFgetxattr (fd s) (addr s) (off s) (len s))
  | 44 => Some (CGetxattr (addr s) (addr3 s) (off s) (len s))
  | 45 => Some (CSocket (family_of (fd s)) (socktype_of (off s)) (as_i32 (len s)) (sockflags_of (off s)) (splice_fd_in s))
  | 46 => 
      if (cmd_op s) =? 0 then Some (CSockInq (fd s)) else
      if (cmd_op s) =? 1 then Some (CSockOutq (fd s)) else
      if (cmd_op s) =? 2 then Some (CGetSockOpt (fd s) (sock_level s) (sock_optname s) (sockopt_slice s)) else
      if (cmd_op s) =? 3 then Some (CSetSockOpt (fd s) (sock_level s) (sock_optname s) (sockopt_slice s)) else
      Some (CSockName (fd s) (addr s) (addr3 s) (peer_of s))
  | 47 => Some (CSendZc (fd s) (addr s) (len s) (op_flags s))
  | 48 => Some (CSendmsgZc (fd s) (addr s) (op_flags s))
  | 49 => Some (CReadMultishot (fd s) (off s) (buf_index s))
  | 50 => Some (CWaitId (idtype_of (len s)) (fd s) (off s) (as_u32 (splice_fd_in s)))
  | 51 => Some (CFutexWait (addr s) (off s) (addr3 s) (as_u32 (fd s)))
  | 52 => Some (CFutexWake (addr s) (off s) (addr3 s) (as_u32 (fd s)))
  | 53 => Some (CFutexWaitv (addr s) (len s))
  | 54 => Some (CFixedFdInstall (fd s) (op_flags s))
  | 55 => Some (CFtruncate (fd s) (off s))
  | 56 => Some (CBind (fd s) (addr s) (off s))
  | 57 => Some (CListen (fd s) (len s))
  | 59 => Some (CEpollWait (fd s) (addr s) (len s))
  | 60 => Some (CReadvFixed (fd s) (addr s) (len s) (off s) (buf_index s))
  | 61 => Some (CWritevFixed (fd s) (addr s) (len s) (off s) (buf_index s))
  | 62 => Some (CPipe (addr s) (op_flags s) (splice_fd_in s))
  | _ => None
  end.

(** ** Range lemmas *)
Lemma as_u64_ptr p : ptr_ok p -> as_u64 p = p.
Proof.
  intros Hp. apply wrap_small. revert Hp. unfold ptr_ok.
  destruct usize_cases as [-> | ->]; [|done]. by apply in_u_mono.
Qed.
Lemma fd_as_i32 fd : fd_ok fd -> RawFd.as_i32 fd = fd.
Proof.
  intros Hf. apply as_signed_small; [lia|]. unfold in_i. change (32 - 1) with 31.
  unfold fd_ok in Hf. lia.
Qed.
Lemma as_u64_fd fd : fd_ok fd -> as_u64 fd = fd.
Proof. intros [? ?]. apply wrap_small. split; [done|]. change (2^31) with 2147483648 in *. lia. Qed.
Lemma as_i32_u32 z : in_i 32 z -> as_i32 (as_u32 z) = z.
Proof. intros. rewrite as_signed_wrap by lia. by apply as_signed_small. Qed.
Lemma as_u32_i32 z : in_u 32 z -> as_u32 (as_i32 z) = z.
Proof. intros. rewrite wrap_as_signed by lia. by apply wrap_small. Qed.

(** Flag words with a disjoint part. *)
Lemma key_bits w v m : w &&& m = w -> v &&& m = 0 -> (w ||| v) &&& m = w.
Proof. intros H1 H2. rewrite Z.land_lor_distr_l, H1, H2. apply Z.lor_0_r. Qed.
Lemma rest_bits w v m n :
  w &&& n = 0 -> v &&& m = 0 -> in_u 32 v -> n ||| m = Z.ones 32 -> (w ||| v) &&& n = v.
Proof.
  intros H1 H2 Hv Hmn. rewrite Z.land_lor_distr_l, H1, Z.lor_0_l.
  rewrite <- (Z.lor_0_r (v &&& n)), <- H2, <- Z.land_lor_distr_r, Hmn.
  rewrite Z.land_ones by lia. by apply (wrap_small 32).
Qed.
Lemma sub_bits v m n : v &&& m = 0 -> m &&& n = n -> v &&& n = 0.
Proof. intros H1 H2. by rewrite <- H2, Z.land_assoc, H1. Qed.

Lemma cancel_key k extra :
  (k = 2 \/ k = 4) -> in_u 32 extra -> extra &&& 6 = 0 ->
  cancel_extra (k ||| extra) = extra /\ (k ||| extra) &&& 6 = k.
Proof.
  intros Hk Hu H6. unfold cancel_extra.
  destruct Hk as [-> | ->]; (split; [apply (rest_bits _ _ 6)|apply key_bits]); done.
Qed.
Lemma cancel_key4 extra : extra &&& 6 = 0 -> (2 ||| extra) &&& 4 = 0 /\ (4 ||| extra) &&& 4 = 4.
Proof.
  intros H6. assert (extra &&& 4 = 0) as H4 by (by apply (sub_bits _ 6)).
  by rewrite !Z.land_lor_distr_l, H4.
Qed.
Lemma socket_bits ty flags :
  in_u 32 flags -> flags &&& 15 = 0 ->
  socktype_of (SocketType.with_flags ty flags) = ty /\
  sockflags_of (SocketType.with_flags ty flags) = flags.
Proof.
  intros Hu H15. unfold socktype_of, sockflags_of, SocketType.with_flags. split.
  - rewrite key_bits by (done || by destruct ty). by destruct ty.
  - apply (rest_bits _ _ 15); by destruct ty.
Qed.
(** The two `sockopt` commands differ in their command word only. *)
Definition sockopt_cmd (cmd : SocketUringCmdOp.t) (fd level optname : Z) (val : Slice) : Sqe :=
  set_optlen (as_u32 (slice_len val)) (set_sock_optval (as_u64 (slice_ptr val))
    (set_sock_optname optname (set_sock_level level (set_cmd_op (SocketUringCmdOp.raw cmd)
      (set_fd (RawFd.as_i32 fd) (set_opcode (Opcode.raw Opcode.UringCmd) ZEROED)))))).
Lemma sockopt_fields cmd fd level optname val :
  in_u 32 level -> in_u 32 optname -> slice_ok val ->
  let s := sockopt_cmd cmd fd level optname val in
  cmd_op s = SocketUringCmdOp.raw cmd /\
  sock_level s = level /\ sock_optname s = optname /\ sockopt_slice s = val.
Proof.
  intros Hl Ho [Hp Hn]. cbv zeta. unfold sockopt_slice, sock_level, sock_optname, sock_optval,
    optlen, cmd_op, sockopt_cmd, set_optlen, set_sock_optval, set_sock_optname, set_sock_level,
    set_cmd_op.
  cbn -[wrap as_signed Z.land Z.lor Z.shiftl Z.shiftr SocketUringCmdOp.raw]. split_and!.
  - by destruct cmd.
  - bits.
  - bits.
  - rewrite wrap_as_signed by lia. rewrite as_u64_ptr, wrap_wrap, wrap_small by done.
    by destruct val.
Qed.
End Spec.

(** The casts of in-range arguments are the identity. *)
Ltac casts :=
  repeat match goal with
  | H : fd_ok ?x |- context [RawFd.as_i32 ?x] => rewrite (fd_as_i32 x H)
  | H : fd_ok ?x |- context [wrap 64 ?x] => rewrite (as_u64_fd x H)
  | H : ptr_ok ?x |- context [wrap 64 ?x] => rewrite (as_u64_ptr x H)
  | H : in_u 32 ?x |- context [wrap 32 (as_signed 32 ?x)] => rewrite (as_u32_i32 x H)
  | H : in_i 32 ?x |- context [as_signed 32 (wrap 32 ?x)] => rewrite (as_i32_u32 x H)
  end.

Lemma decode_build_ok {PW : PtrWidth} c : args_ok c -> decode (build c) = Some c.
Proof.
  destruct c; cbn [args_ok]; intros H; unfold decode, build in *;
    repeat match goal with H : _ /\ _ |- _ => destruct H end;
    try (change (NetOps.uring_cmd_sock_getsockopt fd level optname val) with
           (sockopt_cmd SocketUringCmdOp.GetSockOpt fd level optname val) ||
         change (NetOps.uring_cmd_sock_setsockopt fd level optname val) with
           (sockopt_cmd SocketUringCmdOp.SetSockOpt fd level optname val);
         edestruct sockopt_fields as (-> & -> & -> & ->); [eassumption..|]);
    cbn -[wrap as_signed RawFd.as_i32 Z.land Z.lor Z.shiftl Z.shiftr
          peer_of cancel_extra socktype_of sockflags_of
          family_of SocketType.with_flags AddressFamily.as_raw];
    casts; try reflexivity.
  - by destruct advice.
  - by destruct advice.
  - destruct (socket_bits ty flags) as [-> ->]; [done..|]. by destruct dom.
  - by destruct how.
  - by replace (flags &&& 6) with 0.
  - unfold CancelFlags.FD. destruct (cancel_key 2 extra) as [-> ->]; [tauto|done..|].
    by destruct (cancel_key4 extra) as [-> _].
  - unfold CancelFlags.ANY. destruct (cancel_key 4 extra) as [-> ->]; [tauto|done..|].
    by destruct (cancel_key4 extra) as [_ ->].
  - by destruct peer.
  - by replace (flags &&& 2) with 0.
  - assert (0 <= flags &&& 2) by (apply Z.land_nonneg; right; lia).
    unfold NetOps.IORING_MSG_SEND_FD. by destruct (Z.eqb_spec (1 + flags &&& 2) 0); [lia|].
  - by destruct op.
  - by destruct idt.
Qed.

(** C34. Every operation encoding is read back exactly: [decode] recovers the
    request and all of its arguments from the entry its constructor builds,
    so no argument is dropped, truncated or put in another's field, and two
    different requests never share an encoding. *)
Theorem decode_build {PW : PtrWidth} c : args_ok c -> decode (build c) = Some c.
Proof. exact (decode_build_ok c). Qed.

Lemma decode_build_witness :
  let c := CSocket AddressFamily.Inet6 SocketType.Stream 6 SocketFlags.CLOEXEC 4 in
  args_ok c /\ decode (build c) = Some c.
Proof.
  cbv zeta. assert (args_ok (CSocket AddressFamily.Inet6 SocketType.Stream 6 SocketFlags.CLOEXEC 4))
    as H by (repeat split; vm_compute; congruence).
  split; [exact H|]. exact (decode_build _ H).
Defined.

(** The tag is not part of the request. *)
Lemma decode_user_data {PW : PtrWidth} s d : decode (Modifiers.with_user_data s d) = decode s.
Proof. reflexivity. Qed.

Lemma in_u_le w v z : in_u w z -> 0 <= w <= v -> in_u v z.
Proof. intros. by apply (in_u_mono w). Qed.

(** Range goals of encoded fields. *)
Ltac field_range :=
  match goal with
  | |- in_u _ (SocketType.with_flags ?a _) =>
      destruct a; (unfold SocketType.with_flags; apply lor_u_bound;
      [lia|split; by vm_compute|field_range])
  | H : in_u ?w ?z |- in_u ?w ?z => exact H
  | H : in_i ?w ?z |- in_i ?w ?z => exact H
  | |- in_u ?w (wrap ?w _) => apply wrap_range; lia
  | |- in_i ?w (as_signed ?w _) => apply as_signed_range; lia
  | |- in_i 32 (RawFd.as_i32 _) => apply as_signed_range; lia
  | H : in_u 32 ?z |- in_u 64 ?z => apply (in_u_mono 32); [lia|exact H]
  | H : in_u 16 ?z |- in_u 64 ?z => apply (in_u_mono 16); [lia|exact H]
  | H : in_u 16 ?z |- in_i 32 ?z =>
      let a := fresh in let b := fresh in
      destruct H as [a b]; split; [lia|]; change (2 ^ 16) with 65536 in b;
      change (2 ^ (32 - 1)) with 2147483648; lia
  | |- in_u _ (FadviseAdvice.raw ?a) => destruct a; split; by vm_compute
  | |- in_u _ (MadviseAdvice.raw ?a) => destruct a; split; by vm_compute
  | |- in_i _ (AddressFamily.as_raw ?a) => destruct a; split; by vm_compute
  | |- in_u _ (ShutdownHow.raw ?a) => destruct a; split; by vm_compute
  | |- in_u _ (EpollOp.raw ?a) => destruct a; split; by vm_compute
  | |- in_u _ (IdType.as_raw ?a) => destruct a; split; by vm_compute
  | |- in_u _ (Z.lor _ _) => apply lor_u_bound; [lia|field_range|field_range]
  | |- in_u _ (Z.land _ _) => apply land_u_bound; [lia|field_range]
  | |- _ => vm_compute; split; congruence
  end.

(** Peels the field assignments off an encoding, one range goal each. *)
Ltac sqe_fields_wf :=
  lazymatch goal with
  | |- sqe_wf ZEROED => exact ZEROED_wf
  | |- sqe_wf (set_opcode _ _) => apply set_opcode_wf; [sqe_fields_wf|]
  | |- sqe_wf (set_flags _ _) => apply set_flags_wf; [sqe_fields_wf|]
  | |- sqe_wf (set_ioprio _ _) => apply set_ioprio_wf; [sqe_fields_wf|]
  | |- sqe_wf (set_fd _ _) => apply set_fd_wf; [sqe_fields_wf|]
  | |- sqe_wf (set_off _ _) => apply set_off_wf; [sqe_fields_wf|]
  | |- sqe_wf (set_addr _ _) => apply set_addr_wf; [sqe_fields_wf|]
  | |- sqe_wf (set_len _ _) => apply set_len_wf; [sqe_fields_wf|]
  | |- sqe_wf (set_op_flags _ _) => apply set_op_flags_wf; [sqe_fields_wf|]
  | |- sqe_wf (set_user_data _ _) => apply set_user_data_wf; [sqe_fields_wf|]
  | |- sqe_wf (set_buf_index _ _) => apply set_buf_index_wf; [sqe_fields_wf|]
  | |- sqe_wf (set_personality _ _) => apply set_personality_wf; [sqe_fields_wf|]
  | |- sqe_wf (set_splice_fd_in _ _) => apply set_splice_fd_in_wf; [sqe_fields_wf|]
  | |- sqe_wf (set_addr3 _ _) => apply set_addr3_wf; [sqe_fields_wf|]
  | |- sqe_wf (set_pad2 _ _) => apply set_pad2_wf; [sqe_fields_wf|]
  end.

(** C35. Every operation encoding is a well-formed entry of its own opcode:
    each field fits its kernel width, and the fields the crate fills in
    separately (the user tag, the personality and the attribute word) are
    still zero. *)
Theorem build_wf {PW : PtrWidth} c :
  args_ok c ->
  sqe_wf (build c) /\ IoUringSqe.opcode (build c) = Opcode.raw (call_opcode c) /\
  IoUringSqe.user_data (build c) = 0 /\ IoUringSqe.personality (build c) = 0 /\
  IoUringSqe.pad2 (build c) = 0.
Proof.
  intros H. split; [|by destruct c].
  destruct c; cbn [args_ok] in H;
    repeat match goal with H : _ /\ _ |- _ => destruct H end;
    cbn [build]; autounfold with sqe_ops; cbv zeta; sqe_fields_wf.
  all: cbn -[wrap as_signed RawFd.as_i32 Z.land Z.lor Z.shiftl Z.shiftr in_u in_i
                  AddressFamily.as_raw SocketType.with_flags].
  all: field_range.
Qed.

Lemma build_wf_witness :
  let c := CGetSockOpt 3 1 9 (mkSlice 4096 4) in
  args_ok c /\ sqe_wf (build c) /\ IoUringSqe.opcode (build c) = Opcode.raw (call_opcode c).
Proof.
  cbv zeta. assert (args_ok (CGetSockOpt 3 1 9 (mkSlice 4096 4))) as H
    by (repeat split; vm_compute; congruence).
  destruct (build_wf _ H) as (Hw & Ho & _). auto.
Defined.

(** The constructors that borrow slices, C strings and references encode the
    same requests as the pointer forms: nothing but the `as u32` truncation of
    a slice length separates them, and below 4 GiB that is the identity. *)
Lemma slice_len_u32 {PW : PtrWidth} sl : slice_ok sl -> as_u32 (slice_len sl) = slice_len sl.
Proof. intros [_ H]. by apply wrap_small. Qed.

(** The borrowing constructors (slices, C strings, references, the
    defaulted forms) encode exactly the request of their pointer form: for a
    slice shorter than 4 GiB no length is truncated. *)
Theorem borrowing_forms {PW : PtrWidth} sl fd off path dfd how msg ts flags mode :
  slice_ok sl ->
  let p := slice_ptr sl in let n := slice_len sl in
  FileOps.read fd sl off = build (CRead fd p n off) /\
  FileOps.write fd sl off = build (CWrite fd p n off) /\
  FileOps.readv fd sl off = build (CReadv fd p n off) /\
  FileOps.writev fd sl off = build (CWritev fd p n off) /\
  FileOps.fdatasync fd = build (CFsync fd FsyncFlags.DATASYNC) /\
  FileOps.openat dfd path flags mode = build (COpenat (DirFd.as_raw dfd) path flags mode 0) /\
  FileOps.openat2 fd path how = build (COpenat2 fd path how 24) /\
  FileOps.unlinkat dfd path flags = build (CUnlinkat (DirFd.as_raw dfd) path flags) /\
  FileOps.mkdirat dfd path mode = build (CMkdirat (DirFd.as_raw dfd) path mode) /\
  FileOps.getxattr path how sl = build (CGetxattr path how p n) /\
  FileOps.fgetxattr fd path sl = build (CFgetxattr fd path p n) /\
  FileOps.setxattr path how sl flags = build (CSetxattr path how p n flags) /\
  FileOps.fsetxattr fd path sl flags = build (CFsetxattr fd path p n flags) /\
  FileOps.pipe path flags = build (CPipe path flags 0) /\
  NetOps.bind fd sl = build (CBind fd p n) /\
  NetOps.connect fd sl = build (CConnect fd p n) /\
  NetOps.accept fd flags = build (CAccept fd 0 0 flags) /\
  NetOps.send fd sl flags = build (CSend fd p n flags) /\
  NetOps.recv fd sl flags = build (CRecv fd p n flags) /\
  NetOps.send_zc fd sl flags = build (CSendZc fd p n flags) /\
  NetOps.sendmsg fd msg flags = build (CSendmsg fd msg flags) /\
  NetOps.recvmsg fd msg flags = build (CRecvmsg fd msg flags) /\
  NetOps.sendmsg_zc fd msg flags = build (CSendmsgZc fd msg flags) /\
  NetOps.timeout ts mode flags = build (CTimeout ts mode flags) /\
  NetOps.link_timeout ts flags = build (CLinkTimeout ts flags) /\
  NetOps.cancel off = build (CCancel off empty_flags) /\
  NetOps.futex_waitv sl = build (CFutexWaitv p n) /\
  NetOps.epoll_wait fd sl = build (CEpollWait fd p n) /\
  NetOps.files_update sl flags = build (CFilesUpdate p n flags) /\
  NetOps.msg_ring fd mode off = build (CMsgRing fd mode off empty_flags).
Proof.
  intros Hs. pose proof (slice_len_u32 sl Hs) as Hn. destruct Hs as [_ Hu].
  cbv zeta. repeat split; try reflexivity;
    unfold FileOps.read, FileOps.write, FileOps.readv, FileOps.writev, FileOps.getxattr,
      FileOps.fgetxattr, FileOps.setxattr, FileOps.fsetxattr, NetOps.bind, NetOps.connect,
      NetOps.send, NetOps.recv, NetOps.send_zc, NetOps.futex_waitv, NetOps.files_update;
    try (rewrite Hn; reflexivity).
  unfold NetOps.epoll_wait, NetOps.clamp_max_events.
  destruct (slice_len sl >? 4294967295) eqn:E; [|by rewrite Hn].
  apply Z.gtb_lt in E. unfold in_u in Hu. change (2 ^ 32) with 4294967296 in Hu. lia.
Qed.

Lemma borrowing_forms_witness :
  slice_ok (mkSlice 4096 512) /\
  FileOps.read 3 (mkSlice 4096 512) 0 = build (CRead 3 4096 512 0).
Proof.
  assert (slice_ok (mkSlice 4096 512)) as H by (repeat split; vm_compute; congruence).
  split; [exact H|].
  exact (proj1 (borrowing_forms (mkSlice 4096 512) 3 0 0 DirFd.Cwd 0 0 0 0 0 H)).
Defined.

(** ** The modifiers leave the request alone *)
Import Sqe.Modifiers.

(** The chainable modifiers compose with any encoding: they change only
    the submission flags, the tag or the personality, so the kernel still
    reads the same request, the entry stays well formed, and the flag
    modifiers commute and are idempotent. *)
Theorem modifiers_keep_request {PW : PtrWidth} s data f id :
  sqe_wf s -> in_u 64 data -> in_u 8 f -> in_u 16 id ->
  (decode (with_user_data s data) = decode s /\ get_user_data (with_user_data s data) = data /\
   sqe_wf (with_user_data s data)) /\
  (decode (with_flags s f) = decode s /\ sqe_wf (with_flags s f) /\
   contains (IoUringSqe.flags (with_flags s f)) f = true /\
   with_flags (with_flags s f) f = with_flags s f) /\
  (decode (with_personality s id) = decode s /\ sqe_wf (with_personality s id)) /\
  link s = with_flags s SqeFlags.IO_LINK /\ hardlink s = with_flags s SqeFlags.IO_HARDLINK /\
  drain s = with_flags s SqeFlags.IO_DRAIN /\ fixed_file s = with_flags s SqeFlags.FIXED_FILE /\
  cqe_skip_success s = with_flags s SqeFlags.CQE_SKIP_SUCCESS /\
  with_flags (link s) f = link (with_flags s f).
Proof.
  intros Hwf Hd Hf Hid. pose proof (wf_flags s Hwf) as Hfl.
  assert (in_u 8 (IoUringSqe.flags s ||| f)) as Hor by (apply lor_u_bound; [lia|done|done]).
  split_and!; try reflexivity.
  - by apply set_user_data_wf.
  - by apply set_flags_wf.
  - unfold contains, with_flags. cbn. rewrite Z.eqb_eq. bits.
    by destruct (Z.testbit _ _), (Z.testbit _ _).
  - unfold with_flags. cbn. by rewrite <- Z.lor_assoc, Z.lor_diag.
  - by apply set_personality_wf.
  - unfold with_flags, link, set_flags. cbn. by rewrite <- !Z.lor_assoc, (Z.lor_comm f).
Qed.

Lemma modifiers_keep_request_witness :
  sqe_wf (FileOps.fsync 3 1) /\
  decode (with_user_data (FileOps.fsync 3 1) 77) = Some (CFsync 3 1).
Proof.
  assert (sqe_wf (FileOps.fsync 3 1)) as H by (repeat split; vm_compute; congruence).
  split; [exact H|].
  rewrite (proj1 (proj1 (modifiers_keep_request (FileOps.fsync 3 1) 77 0 0 H
    ltac:(split; vm_compute; congruence) ltac:(split; vm_compute; congruence)
    ltac:(split; vm_compute; congruence)))).
  reflexivity.
Defined.
