(* ===== verification/Kernel.v ===== *)
(** * The memory shared with the kernel, and the kernel's side of it

    The library talks to the kernel through the mmap'd rings and through
    `io_uring_enter`.  The rings are [Shm]; the syscall is a parameter, the
    class [Kernel], whose laws [KernelLaws] state what io_uring_enter(2)
    documents for a ring without SQPOLL.  [toy_kernel] is a concrete kernel
    that satisfies them. *)
From stdpp Require Import base numbers list option.
From Stdlib Require Import ZArith Lia.
From S2P Require Import Prelude Flags Types RingIndex Sqe.
Local Open Scope Z_scope.
Local Open Scope rust_scope.

(** ** Completion queue entries *)
(* src/src/types/sqe_cqe.rs:167-173 IoUringCqe *)
Record Cqe : Set := mkCqe {
  cqe_user_data : Z;
  cqe_res : Z;
  cqe_flags : Z
}.
#[export] Instance Cqe_inhabited : Inhabited Cqe := populate (mkCqe 0 0 0).
#[export] Instance Cqe_eq_dec : EqDecision Cqe.
Proof. solve_decision. Defined.

(** ** The shared rings

    The four indices are the atomics behind `sq_head`, `sq_tail`, `cq_head`
    and `cq_tail`; [sq_kflags] the word behind `sq_flags`; the two arrays the
    memory behind `sqes` and `cqes`. *)
Record Shm : Set := mkShm {
  sq_khead : Z;
  sq_ktail : Z;
  sq_kflags : Z;
  sqes : list Sqe;
  cq_khead : Z;
  cq_ktail : Z;
  cqes : list Cqe
}.

Definition set_sq_ktail (v : Z) (m : Shm) : Shm :=
  mkShm (sq_khead m) v (sq_kflags m) (sqes m) (cq_khead m) (cq_ktail m) (cqes m).
Definition set_sqes (v : list Sqe) (m : Shm) : Shm :=
  mkShm (sq_khead m) (sq_ktail m) (sq_kflags m) v (cq_khead m) (cq_ktail m) (cqes m).
Definition set_cq_khead (v : Z) (m : Shm) : Shm :=
  mkShm (sq_khead m) (sq_ktail m) (sq_kflags m) (sqes m) v (cq_ktail m) (cqes m).

(** ** What the kernel does to the rings

    It consumes the next [n] published entries by moving `sq_head`, and posts
    completions by writing the slots after `cq_tail` and moving it. *)
Definition sq_kmask (m : Shm) : Z := Z.of_nat (length (sqes m)) - 1.
Definition cq_kmask (m : Shm) : Z := Z.of_nat (length (cqes m)) - 1.
Definition sq_visible (m : Shm) : Z := u32_sub (sq_ktail m) (sq_khead m).
Definition cq_used (m : Shm) : Z := u32_sub (cq_ktail m) (cq_khead m).

Definition kernel_consume (n : nat) (m : Shm) : Shm :=
  mkShm (u32_add (sq_khead m) (Z.of_nat n)) (sq_ktail m) (sq_kflags m) (sqes m)
    (cq_khead m) (cq_ktail m) (cqes m).
Definition kernel_post (cs : list Cqe) (m : Shm) : Shm :=
  mkShm (sq_khead m) (sq_ktail m) (sq_kflags m) (sqes m) (cq_khead m)
    (u32_add (cq_ktail m) (Z.of_nat (length cs)))
    (window_write (cqes m) (cq_kmask m) (cq_ktail m) cs).
Definition kernel_set_flags (f : Z) (m : Shm) : Shm :=
  mkShm (sq_khead m) (sq_ktail m) f (sqes m) (cq_khead m) (cq_ktail m) (cqes m).

(** The entries a consumption reads. *)
Definition consumed_sqes (n : nat) (m : Shm) : list Sqe :=
  window (sqes m) (sq_kmask m) (sq_khead m) n.

(** One call's worth of kernel activity: [n] entries consumed, then
    completions posted into free slots, then the flag word rewritten. *)
Definition kernel_activity (n : nat) (cs : list Cqe) (f : Z) (m : Shm) : Shm :=
  kernel_set_flags f (kernel_post cs (kernel_consume n m)).
Definition activity_ok (n : nat) (cs : list Cqe) (f : Z) (m : Shm) : Prop :=
  Z.of_nat n <= sq_visible m /\
  cq_used m + Z.of_nat (length cs) <= cq_kmask m + 1 /\ in_u 32 f.

(** ** The syscall *)
Class Kernel (K : Type) :=
  io_uring_enter :
    forall (fd to_submit min_complete flags : Z), Shm -> K -> result Z Errno * Shm * K.

(** io_uring_enter(2) without SQPOLL: the call consumes at most [to_submit]
    published entries and returns their number; an error is returned only
    when nothing was consumed; completions are posted only into free slots
    of the completion ring.  Nothing is promised about how many completions
    are there on return: a wait can be interrupted. *)
Class KernelLaws (K : Type) `{Kernel K} := {
  enter_activity : forall fd n min fl m k r m' k',
    io_uring_enter fd n min fl m k = (r, m', k') ->
    0 <= n -> cq_used m <= cq_kmask m + 1 ->
    exists c cs f,
      m' = kernel_activity c cs f m /\ activity_ok c cs f m /\
      match r with
      | Ok ret => ret = Z.of_nat c /\ Z.of_nat c <= n
      | Err _ => c = 0%nat
      end
}.

(** ** A kernel that satisfies the laws

    It consumes what it is asked to, up to a per-call budget, and completes
    each consumed entry at once with the result given by its oracle, as far
    as the completion ring has room. *)
Record Toy : Set := mkToy {
  toy_budget : nat;              (* entries consumed per call *)
  toy_results : list Z           (* results of the next completions *)
}.

Fixpoint toy_complete (es : list Sqe) (rs : list Z) : list Cqe :=
  match es, rs with
  | e :: es, r :: rs => mkCqe (IoUringSqe.user_data e) r 0 :: toy_complete es rs
  | _, _ => []
  end.

#[export] Instance toy_kernel : Kernel Toy := fun fd n min fl m k =>
  let c := Z.to_nat (Z.min (Z.of_nat (toy_budget k)) (Z.min n (sq_visible m))) in
  let room := Z.to_nat (cq_kmask m + 1 - cq_used m) in
  let cs := take room (toy_complete (consumed_sqes c m) (toy_results k)) in
  (Ok (Z.of_nat c), kernel_activity c cs (as_u32 (sq_kflags m)) m,
   mkToy (toy_budget k) (drop (length cs) (toy_results k))).

#[export] Instance toy_laws : KernelLaws Toy.
Proof.
  constructor. intros fd n min fl m k r m' k' He Hn Hu.
  pose proof (wrap_range 32 (sq_ktail m - sq_khead m) ltac:(lia)) as Hv.
  fold (u32_sub (sq_ktail m) (sq_khead m)) in Hv. fold (sq_visible m) in Hv.
  unfold io_uring_enter, toy_kernel in He.
  set (c := Z.to_nat _) in He. set (cs := take _ _) in He. simplify_eq.
  exists c, cs, (as_u32 (sq_kflags m)). split; [done|]. split.
  - split; [lia|]. split; [|by apply wrap_range].
    assert (length cs <= Z.to_nat (cq_kmask m + 1 - cq_used m))%nat; [|lia].
    subst cs. rewrite length_take. lia.
  - split; [done|]. subst c. lia.
Qed.
