(* ===== verification/Ring.v ===== *)
(** * The ring handles (ring/mod.rs)

    [IoUring] and its two halves [Submitter] and [Completer], operation by
    operation.  A handle keeps its private indices; the kernel-shared indices
    and arrays its raw pointers designate are the [Shm] of the system state,
    so an atomic load is a projection of [mem] and a store replaces a field. *)
From stdpp Require Import base numbers list option.
From Stdlib Require Import ZArith Lia.
From S2P Require Import Prelude Flags Types RingIndex Sqe SqeFile SqeNet Kernel.
Local Open Scope Z_scope.
Local Open Scope rust_scope.

(** A handle, the shared memory and the kernel behind it. *)
Record Sys (H K : Type) : Type := mkSys { hd : H; mem : Shm; kern : K }.
Arguments mkSys {H K} _ _ _.
Arguments hd {H K} _.
Arguments mem {H K} _.
Arguments kern {H K} _.

Section Access.
  Context {H K : Type} `{Kernel K}.
Definition upd_hd (f : H -> H) (s : Sys H K) : Sys H K := mkSys (f (hd s)) (mem s) (kern s).
Definition upd_mem (f : Shm -> Shm) (s : Sys H K) : Sys H K := mkSys (hd s) (f (mem s)) (kern s).
(** `syscall::io_uring_enter(fd, ..)?`, the errno converted by `From`. *)
Definition enter (fd to_submit min_complete flags : Z) : M (Sys H K) Error Z := fun s =>
  let '(r, m', k') := io_uring_enter fd to_submit min_complete flags (mem s) (kern s) in
  (map_err from_errno r, mkSys (hd s) m' k').
End Access.

(** The completion built from the entry at the local head. *)
Definition completion_of (cqe : Cqe) : Completion :=
  mkCompletion (cqe_user_data cqe) (cqe_res cqe) (cqe_flags cqe).

(* src/src/ring/mod.rs:282-282 IORING_SQ_NEED_WAKEUP *)
Definition IORING_SQ_NEED_WAKEUP : Z := 1 <<< 0.
(* src/src/ring/mod.rs:647-647 IORING_SQ_CQ_OVERFLOW *)
Definition IORING_SQ_CQ_OVERFLOW : Z := 1 <<< 1.

(** ** The unified handle *)
Module IoUring.
(* src/src/ring/mod.rs:130-170 IoUring *)
Record t : Set := mk {
  fd : Z;
  sq_mask : Z;
  sq_tail_local : Z;
  sq_submitted : Z;
  cq_mask : Z;
  cq_head_local : Z;
  features : Z;
  setup_flags : Z;
  do_tag_next : Z;
  resources : Z
}.
Definition set_sq_tail_local (v : Z) (r : t) : t := mk (fd r) (sq_mask r) v (sq_submitted r)
  (cq_mask r) (cq_head_local r) (features r) (setup_flags r) (do_tag_next r) (resources r).
Definition set_sq_submitted (v : Z) (r : t) : t := mk (fd r) (sq_mask r) (sq_tail_local r) v
  (cq_mask r) (cq_head_local r) (features r) (setup_flags r) (do_tag_next r) (resources r).
Definition set_cq_head_local (v : Z) (r : t) : t := mk (fd r) (sq_mask r) (sq_tail_local r)
  (sq_submitted r) (cq_mask r) v (features r) (setup_flags r) (do_tag_next r) (resources r).
Definition set_do_tag_next (v : Z) (r : t) : t := mk (fd r) (sq_mask r) (sq_tail_local r)
  (sq_submitted r) (cq_mask r) (cq_head_local r) (features r) (setup_flags r) v (resources r).

Section Ops.
  Context {K : Type} `{Kernel K}.
  Notation St := (Sys t K).
  Notation Op := (M (Sys t K) Error).

(* src/src/ring/mod.rs:573-576 IoUring::sq_capacity *)
Definition sq_capacity (r : t) : Z := sq_mask r + 1.
(* src/src/ring/mod.rs:635-638 IoUring::cq_capacity *)
Definition cq_capacity (r : t) : Z := cq_mask r + 1.
(** The subtraction is a plain `-` on `u32`: it must not go below zero. *)
(* src/src/ring/mod.rs:579-583 IoUring::sq_space_left *)
Definition sq_space_left (s : St) : Z :=
  let head := sq_khead (mem s) in
  sq_capacity (hd s) - u32_sub (sq_tail_local (hd s)) head.
(* src/src/ring/mod.rs:645-650 IoUring::cq_overflow *)
Definition cq_overflow (s : St) : bool :=
  let flags := sq_kflags (mem s) in
  negb ((flags &&& IORING_SQ_CQ_OVERFLOW) =? 0).
(* src/src/ring/mod.rs:687-692 IoUring::sq_need_wakeup *)
Definition sq_need_wakeup (s : St) : bool :=
  let flags := sq_kflags (mem s) in
  negb ((flags &&& IORING_SQ_NEED_WAKEUP) =? 0).

(* src/src/ring/mod.rs:807-824 IoUring::push *)
Definition push (sqe : Sqe) : Op unit :=
  let! s := get in
  let head := sq_khead (mem s) in
  let next_tail := u32_add (sq_tail_local (hd s)) 1 in
  if u32_sub next_tail head >? sq_mask (hd s) + 1
  then throw (from_submit QueueFull)
  else
    let idx := slot (sq_mask (hd s)) (sq_tail_local (hd s)) in
    do! modify (upd_mem (fun m => set_sqes (<[idx := sqe]> (sqes m)) m)) in
    do! modify (upd_hd (set_sq_tail_local next_tail)) in
    ret tt.

(* src/src/ring/mod.rs:833-835 IoUring::push_nop *)
Definition push_nop (user_data : Z) : Op unit :=
  push (Modifiers.with_user_data NetOps.nop user_data).

(* src/src/ring/mod.rs:841-844 IoUring::flush_sq_tail *)
Definition flush_sq_tail : Op unit :=
  let! s := get in modify (upd_mem (set_sq_ktail (sq_tail_local (hd s)))).
(* src/src/ring/mod.rs:982-985 IoUring::flush_cq_head *)
Definition flush_cq_head : Op unit :=
  let! s := get in modify (upd_mem (set_cq_khead (cq_head_local (hd s)))).

(* src/src/ring/mod.rs:865-886 IoUring::submit *)
Definition submit : Op Z :=
  let! s := get in
  let to_submit := u32_sub (sq_tail_local (hd s)) (sq_submitted (hd s)) in
  do! flush_sq_tail in
  if to_submit =? 0 then ret 0
  else
    let! r := enter (fd (hd s)) to_submit 0 empty_flags in
    let consumed := as_u32 r in
    do! modify (upd_hd (fun h => set_sq_submitted (u32_add (sq_submitted h) consumed) h)) in
    do! flush_cq_head in
    ret consumed.

(** The test of the backpressure valve. *)
(* src/src/ring/mod.rs:926-929 IoUring::submit_and_wait (valve test) *)
Definition backpressure (s : St) : bool :=
  let cq_tail := cq_ktail (mem s) in
  let cq_used := u32_sub cq_tail (cq_head_local (hd s)) in
  let cq_cap := cq_mask (hd s) + 1 in
  cq_used >? cq_cap - (cq_cap / 4).
(* src/src/ring/mod.rs:916-953 IoUring::submit_and_wait *)
Definition submit_and_wait (min_complete : Z) : Op Z :=
  do! flush_cq_head in
  let! s := get in
  let to_submit := u32_sub (sq_tail_local (hd s)) (sq_submitted (hd s)) in
  do! flush_sq_tail in
  let! s := get in
  if backpressure s then
    let! first_ret := enter (fd (hd s)) to_submit 0 empty_flags in
    let first_consumed := as_u32 first_ret in
    do! modify (upd_hd (fun h => set_sq_submitted (u32_add (sq_submitted h) first_consumed) h)) in
    let! second_ret := enter (fd (hd s)) 0 min_complete EnterFlags.GETEVENTS in
    let second_consumed := as_u32 second_ret in
    do! modify (upd_hd (fun h => set_sq_submitted (u32_add (sq_submitted h) second_consumed) h)) in
    ret (u32_add first_consumed second_consumed)
  else
    let! r := enter (fd (hd s)) to_submit min_complete EnterFlags.GETEVENTS in
    let consumed := as_u32 r in
    do! modify (upd_hd (fun h => set_sq_submitted (u32_add (sq_submitted h) consumed) h)) in
    ret consumed.

(* src/src/ring/mod.rs:966-974 IoUring::submit_sqpoll *)
Definition submit_sqpoll : Op unit :=
  do! flush_sq_tail in
  do! modify (upd_hd (fun h => set_sq_submitted (sq_tail_local h) h)) in
  let! s := get in
  if sq_need_wakeup s then
    do! enter (fd (hd s)) 0 0 EnterFlags.SQ_WAKEUP in ret tt
  else ret tt.

(* src/src/ring/mod.rs:991-1011 IoUring::complete *)
Definition complete (s : St) : option Completion * St :=
  let tail := cq_ktail (mem s) in
  if cq_head_local (hd s) =? tail then (None, s)
  else
    let idx := slot (cq_mask (hd s)) (cq_head_local (hd s)) in
    let cqe := cqes (mem s) !!! idx in
    let completion := completion_of cqe in
    (Some completion,
     upd_hd (fun h => set_cq_head_local (u32_add (cq_head_local h) 1) h) s).

(* src/src/ring/mod.rs:1018-1021 IoUring::sync_cq *)
Definition sync_cq : Op unit := flush_cq_head.
End Ops.

(* src/src/ring/mod.rs:1049-1054 IoUring::setup_flags_forbid_split *)
Definition setup_flags_forbid_split (setup_flags : Z) : bool :=
  let sqpoll := negb ((setup_flags &&& SetupFlags.SQPOLL) =? 0) in
  let single_issuer := negb ((setup_flags &&& SetupFlags.SINGLE_ISSUER) =? 0) in
  let defer_taskrun := negb ((setup_flags &&& SetupFlags.DEFER_TASKRUN) =? 0) in
  defer_taskrun || (single_issuer && negb sqpoll).
(* src/src/ring/mod.rs:1043-1046 IoUring::can_split *)
Definition can_split (r : t) : bool := negb (setup_flags_forbid_split (setup_flags r)).
End IoUring.

(** ** The iterators *)
Module Completions.
Section Ops.
  Context {K : Type}.
(* src/src/ring/mod.rs:1126-1131 Completions::next *)
Definition next (s : Sys IoUring.t K) : option Completion * Sys IoUring.t K :=
  IoUring.complete s.
(* src/src/ring/mod.rs:1133-1138 Completions::size_hint *)
Definition size_hint (s : Sys IoUring.t K) : Z * option Z :=
  let tail := cq_ktail (mem s) in
  let pending := u32_sub tail (IoUring.cq_head_local (hd s)) in
  (pending, None).
(** `for c in ring.completions()`: `next` until it returns `None`. *)
Fixpoint drain (fuel : nat) (s : Sys IoUring.t K) : option (list Completion * Sys IoUring.t K) :=
  match fuel with
  | O => None
  | S fuel =>
      match next s with
      | (None, s) => Some ([], s)
      | (Some c, s) =>
          match drain fuel s with
          | Some (cs, s) => Some (c :: cs, s)
          | None => None
          end
      end
  end.
End Ops.
End Completions.

(** ** The submission half *)
Module Submitter.
(* src/src/ring/mod.rs:186-201 Submitter *)
Record t : Set := mk {
  fd : Z;
  sq_mask : Z;
  sq_tail_local : Z;
  sq_submitted : Z;
  features : Z;
  resources : Z
}.
Definition set_sq_tail_local (v : Z) (r : t) : t :=
  mk (fd r) (sq_mask r) v (sq_submitted r) (features r) (resources r).
Definition set_sq_submitted (v : Z) (r : t) : t :=
  mk (fd r) (sq_mask r) (sq_tail_local r) v (features r) (resources r).

Section Ops.
  Context {K : Type} `{Kernel K}.
  Notation St := (Sys t K).
  Notation Op := (M (Sys t K) Error).

(* src/src/ring/mod.rs:250-262 Submitter::push *)
Definition push (sqe : Sqe) : Op unit :=
  let! s := get in
  let head := sq_khead (mem s) in
  let next_tail := u32_add (sq_tail_local (hd s)) 1 in
  if u32_sub next_tail head >? sq_mask (hd s) + 1
  then throw (from_submit QueueFull)
  else
    let idx := slot (sq_mask (hd s)) (sq_tail_local (hd s)) in
    do! modify (upd_mem (fun m => set_sqes (<[idx := sqe]> (sqes m)) m)) in
    do! modify (upd_hd (set_sq_tail_local next_tail)) in
    ret tt.
(* src/src/ring/mod.rs:269-271 Submitter::push_nop *)
Definition push_nop (user_data : Z) : Op unit :=
  push (Modifiers.with_user_data NetOps.nop user_data).
(* src/src/ring/mod.rs:274-277 Submitter::flush_sq_tail *)
Definition flush_sq_tail : Op unit :=
  let! s := get in modify (upd_mem (set_sq_ktail (sq_tail_local (hd s)))).
(* src/src/ring/mod.rs:280-285 Submitter::sq_need_wakeup *)
Definition sq_need_wakeup (s : St) : bool :=
  let flags := sq_kflags (mem s) in
  negb ((flags &&& IORING_SQ_NEED_WAKEUP) =? 0).
(* src/src/ring/mod.rs:300-303 Submitter::sq_capacity *)
Definition sq_capacity (r : t) : Z := sq_mask r + 1.
(* src/src/ring/mod.rs:306-310 Submitter::sq_space_left *)
Definition sq_space_left (s : St) : Z :=
  let head := sq_khead (mem s) in
  sq_capacity (hd s) - u32_sub (sq_tail_local (hd s)) head.

(* src/src/ring/mod.rs:355-371 Submitter::submit *)
Definition submit : Op Z :=
  let! s := get in
  let to_submit := u32_sub (sq_tail_local (hd s)) (sq_submitted (hd s)) in
  do! flush_sq_tail in
  if to_submit =? 0 then ret 0
  else
    let! r := enter (fd (hd s)) to_submit 0 empty_flags in
    let consumed := as_u32 r in
    do! modify (upd_hd (fun h => set_sq_submitted (u32_add (sq_submitted h) consumed) h)) in
    ret consumed.

(* src/src/ring/mod.rs:378-388 Submitter::submit_and_wait *)
Definition submit_and_wait (min_complete : Z) : Op Z :=
  let! s := get in
  let to_submit := u32_sub (sq_tail_local (hd s)) (sq_submitted (hd s)) in
  do! flush_sq_tail in
  let! r := enter (fd (hd s)) to_submit min_complete EnterFlags.GETEVENTS in
  let consumed := as_u32 r in
  do! modify (upd_hd (fun h => set_sq_submitted (u32_add (sq_submitted h) consumed) h)) in
  ret consumed.

(* src/src/ring/mod.rs:395-403 Submitter::submit_sqpoll *)
Definition submit_sqpoll : Op unit :=
  do! flush_sq_tail in
  do! modify (upd_hd (fun h => set_sq_submitted (sq_tail_local h) h)) in
  let! s := get in
  if sq_need_wakeup s then
    do! enter (fd (hd s)) 0 0 EnterFlags.SQ_WAKEUP in ret tt
  else ret tt.
End Ops.
End Submitter.

(** ** The completion half *)
Module Completer.
(* src/src/ring/mod.rs:221-231 Completer *)
Record t : Set := mk {
  fd : Z;
  cq_mask : Z;
  cq_head_local : Z;
  resources : Z
}.
Definition set_cq_head_local (v : Z) (r : t) : t := mk (fd r) (cq_mask r) v (resources r).

Section Ops.
  Context {K : Type} `{Kernel K}.
  Notation St := (Sys t K).
  Notation Op := (M (Sys t K) Error).

(* src/src/ring/mod.rs:420-423 Completer::cq_capacity *)
Definition cq_capacity (r : t) : Z := cq_mask r + 1.
(* src/src/ring/mod.rs:458-474 Completer::complete *)
Definition complete (s : St) : option Completion * St :=
  let tail := cq_ktail (mem s) in
  if cq_head_local (hd s) =? tail then (None, s)
  else
    let idx := slot (cq_mask (hd s)) (cq_head_local (hd s)) in
    let cqe := cqes (mem s) !!! idx in
    let completion := completion_of cqe in
    (Some completion,
     upd_hd (fun h => set_cq_head_local (u32_add (cq_head_local h) 1) h) s).
(* src/src/ring/mod.rs:477-480 Completer::sync_cq *)
Definition sync_cq : Op unit :=
  let! s := get in modify (upd_mem (set_cq_khead (cq_head_local (hd s)))).
(* src/src/ring/mod.rs:500-505 Completer::wait *)
Definition wait (min_complete : Z) : Op unit :=
  do! sync_cq in
  let! s := get in
  do! enter (fd (hd s)) 0 min_complete EnterFlags.GETEVENTS in
  ret tt.
(* src/src/ring/mod.rs:524-526 SplitCompletions::next *)
Definition next (s : St) : option Completion * St := complete s.
(* src/src/ring/mod.rs:528-532 SplitCompletions::size_hint *)
Definition size_hint (s : St) : Z * option Z :=
  let tail := cq_ktail (mem s) in
  let pending := u32_sub tail (cq_head_local (hd s)) in
  (pending, None).
End Ops.
End Completer.
