(* ===== verification/RingSpec.v ===== *)
(** * The rings as queues

    The submission ring is a bounded FIFO of the entries pushed and not yet
    consumed, the completion ring a FIFO of the entries posted and not yet
    reaped.  This file has the invariant of the index arithmetic (positions
    are unbounded integers, the indices their residues modulo [2 ^ 32]), the
    abstract queues and the effect of every user and kernel action on them. *)
From stdpp Require Import base numbers list option.
From Stdlib Require Import ZArith Lia.
From S2P Require Import Prelude Flags Types RingIndex Sqe Kernel Ring.
Local Open Scope Z_scope.
Local Open Scope rust_scope.

(** ** Positions

    Submission side: the kernel has consumed [h] entries, [t] are published
    and [l] pushed. *)
Record sq_at (mask tail_local : Z) (m : Shm) (h t l : Z) : Prop := {
  sqa_shape : ring_shape (sqes m) mask;
  sqa_head : sq_khead m = wrap 32 h;
  sqa_tail : sq_ktail m = wrap 32 t;
  sqa_local : tail_local = wrap 32 l;
  sqa_order : h <= t <= l;
  sqa_cap : l <= h + (mask + 1)
}.

(** Completion side: [t] completions posted, [h] reaped, and the kernel knows
    of the first [k] of those. *)
Record cq_at (mask head_local : Z) (m : Shm) (k h t : Z) : Prop := {
  cqa_shape : ring_shape (cqes m) mask;
  cqa_head : cq_khead m = wrap 32 k;
  cqa_tail : cq_ktail m = wrap 32 t;
  cqa_local : head_local = wrap 32 h;
  cqa_order : k <= h <= t;
  cqa_cap : t <= k + (mask + 1)
}.

(** ** The queues *)
Definition sq_queue (mask tail_local : Z) (m : Shm) : list Sqe :=
  window (sqes m) mask (sq_khead m) (Z.to_nat (u32_sub tail_local (sq_khead m))).
Definition sq_published (mask : Z) (m : Shm) : list Sqe :=
  window (sqes m) mask (sq_khead m) (Z.to_nat (sq_visible m)).
Definition cq_queue (mask head_local : Z) (m : Shm) : list Cqe :=
  window (cqes m) mask head_local (Z.to_nat (u32_sub (cq_ktail m) head_local)).

Lemma distance_between a b cap :
  0 <= b - a <= cap -> cap <= 2 ^ 31 -> u32_sub (wrap 32 b) (wrap 32 a) = b - a.
Proof.
  intros Hd Hc. apply wrap_distance.
  - rewrite wrap_add_l. f_equal. lia.
  - split; [lia|]. change (2 ^ 31) with 2147483648 in Hc. change (2 ^ 32) with 4294967296. lia.
Qed.

Section Positions.
  Context (mask : Z) (m : Shm).

Lemma sq_queue_at tl h t l :
  sq_at mask tl m h t l ->
  sq_queue mask tl m = window (sqes m) mask (wrap 32 h) (Z.to_nat (l - h)).
Proof.
  intros [Hs Hh Ht Hl Ho Hc]. destruct (ring_shape_cap _ _ Hs) as [Hb _].
  unfold sq_queue. rewrite Hh, Hl. by rewrite (distance_between h l (mask + 1)) by lia.
Qed.

Lemma sq_visible_at tl h t l : sq_at mask tl m h t l -> sq_visible m = t - h.
Proof.
  intros [Hs Hh Ht Hl Ho Hc]. destruct (ring_shape_cap _ _ Hs) as [Hb _].
  unfold sq_visible. rewrite Hh, Ht. by rewrite (distance_between h t (mask + 1)) by lia.
Qed.

Lemma sq_published_at tl h t l :
  sq_at mask tl m h t l ->
  sq_published mask m = window (sqes m) mask (wrap 32 h) (Z.to_nat (t - h)).
Proof.
  intros H. unfold sq_published. rewrite (sq_visible_at _ _ _ _ H).
  by rewrite (sqa_head _ _ _ _ _ _ H).
Qed.

Lemma cq_queue_at hl k h t :
  cq_at mask hl m k h t ->
  cq_queue mask hl m = window (cqes m) mask (wrap 32 h) (Z.to_nat (t - h)).
Proof.
  intros [Hs Hh Ht Hl Ho Hc]. destruct (ring_shape_cap _ _ Hs) as [Hb _].
  unfold cq_queue. rewrite Ht, Hl. by rewrite (distance_between h t (mask + 1)) by lia.
Qed.

Lemma cq_used_at hl k h t : cq_at mask hl m k h t -> cq_used m = t - k.
Proof.
  intros [Hs Hh Ht Hl Ho Hc]. destruct (ring_shape_cap _ _ Hs) as [Hb _].
  unfold cq_used. rewrite Hh, Ht. by rewrite (distance_between k t (mask + 1)) by lia.
Qed.

Lemma sq_kmask_at tl h t l : sq_at mask tl m h t l -> sq_kmask m = mask.
Proof.
  intros [Hs _ _ _ _ _]. destruct (ring_shape_cap _ _ Hs) as [_ Hl]. unfold sq_kmask. lia.
Qed.

Lemma cq_kmask_at hl k h t : cq_at mask hl m k h t -> cq_kmask m = mask.
Proof.
  intros [Hs _ _ _ _ _]. destruct (ring_shape_cap _ _ Hs) as [_ Hl]. unfold cq_kmask. lia.
Qed.
End Positions.

(** ** The user's writes *)
Section UserSide.
  Context (mask : Z) (m : Shm).

(** `push` into a ring that is not full. *)
Lemma push_at tl h t l (e : Sqe) :
  sq_at mask tl m h t l -> l - h < mask + 1 ->
  let m' := set_sqes (<[slot mask tl := e]> (sqes m)) m in
  sq_at mask (u32_add tl 1) m' h t (l + 1) /\
  sq_queue mask (u32_add tl 1) m' = sq_queue mask tl m ++ [e] /\
  sq_published mask m' = sq_published mask m.
Proof.
  intros H Hroom m'.
  assert (sq_at mask (u32_add tl 1) m' h t (l + 1)) as H'.
  { destruct H as [Hs Hh Ht Hl Ho Hc]. split; cbn; try done; try lia.
    - by apply ring_shape_insert.
    - unfold u32_add. rewrite Hl. apply wrap_add_l. }
  split; [done|]. rewrite (sq_queue_at _ _ _ _ _ _ H'), (sq_queue_at _ _ _ _ _ _ H),
    (sq_published_at _ _ _ _ _ _ H'), (sq_published_at _ _ _ _ _ _ H).
  destruct H as [Hs Hh Ht Hl Ho Hc]. cbn [m' sqes set_sqes].
  assert (slot mask tl = slot mask (wrap 32 (wrap 32 h + (l - h)))) as ->.
  { rewrite Hl, wrap_add_l. do 2 f_equal. lia. }
  split; [|by rewrite window_insert_ne by (done || lia)].
  replace (Z.to_nat (l + 1 - h)) with (S (Z.to_nat (l - h))) by lia.
  replace (l - h) with (Z.of_nat (Z.to_nat (l - h))) at 1 by lia.
  apply window_push; [done|lia].
Qed.

(** The queue-full test of `push` is exact. *)
Lemma push_full_at tl h t l :
  sq_at mask tl m h t l ->
  (u32_sub (u32_add tl 1) (sq_khead m) >? mask + 1) = true <-> l - h = mask + 1.
Proof.
  intros [Hs Hh Ht Hl Ho Hc]. destruct (ring_shape_cap _ _ Hs) as [Hb _].
  assert (u32_sub (u32_add tl 1) (sq_khead m) = l + 1 - h) as ->.
  { unfold u32_add. rewrite Hl, Hh, wrap_add_l. apply wrap_distance.
    - rewrite wrap_add_l. f_equal. lia.
    - split; [lia|]. change (2 ^ 31) with 2147483648 in Hb.
      change (2 ^ 32) with 4294967296. lia. }
  rewrite Z.gtb_lt. lia.
Qed.

Lemma flush_sq_at tl h t l :
  sq_at mask tl m h t l ->
  sq_at mask tl (set_sq_ktail tl m) h l l /\
  sq_queue mask tl (set_sq_ktail tl m) = sq_queue mask tl m /\
  sq_published mask (set_sq_ktail tl m) = sq_queue mask tl m.
Proof.
  intros H. assert (sq_at mask tl (set_sq_ktail tl m) h l l) as H'.
  { destruct H as [Hs Hh Ht Hl Ho Hc]. split; cbn; done || lia. }
  split; [done|]. rewrite (sq_queue_at _ _ _ _ _ _ H'), (sq_queue_at _ _ _ _ _ _ H).
  by rewrite (sq_published_at _ _ _ _ _ _ H').
Qed.

Lemma flush_cq_at hl k h t :
  cq_at mask hl m k h t -> cq_at mask hl (set_cq_khead hl m) h h t.
Proof. intros [Hs Hh Ht Hl Ho Hc]. split; cbn; done || lia. Qed.

(** `complete` on a ring with something to reap. *)
Lemma complete_empty_at hl k h t :
  cq_at mask hl m k h t -> (hl =? cq_ktail m) = true <-> t = h.
Proof.
  intros [Hs Hh Ht Hl Ho Hc]. destruct (ring_shape_cap _ _ Hs) as [Hb _].
  rewrite Z.eqb_eq, Ht, Hl. split; [|by intros ->]. intros Heq.
  pose proof (distance_between h t (mask + 1) ltac:(lia) ltac:(lia)) as Hd.
  rewrite <- Heq in Hd. unfold u32_sub in Hd. rewrite Z.sub_diag in Hd. change (wrap 32 0) with 0 in Hd. lia.
Qed.

Lemma complete_at hl k h t :
  cq_at mask hl m k h t -> h < t ->
  cq_at mask (u32_add hl 1) m k (h + 1) t /\
  cq_queue mask hl m = cqes m !!! slot mask hl :: cq_queue mask (u32_add hl 1) m.
Proof.
  intros H Hlt. assert (cq_at mask (u32_add hl 1) m k (h + 1) t) as H'.
  { destruct H as [Hs Hh Ht Hl Ho Hc]. split; try done; try lia.
    unfold u32_add. rewrite Hl. apply wrap_add_l. }
  split; [done|].
  rewrite (cq_queue_at _ _ _ _ _ _ H'), (cq_queue_at _ _ _ _ _ _ H).
  destruct H as [Hs Hh Ht Hl Ho Hc].
  replace (Z.to_nat (t - h)) with (S (Z.to_nat (t - (h + 1)))) by lia.
  by rewrite window_cons, wrap_wrap, wrap_add_l, Hl.
Qed.
End UserSide.

(** ** The kernel's writes *)
Section KernelSide.
  Context (mask : Z) (m : Shm).

Lemma kernel_consume_at tl h t l n :
  sq_at mask tl m h t l -> Z.of_nat n <= t - h ->
  sq_at mask tl (kernel_consume n m) (h + Z.of_nat n) t l /\
  consumed_sqes n m = take n (sq_queue mask tl m) /\
  sq_queue mask tl (kernel_consume n m) = drop n (sq_queue mask tl m) /\
  sq_published mask (kernel_consume n m) = drop n (sq_published mask m).
Proof.
  intros H Hn. assert (sq_at mask tl (kernel_consume n m) (h + Z.of_nat n) t l) as H'.
  { destruct H as [Hs Hh Ht Hl Ho Hc]. split; cbn; try done; try lia.
    unfold u32_add. rewrite Hh. apply wrap_add_l. }
  split; [done|].
  rewrite (sq_queue_at _ _ _ _ _ _ H'), (sq_queue_at _ _ _ _ _ _ H),
    (sq_published_at _ _ _ _ _ _ H'), (sq_published_at _ _ _ _ _ _ H).
  unfold consumed_sqes. rewrite (sq_kmask_at _ _ _ _ _ _ H).
  destruct H as [Hs Hh Ht Hl Ho Hc]. rewrite Hh. cbn [sqes kernel_consume].
  rewrite window_take by lia. split; [done|].
  rewrite !window_drop by lia. rewrite wrap_add_l. split; f_equal; lia.
Qed.

Lemma kernel_post_at hl k h t cs :
  cq_at mask hl m k h t -> t - k + Z.of_nat (length cs) <= mask + 1 ->
  cq_at mask hl (kernel_post cs m) k h (t + Z.of_nat (length cs)) /\
  cq_queue mask hl (kernel_post cs m) = cq_queue mask hl m ++ cs.
Proof.
  intros H Hn.
  assert (cq_at mask hl (kernel_post cs m) k h (t + Z.of_nat (length cs))) as H'.
  { pose proof (cq_kmask_at _ _ _ _ _ _ H) as Hm. destruct H as [Hs Hh Ht Hl Ho Hc].
    split; cbn; try done; try lia.
    - rewrite Hm. by apply window_write_shape.
    - unfold u32_add. rewrite Ht. apply wrap_add_l. }
  split; [done|].
  rewrite (cq_queue_at _ _ _ _ _ _ H'), (cq_queue_at _ _ _ _ _ _ H).
  pose proof (cq_kmask_at _ _ _ _ _ _ H) as Hm.
  destruct H as [Hs Hh Ht Hl Ho Hc]. cbn [cqes kernel_post]. rewrite Hm, Ht.
  replace (Z.to_nat (t + Z.of_nat (length cs) - h))
    with (Z.to_nat (t - h) + length cs)%nat by lia.
  rewrite window_write_wrap, !window_head_wrap.
  replace t with (h + Z.of_nat (Z.to_nat (t - h))) at 1 by lia.
  apply window_write_push; [done|lia].
Qed.

(** The two sides do not disturb each other. *)
Lemma sq_at_ext tl m' h t l :
  sqes m' = sqes m -> sq_khead m' = sq_khead m -> sq_ktail m' = sq_ktail m ->
  sq_at mask tl m h t l -> sq_at mask tl m' h t l.
Proof. intros He Hh Ht []. split; congruence || lia. Qed.
Lemma cq_at_ext hl m' k h t :
  cqes m' = cqes m -> cq_khead m' = cq_khead m -> cq_ktail m' = cq_ktail m ->
  cq_at mask hl m k h t -> cq_at mask hl m' k h t.
Proof. intros He Hh Ht []. split; congruence || lia. Qed.
End KernelSide.
