(* ===== verification/RingCorrect.v ===== *)
(** * Correctness of the unified handle

    `push`, `submit`, `submit_and_wait`, `complete` and the draining iterator
    of [IoUring] against the queues of the ring: what each returns on every
    branch and what it does to the pending and the available entries. *)
From stdpp Require Import base numbers list option.
From Stdlib Require Import ZArith Lia.
From S2P Require Import Prelude Flags Types RingIndex Sqe SqeFile SqeNet Kernel Ring RingSpec.
Local Open Scope Z_scope.
Local Open Scope rust_scope.

Section Ring.
  Context {K : Type} `{HK : Kernel K}.
  Notation St := (Sys IoUring.t K).

(** The entries pushed and not consumed, the part of them the kernel can see,
    and the completions posted and not reaped. *)
Definition pending (s : St) : list Sqe :=
  sq_queue (IoUring.sq_mask (hd s)) (IoUring.sq_tail_local (hd s)) (mem s).
Definition published (s : St) : list Sqe :=
  sq_published (IoUring.sq_mask (hd s)) (mem s).
Definition available (s : St) : list Cqe :=
  cq_queue (IoUring.cq_mask (hd s)) (IoUring.cq_head_local (hd s)) (mem s).

Record ring_at (s : St) (h t l k ch ct : Z) : Prop := {
  ra_sq : sq_at (IoUring.sq_mask (hd s)) (IoUring.sq_tail_local (hd s)) (mem s) h t l;
  ra_cq : cq_at (IoUring.cq_mask (hd s)) (IoUring.cq_head_local (hd s)) (mem s) k ch ct
}.
(** The ring invariant, and the accounting of a ring without SQPOLL: the
    entries counted as submitted are those the kernel has consumed. *)
Definition ring_wf (s : St) : Prop := exists h t l k ch ct, ring_at s h t l k ch ct.
Definition accounted (s : St) : Prop :=
  IoUring.sq_submitted (hd s) = sq_khead (mem s).

Lemma pending_length s h t l k ch ct :
  ring_at s h t l k ch ct -> Z.of_nat (length (pending s)) = l - h.
Proof.
  intros [Hq _]. unfold pending. rewrite (sq_queue_at _ _ _ _ _ _ Hq), window_length.
  destruct Hq. lia.
Qed.

Lemma available_length s h t l k ch ct :
  ring_at s h t l k ch ct -> Z.of_nat (length (available s)) = ct - ch.
Proof.
  intros [_ Hq]. unfold available. rewrite (cq_queue_at _ _ _ _ _ _ Hq), window_length.
  destruct Hq. lia.
Qed.

(** ** Push *)
Lemma push_run (e : Sqe) (s : St) :
  IoUring.push e s =
  let h := hd s in
  let next := u32_add (IoUring.sq_tail_local h) 1 in
  if u32_sub next (sq_khead (mem s)) >? IoUring.sq_mask h + 1
  then (Err (Submit QueueFull), s)
  else (Ok tt, mkSys (IoUring.set_sq_tail_local next h)
    (set_sqes (<[slot (IoUring.sq_mask h) (IoUring.sq_tail_local h) := e]> (sqes (mem s))) (mem s))
    (kern s)).
Proof. unfold IoUring.push, bind, get. cbv zeta. by destruct (_ >? _). Qed.

(** The effect of `push`, in the form the later proofs use. *)
Lemma push_effect (e : Sqe) (s : St) :
  ring_wf s ->
  let '(r, s') := IoUring.push e s in
  ring_wf s' /\ published s' = published s /\ available s' = available s /\ kern s' = kern s /\
  (accounted s -> accounted s') /\
  if decide (Z.of_nat (length (pending s)) < IoUring.sq_capacity (hd s))
  then r = Ok tt /\ pending s' = pending s ++ [e]
  else r = Err (Submit QueueFull) /\ s' = s /\
       Z.of_nat (length (pending s)) = IoUring.sq_capacity (hd s).
Proof.
  intros (h & t & l & k & ch & ct & H). pose proof (pending_length _ _ _ _ _ _ _ H) as Hlen.
  destruct H as [Hs Hc]. rewrite push_run. cbv zeta.
  pose proof (push_full_at _ _ _ _ _ _ Hs) as Hfull. unfold IoUring.sq_capacity.
  pose proof (sqa_cap _ _ _ _ _ _ Hs) as Hcap.
  destruct (_ >? _) eqn:E.
  - pose proof (proj1 Hfull eq_refl). rewrite decide_False by lia.
    split_and!; try done; [|lia]. by exists h, t, l, k, ch, ct.
  - assert (l - h < IoUring.sq_mask (hd s) + 1) as Hroom.
    { destruct (decide (l - h = IoUring.sq_mask (hd s) + 1)) as [Heq|]; [|lia].
      apply Hfull in Heq; done. }
    rewrite decide_True by lia.
    destruct (push_at _ _ _ _ _ _ e Hs Hroom) as (H1 & H2 & H3).
    split_and!; try done.
    exists h, t, (l + 1), k, ch, ct. split; [exact H1|].
    by eapply cq_at_ext; [..|exact Hc].
Qed.

(** C13. `push` is the append of a bounded queue: with fewer than
    `sq_capacity` entries pending it returns `Ok` and the entry is the last
    of the pending ones, unpublished; with `sq_capacity` pending it returns
    `QueueFull` and changes nothing.  The indices may wrap. *)
Theorem push_refines_append (e : Sqe) (s : St) :
  ring_wf s ->
  let '(r, s') := IoUring.push e s in
  ring_wf s' /\ published s' = published s /\ available s' = available s /\ kern s' = kern s /\
  (accounted s -> accounted s') /\
  if decide (Z.of_nat (length (pending s)) < IoUring.sq_capacity (hd s))
  then r = Ok tt /\ pending s' = pending s ++ [e]
  else r = Err (Submit QueueFull) /\ s' = s /\
       Z.of_nat (length (pending s)) = IoUring.sq_capacity (hd s).
Proof. exact (push_effect e s). Qed.

(** ** Space *)
(** `sq_space_left` is the number of entries that can still be pushed: the
    plain subtraction never underflows, and `push` fails exactly at zero. *)
Theorem sq_space_left_exact (s : St) :
  ring_wf s ->
  0 <= IoUring.sq_space_left s <= IoUring.sq_capacity (hd s) /\
  IoUring.sq_space_left s = IoUring.sq_capacity (hd s) - Z.of_nat (length (pending s)) /\
  forall e, is_ok (fst (IoUring.push e s)) = true <-> 0 < IoUring.sq_space_left s.
Proof.
  intros (h & t & l & k & ch & ct & H). pose proof (pending_length _ _ _ _ _ _ _ H) as Hlen.
  assert (IoUring.sq_space_left s = IoUring.sq_capacity (hd s) - (l - h)) as Hsp.
  { unfold IoUring.sq_space_left. f_equal. destruct H as [[Hs Hh Ht Hl Ho Hc] _].
    destruct (ring_shape_cap _ _ Hs) as [Hb _]. rewrite Hh, Hl.
    by apply (distance_between h l (IoUring.sq_mask (hd s) + 1)); lia. }
  pose proof (push_full_at _ _ _ _ _ _ (ra_sq _ _ _ _ _ _ _ H)) as Hfull.
  destruct H as [[Hs Hh Ht Hl Ho Hc] _].
  unfold IoUring.sq_capacity in *. split; [lia|]. split; [lia|]. intros e.
  rewrite push_run. cbv zeta. rewrite Hsp.
  destruct (_ >? _) eqn:E; cbn.
  - pose proof (proj1 Hfull eq_refl). split; [done|lia].
  - split; [|done]. intros _. destruct (decide (l - h = IoUring.sq_mask (hd s) + 1)) as [Heq|].
    + by apply Hfull in Heq.
    + lia.
Qed.

(** ** Reaping *)
(** The effect of `complete`. *)
Lemma complete_effect (s : St) :
  ring_wf s ->
  let '(r, s') := IoUring.complete s in
  ring_wf s' /\ pending s' = pending s /\ published s' = published s /\
  mem s' = mem s /\ kern s' = kern s /\ (accounted s -> accounted s') /\
  match available s with
  | [] => r = None /\ s' = s
  | c :: rest => r = Some (completion_of c) /\ available s' = rest
  end.
Proof.
  intros (h & t & l & k & ch & ct & H). pose proof (available_length _ _ _ _ _ _ _ H) as Hlen.
  pose proof (complete_empty_at _ _ _ _ _ _ (ra_cq _ _ _ _ _ _ _ H)) as He.
  unfold IoUring.complete. destruct (_ =? _) eqn:E.
  - pose proof (proj1 He eq_refl). split_and!; try done; [by exists h, t, l, k, ch, ct|].
    by destruct (available s); [|cbn in Hlen; lia].
  - assert (ch < ct) as Hlt.
    { destruct (decide (ct = ch)) as [Heq|]; [by apply He in Heq|].
      destruct (cqa_order _ _ _ _ _ _ (ra_cq _ _ _ _ _ _ _ H)). lia. }
    destruct (complete_at _ _ _ _ _ _ (ra_cq _ _ _ _ _ _ _ H) Hlt) as [Hc Hq].
    split_and!; try done.
    + exists h, t, l, k, (ch + 1), ct. split; [exact (ra_sq _ _ _ _ _ _ _ H)|exact Hc].
    + unfold available. rewrite Hq. done.
Qed.

(** `complete` is the removal of the oldest available completion: `None`
    exactly when there is none, otherwise the completion carries the entry's
    `user_data`, `res` and `flags` unchanged and only the local head moves. *)
Theorem complete_refines_pop (s : St) :
  ring_wf s ->
  let '(r, s') := IoUring.complete s in
  ring_wf s' /\ pending s' = pending s /\ published s' = published s /\
  mem s' = mem s /\ kern s' = kern s /\ (accounted s -> accounted s') /\
  match available s with
  | [] => r = None /\ s' = s
  | c :: rest => r = Some (completion_of c) /\ available s' = rest
  end.
Proof. exact (complete_effect s). Qed.

Lemma drain_all (s : St) fuel :
  ring_wf s -> (length (available s) < fuel)%nat ->
  exists s', Completions.drain fuel s = Some (completion_of <$> available s, s') /\
    ring_wf s' /\ available s' = [] /\ pending s' = pending s /\ mem s' = mem s.
Proof.
  revert s. induction fuel as [|fuel IH]; intros s Hwf Hf; [lia|].
  pose proof (complete_effect s Hwf) as Hc. cbn [Completions.drain].
  unfold Completions.next. destruct (IoUring.complete s) as [r s1].
  destruct Hc as (Hwf1 & Hp & _ & Hm & _ & _ & Hr).
  destruct (available s) as [|c rest] eqn:Ha.
  - destruct Hr as [-> ->]. exists s. by rewrite Ha.
  - destruct Hr as [-> Hr]. cbn in Hf. rewrite <- Hr in Hf.
    destruct (IH s1 Hwf1 ltac:(lia)) as (s' & -> & H1 & H2 & H3 & H4).
    exists s'. rewrite Hr. split_and!; try done; congruence.
Qed.

(** Draining `completions()` terminates after one `next` per available
    completion and a last `None`, and yields exactly the available
    completions, oldest first; `size_hint`'s lower bound is their number. *)
Theorem drain_exact (s : St) :
  ring_wf s ->
  Completions.size_hint s = (Z.of_nat (length (available s)), None) /\
  Completions.drain (length (available s)) s = None /\
  exists s', Completions.drain (S (length (available s))) s =
      Some (completion_of <$> available s, s') /\
    ring_wf s' /\ available s' = [] /\ pending s' = pending s /\ mem s' = mem s.
Proof.
  intros Hwf. split_and!.
  - unfold Completions.size_hint. f_equal. destruct Hwf as (h & t & l & k & ch & ct & H).
    rewrite (available_length _ _ _ _ _ _ _ H). destruct H as [_ [Hs Hh Ht Hl Ho Hc]].
    destruct (ring_shape_cap _ _ Hs) as [Hb _]. rewrite Ht, Hl.
    apply (distance_between ch ct (IoUring.cq_mask (hd s) + 1)); lia.
  - remember (length (available s)) as n eqn:Hn. symmetry in Hn. revert s Hwf Hn.
    induction n as [|n IH]; intros s Hwf Hn; [done|].
    pose proof (complete_effect s Hwf) as Hc. cbn [Completions.drain].
    unfold Completions.next. destruct (IoUring.complete s) as [r s1].
    destruct Hc as (Hwf1 & _ & _ & _ & _ & _ & Hr).
    destruct (available s) as [|c rest]; [done|]. destruct Hr as [-> Hr].
    rewrite (IH s1 Hwf1); [done|]. rewrite Hr. by injection Hn.
  - apply drain_all; [done|lia].
Qed.

(** ** Submission *)
Context `{HL : !KernelLaws K}.

(** The effect of a syscall that consumed [c] entries and posted [cs]. *)
Record entered (s s' : St) (c : nat) (cs : list Cqe) : Prop := {
  en_wf : ring_wf s';
  en_hd : hd s' = hd s;
  en_pending : pending s' = drop c (pending s);
  en_published : published s' = drop c (published s);
  en_available : available s' = available s ++ cs;
  en_head : sq_khead (mem s') = u32_add (sq_khead (mem s)) (Z.of_nat c);
  en_bound : (c <= length (published s))%nat
}.

Lemma enter_effect fd n min fl (s s' : St) r :
  ring_wf s -> 0 <= n -> enter fd n min fl s = (r, s') ->
  exists c cs, entered s s' c cs /\
    match r with
    | Ok ret => ret = Z.of_nat c /\ Z.of_nat c <= n
    | Err e => c = 0%nat /\ exists e', e = Syscall e'
    end.
Proof.
  intros (h & t & l & k & ch & ct & [Hs Hc]) Hn He. unfold enter in He.
  destruct (io_uring_enter _ _ _ _ _ _) as [[r0 m'] k'] eqn:E. simplify_eq.
  pose proof (cq_used_at _ _ _ _ _ _ Hc) as Hu. pose proof (cq_kmask_at _ _ _ _ _ _ Hc) as Hm.
  apply enter_activity in E as (c & cs & f & -> & (Hv & Hp & Hf) & Hr);
    [|done|destruct Hc; lia].
  rewrite (sq_visible_at _ _ _ _ _ _ Hs) in Hv.
  destruct (kernel_consume_at _ _ _ _ _ _ c Hs Hv) as (Hs' & _ & Hq & Hpub).
  destruct (kernel_post_at _ (kernel_consume c (mem s)) _ _ _ _ cs
    (cq_at_ext _ (mem s) _ (kernel_consume c (mem s)) _ _ _ eq_refl eq_refl eq_refl Hc) ltac:(lia))
    as [Hc' Ha].
  exists c, cs. split.
  - split; try done.
    + exists (h + Z.of_nat c), t, l, k, ch, (ct + Z.of_nat (length cs)).
      split; [by eapply sq_at_ext; [..|exact Hs']|by eapply cq_at_ext; [..|exact Hc']].
    + unfold published. rewrite (sq_published_at _ _ _ _ _ _ Hs), window_length. lia.
  - destruct r0 as [ret|e]; cbn; [done|]. split; [done|]. by exists e.
Qed.

Lemma ring_cap_u32 s : ring_wf s -> in_u 32 (Z.of_nat (length (pending s))).
Proof.
  intros (h & t & l & k & ch & ct & H). rewrite (pending_length _ _ _ _ _ _ _ H).
  destruct H as [[Hs _ _ _ Ho Hc] _]. destruct (ring_shape_cap _ _ Hs) as [Hb _].
  change (2 ^ 31) with 2147483648 in Hb. split; [lia|]. change (2 ^ 32) with 4294967296. lia.
Qed.

Lemma published_le_pending s :
  ring_wf s -> (length (published s) <= length (pending s))%nat.
Proof.
  intros (h & t & l & k & ch & ct & [Hs _]). unfold published, pending.
  rewrite (sq_published_at _ _ _ _ _ _ Hs), (sq_queue_at _ _ _ _ _ _ Hs), !window_length.
  destruct Hs. lia.
Qed.

(** Publishing the tail. *)
Definition flush_tail (s : St) : St :=
  upd_mem (set_sq_ktail (IoUring.sq_tail_local (hd s))) s.
Lemma flush_tail_effect s :
  ring_wf s ->
  ring_wf (flush_tail s) /\ pending (flush_tail s) = pending s /\
  published (flush_tail s) = pending s /\ available (flush_tail s) = available s.
Proof.
  intros (h & t & l & k & ch & ct & [Hs Hc]).
  destruct (flush_sq_at _ _ _ _ _ _ Hs) as (H1 & H2 & H3). split_and!; try done.
  exists h, l, l, k, ch, ct. split; [done|]. by eapply cq_at_ext; [..|exact Hc].
Qed.

(** Publishing the completion head. *)
Definition flush_head (s : St) : St :=
  upd_mem (set_cq_khead (IoUring.cq_head_local (hd s))) s.
Lemma flush_head_effect s :
  ring_wf s ->
  ring_wf (flush_head s) /\ pending (flush_head s) = pending s /\
  published (flush_head s) = published s /\ available (flush_head s) = available s.
Proof.
  intros (h & t & l & k & ch & ct & [Hs Hc]). split_and!; try done.
  exists h, t, l, ch, ch, ct. split; [by eapply sq_at_ext; [..|exact Hs]|].
  by eapply flush_cq_at.
Qed.

(** What is left to submit is what is pending. *)
Lemma to_submit_pending s :
  ring_wf s -> accounted s ->
  u32_sub (IoUring.sq_tail_local (hd s)) (IoUring.sq_submitted (hd s)) =
  Z.of_nat (length (pending s)).
Proof.
  intros (h & t & l & k & ch & ct & H) Ha. rewrite (pending_length _ _ _ _ _ _ _ H).
  rewrite Ha. destruct H as [[Hs Hh Ht Hl Ho Hc] _].
  destruct (ring_shape_cap _ _ Hs) as [Hb _]. rewrite Hh, Hl.
  apply (distance_between h l (IoUring.sq_mask (hd s) + 1)); lia.
Qed.

(** Counting what a call consumed. *)
Definition account (ret : Z) (s : St) : St :=
  upd_hd (fun h => IoUring.set_sq_submitted
    (u32_add (IoUring.sq_submitted h) (as_u32 ret)) h) s.
Lemma account_effect s s' c cs :
  ring_wf s -> entered s s' c cs -> accounted s ->
  let s2 := account (Z.of_nat c) s' in
  as_u32 (Z.of_nat c) = Z.of_nat c /\
  ring_wf s2 /\ accounted s2 /\ pending s2 = drop c (pending s) /\
  published s2 = drop c (published s) /\ available s2 = available s ++ cs.
Proof.
  intros Hwf [Hw' Hh Hp Hpub Ha Hk Hb] Hacc.
  assert (as_u32 (Z.of_nat c) = Z.of_nat c) as Hc.
  { apply wrap_small. destruct (ring_cap_u32 s Hwf).
    pose proof (published_le_pending s Hwf). split; [lia|]. lia. }
  cbv zeta. split_and!; try done.
  { destruct Hw' as (h & t & l & k & ch & ct & [Hs Hq]). by exists h, t, l, k, ch, ct. }
  unfold accounted, account, upd_hd. cbn [hd mem IoUring.sq_submitted IoUring.set_sq_submitted].
  by rewrite Hc, Hh, Hk, Hacc.
Qed.

(** A failed call consumed nothing. *)
Lemma failed_effect s s' cs :
  ring_wf s -> entered s s' 0 cs -> accounted s ->
  ring_wf s' /\ accounted s' /\ pending s' = pending s /\
  published s' = published s /\ available s' = available s ++ cs.
Proof.
  intros (h & t & l & k & ch & ct & [Hs _]) [Hw' Hh Hp Hpub Ha Hk Hb] Hacc.
  split_and!; try done. unfold accounted. rewrite Hh, Hk, Hacc.
  rewrite (sqa_head _ _ _ _ _ _ Hs). unfold u32_add. rewrite wrap_add_l. f_equal. lia.
Qed.

(** What a submission does, on every branch. *)
Lemma submit_effect (s : St) :
  ring_wf s -> accounted s ->
  let '(r, s') := IoUring.submit s in
  ring_wf s' /\ accounted s' /\ published s' = pending s' /\
  exists c cs, (c <= length (pending s))%nat /\
    pending s' = drop c (pending s) /\ available s' = available s ++ cs /\
    match r with
    | Ok n => n = Z.of_nat c /\
        (pending s <> [] -> cq_khead (mem s') = IoUring.cq_head_local (hd s'))
    | Err e => c = 0%nat /\ exists e', e = Syscall e'
    end /\
    (pending s = [] -> r = Ok 0 /\ cs = [] /\ kern s' = kern s).
Proof.
  intros Hwf Hacc. destruct (flush_tail_effect s Hwf) as (Hwf1 & Hp1 & Hpub1 & Ha1).
  unfold IoUring.submit, IoUring.flush_sq_tail, IoUring.flush_cq_head, bind, get, modify, ret.
  rewrite to_submit_pending by done. cbv beta iota zeta. fold (flush_tail s).
  destruct (Z.eqb_spec (Z.of_nat (length (pending s))) 0) as [E|E].
  - assert (pending s = []) as Hnil by (destruct (pending s); [done|cbn in E; lia]).
    split_and!; try done. exists 0%nat, [].
    rewrite Ha1, app_nil_r, Hp1. split_and!; try done; lia.
  - destruct (enter _ _ _ _ (flush_tail s)) as [r s1] eqn:En.
    eapply enter_effect in En as (c & cs & Hen & Hr); [|done|lia].
    pose proof (en_bound _ _ _ _ Hen) as Hb. rewrite Hpub1 in Hb.
    destruct r as [n|e].
    + destruct Hr as [-> _].
      destruct (account_effect _ _ _ _ Hwf1 Hen Hacc) as (Hc & Hw2 & Hacc2 & Hp2 & Hpub2 & Ha2).
      fold (account (Z.of_nat c) s1). fold (flush_head (account (Z.of_nat c) s1)).
      destruct (flush_head_effect _ Hw2) as (Hw3 & Hp3 & Hpub3 & Ha3).
      split_and!; try done; [by rewrite Hpub3, Hp3, Hp2, Hpub2, Hp1, Hpub1|].
      exists c, cs. rewrite Hp3, Hp2, Hp1, Ha3, Ha2, Ha1.
      split_and!; try done. intros Hnil. by rewrite Hnil in E.
    + destruct Hr as [-> He].
      destruct (failed_effect _ _ _ Hwf1 Hen Hacc) as (Hw2 & Hacc2 & Hp2 & Hpub2 & Ha2).
      split_and!; try done; [by rewrite Hp2, Hpub2, Hp1|].
      exists 0%nat, cs. rewrite Hp2, Hp1, Ha2, Ha1. split_and!; try (done || lia).
      intros Hnil. by rewrite Hnil in E.
Qed.

(** C14. `submit` publishes every pending entry and asks the kernel for exactly
    the pending ones; whatever part the kernel consumes, from none to all,
    leaves the pending queue from the front, is what the call returns and is
    what `sq_submitted` counts, so the rest stays pending and published.  A
    syscall error loses nothing; an empty ring makes no syscall. *)
Theorem submit_accounts (s : St) :
  ring_wf s -> accounted s ->
  let '(r, s') := IoUring.submit s in
  ring_wf s' /\ accounted s' /\ published s' = pending s' /\
  exists c cs, (c <= length (pending s))%nat /\
    pending s' = drop c (pending s) /\ available s' = available s ++ cs /\
    match r with
    | Ok n => n = Z.of_nat c /\
        (pending s <> [] -> cq_khead (mem s') = IoUring.cq_head_local (hd s'))
    | Err e => c = 0%nat /\ exists e', e = Syscall e'
    end /\
    (pending s = [] -> r = Ok 0 /\ cs = [] /\ kern s' = kern s).
Proof. exact (submit_effect s). Qed.

(** ** Submission with a wait *)
Lemma backpressure_used s :
  ring_wf s ->
  IoUring.backpressure s =
  (Z.of_nat (length (available s)) >?
     IoUring.cq_capacity (hd s) - IoUring.cq_capacity (hd s) / 4).
Proof.
  intros (h & t & l & k & ch & ct & H). rewrite (available_length _ _ _ _ _ _ _ H).
  unfold IoUring.backpressure, IoUring.cq_capacity. f_equal.
  destruct H as [_ [Hs Hh Ht Hl Ho Hc]]. destruct (ring_shape_cap _ _ Hs) as [Hb _].
  rewrite Ht, Hl. apply (distance_between ch ct (IoUring.cq_mask (hd s) + 1)); lia.
Qed.

(** The backpressure valve opens exactly when more than three quarters of
    the completion ring hold unreaped completions, provided the ring has at
    least four slots; on a ring of one or two slots it never opens, not even
    when the ring is full. *)
Theorem backpressure_threshold s :
  ring_wf s ->
  (4 <= IoUring.cq_capacity (hd s) ->
   IoUring.backpressure s = true <->
   3 * IoUring.cq_capacity (hd s) < 4 * Z.of_nat (length (available s))) /\
  (IoUring.cq_capacity (hd s) < 4 -> IoUring.backpressure s = false).
Proof.
  intros Hwf. rewrite (backpressure_used s Hwf). rewrite Z.gtb_lt.
  destruct Hwf as (h & t & l & k & ch & ct & H).
  pose proof (available_length _ _ _ _ _ _ _ H) as Hlen.
  destruct H as [_ [(e & He & Hm & _) _ _ _ Ho Hc]]. unfold IoUring.cq_capacity.
  rewrite Hm in *. split.
  - intros H4. assert (2 <= e) as H2.
    { destruct (decide (e <= 1)); [|lia]. pose proof (Z.pow_le_mono_r 2 e 1). lia. }
    replace e with (2 + (e - 2)) by lia. rewrite Z.pow_add_r by lia.
    change (2 ^ 2) with 4. rewrite (Z.mul_comm 4), Z.div_mul by lia. lia.
  - intros H4. assert (2 ^ e / 4 = 0) as -> by (apply Z.div_small; lia).
    destruct (Z.gtb_spec (Z.of_nat (length (available s))) (2 ^ e - 0)); [lia|done].
Qed.

(** A call that submits [n] and counts the outcome. *)
Definition enter_counted (fd n min fl : Z) : M St Error Z :=
  bind (enter fd n min fl) (fun r => bind (modify (account r)) (fun _ => ret (as_u32 r))).
Lemma enter_account (s : St) fd n min fl :
  ring_wf s -> accounted s -> 0 <= n ->
  let '(r, s') := enter_counted fd n min fl s in
  ring_wf s' /\ accounted s' /\ exists c cs, (c <= length (published s))%nat /\
    pending s' = drop c (pending s) /\ published s' = drop c (published s) /\
    available s' = available s ++ cs /\
    match r with
    | Ok m => m = Z.of_nat c /\ m <= n
    | Err e => c = 0%nat /\ exists e', e = Syscall e'
    end.
Proof.
  intros Hwf Hacc Hn. unfold enter_counted, bind, modify, ret.
  destruct (enter _ _ _ _ s) as [r s1] eqn:En.
  eapply enter_effect in En as (c & cs & Hen & Hr); [|done|lia].
  pose proof (en_bound _ _ _ _ Hen) as Hb. destruct r as [m|e].
  - destruct Hr as [-> Hm].
    destruct (account_effect _ _ _ _ Hwf Hen Hacc) as (Hc & Hw2 & Hacc2 & Hp2 & Hpub2 & Ha2).
    split_and!; try done. exists c, cs. split_and!; try done. by rewrite Hc.
  - destruct Hr as [-> He].
    destruct (failed_effect _ _ _ Hwf Hen Hacc) as (Hw2 & Hacc2 & Hp2 & Hpub2 & Ha2).
    split_and!; try done. exists 0%nat, cs. split_and!; try done; lia.
Qed.

Lemma submit_and_wait_run min (s : St) :
  IoUring.submit_and_wait min s =
  let s1 := flush_tail (flush_head s) in
  let n := u32_sub (IoUring.sq_tail_local (hd s)) (IoUring.sq_submitted (hd s)) in
  let fd := IoUring.fd (hd s) in
  if IoUring.backpressure s1 then
    bind (enter_counted fd n 0 empty_flags) (fun first =>
      bind (enter_counted fd 0 min EnterFlags.GETEVENTS) (fun second =>
        ret (u32_add first second))) s1
  else enter_counted fd n min EnterFlags.GETEVENTS s1.
Proof.
  unfold IoUring.submit_and_wait, IoUring.flush_cq_head, IoUring.flush_sq_tail, enter_counted,
    bind, get, modify, ret. cbv zeta beta iota.
  fold (flush_head s). fold (flush_tail (flush_head s)).
  destruct (IoUring.backpressure _); [|by destruct (enter _ _ _ _ _) as [[?|?] ?]].
  destruct (enter _ _ _ _ (flush_tail _)) as [[r1|?] s1] eqn:E1; [|done].
  change (upd_hd _ s1) with (account r1 s1).
  by destruct (enter _ _ _ _ (account r1 s1)) as [[?|?] ?].
Qed.

(** The effect of `submit_and_wait`. *)
Lemma wait_effect min (s : St) :
  ring_wf s -> accounted s ->
  let '(r, s') := IoUring.submit_and_wait min s in
  ring_wf s' /\ accounted s' /\ published s' = pending s' /\
  exists c cs, (c <= length (pending s))%nat /\
    pending s' = drop c (pending s) /\ available s' = available s ++ cs /\
    match r with
    | Ok n => n = Z.of_nat c
    | Err e => (IoUring.backpressure s = false -> c = 0%nat) /\ exists e', e = Syscall e'
    end.
Proof.
  intros Hwf Hacc. rewrite submit_and_wait_run. cbv zeta.
  destruct (flush_head_effect s Hwf) as (Hwf0 & Hp0 & _ & Ha0).
  destruct (flush_tail_effect _ Hwf0) as (Hwf1 & Hp1 & Hpub1 & Ha1).
  rewrite (to_submit_pending s Hwf Hacc).
  assert (accounted (flush_tail (flush_head s))) as Hacc1 by done.
  change (IoUring.backpressure (flush_tail (flush_head s))) with (IoUring.backpressure s).
  revert Hwf1 Hp1 Hpub1 Ha1 Hacc1. generalize (flush_tail (flush_head s)) as s1. intros s1.
  intros. rewrite Hp0 in Hp1, Hpub1. rewrite Ha0 in Ha1.
  set (n := Z.of_nat (length (pending s))).
  destruct (IoUring.backpressure s) eqn:Ebp.
  - pose proof (enter_account s1 (IoUring.fd (hd s)) n 0 empty_flags Hwf1 Hacc1 ltac:(lia)) as H1.
    unfold bind at 1. destruct (enter_counted _ n _ _ s1) as [r1 s2].
    destruct H1 as (Hw2 & Hacc2 & c1 & cs1 & Hc1 & Hp2 & Hpub2 & Ha2 & Hr1).
    destruct r1 as [m1|e1].
    + destruct Hr1 as [-> Hm1].
      pose proof (enter_account s2 (IoUring.fd (hd s)) 0 min EnterFlags.GETEVENTS Hw2 Hacc2
        ltac:(lia)) as H2.
      unfold bind. destruct (enter_counted _ 0 _ _ s2) as [r2 s3].
      destruct H2 as (Hw3 & Hacc3 & c2 & cs2 & Hc2 & Hp3 & Hpub3 & Ha3 & Hr2).
      pose proof (published_le_pending s1 Hwf1). rewrite Hp1 in H.
      assert (published s3 = pending s3) as Heq3
        by (rewrite Hpub3, Hp3, Hpub2, Hp2, Hpub1, Hp1; done).
      pose proof (ring_cap_u32 s Hwf) as Hu.
      destruct r2 as [m2|e2]; cbn; (split_and!; [done..|]).
      * destruct Hr2 as [-> Hm2]. assert (c2 = 0)%nat as -> by lia.
        exists c1, (cs1 ++ cs2). rewrite Hp3, Hp2, Hp1, Ha3, Ha2, Ha1, drop_0, <- app_assoc.
        split_and!; try done; [lia|]. unfold u32_add. rewrite Z.add_0_r.
        apply wrap_small. unfold in_u in *. lia.
      * destruct Hr2 as [-> He2]. exists c1, (cs1 ++ cs2).
        rewrite Hp3, Hp2, Hp1, Ha3, Ha2, Ha1, drop_0, <- app_assoc.
        split_and!; try done; lia.
    + destruct Hr1 as [-> He1]. split_and!; [done..| |].
      * by rewrite Hpub2, Hp2, Hpub1, Hp1.
      * exists 0%nat, cs1. rewrite Hp2, Hp1, Ha2, Ha1. split_and!; try done; lia.
  - pose proof (enter_account s1 (IoUring.fd (hd s)) n min EnterFlags.GETEVENTS Hwf1 Hacc1
      ltac:(lia)) as H1.
    destruct (enter_counted _ n _ _ s1) as [r s2].
    destruct H1 as (Hw2 & Hacc2 & c & cs & Hc & Hp2 & Hpub2 & Ha2 & Hr).
    pose proof (published_le_pending s1 Hwf1). rewrite Hp1 in H.
    split_and!; try done; [by rewrite Hpub2, Hp2, Hpub1, Hp1|].
    exists c, cs. rewrite Hp2, Hp1, Ha2, Ha1. split_and!; try done; [lia|].
    destruct r; tauto.
Qed.

(** `submit_and_wait` keeps the books across its one or two syscalls: the
    completion head is published first, the count returned is the total
    number of entries consumed, and exactly those left the pending queue.
    When it fails, `sq_submitted` still counts what the kernel took: nothing,
    unless the valve's first call had already submitted. *)
Theorem submit_and_wait_accounts min (s : St) :
  ring_wf s -> accounted s ->
  let '(r, s') := IoUring.submit_and_wait min s in
  ring_wf s' /\ accounted s' /\ published s' = pending s' /\
  exists c cs, (c <= length (pending s))%nat /\
    pending s' = drop c (pending s) /\ available s' = available s ++ cs /\
    match r with
    | Ok n => n = Z.of_nat c
    | Err e => (IoUring.backpressure s = false -> c = 0%nat) /\ exists e', e = Syscall e'
    end.
Proof. exact (wait_effect min s). Qed.
End Ring.

(** ** A concrete ring

    Four submission slots, eight completion slots, every index one step before
    the 32-bit wrap, and the toy kernel taking two entries per call. *)
Definition demo_base : Z := 4294967295.
Definition demo : Sys IoUring.t Toy :=
  mkSys (IoUring.mk 3 3 demo_base demo_base 7 demo_base 0 0 (2 ^ 63) 4096)
    (mkShm demo_base demo_base 0 (replicate 4 ZEROED) demo_base demo_base
       (replicate 8 (mkCqe 0 0 0)))
    (mkToy 2 [5; 0; -11; 4]).

(** Checks the invariant of a concrete ring at given positions. *)
Ltac demo_ring :=
  split; split; try reflexivity;
  first [ exists 2; split; [lia|]; split; vm_compute; reflexivity
        | exists 3; split; [lia|]; split; vm_compute; reflexivity
        | split; vm_compute; congruence
        | vm_compute; congruence ].

Lemma demo_wf : ring_wf demo.
Proof.
  exists demo_base, demo_base, demo_base, demo_base, demo_base, demo_base.
  demo_ring.
Qed.

(** Three entries pushed on it. *)
Definition demo3 : Sys IoUring.t Toy :=
  snd (IoUring.push_nop 3 (snd (IoUring.push_nop 2 (snd (IoUring.push_nop 1 demo))))).
Lemma demo3_wf : ring_wf demo3.
Proof.
  exists demo_base, demo_base, (demo_base + 3), demo_base, demo_base, demo_base.
  demo_ring.
Qed.
Lemma demo3_accounted : accounted demo3.
Proof. reflexivity. Qed.

(** Two of them consumed and completed. *)
Definition demo_done : Sys IoUring.t Toy := snd (IoUring.submit demo3).
Lemma demo_done_wf : ring_wf demo_done.
Proof.
  exists (demo_base + 2), (demo_base + 3), (demo_base + 3), demo_base, demo_base, (demo_base + 2).
  demo_ring.
Qed.

Lemma push_refines_append_witness :
  ring_wf demo3 /\ fst (IoUring.push NetOps.nop demo3) = Ok tt /\
  pending (snd (IoUring.push NetOps.nop demo3)) = pending demo3 ++ [NetOps.nop].
Proof.
  split; [exact demo3_wf|]. pose proof (push_refines_append NetOps.nop demo3 demo3_wf) as H.
  destruct (IoUring.push NetOps.nop demo3) as [r s'].
  destruct H as (_ & _ & _ & _ & _ & H).
  rewrite decide_True in H by (vm_compute; reflexivity). exact H.
Defined.

Lemma sq_space_left_exact_witness :
  ring_wf demo3 /\ IoUring.sq_space_left demo3 = 4 - Z.of_nat (length (pending demo3)).
Proof. split; [exact demo3_wf|]. exact (proj1 (proj2 (sq_space_left_exact demo3 demo3_wf))). Defined.

Lemma complete_refines_pop_witness :
  ring_wf demo_done /\
  fst (IoUring.complete demo_done) = Some (mkCompletion 1 5 0).
Proof.
  split; [exact demo_done_wf|]. pose proof (complete_refines_pop demo_done demo_done_wf) as H.
  destruct (IoUring.complete demo_done) as [r s'].
  destruct H as (_ & _ & _ & _ & _ & _ & H).
  change (available demo_done) with [mkCqe 1 5 0; mkCqe 2 0 0] in H. exact (proj1 H).
Defined.

Lemma drain_exact_witness :
  ring_wf demo_done /\ Completions.size_hint demo_done = (2, None).
Proof. split; [exact demo_done_wf|]. exact (proj1 (drain_exact demo_done demo_done_wf)). Defined.

Lemma submit_accounts_witness :
  ring_wf demo3 /\ accounted demo3 /\ fst (IoUring.submit demo3) = Ok 2 /\
  published demo_done = pending demo_done.
Proof.
  split; [exact demo3_wf|]. split; [exact demo3_accounted|]. split; [reflexivity|].
  pose proof (submit_accounts demo3 demo3_wf demo3_accounted) as H. unfold demo_done.
  destruct (IoUring.submit demo3). exact (proj1 (proj2 (proj2 H))).
Defined.

Lemma submit_and_wait_accounts_witness :
  ring_wf demo3 /\ accounted demo3 /\ accounted (snd (IoUring.submit_and_wait 1 demo3)).
Proof.
  split; [exact demo3_wf|]. split; [exact demo3_accounted|].
  pose proof (submit_and_wait_accounts 1 demo3 demo3_wf demo3_accounted) as H.
  destruct (IoUring.submit_and_wait 1 demo3). exact (proj1 (proj2 H)).
Defined.

Lemma backpressure_threshold_witness :
  ring_wf demo3 /\ (IoUring.backpressure demo3 = true <-> 24 < 4 * 0).
Proof.
  split; [exact demo3_wf|].
  exact (proj1 (backpressure_threshold demo3 demo3_wf) ltac:(vm_compute; congruence)).
Defined.
