(* ===== verification/RingTrace.v ===== *)
(** * Interleavings of the library and the kernel

    The library's operations and the kernel's asynchronous activity as a step
    relation, with a history of what was pushed, consumed, posted and reaped.
    Each operation loads a kernel-written index at most once, so kernel
    activity during an operation is activity before or after it. *)
From stdpp Require Import base numbers list option relations.
From Stdlib Require Import ZArith Lia.
From S2P Require Import Prelude Flags Types RingIndex Sqe SqeFile SqeNet Kernel Ring RingSpec.
From S2P Require Import RingCorrect.
Local Open Scope Z_scope.
Local Open Scope rust_scope.

Section Trace.
  Context {K : Type} `{HK : Kernel K}.
  Notation St := (Sys IoUring.t K).

(** What has happened so far. *)
Record Hist : Type := mkHist {
  pushed : list Sqe;
  consumed : list Sqe;
  posted : list Cqe;
  reaped : list Completion
}.
Definition no_history : Hist := mkHist [] [] [] [].

(** One step of the library ([S]) or of the kernel ([K]); an entry is
    consumed as the kernel reads it from the shared array at that moment. *)
Inductive step : St * Hist -> St * Hist -> Prop :=
| SPush e s s' g :
    IoUring.push e s = (Ok tt, s') ->
    step (s, g) (s', mkHist (pushed g ++ [e]) (consumed g) (posted g) (reaped g))
| SPushFull e s s' g err :
    IoUring.push e s = (Err err, s') -> step (s, g) (s', g)
| SFlushTail s g : step (s, g) (snd (IoUring.flush_sq_tail s), g)
| SFlushHead s g : step (s, g) (snd (IoUring.flush_cq_head s), g)
| SCount v s g : step (s, g) (upd_hd (IoUring.set_sq_submitted v) s, g)
| STag v s g : step (s, g) (upd_hd (IoUring.set_do_tag_next v) s, g)
| SComplete c s s' g :
    IoUring.complete s = (Some c, s') ->
    step (s, g) (s', mkHist (pushed g) (consumed g) (posted g) (reaped g ++ [c]))
| SCompleteNone s s' g :
    IoUring.complete s = (None, s') -> step (s, g) (s', g)
| KConsume n s g :
    Z.of_nat n <= sq_visible (mem s) ->
    step (s, g) (upd_mem (kernel_consume n) s,
      mkHist (pushed g) (consumed g ++ consumed_sqes n (mem s)) (posted g) (reaped g))
| KPost cs s g :
    cq_used (mem s) + Z.of_nat (length cs) <= cq_kmask (mem s) + 1 ->
    step (s, g) (upd_mem (kernel_post cs) s,
      mkHist (pushed g) (consumed g) (posted g ++ cs) (reaped g))
| KFlags f s g : step (s, g) (upd_mem (kernel_set_flags f) s, g)
| KPrivate k s g : step (s, g) (mkSys (hd s) (mem s) k, g).

(** The history agrees with the queues: nothing lost, duplicated or reordered. *)
Record agrees (s : St) (g : Hist) : Prop := {
  ag_wf : ring_wf s;
  ag_sq : pushed g = consumed g ++ pending s;
  ag_cq : completion_of <$> posted g = reaped g ++ (completion_of <$> available s)
}.

Lemma step_agrees s g s' g' : step (s, g) (s', g') -> agrees s g -> agrees s' g'.
Proof.
  intros Hstep [Hwf Hsq Hcq]. inversion Hstep; subst; clear Hstep.
  - pose proof (push_effect e s Hwf) as Hp. rewrite H0 in Hp.
    destruct Hp as (Hw & _ & Ha & _ & _ & Hr). case_decide; [|by destruct Hr as (? & _)].
    destruct Hr as [_ Hr]. split; [done|..]; cbn; [|by rewrite Ha].
    by rewrite Hr, Hsq, app_assoc.
  - pose proof (push_effect e s Hwf) as Hp. rewrite H0 in Hp.
    destruct Hp as (Hw & _ & Ha & _ & _ & Hr). case_decide; [by destruct Hr as [? _]|].
    destruct Hr as (_ & -> & _). by split.
  - destruct (flush_tail_effect s Hwf) as (? & Hp & _ & Ha). split; [done|..].
    + by rewrite Hsq, <- Hp.
    + by rewrite Hcq, <- Ha.
  - destruct (flush_head_effect s Hwf) as (? & Hp & _ & Ha). split; [done|..].
    + by rewrite Hsq, <- Hp.
    + by rewrite Hcq, <- Ha.
  - split; [|done..]. destruct Hwf as (h & t & l & k & ch & ct & [? ?]).
    by exists h, t, l, k, ch, ct.
  - split; [|done..]. destruct Hwf as (h & t & l & k & ch & ct & [? ?]).
    by exists h, t, l, k, ch, ct.
  - pose proof (complete_effect s Hwf) as Hc. rewrite H0 in Hc.
    destruct Hc as (Hw & Hp & _ & _ & _ & _ & Hr). destruct (available s) as [|c' rest] eqn:Ea.
    { by destruct Hr. }
    destruct Hr as [[= ->] Hr]. split; [done|..]; cbn; [by rewrite Hp|].
    by rewrite Hcq, Hr, <- app_assoc.
  - pose proof (complete_effect s Hwf) as Hc. rewrite H0 in Hc.
    destruct Hc as (Hw & Hp & _ & _ & _ & _ & Hr). destruct (available s) as [|c' rest] eqn:Ea.
    + destruct Hr as [_ ->]. split; [done..|by rewrite Ea].
    + by destruct Hr.
  - destruct Hwf as (h & t & l & k & ch & ct & [Hs Hc]).
    rewrite (sq_visible_at _ _ _ _ _ _ Hs) in H0.
    destruct (kernel_consume_at _ _ _ _ _ _ n Hs H0) as (Hs' & Hr & Hq & _).
    split; cbn.
    + exists (h + Z.of_nat n), t, l, k, ch, ct. split; [exact Hs'|].
      by eapply cq_at_ext; [..|exact Hc].
    + unfold pending at 1. cbn. rewrite Hr, Hq, Hsq, <- app_assoc. f_equal.
      unfold pending. by rewrite take_drop.
    + done.
  - destruct Hwf as (h & t & l & k & ch & ct & [Hs Hc]).
    rewrite (cq_used_at _ _ _ _ _ _ Hc), (cq_kmask_at _ _ _ _ _ _ Hc) in H0.
    destruct (kernel_post_at _ _ _ _ _ _ cs Hc H0) as [Hc' Hq].
    split; cbn.
    + exists h, t, l, k, ch, (ct + Z.of_nat (length cs)). split; [|exact Hc'].
      by eapply sq_at_ext; [..|exact Hs].
    + done.
    + unfold available. cbn. rewrite Hq. rewrite !fmap_app, Hcq, <- app_assoc. done.
  - split; [|done..]. destruct Hwf as (h & t & l & k & ch & ct & [Hs Hc]).
    exists h, t, l, k, ch, ct. split; [by eapply sq_at_ext; [..|exact Hs]|].
    by eapply cq_at_ext; [..|exact Hc].
  - split; [|done..]. destruct Hwf as (h & t & l & kh & ch & ct & [Hs Hc]).
    by exists h, t, l, kh, ch, ct.
Qed.

Lemma steps_agree x y : rtc step x y -> agrees x.1 x.2 -> agrees y.1 y.2.
Proof.
  induction 1 as [|[s1 g1] [s2 g2] y Hs _ IH]; [done|]. intros Ha. apply IH.
  by eapply step_agrees.
Qed.

(** C1. Under every interleaving of `push`, tail and head publication,
    `complete` and kernel activity, starting from an empty ring: the entries
    the kernel consumed followed by those still pending are exactly the
    entries pushed, in order; the completions reaped followed by those still
    available are exactly those posted, in order; and the index invariant
    holds.  No entry is lost, duplicated, reordered or overwritten before it
    is consumed. *)
Theorem interleaving_exact s0 s g :
  ring_wf s0 -> pending s0 = [] -> available s0 = [] ->
  rtc step (s0, no_history) (s, g) ->
  ring_wf s /\ pushed g = consumed g ++ pending s /\
  completion_of <$> posted g = reaped g ++ (completion_of <$> available s).
Proof.
  intros Hwf Hp Ha Hsteps.
  destruct (steps_agree _ _ Hsteps) as [? ? ?]; [|done].
  split; cbn; [done|by rewrite Hp|by rewrite Ha].
Qed.

(** Publishing what the operations publish, as steps. *)
Lemma flush_tail_steps s g : rtc step (s, g) (flush_tail s, g).
Proof. apply rtc_once. exact (SFlushTail s g). Qed.
Lemma flush_head_steps s g : rtc step (s, g) (flush_head s, g).
Proof. apply rtc_once. exact (SFlushHead s g). Qed.
Lemma account_steps v s g : rtc step (s, g) (account v s, g).
Proof. apply rtc_once. exact (SCount _ s g). Qed.

(** Steps that neither push nor reap. *)
Definition quiet (g g' : Hist) : Prop := pushed g' = pushed g /\ reaped g' = reaped g.
Definition quiet_steps (s : St) (g : Hist) (s' : St) : Prop :=
  exists g', rtc step (s, g) (s', g') /\ quiet g g'.

Lemma quiet_refl s g : quiet_steps s g s.
Proof. by exists g. Qed.
Lemma quiet_then s g s1 s2 :
  rtc step (s, g) (s1, g) -> quiet_steps s1 g s2 -> quiet_steps s g s2.
Proof. intros H1 (g' & H2 & Hq). exists g'. split; [by etrans|done]. Qed.
Lemma quiet_trans s g s1 s2 :
  quiet_steps s g s1 -> (forall g1, quiet_steps s1 g1 s2) -> quiet_steps s g s2.
Proof.
  intros (g1 & H1 & Hq1) H. destruct (H g1) as (g2 & H2 & Hq2). exists g2.
  split; [by etrans|]. destruct Hq1, Hq2. split; congruence.
Qed.
Lemma quiet_one s g s' : rtc step (s, g) (s', g) -> quiet_steps s g s'.
Proof. intros H. by exists g. Qed.

Section Laws.
  Context `{HL : !KernelLaws K}.

(** A syscall is kernel activity. *)
Lemma enter_steps fd n min fl s r s' g :
  ring_wf s -> 0 <= n -> enter fd n min fl s = (r, s') -> quiet_steps s g s'.
Proof.
  intros Hwf Hn He. unfold enter in He.
  destruct (io_uring_enter _ _ _ _ _ _) as [[r0 m'] k'] eqn:E. simplify_eq.
  destruct Hwf as (h & t & l & k & ch & ct & [Hs Hc]).
  pose proof (cq_used_at _ _ _ _ _ _ Hc) as Hu. pose proof (cq_kmask_at _ _ _ _ _ _ Hc) as Hm.
  apply enter_activity in E as (c & cs & f & -> & (Hv & Hp & Hf) & Hr);
    [|done|destruct Hc; lia].
  eexists. split; [|shelve]. eapply rtc_l; [by apply (KConsume c)|].
  eapply rtc_l; [by apply (KPost cs)|]. eapply rtc_l; [apply (KFlags f)|].
  apply rtc_once. exact (KPrivate k' _ _).
  Unshelve. done.
Qed.

Lemma enter_counted_steps fd n min fl s r s' g :
  ring_wf s -> 0 <= n -> enter_counted fd n min fl s = (r, s') -> quiet_steps s g s'.
Proof.
  intros Hwf Hn Hr. unfold enter_counted, bind, modify, ret in Hr.
  destruct (enter _ _ _ _ s) as [r0 s1] eqn:En.
  apply (enter_steps _ _ _ _ _ _ _ g) in En; [|done..].
  destruct r0; simplify_eq; [|done].
  eapply quiet_trans; [exact En|]. intros g1. apply quiet_one, account_steps.
Qed.

Lemma submit_steps s g :
  ring_wf s -> accounted s -> quiet_steps s g (snd (IoUring.submit s)).
Proof.
  intros Hwf Hacc. destruct (flush_tail_effect s Hwf) as (Hwf1 & _).
  unfold IoUring.submit, IoUring.flush_sq_tail, IoUring.flush_cq_head, bind, get, modify, ret.
  rewrite (to_submit_pending s Hwf Hacc). cbv beta iota zeta. fold (flush_tail s).
  destruct (_ =? 0); [apply quiet_one, flush_tail_steps|].
  destruct (enter _ _ _ _ (flush_tail s)) as [r s1] eqn:En.
  apply (enter_steps _ _ _ _ _ _ _ g) in En; [|done|lia].
  eapply quiet_then; [apply flush_tail_steps|].
  destruct r; cbn [snd]; [|done]. eapply quiet_trans; [exact En|]. intros g1.
  eapply quiet_then; [apply account_steps|]. apply quiet_one, flush_head_steps.
Qed.

Lemma submit_and_wait_steps min s g :
  ring_wf s -> accounted s -> quiet_steps s g (snd (IoUring.submit_and_wait min s)).
Proof.
  intros Hwf Hacc. rewrite submit_and_wait_run. cbv zeta.
  rewrite (to_submit_pending s Hwf Hacc).
  destruct (flush_head_effect s Hwf) as (Hwf0 & _).
  destruct (flush_tail_effect _ Hwf0) as (Hwf2 & _).
  eapply quiet_then; [etrans; [apply flush_head_steps|apply flush_tail_steps]|].
  assert (accounted (flush_tail (flush_head s))) as Hacc2 by done.
  destruct (IoUring.backpressure _).
  - unfold bind at 1. set (n := Z.of_nat _) in *. assert (0 <= n) as Hn by lia.
    pose proof (enter_account _ (IoUring.fd (hd s)) n 0 empty_flags Hwf2 Hacc2 Hn) as H1.
    destruct (enter_counted _ _ 0 _ (flush_tail _)) as [r1 s2] eqn:E1.
    destruct H1 as (Hw3 & _).
    apply (enter_counted_steps _ _ _ _ _ _ _ g) in E1; [|done..].
    destruct r1; [|done]. eapply quiet_trans; [exact E1|]. intros g1. unfold bind.
    destruct (enter_counted _ 0 _ _ s2) as [r2 s3] eqn:E2.
    apply (enter_counted_steps _ _ _ _ _ _ _ g1) in E2; [|done..|lia]. by destruct r2.
  - destruct (enter_counted _ _ min _ (flush_tail _)) as [r1 s2] eqn:E1.
    by apply (enter_counted_steps _ _ _ _ _ _ _ g) in E1; [|done..|lia].
Qed.

(** C11. `submit` and `submit_and_wait` are runs of those steps that push and
    reap nothing, whatever the kernel does inside their syscalls, so the
    guarantees of the interleaving theorem cover every program using them. *)
Theorem submit_is_steps min s g :
  ring_wf s -> accounted s ->
  (exists g', rtc step (s, g) (snd (IoUring.submit s), g') /\ quiet g g') /\
  (exists g', rtc step (s, g) (snd (IoUring.submit_and_wait min s), g') /\ quiet g g').
Proof.
  intros Hwf Hacc. split; [exact (submit_steps s g Hwf Hacc)|].
  exact (submit_and_wait_steps min s g Hwf Hacc).
Qed.
End Laws.
End Trace.

Lemma interleaving_exact_witness :
  exists s g, rtc step (demo, no_history) (s, g) /\ pushed g = [NetOps.nop] /\
    pushed g = consumed g ++ pending s.
Proof.
  assert (rtc step (demo, no_history)
    (snd (IoUring.push NetOps.nop demo), mkHist ([] ++ [NetOps.nop]) [] [] [])) as Hr.
  { apply rtc_once. apply (SPush NetOps.nop demo _ no_history). reflexivity. }
  eexists _, _. split; [exact Hr|]. split; [reflexivity|].
  exact (proj1 (proj2 (interleaving_exact demo _ _ demo_wf eq_refl eq_refl Hr))).
Defined.

Lemma submit_is_steps_witness :
  ring_wf demo3 /\ accounted demo3 /\
  exists g', rtc step (demo3, no_history) (snd (IoUring.submit demo3), g') /\ quiet no_history g'.
Proof.
  split; [exact demo3_wf|]. split; [exact demo3_accounted|].
  exact (proj1 (submit_is_steps 1 demo3 no_history demo3_wf demo3_accounted)).
Defined.
