(* ===== verification/RingLive.v ===== *)
(** * Progress of submission

    A kernel whose refusals are bounded takes every pending entry: a caller that
    keeps calling `submit` gets them all consumed, in a number of calls bounded by
    the entries and the refusals left. *)
From stdpp Require Import base numbers list option.
From Stdlib Require Import ZArith Lia.
From S2P Require Import Prelude Flags Types RingIndex Sqe SqeFile SqeNet Kernel Ring RingSpec RingCorrect.
Local Open Scope Z_scope.
Local Open Scope rust_scope.

(** A call with published entries to take either takes one or uses up some of the
    kernel's patience, as an EAGAIN or an interrupted call does. *)
Class KernelProgress (K : Type) `{KernelLaws K} := {
  patience : K -> nat;
  enter_progress fd n min fl m k r m' k' :
    io_uring_enter fd n min fl m k = (r, m', k') -> 0 < n -> 0 < sq_visible m ->
    (patience k' <= patience k)%nat /\
    match r with
    | Ok v => 0 < v \/ (patience k' < patience k)%nat
    | Err _ => (patience k' < patience k)%nat
    end
}.

Section Live.
  Context {K : Type} `{HP : KernelProgress K}.
  Notation St := (Sys IoUring.t K).

(** The calls of a caller that retries: how many entries they report taken. *)
Fixpoint retry (n : nat) (s : St) : Z * St :=
  match n with
  | O => (0, s)
  | S n => let '(r, s) := IoUring.submit s in
           let '(total, s) := retry n s in
           (match r with Ok v => v + total | Err _ => total end, s)
  end.

Lemma visible_published (s : St) : ring_wf s -> sq_visible (mem s) = Z.of_nat (length (published s)).
Proof.
  intros (h & t & l & k & ch & ct & [Hs _]). unfold published.
  rewrite (sq_published_at _ _ _ _ _ _ Hs), window_length, (sq_visible_at _ _ _ _ _ _ Hs).
  destruct Hs. lia.
Qed.

(** Either the queue shrinks or the kernel loses patience. *)
Lemma submit_progress (s : St) :
  ring_wf s -> accounted s -> pending s <> [] ->
  let s' := snd (IoUring.submit s) in
  (length (pending s') + patience (kern s') < length (pending s) + patience (kern s))%nat.
Proof.
  intros Hwf Hacc Hne. pose proof (submit_effect s Hwf Hacc) as He.
  destruct (flush_tail_effect s Hwf) as (Hwf1 & _ & Hpub & _).
  pose proof (visible_published _ Hwf1) as Hv. rewrite Hpub in Hv.
  assert (0 < Z.of_nat (length (pending s))) as Hpos by (destruct (pending s); [done|cbn; lia]).
  unfold IoUring.submit, IoUring.flush_sq_tail, IoUring.flush_cq_head, bind, get, modify, ret in *.
  rewrite to_submit_pending in * by done. cbv beta iota zeta in *. fold (flush_tail s) in *.
  destruct (Z.eqb_spec (Z.of_nat (length (pending s))) 0) as [E|_]; [lia|].
  unfold enter in *.
  destruct (io_uring_enter _ _ _ _ _ _) as [[r0 m'] k'] eqn:En.
  destruct (enter_progress _ _ _ _ _ _ _ _ _ En Hpos ltac:(lia)) as [Hk Hr].
  destruct r0 as [v|e]; cbn [map_err kern upd_hd upd_mem snd] in *;
    destruct He as (_ & _ & _ & c & cs & Hc & Hp & _ & Hres & _); rewrite Hp, length_drop.
  - destruct Hres as [Hv' _].
    change (kern (flush_tail s)) with (kern s) in *.
    destruct Hwf1 as (h & t & l & k & ch & ct & [_ Hcq]).
    destruct (enter_activity _ _ _ _ _ _ _ _ _ En ltac:(lia)) as (c' & _ & _ & _ & _ & -> & Hle).
    { rewrite (cq_used_at _ _ _ _ _ _ Hcq), (cq_kmask_at _ _ _ _ _ _ Hcq). destruct Hcq. lia. }
    pose proof (ring_cap_u32 s Hwf) as [_ Hcap].
    rewrite wrap_small in Hv' by (unfold in_u; lia). lia.
  - change (kern (flush_tail s)) with (kern s) in *. lia.
Qed.

Lemma submit_keeps (s : St) :
  ring_wf s -> accounted s ->
  let '(r, s') := IoUring.submit s in
  ring_wf s' /\ accounted s' /\ exists cs, available s' = available s ++ cs /\
  match r with Ok v => v | Err _ => 0 end + Z.of_nat (length (pending s')) =
    Z.of_nat (length (pending s)).
Proof.
  intros Hwf Hacc. pose proof (submit_effect s Hwf Hacc) as He.
  destruct (IoUring.submit s) as [r s'].
  destruct He as (Hw & Ha & _ & c & cs & Hc & Hp & Hav & Hr & _).
  split; [done|]. split; [done|]. exists cs. split; [done|]. rewrite Hp, length_drop.
  destruct r; [destruct Hr as [-> _]; lia|destruct Hr as [-> _]; lia].
Qed.

Lemma retry_idle n : forall s : St,
  ring_wf s -> accounted s -> pending s = [] ->
  let '(total, s') := retry n s in pending s' = [] /\ total = 0 /\ available s' = available s.
Proof.
  induction n as [|n IH]; intros s Hwf Hacc Hnil; [done|]. cbn [retry].
  pose proof (submit_effect s Hwf Hacc) as He. destruct (IoUring.submit s) as [r s1].
  destruct He as (Hw & Ha & _ & c & cs & _ & Hp & Hav & _ & Hidle).
  destruct (Hidle Hnil) as (-> & -> & _). rewrite Hnil, drop_nil in Hp. rewrite app_nil_r in Hav.
  specialize (IH s1 Hw Ha Hp). destruct (retry n s1) as [total s2].
  destruct IH as (? & -> & Hav2). split; [done|]. split; [done|]. by rewrite Hav2.
Qed.

(** C15. Progress: against a kernel that refuses a submission only boundedly often, a
    caller that keeps calling `submit`, ignoring its errors, gets every pending
    entry taken within one call per pending entry and per refusal left; the
    counts its calls returned add up to exactly those entries, and no completion
    posted meanwhile is lost. *)
Theorem submit_drains (s : St) n :
  ring_wf s -> accounted s -> (length (pending s) + patience (kern s) <= n)%nat ->
  let '(total, s') := retry n s in
  pending s' = [] /\ total = Z.of_nat (length (pending s)) /\
  exists cs, available s' = available s ++ cs.
Proof.
  revert s. induction n as [|n IH]; intros s Hwf Hacc Hn.
  { cbn. assert (pending s = []) as -> by (destruct (pending s); [done|cbn in Hn; lia]).
    split; [done|]. split; [done|]. exists []. by rewrite app_nil_r. }
  destruct (decide (pending s = [])) as [Hnil|Hne].
  { pose proof (retry_idle (S n) s Hwf Hacc Hnil) as Hi. destruct (retry (S n) s) as [total s'].
    destruct Hi as (? & -> & Hav). rewrite Hnil. split_and!; [done..|]. exists []. by rewrite app_nil_r. }
  pose proof (submit_progress s Hwf Hacc Hne) as Hp. pose proof (submit_keeps s Hwf Hacc) as Hk.
  cbn [retry]. destruct (IoUring.submit s) as [r s1]. cbn [snd] in Hp.
  destruct Hk as (Hw & Ha & cs & Hav & Hsum).
  specialize (IH s1 Hw Ha ltac:(lia)). destruct (retry n s1) as [total s2].
  destruct IH as (? & -> & cs2 & Hav2). split; [done|]. split; [destruct r; lia|].
  exists (cs ++ cs2). by rewrite Hav2, Hav, app_assoc.
Qed.
End Live.

(** A kernel that is busy for a while: the first calls fail with EAGAIN, then each
    takes one entry. *)
Record Busy : Set := mkBusy { refusals : nat }.
#[export] Instance busy_kernel : Kernel Busy := fun fd n min fl m k =>
  match refusals k with
  | S r => (Err 11, kernel_activity 0 [] (as_u32 (sq_kflags m)) m, mkBusy r)
  | O => let c := Z.to_nat (Z.min 1 (Z.min n (sq_visible m))) in
         (Ok (Z.of_nat c), kernel_activity c [] (as_u32 (sq_kflags m)) m, k)
  end.
Lemma visible_nonneg m : 0 <= sq_visible m.
Proof. apply wrap_range. lia. Qed.
#[export] Instance busy_laws : KernelLaws Busy.
Proof.
  constructor. intros fd n min fl m [[|r0]] r m' k' He Hn Hu; cbn in He; simplify_eq;
    pose proof (visible_nonneg m) as Hv.
  - eexists _, [], (as_u32 (sq_kflags m)). split; [done|]. split; [split; [|split; [cbn; lia|by apply wrap_range]]; lia|].
    split; [done|]. lia.
  - exists 0%nat, [], (as_u32 (sq_kflags m)). split; [done|]. split; [|done].
    split; [lia|]. split; [cbn; lia|by apply wrap_range].
Qed.
#[export] Instance busy_progress : KernelProgress Busy.
Proof.
  exists refusals. intros fd n min fl m [[|r0]] r m' k' He Hn Hv; cbn in He; simplify_eq; cbn.
  - split; [done|]. left. lia.
  - lia.
Defined.

Definition busy_ring : Sys IoUring.t Busy :=
  mkSys (hd demo3) (mem demo3) (mkBusy 2).
Lemma busy_wf : ring_wf busy_ring.
Proof. destruct demo3_wf as (h & t & l & k & ch & ct & [Hs Hc]). by exists h, t, l, k, ch, ct. Qed.
Lemma submit_drains_witness :
  pending (snd (retry 5 busy_ring)) = [] /\ fst (retry 5 busy_ring) = 3.
Proof.
  assert (length (pending busy_ring) + refusals (kern busy_ring) <= 5)%nat as Hn by reflexivity.
  pose proof (submit_drains busy_ring 5 busy_wf demo3_accounted Hn) as H.
  destruct (retry 5 busy_ring) as [total s']. exact (conj (proj1 H) (proj1 (proj2 H))).
Defined.
