(* ===== verification/WeakMem.v ===== *)
(** * Release and acquire

    The shared rings under weak memory.  Every atomic word keeps the history of
    its values; each value carries a view of what its writer had seen, and a
    thread may read any value its own view does not rule out.  An acquire load
    takes over the view of the value it reads, which a release store attaches; a
    relaxed one does not.  Slots are plain memory: an access that the accessing
    thread has not synchronised with the other's last access is a data race.

    Programs are the sequences of accesses the methods make, with the orderings
    the source gives them; a system call among them is left to the system that
    runs them. *)
From stdpp Require Import base numbers list option.
From Stdlib Require Import ZArith Lia.
From S2P Require Import Prelude Types.
Local Open Scope Z_scope.

(** ** Views *)
(** The atomic words of one ring: both indices, and the kernel's flag word. *)
Inductive atom : Set := Head | Tail | KFlags.
#[export] Instance atom_eq_dec : EqDecision atom.
Proof. solve_decision. Defined.
(** `Ordering`, as far as the source uses it. *)
Inductive ord : Set := Relaxed | Acquire | Release.
(** Each ring has one producer, who writes the slots, and one consumer. *)
Inductive agent : Set := P | C.

(** How far into each word's history a thread has seen, and up to which of its
    slot accesses each agent. *)
Record view : Set := mkView {
  v_head : nat; v_tail : nat; v_flags : nat; v_p : nat; v_c : nat
}.
Definition no_view : view := mkView 0 0 0 0 0.
Definition join (v w : view) : view :=
  mkView (v_head v `max` v_head w) (v_tail v `max` v_tail w) (v_flags v `max` v_flags w)
    (v_p v `max` v_p w) (v_c v `max` v_c w).
Definition seen_at (l : atom) (v : view) : nat :=
  match l with Head => v_head v | Tail => v_tail v | KFlags => v_flags v end.
Definition at_time (l : atom) (t : nat) : view :=
  match l with
  | Head => mkView t 0 0 0 0 | Tail => mkView 0 t 0 0 0 | KFlags => mkView 0 0 t 0 0
  end.
Definition tick (a : agent) (v : view) : view :=
  match a with
  | P => mkView (v_head v) (v_tail v) (v_flags v) (S (v_p v)) (v_c v)
  | C => mkView (v_head v) (v_tail v) (v_flags v) (v_p v) (S (v_c v))
  end.
Definition view_le (v w : view) : Prop :=
  (v_head v <= v_head w /\ v_tail v <= v_tail w /\ v_flags v <= v_flags w /\
   v_p v <= v_p w /\ v_c v <= v_c w)%nat.
Lemma view_le_refl v : view_le v v.
Proof. unfold view_le. lia. Qed.
Lemma view_le_trans v w x : view_le v w -> view_le w x -> view_le v x.
Proof. unfold view_le. lia. Qed.
Lemma join_le_l v w : view_le v (join v w).
Proof. unfold view_le, join. cbn. lia. Qed.
Lemma join_le_r v w : view_le w (join v w).
Proof. unfold view_le, join. cbn. lia. Qed.
Lemma tick_le a v : view_le v (tick a v).
Proof. unfold view_le. destruct a; cbn; lia. Qed.
#[export] Hint Resolve view_le_refl join_le_l join_le_r tick_le : weak.

(** ** Memory *)
Section Memory.
  Context {E : Type}.
(** The histories, oldest first; the slots; when each was last written and last
    read; the threads' views; what the full fences have gathered; and whether a
    race has happened. *)
Record wm : Type := mkWm {
  hist : atom -> list (Z * view);
  cells : list E; wr : list nat; rd : list nat;
  vp : view; vc : view; sc : view; race : bool
}.
Definition view_of (a : agent) (m : wm) : view := match a with P => vp m | C => vc m end.
Definition set_view (a : agent) (v : view) (m : wm) : wm :=
  match a with
  | P => mkWm (hist m) (cells m) (wr m) (rd m) v (vc m) (sc m) (race m)
  | C => mkWm (hist m) (cells m) (wr m) (rd m) (vp m) v (sc m) (race m)
  end.
Definition append (l : atom) (x : Z * view) (m : wm) : wm :=
  mkWm (fun l' => if decide (l' = l) then hist m l' ++ [x] else hist m l')
    (cells m) (wr m) (rd m) (vp m) (vc m) (sc m) (race m).

(** Reading the value of time [t], unless the thread has seen a later one. *)
Definition load (a : agent) (o : ord) (l : atom) (t : nat) (m : wm) : option (Z * wm) :=
  match hist m l !! t with
  | Some (x, w) =>
      if decide (seen_at l (view_of a m) <= t)%nat then
        let v := join (view_of a m) (at_time l t) in
        Some (x, set_view a (match o with Acquire => join v w | _ => v end) m)
      else None
  | None => None
  end.
Lemma load_at a o l t m x w :
  hist m l !! t = Some (x, w) -> (seen_at l (view_of a m) <= t)%nat ->
  load a o l t m = Some (x, set_view a (match o with
    | Acquire => join (join (view_of a m) (at_time l t)) w
    | _ => join (view_of a m) (at_time l t) end) m).
Proof. intros Hx Ht. unfold load. rewrite Hx, decide_True by done. done. Qed.
(** Appending a value, which the writer has then seen. *)
Definition store (a : agent) (o : ord) (l : atom) (x : Z) (m : wm) : wm :=
  let here := at_time l (length (hist m l)) in
  let v := join (view_of a m) here in
  append l (x, match o with Release => v | _ => here end) (set_view a v m).
(** Plain accesses.  The producer's write races with a read it has not seen, the
    consumer's read with a write it has not seen. *)
Definition cell_write (s : nat) (e : E) (m : wm) : wm :=
  let v := tick P (vp m) in
  mkWm (hist m) (<[s := e]> (cells m)) (<[s := v_p v]> (wr m)) (rd m) v (vc m) (sc m)
    (race m || negb (bool_decide (rd m !!! s <= v_c (vp m))%nat)).
Definition cell_read `{Inhabited E} (s : nat) (m : wm) : E * wm :=
  let v := tick C (vc m) in
  (cells m !!! s,
   mkWm (hist m) (cells m) (wr m) (<[s := v_c v]> (rd m)) (vp m) v (sc m)
     (race m || negb (bool_decide (wr m !!! s <= v_p (vc m))%nat))).
(** A full fence: each sees what the fences before it had seen. *)
Definition fence (a : agent) (m : wm) : wm :=
  let v := join (view_of a m) (sc m) in
  let m := set_view a v m in
  mkWm (hist m) (cells m) (wr m) (rd m) (vp m) (vc m) v (race m).

(** ** Programs *)
Inductive prog (R : Type) : Type :=
| Ret (r : R)
| Load (o : ord) (l : atom) (k : Z -> prog R)
| Store (o : ord) (l : atom) (x : Z) (k : prog R)
| Read (s : nat) (k : E -> prog R)
| Write (s : nat) (e : E) (k : prog R)
| Enter (to_submit min_complete flags : Z) (k : result Z Errno -> prog R).
Arguments Ret {R} _. Arguments Load {R} _ _ _. Arguments Store {R} _ _ _ _.
Arguments Read {R} _ _. Arguments Write {R} _ _ _. Arguments Enter {R} _ _ _ _.

(** One access of a program run by [a]; a system call is the system's business. *)
Inductive access {R} `{Inhabited E} (a : agent) : prog R -> wm -> prog R -> wm -> Prop :=
| a_load o l k t m x m' : load a o l t m = Some (x, m') -> access a (Load o l k) m (k x) m'
| a_store o l x k m : access a (Store o l x k) m k (store a o l x m)
| a_read s k m : a = C -> access a (Read s k) m (k (fst (cell_read s m))) (snd (cell_read s m))
| a_write s e k m : a = P -> access a (Write s e k) m k (cell_write s e m).

(** ** What a full fence is for *)
(** Whatever a thread does, nobody forgets what he has seen. *)
Definition grows (m m' : wm) : Prop :=
  view_le (vp m) (vp m') /\ view_le (vc m) (vc m') /\ view_le (sc m) (sc m').
Lemma grows_refl m : grows m m.
Proof. split_and!; auto with weak. Qed.
Lemma grows_trans m1 m2 m3 : grows m1 m2 -> grows m2 m3 -> grows m1 m3.
Proof. intros (? & ? & ?) (? & ? & ?). split_and!; eauto using view_le_trans. Qed.
Lemma access_grows {R} `{Inhabited E} a (p p' : prog R) m m' : access a p m p' m' -> grows m m'.
Proof.
  assert (forall o v w t, view_le v (match o with Acquire => join (join v w) t | _ => join v w end)) as Hj.
  { intros [] v w t; [auto with weak| |auto with weak].
    apply (view_le_trans _ (join v w)); auto with weak. }
  intros [o l k t m0 x m1 Hl|o l x k m0|s k m0 ->|s e k m0 ->].
  - unfold load in Hl. destruct (hist m0 l !! t) as [[y w]|]; [|done].
    destruct (decide _); [|done]. injection Hl as _ <-. destruct a; split_and!; cbn; auto with weak.
  - destruct a; split_and!; cbn; auto with weak.
  - split_and!; cbn; auto with weak. apply (tick_le C).
  - split_and!; cbn; auto with weak. apply (tick_le P).
Qed.
Lemma fence_grows a m : grows m (fence a m).
Proof. destruct a; split_and!; cbn; auto with weak. Qed.

(** Each of two threads stores a word, fences, and later reads the other's.
    Whoever fences second cannot miss what the other stored before its fence. *)
Lemma fences_meet a b l l' o o' o'' x x' m1 m2 m3 t r :
  grows (fence a (store a o l x m1)) m2 -> grows (fence b (store b o' l' x' m2)) m3 ->
  load b o'' l t m3 = Some r -> (length (hist m1 l) <= t)%nat.
Proof.
  intros (_ & _ & G1) (G2 & G3 & _) Hl. set (n := length (hist m1 l)).
  assert (n <= seen_at l (sc (fence a (store a o l x m1))))%nat as H1.
  { destruct a, l; cbn; lia. }
  assert (n <= seen_at l (sc m2))%nat as H2.
  { unfold view_le in G1. destruct l; cbn [seen_at] in *; lia. }
  assert (n <= seen_at l (view_of b (fence b (store b o' l' x' m2))))%nat as H3.
  { destruct b, l, l'; cbn in H2 |- *; lia. }
  assert (n <= seen_at l (view_of b m3))%nat as H4.
  { unfold view_le in *. destruct b, l; cbn [view_of seen_at] in *; lia. }
  unfold load in Hl. destruct (hist m3 l !! t) as [[y w]|]; [|done].
  destruct (decide _); [lia|done].
Qed.
End Memory.
Arguments wm : clear implicits. Arguments prog : clear implicits.
Arguments Ret {E R} _. Arguments Load {E R} _ _ _. Arguments Store {E R} _ _ _ _.
Arguments Read {E R} _ _. Arguments Write {E R} _ _ _. Arguments Enter {E R} _ _ _ _.
