(* ===== verification/WeakRing.v ===== *)
(** * A ring under release and acquire

    The protocol of a single-producer, single-consumer ring over [WeakMem]: as
    long as the producer writes only slots the head it last acquired leaves
    free, the consumer reads only below the tail it last acquired, and both
    publish with release stores, no slot access races and the consumer reads
    the produced elements in order, however stale the indices it reads are.
    [RingWeak] shows that the library's methods follow it. *)
From stdpp Require Import base numbers list option.
From Stdlib Require Import ZArith Lia.
From S2P Require Import Prelude RingIndex WeakMem.
Local Open Scope Z_scope.
Local Open Scope rust_scope.

Section Spsc.
  Context {E : Type} `{Inhabited E}.
  Implicit Types (m : wm E) (ins : list E) (W R gh gt : list nat).
Variables (b mask : Z).
(** The word and the slot of the [i]th element, the ring starting at [b]. *)
Definition word (i : nat) : Z := wrap 32 (b + Z.of_nat i).
Definition cell (i : nat) : nat := slot mask (word i).
Definition up_to (n : nat) (ks : list nat) (v : nat) : Prop :=
  forall i k, (i < n)%nat -> ks !! i = Some k -> (k <= v)%nat.
(** A history of an index word: the counts it stands for never go back, and each
    value's view covers the accesses it announces. *)
Record index_hist (h : list (Z * view)) (g ks : list nat) (epoch : view -> nat) : Prop := {
  ih_length : length h = length g;
  ih_value t x v c : h !! t = Some (x, v) -> g !! t = Some c ->
    x = word c /\ (c <= length ks)%nat /\ up_to c ks (epoch v);
  ih_mono s t c d : (s <= t)%nat -> g !! s = Some c -> g !! t = Some d -> (c <= d)%nat
}.

(** [ins] has been produced, at epochs [W]; the first [length R] of it read, at
    epochs [R]; [gh] and [gt] are the counts behind the words' histories; the
    producer last acquired head [ph], the consumer tail [ct]. *)
Record spsc m ins W R gh gt (ph ct : nat) : Prop := {
  sp_shape : ring_shape (cells m) mask;
  sp_wr : length (wr m) = length (cells m);
  sp_rd : length (rd m) = length (cells m);
  sp_ins : length W = length ins;
  sp_heads : index_hist (hist m Head) gh R v_c;
  sp_tails : index_hist (hist m Tail) gt W v_p;
  sp_p_epochs : up_to (length W) W (v_p (vp m));
  sp_c_epochs : up_to (length R) R (v_c (vc m));
  sp_p_seen : exists t, (t <= v_head (vp m))%nat /\ gh !! t = Some ph;
  sp_c_seen : exists t, (t <= v_tail (vc m))%nat /\ gt !! t = Some ct;
  sp_p_knows : up_to ph R (v_c (vp m));
  sp_c_knows : up_to ct W (v_p (vc m));
  sp_room : Z.of_nat (length W) <= Z.of_nat ph + (mask + 1);
  sp_below : (length R <= ct)%nat;
  sp_cells i e k : ins !! i = Some e -> W !! i = Some k ->
    Z.of_nat (length W) <= Z.of_nat i + (mask + 1) ->
    cells m !! cell i = Some e /\ wr m !! cell i = Some k;
  sp_reads s r : rd m !! s = Some r ->
    r = 0%nat \/ exists i, cell i = s /\ R !! i = Some r;
  sp_race : race m = false
}.

Lemma up_to_mono n ks v w : (v <= w)%nat -> up_to n ks v -> up_to n ks w.
Proof. intros Hv Hu i k Hi Hk. specialize (Hu i k Hi Hk). lia. Qed.
Lemma up_to_app n ks k v : up_to n ks v -> (n <= length ks)%nat -> up_to n (ks ++ [k]) v.
Proof. intros Hu Hn i x Hi Hx. rewrite lookup_app_l in Hx by lia. by apply (Hu i). Qed.
Lemma up_to_snoc ks k v w :
  up_to (length ks) ks v -> (v <= w)%nat -> (k <= w)%nat -> up_to (length (ks ++ [k])) (ks ++ [k]) w.
Proof.
  intros Hu Hv Hk i x Hi [Hx|[? Hx]]%lookup_app_Some.
  - specialize (Hu i x ltac:(by apply lookup_lt_Some in Hx) Hx). lia.
  - apply list_lookup_singleton_Some in Hx as [_ <-]. lia.
Qed.

Lemma hist_grows h g ks k epoch :
  index_hist h g ks epoch -> index_hist h g (ks ++ [k]) epoch.
Proof.
  intros [Hl Hv Hm]. split; [done| |done]. intros t x v c Hx Hc.
  destruct (Hv t x v c Hx Hc) as (-> & Hle & Hu). rewrite length_app. cbn.
  split; [done|]. split; [lia|]. by apply up_to_app.
Qed.
Lemma hist_store h g ks epoch v c :
  index_hist h g ks epoch -> (c <= length ks)%nat -> up_to c ks (epoch v) ->
  (forall d, d ∈ g -> (d <= c)%nat) ->
  index_hist (h ++ [(word c, v)]) (g ++ [c]) ks epoch.
Proof.
  intros [Hl Hv Hm] Hc Hu Hle. split.
  - by rewrite !length_app, Hl.
  - intros t x w d [Hx|[Ht Hx]]%lookup_app_Some [Hd|[Ht' Hd]]%lookup_app_Some.
    + by apply (Hv t).
    + apply lookup_lt_Some in Hx. lia.
    + apply lookup_lt_Some in Hd. lia.
    + apply list_lookup_singleton_Some in Hx as [_ [= <- <-]].
      by apply list_lookup_singleton_Some in Hd as [_ <-].
  - intros s t d d' Hst [Hd|[Hs Hd]]%lookup_app_Some [Hd'|[Ht Hd']]%lookup_app_Some.
    + by apply (Hm s t).
    + apply list_lookup_singleton_Some in Hd' as [_ <-].
      apply Hle. by eapply list_elem_of_lookup_2.
    + apply lookup_lt_Some in Hd'. lia.
    + apply list_lookup_singleton_Some in Hd as [_ <-].
      by apply list_lookup_singleton_Some in Hd' as [_ <-].
Qed.

Lemma hist_bound h g ks epoch c : index_hist h g ks epoch -> c ∈ g -> (c <= length ks)%nat.
Proof.
  intros [Hl Hv _] [t Ht]%list_elem_of_lookup_1.
  destruct (lookup_lt_is_Some_2 h t) as [[x v] Hx]; [rewrite Hl; by eapply lookup_lt_Some|].
  by destruct (Hv t x v c Hx Ht) as (_ & ? & _).
Qed.
Lemma hist_count h g ks epoch t x v :
  index_hist h g ks epoch -> h !! t = Some (x, v) -> exists c, g !! t = Some c.
Proof.
  intros [Hl _ _] Hx. apply lookup_lt_is_Some_2. rewrite <- Hl. by eapply lookup_lt_Some.
Qed.

(** Elements that share a slot are at least a capacity apart. *)
Lemma cell_far m i j :
  ring_shape (cells m) mask -> cell i = cell j -> (i < j)%nat ->
  Z.of_nat i + (mask + 1) <= Z.of_nat j.
Proof.
  intros Hs Hc Hij. destruct (Z.le_gt_cases (Z.of_nat i + (mask + 1)) (Z.of_nat j)) as [|Hlt]; [done|].
  unfold cell, word in Hc. rewrite !(slot_wrap (cells m)) in Hc by done.
  assert (0 = Z.of_nat j - Z.of_nat i); [|lia].
  apply (slot_inj (cells m) mask (b + Z.of_nat i)); [done|lia|lia|].
  replace (b + Z.of_nat i + 0) with (b + Z.of_nat i) by lia.
  by replace (b + Z.of_nat i + (Z.of_nat j - Z.of_nat i)) with (b + Z.of_nat j) by lia.
Qed.
Lemma cell_bound m i : ring_shape (cells m) mask -> (cell i < length (cells m))%nat.
Proof. intros Hs. by apply slot_in_bounds. Qed.

Lemma consumed_le m ins W R gh gt ph ct : spsc m ins W R gh gt ph ct -> (ct <= length W)%nat.
Proof.
  intros [] . destruct sp_c_seen0 as (t & _ & Ht). eapply hist_bound; [done|].
  by eapply list_elem_of_lookup_2.
Qed.
Lemma known_le m ins W R gh gt ph ct : spsc m ins W R gh gt ph ct -> (ph <= length R)%nat.
Proof.
  intros [] . destruct sp_p_seen0 as (t & _ & Ht). eapply hist_bound; [done|].
  by eapply list_elem_of_lookup_2.
Qed.

Lemma word_add n : u32_add (word n) 1 = word (S n).
Proof. unfold word, u32_add. rewrite wrap_add_l. f_equal. lia. Qed.
Lemma word_sub i j : (i <= j)%nat -> Z.of_nat j - Z.of_nat i < 2 ^ 32 ->
  u32_sub (word j) (word i) = Z.of_nat j - Z.of_nat i.
Proof.
  intros Hij Hlt. unfold word, u32_sub. rewrite wrap_sub_l, wrap_sub_r. replace (_ - _) with (Z.of_nat j - Z.of_nat i) by lia.
  apply wrap_small. unfold in_u. lia.
Qed.
Lemma word_inj i j : (i <= j)%nat -> Z.of_nat j - Z.of_nat i < 2 ^ 32 ->
  word i = word j -> i = j.
Proof.
  intros Hij Hlt He. pose proof (word_sub i j Hij Hlt) as Hs. rewrite He in Hs.
  unfold u32_sub in Hs. rewrite Z.sub_diag in Hs. change (wrap 32 0) with 0 in Hs. lia.
Qed.

(** *** What the accesses of the protocol do *)
(** Anything that only adds to the views keeps the protocol. *)
Lemma spsc_views m m' ins W R gh gt ph ct :
  spsc m ins W R gh gt ph ct -> hist m' Head = hist m Head -> hist m' Tail = hist m Tail ->
  cells m' = cells m -> wr m' = wr m -> rd m' = rd m -> race m' = race m ->
  view_le (vp m) (vp m') -> view_le (vc m) (vc m') -> spsc m' ins W R gh gt ph ct.
Proof.
  intros [] E1 E2 E3 E4 E5 E6 (? & ? & ? & ? & ?) (? & ? & ? & ? & ?).
  split; rewrite ?E1, ?E2, ?E3, ?E4, ?E5, ?E6; try done; try (by eapply up_to_mono; [|done]).
  - destruct sp_p_seen0 as (t & ? & ?). exists t. split; [lia|done].
  - destruct sp_c_seen0 as (t & ? & ?). exists t. split; [lia|done].
Qed.

Lemma load_inv a o l t m x m' :
  load a o l t m = Some (x, m') ->
  exists w, hist m l !! t = Some (x, w) /\ (seen_at l (view_of a m) <= t)%nat /\
  m' = set_view a (match o with
                   | Acquire => join (join (view_of a m) (at_time l t)) w
                   | _ => join (view_of a m) (at_time l t) end) m.
Proof.
  unfold load. destruct (hist m l !! t) as [[y w]|]; [|done].
  destruct (decide _); [|done]. intros [= <- <-]. by exists w.
Qed.
Lemma load_views a o l t m x m' ins W R gh gt ph ct :
  load a o l t m = Some (x, m') -> spsc m ins W R gh gt ph ct -> spsc m' ins W R gh gt ph ct.
Proof.
  intros (w & _ & _ & ->)%load_inv Hs. eapply spsc_views; [exact Hs|..]; destruct a; cbn;
    try reflexivity; auto with weak; destruct o; eauto using view_le_trans with weak.
Qed.

(** The producer's acquire of a head: it learns of a count no older than the last,
    and of the reads before it. *)
Lemma producer_acquires_at t m x m' ins W R gh gt ph ct :
  load P Acquire Head t m = Some (x, m') -> spsc m ins W R gh gt ph ct ->
  exists g v, hist m Head !! t = Some (x, v) /\ gh !! t = Some g /\ view_le v (vp m') /\
    x = word g /\ (ph <= g <= length R)%nat /\ spsc m' ins W R gh gt g ct.
Proof.
  intros Hl Hs. pose proof (load_views _ _ _ _ _ _ _ _ _ _ _ _ _ _ Hl Hs) as Hs'.
  apply load_inv in Hl as (w & Hx & Ht & ->). cbn [view_of seen_at] in *.
  destruct (hist_count _ _ _ _ _ _ _ (sp_heads _ _ _ _ _ _ _ _ Hs) Hx) as [g Hg].
  destruct (ih_value _ _ _ _ (sp_heads _ _ _ _ _ _ _ _ Hs) _ _ _ _ Hx Hg) as (-> & Hle & Hu).
  destruct (sp_p_seen _ _ _ _ _ _ _ _ Hs) as (t0 & Ht0 & Hph).
  pose proof (ih_mono _ _ _ _ (sp_heads _ _ _ _ _ _ _ _ Hs) t0 t ph g ltac:(lia) Hph Hg).
  exists g, w. split; [done|]. split; [done|]. split; [cbn; auto with weak|].
  split; [done|]. split; [lia|]. destruct Hs'. split; try done.
  - exists t. split; [cbn; lia|done].
  - eapply up_to_mono; [|exact Hu]. cbn. lia.
  - lia.
Qed.
Lemma producer_acquires t m x m' ins W R gh gt ph ct :
  load P Acquire Head t m = Some (x, m') -> spsc m ins W R gh gt ph ct ->
  exists g, x = word g /\ (ph <= g <= length R)%nat /\ spsc m' ins W R gh gt g ct.
Proof.
  intros Hl Hs. destruct (producer_acquires_at _ _ _ _ _ _ _ _ _ _ _ Hl Hs) as (g & ? & ? & ? & ? & ?).
  by exists g.
Qed.
Lemma consumer_acquires t m x m' ins W R gh gt ph ct :
  load C Acquire Tail t m = Some (x, m') -> spsc m ins W R gh gt ph ct ->
  exists g, x = word g /\ (ct <= g <= length W)%nat /\ spsc m' ins W R gh gt ph g.
Proof.
  intros Hl Hs. pose proof (load_views _ _ _ _ _ _ _ _ _ _ _ _ _ _ Hl Hs) as Hs'.
  apply load_inv in Hl as (w & Hx & Ht & ->). cbn [view_of seen_at] in *.
  destruct (hist_count _ _ _ _ _ _ _ (sp_tails _ _ _ _ _ _ _ _ Hs) Hx) as [g Hg].
  destruct (ih_value _ _ _ _ (sp_tails _ _ _ _ _ _ _ _ Hs) _ _ _ _ Hx Hg) as (-> & Hle & Hu).
  destruct (sp_c_seen _ _ _ _ _ _ _ _ Hs) as (t0 & Ht0 & Hct).
  pose proof (ih_mono _ _ _ _ (sp_tails _ _ _ _ _ _ _ _ Hs) t0 t ct g ltac:(lia) Hct Hg).
  exists g. split; [done|]. split; [lia|]. destruct Hs'. split; try done.
  - exists t. split; [cbn; lia|done].
  - eapply up_to_mono; [|exact Hu]. cbn. lia.
  - lia.
Qed.

(** Producing into a slot the acquired head leaves free. *)
Lemma producer_writes_at e m ins W R gh gt ph ct :
  spsc m ins W R gh gt ph ct -> Z.of_nat (length ins) + 1 <= Z.of_nat ph + (mask + 1) ->
  spsc (cell_write (cell (length ins)) e m) (ins ++ [e]) (W ++ [S (v_p (vp m))]) R gh gt ph ct.
Proof.
  intros Hs Hroom. pose proof (known_le _ _ _ _ _ _ _ _ Hs) as Hph.
  pose proof (consumed_le _ _ _ _ _ _ _ _ Hs) as Hct.
  set (l := length ins) in *.
  pose proof (cell_bound m l (sp_shape _ _ _ _ _ _ _ _ Hs)) as Hb.
  destruct Hs. assert (length W = l) as HWl by done. unfold cell_write.
  split; cbn [cells wr rd hist vp vc race v_p tick].
  - destruct sp_shape0 as (k & ? & ? & ?). exists k. by rewrite length_insert.
  - by rewrite !length_insert.
  - by rewrite length_insert.
  - by rewrite !length_app, sp_ins0.
  - done.
  - by apply hist_grows.
  - apply (up_to_snoc W (S (v_p (vp m))) (v_p (vp m))); [done|lia|lia].
  - done.
  - destruct sp_p_seen0 as (t & ? & ?). exists t. by split.
  - done.
  - done.
  - apply up_to_app; [done|lia].
  - rewrite length_app. cbn. lia.
  - lia.
  - intros i e' k Hi Hk. rewrite length_app. cbn. intros Hle.
    destruct (decide (i = l)) as [->|Hne].
    + rewrite lookup_app_r, HWl, Nat.sub_diag in Hk by lia. injection Hk as <-.
      rewrite lookup_app_r, Nat.sub_diag in Hi by lia. injection Hi as <-.
      rewrite !list_lookup_insert_eq by (lia || congruence). done.
    + assert (i < l)%nat as Hil.
      { apply lookup_lt_Some in Hi. rewrite length_app in Hi. cbn in Hi. lia. }
      rewrite lookup_app_l in Hi by done. rewrite lookup_app_l in Hk by lia.
      assert (cell l <> cell i).
      { intros Hc. symmetry in Hc. pose proof (cell_far m i l sp_shape0 Hc Hil). lia. }
      rewrite !list_lookup_insert_ne by done. apply sp_cells0; try done. lia.
  - intros s r Hr. apply (sp_reads0 s r Hr).
  - rewrite sp_race0. cbn. apply negb_false_iff, bool_decide_eq_true_2.
    destruct (rd m !! cell l) as [r|] eqn:Er; [|apply lookup_ge_None in Er; lia].
    rewrite (list_lookup_total_correct _ _ _ Er).
    destruct (sp_reads0 _ _ Er) as [->|(i & Hc & Hi)]; [lia|].
    apply (sp_p_knows0 i); [|done].
    pose proof (lookup_lt_Some _ _ _ Hi).
    pose proof (cell_far m i l sp_shape0 Hc ltac:(lia)). lia.
Qed.

Lemma producer_writes e m ins W R gh gt ph ct :
  spsc m ins W R gh gt ph ct -> Z.of_nat (length ins) + 1 <= Z.of_nat ph + (mask + 1) ->
  exists k, spsc (cell_write (cell (length ins)) e m) (ins ++ [e]) (W ++ [k]) R gh gt ph ct.
Proof. intros Hs Hr. eexists. by apply producer_writes_at. Qed.

(** Reading the next element below the acquired tail. *)
Lemma consumer_reads m ins W R gh gt ph ct :
  spsc m ins W R gh gt ph ct -> (length R < ct)%nat ->
  exists k, ins !! length R = Some (fst (cell_read (cell (length R)) m)) /\
  spsc (snd (cell_read (cell (length R)) m)) ins W (R ++ [k]) gh gt ph ct.
Proof.
  intros Hs Hlt. pose proof (known_le _ _ _ _ _ _ _ _ Hs) as Hph.
  pose proof (consumed_le _ _ _ _ _ _ _ _ Hs) as Hct.
  exists (S (v_c (vc m))). set (n := length R) in *.
  pose proof (cell_bound m n (sp_shape _ _ _ _ _ _ _ _ Hs)) as Hb. destruct Hs.
  destruct (lookup_lt_is_Some_2 W n ltac:(lia)) as [k Hk].
  destruct (lookup_lt_is_Some_2 ins n ltac:(rewrite <- sp_ins0; lia)) as [e He].
  destruct (sp_cells0 n e k He Hk ltac:(lia)) as [Hcell Hwr].
  unfold cell_read. cbn [fst snd]. rewrite (list_lookup_total_correct _ _ _ Hcell). split; [done|].
  split; cbn [cells wr rd hist vp vc race v_c tick]; try done.
  - by rewrite length_insert.
  - by apply hist_grows.
  - apply (up_to_snoc R (S (v_c (vc m))) (v_c (vc m))); [done|lia|lia].
  - apply up_to_app; [done|lia].
  - rewrite length_app. cbn. lia.
  - intros s r Hr. destruct (decide (s = cell n)) as [->|Hne].
    + rewrite list_lookup_insert_eq in Hr by lia. injection Hr as <-. right. exists n.
      split; [done|]. by rewrite lookup_app_r, Nat.sub_diag by lia.
    + rewrite list_lookup_insert_ne in Hr by done.
      destruct (sp_reads0 s r Hr) as [|(i & Hc & Hi)]; [by left|right]. exists i.
      split; [done|]. by apply lookup_app_l_Some.
  - rewrite sp_race0. cbn. apply negb_false_iff, bool_decide_eq_true_2.
    rewrite (list_lookup_total_correct _ _ _ Hwr). by apply (sp_c_knows0 n).
Qed.

(** Publishing with a release store. *)
Lemma producer_publishes m ins W R gh gt ph ct :
  spsc m ins W R gh gt ph ct ->
  spsc (store P Release Tail (word (length W)) m) ins W R gh (gt ++ [length W]) ph ct.
Proof.
  intros []. unfold store. cbn [view_of].
  split; cbn -[Nat.max]; try done.
  - apply hist_store; [done|done| |].
    + eapply up_to_mono; [|done]. cbn. lia.
    + intros d Hd. by eapply hist_bound.
  - eapply up_to_mono; [|done]. lia.
  - destruct sp_p_seen0 as (t & ? & ?). exists t. split; [lia|done].
  - destruct sp_c_seen0 as (t & ? & Ht). exists t. split; [done|]. by apply lookup_app_l_Some.
  - eapply up_to_mono; [|done]. lia.
Qed.
(** The consumer may give back fewer slots than it has read. *)
Lemma consumer_publishes_at c m ins W R gh gt ph ct :
  spsc m ins W R gh gt ph ct -> (c <= length R)%nat -> (forall d, d ∈ gh -> (d <= c)%nat) ->
  spsc (store C Release Head (word c) m) ins W R (gh ++ [c]) gt ph ct.
Proof.
  intros [] Hc Hd. unfold store. cbn [view_of].
  split; cbn -[Nat.max]; try done.
  - apply hist_store; [done|done| |done].
    intros i k Hi Hk. cbn. specialize (sp_c_epochs0 i k ltac:(lia) Hk). lia.
  - eapply up_to_mono; [|done]. lia.
  - destruct sp_p_seen0 as (t & ? & Ht). exists t. split; [done|]. by apply lookup_app_l_Some.
  - destruct sp_c_seen0 as (t & ? & ?). exists t. split; [lia|done].
  - eapply up_to_mono; [|done]. lia.
Qed.
Lemma consumer_publishes m ins W R gh gt ph ct :
  spsc m ins W R gh gt ph ct ->
  spsc (store C Release Head (word (length R)) m) ins W R (gh ++ [length R]) gt ph ct.
Proof.
  intros Hs. apply consumer_publishes_at; [done..|]. intros d Hd.
  eapply hist_bound; [apply Hs|done].
Qed.

(** Flag words and fences are no concern of the slots. *)
Lemma spsc_flags a o x m ins W R gh gt ph ct :
  spsc m ins W R gh gt ph ct -> spsc (store a o KFlags x m) ins W R gh gt ph ct.
Proof.
  intros Hs. eapply spsc_views; [exact Hs|..]; destruct a; cbn; try done; auto with weak;
    unfold view_le; cbn; lia.
Qed.
Lemma spsc_fence a m ins W R gh gt ph ct :
  spsc m ins W R gh gt ph ct -> spsc (fence a m) ins W R gh gt ph ct.
Proof.
  intros Hs. eapply spsc_views; [exact Hs|..]; destruct a; cbn; try done; auto with weak.
Qed.

(** A ring at rest at [b]: nothing produced, both words there. *)
Definition at_rest (arr : list E) : wm E :=
  mkWm (fun l => match l with KFlags => [(0, no_view)] | _ => [(word 0, no_view)] end)
    arr (replicate (length arr) 0%nat) (replicate (length arr) 0%nat) no_view no_view no_view false.
Lemma at_rest_spsc arr : ring_shape arr mask -> spsc (at_rest arr) [] [] [] [0%nat] [0%nat] 0 0.
Proof.
  intros Hs. destruct (ring_shape_cap _ _ Hs) as [Hc _].
  assert (forall epoch, index_hist [(word 0, no_view)] [0%nat] [] epoch) as Hh.
  { intros epoch. split; [done| |].
    - intros t x v c Hx Hc'. apply list_lookup_singleton_Some in Hx as [-> [= <- <-]].
      injection Hc' as <-. split; [done|]. split; [done|]. intros i k Hi. lia.
    - intros s t c d Hst Hc' Hd. apply list_lookup_singleton_Some in Hc' as [_ <-]. lia. }
  split; cbn; try done; try (by rewrite length_replicate); try (intros ? ? ?; done).
  - by exists 0%nat.
  - by exists 0%nat.
  - lia.
  - intros s r [-> _]%lookup_replicate. by left.
Qed.
End Spsc.
