(* ===== verification/RingWeak.v ===== *)
(** * The ring methods under weak memory

    The accesses [IoUring], [Submitter] and [Completer] make to the shared rings,
    with the orderings of ring/mod.rs, as programs of [WeakMem].  Run one after
    another they are the methods of [Ring] ([methods_are_programs]).  [Sq] and
    [Cq] run them beside a kernel thread that takes entries and posts
    completions on its own: [Sq] with the polling thread of SQPOLL, which parks
    itself when the queue looks empty. *)
From stdpp Require Import base numbers list option.
From Stdlib Require Import ZArith Lia.
From S2P Require Import Prelude Flags Types RingIndex Sqe Kernel Ring WeakMem WeakRing.
Local Open Scope Z_scope.
Local Open Scope rust_scope.

(** ** The accesses of the methods *)
(* src/src/ring/mod.rs:807-824 IoUring::push *)
Definition push_prog (mask tail : Z) (sqe : Sqe) : prog Sqe (result unit Error * Z) :=
  Load Acquire Head (fun head =>
    let next_tail := u32_add tail 1 in
    if u32_sub next_tail head >? mask + 1 then Ret (Err (from_submit QueueFull), tail)
    else Write (slot mask tail) sqe (Ret (Ok tt, next_tail))).
(* src/src/ring/mod.rs:841-844 IoUring::flush_sq_tail *)
Definition flush_sq_tail_prog (tail : Z) : prog Sqe (result unit Error * Z) :=
  Store Release Tail tail (Ret (Ok tt, tail)).
(* src/src/ring/mod.rs:687-692 IoUring::sq_need_wakeup *)
Definition sq_need_wakeup_prog {R} (k : bool -> prog Sqe R) : prog Sqe R :=
  Load Acquire KFlags (fun flags => k (negb ((flags &&& IORING_SQ_NEED_WAKEUP) =? 0))).
(** The rest of `submit_sqpoll` once the thread's need is known. *)
Definition wake (tail : Z) (need : bool) : prog Sqe (result unit Error * Z) :=
  if need then
    Enter 0 0 EnterFlags.SQ_WAKEUP (fun r =>
      Ret (match r with Ok _ => Ok tt | Err e => Err (from_errno e) end, tail))
  else Ret (Ok tt, tail).
(* src/src/ring/mod.rs:966-974 IoUring::submit_sqpoll *)
Definition submit_sqpoll_prog (tail : Z) : prog Sqe (result unit Error * Z) :=
  Store Release Tail tail (sq_need_wakeup_prog (wake tail)).
(* src/src/ring/mod.rs:991-1011 IoUring::complete *)
Definition complete_prog (mask head : Z) : prog Cqe (option Completion * Z) :=
  Load Acquire Tail (fun tail =>
    if head =? tail then Ret (None, head)
    else Read (slot mask head) (fun cqe => Ret (Some (completion_of cqe), u32_add head 1))).
(* src/src/ring/mod.rs:982-985 IoUring::flush_cq_head *)
Definition flush_cq_head_prog (head : Z) : prog Cqe (option Completion * Z) :=
  Store Release Head head (Ret (None, head)).

(** ** One after another they are the methods *)
(** How a ring's words and slots lie in the shared memory. *)
Record port (E : Type) : Type := mkPort {
  get_word : atom -> Shm -> Z; put_word : atom -> Z -> Shm -> Shm;
  get_cells : Shm -> list E; put_cells : list E -> Shm -> Shm
}.
Arguments get_word {E} _ _ _. Arguments put_word {E} _ _ _ _.
Arguments get_cells {E} _ _. Arguments put_cells {E} _ _ _.
Definition sq_port : port Sqe := mkPort Sqe
  (fun l m => match l with Head => sq_khead m | Tail => sq_ktail m | KFlags => sq_kflags m end)
  (fun l v m => match l with Tail => set_sq_ktail v m | _ => m end) sqes set_sqes.
Definition cq_port : port Cqe := mkPort Cqe
  (fun l m => match l with Head => cq_khead m | Tail => cq_ktail m | KFlags => 0 end)
  (fun l v m => match l with Head => set_cq_khead v m | _ => m end) cqes (fun _ m => m).

Section Sequential.
  Context {K : Type} `{Kernel K}.
Fixpoint seq_run {E R} `{Inhabited E} (q : port E) (fd : Z) (p : prog E R) (m : Shm) (k : K) : R * Shm * K :=
  match p with
  | Ret r => (r, m, k)
  | Load _ l f => seq_run q fd (f (get_word q l m)) m k
  | Store _ l x p => seq_run q fd p (put_word q l x m) k
  | Read s f => seq_run q fd (f (get_cells q m !!! s)) m k
  | Write s e p => seq_run q fd p (put_cells q (<[s := e]> (get_cells q m)) m) k
  | Enter n c fl f => let '(r, m, k) := io_uring_enter fd n c fl m k in seq_run q fd (f r) m k
  end.
(** A submission program run by a handle that keeps its tail by [set]. *)
Definition run_sq {H} (fd : H -> Z) (set : Z -> H -> H) (p : prog Sqe (result unit Error * Z)) :
    M (Sys H K) Error unit := fun s =>
  let '(r, tail, m, k) := seq_run sq_port (fd (hd s)) p (mem s) (kern s) in
  (r, mkSys (set tail (hd s)) m k).
Definition run_cq {H} (fd : H -> Z) (set : Z -> H -> H) (p : prog Cqe (option Completion * Z))
    (s : Sys H K) : option Completion * Sys H K :=
  let '(r, head, m, k) := seq_run cq_port (fd (hd s)) p (mem s) (kern s) in
  (r, mkSys (set head (hd s)) m k).

(** C10. The methods of both kinds of handle are their programs: on the same
    shared memory, one access after another, they return the same value and
    leave the same memory, kernel and local indices. *)
Theorem methods_are_programs (sqe : Sqe) :
  (forall s : Sys IoUring.t K,
    let r := hd s in
    let sq := run_sq IoUring.fd IoUring.set_sq_tail_local in
    let cq := run_cq IoUring.fd IoUring.set_cq_head_local in
    IoUring.push sqe s = sq (push_prog (IoUring.sq_mask r) (IoUring.sq_tail_local r) sqe) s /\
    IoUring.flush_sq_tail s = sq (flush_sq_tail_prog (IoUring.sq_tail_local r)) s /\
    IoUring.submit_sqpoll s =
      sq (submit_sqpoll_prog (IoUring.sq_tail_local r))
         (upd_hd (fun h => IoUring.set_sq_submitted (IoUring.sq_tail_local h) h) s) /\
    IoUring.complete s = cq (complete_prog (IoUring.cq_mask r) (IoUring.cq_head_local r)) s /\
    IoUring.sync_cq s = (Ok tt, snd (cq (flush_cq_head_prog (IoUring.cq_head_local r)) s))) /\
  (forall s : Sys Submitter.t K,
    let r := hd s in
    let sq := run_sq Submitter.fd Submitter.set_sq_tail_local in
    Submitter.push sqe s = sq (push_prog (Submitter.sq_mask r) (Submitter.sq_tail_local r) sqe) s /\
    Submitter.flush_sq_tail s = sq (flush_sq_tail_prog (Submitter.sq_tail_local r)) s /\
    Submitter.submit_sqpoll s =
      sq (submit_sqpoll_prog (Submitter.sq_tail_local r))
         (upd_hd (fun h => Submitter.set_sq_submitted (Submitter.sq_tail_local h) h) s)) /\
  (forall s : Sys Completer.t K,
    let r := hd s in
    let cq := run_cq Completer.fd Completer.set_cq_head_local in
    Completer.complete s = cq (complete_prog (Completer.cq_mask r) (Completer.cq_head_local r)) s /\
    Completer.sync_cq s = (Ok tt, snd (cq (flush_cq_head_prog (Completer.cq_head_local r)) s))).
Proof.
  split_and!; intros [[] [] k]; cbn; split_and!; try done;
    unfold run_sq, run_cq, IoUring.push, Submitter.push, IoUring.complete, Completer.complete,
      IoUring.submit_sqpoll, Submitter.submit_sqpoll, IoUring.sq_need_wakeup, Submitter.sq_need_wakeup,
      enter, bind, get, ret, modify, throw, upd_hd, upd_mem; cbn;
    unfold submit_sqpoll_prog, sq_need_wakeup_prog, wake; cbn; try destruct (negb _); cbn;
    try match goal with |- context [io_uring_enter ?a ?b ?c ?d ?e ?f] =>
      destruct (io_uring_enter a b c d e f) as [[[] ?] ?] end;
    repeat case_match; simplify_eq/=; try done.
Qed.
End Sequential.
