(* ===== verification/RingRace.v ===== *)
(** * No races, and the lost wakeup

    Two systems run the programs of [RingWeak] beside the kernel over weak
    memory.  [Sq] is the submission ring and the polling thread of SQPOLL: it
    takes entries as long as it sees any, and parks when it sees none, by
    raising NEED_WAKEUP, a full fence, and a last look at the tail.  [Cq] is the
    completion ring and a kernel that posts into slots it knows to be free.
    Every load of either side may be as stale as its view allows.

    No slot access ever races and entries and completions arrive in order
    ([submission_race_free], [completion_race_free]).  What is not safe is
    sleep: [submit_sqpoll] has no full fence between its store of the tail and
    its load of the flag word, so both sides can miss each other
    ([sqpoll_lost_wakeup]). *)
From stdpp Require Import base numbers list option relations.
From Stdlib Require Import ZArith Lia.
From S2P Require Import Prelude Flags Types RingIndex Sqe SqeNet Kernel Ring WeakMem WeakRing RingWeak.
Local Open Scope Z_scope.
Local Open Scope rust_scope.

(** ** The submission ring *)
Module Sq.
(** The methods of the submission side. *)
Inductive call : Type := Push (sqe : Sqe) | Publish | Sqpoll.
Inductive phase : Set := Running | Parking | Asleep.

Section System.
Variables (b mask : Z).
Definition start (c : call) (tail : Z) : prog Sqe (result unit Error * Z) :=
  match c with
  | Push sqe => push_prog mask tail sqe
  | Publish => flush_sq_tail_prog tail
  | Sqpoll => submit_sqpoll_prog tail
  end.
(** The memory; the handle's local tail; the call in progress; the thread's own
    head, the tail it last saw and what it is doing; the entries whose `push`
    returned `Ok`, those the thread has taken, and what the calls returned. *)
Record t : Type := mk {
  m : wm Sqe; tail : Z; cur : option (call * prog Sqe (result unit Error * Z));
  khead : Z; kseen : Z; ph : phase;
  pushed : list Sqe; taken : list Sqe; returns : list (call * result unit Error)
}.
Definition init (arr : list Sqe) : t :=
  mk (at_rest b arr) (word b 0) None (word b 0) (word b 0) Running [] [] [].
Definition accepted (c : call) (r : result unit Error) : list Sqe :=
  match c, r with Push e, Ok _ => [e] | _, _ => [] end.

Inductive step : t -> t -> Prop :=
(** The program calls a method, makes one of its accesses, enters the kernel for
    it, and gets its result. *)
| u_call c m tl kh ks p pu ta rs :
    step (mk m tl None kh ks p pu ta rs) (mk m tl (Some (c, start c tl)) kh ks p pu ta rs)
| u_access c pr m tl kh ks p pu ta rs pr' m' :
    access P pr m pr' m' ->
    step (mk m tl (Some (c, pr)) kh ks p pu ta rs) (mk m' tl (Some (c, pr')) kh ks p pu ta rs)
| u_enter c n mn fl k m tl kh ks p pu ta rs r :
    step (mk m tl (Some (c, Enter n mn fl k)) kh ks p pu ta rs)
      (mk m tl (Some (c, k r)) kh ks
         (if (fl &&& EnterFlags.SQ_WAKEUP) =? 0 then p else Running) pu ta rs)
| u_return c r tl' m tl kh ks p pu ta rs :
    step (mk m tl (Some (c, Ret (r, tl'))) kh ks p pu ta rs)
      (mk m tl' None kh ks p (pu ++ accepted c r) ta (rs ++ [(c, r)]))
(** The thread looks at the tail, takes the next entry it has seen, and gives the
    slots back. *)
| k_acquire i x m tl cu kh ks pu ta rs m' :
    load C Acquire Tail i m = Some (x, m') ->
    step (mk m tl cu kh ks Running pu ta rs) (mk m' tl cu kh x Running pu ta rs)
| k_take m tl cu kh ks pu ta rs :
    kh <> ks ->
    step (mk m tl cu kh ks Running pu ta rs)
      (mk (snd (cell_read (slot mask kh) m)) tl cu (u32_add kh 1) ks Running pu
         (ta ++ [fst (cell_read (slot mask kh) m)]) rs)
| k_publish m tl cu kh ks pu ta rs :
    step (mk m tl cu kh ks Running pu ta rs)
      (mk (store C Release Head kh m) tl cu kh ks Running pu ta rs)
(** It parks when it sees nothing, and looks once more before it sleeps. *)
| k_park m tl cu kh pu ta rs :
    step (mk m tl cu kh kh Running pu ta rs)
      (mk (fence C (store C Release KFlags IORING_SQ_NEED_WAKEUP m)) tl cu kh kh Parking pu ta rs)
| k_sleep i m tl cu kh ks pu ta rs m' :
    load C Acquire Tail i m = Some (kh, m') ->
    step (mk m tl cu kh ks Parking pu ta rs) (mk m' tl cu kh kh Asleep pu ta rs)
| k_stay i x m tl cu kh ks pu ta rs m' :
    load C Acquire Tail i m = Some (x, m') -> x <> kh ->
    step (mk m tl cu kh ks Parking pu ta rs)
      (mk (store C Release KFlags 0 m') tl cu kh x Running pu ta rs).
Definition reachable (arr : list Sqe) (s : t) : Prop := rtc step (init arr) s.

(** What is behind a reachable state: the call in progress has produced, and
    knows of room for, what its place in its program says. *)
Definition user_ok (ins pu : list Sqe) (tl : Z) (acq : nat)
    (cu : option (call * prog Sqe (result unit Error * Z))) : Prop :=
  match cu with
  | None => ins = pu
  | Some (c, pr) =>
      (ins = pu /\ pr = start c tl) \/
      (exists e, c = Push e /\ ins = pu /\
         Z.of_nat (length pu) + 1 <= Z.of_nat acq + (mask + 1) /\
         pr = Write (slot mask tl) e (Ret (Ok tt, u32_add tl 1))) \/
      (exists e, c = Push e /\ ins = pu ++ [e] /\ pr = Ret (Ok tt, u32_add tl 1)) \/
      (exists r, pr = Ret (r, tl) /\ ins = pu /\ accepted c r = []) \/
      (c = Sqpoll /\ ins = pu /\ pr = sq_need_wakeup_prog (wake tl)) \/
      (c = Sqpoll /\ ins = pu /\ pr = wake tl true)
  end.
Record inv (s : t) (ins : list Sqe) (W R gh gt : list nat) (acq ct : nat) : Prop := {
  i_ring : spsc b mask (m s) ins W R gh gt acq ct;
  i_tail : tail s = word b (length (pushed s));
  i_khead : khead s = word b (length R);
  i_kseen : kseen s = word b ct;
  i_taken : taken s = take (length R) ins;
  i_sent g : g ∈ gt -> (g <= length (pushed s))%nat;
  i_user : user_ok ins (pushed s) (tail s) acq (cur s)
}.

Definition good (s : t) : Prop := exists ins W R gh gt acq ct, inv s ins W R gh gt acq ct.

Lemma sq_init_good arr : ring_shape arr mask -> good (init arr).
Proof.
  intros Hs. exists [], [], [], [0%nat], [0%nat], 0%nat, 0%nat. split; try done.
  - by apply at_rest_spsc.
  - intros g ->%list_elem_of_singleton. done.
Qed.

(** One access of the call in progress. *)
Lemma sq_access_ok c pr pr' m m' ins pu tl W R gh gt acq ct :
  access P pr m pr' m' -> spsc b mask m ins W R gh gt acq ct ->
  tl = word b (length pu) -> (forall g, g ∈ gt -> (g <= length pu)%nat) ->
  user_ok ins pu tl acq (Some (c, pr)) ->
  exists ins' W' gt' acq', spsc b mask m' ins' W' R gh gt' acq' ct /\
    (forall g, g ∈ gt' -> (g <= length pu)%nat) /\
    take (length R) ins' = take (length R) ins /\ user_ok ins' pu tl acq' (Some (c, pr')).
Proof.
  intros Ha Hs Htl Hg Hu. pose proof (sp_ins _ _ _ _ _ _ _ _ _ _ Hs) as HW.
  pose proof (consumed_le _ _ _ _ _ _ _ _ _ _ Hs) as Hct.
  pose proof (sp_below _ _ _ _ _ _ _ _ _ _ Hs) as HR.
  destruct Hu as [[-> ->]|[(e & -> & -> & Hroom & ->)|[(e & -> & -> & ->)|[(r & -> & -> & Hr)|
    [(-> & -> & ->)|(-> & -> & ->)]]]]]; try by inversion Ha.
  - destruct c as [e| |]; inversion Ha; subst.
    + (* the head *)
      match goal with Hl : load _ _ _ _ _ = _ |- _ =>
        destruct (producer_acquires _ _ _ _ _ _ _ _ _ _ _ _ _ Hl Hs) as (g & -> & Hge & Hs') end.
      destruct (ring_shape_cap _ _ (sp_shape _ _ _ _ _ _ _ _ _ _ Hs)) as [Hcap _].
      pose proof (sp_room _ _ _ _ _ _ _ _ _ _ Hs) as Hroom.
      exists pu, W, gt, g. split_and!; try done. clear Ha.
      rewrite word_add, word_sub by lia. destruct (_ >? _) eqn:Hf.
      * right; right; right; left. eexists. by split_and!.
      * right; left. exists e. split_and!; try done; [rewrite Z.gtb_ltb in Hf; apply Z.ltb_ge in Hf; lia|].
        by rewrite word_add.
    + (* the tail, published *)
      exists pu, W, (gt ++ [length W]), acq. rewrite <- HW.
      split_and!; try done; [by apply producer_publishes| |].
      * intros g [Hin| ->%list_elem_of_singleton]%elem_of_app; [rewrite HW; by apply Hg|lia].
      * right; right; right; left. eexists. by split_and!.
    + exists pu, W, (gt ++ [length W]), acq. rewrite <- HW.
      split_and!; try done; [by apply producer_publishes| |].
      * intros g [Hin| ->%list_elem_of_singleton]%elem_of_app; [rewrite HW; by apply Hg|lia].
      * right; right; right; right; left. by split_and!.
  - inversion Ha; subst.
    destruct (producer_writes _ _ e _ _ _ _ _ _ _ _ Hs Hroom) as [k Hs'].
    exists (pu ++ [e]), (W ++ [k]), gt, acq. split_and!; try done.
    + apply take_app_le. lia.
    + right; right; left. exists e. by split_and!.
  - inversion Ha; subst. exists pu, W, gt, acq. split_and!; try done; [by eapply load_views|].
    destruct (negb _).
    + by do 5 right.
    + right; right; right; left. eexists. by split_and!.
Qed.

Lemma sq_step_good s s' : step s s' -> good s -> good s'.
Proof.
  intros Hstep (ins & W & R & gh & gt & acq & ct & Hi).
  destruct Hstep; destruct Hi as [Hr Htl Hkh Hks Hta Hse Hus]; cbn in *; subst.
  - exists pu, W, R, gh, gt, acq, ct. split; try done. by left.
  - edestruct sq_access_ok as (ins' & W' & gt' & acq' & ? & ? & ? & ?); [done..|].
    exists ins', W', R, gh, gt', acq', ct. split; done.
  - exists ins, W, R, gh, gt, acq, ct. split; try done. cbn.
    destruct Hus as [[-> Hp]|[(e & -> & -> & _ & Hp)|[(e & -> & -> & Hp)|[(r' & Hp & -> & Ha)|
      [(-> & -> & Hp)|(-> & -> & Hp)]]]]]; try done; [by destruct c|].
    injection Hp as -> -> -> ->. right; right; right; left. by eexists.
  - exists ins, W, R, gh, gt, acq, ct.
    destruct Hus as [[-> Hp]|[(e & -> & -> & _ & Hp)|[(e & -> & -> & Hp)|[(r' & Hp & -> & Ha)|
      [(-> & -> & Hp)|(-> & -> & Hp)]]]]]; try done; [by destruct c| |].
    + injection Hp as -> ->. split; cbn; try done.
      * by rewrite length_app, word_add, Nat.add_1_r.
      * intros g Hg%Hse. rewrite length_app. lia.
    + injection Hp as -> ->. rewrite Ha, app_nil_r. split; cbn; done.
  - match goal with Hl : load _ _ _ _ _ = _ |- _ =>
      destruct (consumer_acquires _ _ _ _ _ _ _ _ _ _ _ _ _ Hl Hr) as (g & -> & _ & Hr') end.
    by exists ins, W, R, gh, gt, acq, g.
  - pose proof (sp_below _ _ _ _ _ _ _ _ _ _ Hr) as HR.
    assert (length R <> ct) by congruence.
    destruct (consumer_reads _ _ _ _ _ _ _ _ _ _ Hr ltac:(lia)) as (k & He & Hr').
    exists ins, W, (R ++ [k]), gh, gt, acq, ct. split; cbn; try done.
    + by rewrite length_app, word_add, Nat.add_1_r.
    + rewrite length_app, Nat.add_1_r. symmetry. by apply take_S_r.
  - exists ins, W, R, (gh ++ [length R]), gt, acq, ct. split; try done. by apply consumer_publishes.
  - exists ins, W, R, gh, gt, acq, ct. split; try done. by apply spsc_fence, spsc_flags.
  - match goal with Hl : load _ _ _ _ _ = _ |- _ =>
      destruct (consumer_acquires _ _ _ _ _ _ _ _ _ _ _ _ _ Hl Hr) as (g & Hg & _ & Hr') end.
    by exists ins, W, R, gh, gt, acq, g.
  - match goal with Hl : load _ _ _ _ _ = _ |- _ =>
      destruct (consumer_acquires _ _ _ _ _ _ _ _ _ _ _ _ _ Hl Hr) as (g & -> & _ & Hr') end.
    exists ins, W, R, gh, gt, acq, g. split; try done. by apply spsc_flags.
Qed.
Lemma sq_reachable_good arr s : ring_shape arr mask -> reachable arr s -> good s.
Proof.
  intros Hs Hr. apply sq_init_good in Hs. revert Hs.
  induction Hr; intros Hg; [done|]. eauto using sq_step_good.
Qed.
End System.
End Sq.

(** ** The completion ring *)
Module Cq.
Inductive call : Set := Complete | SyncCq.

Section System.
Variables (b mask : Z).
Definition start (c : call) (head : Z) : prog Cqe (option Completion * Z) :=
  match c with Complete => complete_prog mask head | SyncCq => flush_cq_head_prog head end.
(** The memory; the handle's local head; the call in progress; the kernel's own
    tail and the head it last saw; the completions posted, and what the finished
    calls of `complete` returned. *)
Record t : Type := mk {
  m : wm Cqe; head : Z; cur : option (call * prog Cqe (option Completion * Z));
  ktail : Z; kseen : Z; posted : list Cqe; reaped : list Completion
}.
Definition init (arr : list Cqe) : t :=
  mk (at_rest b arr) (word b 0) None (word b 0) (word b 0) [] [].

Inductive step : t -> t -> Prop :=
| u_call c m h kt ks po re :
    step (mk m h None kt ks po re) (mk m h (Some (c, start c h)) kt ks po re)
| u_access c pr m h kt ks po re pr' m' :
    access C pr m pr' m' ->
    step (mk m h (Some (c, pr)) kt ks po re) (mk m' h (Some (c, pr')) kt ks po re)
| u_return c r h' m h kt ks po re :
    step (mk m h (Some (c, Ret (r, h'))) kt ks po re) (mk m h' None kt ks po (re ++ option_list r))
(** The kernel looks at the head, posts where that leaves room, and publishes. *)
| k_acquire i x m h cu kt ks po re m' :
    load P Acquire Head i m = Some (x, m') ->
    step (mk m h cu kt ks po re) (mk m' h cu kt x po re)
| k_post c m h cu kt ks po re :
    u32_sub kt ks < mask + 1 ->
    step (mk m h cu kt ks po re)
      (mk (cell_write (slot mask kt) c m) h cu (u32_add kt 1) ks (po ++ [c]) re)
| k_publish m h cu kt ks po re :
    step (mk m h cu kt ks po re) (mk (store P Release Tail kt m) h cu kt ks po re).
Definition reachable (arr : list Cqe) (s : t) : Prop := rtc step (init arr) s.

(** How many completions have been read ([n]) against how many calls returned. *)
Definition user_ok (po : list Cqe) (re : list Completion) (hd : Z) (n ct : nat)
    (cu : option (call * prog Cqe (option Completion * Z))) : Prop :=
  match cu with
  | None => n = length re
  | Some (c, pr) =>
      (n = length re /\ pr = start c hd) \/
      (n = length re /\ (n < ct)%nat /\ pr = Read (slot mask hd)
         (fun cqe => Ret (Some (completion_of cqe), u32_add hd 1))) \/
      (n = S (length re) /\ exists e, po !! length re = Some e /\
         pr = Ret (Some (completion_of e), u32_add hd 1)) \/
      (n = length re /\ pr = Ret (None, hd))
  end.
Record inv (s : t) (W R gh gt : list nat) (acq ct : nat) : Prop := {
  i_ring : spsc b mask (m s) (posted s) W R gh gt acq ct;
  i_head : head s = word b (length (reaped s));
  i_ktail : ktail s = word b (length (posted s));
  i_kseen : kseen s = word b acq;
  i_reaped : reaped s = completion_of <$> take (length (reaped s)) (posted s);
  i_given g : g ∈ gh -> (g <= length (reaped s))%nat;
  i_user : user_ok (posted s) (reaped s) (head s) (length R) ct (cur s)
}.
Definition good (s : t) : Prop := exists W R gh gt acq ct, inv s W R gh gt acq ct.

Lemma cq_init_good arr : ring_shape arr mask -> good (init arr).
Proof.
  intros Hs. exists [], [], [0%nat], [0%nat], 0%nat, 0%nat. split; try done; [by apply at_rest_spsc|].
  by intros g ->%list_elem_of_singleton.
Qed.

Lemma cq_access_ok c pr pr' m m' po re hd W R gh gt acq ct :
  access C pr m pr' m' -> spsc b mask m po W R gh gt acq ct -> hd = word b (length re) ->
  (forall g, g ∈ gh -> (g <= length re)%nat) ->
  user_ok po re hd (length R) ct (Some (c, pr)) ->
  exists R' gh' ct', spsc b mask m' po W R' gh' gt acq ct' /\
    (forall g, g ∈ gh' -> (g <= length re)%nat) /\ user_ok po re hd (length R') ct' (Some (c, pr')).
Proof.
  intros Ha Hs Hhd Hg Hu. pose proof (consumed_le _ _ _ _ _ _ _ _ _ _ Hs) as Hct.
  destruct Hu as [[Hn ->]|[(Hn & Hlt & ->)|[(Hn & e & He & ->)|(Hn & ->)]]]; try by inversion Ha.
  - destruct c; inversion Ha; subst.
    + match goal with Hl : load _ _ _ _ _ = _ |- _ =>
        destruct (consumer_acquires _ _ _ _ _ _ _ _ _ _ _ _ _ Hl Hs) as (g & -> & ? & Hs') end.
      exists R, gh, g. split; [done|]. split; [done|]. clear Ha.
      destruct (_ =? _) eqn:Heq; [right; right; by right|]. right; left. split_and!; try done.
      pose proof (sp_below _ _ _ _ _ _ _ _ _ _ Hs).
      assert (length R <> g); [|lia]. intros Hx. rewrite <- Hn, Hx, Z.eqb_refl in Heq. done.
    + exists R, (gh ++ [length R]), ct. split_and!.
      * rewrite <- Hn. by apply consumer_publishes.
      * intros g [Hin| ->%list_elem_of_singleton]%elem_of_app; [by apply Hg|lia].
      * by do 3 right.
  - inversion Ha; subst. rewrite <- Hn.
    destruct (consumer_reads _ _ _ _ _ _ _ _ _ _ Hs Hlt) as (k & He & Hs').
    exists (R ++ [k]), gh, ct. split; [done|]. split; [rewrite Hn; done|]. right; right; left.
    rewrite length_app, Nat.add_1_r, Hn. split; [done|]. rewrite Hn in He. by eexists.
Qed.
Lemma cq_step_good s s' : step s s' -> good s -> good s'.
Proof.
  intros Hstep (W & R & gh & gt & acq & ct & Hi).
  destruct Hstep; destruct Hi as [Hr Hh Hkt Hks Hre Hgi Hus]; cbn in *.
  - exists W, R, gh, gt, acq, ct. split; try done. by left.
  - edestruct cq_access_ok as (R' & gh' & ct' & ? & ? & ?); [done..|].
    by exists W, R', gh', gt, acq, ct'.
  - exists W, R, gh, gt, acq, ct.
    destruct Hus as [[Hn Hp]|[(Hn & Hlt & Hp)|[(Hn & e & He & Hp)|(Hn & Hp)]]]; try done;
      [by destruct c| |]; injection Hp as -> ->; cbn.
    + split; cbn; try done; rewrite length_app, Nat.add_1_r; [| |intros g Hg%Hgi; lia|done].
      * by rewrite Hh, word_add.
      * rewrite (take_S_r _ _ _ He), fmap_app. cbn. by rewrite <- Hre.
    + rewrite app_nil_r. by split.
  - match goal with Hl : load _ _ _ _ _ = _ |- _ =>
      destruct (producer_acquires _ _ _ _ _ _ _ _ _ _ _ _ _ Hl Hr) as (g & -> & _ & Hr') end.
    by exists W, R, gh, gt, g, ct.
  - pose proof (sp_ins _ _ _ _ _ _ _ _ _ _ Hr) as HW.
    pose proof (known_le _ _ _ _ _ _ _ _ _ _ Hr). pose proof (consumed_le _ _ _ _ _ _ _ _ _ _ Hr).
    pose proof (sp_below _ _ _ _ _ _ _ _ _ _ Hr). pose proof (sp_room _ _ _ _ _ _ _ _ _ _ Hr).
    destruct (ring_shape_cap _ _ (sp_shape _ _ _ _ _ _ _ _ _ _ Hr)) as [Hc _].
    match goal with Hl : u32_sub _ _ < _ |- _ => rewrite Hkt, Hks, word_sub in Hl by lia end.
    destruct (producer_writes _ _ c _ _ _ _ _ _ _ _ Hr ltac:(lia)) as [k Hr'].
    exists (W ++ [k]), R, gh, gt, acq, ct. rewrite Hkt. split; cbn; try done.
    + by rewrite length_app, word_add, Nat.add_1_r.
    + rewrite take_app_le; [done|]. rewrite Hre, length_fmap, length_take. lia.
    + destruct cu as [[c' pr]|]; [|done].
      destruct Hus as [?|[?|[(Hn & e & He & ->)|?]]]; [by left|by right; left| |by do 3 right].
      right; right; left. split; [done|]. exists e. split; [|done]. by apply lookup_app_l_Some.
  - exists W, R, gh, (gt ++ [length W]), acq, ct. split; try done.
    rewrite Hkt, <- (sp_ins _ _ _ _ _ _ _ _ _ _ Hr). by apply producer_publishes.
Qed.
Lemma cq_reachable_good arr s : ring_shape arr mask -> reachable arr s -> good s.
Proof.
  intros Hs Hr. apply cq_init_good in Hs. revert Hs.
  induction Hr; intros Hg; [done|]. eauto using cq_step_good.
Qed.
End System.
End Cq.

(** C4. With SQPOLL the polling thread runs beside the program.  However the calls
    of `push`, `flush_sq_tail` and `submit_sqpoll` interleave with it access by
    access, and however stale the indices either side reads, no slot is ever
    written while it is read: the entries taken are the first of the entries
    pushed, in order, and never more than the capacity are outstanding. *)
Theorem submission_race_free b mask arr s :
  ring_shape arr mask -> Sq.reachable b mask arr s ->
  race (Sq.m s) = false /\ Sq.taken s `prefix_of` Sq.pushed s /\
  Z.of_nat (length (Sq.pushed s)) - Z.of_nat (length (Sq.taken s)) <= mask + 1.
Proof.
  intros Hs Hr. destruct (Sq.sq_reachable_good _ _ _ _ Hs Hr) as (ins & W & R & gh & gt & acq & ct & []).
  pose proof (known_le _ _ _ _ _ _ _ _ _ _ i_ring) as Hacq.
  pose proof (consumed_le _ _ _ _ _ _ _ _ _ _ i_ring) as Hct.
  assert (length R <= length (Sq.pushed s))%nat as HR.
  { destruct (sp_c_seen _ _ _ _ _ _ _ _ _ _ i_ring) as (t & _ & Ht).
    pose proof (i_sent ct ltac:(by eapply list_elem_of_lookup_2)).
    pose proof (sp_below _ _ _ _ _ _ _ _ _ _ i_ring). lia. }
  assert (Sq.pushed s `prefix_of` ins) as [rest Hp].
  { unfold Sq.user_ok in i_user. destruct (Sq.cur s) as [[c pr]|]; [|by exists []; rewrite app_nil_r].
    destruct i_user as [[-> _]|[(e & _ & -> & _)|[(e & _ & -> & _)|[(r & _ & -> & _)|
      [(_ & -> & _)|(_ & -> & _)]]]]]; try (by exists []; rewrite app_nil_r). by exists [e]. }
  split; [apply i_ring|]. rewrite i_taken, Hp, take_app_le by done. split.
  - exists (drop (length R) (Sq.pushed s)). by rewrite take_drop.
  - rewrite length_take, Nat.min_l by done. pose proof (sp_room _ _ _ _ _ _ _ _ _ _ i_ring).
    pose proof (sp_ins _ _ _ _ _ _ _ _ _ _ i_ring) as HW. rewrite Hp, length_app in HW. lia.
Qed.

(** C5. On the completion side the kernel posts from any context.  However its
    posts interleave with the calls of `complete` and `sync_cq` access by access,
    and however stale the indices, no entry is overwritten while it is read: the
    completions reaped are the first of those posted, in order, and the kernel is
    never more than the capacity ahead. *)
Theorem completion_race_free b mask arr s :
  ring_shape arr mask -> Cq.reachable b mask arr s ->
  race (Cq.m s) = false /\ Cq.reaped s `prefix_of` (completion_of <$> Cq.posted s) /\
  Z.of_nat (length (Cq.posted s)) - Z.of_nat (length (Cq.reaped s)) <= mask + 1.
Proof.
  intros Hs Hr. destruct (Cq.cq_reachable_good _ _ _ _ Hs Hr) as (W & R & gh & gt & acq & ct & []).
  pose proof (consumed_le _ _ _ _ _ _ _ _ _ _ i_ring) as Hct.
  pose proof (sp_room _ _ _ _ _ _ _ _ _ _ i_ring) as Hroom.
  pose proof (sp_ins _ _ _ _ _ _ _ _ _ _ i_ring) as HW.
  split; [apply i_ring|]. split.
  - rewrite i_reaped. exists (completion_of <$> drop (length (Cq.reaped s)) (Cq.posted s)).
    by rewrite <- fmap_app, take_drop.
  - destruct (sp_p_seen _ _ _ _ _ _ _ _ _ _ i_ring) as (t & _ & Ht).
    pose proof (i_given acq ltac:(by eapply list_elem_of_lookup_2)). lia.
Qed.

(** C36. A wakeup can be lost.  On any ring, one entry is pushed and published by
    `submit_sqpoll` while the polling thread parks.  The thread's last look misses
    the store of the tail, the program's load misses the flag: `submit_sqpoll`
    returns `Ok` without entering the kernel, the thread sleeps with the entry in
    the queue, and nothing happens until the program calls again.  No full fence
    separates the store of the tail from the load of the flag word. *)
Theorem sqpoll_lost_wakeup b mask arr sqe :
  ring_shape arr mask ->
  exists s, Sq.reachable b mask arr s /\
    Sq.returns s = [(Sq.Push sqe, Ok tt); (Sq.Sqpoll, Ok tt)] /\ Sq.cur s = None /\
    Sq.pushed s = [sqe] /\ Sq.taken s = [] /\
    last (hist (Sq.m s) Tail).*1 = Some (word b 1) /\ Sq.ph s = Sq.Asleep /\
    (forall s', Sq.step mask s s' -> Sq.taken s' = [] /\ Sq.ph s' = Sq.Asleep /\ Sq.cur s' <> None).
Proof.
  intros Hs. destruct (ring_shape_cap _ _ Hs) as [Hc _].
  assert (u32_sub (u32_add (word b 0) 1) (word b 0) >? mask + 1 = false) as Hroom.
  { rewrite word_add, word_sub by lia. rewrite Z.gtb_ltb. apply Z.ltb_ge. lia. }
  eexists. split.
  - unfold Sq.reachable, Sq.init. eapply rtc_l; [apply (Sq.u_call _ (Sq.Push sqe))|].
    eapply rtc_l; [eapply Sq.u_access; apply (a_load P _ _ _ 0%nat); apply load_at; [reflexivity|cbn; lia]|]. cbv beta zeta. rewrite Hroom.
    eapply rtc_l; [eapply Sq.u_access; by apply a_write|]. eapply rtc_l; [apply Sq.u_return|].
    eapply rtc_l; [apply (Sq.u_call _ Sq.Sqpoll)|].
    eapply rtc_l; [eapply Sq.u_access; apply a_store|].
    eapply rtc_l; [apply Sq.k_park|].
    eapply rtc_l; [apply (Sq.k_sleep _ 0%nat); apply load_at; [reflexivity|cbn; lia]|].
    eapply rtc_l; [eapply Sq.u_access; apply (a_load P _ _ _ 0%nat); apply load_at; [reflexivity|cbn; lia]|].
    eapply rtc_l; [apply Sq.u_return|]. apply rtc_refl.
  - cbn. rewrite word_add. split_and!; try done. intros s' Hst. by inversion Hst.
Qed.

(** The missing fence is all that is missing.  Were `submit_sqpoll` to store the
    tail, fence, and only then load the flag word, then, whichever of the two
    fences comes first and whatever happens around them, the thread's last look
    finds that tail or a later one, or the program's load finds the flag raised or
    what was stored over it. *)
Lemma fence_repairs tail (m1 m2 m3 : wm Sqe) :
  (grows (fence P (store P Release Tail tail m1)) m2 ->
   grows (fence C (store C Release KFlags IORING_SQ_NEED_WAKEUP m2)) m3 ->
   forall t r, load C Acquire Tail t m3 = Some r -> (length (hist m1 Tail) <= t)%nat) /\
  (grows (fence C (store C Release KFlags IORING_SQ_NEED_WAKEUP m1)) m2 ->
   grows (fence P (store P Release Tail tail m2)) m3 ->
   forall t r, load P Acquire KFlags t m3 = Some r -> (length (hist m1 KFlags) <= t)%nat).
Proof. split; intros G1 G2 t r Hl; exact (fences_meet _ _ _ _ _ _ _ _ _ _ _ _ _ _ G1 G2 Hl). Qed.

(** ** Concrete runs *)
Definition four {E} (e : E) : list E := replicate 4 e.
Lemma four_shape {E} (e : E) : ring_shape (four e) 3.
Proof. by exists 2. Qed.
(** An entry pushed and published at the wrap of the indices, then taken. *)
Lemma taken_run : exists s, Sq.reachable (2 ^ 32 - 1) 3 (four NetOps.nop) s /\
  Sq.taken s = [NetOps.nop] /\ Sq.pushed s = [NetOps.nop].
Proof.
  eexists. split; [unfold Sq.reachable, Sq.init|].
  - eapply rtc_l; [apply (Sq.u_call _ (Sq.Push NetOps.nop))|].
    eapply rtc_l; [eapply Sq.u_access; apply (a_load P _ _ _ 0%nat); apply load_at; [reflexivity|cbn; lia]|].
    eapply rtc_l; [eapply Sq.u_access; by apply a_write|]. eapply rtc_l; [apply Sq.u_return|].
    eapply rtc_l; [apply (Sq.u_call _ Sq.Publish)|].
    eapply rtc_l; [eapply Sq.u_access; apply a_store|]. eapply rtc_l; [apply Sq.u_return|].
    eapply rtc_l; [apply (Sq.k_acquire _ 1%nat); apply load_at; [reflexivity|cbn; lia]|].
    eapply rtc_l; [by apply Sq.k_take|]. apply rtc_refl.
  - by split.
Qed.
Lemma reaped_run : exists s, Cq.reachable (2 ^ 32 - 1) 3 (four (mkCqe 0 0 0)) s /\
  Cq.reaped s = [mkCompletion 7 (-2) 0] /\ Cq.posted s = [mkCqe 7 (-2) 0].
Proof.
  eexists. split; [unfold Cq.reachable, Cq.init|].
  - eapply rtc_l; [by apply (Cq.k_post _ (mkCqe 7 (-2) 0))|]. eapply rtc_l; [apply Cq.k_publish|].
    eapply rtc_l; [apply (Cq.u_call _ Cq.Complete)|].
    eapply rtc_l; [eapply Cq.u_access; apply (a_load C _ _ _ 1%nat); apply load_at; [reflexivity|cbn; lia]|].
    eapply rtc_l; [eapply Cq.u_access; by apply a_read|].
    eapply rtc_l; [apply Cq.u_return|]. apply rtc_refl.
  - by split.
Qed.
Lemma submission_race_free_witness : exists s,
  Sq.taken s = [NetOps.nop] /\ race (Sq.m s) = false /\ Sq.taken s `prefix_of` Sq.pushed s.
Proof.
  destruct taken_run as (s & Hr & Ht & Hp). exists s. split; [done|].
  destruct (submission_race_free _ _ _ s (four_shape _) Hr) as (? & ? & _). by split.
Defined.
Lemma completion_race_free_witness : exists s,
  Cq.reaped s = [mkCompletion 7 (-2) 0] /\ race (Cq.m s) = false.
Proof.
  destruct reaped_run as (s & Hr & Ht & Hp). exists s. split; [done|].
  by destruct (completion_race_free _ _ _ s (four_shape _) Hr) as (? & _).
Defined.
Lemma sqpoll_lost_wakeup_witness : exists s,
  Sq.reachable 0 3 (four NetOps.nop) s /\ Sq.ph s = Sq.Asleep /\ Sq.pushed s = [NetOps.nop] /\ Sq.taken s = [].
Proof.
  destruct (sqpoll_lost_wakeup 0 3 (four NetOps.nop) NetOps.nop (four_shape _))
    as (s & ? & _ & _ & ? & ? & _ & ? & _). by exists s.
Defined.
