(* ===== verification/RingOps.v ===== *)
(** * The synchronous operations (ring/ops.rs)

    `run_one` pushes one tagged entry, waits, and reaps until it sees its own
    tag.  Its loop runs until the kernel delivers, so it takes fuel here;
    [run_one_terminates] bounds the fuel by the completions the kernel can
    still post. *)
From stdpp Require Import base numbers list option relations.
From Stdlib Require Import ZArith Lia.
From S2P Require Import Prelude Flags Types RingIndex Sqe SqeFile SqeNet Kernel Ring RingSpec.
From S2P Require Import RingCorrect RingTrace.
Local Open Scope Z_scope.
Local Open Scope rust_scope.

(* src/src/ring/ops.rs:41-41 IoUring::DO_TAG_MARKER *)
Definition DO_TAG_MARKER : Z := 1 <<< 63.
(* src/src/ring/ops.rs:44-48 IoUring::next_do_tag *)
Definition next_do_tag (r : IoUring.t) : Z * IoUring.t :=
  let tag := IoUring.do_tag_next r in
  (tag, IoUring.set_do_tag_next
    (DO_TAG_MARKER ||| (as_u64 (tag + 1) &&& not_flags 64 DO_TAG_MARKER)) r).

Section Ops.
  Context {K : Type} `{HK : Kernel K}.
  Notation St := (Sys IoUring.t K).

(** The body of the `loop`; [None] when the fuel runs out. *)
(* src/src/ring/ops.rs:82-104 IoUring::run_one (loop) *)
Fixpoint run_one_loop (fuel : nat) (tag : Z) (stray : option Z) (s : St)
  : option (result Z Error * St) :=
  match fuel with
  | O => None
  | S fuel =>
      match IoUring.complete s with
      | (None, s) => Some (Err (Completion_ NoCompletion), s)
      | (Some completion, s) =>
          if c_user_data completion =? tag then
            Some (match stray with
                  | None => into_result completion
                  | Some found => Err (Completion_ (UnexpectedCompletion tag found))
                  end, s)
          else
            let stray := match stray with
                         | Some d => Some d
                         | None => Some (c_user_data completion)
                         end in
            match IoUring.submit_and_wait 1 s with
            | (Err e, s) => Some (Err e, s)
            | (Ok _, s) => run_one_loop fuel tag stray s
            end
      end
  end.

(* src/src/ring/ops.rs:77-105 IoUring::run_one *)
Definition run_one (fuel : nat) (sqe : Sqe) (s : St) : option (result Z Error * St) :=
  let '(tag, r) := next_do_tag (hd s) in
  let s := mkSys r (mem s) (kern s) in
  match IoUring.push (Modifiers.with_user_data sqe tag) s with
  | (Err e, s) => Some (Err e, s)
  | (Ok _, s) =>
      match IoUring.submit_and_wait 1 s with
      | (Err e, s) => Some (Err e, s)
      | (Ok _, s) => run_one_loop fuel tag None s
      end
  end.

(** The public operations; a buffer is its address and length. *)
(* src/src/ring/ops.rs:118-124 IoUring::do_read *)
Definition do_read fuel fd (buf : Slice) offset := run_one fuel (FileOps.read fd buf offset).
(* src/src/ring/ops.rs:131-135 IoUring::do_write *)
Definition do_write fuel fd (buf : Slice) offset := run_one fuel (FileOps.write fd buf offset).
(* src/src/ring/ops.rs:142-152 IoUring::do_openat *)
Definition do_openat fuel dfd path flags mode :=
  run_one fuel (FileOps.openat dfd path flags mode).
(* src/src/ring/ops.rs:159-161 IoUring::do_close *)
Definition do_close fuel fd := run_one fuel (FileOps.close fd).
(* src/src/ring/ops.rs:168-172 IoUring::do_send *)
Definition do_send fuel fd (buf : Slice) flags := run_one fuel (NetOps.send fd buf flags).
(* src/src/ring/ops.rs:179-183 IoUring::do_recv *)
Definition do_recv fuel fd (buf : Slice) flags := run_one fuel (NetOps.recv fd buf flags).
(* src/src/ring/ops.rs:191-193 IoUring::do_accept *)
Definition do_accept fuel fd flags := run_one fuel (NetOps.accept fd flags).
(* src/src/ring/ops.rs:200-212 IoUring::do_statx *)
Definition do_statx fuel dfd path flags mask statx_buf :=
  run_one fuel (FileOps.statx dfd path flags mask statx_buf).
(* src/src/ring/ops.rs:219-221 IoUring::do_fsync *)
Definition do_fsync fuel fd flags := run_one fuel (FileOps.fsync fd flags).
End Ops.

(** ** Tags *)
(** The [n]-th tag minted after [r]. *)
Fixpoint nth_do_tag (n : nat) (r : IoUring.t) : Z :=
  match n with
  | O => fst (next_do_tag r)
  | S n => nth_do_tag n (snd (next_do_tag r))
  end.

Lemma marker_split z : in_u 63 z -> DO_TAG_MARKER ||| z = 2 ^ 63 + z.
Proof.
  intros Hz. unfold DO_TAG_MARKER. pose proof (Z.add_lor_land (1 <<< 63) z) as Hs.
  assert ((1 <<< 63) &&& z = 0) as Hl; [|change (1 <<< 63) with (2 ^ 63) in *; lia].
  apply Z.bits_inj'. intros n Hn. rewrite Z.land_spec, Z.bits_0, Z.shiftl_spec by lia.
  destruct (decide (n < 63)); [by rewrite Z.testbit_neg_r by lia|].
  rewrite (in_u_testbit 63 z n) by (done || lia). apply andb_false_r.
Qed.

Lemma drop_marker z : as_u64 z &&& not_flags 64 DO_TAG_MARKER = wrap 63 z.
Proof.
  unfold not_flags, DO_TAG_MARKER.
  change (wrap 64 (Z.lnot (1 <<< 63))) with (2 ^ 63 - 1). rewrite land_mask_mod by lia.
  apply (wrap_narrow 63 64). lia.
Qed.

Lemma nth_do_tag_value n r j :
  IoUring.do_tag_next r = 2 ^ 63 + wrap 63 j ->
  nth_do_tag n r = 2 ^ 63 + wrap 63 (j + Z.of_nat n).
Proof.
  revert r j. induction n as [|n IH]; intros r j Hr; cbn [nth_do_tag next_do_tag fst snd].
  - by rewrite Z.add_0_r.
  - rewrite (IH _ (j + 1)); [do 2 f_equal; lia|]. cbn [IoUring.do_tag_next IoUring.set_do_tag_next].
    rewrite drop_marker, marker_split by (by apply wrap_range). f_equal. rewrite Hr.
    replace (2 ^ 63 + wrap 63 j + 1) with (wrap 63 j + 1 + 1 * 2 ^ 63) by lia.
    unfold wrap at 1. rewrite Z_mod_plus_full. apply wrap_add_l.
Qed.

(** Starting from the initial `do_tag_next`, every tag the synchronous
    operations mint has the marker bit, fits in 64 bits, and no tag repeats
    within [2 ^ 63] consecutive operations. *)
Theorem do_tags_distinct r i j :
  IoUring.do_tag_next r = DO_TAG_MARKER ->
  0 <= Z.of_nat i < 2 ^ 63 -> 0 <= Z.of_nat j < 2 ^ 63 ->
  Z.testbit (nth_do_tag i r) 63 = true /\ in_u 64 (nth_do_tag i r) /\
  (nth_do_tag i r = nth_do_tag j r -> i = j).
Proof.
  intros Hr Hi Hj.
  rewrite (nth_do_tag_value i r 0), (nth_do_tag_value j r 0) by exact Hr.
  rewrite !Z.add_0_l, !wrap_small by exact Hi || exact Hj.
  change (2 ^ 63) with 9223372036854775808 in *. split_and!; [|split; [lia|]|lia].
  - change 9223372036854775808 with (2 ^ 63). rewrite <- marker_split by exact Hi.
    unfold DO_TAG_MARKER. by rewrite Z.lor_spec.
  - change (2 ^ 64) with 18446744073709551616. lia.
Qed.

Lemma do_tags_distinct_witness :
  IoUring.do_tag_next (hd demo) = DO_TAG_MARKER /\
  (nth_do_tag 5 (hd demo) = nth_do_tag 9 (hd demo) -> 5%nat = 9%nat).
Proof.
  split; [reflexivity|].
  exact (proj2 (proj2 (do_tags_distinct (hd demo) 5 9 eq_refl ltac:(lia) ltac:(lia)))).
Defined.

(** ** What a synchronous operation returns *)
Section Outcomes.
  Context {K : Type} `{HK : Kernel K} `{HL : !KernelLaws K}.
  Notation St := (Sys IoUring.t K).

(** The completions a run reaped: strays, then the operation's own, if any. *)
Record reaps (tag : Z) (g g' : Hist) (strays own : list Completion) : Prop := {
  rp_reaped : reaped g' = reaped g ++ strays ++ own;
  rp_strays : Forall (fun c => c_user_data c <> tag) strays;
  rp_own : Forall (fun c => c_user_data c = tag) own
}.

Definition outcome_of (tag : Z) (strays own : list Completion) (s' : St)
  (r : result Z Error) : Prop :=
  match r with
  | Ok n => exists c, strays = [] /\ own = [c] /\ into_result c = Ok n
  | Err (Completion_ (Failed e)) =>
      exists c, strays = [] /\ own = [c] /\ into_result c = Err (Completion_ (Failed e))
  | Err (Completion_ (UnexpectedCompletion expected found)) =>
      expected = tag /\ exists c0 rest c, strays = c0 :: rest /\ own = [c] /\ c_user_data c0 = found
  | Err (Completion_ NoCompletion) => own = [] /\ available s' = []
  | Err (Syscall _) => own = []
  | Err _ => False
  end.

Lemma outcome_own tag (c : Completion) (s' : St) :
  outcome_of tag [] [c] s' (into_result c).
Proof.
  unfold into_result. destruct (_ <? _) eqn:E; cbn; exists c; split_and!; try done;
    unfold into_result; by rewrite E.
Qed.

(** The loop from a state where [strays0] have been reaped. *)
Lemma run_one_loop_outcome fuel tag : forall strays0 stray s r s' g0 g,
  ring_wf s -> accounted s ->
  reaps tag g0 g strays0 [] -> stray = c_user_data <$> head strays0 ->
  run_one_loop fuel tag stray s = Some (r, s') ->
  ring_wf s' /\ accounted s' /\ exists g' strays own,
    rtc step (s, g) (s', g') /\ pushed g' = pushed g /\ reaps tag g0 g' strays own /\
    outcome_of tag strays own s' r.
Proof.
  induction fuel as [|fuel IH]; intros strays0 stray s r s' g0 g Hwf Hacc [Hr Hs _] Hst Hrun;
    [done|]. cbn [run_one_loop] in Hrun. rewrite app_nil_r in Hr.
  pose proof (complete_effect s Hwf) as Hc.
  destruct (IoUring.complete s) as [[c|] s1] eqn:Ec;
    destruct Hc as (Hw1 & _ & _ & _ & _ & Ha1 & Hav); specialize (Ha1 Hacc).
  - assert (rtc step (s, g) (s1, mkHist (pushed g) (consumed g) (posted g) (reaped g ++ [c])))
      as Hstep by (by apply rtc_once, SComplete).
    destruct (Z.eqb_spec (c_user_data c) tag) as [Htag|Htag].
    + simplify_eq. split_and!; try done. exists (mkHist (pushed g) (consumed g) (posted g)
        (reaped g ++ [c])), strays0, [c]. split_and!; try done.
      * split; [|done|by repeat constructor]. cbn. by rewrite Hr, <- app_assoc.
      * destruct strays0 as [|c0 rest]; cbn; [apply outcome_own|].
        split; [done|]. by exists c0, rest, c.
    + pose proof (wait_effect 1 s1 Hw1 Ha1) as Hsw.
      pose proof (submit_and_wait_steps 1 s1 (mkHist (pushed g) (consumed g) (posted g)
        (reaped g ++ [c])) Hw1 Ha1) as (g2 & Hst2 & Hq1 & Hq2). cbn in Hq1, Hq2.
      destruct (IoUring.submit_and_wait 1 s1) as [r2 s2].
      destruct Hsw as (Hw2 & Ha2 & _ & c2 & cs2 & _ & _ & _ & Hr2). cbn [snd] in Hst2.
      assert (reaps tag g0 g2 (strays0 ++ [c]) []) as Hreap.
      { split; [|apply Forall_app_2; [done|by repeat constructor]|done].
        by rewrite Hq2, Hr, app_nil_r, <- app_assoc. }
      destruct r2 as [n|e].
      * apply (IH (strays0 ++ [c]) _ _ _ _ g0 g2) in Hrun as (Hw' & Ha' & g' & st & own & H1 & H2 & H3);
          [|done..|by destruct strays0; subst].
        split_and!; try done. exists g', st, own. split_and!; try tauto; [|congruence].
        etrans; [exact Hstep|]. by etrans.
      * destruct Hr2 as (_ & e' & ->). simplify_eq. split_and!; try done.
        exists g2, (strays0 ++ [c]), []. split_and!; try done. by etrans.
  - simplify_eq. destruct (available s) eqn:Eav; [|by destruct Hav].
    destruct Hav as [_ ->]. split_and!; try done.
    exists g, strays0, []. split_and!; try done.
    split; [by rewrite app_nil_r|done..].
Qed.

(** C16. A synchronous operation reports a result only from its own
    completion.  `Ok n` or `Failed e` is the result of the entry it pushed,
    the one completion it reaped; a foreign completion in the way turns the
    answer into `UnexpectedCompletion` naming the first stray, after the own
    completion has arrived; in every other case (`QueueFull` apart, where
    nothing was pushed) the own completion has not been reaped. *)
Theorem run_one_outcomes fuel sqe s r s' g :
  ring_wf s -> accounted s -> run_one fuel sqe s = Some (r, s') ->
  let tag := IoUring.do_tag_next (hd s) in
  ring_wf s' /\ accounted s' /\ exists g' strays own,
    rtc step (s, g) (s', g') /\ reaps tag g g' strays own /\
    (r = Err (Submit QueueFull) /\ pushed g' = pushed g /\ reaped g' = reaped g \/
     pushed g' = pushed g ++ [Modifiers.with_user_data sqe tag] /\ outcome_of tag strays own s' r).
Proof.
  intros Hwf Hacc Hrun. cbv zeta. unfold run_one, next_do_tag in Hrun.
  set (tag := IoUring.do_tag_next (hd s)) in *.
  set (s0 := mkSys _ (mem s) (kern s)) in Hrun.
  assert (rtc step (s, g) (s0, g)) as H0 by (apply rtc_once; apply STag).
  assert (ring_wf s0) as Hwf0.
  { destruct Hwf as (h & t & l & k & ch & ct & [? ?]). by exists h, t, l, k, ch, ct. }
  assert (accounted s0) as Hacc0 by done.
  pose proof (push_effect (Modifiers.with_user_data sqe tag) s0 Hwf0) as Hp.
  destruct (IoUring.push _ s0) as [[[]|e] s1] eqn:Ep;
    destruct Hp as (Hw1 & _ & _ & _ & Ha1 & Hpush); specialize (Ha1 Hacc0).
  - pose proof (SPush _ _ _ g Ep) as Hstep.
    pose proof (wait_effect 1 s1 Hw1 Ha1) as Hsw.
    pose proof (submit_and_wait_steps 1 s1 (mkHist (pushed g ++ [Modifiers.with_user_data sqe tag])
      (consumed g) (posted g) (reaped g)) Hw1 Ha1) as (g2 & Hst2 & Hq1 & Hq2). cbn in Hq1, Hq2.
    destruct (IoUring.submit_and_wait 1 s1) as [r2 s2].
    destruct Hsw as (Hw2 & Ha2 & _ & c2 & cs2 & _ & _ & _ & Hr2). cbn [snd] in Hst2.
    assert (reaps tag g g2 [] []) as Hreap by (split; [by rewrite app_nil_r|done..]).
    assert (rtc step (s, g) (s2, g2)) as Hpre
      by (etrans; [exact H0|]; etrans; [by apply rtc_once|exact Hst2]).
    destruct r2 as [n|e].
    + apply (run_one_loop_outcome _ _ [] _ _ _ _ g g2) in Hrun
        as (Hw' & Ha' & g' & st & own & H1 & H2 & H3 & H4); [|done..].
      split_and!; try done. exists g', st, own. split_and!; try done; [by etrans|].
      right. split; [congruence|done].
    + destruct Hr2 as (_ & e' & ->). simplify_eq. split_and!; try done.
      exists g2, [], []. split_and!; try done. by right.
  - case_decide; [by destruct Hpush|]. destruct Hpush as (Hpush & -> & _). simplify_eq.
    split_and!; try done. exists g, [], []. split_and!; try done.
    + split; [by rewrite app_nil_r|done..].
    + by left.
Qed.

(** ** Termination *)
(** A kernel that can post at most [left k] more completions. *)
Context (left : K -> nat).
Definition posts_bounded : Prop := forall fd n min fl m k r m' k',
  io_uring_enter fd n min fl m k = (r, m', k') ->
  Z.of_nat (left k') + u32_sub (cq_ktail m') (cq_ktail m) <= Z.of_nat (left k).
Context (Hleft : posts_bounded).

(** What the loop can still reap. *)
Definition reapable (s : St) : nat := (length (available s) + left (kern s))%nat.

Lemma tail_of_available (s : St) :
  ring_wf s ->
  cq_ktail (mem s) = wrap 32 (IoUring.cq_head_local (hd s) + Z.of_nat (length (available s))).
Proof.
  intros (h & t & l & k & ch & ct & H). rewrite (available_length _ _ _ _ _ _ _ H).
  destruct H as [_ [_ _ Ht Hl _ _]]. rewrite Ht, Hl, wrap_add_l. f_equal. lia.
Qed.

Lemma enter_reapable fd n min fl (s s' : St) r :
  ring_wf s -> 0 <= n -> enter fd n min fl s = (r, s') ->
  (reapable s' <= reapable s)%nat.
Proof.
  intros Hwf Hn He. pose proof He as He'.
  eapply enter_effect in He' as (c & cs & [Hw Hh _ _ Ha _ _] & _); [|done..].
  unfold enter in He. destruct (io_uring_enter _ _ _ _ _ _) as [[r0 m'] k'] eqn:E.
  apply Hleft in E. simplify_eq. cbn [mem kern hd] in *. unfold reapable. cbn [kern].
  rewrite Ha, length_app. pose proof (tail_of_available _ Hw) as Ht'.
  pose proof (tail_of_available _ Hwf) as Ht. cbn [mem hd] in Ht'.
  rewrite Ha, length_app in Ht'.
  destruct Hw as (h & t & l & k & ch & ct & Hat). pose proof (available_length _ _ _ _ _ _ _ Hat) as Hl.
  destruct Hat as [_ [Hs _ _ _ Ho Hc]]. destruct (ring_shape_cap _ _ Hs) as [Hb _].
  rewrite Ha, length_app in Hl. change (2 ^ 31) with 2147483648 in Hb.
  assert (u32_sub (cq_ktail m') (cq_ktail (mem s)) = Z.of_nat (length cs)) as Hd; [|lia].
  apply wrap_distance.
  - rewrite Ht', Ht, wrap_add_l. f_equal. lia.
  - split; [lia|]. change (2 ^ 32) with 4294967296. lia.
Qed.

Lemma enter_counted_reapable fd n min fl (s : St) :
  ring_wf s -> 0 <= n ->
  (reapable (snd (enter_counted fd n min fl s)) <= reapable s)%nat.
Proof.
  intros Hwf Hn. unfold enter_counted, bind, modify, ret.
  destruct (enter _ _ _ _ s) as [r s1] eqn:En.
  apply enter_reapable in En; [|done..]. by destruct r.
Qed.

Lemma submit_and_wait_reapable min (s : St) :
  ring_wf s -> accounted s ->
  (reapable (snd (IoUring.submit_and_wait min s)) <= reapable s)%nat.
Proof.
  intros Hwf Hacc. rewrite submit_and_wait_run. cbv zeta.
  rewrite (to_submit_pending s Hwf Hacc).
  destruct (flush_head_effect s Hwf) as (Hwf0 & _ & _ & Ha0).
  destruct (flush_tail_effect _ Hwf0) as (Hwf2 & _ & _ & Ha1).
  assert (reapable (flush_tail (flush_head s)) = reapable s) as Hre
    by (unfold reapable; by rewrite Ha1, Ha0). rewrite <- Hre.
  assert (accounted (flush_tail (flush_head s))) as Hacc2 by done.
  destruct (IoUring.backpressure _).
  - unfold bind at 1. set (n := Z.of_nat _) in *. assert (0 <= n) as Hn by lia.
    pose proof (enter_account _ (IoUring.fd (hd s)) n 0 empty_flags Hwf2 Hacc2 Hn) as H1.
    pose proof (enter_counted_reapable (IoUring.fd (hd s)) n 0 empty_flags _ Hwf2 Hn) as H2.
    destruct (enter_counted _ _ 0 _ (flush_tail _)) as [r1 s2]. destruct H1 as (Hw3 & _).
    destruct r1; [|done]. cbn [snd] in H2. unfold bind.
    pose proof (enter_counted_reapable (IoUring.fd (hd s)) 0 min EnterFlags.GETEVENTS s2 Hw3
      ltac:(lia)) as H3.
    destruct (enter_counted _ 0 _ _ s2) as [[r2|e2] s3]; cbn [snd ret] in *; lia.
  - apply enter_counted_reapable; [done|lia].
Qed.

Lemma run_one_loop_terminates fuel tag : forall stray s,
  ring_wf s -> accounted s -> (reapable s < fuel)%nat ->
  exists r, run_one_loop fuel tag stray s = Some r.
Proof.
  induction fuel as [|fuel IH]; intros stray s Hwf Hacc Hf; [lia|].
  cbn [run_one_loop]. pose proof (complete_effect s Hwf) as Hc.
  destruct (IoUring.complete s) as [[c|] s1];
    destruct Hc as (Hw1 & _ & _ & _ & Hk & Ha1 & Hav); [|by eexists].
  specialize (Ha1 Hacc). destruct (_ =? _); [by eexists|].
  pose proof (submit_and_wait_reapable 1 s1 Hw1 Ha1) as Hre.
  pose proof (wait_effect 1 s1 Hw1 Ha1) as Hsw.
  destruct (IoUring.submit_and_wait 1 s1) as [r2 s2]. destruct Hsw as (Hw2 & Ha2 & _).
  destruct r2; [|by eexists]. apply IH; [done..|]. cbn [snd] in Hre.
  assert (reapable s1 < reapable s)%nat; [|lia].
  unfold reapable. rewrite Hk. destruct (available s) as [|c0 rest]; [by destruct Hav|].
  destruct Hav as [_ ->]. cbn. lia.
Qed.

(** C17. Every synchronous operation returns: if the kernel can still post at
    most [left k] completions, a fuel above that number plus the completions
    already waiting is enough for the loop, whatever the kernel's answers. *)
Theorem run_one_terminates fuel sqe s :
  ring_wf s -> accounted s -> (reapable s < fuel)%nat ->
  exists r s', run_one fuel sqe s = Some (r, s').
Proof.
  intros Hwf Hacc Hf. unfold run_one, next_do_tag.
  set (s0 := mkSys _ (mem s) (kern s)).
  assert (ring_wf s0) as Hwf0.
  { destruct Hwf as (h & t & l & k & ch & ct & [? ?]). by exists h, t, l, k, ch, ct. }
  pose proof (push_effect (Modifiers.with_user_data sqe (IoUring.do_tag_next (hd s))) s0
    Hwf0) as Hp.
  destruct (IoUring.push _ s0) as [[[]|e] s1];
    destruct Hp as (Hw1 & _ & Hav & Hk & Ha1 & _); [|by eauto].
  specialize (Ha1 Hacc). pose proof (submit_and_wait_reapable 1 s1 Hw1 Ha1) as Hre.
  pose proof (wait_effect 1 s1 Hw1 Ha1) as Hsw.
  destruct (IoUring.submit_and_wait 1 s1) as [[n|e] s2]; [|by eauto].
  destruct Hsw as (Hw2 & Ha2 & _). cbn [snd] in Hre.
  destruct (run_one_loop_terminates fuel (IoUring.do_tag_next (hd s)) None s2 Hw2 Ha2) as [[r s'] Hr].
  - unfold reapable in Hre. rewrite Hk, Hav in Hre. unfold reapable.
    unfold reapable in Hf. cbn [s0 kern] in Hre. change (available s0) with (available s) in Hre. lia.
  - by exists r, s'.
Qed.
End Outcomes.

Lemma toy_posts_bounded : posts_bounded (fun k : Toy => length (toy_results k)).
Proof.
  intros fd n min fl m k r m' k' He. unfold io_uring_enter, toy_kernel in He.
  set (c := Z.to_nat _) in He. set (cs := take _ _) in He. simplify_eq.
  cbn [toy_results]. rewrite length_drop.
  assert (length cs <= length (toy_results k))%nat as Hl.
  { subst cs. rewrite length_take. etrans; [apply Nat.le_min_r|].
    generalize (consumed_sqes c m). induction (toy_results k) as [|x xs IH]; intros [|e es];
      cbn; try lia. specialize (IH es). lia. }
  unfold kernel_activity, kernel_set_flags, kernel_post, kernel_consume, u32_sub, u32_add.
  cbn [cq_ktail]. rewrite wrap_sub_l.
  replace (cq_ktail m + Z.of_nat (length cs) - cq_ktail m) with (Z.of_nat (length cs)) by lia.
  assert (wrap 32 (Z.of_nat (length cs)) <= Z.of_nat (length cs)); [|lia].
  unfold wrap. apply Z.mod_le; lia.
Qed.

Lemma run_one_terminates_witness :
  posts_bounded (fun k : Toy => length (toy_results k)) /\ ring_wf demo /\ accounted demo /\
  exists r s', run_one 5 NetOps.nop demo = Some (r, s').
Proof.
  split; [exact toy_posts_bounded|]. split; [exact demo_wf|]. split; [reflexivity|].
  apply (run_one_terminates _ toy_posts_bounded 5 NetOps.nop demo demo_wf eq_refl).
  vm_compute. lia.
Defined.

Lemma run_one_outcomes_witness :
  exists s', run_one 5 NetOps.nop demo = Some (Ok 5, s') /\ ring_wf s'.
Proof.
  eexists. split; [vm_compute; reflexivity|].
  refine (proj1 (run_one_outcomes 5 NetOps.nop demo (Ok 5) _ no_history demo_wf eq_refl _)).
  vm_compute. reflexivity.
Defined.

(** ** An interrupted wait *)
Section Interrupted.
  Context {K : Type} `{HK : Kernel K} `{HL : !KernelLaws K}.
  Notation St := (Sys IoUring.t K).
(** The entry [run_one] pushes, and the ring as its wait enters the kernel. *)
Definition tagged_entry (sqe : Sqe) (s : St) : Sqe :=
  Modifiers.with_user_data sqe (IoUring.do_tag_next (hd s)).
Definition entering (sqe : Sqe) (s : St) : St :=
  let s0 := mkSys (snd (next_do_tag (hd s))) (mem s) (kern s) in
  flush_tail (flush_head (snd (IoUring.push (tagged_entry sqe s) s0))).

Lemma entering_effect sqe s :
  ring_wf s -> accounted s -> Z.of_nat (length (pending s)) < IoUring.sq_capacity (hd s) ->
  let s0 := mkSys (snd (next_do_tag (hd s))) (mem s) (kern s) in
  let s1 := snd (IoUring.push (tagged_entry sqe s) s0) in
  IoUring.push (tagged_entry sqe s) s0 = (Ok tt, s1) /\ ring_wf s1 /\ accounted s1 /\
  ring_wf (entering sqe s) /\ accounted (entering sqe s) /\
  pending s1 = pending s ++ [tagged_entry sqe s] /\ available s1 = available s /\
  pending (entering sqe s) = pending s ++ [tagged_entry sqe s] /\
  available (entering sqe s) = available s /\ IoUring.fd (hd s1) = IoUring.fd (hd s) /\
  sq_khead (mem (entering sqe s)) = sq_khead (mem s) /\
  IoUring.cq_head_local (hd (entering sqe s)) = IoUring.cq_head_local (hd s).
Proof.
  intros Hwf Hacc Hroom. cbv zeta. set (s0 := mkSys _ (mem s) (kern s)).
  assert (ring_wf s0) as Hwf0.
  { destruct Hwf as (h & t & l & k & ch & ct & [? ?]). by exists h, t, l, k, ch, ct. }
  pose proof (push_effect (tagged_entry sqe s) s0 Hwf0) as Hp.
  pose proof (push_run (tagged_entry sqe s) s0) as Hrun.
  unfold entering. fold s0. destruct (IoUring.push _ s0) as [r s1].
  destruct Hp as (Hw1 & _ & Ha1 & _ & Hacc1 & Hp). specialize (Hacc1 Hacc).
  case_decide as Hd; [|by destruct Hd]. destruct Hp as [-> Hp1]. cbn [snd].
  destruct (flush_head_effect s1 Hw1) as (Hw2 & Hp2 & _ & Ha2).
  destruct (flush_tail_effect _ Hw2) as (Hw3 & Hp3 & _ & Ha3).
  cbv zeta in Hrun. destruct (_ >? _); [done|]. injection Hrun as ->.
  by split_and!.
Qed.

(** A completion ring with nothing to reap has its tail at the local head. *)
Lemma idle_tail (s s' : St) :
  ring_wf s -> available s = [] -> ring_wf s' -> available s' = [] ->
  IoUring.cq_head_local (hd s') = IoUring.cq_head_local (hd s) ->
  cq_ktail (mem s') = cq_ktail (mem s).
Proof.
  intros Hwf Ha Hwf' Ha' Hh. by rewrite (tail_of_available s Hwf), (tail_of_available s' Hwf'), Ha, Ha', Hh.
Qed.

Lemma queued_last (l : list Sqe) e c :
  (c <= S (length l))%nat -> drop c (l ++ [e]) = [] \/ last (drop c (l ++ [e])) = Some e.
Proof.
  intros Hc. destruct (decide (c = S (length l))) as [->|].
  - left. apply drop_ge. rewrite length_app. cbn. lia.
  - right. rewrite drop_app_le by lia. by rewrite last_snoc.
Qed.
(** C39. `run_one` can return while its entry is still in flight, on any ring, over
    any kernel that obeys the laws and for any operation: with room for the entry
    and nothing to reap, if the one wait it makes ends with no completion (a signal interrupts it, or
    the entry has only been started), it reports `NoCompletion`, or the error of the
    call, at once.  By then the kernel has taken some number of the queued entries,
    the operation's own the last of them: either it is in flight, with no completion
    posted for it, or it is still queued for the next submission, address of the
    caller's buffer included. *)
Theorem run_one_returns_in_flight fuel sqe s r s1 :
  ring_wf s -> accounted s -> available s = [] ->
  Z.of_nat (length (pending s)) < IoUring.sq_capacity (hd s) ->
  enter (IoUring.fd (hd s)) (Z.of_nat (S (length (pending s)))) 1 EnterFlags.GETEVENTS
    (entering sqe s) = (r, s1) ->
  available s1 = [] ->
  exists s' c,
    run_one (S fuel) sqe s =
      Some (match r with Ok _ => Err (Completion_ NoCompletion) | Err e => Err e end, s') /\
    match r with Ok n => n = Z.of_nat c | Err _ => c = 0%nat end /\
    (c <= S (length (pending s)))%nat /\
    sq_khead (mem s') = u32_add (sq_khead (mem s)) (Z.of_nat c) /\
    pending s' = drop c (pending s ++ [tagged_entry sqe s]) /\
    (pending s' = [] \/ last (pending s') = Some (tagged_entry sqe s)) /\
    cq_ktail (mem s') = cq_ktail (mem s) /\ available s' = [].
Proof.
  intros Hwf Hacc Hav Hroom He Hav1.
  destruct (entering_effect sqe s Hwf Hacc Hroom)
    as (Hpush & Hw1 & Hacc1 & Hwe & Hacce & Hp1 & Ha1 & Hpe & Hae & Hfd & Hk & Hch).
  unfold run_one, next_do_tag. fold (tagged_entry sqe s).
  change (mkSys _ (mem s) (kern s)) with (mkSys (snd (next_do_tag (hd s))) (mem s) (kern s)).
  rewrite Hpush, submit_and_wait_run. cbv zeta.
  set (s2 := snd (IoUring.push _ _)) in *.
  change (flush_tail (flush_head s2)) with (entering sqe s).
  assert (IoUring.backpressure (entering sqe s) = false) as ->.
  { rewrite (backpressure_used _ Hwe), Hae, Hav. cbn [length].
    destruct Hwe as (h & t & l & k & ch & ct & [_ [Hsh _ _ _ _ _]]).
    destruct (ring_shape_cap _ _ Hsh) as [Hb _]. unfold IoUring.cq_capacity.
    pose proof (Z.div_le_upper_bound (IoUring.cq_mask (hd (entering sqe s)) + 1) 4
      (IoUring.cq_mask (hd (entering sqe s)) + 1)). rewrite Z.gtb_ltb. apply Z.ltb_ge. lia. }
  rewrite (to_submit_pending s2 Hw1 Hacc1), Hp1, length_app, Nat.add_1_r, Hfd.
  assert (0 <= Z.of_nat (S (length (pending s)))) as Hn by lia.
  pose proof He as He'. eapply enter_effect in He' as (c & cs & Hen & Hr); [|done|done].
  assert (IoUring.cq_head_local (hd s1) = IoUring.cq_head_local (hd s)) as Hhl
    by (rewrite (en_hd _ _ _ _ Hen); exact Hch).
  unfold enter_counted, bind at 1. rewrite He.
  destruct r as [n|e].
  - destruct Hr as [-> Hc]. unfold bind, modify, ret.
    destruct (account_effect _ _ _ _ Hwe Hen Hacce) as (_ & Hw3 & _ & Hp3 & _ & Ha3).
    assert (cs = []) as ->.
    { pose proof (en_available _ _ _ _ Hen) as Hca. rewrite Hav1, Hae, Hav in Hca. by destruct cs. }
    rewrite app_nil_r, Hae, Hav in Ha3.
    pose proof (complete_effect _ Hw3) as Hcomp. rewrite Ha3 in Hcomp. cbn [run_one_loop].
    destruct (IoUring.complete _) as [o s4]. destruct Hcomp as (_ & _ & _ & _ & _ & _ & -> & ->).
    exists (account (Z.of_nat c) s1), c. split; [done|]. split; [done|]. split; [lia|].
    split; [exact (eq_trans (en_head _ _ _ _ Hen) (f_equal (fun h => u32_add h _) Hk))|].
    rewrite Hp3, Hpe. split; [done|]. split; [apply queued_last; lia|]. split; [|exact Ha3].
    exact (idle_tail s s1 Hwf Hav (en_wf _ _ _ _ Hen) Hav1 Hhl).
  - destruct Hr as [-> [e' ->]]. exists s1, 0%nat. split; [done|]. split; [done|]. split; [lia|].
    split; [exact (eq_trans (en_head _ _ _ _ Hen) (f_equal (fun h => u32_add h _) Hk))|].
    rewrite (en_pending _ _ _ _ Hen), Hpe. split; [done|]. split; [apply queued_last; lia|]. split; [|exact Hav1].
    exact (idle_tail s s1 Hwf Hav (en_wf _ _ _ _ Hen) Hav1 Hhl).
Qed.
End Interrupted.

(** A read whose kernel takes one entry, and one whose kernel takes none; neither
    posts anything. *)
Definition demo_interrupted (budget : nat) : Sys IoUring.t Toy :=
  mkSys (hd demo) (mem demo) (mkToy budget []).
Lemma demo_interrupted_wf budget : ring_wf (demo_interrupted budget).
Proof. destruct demo_wf as (h & t & l & k & ch & ct & [? ?]). by exists h, t, l, k, ch, ct. Qed.
Lemma run_one_returns_in_flight_witness :
  (exists s', do_read 5 7 (mkSlice 4096 512) 0 (demo_interrupted 1) =
     Some (Err (Completion_ NoCompletion), s') /\
   sq_khead (mem s') = u32_add (sq_khead (mem demo)) 1 /\ cq_ktail (mem s') = cq_ktail (mem demo)) /\
  (exists s', do_read 5 7 (mkSlice 4096 512) 0 (demo_interrupted 0) =
     Some (Err (Completion_ NoCompletion), s') /\
   IoUringSqe.addr <$> pending s' = [4096]).
Proof.
  set (read := FileOps.read 7 (mkSlice 4096 512) 0). split.
  - destruct (run_one_returns_in_flight 4 read (demo_interrupted 1) (Ok 1)
      (snd (enter 3 1 1 EnterFlags.GETEVENTS (entering read (demo_interrupted 1)))))
      as (s' & c & Hrun & Hc & _ & Hk & _ & _ & Ht & _);
      [apply demo_interrupted_wf|reflexivity|reflexivity|vm_compute; reflexivity|vm_compute; reflexivity
      |vm_compute; reflexivity|].
    exists s'. split; [exact Hrun|]. split; [|exact Ht].
    rewrite Hk. replace c with 1%nat by lia. reflexivity.
  - destruct (run_one_returns_in_flight 4 read (demo_interrupted 0) (Ok 0)
      (snd (enter 3 1 1 EnterFlags.GETEVENTS (entering read (demo_interrupted 0)))))
      as (s' & c & Hrun & Hc & _ & _ & Hp & _);
      [apply demo_interrupted_wf|reflexivity|reflexivity|vm_compute; reflexivity|vm_compute; reflexivity
      |vm_compute; reflexivity|].
    exists s'. split; [exact Hrun|]. rewrite Hp. replace c with 0%nat by lia. vm_compute. reflexivity.
Defined.
