(* ===== verification/System.v ===== *)
(** * The ring down to the system-call instruction

    [Ring] reaches the kernel through the class [Kernel], one call per
    `io_uring_enter`.  The crate reaches it through three layers of its own: the
    wrapper of syscall/mod.rs, the stub of the architecture, and the instruction.
    [through] is that path as a [Kernel], so that whatever holds of a handle over
    any kernel holds of it over the path; and it is the kernel behind the
    instruction, call for call. *)
From stdpp Require Import base numbers list option gmap strings.
From Stdlib Require Import ZArith Lia.
From S2P Require Import Prelude Flags Types RingIndex Sqe UserMem Syscall SyscallAsm Kernel Ring.
From S2P Require Import SqeNet RingSpec RingOps.
Local Open Scope Z_scope.
Local Open Scope rust_scope.

(** ** The layers *)
Section Layers.
  Context {K : Type} {PW : PtrWidth} {A : Arch}.
(** The stub the crate is compiled with, as the raw call; the registers hold
    anything when it is entered. *)
Definition by_stubs (t : Target) `{Trap K} (held : World K -> regs) : RawSyscall K := {|
  syscall nr args w :=
    match stub (stubs t) nr args with
    | Some b => let '(ret, _, w') := run_asm b (held w) w in (ret, w')
    | None => (0, w)
    end
|}.
(** The wrapper over a raw call, as the kernel a handle sees.  The kernel's own
    state is the rings and [K]; the process's memory goes along. *)
Definition through (RS : RawSyscall (Shm * K)) : Kernel (UMem * K) :=
  fun fd to_submit min_complete flags m '(u, k) =>
    let '(r, w) := Syscall.io_uring_enter fd to_submit min_complete flags (mkWorld u (m, k)) in
    (r, fst (w_kernel w), (w_mem w, snd (w_kernel w))).
(** The other end: a kernel that finds the call in its own table, reads the
    arguments at their widths, and answers in the return register. *)
Definition serve (t : Target) `{Kernel K} : RawSyscall (Shm * K) := {|
  syscall nr args w :=
    match read_syscall t nr args with
    | Some (SUringEnter fd to_submit min_complete flags 0 0) =>
        let '(m, k) := w_kernel w in
        let '(r, m', k') := io_uring_enter fd to_submit min_complete flags m k in
        (kernel_return r, mkWorld (w_mem w) (m', k'))
    | _ => (-38, w)
    end
|}.
End Layers.
(** io_uring_enter(2) answers with a count, which is an `int`, or an errno. *)
Class EnterAnswers (K : Type) `{Kernel K} :=
  enter_answers : forall fd n min fl m k r m' k',
    io_uring_enter fd n min fl m k = (r, m', k') ->
    match r with Ok v => 0 <= v < 2 ^ 31 | Err e => 1 <= e <= MAX_ERRNO end.
(** It takes six arguments. *)
Definition six (nr : Z) : nat := 6.
(** ** One call *)
Lemma read_enter {PW : PtrWidth} t (A := numbers t) fd n min fl :
  read_syscall t SYS_IO_URING_ENTER
    [fd; Syscall.as_usize n; Syscall.as_usize min; Syscall.as_usize fl; 0; 0] =
  Some (SUringEnter (as_i32 fd) (as_u32 n) (as_u32 min) (as_u32 fl) 0 0).
Proof.
  assert (forall z, as_u32 (Syscall.as_usize z) = as_u32 z) as E.
  { intros z. apply wrap_narrow. destruct usize_cases; lia. }
  rewrite <- (E n), <- (E min), <- (E fl). by destruct t.
Qed.
Lemma enter_stub t nr a b c d e f :
  exists asm, stub (stubs t) nr [a; b; c; d; e; f] = Some asm.
Proof. by eexists. Qed.

Section Path.
  Context {K : Type} {PW : PtrWidth} (t : Target) `{EnterAnswers K}.
#[local] Instance arch : Arch := numbers t.
  Context {TR : Trap (Shm * K)} {TL : TrapLaws t six (Shm * K) (H0 := serve t)}.
  Context (held : World (Shm * K) -> regs).

(** The kernel a handle sees at the end of the path. *)
Definition path : Kernel (UMem * K) := through (by_stubs t held).

(** The whole path makes the kernel's call, and brings its answer back. *)
Lemma path_enter fd n min fl m u k :
  path fd n min fl m (u, k) =
    let '(r, m', k') := io_uring_enter (as_i32 fd) (as_u32 n) (as_u32 min) (as_u32 fl) m k in
    (r, m', (u, k')).
Proof.
  unfold path, through, Syscall.io_uring_enter, Syscall.call.
  set (args := [_; _; _; _; _; _]). unfold syscall at 1, by_stubs.
  destruct (enter_stub t SYS_IO_URING_ENTER fd (Syscall.as_usize n) (Syscall.as_usize min)
    (Syscall.as_usize fl) 0 0) as [b Hb]. fold args in Hb. rewrite Hb.
  destruct (stub_runs t six (H0 := serve t) (held (mkWorld u (m, k))) (mkWorld u (m, k))
    SYS_IO_URING_ENTER args b eq_refl Hb) as (r' & -> & _).
  unfold syscall, serve, args. rewrite (read_enter t). cbn [w_kernel w_mem].
  destruct (io_uring_enter _ _ _ _ m k) as [[r m'] k'] eqn:E. cbn [fst snd w_kernel w_mem].
  rewrite check_roundtrip; [done|]. pose proof (enter_answers _ _ _ _ _ _ _ _ _ E) as Ha.
  destruct r; [|done]. unfold MAX_ERRNO. destruct usize_cases as [-> | ->]; lia.
Qed.
(** So what is documented of the kernel holds of the path. *)
Lemma path_laws `{!KernelLaws K} : KernelLaws (UMem * K) (H := path).
Proof.
  constructor. intros fd n min fl m [u k] r m' k' He Hn Hu.
  unfold io_uring_enter in He. rewrite path_enter in He.
  destruct (io_uring_enter (as_i32 fd) (as_u32 n) (as_u32 min) (as_u32 fl) m k) as [[r1 m1] k1] eqn:E.
  injection He as <- <- <-.
  pose proof (wrap_range 32 n ltac:(lia)) as [Hw _]. fold (as_u32 n) in Hw.
  assert (as_u32 n <= n) as Hle by (apply Z.mod_le; lia).
  destruct (enter_activity _ _ _ _ _ _ _ _ _ E Hw Hu) as (c & cs & f & Hm & Ha & Hr).
  exists c, cs, f. split; [done|]. split; [done|]. destruct r1; [|done]. lia.
Qed.

(** ** The handles *)
Definition lift {T} (u : UMem) (s : Sys T K) : Sys T (UMem * K) := mkSys (hd s) (mem s) (u, kern s).
Definition lifted {T R} (u : UMem) (x : R * Sys T K) : R * Sys T (UMem * K) := (fst x, lift u (snd x)).
Definition fd_ok (fd : Z) : Prop := 0 <= fd < 2 ^ 31.

Lemma path_enter_lift {T} fd n min fl u (s : Sys T K) :
  fd_ok fd -> in_u 32 n -> in_u 32 min -> in_u 32 fl ->
  enter (H0 := path) fd n min fl (lift u s) = lifted u (enter fd n min fl s).
Proof.
  intros Hfd Hn Hmin Hfl. unfold enter. cbn [lift mem kern].
  unfold io_uring_enter at 1. rewrite path_enter, (i32_fd fd Hfd).
  rewrite !(fun z => wrap_small 32 z : in_u 32 z -> as_u32 z = z) by done.
  by destruct (io_uring_enter _ _ _ _ _ _) as [[r m'] k'].
Qed.

(** ** Methods

    [f], over the path, does what [g] does over the kernel. *)
Section Methods.
  Context {T : Type} (fd_of : T -> Z).
Definition carries {R} (f : M (Sys T (UMem * K)) Error R) (g : M (Sys T K) Error R) : Prop :=
  forall u s, fd_ok (fd_of (hd s)) ->
  f (lift u s) = lifted u (g s) /\ fd_of (hd (snd (g s))) = fd_of (hd s).

Lemma carries_ret {R} (x : R) : carries (ret x) (ret x).
Proof. by intros u s Hfd. Qed.
Lemma carries_throw {R} e : carries (throw e : M _ _ R) (throw e).
Proof. by intros u s Hfd. Qed.
Lemma carries_bind {R S} (f : M _ _ R) g (k : R -> M _ _ S) k' :
  carries f g -> (forall x, carries (k x) (k' x)) -> carries (bind f k) (bind g k').
Proof.
  intros Hf Hk u s Hfd. destruct (Hf u s Hfd) as [E F]. unfold bind. rewrite E.
  destruct (g s) as [[x|e] s1]; cbn [lifted fst snd] in *; [|done].
  rewrite <- F in Hfd |- *. apply (Hk x u s1 Hfd).
Qed.
Lemma carries_get {R} (f : _ -> M _ _ R) g :
  (forall u s, fd_ok (fd_of (hd s)) -> carries (f (lift u s)) (g s)) ->
  carries (let! s := get in f s) (let! s := get in g s).
Proof. intros Hf u s Hfd. apply (Hf u s Hfd u s Hfd). Qed.
Lemma carries_modify f g :
  (forall u s, f (lift u s) = lift u (g s) /\ fd_of (hd (g s)) = fd_of (hd s)) ->
  carries (modify f) (modify g).
Proof. intros Hf u s _. destruct (Hf u s) as [E F]. unfold modify. by rewrite E. Qed.
Lemma carries_enter fd n min fl : fd_ok fd -> in_u 32 n -> in_u 32 min -> in_u 32 fl ->
  carries (enter (H0 := path) fd n min fl) (enter fd n min fl).
Proof.
  intros Hfd Hn Hmin Hfl u s _. split; [by apply path_enter_lift|].
  unfold enter. by destruct (io_uring_enter _ _ _ _ _ _) as [[r m'] k'].
Qed.
Lemma carries_if {R} (b : bool) (f1 f2 : M _ _ R) g1 g2 :
  carries f1 g1 -> carries f2 g2 -> carries (if b then f1 else f2) (if b then g1 else g2).
Proof. by destruct b. Qed.
End Methods.

Lemma u32_sub_range a b : in_u 32 (u32_sub a b).
Proof. apply (wrap_range 32). lia. Qed.
(** Goes through a method call by call. *)
Ltac carry :=
  repeat match goal with
    | |- carries _ (bind get _) _ => apply carries_get; intros ? ? ?; cbn [hd mem lift]
    | |- carries _ (bind _ _) _ => apply carries_bind; [|intros ?]
    | |- carries _ (if _ then _ else _) _ => apply carries_if
    | |- carries _ (ret _) _ => apply carries_ret
    | |- carries _ (throw _) _ => apply carries_throw
    | |- carries _ (modify _) _ => apply carries_modify; intros ? ?; done
    | |- carries _ (enter _ _ _ _) _ => apply carries_enter;
        [assumption|solve [apply u32_sub_range|assumption|vm_compute; split; congruence]..]
    end.
Lemma ring_carries min : in_u 32 min ->
  carries IoUring.fd (IoUring.submit (H := path)) IoUring.submit /\
  carries IoUring.fd (IoUring.submit_and_wait (H := path) min) (IoUring.submit_and_wait min) /\
  carries IoUring.fd (IoUring.submit_sqpoll (H := path)) IoUring.submit_sqpoll /\
  carries Submitter.fd (Submitter.submit (H := path)) Submitter.submit /\
  carries Submitter.fd (Submitter.submit_and_wait (H := path) min) (Submitter.submit_and_wait min) /\
  carries Submitter.fd (Submitter.submit_sqpoll (H := path)) Submitter.submit_sqpoll /\
  carries Completer.fd (Completer.wait (H := path) min) (Completer.wait min).
Proof.
  intros Hmin. split_and!.
  - unfold IoUring.submit, IoUring.flush_sq_tail, IoUring.flush_cq_head. carry.
  - unfold IoUring.submit_and_wait, IoUring.flush_sq_tail, IoUring.flush_cq_head. carry.
  - unfold IoUring.submit_sqpoll, IoUring.flush_sq_tail. carry.
  - unfold Submitter.submit, Submitter.flush_sq_tail. carry.
  - unfold Submitter.submit_and_wait, Submitter.flush_sq_tail. carry.
  - unfold Submitter.submit_sqpoll, Submitter.flush_sq_tail. carry.
  - unfold Completer.wait, Completer.sync_cq. carry.
Qed.

(** The synchronous operations: pushes and reaps between the calls. *)
Lemma push_carries sqe :
  carries IoUring.fd (IoUring.push (K := UMem * K) sqe) (IoUring.push sqe).
Proof. unfold IoUring.push. carry. Qed.
Lemma complete_carries u (s : Sys IoUring.t K) :
  IoUring.complete (lift u s) = lifted u (IoUring.complete s) /\
  IoUring.fd (hd (snd (IoUring.complete s))) = IoUring.fd (hd s).
Proof. unfold IoUring.complete. cbn [hd mem lift]. by destruct (_ =? _). Qed.
Lemma run_one_loop_carries fuel : forall tag stray u (s : Sys IoUring.t K), fd_ok (IoUring.fd (hd s)) ->
  run_one_loop (HK := path) fuel tag stray (lift u s) = lifted u <$> run_one_loop fuel tag stray s.
Proof.
  induction fuel as [|fuel IH]; intros tag stray u s Hfd; [done|]. cbn [run_one_loop].
  destruct (complete_carries u s) as [-> F]. destruct (IoUring.complete s) as [[c|] s1]; [|done].
  cbn [lifted fst snd] in *. destruct (_ =? _); [done|].
  destruct (ring_carries 1 ltac:(done)) as (_ & Hw & _). rewrite <- F in Hfd.
  destruct (Hw u s1 Hfd) as [-> F2]. destruct (IoUring.submit_and_wait 1 s1) as [[n|e] s2]; [|done].
  cbn [lifted fst snd] in *. apply IH. by rewrite F2.
Qed.
Lemma run_one_carries fuel sqe u (s : Sys IoUring.t K) : fd_ok (IoUring.fd (hd s)) ->
  run_one (HK := path) fuel sqe (lift u s) = lifted u <$> run_one fuel sqe s.
Proof.
  intros Hfd. unfold run_one, next_do_tag. cbn [hd mem kern lift].
  set (sqe1 := Modifiers.with_user_data _ _). set (s0 := mkSys _ (mem s) (kern s)).
  change (mkSys _ (mem s) (u, kern s)) with (lift u s0).
  destruct (push_carries sqe1 u s0 Hfd) as [-> F].
  destruct (IoUring.push sqe1 s0) as [[[]|e] s1]; [|done]. cbn [lifted fst snd] in *.
  destruct (ring_carries 1 ltac:(done)) as (_ & Hw & _).
  assert (fd_ok (IoUring.fd (hd s1))) as Hfd1 by by rewrite F.
  destruct (Hw u s1 Hfd1) as [-> F2]. destruct (IoUring.submit_and_wait 1 s1) as [[n|e] s2]; [|done].
  cbn [lifted fst snd] in *. apply run_one_loop_carries. by rewrite F2.
Qed.

(** C12. The handles over the crate's own path to the kernel, on each of the four
    architectures: the wrapper marshals the call, the stub puts it in registers,
    the instruction runs it as the call the kernel's own table of that
    architecture has under the number, and the result word is decoded.  Every method that
    enters the kernel returns what it returns over the kernel itself and leaves
    the same handle, rings and kernel, with the process's memory untouched; and
    the path obeys the laws of the kernel behind it, so that every theorem about
    a handle holds over the path. *)
Theorem handles_over_instruction `{!KernelLaws K} min fuel sqe :
  in_u 32 min ->
  KernelLaws (UMem * K) (H := path) /\
  carries IoUring.fd (IoUring.submit (H := path)) IoUring.submit /\
  carries IoUring.fd (IoUring.submit_and_wait (H := path) min) (IoUring.submit_and_wait min) /\
  carries IoUring.fd (IoUring.submit_sqpoll (H := path)) IoUring.submit_sqpoll /\
  carries Submitter.fd (Submitter.submit (H := path)) Submitter.submit /\
  carries Submitter.fd (Submitter.submit_and_wait (H := path) min) (Submitter.submit_and_wait min) /\
  carries Submitter.fd (Submitter.submit_sqpoll (H := path)) Submitter.submit_sqpoll /\
  carries Completer.fd (Completer.wait (H := path) min) (Completer.wait min) /\
  forall u s, fd_ok (IoUring.fd (hd s)) ->
    run_one (HK := path) fuel sqe (lift u s) = lifted u <$> run_one fuel sqe s.
Proof.
  intros Hmin. split; [apply path_laws|]. pose proof (ring_carries min Hmin) as Hr.
  split_and!; try apply Hr. intros u s. apply run_one_carries.
Qed.
End Path.

(** ** A ring on 32-bit ARM *)
(** The kernel of [Kernel.Toy] with eight entries a call; it keeps the results of
    the completions to come. *)
#[export] Instance eight_kernel : Kernel (list Z) := fun fd n min fl m results =>
  let '(r, m', k) := io_uring_enter (K := Toy) fd n min fl m (mkToy 8 results) in
  (r, m', toy_results k).
#[export] Instance eight_laws : KernelLaws (list Z).
Proof.
  constructor. intros fd n min fl m k r m' k' He Hn Hu. unfold io_uring_enter, eight_kernel in He.
  destruct (io_uring_enter fd n min fl m (mkToy 8 k)) as [[r1 m1] k1] eqn:E. injection He as <- <- <-.
  apply (enter_activity _ _ _ _ _ _ _ _ _ E Hn Hu).
Qed.
#[export] Instance eight_answers : EnterAnswers (list Z).
Proof.
  intros fd n min fl m k r m' k'. unfold io_uring_enter, eight_kernel, io_uring_enter, toy_kernel.
  cbn [toy_budget toy_results]. intros [= <- <- <-]. lia.
Qed.
#[export] Instance arm_trap : Trap (Shm * list Z) :=
  following (H := serve (PW := ptr32) Arm_t) Arm_t six.
Definition arm_trap_laws : TrapLaws Arm_t six (Shm * list Z) (H0 := serve (PW := ptr32) Arm_t) :=
  following_laws (H := serve (PW := ptr32) Arm_t) Arm_t six (fun _ => ltac:(unfold six; lia)).
(** Two entries queued on a ring whose indices are about to wrap. *)
Definition queued : Sys IoUring.t (list Z) :=
  let base := 4294967295 in
  let s := mkSys (IoUring.mk 3 3 base base 7 base 0 0 (2 ^ 63) 4096)
    (mkShm base base 0 (replicate 4 ZEROED) base base (replicate 8 (mkCqe 0 0 0))) [5; 6; 7] in
  snd (IoUring.push_nop 2 (snd (IoUring.push_nop 1 s))).
Lemma handles_over_instruction_witness :
  let over := path (PW := ptr32) Arm_t (fun _ => {[ "r4" := 9 ]}) in
  KernelLaws (UMem * list Z) (H := over) /\
  fst (IoUring.submit (H := over) (lift (fun _ => 0) queued)) = Ok 2 /\
  fst <$> run_one (HK := over) 5 (NetOps.nop) (lift (fun _ => 0) queued) =
    Some (Err (Completion_ (UnexpectedCompletion (2 ^ 63) 1))).
Proof.
  intros over.
  destruct (handles_over_instruction (PW := ptr32) Arm_t (TL := arm_trap_laws)
    (fun _ => {[ "r4" := 9 ]}) 1 5 NetOps.nop) as (Hl & Hs & _ & _ & _ & _ & _ & _ & Hr);
    [split; vm_compute; congruence|].
  assert (fd_ok (IoUring.fd (hd queued))) as Hfd by (vm_compute; split; congruence).
  split; [exact Hl|]. split.
  - destruct (Hs (fun _ => 0) queued Hfd) as [E _]. unfold over. rewrite E. vm_compute. reflexivity.
  - unfold over. rewrite (Hr (fun _ => 0) queued Hfd). vm_compute. reflexivity.
Defined.
