(* ===== verification/Resources.v ===== *)
(** * Mappings, descriptors and their owners (ring/resources.rs)

    The operating system's side is [Os]: the multiset of live mappings, the
    multiset of open descriptors, the shared resource pages by address, and a
    count of faults, releases of something that is not live.  A kernel
    ([SetupKernel], a parameter) answers `mmap` and `io_uring_setup`. *)
From stdpp Require Import base numbers list option gmap gmultiset.
From Stdlib Require Import ZArith Lia.
From S2P Require Import Prelude Flags Types.
Local Open Scope Z_scope.
Local Open Scope rust_scope.

(* src/src/ring/resources.rs:23-27 MappedRegion *)
Definition MappedRegion : Set := (Z * Z)%type.
Definition r_addr (r : MappedRegion) : Z := fst r.
Definition r_len (r : MappedRegion) : Z := snd r.
(* src/src/ring/resources.rs:30-32 MappedRegion::new *)
Definition new_region (addr len : Z) : MappedRegion := (addr, len).
Definition no_region : MappedRegion := new_region 0 0.

(* src/src/ring/resources.rs:88-96 RingResources *)
Record RingResources : Type := mkRes {
  refcount : Z;
  res_fd : Z;
  res_sq_ring : MappedRegion;
  res_cq_ring : MappedRegion;
  res_sqes : MappedRegion;
  self_page : MappedRegion
}.
Definition set_refcount (n : Z) (r : RingResources) : RingResources :=
  mkRes n (res_fd r) (res_sq_ring r) (res_cq_ring r) (res_sqes r) (self_page r).

(** ** The operating system *)
Record Os (K : Type) : Type := mkOs {
  live : gmultiset (Z * Z);
  fds : gmultiset Z;
  pages : gmap Z RingResources;
  faults : nat;
  oracle : K
}.
Arguments mkOs {K} _ _ _ _ _.
Arguments live {K} _.
Arguments fds {K} _.
Arguments pages {K} _.
Arguments faults {K} _.
Arguments oracle {K} _.

Section Os.
  Context {K : Type}.
Definition set_pages (p : gmap Z RingResources) (o : Os K) : Os K :=
  mkOs (live o) (fds o) p (faults o) (oracle o).

(** `let _ = munmap(addr, len)`: the mapping is gone; unmapping what is not
    mapped is a fault. *)
Definition munmap (r : MappedRegion) (o : Os K) : Os K :=
  if decide (r ∈ live o)
  then mkOs (live o ∖ {[+ r +]}) (fds o) (pages o) (faults o) (oracle o)
  else mkOs (live o) (fds o) (pages o) (S (faults o)) (oracle o).
(** `let _ = close(fd)` *)
Definition close_fd (fd : Z) (o : Os K) : Os K :=
  if decide (fd ∈ fds o)
  then mkOs (live o) (fds o ∖ {[+ fd +]}) (pages o) (faults o) (oracle o)
  else mkOs (live o) (fds o) (pages o) (S (faults o)) (oracle o).
Definition munmap_if (r : MappedRegion) (o : Os K) : Os K :=
  if r_len r >? 0 then munmap r o else o.

(** ** The setup guard *)
(* src/src/ring/resources.rs:40-45 SetupGuard *)
Record SetupGuard : Type := mkGuard {
  g_fd : Z;
  g_sq_ring : MappedRegion;
  g_cq_ring : MappedRegion;
  g_sqes : MappedRegion
}.
(* src/src/ring/resources.rs:48-55 SetupGuard::new *)
Definition new_guard (fd : Z) : SetupGuard := mkGuard fd no_region no_region no_region.
(* src/src/ring/resources.rs:64-79 SetupGuard::drop *)
Definition drop_guard (g : SetupGuard) (o : Os K) : Os K :=
  let o := munmap_if (g_sqes g) o in
  let o := munmap_if (g_cq_ring g) o in
  let o := munmap_if (g_sq_ring g) o in
  close_fd (g_fd g) o.

(** ** Reference counting *)
(* src/src/ring/resources.rs:136-138 RingResources::retain *)
Definition retain {PW : PtrWidth} (ptr : Z) (o : Os K) : Os K :=
  match pages o !! ptr with
  | Some r => set_pages (<[ptr := set_refcount (wrap usize_bits (refcount r + 1)) r]> (pages o)) o
  | None => mkOs (live o) (fds o) (pages o) (S (faults o)) (oracle o)
  end.
(* src/src/ring/resources.rs:150-171 RingResources::release *)
Definition release {PW : PtrWidth} (ptr : Z) (o : Os K) : Os K :=
  match pages o !! ptr with
  | None => mkOs (live o) (fds o) (pages o) (S (faults o)) (oracle o)
  | Some res =>
      let o := set_pages
        (<[ptr := set_refcount (wrap usize_bits (refcount res - 1)) res]> (pages o)) o in
      if negb (refcount res =? 1) then o
      else
        let o := munmap (res_sqes res) o in
        let o := munmap_if (res_cq_ring res) o in
        let o := munmap (res_sq_ring res) o in
        let o := close_fd (res_fd res) o in
        let o := munmap (self_page res) o in
        set_pages (base.delete ptr (pages o)) o
  end.
End Os.

(** What a resource page owns. *)
Definition region_set (r : MappedRegion) : gmultiset (Z * Z) :=
  if r_len r >? 0 then {[+ r +]} else ∅.
Definition owned_regions (r : RingResources) : gmultiset (Z * Z) :=
  {[+ res_sqes r +]} ⊎ region_set (res_cq_ring r) ⊎ {[+ res_sq_ring r +]} ⊎ {[+ self_page r +]}.
Definition guarded_regions (g : SetupGuard) : gmultiset (Z * Z) :=
  region_set (g_sqes g) ⊎ region_set (g_cq_ring g) ⊎ region_set (g_sq_ring g).

(** ** Releasing what is live *)
Section Release.
  Context {K : Type}.
  Implicit Types (o : Os K).

Lemma munmap_live r L F P n k :
  @munmap K r (mkOs (L ⊎ {[+ r +]}) F P n k) = mkOs L F P n k.
Proof.
  unfold munmap. cbn. rewrite decide_True by multiset_solver. f_equal. multiset_solver.
Qed.
Lemma munmap_if_live r L F P n k :
  @munmap_if K r (mkOs (L ⊎ region_set r) F P n k) = mkOs L F P n k.
Proof.
  unfold munmap_if, region_set. destruct (_ >? _); [apply munmap_live|].
  f_equal. multiset_solver.
Qed.
Lemma close_live fd L F P n k :
  @close_fd K fd (mkOs L (F ⊎ {[+ fd +]}) P n k) = mkOs L F P n k.
Proof.
  unfold close_fd. cbn. rewrite decide_True by multiset_solver. f_equal. multiset_solver.
Qed.

Lemma set_pages_mk p L F P n k : @set_pages K p (mkOs L F P n k) = mkOs L F p n k.
Proof. done. Qed.

(** Dropping an armed guard releases exactly what it guards. *)
Lemma drop_guard_live g L F P n k :
  @drop_guard K g (mkOs (L ⊎ guarded_regions g) (F ⊎ {[+ g_fd g +]}) P n k) = mkOs L F P n k.
Proof.
  unfold drop_guard, guarded_regions.
  replace (L ⊎ _) with (L ⊎ region_set (g_sq_ring g) ⊎ region_set (g_cq_ring g)
    ⊎ region_set (g_sqes g)) by multiset_solver.
  by rewrite !munmap_if_live, close_live.
Qed.
End Release.

(** ** The life of a shared page *)
Section Lifecycle.
  Context {K : Type} {PW : PtrWidth}.

(** The page at [ptr] is held [n] times and owns its regions and its fd on
    top of [L] and [F]. *)
Definition held (ptr : Z) (res : RingResources) (n : Z) (L : gmultiset (Z * Z))
  (F : gmultiset Z) (o : Os K) : Prop :=
  pages o !! ptr = Some (set_refcount n res) /\
  live o = L ⊎ owned_regions res /\ fds o = F ⊎ {[+ res_fd res +]}.

Lemma usize_small n : 0 <= n < 2 ^ 31 -> wrap usize_bits n = n.
Proof.
  intros Hn. apply wrap_small. change (2 ^ 31) with 2147483648 in Hn.
  destruct usize_cases as [-> | ->]; (split; [lia|]).
  - change (2 ^ 32) with 4294967296. lia.
  - change (2 ^ 64) with 18446744073709551616. lia.
Qed.

Lemma retain_held ptr res n L F o :
  held ptr res n L F o -> 0 <= n < 2 ^ 31 - 1 ->
  held ptr res (n + 1) L F (retain ptr o) /\ faults (retain ptr o) = faults o.
Proof.
  intros (Hp & Hl & Hf) Hn. unfold retain. rewrite Hp. split; [|done].
  split; [|done]. cbn. rewrite lookup_insert_eq, usize_small; [done|]. cbn. lia.
Qed.

Lemma release_shared ptr res n L F o :
  held ptr res n L F o -> 2 <= n < 2 ^ 31 ->
  held ptr res (n - 1) L F (release ptr o) /\ faults (release ptr o) = faults o.
Proof.
  intros (Hp & Hl & Hf) Hn. unfold release. rewrite Hp. cbn [refcount set_refcount].
  destruct (Z.eqb_spec n 1); [lia|]. cbn [negb]. split; [|done].
  split; [|done]. cbn. rewrite lookup_insert_eq, usize_small by lia. done.
Qed.

Lemma release_last ptr res L F o :
  held ptr res 1 L F o ->
  live (release ptr o) = L /\ fds (release ptr o) = F /\
  pages (release ptr o) !! ptr = None /\ faults (release ptr o) = faults o.
Proof.
  destruct o as [L0 F0 P n k]. intros (Hp & Hl & Hf). cbn in Hp, Hl, Hf. subst.
  unfold release. cbn [pages]. rewrite Hp. cbn [refcount set_refcount Z.eqb Pos.eqb negb].
  cbn [live fds pages faults oracle res_sqes res_cq_ring res_sq_ring
    res_fd self_page set_refcount]. unfold owned_regions.
  replace (L ⊎ _) with (L ⊎ {[+ self_page res +]} ⊎ {[+ res_sq_ring res +]}
    ⊎ region_set (res_cq_ring res) ⊎ {[+ res_sqes res +]}) by multiset_solver.
  rewrite set_pages_mk, munmap_live, munmap_if_live, munmap_live, close_live, munmap_live.
  cbn. split_and!; try done. apply lookup_delete_eq.
Qed.

(** A history of retains ([true]) and releases ([false]). *)
Fixpoint run_refs (ptr : Z) (ops : list bool) (o : Os K) : Os K :=
  match ops with
  | [] => o
  | op :: ops => run_refs ptr ops (if op then retain ptr o else release ptr o)
  end.
(** The number of holders after it; [None] if a released page is used. *)
Fixpoint holders (n : nat) (ops : list bool) : option nat :=
  match ops, n with
  | [], _ => Some n
  | _, O => None
  | true :: ops, S _ => holders (S n) ops
  | false :: ops, S n => holders n ops
  end.

(** However handles are split off and dropped, the ring's mappings and
    descriptor are released exactly once, by the last holder: as long as a
    holder remains nothing is unmapped or closed, when the count reaches zero
    everything the page owns is, and no operation ever touches a resource
    that is already gone. *)
Theorem last_holder_releases ptr res L F o n ops h :
  held ptr res (Z.of_nat n) L F o -> (1 <= n)%nat ->
  Z.of_nat n + Z.of_nat (length ops) < 2 ^ 31 -> holders n ops = Some h ->
  let o' := run_refs ptr ops o in
  faults o' = faults o /\
  match h with
  | O => live o' = L /\ fds o' = F /\ pages o' !! ptr = None
  | S _ => held ptr res (Z.of_nat h) L F o'
  end.
Proof.
  revert n o. induction ops as [|op ops IH]; intros n o Hh Hn Hlen Hh'.
  - cbn in Hh'. injection Hh' as <-. cbn [run_refs]. split; [done|]. by destruct n; [lia|].
  - destruct n as [|n]; [lia|]. cbn [length] in Hlen. destruct op; cbn [run_refs holders] in *.
    + destruct (retain_held _ _ _ _ _ _ Hh ltac:(lia)) as [H1 Hf].
      replace (Z.of_nat (S n) + 1) with (Z.of_nat (S (S n))) in H1 by lia.
      destruct (IH _ _ H1 ltac:(lia) ltac:(lia) Hh') as [IHf IHr].
      split; [congruence|done].
    + destruct n as [|n].
      * destruct (release_last _ _ _ _ _ Hh) as (H1 & H2 & H3 & Hf).
        destruct ops as [|b ops]; [|by destruct b]. cbn in Hh'. simplify_eq. cbn. done.
      * destruct (release_shared _ _ _ _ _ _ Hh ltac:(lia)) as [H1 Hf].
        replace (Z.of_nat (S (S n)) - 1) with (Z.of_nat (S n)) in H1 by lia.
        destruct (IH _ _ H1 ltac:(lia) ltac:(lia) Hh') as [IHf IHr].
        split; [congruence|done].
Qed.
End Lifecycle.

Definition demo_page : RingResources :=
  mkRes 1 3 (new_region 8192 4096) (new_region 0 0) (new_region 16384 4096) (new_region 4096 4096).
Definition demo_os : Os unit :=
  mkOs (owned_regions demo_page) {[+ 3 +]} {[ 4096 := demo_page ]} 0 tt.
Lemma demo_held : held 4096 demo_page 1 ∅ ∅ demo_os.
Proof. split; [|split; multiset_solver]. apply lookup_singleton_eq. Qed.

Lemma last_holder_releases_witness :
  held 4096 demo_page 1 ∅ ∅ demo_os /\
  faults (run_refs 4096 [true; false; false] demo_os) = 0%nat /\
  live (run_refs 4096 [true; false; false] demo_os) = ∅.
Proof.
  split; [exact demo_held|].
  destruct (last_holder_releases 4096 demo_page ∅ ∅ demo_os 1 [true; false; false] 0
    demo_held ltac:(lia) ltac:(cbn; lia) eq_refl) as (Hf & Hl & _). split; [exact Hf|exact Hl].
Defined.
