(* ===== verification/ResourcesRace.v ===== *)
(** * The last drop under weak memory (ring/resources.rs)

    The handles of a ring live on different threads and use its mappings without
    a lock; the count on the shared page decides who unmaps them.  [rc_step] lets
    any handle use the mappings, retain, release or learn what another has done,
    in any order, with the orderings the source gives the two read-modify-writes.
    Unmapping what a use is not ordered before would be a race: the release and
    acquire of the decrement rule it out ([unmap_after_every_use]). *)
From stdpp Require Import base numbers list option gmap gmultiset fin_maps relations.
From Stdlib Require Import ZArith Lia.
From S2P Require Import Prelude Flags Types Resources.
Local Open Scope Z_scope.
Local Open Scope rust_scope.

(** ** Orderings of a read-modify-write *)
Inductive rmw_ord : Set := Relaxed | AcqRel.
(* src/src/ring/resources.rs:137-137 RingResources::retain *)
Definition retain_ord : rmw_ord := Relaxed.
(* src/src/ring/resources.rs:153-153 RingResources::release *)
Definition release_ord : rmw_ord := AcqRel.

(** How many uses of each handle a thread, or a value of the count, is ordered
    after. *)
Notation seen := (nat -> nat).
Definition nothing : seen := fun _ => 0%nat.
Definition both (v w : seen) : seen := fun i => (v i `max` w i)%nat.
Definition one_more (i : nat) (v : seen) : seen := fun j => if decide (j = i) then S (v j) else v j.
(** A read-modify-write reads the latest value.  It takes over what that value
    carries if it acquires; the new value carries on what the old one did, being
    of the same release sequence, and what the writer has seen if it releases. *)
Definition rmw (o : rmw_ord) (v value : seen) : seen * seen :=
  match o with AcqRel => (both v value, both v value) | Relaxed => (v, value) end.

(** ** The two halves of a release *)
Section Halves.
  Context {K : Type} {PW : PtrWidth}.
(** `fetch_sub(1, ..)`: what the count was. *)
(* src/src/ring/resources.rs:153-153 RingResources::release *)
Definition fetch_sub (ptr : Z) (o : Os K) : option RingResources * Os K :=
  match pages o !! ptr with
  | None => (None, mkOs (live o) (fds o) (pages o) (S (faults o)) (oracle o))
  | Some res => (Some res, set_pages
      (<[ptr := set_refcount (wrap usize_bits (refcount res - 1)) res]> (pages o)) o)
  end.
(* src/src/ring/resources.rs:156-170 RingResources::release *)
Definition clean_up (ptr : Z) (res : RingResources) (o : Os K) : Os K :=
  let o := munmap (res_sqes res) o in
  let o := munmap_if (res_cq_ring res) o in
  let o := munmap (res_sq_ring res) o in
  let o := close_fd (res_fd res) o in
  let o := munmap (self_page res) o in
  set_pages (base.delete ptr (pages o)) o.
Lemma release_halves ptr o :
  release ptr o =
    match fetch_sub ptr o with
    | (None, o) => o
    | (Some res, o) => if refcount res =? 1 then clean_up ptr res o else o
    end.
Proof. unfold release, fetch_sub. destruct (pages o !! ptr) as [res|]; [|done]. by destruct (_ =? _). Qed.
End Halves.

(** ** The threads *)
Section Threads.
  Context {K : Type} {PW : PtrWidth}.
  Variable ptr : Z.
  Implicit Types (o : Os K).
(** The operating system; what the count's value carries; the handles, each with
    what its thread has seen; how often each has used the mappings; and the thread
    that found itself last and has not cleaned up yet. *)
Record rc : Type := mkRc {
  r_os : Os K; r_value : seen; r_held : gmap nat seen; r_used : seen;
  r_last : option (seen * RingResources)
}.
Definition start (o : Os K) : rc := mkRc o nothing {[ 0%nat := nothing ]} nothing None.

Inductive rc_step : rc -> rc -> Prop :=
(** A handle reads or writes the mappings, through its ring or its pool. *)
| rc_use i o w hs us l v : hs !! i = Some v ->
    rc_step (mkRc o w hs us l) (mkRc o w (<[i := one_more i v]> hs) (one_more i us) l)
(** A thread learns what another has seen, by whatever the program does to
    synchronise, or a handle is moved. *)
| rc_learn i j o w hs us l v v' : hs !! i = Some v -> hs !! j = Some v' ->
    rc_step (mkRc o w hs us l) (mkRc o w (<[i := both v v']> hs) us l)
(** `split`, and registering a pool: a second handle.  Ring handles are one or
    two and each pool takes a 16-bit group, so the count stays far below [2 ^ 31]. *)
| rc_retain i j o w hs us l v v' w' : hs !! i = Some v -> hs !! j = None -> us j = 0%nat ->
    Z.of_nat (size hs) < 2 ^ 31 - 1 -> rmw retain_ord v w = (v', w') ->
    rc_step (mkRc o w hs us l) (mkRc (retain ptr o) w' (<[j := v']> (<[i := v']> hs)) us l)
(** A handle is dropped: the decrement, by which its thread finds out whether it
    was the last, and then the clean-up, other threads going on in between. *)
| rc_release i o w hs us l v v' w' before o' : hs !! i = Some v ->
    rmw release_ord v w = (v', w') -> fetch_sub ptr o = (before, o') ->
    rc_step (mkRc o w hs us l)
      (mkRc o' w' (base.delete i hs) us
        (match before with
         | Some res => if refcount res =? 1 then Some (v', res) else l
         | None => l
         end))
| rc_clean o w hs us v res :
    rc_step (mkRc o w hs us (Some (v, res))) (mkRc (clean_up ptr res o) w hs us None).

(** Every use is ordered before what still matters: the handle's own thread while
    the handle lives, the count's value after that. *)
Definition covered (s : rc) : Prop := forall j,
  (r_used s j <= match r_held s !! j with Some v => v j | None => r_value s j end)%nat.
Definition wiped (ptr : Z) (L : gmultiset (Z * Z)) (F : gmultiset Z) (o : Os K) : Prop :=
  live o = L /\ fds o = F /\ pages o !! ptr = None.
Definition rc_ok (res : RingResources) (L : gmultiset (Z * Z)) (F : gmultiset Z) (n : nat) (s : rc) : Prop :=
  faults (r_os s) = n /\ covered s /\ Z.of_nat (size (r_held s)) < 2 ^ 31 /\
  match r_last s with
  | Some (v, res') => r_held s = ∅ /\ (forall j, (r_used s j <= v j)%nat) /\
      held ptr res 0 L F (r_os s) /\ res' = set_refcount 1 res
  | None => if decide (r_held s = ∅) then wiped ptr L F (r_os s)
      else held ptr res (Z.of_nat (size (r_held s))) L F (r_os s)
  end.

Lemma clean_up_held res L F o :
  held ptr res 0 L F o ->
  wiped ptr L F (clean_up ptr (set_refcount 1 res) o) /\ faults (clean_up ptr (set_refcount 1 res) o) = faults o.
Proof.
  intros H. set (o1 := set_pages (<[ptr := set_refcount 1 res]> (pages o)) o).
  assert (clean_up ptr (set_refcount 1 res) o = release ptr o1) as E.
  { rewrite release_halves. unfold fetch_sub, o1. cbn [set_pages pages]. rewrite lookup_insert_eq.
    cbn [refcount set_refcount Z.eqb Pos.eqb]. f_equal. destruct H as (Hp & _ & _). destruct o as [lv fs pg fa k].
    cbn in *. unfold set_pages. cbn. rewrite insert_insert_eq. f_equal. symmetry.
    rewrite usize_small by lia. by apply insert_id. }
  rewrite E. assert (held ptr res 1 L F o1) as H1.
  { destruct H as (_ & Hl & Hf). split; [|done]. unfold o1. cbn. apply lookup_insert_eq. }
  destruct (release_last _ _ _ _ _ H1) as (H2 & H3 & H4 & H5). done.
Qed.
Lemma fetch_sub_held res L F o n :
  held ptr res n L F o -> 1 <= n < 2 ^ 31 ->
  exists o', fetch_sub ptr o = (Some (set_refcount n res), o') /\ held ptr res (n - 1) L F o' /\
    faults o' = faults o.
Proof.
  intros (Hp & Hl & Hf) Hn. unfold fetch_sub. rewrite Hp. eexists. split; [done|]. split; [|done].
  split; [|done]. cbn. by rewrite lookup_insert_eq, usize_small by lia.
Qed.

Lemma rc_ok_live res L F n o w hs us l i v : hs !! i = Some v ->
  rc_ok res L F n (mkRc o w hs us l) <->
  faults o = n /\ covered (mkRc o w hs us l) /\ Z.of_nat (size hs) < 2 ^ 31 /\ l = None /\
  held ptr res (Z.of_nat (size hs)) L F o.
Proof.
  intros Hi. assert (hs <> ∅) as Hne by (intros ->; by rewrite lookup_empty in Hi).
  unfold rc_ok. cbn [r_os r_held r_last]. destruct l as [[v' r]|].
  - split; [by intros (_ & _ & _ & E & _)|by intros (_ & _ & _ & ? & _)].
  - rewrite decide_False by done. naive_solver.
Qed.
Lemma covered_insert o w hs us us' l i v v' :
  hs !! i = Some v -> covered (mkRc o w hs us l) -> (us' i <= v' i)%nat ->
  (forall j, j <> i -> us' j = us j) -> covered (mkRc o w (<[i := v']> hs) us' l).
Proof.
  intros Hi Hc Hle He j. specialize (Hc j). cbn [r_used r_held r_value] in *. destruct (decide (j = i)) as [->|Hij].
  - by rewrite lookup_insert_eq.
  - rewrite lookup_insert_ne by done. by rewrite He.
Qed.
Lemma release_ok res L F n o w hs us v v' w' i bf o' :
  hs !! i = Some v -> rmw release_ord v w = (v', w') -> fetch_sub ptr o = (bf, o') ->
  rc_ok res L F n (mkRc o w hs us None) ->
  rc_ok res L F n (mkRc o' w' (base.delete i hs) us
    (match bf with Some res => if refcount res =? 1 then Some (v', res) else None | None => None end)).
Proof.
  intros Hi E Ef (Hn & Hc & Hsz & _ & Hh)%(rc_ok_live _ _ _ _ _ _ _ _ _ _ _ Hi).
  assert (hs <> ∅) as Hne by (intros ->; by rewrite lookup_empty in Hi).
  pose proof (map_size_ne_0_lookup_2 hs i ltac:(by eauto)) as Hs1.
  assert (size hs = S (size (base.delete i hs))) as Hs2 by (rewrite map_size_delete_Some by eauto; lia).
  destruct (fetch_sub_held _ _ _ _ _ Hh ltac:(lia)) as (o1 & Ef' & Hh' & Hf'). rewrite Ef in Ef'. injection Ef' as -> <-.
  cbn [refcount set_refcount]. injection E as <- <-.
  assert (covered (mkRc o' (both v w) (base.delete i hs) us None)) as Hc'.
  { intros j. specialize (Hc j). unfold both. cbn [r_used r_held r_value] in *. destruct (decide (j = i)) as [->|Hij].
    - rewrite lookup_delete_eq. rewrite Hi in Hc. lia.
    - rewrite lookup_delete_ne by done. destruct (hs !! j); [done|lia]. }
  split; [cbn; congruence|]. split; [exact Hc'|]. split; [cbn; lia|]. cbn [r_last r_held r_used r_os].
  destruct (Z.eqb_spec (Z.of_nat (size hs)) 1) as [H1|H1].
  - assert (base.delete i hs = ∅) as He by (apply map_size_empty_iff; lia). rewrite H1 in Hh'.
    split; [done|]. split; [|by rewrite H1]. intros j. specialize (Hc' j). cbn in Hc'. by rewrite He, lookup_empty in Hc'.
  - rewrite decide_False by (intros He; rewrite He, map_size_empty in Hs2; lia).
    by replace (Z.of_nat (size (base.delete i hs))) with (Z.of_nat (size hs) - 1) by lia.
Qed.

Lemma rc_step_ok res L F n s s' : rc_step s s' -> rc_ok res L F n s -> rc_ok res L F n s'.
Proof.
  intros Hst.
  destruct Hst as [i o w hs us l v Hi|i j o w hs us l v v' Hi Hj
    |i j o w hs us l v v' w' Hi Hj Hu Hlt E|i o w hs us l v v' w' bf o' Hi E Ef|o w hs us v res'].
  - rewrite (rc_ok_live _ _ _ _ _ _ _ _ _ _ _ Hi), (rc_ok_live _ _ _ _ _ _ _ _ _ i _ (lookup_insert_eq _ _ _)).
    intros (Hn & Hc & Hsz & Hl & Hh). rewrite map_size_insert_Some by eauto. split_and!; try done.
    apply (covered_insert _ _ _ us _ _ i v); [done..| |]; unfold one_more; [|intros j Hij; by rewrite decide_False].
    specialize (Hc i). cbn [r_used r_held r_value] in Hc. rewrite Hi in Hc. rewrite !decide_True by done. lia.
  - rewrite (rc_ok_live _ _ _ _ _ _ _ _ _ _ _ Hi), (rc_ok_live _ _ _ _ _ _ _ _ _ i _ (lookup_insert_eq _ _ _)).
    intros (Hn & Hc & Hsz & Hl & Hh). rewrite map_size_insert_Some by eauto. split_and!; try done.
    apply (covered_insert _ _ _ us _ _ i v); [done..| |done]. unfold both.
    specialize (Hc i). cbn [r_used r_held r_value] in Hc. rewrite Hi in Hc. lia.
  - assert (i <> j) as Hij by congruence. injection E as <- <-.
    rewrite (rc_ok_live _ _ _ _ _ _ _ _ _ _ _ Hi), (rc_ok_live _ _ _ _ _ _ _ _ _ j _ (lookup_insert_eq _ _ _)).
    intros (Hn & Hc & Hsz & Hl & Hh). rewrite (insert_id hs i v Hi), map_size_insert_None by done.
    destruct (retain_held _ _ _ _ _ _ Hh ltac:(lia)) as [Hh' Hf]. split_and!; [congruence| |lia|done|].
    + intros k. specialize (Hc k). cbn [r_used r_held r_value] in *. destruct (decide (k = j)) as [->|Hkj].
      * rewrite lookup_insert_eq, Hu. lia.
      * by rewrite lookup_insert_ne.
    + by replace (Z.of_nat (S (size hs))) with (Z.of_nat (size hs) + 1) by lia.
  - intros Hok. pose proof (proj1 (rc_ok_live _ _ _ _ _ _ _ _ _ _ _ Hi) Hok) as (_ & _ & _ & -> & _).
    by apply (release_ok _ _ _ _ _ _ _ _ _ _ _ _ _ _ Hi E Ef).
  - intros (Hn & Hc & Hsz & He & Hv & Hh & ->). cbn in *. subst hs.
    destruct (clean_up_held _ _ _ _ Hh) as [Hw Hf]. split; [cbn [r_os]; congruence|]. split; [exact Hc|].
    split; [done|]. cbn [r_last r_held r_os]. by rewrite decide_True.
Qed.

(** C8. However many threads use, split, share and drop the handles, and whatever
    each has seen of the others, the mappings go only when no handle is left, by
    the one thread that decremented the count from one, and that thread is ordered
    after every use any handle ever made, though retaining is relaxed.  Until then
    the page counts the handles exactly and everything it owns is mapped; after
    it everything has been released, once. *)
Theorem unmap_after_every_use res L F o s :
  held ptr res 1 L F o -> rtc rc_step (start o) s ->
  faults (r_os s) = faults o /\
  (forall i v, r_held s !! i = Some v -> r_last s = None /\
     held ptr res (Z.of_nat (size (r_held s))) L F (r_os s)) /\
  (forall v res', r_last s = Some (v, res') ->
     r_held s = ∅ /\ (forall j, (r_used s j <= v j)%nat) /\
     live (r_os s) = L ⊎ owned_regions res /\ wiped ptr L F (clean_up ptr res' (r_os s))) /\
  (r_held s = ∅ -> r_last s = None -> wiped ptr L F (r_os s)).
Proof.
  intros Hh Hr. assert (rc_ok res L F (faults o) (start o)) as Hok.
  { unfold start. rewrite (rc_ok_live _ _ _ _ _ _ _ _ _ 0%nat nothing (lookup_singleton_eq _ _)).
    rewrite map_size_singleton. split_and!; try done. intros j. cbn. unfold nothing. lia. }
  assert (rc_ok res L F (faults o) s) as (Hn & Hc & Hsz & Hl).
  { clear Hh. induction Hr as [|s1 s2 s3 Hs Hr IH]; [done|]. apply IH. by apply (rc_step_ok _ _ _ _ _ _ Hs). }
  split; [done|]. split; [|split].
  - intros i v Hi. destruct (r_last s) as [[v' r]|]; [by destruct Hl as [E _]; rewrite E in Hi|].
    rewrite decide_False in Hl; [done|]. intros E. by rewrite E in Hi.
  - intros v res' E. rewrite E in Hl. destruct Hl as (He & Hv & Hh' & ->). split; [done|]. split; [done|].
    split; [by destruct Hh' as (_ & ? & _)|]. by apply clean_up_held.
  - intros He E. rewrite E in Hl. by rewrite decide_True in Hl.
Qed.
End Threads.

(** ** Concrete run *)
(** A ring is split, both halves are used, the submission half is dropped on its
    thread and then the completion half on its own, which finds itself last. *)
Definition dropped_os : Os unit :=
  snd (fetch_sub 4096 (snd (fetch_sub 4096 (retain 4096 demo_os)))).
Definition both_used : seen := both (one_more 1 nothing) (both (one_more 0 nothing) nothing).
Definition two_dropped : rc :=
  mkRc dropped_os both_used ∅ (one_more 1 (one_more 0 nothing)) (Some (both_used, demo_page)).
Lemma two_dropped_run : rtc (rc_step 4096) (start demo_os) two_dropped.
Proof.
  eapply rtc_l; [apply (rc_retain 4096 0 1 _ _ _ _ _ nothing); reflexivity|].
  eapply rtc_l; [by apply (rc_use 4096 0 _ _ _ _ _ nothing)|].
  eapply rtc_l; [by apply (rc_use 4096 1 _ _ _ _ _ nothing)|].
  eapply rtc_l; [by apply (rc_release 4096 0 _ _ _ _ _ (one_more 0 nothing))|].
  eapply rtc_l; [by apply (rc_release 4096 1 _ _ _ _ _ (one_more 1 nothing))|].
  apply rtc_refl.
Qed.
Lemma unmap_after_every_use_witness :
  held 4096 demo_page 1 ∅ ∅ demo_os /\
  (forall j, (r_used two_dropped j <= both_used j)%nat) /\
  live (clean_up 4096 demo_page (r_os two_dropped)) = ∅ /\ faults (r_os two_dropped) = 0%nat.
Proof.
  destruct (unmap_after_every_use 4096 demo_page ∅ ∅ demo_os two_dropped demo_held two_dropped_run)
    as (Hf & _ & Hl & _).
  destruct (Hl both_used demo_page eq_refl) as (_ & Hv & _ & Hw & _).
  split; [exact demo_held|]. split; [exact Hv|]. split; [exact Hw|exact Hf].
Defined.
