(* ===== verification/Split.v ===== *)
(** * Splitting a ring (ring/mod.rs, `IoUring::split` and the drops)

    `split` hands the two halves copies of the handle's fields and one more
    reference to the shared resources.  The halves run the same code on the
    same memory: each operation of a half is the unified handle's operation
    seen through its fields. *)
From stdpp Require Import base numbers list option gmap gmultiset.
From Stdlib Require Import ZArith Lia.
From S2P Require Import Prelude Flags Types RingIndex Sqe SqeFile SqeNet Kernel Ring RingSpec.
From S2P Require Import RingCorrect Resources.
Local Open Scope Z_scope.
Local Open Scope rust_scope.

(** The fields each half receives. *)
Definition submitter_of (r : IoUring.t) : Submitter.t :=
  Submitter.mk (IoUring.fd r) (IoUring.sq_mask r) (IoUring.sq_tail_local r)
    (IoUring.sq_submitted r) (IoUring.features r) (IoUring.resources r).
Definition completer_of (r : IoUring.t) : Completer.t :=
  Completer.mk (IoUring.fd r) (IoUring.cq_mask r) (IoUring.cq_head_local r)
    (IoUring.resources r).

Section Split.
  Context {K : Type} {PW : PtrWidth}.
(* src/src/ring/mod.rs:1081-1119 IoUring::split *)
Definition split (self : IoUring.t) (o : Os K)
  : result (Submitter.t * Completer.t) (IoUring.t * Error) * Os K :=
  if IoUring.setup_flags_forbid_split (IoUring.setup_flags self) then
    let err := from_setup (InvalidArg (IncompatibleSplit (IoUring.setup_flags self))) in
    (Err (self, err), o)
  else
    let o := retain (IoUring.resources self) o in
    (Ok (submitter_of self, completer_of self), o).

(* src/src/ring/mod.rs:1142-1147 IoUring::drop *)
Definition drop_ring (r : IoUring.t) (m : Shm) (o : Os K) : Shm * Os K :=
  (set_cq_khead (IoUring.cq_head_local r) m, release (IoUring.resources r) o).
(* src/src/ring/mod.rs:406-410 Submitter::drop *)
Definition drop_submitter (r : Submitter.t) (m : Shm) (o : Os K) : Shm * Os K :=
  (m, release (Submitter.resources r) o).
(* src/src/ring/mod.rs:508-514 Completer::drop *)
Definition drop_completer (r : Completer.t) (m : Shm) (o : Os K) : Shm * Os K :=
  (set_cq_khead (Completer.cq_head_local r) m, release (Completer.resources r) o).
End Split.

(** ** When a ring can be split *)
Lemma bit_test f b : 0 <= b -> negb ((f &&& (1 <<< b)) =? 0) = Z.testbit f b.
Proof.
  intros Hb. destruct (Z.testbit f b) eqn:E.
  - apply negb_true_iff, Z.eqb_neq. intros H0.
    assert (Z.testbit (f &&& (1 <<< b)) b = false) as Ht by (by rewrite H0, Z.bits_0).
    rewrite Z.land_spec, E, Z.shiftl_spec, Z.sub_diag in Ht by lia. done.
  - apply negb_false_iff, Z.eqb_eq. apply Z.bits_inj'. intros n Hn.
    rewrite Z.land_spec, Z.bits_0, Z.shiftl_spec by lia.
    destruct (decide (n = b)) as [->|Hne]; [by rewrite E|].
    destruct (decide (n < b)); [by rewrite (Z.testbit_neg_r 1) by lia; apply andb_false_r|].
    rewrite (Z.bits_above_log2 1 (n - b)) by (cbn; lia). apply andb_false_r.
Qed.

(** `split` is refused exactly for the rings the kernel pins to one
    thread (`DEFER_TASKRUN`, or `SINGLE_ISSUER` without `SQPOLL`), and a
    refusal hands the ring back with nothing changed; otherwise both halves
    carry the handle's state and dropping them, in either order, releases
    the ring's resources once, when the second one goes. *)
Theorem split_behaviour {K : Type} {PW : PtrWidth} (r : IoUring.t) (m : Shm) (o : Os K) res L F :
  held (IoUring.resources r) res 1 L F o ->
  let fl := IoUring.setup_flags r in
  IoUring.can_split r =
    negb (Z.testbit fl 13 || (Z.testbit fl 12 && negb (Z.testbit fl 1))) /\
  match split r o with
  | (Err (r', e), o') =>
      IoUring.can_split r = false /\ r' = r /\ o' = o /\
      e = Setup (InvalidArg (IncompatibleSplit fl))
  | (Ok (sub, com), o') =>
      IoUring.can_split r = true /\ live o' = live o /\ fds o' = fds o /\
      faults o' = faults o /\
      (let o1 := snd (drop_submitter sub m o') in let o2 := snd (drop_completer com m o1) in
       live o1 = live o /\ fds o1 = fds o /\ live o2 = L /\ fds o2 = F /\ faults o2 = faults o) /\
      (let o1 := snd (drop_completer com m o') in let o2 := snd (drop_submitter sub m o1) in
       live o1 = live o /\ fds o1 = fds o /\ live o2 = L /\ fds o2 = F /\ faults o2 = faults o)
  end.
Proof.
  intros Hh fl. split.
  { unfold IoUring.can_split, IoUring.setup_flags_forbid_split.
    change SetupFlags.SQPOLL with (1 <<< 1). change SetupFlags.SINGLE_ISSUER with (1 <<< 12).
    change SetupFlags.DEFER_TASKRUN with (1 <<< 13). by rewrite !bit_test by lia. }
  unfold split, IoUring.can_split.
  destruct (IoUring.setup_flags_forbid_split _); [done|].
  destruct (retain_held _ _ _ _ _ _ Hh ltac:(lia)) as [H2 Hf2].
  change (1 + 1) with 2 in H2.
  set (o' := retain _ o) in *.
  destruct (release_shared _ _ _ _ _ _ H2 ltac:(lia)) as [H1 Hf1]. change (2 - 1) with 1 in H1.
  destruct (release_last _ _ _ _ _ H1) as (Hl & Hfd & _ & Hf0).
  destruct Hh as (_ & HL & HF). pose proof H2 as (_ & HL2 & HF2). pose proof H1 as (_ & HL1 & HF1).
  cbn [drop_submitter drop_completer snd submitter_of completer_of Submitter.resources
    Completer.resources].
  split_and!; congruence || done.
Qed.

Lemma split_behaviour_witness :
  let r := IoUring.mk 3 3 0 0 7 0 0 4096 0 4096 in
  held (IoUring.resources r) demo_page 1 ∅ ∅ demo_os /\
  IoUring.can_split r = negb (Z.testbit 4096 13 || (Z.testbit 4096 12 && negb (Z.testbit 4096 1))).
Proof.
  cbv zeta. split; [exact demo_held|].
  exact (proj1 (split_behaviour (IoUring.mk 3 3 0 0 7 0 0 4096 0 4096) (mem demo) demo_os
    demo_page ∅ ∅ demo_held)).
Defined.

(** ** The halves run the unified handle's code *)
Section Halves.
  Context {K : Type} `{HK : Kernel K}.
  Notation St := (Sys IoUring.t K).
Definition sub_view (s : St) : Sys Submitter.t K :=
  mkSys (submitter_of (hd s)) (mem s) (kern s).
Definition com_view (s : St) : Sys Completer.t K :=
  mkSys (completer_of (hd s)) (mem s) (kern s).
Definition view_result {A B E} (f : A -> B) (p : result E Error * A) : result E Error * B :=
  (fst p, f (snd p)).

(** The halves are the unified handle in two parts: every submission
    operation of [Submitter] and every completion operation of [Completer]
    returns what the corresponding operation of [IoUring] returns and leaves
    the same memory, kernel and fields.  The differences are the documented
    ones: `IoUring::submit` also publishes the completion head after a
    successful call, and `IoUring::submit_and_wait` before it. *)
Theorem halves_agree (s : St) e ud n :
  Submitter.push e (sub_view s) = view_result sub_view (IoUring.push e s) /\
  Submitter.push_nop ud (sub_view s) = view_result sub_view (IoUring.push_nop ud s) /\
  Submitter.flush_sq_tail (sub_view s) = view_result sub_view (IoUring.flush_sq_tail s) /\
  Submitter.submit_sqpoll (sub_view s) = view_result sub_view (IoUring.submit_sqpoll s) /\
  Submitter.sq_space_left (sub_view s) = IoUring.sq_space_left s /\
  Submitter.sq_need_wakeup (sub_view s) = IoUring.sq_need_wakeup s /\
  (let '(r, s') := Submitter.submit (sub_view s) in
   let '(r0, s0) := IoUring.submit s in
   r = r0 /\ hd s' = submitter_of (hd s0) /\ kern s' = kern s0 /\
   mem s0 = match r with
            | Ok 0 => if u32_sub (IoUring.sq_tail_local (hd s)) (IoUring.sq_submitted (hd s)) =? 0
                      then mem s' else set_cq_khead (IoUring.cq_head_local (hd s)) (mem s')
            | Ok _ => set_cq_khead (IoUring.cq_head_local (hd s)) (mem s')
            | Err _ => mem s'
            end) /\
  (IoUring.backpressure s = false ->
   Submitter.submit_and_wait n (sub_view (flush_head s)) =
   view_result sub_view (IoUring.submit_and_wait n s)) /\
  (let '(c, s') := Completer.complete (com_view s) in
   let '(c0, s0) := IoUring.complete s in c = c0 /\ s' = com_view s0) /\
  Completer.sync_cq (com_view s) = view_result com_view (IoUring.sync_cq s).
Proof.
  split_and!; try reflexivity.
  - unfold Submitter.push, IoUring.push, bind, get, sub_view, view_result. cbn.
    by destruct (_ >? _).
  - unfold Submitter.push_nop, IoUring.push_nop, Submitter.push, IoUring.push, bind, get,
      sub_view, view_result. cbn. by destruct (_ >? _).
  - unfold Submitter.submit_sqpoll, IoUring.submit_sqpoll, Submitter.flush_sq_tail,
      IoUring.flush_sq_tail, Submitter.sq_need_wakeup, IoUring.sq_need_wakeup, bind, get, modify,
      sub_view, view_result, enter. cbn. destruct (negb _); [|done].
    by destruct (io_uring_enter _ _ _ _ _ _) as [[[?|?] ?] ?].
  - unfold Submitter.submit, IoUring.submit, Submitter.flush_sq_tail, IoUring.flush_sq_tail,
      IoUring.flush_cq_head, bind, get, modify, sub_view, enter. cbn.
    destruct (_ =? 0); [done|].
    destruct (io_uring_enter _ _ _ _ _ _) as [[[r|?] ?] ?]; [|done]. cbn.
    split_and!; try done. by destruct (wrap 32 r).
  - intros Hb. rewrite submit_and_wait_run. cbv zeta.
    change (IoUring.backpressure (flush_tail (flush_head s))) with (IoUring.backpressure s).
    rewrite Hb. unfold Submitter.submit_and_wait, Submitter.flush_sq_tail, enter_counted, bind,
      get, modify, sub_view, view_result, enter, ret, account. cbn.
    by destruct (io_uring_enter _ _ _ _ _ _) as [[[?|?] ?] ?].
  - unfold Completer.complete, IoUring.complete, com_view. cbn. by destruct (_ =? _).
Qed.
End Halves.
