(* ===== verification/Layout.v ===== *)
(** * Ring memory: sizes, mappings, parsing (ring/layout.rs, ring/no_mmap.rs)

    The sizes the library maps or allocates, the mmap sequence with its
    cleanup, and the reading of the mapped rings.  Memory is a function from
    addresses to 32-bit words; a `usize` computation is the plain one, with
    theorems that it fits. *)
From stdpp Require Import base numbers list option gmap gmultiset.
From Stdlib Require Import ZArith Lia.
From S2P Require Import Prelude Flags Types Resources.
Local Open Scope Z_scope.
Local Open Scope rust_scope.

(** ** Setup parameters *)
(* src/src/types/buffers.rs:3-15 IoSqringOffsets *)
Record SqOffsets : Set := mkSqOff {
  so_head : Z; so_tail : Z; so_ring_mask : Z; so_ring_entries : Z; so_flags : Z;
  so_dropped : Z; so_array : Z; so_resv1 : Z; so_user_addr : Z
}.
(* src/src/types/buffers.rs:17-29 IoCqringOffsets *)
Record CqOffsets : Set := mkCqOff {
  co_head : Z; co_tail : Z; co_ring_mask : Z; co_ring_entries : Z; co_overflow : Z;
  co_cqes : Z; co_flags : Z; co_resv1 : Z; co_user_addr : Z
}.
(* src/src/types/sqe_cqe.rs:5-18 IoUringParams *)
Record Params : Set := mkParams {
  p_sq_entries : Z; p_cq_entries : Z; p_flags : Z; p_sq_thread_cpu : Z; p_sq_thread_idle : Z;
  p_features : Z; p_wq_fd : Z; p_sq_off : SqOffsets; p_cq_off : CqOffsets
}.

(** ** Sizes *)
(* src/src/ring/layout.rs:35-38 ring_bytes *)
Definition ring_bytes (offset count elem_size : Z) : Z := offset + count * elem_size.

(** `next_power_of_two` on `u32`; a debug build panics above [2 ^ 31], where a
    release build wraps to zero. *)
Definition next_power_of_two (n : Z) : Z :=
  if n <=? 1 then 1 else as_u32 (2 ^ Z.log2_up n).
(** `len.next_multiple_of(m)` *)
Definition next_multiple_of (len m : Z) : Z := if len mod m =? 0 then len else len + (m - len mod m).

(* src/src/ring/no_mmap.rs:28-28 PAGE_SIZE *)
Definition PAGE_SIZE : Z := 4096.
(* src/src/ring/no_mmap.rs:29-29 IORING_MAX_ENTRIES *)
Definition IORING_MAX_ENTRIES : Z := 32768.
(* src/src/ring/no_mmap.rs:30-30 IORING_MAX_CQ_ENTRIES *)
Definition IORING_MAX_CQ_ENTRIES : Z := 2 * IORING_MAX_ENTRIES.
(* src/src/ring/no_mmap.rs:38-38 RINGS_HEADER_SLACK *)
Definition RINGS_HEADER_SLACK : Z := 128.

(* src/src/ring/no_mmap.rs:51-72 predict_entries *)
Definition predict_entries (requested : Z) (params : Params) : Z * Z :=
  let clamp := contains (p_flags params) SetupFlags.CLAMP in
  let entries := if (requested >? IORING_MAX_ENTRIES) && clamp then IORING_MAX_ENTRIES
                 else requested in
  let sq_entries := next_power_of_two entries in
  let cqsize := contains (p_flags params) SetupFlags.CQSIZE in
  let cq_entries :=
    if cqsize && (p_cq_entries params >? 0) then
      let cq := p_cq_entries params in
      let cq := if (cq >? IORING_MAX_CQ_ENTRIES) && clamp then IORING_MAX_CQ_ENTRIES else cq in
      Z.max (next_power_of_two cq) sq_entries
    else Z.min (sq_entries * 2) 4294967295 in
  (sq_entries, cq_entries).
(* src/src/ring/no_mmap.rs:74-76 page_align *)
Definition page_align (len : Z) : Z := next_multiple_of len PAGE_SIZE.
(* src/src/ring/no_mmap.rs:82-89 ring_region_size *)
Definition ring_region_size (sq_entries cq_entries : Z) (has_sq_array : bool) : Z :=
  let size := RINGS_HEADER_SLACK * 2 in
  let size := size + cq_entries * 16 in
  let size := if has_sq_array then size + sq_entries * 4 else size in
  page_align size + PAGE_SIZE.
(* src/src/ring/no_mmap.rs:93-95 sqes_region_size *)
Definition sqes_region_size (sq_entries : Z) : Z := page_align (sq_entries * 64).

(** ** The kernel's answers *)
Class SetupKernel (K : Type) := {
  sys_mmap : forall (len fd offset : Z), K -> result Z Errno * K;
  sys_setup : forall (entries : Z), Params -> K -> result Z Errno * Params * K;
  sys_ram : K -> Z -> Z
}.
(** mmap(2) rejects a zero length, and a descriptor or a mapping is handed out
    by nothing else here. *)
Class SetupLaws (K : Type) `{SetupKernel K} := {
  mmap_positive : forall len fd off k a k', sys_mmap len fd off k = (Ok a, k') -> 0 < len
}.

Section Mapping.
  Context {K : Type} {PW : PtrWidth} `{SetupKernel K}.
Definition mmap (len fd offset : Z) (o : Os K) : result Z Error * Os K :=
  match sys_mmap len fd offset (oracle o) with
  | (Ok a, k) => (Ok a, mkOs (live o ⊎ {[+ (a, len) +]}) (fds o) (pages o) (faults o) k)
  | (Err e, k) => (Err (from_errno e), mkOs (live o) (fds o) (pages o) (faults o) k)
  end.

(** What [map_rings] hands back. *)
Record Maps : Set := mkMaps {
  m_sq_ring_ptr : Z; m_mmap_sz : Z; m_cq_ring_ptr : Z; m_cq_region : MappedRegion;
  m_sqes_ptr : Z; m_sqes_sz : Z
}.

(** The guard is updated after each mapping, so the caller's guard covers
    exactly what exists when a later mapping fails. *)
(* src/src/ring/layout.rs:44-145 map_rings *)
Definition map_rings (fd : Z) (params : Params) (features setup_flags : Z)
  (guard : SetupGuard) (o : Os K) : result Maps Error * SetupGuard * Os K :=
  let has_sq_array := negb (contains setup_flags SetupFlags.NO_SQARRAY) in
  let sq_ring_sz :=
    if has_sq_array then ring_bytes (so_array (p_sq_off params)) (p_sq_entries params) 4
    else ring_bytes (so_array (p_sq_off params)) 0 4 in
  let cq_ring_sz := ring_bytes (co_cqes (p_cq_off params)) (p_cq_entries params) 16 in
  let single_mmap := contains features Features.SINGLE_MMAP in
  let mmap_sz := if single_mmap then Z.max sq_ring_sz cq_ring_sz else sq_ring_sz in
  match mmap mmap_sz fd (RingOffset.raw RingOffset.SqRing) o with
  | (Err e, o) => (Err e, guard, o)
  | (Ok sq_ring_ptr, o) =>
      let guard := mkGuard (g_fd guard) (new_region sq_ring_ptr mmap_sz)
                     (g_cq_ring guard) (g_sqes guard) in
      let '(cq, guard, o) :=
        if single_mmap then (Ok (sq_ring_ptr, new_region 0 0), guard, o)
        else
          match mmap cq_ring_sz fd (RingOffset.raw RingOffset.CqRing) o with
          | (Err e, o) => (Err e, guard, o)
          | (Ok ptr, o) =>
              (Ok (ptr, new_region ptr cq_ring_sz),
               mkGuard (g_fd guard) (g_sq_ring guard) (new_region ptr cq_ring_sz) (g_sqes guard), o)
          end in
      match cq with
      | Err e => (Err e, guard, o)
      | Ok (cq_ring_ptr, cq_ring_region) =>
          let sqes_sz := ring_bytes 0 (p_sq_entries params) 64 in
          match mmap sqes_sz fd (RingOffset.raw RingOffset.Sqes) o with
          | (Err e, o) => (Err e, guard, o)
          | (Ok sqes_ptr, o) =>
              let guard := mkGuard (g_fd guard) (g_sq_ring guard) (g_cq_ring guard)
                             (new_region sqes_ptr sqes_sz) in
              (Ok (mkMaps sq_ring_ptr mmap_sz cq_ring_ptr cq_ring_region sqes_ptr sqes_sz),
               guard, o)
          end
      end
  end.

(** ** NO_MMAP allocation *)
(* src/src/ring/no_mmap.rs:118-121 NoMmapRegions *)
Record NoMmapRegions : Set := mkNoMmap { ring_region : MappedRegion; sqes_region : MappedRegion }.
(** An anonymous mapping: `fd` is `usize::MAX`. *)
(* src/src/ring/no_mmap.rs:97-111 alloc_anon *)
Definition alloc_anon (len : Z) (o : Os K) : result MappedRegion Error * Os K :=
  match mmap len (-1) 0 o with
  | (Ok addr, o) => (Ok (new_region addr len), o)
  | (Err e, o) => (Err e, o)
  end.
Definition set_user_addrs (cq sq : Z) (p : Params) : Params :=
  let s := p_sq_off p in let c := p_cq_off p in
  mkParams (p_sq_entries p) (p_cq_entries p) (p_flags p) (p_sq_thread_cpu p)
    (p_sq_thread_idle p) (p_features p) (p_wq_fd p)
    (mkSqOff (so_head s) (so_tail s) (so_ring_mask s) (so_ring_entries s) (so_flags s)
       (so_dropped s) (so_array s) (so_resv1 s) sq)
    (mkCqOff (co_head c) (co_tail c) (co_ring_mask c) (co_ring_entries c) (co_overflow c)
       (co_cqes c) (co_flags c) (co_resv1 c) cq).
(* src/src/ring/no_mmap.rs:141-165 NoMmapGuard::alloc *)
Definition no_mmap_alloc (entries : Z) (params : Params) (o : Os K)
  : result (NoMmapRegions * Params) Error * Os K :=
  let has_sq_array := negb (contains (p_flags params) SetupFlags.NO_SQARRAY) in
  let '(sq_entries, cq_entries) := predict_entries entries params in
  match alloc_anon (ring_region_size sq_entries cq_entries has_sq_array) o with
  | (Err e, o) => (Err e, o)
  | (Ok ring_region, o) =>
      match alloc_anon (sqes_region_size sq_entries) o with
      | (Err err, o) => (Err err, munmap ring_region o)
      | (Ok sqes_region, o) =>
          let params := set_user_addrs (as_u64 (r_addr ring_region))
                          (as_u64 (r_addr sqes_region)) params in
          (Ok (mkNoMmap ring_region sqes_region, params), o)
      end
  end.
(* src/src/ring/no_mmap.rs:181-190 NoMmapGuard::drop *)
Definition drop_no_mmap (g : NoMmapRegions) (o : Os K) : Os K :=
  let o := munmap (sqes_region g) o in munmap (ring_region g) o.

(* src/src/ring/resources.rs:101-133 RingResources::alloc *)
Definition alloc_resources (fd : Z) (sq_ring cq_ring sqes : MappedRegion) (o : Os K)
  : result Z Error * Os K :=
  let page_size := 4096 in
  let len := next_multiple_of (10 * (usize_bits / 8)) page_size in
  match mmap len (-1) 0 o with
  | (Err e, o) => (Err e, o)
  | (Ok addr, o) =>
      (Ok addr, set_pages
        (<[addr := mkRes 1 fd sq_ring cq_ring sqes (new_region addr len)]> (pages o)) o)
  end.
End Mapping.

(** ** Parsing the mapped rings *)
Definition write_word (ram : Z -> Z) (a v : Z) : Z -> Z := fun b => if b =? a then v else ram b.

Record SqView : Set := mkSqView {
  sv_head : Z; sv_tail : Z; sv_mask : Z; sv_flags : Z; sv_sqes : Z; sv_tail_local : Z
}.
Record CqView : Set := mkCqView {
  cv_head : Z; cv_tail : Z; cv_mask : Z; cv_cqes : Z; cv_head_local : Z
}.

(** `for i in 0..sq_entries { sq_array[i] = i }` *)
(* src/src/ring/layout.rs:200-202 parse_sq (array fill) *)
Fixpoint fill_sq_array (sq_array : Z) (n : nat) (ram : Z -> Z) : Z -> Z :=
  match n with
  | O => ram
  | S n => write_word (fill_sq_array sq_array n ram) (sq_array + 4 * Z.of_nat n) (Z.of_nat n)
  end.
(* src/src/ring/layout.rs:162-214 parse_sq *)
Definition parse_sq (sq_ring_ptr sqes_ptr : Z) (params : Params) (has_sq_array : bool)
  (ram : Z -> Z) : SqView * (Z -> Z) :=
  let base := sq_ring_ptr in
  let off := p_sq_off params in
  let sq_head := base + so_head off in
  let sq_tail := base + so_tail off in
  let sq_mask := ram (base + so_ring_mask off) in
  let sq_flags := base + so_flags off in
  let ram := if has_sq_array
             then fill_sq_array (base + so_array off) (Z.to_nat (p_sq_entries params)) ram
             else ram in
  let sq_tail_local := ram sq_tail in
  (mkSqView sq_head sq_tail sq_mask sq_flags sqes_ptr sq_tail_local, ram).
(* src/src/ring/layout.rs:223-246 parse_cq *)
Definition parse_cq (cq_ring_ptr : Z) (params : Params) (ram : Z -> Z) : CqView :=
  let base := cq_ring_ptr in
  let off := p_cq_off params in
  let cq_head := base + co_head off in
  let cq_tail := base + co_tail off in
  let cq_mask := ram (base + co_ring_mask off) in
  let cqes := base + co_cqes off in
  let cq_head_local := ram cq_head in
  mkCqView cq_head cq_tail cq_mask cqes cq_head_local.

(** ** The array fill *)
Lemma fill_hit a n ram i :
  (i < n)%nat -> fill_sq_array a n ram (a + 4 * Z.of_nat i) = Z.of_nat i.
Proof.
  induction n as [|n IH]; intros Hi; [lia|]. cbn [fill_sq_array]. unfold write_word.
  destruct (Z.eqb_spec (a + 4 * Z.of_nat i) (a + 4 * Z.of_nat n)); [lia|]. apply IH. lia.
Qed.
Lemma fill_miss a n ram b :
  (b < a \/ a + 4 * Z.of_nat n <= b) -> fill_sq_array a n ram b = ram b.
Proof.
  induction n as [|n IH]; intros Hb; [done|]. cbn [fill_sq_array]. unfold write_word.
  destruct (Z.eqb_spec b (a + 4 * Z.of_nat n)); [lia|]. apply IH. lia.
Qed.

(** After `parse_sq` the indirection array is the identity, so the entry
    the kernel picks for ring index [i], `sqes[sq_array[i & mask]]`, is the
    slot `push` wrote, `sqes[i & mask]`; the fill stays inside the mapping
    [map_rings] made and disturbs none of the ring's own words. *)
Theorem parse_sq_identity base sqes_ptr params ram i :
  let off := p_sq_off params in
  let n := p_sq_entries params in
  0 <= n -> 0 <= so_array off ->
  ram (base + so_ring_mask off) = n - 1 ->
  (exists k, 0 <= k < 32 /\ n = 2 ^ k) ->
  (* the kernel lays the header words out before the array *)
  so_head off < so_array off -> so_tail off < so_array off -> so_ring_mask off < so_array off ->
  let '(v, ram') := parse_sq base sqes_ptr params true ram in
  let slot := i &&& sv_mask v in
  0 <= slot < n /\ ram' (base + so_array off + 4 * slot) = slot /\
  base + so_array off + 4 * slot + 4 <= base + ring_bytes (so_array off) n 4 /\
  ram' (base + so_head off) = ram (base + so_head off) /\
  sv_tail_local v = ram (base + so_tail off) /\ sv_mask v = n - 1.
Proof.
  intros off n Hn Ha Hm (k & Hk & Hpow) Hh Ht Hmk. unfold parse_sq. fold off n. cbn [sv_mask sv_tail_local].
  rewrite Hm. assert (0 <= i &&& (n - 1) < n) as Hs.
  { rewrite Hpow, land_mask_mod by lia. apply Z.mod_pos_bound. lia. }
  split; [done|]. split.
  { rewrite <- (Z2Nat.id (i &&& (n - 1))) at 1 by lia. rewrite fill_hit by lia. lia. }
  split; [unfold ring_bytes; lia|].
  rewrite !fill_miss by lia. done.
Qed.

Definition demo_params : Params :=
  mkParams 4 8 0 0 0 1 0 (mkSqOff 0 4 16 24 36 32 256 0 0) (mkCqOff 8 12 20 28 44 64 40 0 0).
Lemma parse_sq_identity_witness :
  let ram := fun a => if a =? 8192 + 16 then 3 else 0 in
  snd (parse_sq 8192 65536 demo_params true ram) (8192 + 256 + 4 * (7 &&& 3)) = 7 &&& 3.
Proof.
  cbv zeta. set (ram := fun a : Z => if a =? 8192 + 16 then 3 else 0).
  assert (exists k, 0 <= k < 32 /\ p_sq_entries demo_params = 2 ^ k) as Hk by (by exists 2).
  pose proof (parse_sq_identity 8192 65536 demo_params ram 7
    ltac:(cbn; lia) ltac:(cbn; lia) eq_refl Hk eq_refl eq_refl eq_refl) as Hid.
  destruct (parse_sq _ _ _ _ _) as [v ram'] eqn:E. destruct Hid as (_ & Hid & _ & _ & _ & Hv).
  rewrite Hv in Hid. exact Hid.
Defined.
