(* ===== verification/Setup.v ===== *)
(** * Creating a ring (ring/builder.rs, `IoUring::from_params`)

    The builder collects setup flags; `from_params` validates them, performs
    the syscalls and owns every mapping and descriptor through a guard until
    the shared resource page takes over.  The theorems account for every
    resource on every path. *)
From stdpp Require Import base numbers list option gmap gmultiset.
From Stdlib Require Import ZArith Lia.
From S2P Require Import Prelude Flags Types RingIndex Sqe SqeFile SqeNet Kernel Ring Resources.
From S2P Require Import RingOps Layout.
Local Open Scope Z_scope.
Local Open Scope rust_scope.

(** ** The builder *)
Module Builder.
(* src/src/ring/builder.rs:17-20 IoUringBuilder *)
Record t : Set := mk { entries : Z; params : Params }.
(** The zeroed parameters. *)
(* src/src/types/sqe_cqe.rs:5-18 IoUringParams::default *)
Definition default_params : Params :=
  mkParams 0 0 0 0 0 0 0 (mkSqOff 0 0 0 0 0 0 0 0 0) (mkCqOff 0 0 0 0 0 0 0 0 0).
Definition or_flags (b : t) (f : Z) : t :=
  let p := params b in
  mk (entries b) (mkParams (p_sq_entries p) (p_cq_entries p) (p_flags p ||| f)
    (p_sq_thread_cpu p) (p_sq_thread_idle p) (p_features p) (p_wq_fd p)
    (p_sq_off p) (p_cq_off p)).
(** Panics on zero entries. *)
(* src/src/ring/builder.rs:28-35 IoUringBuilder::new *)
Definition new (n : Z) : option t := if n >? 0 then Some (mk n default_params) else None.
(* src/src/ring/builder.rs:51-55 IoUringBuilder::iopoll *)
Definition iopoll (b : t) : t := or_flags b SetupFlags.IOPOLL.
(* src/src/ring/builder.rs:61-66 IoUringBuilder::sqpoll *)
Definition sqpoll (idle_ms : Z) (b : t) : t :=
  let b := or_flags b SetupFlags.SQPOLL in let p := params b in
  mk (entries b) (mkParams (p_sq_entries p) (p_cq_entries p) (p_flags p) (p_sq_thread_cpu p)
    idle_ms (p_features p) (p_wq_fd p) (p_sq_off p) (p_cq_off p)).
(* src/src/ring/builder.rs:69-74 IoUringBuilder::sqpoll_cpu *)
Definition sqpoll_cpu (cpu : Z) (b : t) : t :=
  let b := or_flags b (SetupFlags.SQPOLL ||| SetupFlags.SQ_AFF) in let p := params b in
  mk (entries b) (mkParams (p_sq_entries p) (p_cq_entries p) (p_flags p) cpu
    (p_sq_thread_idle p) (p_features p) (p_wq_fd p) (p_sq_off p) (p_cq_off p)).
(* src/src/ring/builder.rs:77-82 IoUringBuilder::cq_entries *)
Definition cq_entries (n : Z) (b : t) : t :=
  let b := or_flags b SetupFlags.CQSIZE in let p := params b in
  mk (entries b) (mkParams (p_sq_entries p) n (p_flags p) (p_sq_thread_cpu p)
    (p_sq_thread_idle p) (p_features p) (p_wq_fd p) (p_sq_off p) (p_cq_off p)).
(* src/src/ring/builder.rs:85-89 IoUringBuilder::clamp *)
Definition clamp (b : t) : t := or_flags b SetupFlags.CLAMP.
(* src/src/ring/builder.rs:92-96 IoUringBuilder::single_issuer *)
Definition single_issuer (b : t) : t := or_flags b SetupFlags.SINGLE_ISSUER.
(* src/src/ring/builder.rs:102-106 IoUringBuilder::coop_taskrun *)
Definition coop_taskrun (b : t) : t := or_flags b SetupFlags.COOP_TASKRUN.
(* src/src/ring/builder.rs:113-117 IoUringBuilder::defer_taskrun *)
Definition defer_taskrun (b : t) : t :=
  or_flags b (SetupFlags.DEFER_TASKRUN ||| SetupFlags.COOP_TASKRUN).
(* src/src/ring/builder.rs:120-125 IoUringBuilder::attach_wq *)
Definition attach_wq (wq_fd : Z) (b : t) : t :=
  let b := or_flags b SetupFlags.ATTACH_WQ in let p := params b in
  mk (entries b) (mkParams (p_sq_entries p) (p_cq_entries p) (p_flags p) (p_sq_thread_cpu p)
    (p_sq_thread_idle p) (p_features p) wq_fd (p_sq_off p) (p_cq_off p)).
(* src/src/ring/builder.rs:134-138 IoUringBuilder::r_disabled *)
Definition r_disabled (b : t) : t := or_flags b SetupFlags.R_DISABLED.
(* src/src/ring/builder.rs:148-152 IoUringBuilder::submit_all *)
Definition submit_all (b : t) : t := or_flags b SetupFlags.SUBMIT_ALL.
(* src/src/ring/builder.rs:162-166 IoUringBuilder::taskrun_flag *)
Definition taskrun_flag (b : t) : t := or_flags b SetupFlags.TASKRUN_FLAG.
(* src/src/ring/builder.rs:176-180 IoUringBuilder::no_sqarray *)
Definition no_sqarray (b : t) : t := or_flags b SetupFlags.NO_SQARRAY.
(* src/src/ring/builder.rs:192-196 IoUringBuilder::no_mmap *)
Definition no_mmap (b : t) : t := or_flags b SetupFlags.NO_MMAP.
(* src/src/ring/builder.rs:205-209 IoUringBuilder::setup_flags *)
Definition setup_flags (flags : Z) (b : t) : t := or_flags b flags.
End Builder.

Section Setup.
  Context {K : Type} {PW : PtrWidth} `{SK : SetupKernel K}.

(** The ring handle with the addresses its pointers hold. *)
Record Built : Type := mkBuilt {
  b_ring : IoUring.t;
  b_sq : SqView;
  b_cq : CqView;
  b_ram : Z -> Z
}.

(** From the mapped regions to the handle: parse, then move ownership from
    the guard to the resource page. *)
(* src/src/ring/mod.rs:749-794 IoUring::from_params (after mapping) *)
Definition finish_setup (fd : Z) (params : Params) (features setup_flags : Z) (maps : Maps)
  (guard : SetupGuard) (o : Os K) : result Built Error * Os K :=
  let has_sq_array := negb (contains setup_flags SetupFlags.NO_SQARRAY) in
  let '(sq, ram) := parse_sq (m_sq_ring_ptr maps) (m_sqes_ptr maps) params has_sq_array
                      (sys_ram (oracle o)) in
  let cq := parse_cq (m_cq_ring_ptr maps) params ram in
  match alloc_resources fd (new_region (m_sq_ring_ptr maps) (m_mmap_sz maps)) (m_cq_region maps)
          (new_region (m_sqes_ptr maps) (m_sqes_sz maps)) o with
  | (Err e, o) => (Err e, drop_guard guard o)
  | (Ok resources, o) =>
      (Ok (mkBuilt (IoUring.mk fd (sv_mask sq) (sv_tail_local sq) (sv_tail_local sq)
             (cv_mask cq) (cv_head_local cq) features setup_flags DO_TAG_MARKER resources)
             sq cq ram), o)
  end.

(** `io_uring_setup(entries, params)?`: a new descriptor. *)
Definition io_uring_setup (entries : Z) (params : Params) (o : Os K)
  : result (Z * Params) Error * Os K :=
  match sys_setup entries params (oracle o) with
  | (Err e, _, k) => (Err (from_errno e), mkOs (live o) (fds o) (pages o) (faults o) k)
  | (Ok fd, params, k) =>
      (Ok (fd, params), mkOs (live o) (fds o ⊎ {[+ fd +]}) (pages o) (faults o) k)
  end.

(* src/src/ring/mod.rs:694-795 IoUring::from_params *)
Definition from_params (entries : Z) (params : Params) (o : Os K)
  : result Built Error * Os K :=
  let unsupported := p_flags params &&& not_flags 32 SetupFlags.SUPPORTED_MASK in
  if negb (unsupported =? 0) then
    (Err (from_setup (InvalidArg (UnsupportedSetupFlags unsupported))), o)
  else
    let setup_flags := p_flags params in
    let no_mmap := contains setup_flags SetupFlags.NO_MMAP in
    if no_mmap then
      match no_mmap_alloc entries params o with
      | (Err e, o) => (Err e, o)
      | (Ok (regions, params), o) =>
          match io_uring_setup entries params o with
          | (Err e, o) => (Err e, drop_no_mmap regions o)
          | (Ok (fd, params), o) =>
              let features := p_features params in
              let guard := mkGuard fd (ring_region regions) no_region (sqes_region regions) in
              finish_setup fd params features setup_flags
                (mkMaps (r_addr (ring_region regions)) (r_len (ring_region regions))
                   (r_addr (ring_region regions)) (new_region 0 0)
                   (r_addr (sqes_region regions)) (r_len (sqes_region regions))) guard o
          end
      end
    else
      match io_uring_setup entries params o with
      | (Err e, o) => (Err e, o)
      | (Ok (fd, params), o) =>
          let features := p_features params in
          match map_rings fd params features setup_flags (new_guard fd) o with
          | (Err e, guard, o) => (Err e, drop_guard guard o)
          | (Ok maps, guard, o) =>
              finish_setup fd params features setup_flags maps guard o
          end
      end.

(* src/src/ring/builder.rs:220-222 IoUringBuilder::build *)
Definition build (b : Builder.t) : Os K -> result Built Error * Os K :=
  from_params (Builder.entries b) (Builder.params b).
(** `new` panics on zero. *)
(* src/src/ring/mod.rs:544-546 IoUring::new *)
Definition new_ring (entries : Z) (o : Os K) : option (result Built Error * Os K) :=
  match Builder.new entries with
  | Some b => Some (build b o)
  | None => None
  end.
End Setup.

(** ** Every path accounts for its resources *)
Section Balance.
  Context {K : Type} {PW : PtrWidth} `{SK : SetupKernel K} `{SL : !SetupLaws K}.

(** What a setup step may leave behind: nothing on an error, one page holding
    everything new on success. *)
Definition balanced (L : gmultiset (Z * Z)) (F : gmultiset Z) (P : gmap Z RingResources) (n : nat)
  (out : result Built Error * Os K) : Prop :=
  match out with
  | (Err _, o) => live o = L /\ fds o = F /\ pages o = P /\ faults o = n
  | (Ok b, o) =>
      faults o = n /\ exists res, held (IoUring.resources (b_ring b)) res 1 L F o /\
        res_fd res = IoUring.fd (b_ring b)
  end.

Lemma region_set_pos r : 0 < r_len r -> region_set r = {[+ r +]}.
Proof. intros Hr. unfold region_set. by destruct (Z.gtb_spec (r_len r) 0); [|lia]. Qed.

Lemma region_set_none : region_set (new_region 0 0) = ∅.
Proof. reflexivity. Qed.

(** Collects the guarded regions of a partly filled guard. *)
Ltac regions :=
  unfold guarded_regions, no_region; cbn [g_sqes g_cq_ring g_sq_ring new_guard];
  rewrite ?region_set_none, ?region_set_pos by done; unfold no_region, new_region;
  multiset_solver.

Lemma finish_balance params features setup_flags maps g L F P n k :
  0 < m_mmap_sz maps -> 0 < m_sqes_sz maps ->
  g_sq_ring g = new_region (m_sq_ring_ptr maps) (m_mmap_sz maps) ->
  g_cq_ring g = m_cq_region maps ->
  g_sqes g = new_region (m_sqes_ptr maps) (m_sqes_sz maps) ->
  balanced L F P n (finish_setup (g_fd g) params features setup_flags maps g
    (mkOs (L ⊎ guarded_regions g) (F ⊎ {[+ g_fd g +]}) P n k)).
Proof.
  intros Hsq Hsqes Eq Ec Es. unfold finish_setup. destruct (parse_sq _ _ _ _ _) as [sq ram].
  unfold alloc_resources, mmap. cbn [oracle live fds pages faults].
  destruct (sys_mmap _ _ _ _) as [[a|e] k'] eqn:Em; cbn -[drop_guard guarded_regions owned_regions].
  - split; [done|].
    exists (mkRes 1 (g_fd g) (new_region (m_sq_ring_ptr maps) (m_mmap_sz maps)) (m_cq_region maps)
      (new_region (m_sqes_ptr maps) (m_sqes_sz maps))
      (new_region a (next_multiple_of (10 * (usize_bits / 8)) 4096))).
    split; [split; [|split]|].
    + cbn. apply lookup_insert_eq.
    + cbn [live set_pages]. unfold owned_regions, guarded_regions.
      cbn [res_sqes res_cq_ring res_sq_ring self_page]. rewrite Eq, Ec, Es.
      rewrite !(region_set_pos (new_region _ _)) by done. multiset_solver.
    + done.
    + done.
  - by rewrite drop_guard_live.
Qed.

Lemma mmap_pos len fd off o a o' :
  mmap len fd off o = (Ok a, o') -> 0 < len.
Proof.
  unfold mmap. destruct (sys_mmap _ _ _ _) as [[b|e] k'] eqn:Em; [|done].
  intros _. by eapply mmap_positive.
Qed.

(** The three mappings of [map_rings] and its failures. *)
Lemma map_rings_balance fd params features setup_flags L F P n k :
  match map_rings fd params features setup_flags (new_guard fd)
          (mkOs L (F ⊎ {[+ fd +]}) P n k) with
  | (Ok maps, g, o) => exists k', o = mkOs (L ⊎ guarded_regions g) (F ⊎ {[+ fd +]}) P n k' /\
      g_fd g = fd /\ 0 < m_mmap_sz maps /\ 0 < m_sqes_sz maps /\
      g_sq_ring g = new_region (m_sq_ring_ptr maps) (m_mmap_sz maps) /\
      g_cq_ring g = m_cq_region maps /\
      g_sqes g = new_region (m_sqes_ptr maps) (m_sqes_sz maps)
  | (Err _, g, o) => exists k', o = mkOs (L ⊎ guarded_regions g) (F ⊎ {[+ fd +]}) P n k' /\
      g_fd g = fd
  end.
Proof.
  unfold map_rings. set (sz := if contains features _ then _ else _).
  unfold mmap at 1. cbn [oracle live fds pages faults].
  destruct (sys_mmap sz _ _ _) as [[a|e] k1] eqn:E1.
  2: { exists k1. split; [|done]. f_equal. regions. }
  apply mmap_positive in E1 as P1.
  destruct (contains features Features.SINGLE_MMAP).
  - unfold mmap. cbn [oracle live fds pages faults g_fd g_cq_ring g_sqes g_sq_ring new_guard].
    destruct (sys_mmap _ _ _ k1) as [[c|e] k2] eqn:E2.
    + apply mmap_positive in E2 as P2. exists k2. split_and!; try done. f_equal. regions.
    + exists k2. split; [|done]. f_equal. regions.
  - unfold mmap at 1. cbn [oracle live fds pages faults g_fd g_cq_ring g_sqes g_sq_ring new_guard].
    destruct (sys_mmap _ _ _ k1) as [[b|e] k2] eqn:E2.
    2: { exists k2. split; [|done]. f_equal. regions. }
    apply mmap_positive in E2 as P2. unfold mmap.
    cbn [oracle live fds pages faults g_fd g_cq_ring g_sqes g_sq_ring].
    destruct (sys_mmap _ _ _ k2) as [[c|e] k3] eqn:E3.
    + apply mmap_positive in E3 as P3. exists k3. split_and!; try done. f_equal. regions.
    + exists k3. split; [|done]. f_equal. regions.
Qed.

(** C18. Creating a ring never leaks and never releases twice: whatever the
    kernel answers to `mmap` and `io_uring_setup`, in the single-mmap, the
    dual-mmap and the NO_MMAP layouts, an error leaves the live mappings, the
    open descriptors and the resource pages exactly as they were, and a
    success leaves one resource page, held once, that owns precisely the new
    mappings and the new descriptor. *)
Theorem from_params_balanced entries params o :
  balanced (live o) (fds o) (pages o) (faults o) (from_params entries params o).
Proof.
  destruct o as [L F P n k]. cbn [live fds pages faults]. unfold from_params.
  destruct (negb _); [done|]. destruct (contains _ SetupFlags.NO_MMAP).
  - unfold no_mmap_alloc. destruct (predict_entries _ _) as [sqn cqn].
    unfold alloc_anon at 1, mmap at 1. cbn [oracle live fds pages faults].
    destruct (sys_mmap _ _ _ k) as [[a|e] k1] eqn:E1; [|done].
    apply mmap_positive in E1 as P1.
    unfold alloc_anon, mmap. cbn [oracle live fds pages faults].
    destruct (sys_mmap _ _ _ k1) as [[b|e] k2] eqn:E2; [|by rewrite munmap_live].
    apply mmap_positive in E2 as P2. unfold io_uring_setup. cbn [oracle live fds pages faults].
    destruct (sys_setup _ _ _) as [[[fd|e] ps] k3].
    2: { unfold drop_no_mmap. cbn [sqes_region ring_region]. by rewrite !munmap_live. }
    set (g := mkGuard _ _ _ _). cbn [ring_region sqes_region] in *.
    match goal with |- balanced _ _ _ _ (finish_setup _ _ _ _ _ _ (mkOs ?l _ _ _ _)) =>
      replace l with (L ⊎ guarded_regions g) end.
    + by apply (finish_balance _ _ _ _ g).
    + subst g. regions.
  - unfold io_uring_setup. cbn [oracle live fds pages faults].
    destruct (sys_setup _ _ _) as [[[fd|e] ps] k3]; [|done].
    pose proof (map_rings_balance fd ps (p_features ps) (p_flags params) L F P n k3) as Hm.
    destruct (map_rings _ _ _ _ _ _) as [[[maps|e] g] o].
    + destruct Hm as (k' & -> & <- & ? & ? & ? & ? & ?). by apply finish_balance.
    + destruct Hm as (k' & -> & <-). by rewrite drop_guard_live.
Qed.

(** Past the flag check every error is a syscall's. *)
Definition syscall_error {A} (r : result A Error) : Prop :=
  match r with Ok _ => True | Err e => exists e', e = Syscall e' end.
Lemma mmap_error len fd off (o : Os K) : syscall_error (fst (mmap len fd off o)).
Proof. unfold mmap. destruct (sys_mmap _ _ _ _) as [[?|e] ?]; [done|]. by exists e. Qed.
Lemma alloc_anon_error len (o : Os K) : syscall_error (fst (alloc_anon len o)).
Proof.
  unfold alloc_anon. pose proof (mmap_error len (-1) 0 o) as He.
  by destruct (mmap _ _ _ _) as [[?|?] ?].
Qed.
Lemma setup_error entries params (o : Os K) :
  syscall_error (fst (io_uring_setup entries params o)).
Proof.
  unfold io_uring_setup. destruct (sys_setup _ _ _) as [[[?|e] ?] ?]; [done|]. by exists e.
Qed.
Lemma finish_error fd params ft fl maps g (o : Os K) :
  syscall_error (fst (finish_setup fd params ft fl maps g o)).
Proof.
  unfold finish_setup, alloc_resources. destruct (parse_sq _ _ _ _ _) as [sq ram].
  pose proof (mmap_error (next_multiple_of (10 * (usize_bits / 8)) 4096) (-1) 0 o) as He.
  by destruct (mmap _ _ _ _) as [[?|?] ?].
Qed.
Lemma map_rings_error fd params ft fl g (o : Os K) :
  syscall_error (fst (fst (map_rings fd params ft fl g o))).
Proof.
  unfold map_rings.
  set (sz := if contains ft _ then _ else _).
  pose proof (mmap_error sz fd (RingOffset.raw RingOffset.SqRing) o) as H1.
  destruct (mmap sz _ _ _) as [[a|?] o1]; [|done].
  destruct (contains ft _).
  - match goal with |- context [mmap ?l ?f ?x ?y] => pose proof (mmap_error l f x y) as H2;
      destruct (mmap l f x y) as [[?|?] ?] end; done.
  - match goal with |- context [mmap ?l ?f (RingOffset.raw RingOffset.CqRing) ?y] =>
      pose proof (mmap_error l f (RingOffset.raw RingOffset.CqRing) y) as H2;
      destruct (mmap l f _ y) as [[?|?] o2] end; [|done].
    match goal with |- context [mmap ?l ?f ?x o2] => pose proof (mmap_error l f x o2) as H3;
      destruct (mmap l f x o2) as [[?|?] ?] end; done.
Qed.

(** Flags the mapping code cannot honour are refused before any syscall:
    the error names exactly the unsupported bits and nothing has happened.
    With supported flags only, every error is one a syscall returned. *)
Theorem unsupported_flags_refused entries params o :
  let bad := p_flags params &&& not_flags 32 SetupFlags.SUPPORTED_MASK in
  (bad <> 0 -> from_params entries params o =
     (Err (Setup (InvalidArg (UnsupportedSetupFlags bad))), o)) /\
  (bad = 0 -> syscall_error (fst (from_params entries params o))) /\
  (forall b, 0 <= b < 32 -> Z.testbit bad b = true <->
     Z.testbit (p_flags params) b = true /\ b ∉ [0; 1; 2; 3; 4; 5; 6; 7; 8; 9; 12; 13; 14; 16]).
Proof.
  cbv zeta. split; [|split].
  - intros Hb. unfold from_params. apply Z.eqb_neq in Hb. by rewrite Hb.
  - intros Hb. unfold from_params. rewrite Hb. cbn [Z.eqb negb].
    destruct (contains _ SetupFlags.NO_MMAP).
    + unfold no_mmap_alloc. destruct (predict_entries _ _) as [sqn cqn].
      match goal with |- context [alloc_anon ?l o] => pose proof (alloc_anon_error l o) as H1;
        destruct (alloc_anon l o) as [[r1|?] o1] end; [|done].
      match goal with |- context [alloc_anon ?l o1] => pose proof (alloc_anon_error l o1) as H2;
        destruct (alloc_anon l o1) as [[r2|?] o2] end; [|done].
      match goal with |- context [io_uring_setup ?e ?p o2] => pose proof (setup_error e p o2) as H3;
        destruct (io_uring_setup e p o2) as [[[fd ps]|?] o3] end; [|done].
      apply finish_error.
    + match goal with |- context [io_uring_setup ?e ?p o] => pose proof (setup_error e p o) as H3;
        destruct (io_uring_setup e p o) as [[[fd ps]|?] o3] end; [|done].
      match goal with |- context [map_rings ?a ?b ?c ?d ?e ?f] =>
        pose proof (map_rings_error a b c d e f) as H4;
        destruct (map_rings a b c d e f) as [[[m|?] g] o4] end; [|done].
      apply finish_error.
  - intros b Hb. rewrite Z.land_spec, andb_true_iff. apply and_iff_compat_l.
    assert (Forall (fun b => Z.testbit (not_flags 32 SetupFlags.SUPPORTED_MASK) b = true <->
      b ∉ [0; 1; 2; 3; 4; 5; 6; 7; 8; 9; 12; 13; 14; 16]) (seqZ 0 32)) as Hall.
    { apply Forall_forall. intros x Hx.
      assert (forallb (fun x => Bool.eqb (Z.testbit (not_flags 32 SetupFlags.SUPPORTED_MASK) x)
        (bool_decide (x ∉ [0; 1; 2; 3; 4; 5; 6; 7; 8; 9; 12; 13; 14; 16]))) (seqZ 0 32) = true)
        as Hc by (vm_compute; reflexivity).
      rewrite forallb_forall in Hc. specialize (Hc x Hx).
      apply Bool.eqb_prop in Hc. rewrite Hc. apply bool_decide_eq_true. }
    rewrite Forall_forall in Hall. apply Hall. apply list_elem_of_In, elem_of_seqZ. lia.
Qed.
End Balance.

(** ** Sizes *)
(** The region [map_rings] asks the kernel for covers every array the
    library touches: the SQ indirection array (when there is one), all CQEs
    (in the shared mapping too) and all SQEs. *)
Theorem map_rings_covers {K : Type} `{SK : SetupKernel K} fd params ft fl g (o : Os K) :
  0 <= p_sq_entries params -> 0 <= p_cq_entries params ->
  match map_rings fd params ft fl g o with
  | (Ok maps, _, _) =>
      (contains fl SetupFlags.NO_SQARRAY = false -> forall i, 0 <= i < p_sq_entries params ->
         so_array (p_sq_off params) + 4 * i + 4 <= m_mmap_sz maps) /\
      (forall i, 0 <= i < p_cq_entries params ->
         m_cq_ring_ptr maps + co_cqes (p_cq_off params) + 16 * i + 16 <=
         if contains ft Features.SINGLE_MMAP then m_sq_ring_ptr maps + m_mmap_sz maps
         else r_addr (m_cq_region maps) + r_len (m_cq_region maps)) /\
      (forall i, 0 <= i < p_sq_entries params -> 64 * i + 64 <= m_sqes_sz maps)
  | _ => True
  end.
Proof.
  intros Hs Hc. unfold map_rings. destruct (mmap _ _ _ _) as [[a|?] o1]; [|done].
  destruct (contains ft _) eqn:Ef.
  - destruct (mmap _ _ _ o1) as [[b|?] o2]; [|done].
    cbn [m_mmap_sz m_cq_ring_ptr m_sq_ring_ptr m_sqes_sz]. unfold ring_bytes.
    split_and!; [intros ->; cbn [negb]|..]; intros i Hi; lia.
  - destruct (mmap _ _ _ o1) as [[b|?] o2]; [|done].
    destruct (mmap _ _ _ o2) as [[c|?] o3]; [|done].
    cbn [m_mmap_sz m_cq_ring_ptr m_sq_ring_ptr m_sqes_sz m_cq_region r_addr r_len new_region fst snd].
    unfold ring_bytes. split_and!; [intros ->; cbn [negb]|..]; intros i Hi; lia.
Qed.

(** A concrete kernel: mappings at increasing addresses, descriptor 3. *)
Record ToyOs : Set := mkToyOs { next_addr : Z; toy_mmaps_left : nat }.
#[export] Instance toy_setup : SetupKernel ToyOs := {
  sys_mmap len fd off k :=
    match toy_mmaps_left k with
    | O => (Err 12, k)
    | S n => if 0 <? len then (Ok (next_addr k), mkToyOs (next_addr k + len) n) else (Err 22, k)
    end;
  sys_setup entries p k := (Ok 3, mkParams 4 8 (p_flags p) 0 0 1 0
    (mkSqOff 0 4 16 24 36 32 256 0 (so_user_addr (p_sq_off p)))
    (mkCqOff 8 12 20 28 44 64 40 0 (co_user_addr (p_cq_off p))), k);
  sys_ram k a := if a mod 4096 =? 16 then 3 else if a mod 4096 =? 20 then 7 else 0
}.
#[export] Instance toy_setup_laws : SetupLaws ToyOs.
Proof.
  constructor. intros len fd off k a k'. cbn. destruct (toy_mmaps_left k); [done|].
  by destruct (Z.ltb_spec 0 len).
Qed.
Definition toy_os (n : nat) : Os ToyOs := mkOs ∅ ∅ ∅ 0 (mkToyOs 8192 n).

(** The third mapping fails after two succeeded: nothing is left. *)
Lemma from_params_balanced_witness :
  fst (from_params 4 (Builder.params (Builder.mk 4 Builder.default_params)) (toy_os 1)) =
    Err (Syscall 12) /\
  live (snd (from_params 4 Builder.default_params (toy_os 1))) = ∅ /\
  fds (snd (from_params 4 Builder.default_params (toy_os 1))) = ∅.
Proof.
  split; [reflexivity|].
  pose proof (from_params_balanced 4 Builder.default_params (toy_os 1)) as H.
  assert (is_ok (fst (from_params 4 Builder.default_params (toy_os 1))) = false) as He by reflexivity.
  destruct (from_params 4 Builder.default_params (toy_os 1)) as [[b|e] o]; [done|].
  exact (conj (proj1 H) (proj1 (proj2 H))).
Defined.

Lemma unsupported_flags_refused_witness :
  fst (from_params 4 (Builder.params (Builder.setup_flags 2048 (Builder.mk 4 Builder.default_params)))
    (toy_os 9)) = Err (Setup (InvalidArg (UnsupportedSetupFlags 2048))).
Proof.
  rewrite (proj1 (unsupported_flags_refused 4
    (Builder.params (Builder.setup_flags 2048 (Builder.mk 4 Builder.default_params))) (toy_os 9))
    ltac:(vm_compute; congruence)).
  reflexivity.
Defined.

Lemma map_rings_covers_witness :
  is_ok (fst (fst (map_rings 3 demo_params 1 0 (new_guard 3) (toy_os 9)))) = true /\
  match map_rings 3 demo_params 1 0 (new_guard 3) (toy_os 9) with
  | (Ok maps, _, _) => 64 * 3 + 64 <= m_sqes_sz maps
  | _ => True
  end.
Proof.
  split; [reflexivity|].
  pose proof (map_rings_covers 3 demo_params 1 0 (new_guard 3) (toy_os 9)
    ltac:(cbn; lia) ltac:(cbn; lia)) as H.
  destruct (map_rings 3 demo_params 1 0 (new_guard 3) (toy_os 9)) as [[[m|?] ?] ?]; [|done].
  refine (proj2 (proj2 H) 3 _). cbn. lia.
Defined.

(** ** NO_MMAP sizes *)
Lemma next_power_of_two_spec n :
  1 <= n <= 2 ^ 31 ->
  n <= next_power_of_two n < 2 * n /\ next_power_of_two n <= 2 ^ 31 /\
  exists k, 0 <= k <= 31 /\ next_power_of_two n = 2 ^ k.
Proof.
  intros Hn. unfold next_power_of_two. destruct (Z.leb_spec n 1) as [H1|H1].
  - assert (n = 1) as -> by lia. change (2 ^ 31) with 2147483648. split; [lia|]. split; [lia|].
    exists 0. lia.
  - destruct (Z.log2_up_spec n H1) as [Hl Hu].
    pose proof (Z.log2_up_nonneg n). assert (Z.log2_up n <= 31) as Hb by (apply Z.log2_up_le_pow2; lia).
    assert (2 ^ Z.log2_up n <= 2 ^ 31) as Hp by (apply Z.pow_le_mono_r; lia).
    change (2 ^ 31) with 2147483648 in *.
    assert (as_u32 (2 ^ Z.log2_up n) = 2 ^ Z.log2_up n) as ->.
    { apply wrap_small. split; [lia|]. change (2 ^ 32) with 4294967296. lia. }
    rewrite <- Z.sub_1_r in Hl. assert (0 < Z.log2_up n) as Hlog by (apply (Z.log2_up_pos); lia).
    assert (2 ^ Z.log2_up n = 2 * 2 ^ (Z.log2_up n - 1)) as Hd
      by (rewrite <- Z.pow_succ_r by lia; f_equal; lia).
    split; [lia|]. split; [lia|]. exists (Z.log2_up n). lia.
Qed.

Lemma next_multiple_spec len m :
  0 < m -> 0 <= len ->
  len <= next_multiple_of len m < len + m /\ next_multiple_of len m mod m = 0.
Proof.
  intros Hm Hl. unfold next_multiple_of. pose proof (Z.mod_pos_bound len m Hm).
  destruct (Z.eqb_spec (len mod m) 0); [lia|]. split; [lia|].
  replace (len + (m - len mod m)) with ((len / m + 1) * m) by (pose proof (Z.div_mod len m); lia).
  apply Z.mod_mul. lia.
Qed.

(** For every request the kernel can accept (or clamps), the predicted
    sizes are powers of two that hold the request, the ring region the
    NO_MMAP path allocates covers both header blocks and every array with a
    page to spare, and both regions are whole pages; without `CLAMP` a
    request above [2 ^ 31] wraps to zero entries instead. *)
Theorem no_mmap_sizes requested params (has : bool) :
  0 < requested -> 0 <= p_cq_entries params <= 2 ^ 31 ->
  let clamp := contains (p_flags params) SetupFlags.CLAMP in
  let '(sq, cq) := predict_entries requested params in
  (requested <= 2 ^ 31 \/ clamp = true ->
     (exists k, 0 <= k <= 31 /\ sq = 2 ^ k) /\
     (if clamp then Z.min requested IORING_MAX_ENTRIES else requested) <= sq /\
     sq <= cq /\ 1 <= sq /\
     256 + 16 * cq + (if has then 4 * sq else 0) + PAGE_SIZE <= ring_region_size sq cq has /\
     ring_region_size sq cq has mod PAGE_SIZE = 0 /\
     64 * sq <= sqes_region_size sq /\ sqes_region_size sq mod PAGE_SIZE = 0) /\
  (clamp = false -> 2 ^ 31 < requested -> in_u 32 requested -> sq = 0).
Proof.
  intros Hreq Hcq. cbv zeta. unfold predict_entries.
  set (entries := if _ && _ then IORING_MAX_ENTRIES else requested).
  set (clamp := contains (p_flags params) SetupFlags.CLAMP) in *. split.
  - intros Hok. assert (1 <= entries <= 2 ^ 31 /\
      (if clamp then Z.min requested IORING_MAX_ENTRIES else requested) <= entries) as [He Hmin].
    { subst entries. unfold IORING_MAX_ENTRIES. change (2 ^ 31) with 2147483648 in *.
      destruct clamp; rewrite ?andb_true_r, ?andb_false_r;
        [destruct (Z.gtb_spec requested 32768); lia|]. destruct Hok; [lia|done]. }
    destruct (next_power_of_two_spec entries He) as (H1 & H2 & H3).
    set (sq := next_power_of_two entries) in *.
    set (cq := if _ && (p_cq_entries params >? 0) then _ else _).
    assert (sq <= cq) as Hle.
    { subst cq. change (2 ^ 31) with 2147483648 in *. clearbody sq.
      destruct (contains (p_flags params) SetupFlags.CQSIZE && _); lia. }
    unfold ring_region_size, sqes_region_size, page_align, PAGE_SIZE, RINGS_HEADER_SLACK.
    destruct (next_multiple_spec (sq * 64) 4096 ltac:(lia) ltac:(lia)) as [Hs1 Hs2].
    replace (if has then 128 * 2 + cq * 16 + sq * 4 else 128 * 2 + cq * 16)
      with (256 + 16 * cq + (if has then 4 * sq else 0)) by (destruct has; lia).
    assert (0 <= if has then 4 * sq else 0) as Harr by (destruct has; lia).
    set (sz := 256 + _ + _) in *.
    destruct (next_multiple_spec sz 4096 ltac:(lia) ltac:(lia)) as [Hz1 Hz2].
    split_and!; try done; try lia. rewrite <- Zplus_mod_idemp_l, Hz2. done.
  - intros Hc Hbig Hu. subst entries. rewrite Hc, andb_false_r. unfold next_power_of_two.
    destruct (Z.leb_spec requested 1); [change (2 ^ 31) with 2147483648 in *; lia|].
    assert (Z.log2_up requested = 32) as ->; [|done].
    destruct Hu as [_ Hu].
    assert (Z.log2_up requested <= 32) by (apply Z.log2_up_le_pow2; lia).
    assert (31 < Z.log2_up requested); [|lia]. by apply Z.log2_up_lt_pow2; [lia|].
Qed.

Lemma no_mmap_sizes_witness :
  let p := Builder.default_params in
  predict_entries 5 p = (8, 16) /\ 64 * 8 <= sqes_region_size 8.
Proof.
  cbv zeta. split; [reflexivity|].
  pose proof (no_mmap_sizes 5 Builder.default_params true ltac:(lia) ltac:(cbn; lia)) as H.
  change (predict_entries 5 Builder.default_params) with (8, 16) in H. cbv zeta iota in H.
  destruct H as [H _]. assert (5 <= 2 ^ 31) as Hle by (vm_compute; congruence).
  destruct (H (or_introl Hle)) as (_ & _ & _ & _ & _ & _ & Hs & _). exact Hs.
Defined.
