(* ===== verification/Pbuf.v ===== *)
(** * Provided-buffer rings (ring/pbuf.rs)

    A pool of equal buffers the kernel picks from: the producer ring of
    descriptors in shared memory, whose tail half-word lives in the reserved
    field of entry 0, and the delivery ledger.  The kernel's side of
    `io_uring_register` is the class [RegisterKernel]. *)
From stdpp Require Import base numbers list option gmap gmultiset.
From Stdlib Require Import ZArith Lia.
From S2P Require Import Prelude Flags Types RingIndex Resources Layout.
Local Open Scope Z_scope.
Local Open Scope rust_scope.

(** ** Data *)
(* src/src/types/buffers.rs:36-48 IoUringBufReg *)
Record IoUringBufReg : Set := mkBufReg {
  br_ring_addr : Z; br_ring_entries : Z; br_bgid : Z; br_flags : Z; br_resv : list Z
}.
(* src/src/types/buffers.rs:72-83 IoUringBuf *)
Record IoUringBuf : Set := mkBuf { ib_addr : Z; ib_len : Z; ib_bid : Z; ib_resv : Z }.
(* src/src/types/buffers.rs:281-287 IoUringBufStatus *)
Record IoUringBufStatus : Set := mkBufStatus { bs_buf_group : Z; bs_head : Z; bs_resv : list Z }.
#[export] Instance IoUringBuf_inhabited : Inhabited IoUringBuf := populate (mkBuf 0 0 0 0).

(** The descriptor part of an entry, without the half-word that aliases the
    tail. *)
Definition desc (e : IoUringBuf) : Z * Z * Z := (ib_addr e, ib_len e, ib_bid e).
Definition set_resv (v : Z) (e : IoUringBuf) : IoUringBuf :=
  mkBuf (ib_addr e) (ib_len e) (ib_bid e) v.

(* src/src/ring/pbuf.rs:13-13 MAX_PBUF_RING_ENTRIES *)
Definition MAX_PBUF_RING_ENTRIES : Z := 1 <<< 15.
(* src/src/ring/pbuf.rs:21-21 LEDGER_BYTES *)
Definition LEDGER_BYTES : Z := MAX_PBUF_RING_ENTRIES / 8.

(** The pool handle, with the ring's memory at [pb_ring_addr] next to it. *)
(* src/src/ring/pbuf.rs:356-399 ProvidedBufferRing *)
Record ProvidedBufferRing : Set := mkPool {
  pb_resources : Z;
  pb_fd : Z;
  pb_bgid : Z;
  pb_mask : Z;
  pb_entries : Z;
  pb_ring_addr : Z;
  pb_ring_bytes : Z;
  pb_bufs_addr : Z;
  pb_bufs_bytes : Z;
  pb_buf_size : Z;
  pb_tail_local : Z;
  pb_delivered : list Z;
  pb_mem : list IoUringBuf
}.
Definition set_tail_local (t : Z) (p : ProvidedBufferRing) : ProvidedBufferRing :=
  mkPool (pb_resources p) (pb_fd p) (pb_bgid p) (pb_mask p) (pb_entries p) (pb_ring_addr p)
    (pb_ring_bytes p) (pb_bufs_addr p) (pb_bufs_bytes p) (pb_buf_size p) t (pb_delivered p) (pb_mem p).
Definition set_delivered (d : list Z) (p : ProvidedBufferRing) : ProvidedBufferRing :=
  mkPool (pb_resources p) (pb_fd p) (pb_bgid p) (pb_mask p) (pb_entries p) (pb_ring_addr p)
    (pb_ring_bytes p) (pb_bufs_addr p) (pb_bufs_bytes p) (pb_buf_size p) (pb_tail_local p) d (pb_mem p).
Definition set_mem (m : list IoUringBuf) (p : ProvidedBufferRing) : ProvidedBufferRing :=
  mkPool (pb_resources p) (pb_fd p) (pb_bgid p) (pb_mask p) (pb_entries p) (pb_ring_addr p)
    (pb_ring_bytes p) (pb_bufs_addr p) (pb_bufs_bytes p) (pb_buf_size p) (pb_tail_local p)
    (pb_delivered p) m.

(* src/src/ring/pbuf.rs:891-894 AcknowledgedBuffer *)
Record AcknowledgedBuffer : Set := mkAck { ack_buf_id : Z; ack_len : Z }.
(* src/src/ring/pbuf.rs:918-936 AcknowledgeError *)
Inductive AcknowledgeError : Set :=
| OutOfRange (buf_id len : Z)
| AlreadyAcknowledged (buf_id : Z).

(** ** The producer ring *)
(* src/src/ring/pbuf.rs:756-769 ProvidedBufferRing::recycle_raw *)
Definition recycle_raw (addr len bid : Z) (self : ProvidedBufferRing) : ProvidedBufferRing :=
  let idx := slot (pb_mask self) (pb_tail_local self) in
  let entry := pb_mem self !!! idx in
  let self := set_mem (<[idx := mkBuf addr len bid (ib_resv entry)]> (pb_mem self)) self in
  set_tail_local (u32_add (pb_tail_local self) 1) self.
(** The half-word at offset 14: the reserved field of entry 0. *)
(* src/src/ring/pbuf.rs:772-777 ProvidedBufferRing::tail_ptr *)
Definition tail_word (self : ProvidedBufferRing) : Z := ib_resv (pb_mem self !!! 0%nat).
(* src/src/ring/pbuf.rs:744-752 ProvidedBufferRing::commit *)
Definition commit (self : ProvidedBufferRing) : ProvidedBufferRing :=
  let tail := as_u16 (pb_tail_local self) in
  set_mem (alter (set_resv tail) 0%nat (pb_mem self)) self.
(** [None] is the panic of the assertion. *)
(* src/src/ring/pbuf.rs:722-730 ProvidedBufferRing::recycle *)
Definition recycle (buf_id : Z) (self : ProvidedBufferRing) : option ProvidedBufferRing :=
  if buf_id <? pb_entries self then
    let off := buf_id * pb_buf_size self in
    let addr := as_u64 (pb_bufs_addr self + off) in
    Some (recycle_raw addr (pb_buf_size self) buf_id self)
  else None.
(* src/src/ring/pbuf.rs:733-736 ProvidedBufferRing::recycle_and_commit *)
Definition recycle_and_commit (buf_id : Z) (self : ProvidedBufferRing) : option ProvidedBufferRing :=
  commit <$> recycle buf_id self.

(** ** Reading a buffer *)
(* src/src/ring/pbuf.rs:1173-1187 buffer_slice *)
Definition buffer_slice (base entries buf_size buf_id len : Z) : option Slice :=
  if (entries <=? buf_id) || (buf_size <? len) then None
  else let off := buf_id * buf_size in Some (mkSlice (base + off) len).
(* src/src/ring/pbuf.rs:1195-1208 buffer_slice_mut *)
Definition buffer_slice_mut (base entries buf_size buf_id len : Z) : option Slice :=
  if (entries <=? buf_id) || (buf_size <? len) then None
  else let off := buf_id * buf_size in Some (mkSlice (base + off) len).
(* src/src/ring/pbuf.rs:490-503 ProvidedBufferRing::buffer *)
Definition buffer (buf_id len : Z) (self : ProvidedBufferRing) : option Slice :=
  buffer_slice (pb_bufs_addr self) (pb_entries self) (pb_buf_size self) buf_id len.
(* src/src/ring/pbuf.rs:537-550 ProvidedBufferRing::buffer_mut *)
Definition buffer_mut (buf_id len : Z) (self : ProvidedBufferRing) : option Slice :=
  buffer_slice_mut (pb_bufs_addr self) (pb_entries self) (pb_buf_size self) buf_id len.

(** A lease: the pool it borrows, the slot and the length.  Ending the lease
    gives the pool back. *)
Module CompletedBuffer.
(* src/src/ring/pbuf.rs:792-796 CompletedBuffer *)
Record t : Set := mk { pool : ProvidedBufferRing; buf_id : Z; len : Z }.
(* src/src/ring/pbuf.rs:810-812 CompletedBuffer::bytes *)
Definition bytes (self : t) : option Slice := buffer (buf_id self) (len self) (pool self).
(* src/src/ring/pbuf.rs:817-821 CompletedBuffer::bytes_mut *)
Definition bytes_mut (self : t) : option Slice := buffer_mut (buf_id self) (len self) (pool self).
(* src/src/ring/pbuf.rs:836-838 CompletedBuffer::is_empty *)
Definition is_empty (self : t) : bool := len self =? 0.
(* src/src/ring/pbuf.rs:857-865 CompletedBuffer::drop *)
Definition drop (self : t) : option ProvidedBufferRing := recycle_and_commit (buf_id self) (pool self).
(* src/src/ring/pbuf.rs:848-854 CompletedBuffer::recycle_and_commit *)
Definition end_lease (self : t) : option ProvidedBufferRing := drop self.
End CompletedBuffer.
(* src/src/ring/pbuf.rs:576-585 ProvidedBufferRing::claim *)
Definition claim (buf_id len : Z) (self : ProvidedBufferRing) : option CompletedBuffer.t :=
  if (pb_entries self <=? buf_id) || (pb_buf_size self <? len) then None
  else Some (CompletedBuffer.mk self buf_id len).

(** ** The delivery ledger *)
(* src/src/ring/pbuf.rs:653-657 ProvidedBufferRing::ledger_get *)
Definition ledger_get (buf_id : Z) (self : ProvidedBufferRing) : bool :=
  let byte := Z.to_nat (buf_id / 8) in
  let bit := buf_id mod 8 in
  negb ((pb_delivered self !!! byte) &&& (1 <<< bit) =? 0).
(* src/src/ring/pbuf.rs:660-668 ProvidedBufferRing::ledger_set *)
Definition ledger_set (buf_id : Z) (value : bool) (self : ProvidedBufferRing) : ProvidedBufferRing :=
  let byte := Z.to_nat (buf_id / 8) in
  let bit := buf_id mod 8 in
  let upd := if value then fun b => b ||| (1 <<< bit) else fun b => b &&& not_flags 8 (1 <<< bit) in
  set_delivered (alter upd byte (pb_delivered self)) self.
(* src/src/ring/pbuf.rs:631-644 ProvidedBufferRing::acknowledge *)
Definition acknowledge (buf_id len : Z) (self : ProvidedBufferRing)
  : result AcknowledgedBuffer AcknowledgeError * ProvidedBufferRing :=
  if (pb_entries self <=? buf_id) || (pb_buf_size self <? len)
  then (Err (OutOfRange buf_id len), self)
  else if ledger_get buf_id self then (Err (AlreadyAcknowledged buf_id), self)
  else (Ok (mkAck buf_id len), ledger_set buf_id true self).
(** `unwrap_or(&[])`: [None] is the empty slice. *)
(* src/src/ring/pbuf.rs:676-678 ProvidedBufferRing::acknowledged_bytes *)
Definition acknowledged_bytes (token : AcknowledgedBuffer) (self : ProvidedBufferRing) : option Slice :=
  buffer (ack_buf_id token) (ack_len token) self.
(* src/src/ring/pbuf.rs:694-697 ProvidedBufferRing::recycle_acknowledged *)
Definition recycle_acknowledged (token : AcknowledgedBuffer) (self : ProvidedBufferRing)
  : option ProvidedBufferRing :=
  recycle (ack_buf_id token) (ledger_set (ack_buf_id token) false self).
(* src/src/ring/pbuf.rs:700-703 ProvidedBufferRing::recycle_acknowledged_and_commit *)
Definition recycle_acknowledged_and_commit (token : AcknowledgedBuffer) (self : ProvidedBufferRing)
  : option ProvidedBufferRing :=
  commit <$> recycle_acknowledged token self.

(** ** Registration *)
(** `checked_mul` on `usize`. *)
(* src/src/ring/pbuf.rs:37-41 checked_ring_bytes *)
Definition checked_ring_bytes {PW : PtrWidth} (count elem_size : Z) : result Z InvalidArgKind :=
  let product := count * elem_size in
  if product <? 2 ^ usize_bits then Ok product else Err BufferRingSizeOverflow.

(** `u32::is_power_of_two` *)
Definition is_power_of_two (n : Z) : bool := (0 <? n) && (2 ^ Z.log2 n =? n).

(** The argument structure a register opcode reads, and writes. *)
Inductive RegArg : Set :=
| RegBuf (reg : IoUringBufReg)
| RegStatus (arg : IoUringBufStatus).
Class RegisterKernel (K : Type) := {
  sys_register : forall (fd op : Z) (arg : RegArg) (nr : Z), K -> result RegArg Errno * K
}.

Section Registration.
  Context {K : Type} {PW : PtrWidth} `{SK : SetupKernel K, RK : RegisterKernel K}.

Definition io_uring_register (fd op : Z) (arg : RegArg) (nr : Z) (o : Os K)
  : result RegArg Errno * Os K :=
  let '(r, k) := sys_register fd op arg nr (oracle o) in
  (r, mkOs (live o) (fds o) (pages o) (faults o) k).

(** An anonymous private mapping; its failure is a setup error here. *)
Definition mmap_anon (len : Z) (o : Os K) : result Z Error * Os K :=
  match sys_mmap len (-1) 0 (oracle o) with
  | (Ok a, k) => (Ok a, mkOs (live o ⊎ {[+ (a, len) +]}) (fds o) (pages o) (faults o) k)
  | (Err e, k) =>
      (Err (from_setup (SetupSyscall e)), mkOs (live o) (fds o) (pages o) (faults o) k)
  end.

(* src/src/ring/resources.rs:144-146 RingResources::fd *)
Definition resources_fd (ptr : Z) (o : Os K) : Z :=
  match pages o !! ptr with Some r => res_fd r | None => 0 end.

(** `for i in 0..count`, from [i], [n] iterations left. *)
(* src/src/ring/pbuf.rs:173-178 register_provided_buffers_on (populate) *)
Fixpoint populate_ring (bufs_addr buf_size i : Z) (n : nat) (p : ProvidedBufferRing)
  : ProvidedBufferRing :=
  match n with
  | O => p
  | S n =>
      let addr := as_u64 (bufs_addr + i * buf_size) in
      populate_ring bufs_addr buf_size (i + 1) n (recycle_raw addr buf_size (as_u16 i) p)
  end.

(* src/src/ring/pbuf.rs:61-182 register_provided_buffers_on *)
Definition register_provided_buffers_on (resources bgid count buf_size flags : Z) (o : Os K)
  : result ProvidedBufferRing Error * Os K :=
  let invalid k := Err (from_setup (InvalidArg k)) in
  let fd := resources_fd resources o in
  if count =? 0 then (invalid BufferCountZero, o)
  else if buf_size =? 0 then (invalid BufferSizeZero, o)
  else if negb (is_power_of_two count) then (invalid BufferCountNotPowerOfTwo, o)
  else if count >? MAX_PBUF_RING_ENTRIES then (invalid BufferCountTooLarge, o)
  else
    match checked_ring_bytes count 16 with
    | Err k => (invalid k, o)
    | Ok ring_bytes =>
        match mmap_anon ring_bytes o with
        | (Err e, o) => (Err e, o)
        | (Ok ring_addr, o) =>
            match checked_ring_bytes count buf_size with
            | Err k => (invalid k, munmap (new_region ring_addr ring_bytes) o)
            | Ok bufs_bytes =>
                match mmap_anon bufs_bytes o with
                | (Err e, o) => (Err e, munmap (new_region ring_addr ring_bytes) o)
                | (Ok bufs_addr, o) =>
                    let reg := mkBufReg (as_u64 ring_addr) count bgid flags [0; 0; 0] in
                    match io_uring_register fd (RegisterOp.raw RegisterOp.RegisterPbufRing)
                            (RegBuf reg) 1 o with
                    | (Err e, o) =>
                        let o := munmap (new_region bufs_addr bufs_bytes) o in
                        let o := munmap (new_region ring_addr ring_bytes) o in
                        (Err (from_setup (SetupSyscall e)), o)
                    | (Ok _, o) =>
                        let o := retain resources o in
                        let pbuf := mkPool resources fd bgid (count - 1) count ring_addr ring_bytes
                          bufs_addr bufs_bytes buf_size 0 (replicate (Z.to_nat LEDGER_BYTES) 0)
                          (replicate (Z.to_nat count) (mkBuf 0 0 0 0)) in
                        let pbuf := populate_ring bufs_addr buf_size 0 (Z.to_nat count) pbuf in
                        (Ok (commit pbuf), o)
                    end
                end
            end
        end
    end.
(* src/src/ring/pbuf.rs:202-215 Submitter::register_provided_buffers *)
Definition register_provided_buffers (resources bgid count buf_size : Z) (o : Os K)
  : result ProvidedBufferRing Error * Os K :=
  register_provided_buffers_on resources bgid count buf_size empty_flags o.
(* src/src/ring/pbuf.rs:229-236 Submitter::register_incremental_buffers *)
Definition register_incremental_buffers (resources bgid count buf_size : Z) (o : Os K)
  : result ProvidedBufferRing Error * Os K :=
  register_provided_buffers_on resources bgid count buf_size PbufRingFlags.INC o.

(* src/src/ring/pbuf.rs:263-276 IoUring::register_provided_buffers *)
Definition ring_register_provided_buffers (resources bgid count buf_size : Z) (o : Os K)
  : result ProvidedBufferRing Error * Os K :=
  register_provided_buffers_on resources bgid count buf_size empty_flags o.
(* src/src/ring/pbuf.rs:307-314 IoUring::register_incremental_buffers *)
Definition ring_register_incremental_buffers (resources bgid count buf_size : Z) (o : Os K)
  : result ProvidedBufferRing Error * Os K :=
  register_provided_buffers_on resources bgid count buf_size PbufRingFlags.INC o.

Definition unregister_arg (bgid : Z) : RegArg := RegBuf (mkBufReg 0 0 bgid 0 [0; 0; 0]).
(* src/src/ring/pbuf.rs:325-341 IoUring::unregister_provided_buffers *)
Definition unregister_provided_buffers (fd bgid : Z) (o : Os K) : result unit Error * Os K :=
  match io_uring_register fd (RegisterOp.raw RegisterOp.UnregisterPbufRing)
          (unregister_arg bgid) 1 o with
  | (Err e, o) => (Err (from_errno e), o)
  | (Ok _, o) => (Ok tt, o)
  end.
(* src/src/ring/pbuf.rs:464-482 ProvidedBufferRing::status *)
Definition status (self : ProvidedBufferRing) (o : Os K) : result Z Error * Os K :=
  let arg := mkBufStatus (pb_bgid self) 0 (replicate 8 0) in
  match io_uring_register (pb_fd self) (RegisterOp.raw RegisterOp.RegisterPbufStatus)
          (RegStatus arg) 1 o with
  | (Err e, o) => (Err (from_setup (SetupSyscall e)), o)
  | (Ok (RegStatus arg), o) => (Ok (bs_head arg), o)
  | (Ok (RegBuf _), o) => (Ok (bs_head arg), o)
  end.
(* src/src/ring/pbuf.rs:956-985 ProvidedBufferRing::drop *)
Definition drop_pool (self : ProvidedBufferRing) (o : Os K) : Os K :=
  let '(_, o) := io_uring_register (pb_fd self) (RegisterOp.raw RegisterOp.UnregisterPbufRing)
                   (unregister_arg (pb_bgid self)) 1 o in
  let o := munmap (new_region (pb_bufs_addr self) (pb_bufs_bytes self)) o in
  let o := munmap (new_region (pb_ring_addr self) (pb_ring_bytes self)) o in
  release (pb_resources self) o.
End Registration.

(** ** The consumer half *)
Module BufferConsumer.
(* src/src/ring/pbuf.rs:1002-1004 BufferConsumer *)
Record t : Set := mk { inner : ProvidedBufferRing }.
(* src/src/ring/pbuf.rs:423-429 ProvidedBufferRing::split *)
Definition split (p : ProvidedBufferRing) : t := mk p.
(* src/src/ring/pbuf.rs:1046-1048 BufferConsumer::status *)
Definition status {K} `{RegisterKernel K} (self : t) (o : Os K) : result Z Error * Os K :=
  status (inner self) o.
(* src/src/ring/pbuf.rs:1055-1057 BufferConsumer::buffer *)
Definition buffer (buf_id len : Z) (self : t) : option Slice := buffer buf_id len (inner self).
(* src/src/ring/pbuf.rs:1062-1064 BufferConsumer::buffer_mut *)
Definition buffer_mut (buf_id len : Z) (self : t) : option Slice :=
  buffer_mut buf_id len (inner self).
(* src/src/ring/pbuf.rs:1069-1071 BufferConsumer::claim *)
Definition claim (buf_id len : Z) (self : t) : option CompletedBuffer.t :=
  claim buf_id len (inner self).
(* src/src/ring/pbuf.rs:1110-1112 BufferConsumer::recycle_and_commit *)
Definition recycle_and_commit (buf_id : Z) (self : t) : option t :=
  mk <$> recycle_and_commit buf_id (inner self).
(* src/src/ring/pbuf.rs:1122-1124 BufferConsumer::recycle *)
Definition recycle (buf_id : Z) (self : t) : option t := mk <$> recycle buf_id (inner self).
(* src/src/ring/pbuf.rs:1127-1129 BufferConsumer::commit *)
Definition commit (self : t) : t := mk (commit (inner self)).
(* src/src/ring/pbuf.rs:1137-1143 BufferConsumer::acknowledge *)
Definition acknowledge (buf_id len : Z) (self : t)
  : result AcknowledgedBuffer AcknowledgeError * t :=
  let '(r, p) := acknowledge buf_id len (inner self) in (r, mk p).
(* src/src/ring/pbuf.rs:1148-1150 BufferConsumer::acknowledged_bytes *)
Definition acknowledged_bytes (token : AcknowledgedBuffer) (self : t) : option Slice :=
  acknowledged_bytes token (inner self).
(* src/src/ring/pbuf.rs:1154-1156 BufferConsumer::recycle_acknowledged *)
Definition recycle_acknowledged (token : AcknowledgedBuffer) (self : t) : option t :=
  mk <$> recycle_acknowledged token (inner self).
(* src/src/ring/pbuf.rs:1160-1162 BufferConsumer::recycle_acknowledged_and_commit *)
Definition recycle_acknowledged_and_commit (token : AcknowledgedBuffer) (self : t) : option t :=
  mk <$> recycle_acknowledged_and_commit token (inner self).
End BufferConsumer.
