(* ===== verification/PbufSpec.v ===== *)
(** * Provided-buffer rings: the theorems

    What the kernel can consume between its head and the published tail, the
    conservation of buffers under any interleaving of kernel selections and
    recycles, the delivery ledger, the bounds of the slices, and the resources
    a registration takes and gives back. *)
From stdpp Require Import base numbers list option gmap gmultiset.
From Stdlib Require Import ZArith Lia.
From S2P Require Import Prelude Flags Types RingIndex Resources Layout.
From S2P Require Import Pbuf.
Local Open Scope Z_scope.
Local Open Scope rust_scope.

(** ** The invariant of a pool *)
Definition pool_wf (p : ProvidedBufferRing) : Prop :=
  ring_shape (pb_mem p) (pb_mask p) /\ pb_entries p = pb_mask p + 1 /\
  pb_entries p <= MAX_PBUF_RING_ENTRIES /\ in_u 32 (pb_tail_local p) /\
  length (pb_delivered p) = Z.to_nat LEDGER_BYTES /\ Forall (in_u 8) (pb_delivered p).

(** The descriptors at ring positions [h, ..., h + n - 1]. *)
Definition offered (p : ProvidedBufferRing) (h : Z) (n : nat) : list (Z * Z * Z) :=
  window (desc <$> pb_mem p) (pb_mask p) h n.
(** What the kernel may consume from its 16-bit head on. *)
Definition kernel_avail (p : ProvidedBufferRing) (khead : Z) : Z := as_u16 (tail_word p - khead).
(** The descriptor of a buffer of the pool. *)
Definition own_desc (p : ProvidedBufferRing) (id : Z) : Z * Z * Z :=
  (as_u64 (pb_bufs_addr p + id * pb_buf_size p), pb_buf_size p, id).

(** What no ring operation changes. *)
Definition same_pool (p q : ProvidedBufferRing) : Prop :=
  pb_mask p = pb_mask q /\ pb_entries p = pb_entries q /\
  pb_bufs_addr p = pb_bufs_addr q /\ pb_buf_size p = pb_buf_size q.

#[export] Instance same_pool_equiv : Equivalence same_pool.
Proof.
  unfold same_pool. split; red; [done| |].
  - intros ?? (? & ? & ? & ?). auto.
  - intros ??? (? & ? & ? & ?) (? & ? & ? & ?). split_and!; etrans; eauto.
Qed.
#[export] Instance own_desc_proper : Proper (same_pool ==> eq ==> eq) own_desc.
Proof. intros p q (_ & _ & H1 & H2) ? i ->. unfold own_desc. by rewrite H1, H2. Qed.

Lemma own_desc_fmap p q (ids : list Z) :
  same_pool p q -> own_desc p <$> ids = own_desc q <$> ids.
Proof. intros Hs. apply list_fmap_ext. intros ? ? _. by rewrite Hs. Qed.

Lemma desc_shape p : pool_wf p -> ring_shape (desc <$> pb_mem p) (pb_mask p).
Proof. intros ((k & ? & ? & ?) & _). exists k. by rewrite length_fmap. Qed.

Lemma pool_cap p : pool_wf p -> 1 <= pb_entries p <= 32768 /\ pb_entries p = pb_mask p + 1.
Proof.
  intros (Hr & He & Hm & _). apply ring_shape_cap in Hr as [? _].
  change MAX_PBUF_RING_ENTRIES with 32768 in Hm. lia.
Qed.

(** ** Queueing a descriptor *)
Lemma recycle_raw_wf a l b p : pool_wf p -> pool_wf (recycle_raw a l b p).
Proof.
  intros (Hr & He & Hm & Ht & Hl & Hb). unfold pool_wf, recycle_raw. cbn. split_and!; try done.
  - by apply ring_shape_insert.
  - by apply wrap_range.
Qed.
Lemma recycle_raw_same a l b p : same_pool (recycle_raw a l b p) p.
Proof. done. Qed.

Lemma recycle_raw_offered a l b p h n :
  pool_wf p -> pb_tail_local p = wrap 32 (h + Z.of_nat n) -> Z.of_nat n < pb_entries p ->
  offered (recycle_raw a l b p) h (S n) = offered p h n ++ [(a, l, b)].
Proof.
  intros Hwf Ht Hn. destruct (pool_cap p Hwf) as [_ He].
  unfold offered, recycle_raw. cbn. rewrite list_fmap_insert, Ht.
  by apply window_push; [apply desc_shape|lia].
Qed.
Lemma recycle_raw_tail a l b p : tail_word (recycle_raw a l b p) = tail_word p.
Proof.
  unfold tail_word, recycle_raw. cbn. set (i := slot _ _).
  destruct (decide (i = 0%nat)) as [->|Hi].
  - destruct (pb_mem p) as [|e m]; done.
  - by rewrite list_lookup_total_insert_ne.
Qed.

(** ** Publishing *)
Lemma desc_alter_resv t i (m : list IoUringBuf) : desc <$> alter (set_resv t) i m = desc <$> m.
Proof.
  apply list_eq. intros j. rewrite !list_lookup_fmap, list_lookup_alter.
  case_decide as Hij; [subst|done]. by destruct (m !! j).
Qed.

Lemma commit_wf p : pool_wf p -> pool_wf (commit p).
Proof.
  intros ((k & ? & ? & Hl) & ?). split; [|done]. exists k. cbn. by rewrite length_alter.
Qed.
Lemma commit_offered p h n : offered (commit p) h n = offered p h n.
Proof. unfold offered, commit. cbn. by rewrite desc_alter_resv. Qed.
Lemma commit_tail p : pool_wf p -> tail_word (commit p) = as_u16 (pb_tail_local p).
Proof.
  intros Hwf. pose proof (pool_cap p Hwf) as [Hc He].
  destruct Hwf as (Hr & _). apply ring_shape_cap in Hr as [_ Hl].
  unfold tail_word, commit. cbn. destruct (pb_mem p) as [|e m]; [cbn in Hl; lia|done].
Qed.

(** The 16-bit distance is exact: a pool has at most [2 ^ 15] buffers. *)
Lemma avail_exact p h n :
  tail_word p = as_u16 (h + n) -> 0 <= n < 65536 -> kernel_avail p (as_u16 h) = n.
Proof.
  intros Ht Hn. unfold kernel_avail. rewrite Ht. autorewrite with wrap.
  replace (h + n - h) with n by lia. apply wrap_small. unfold in_u.
  change (2 ^ 16) with 65536. lia.
Qed.

(** ** Recycling *)
Lemma recycle_spec id p h n :
  pool_wf p -> pb_tail_local p = wrap 32 (h + Z.of_nat n) -> Z.of_nat n < pb_entries p ->
  id < pb_entries p ->
  exists p', recycle id p = Some p' /\ pool_wf p' /\ same_pool p' p /\
    pb_tail_local p' = wrap 32 (h + Z.of_nat (S n)) /\ tail_word p' = tail_word p /\
    offered p' h (S n) = offered p h n ++ [own_desc p id] /\ pb_delivered p' = pb_delivered p.
Proof.
  intros Hwf Ht Hn Hid. unfold recycle. destruct (Z.ltb_spec id (pb_entries p)); [|lia].
  eexists; split; [done|]. split_and!; try done.
  - by apply recycle_raw_wf.
  - cbn. unfold u32_add. rewrite Ht, wrap_add_l. f_equal. lia.
  - apply recycle_raw_tail.
  - by apply recycle_raw_offered.
Qed.

(** Recycling a buffer into a ring with room appends its descriptor after
    everything already offered, without disturbing the published tail that
    shares entry 0's memory; committing then publishes all of it, and the
    kernel's 16-bit arithmetic counts exactly those descriptors. *)
Theorem recycle_publishes p id h n :
  pool_wf p -> pb_tail_local p = wrap 32 (h + Z.of_nat n) -> Z.of_nat n < pb_entries p ->
  id < pb_entries p ->
  exists p', recycle id p = Some p' /\ pool_wf p' /\
    tail_word p' = tail_word p /\ offered p' h (S n) = offered p h n ++ [own_desc p id] /\
    recycle_and_commit id p = Some (commit p') /\
    offered (commit p') h (S n) = offered p' h (S n) /\
    kernel_avail (commit p') (as_u16 h) = Z.of_nat (S n).
Proof.
  intros Hwf Ht Hn Hid.
  destruct (recycle_spec id p h n Hwf Ht Hn Hid) as (p' & Hr & Hwf' & _ & Ht' & Hw & Ho & _).
  exists p'. unfold recycle_and_commit. rewrite Hr. split_and!; try done.
  - apply commit_offered.
  - pose proof (pool_cap p Hwf). apply avail_exact; [|lia].
    rewrite commit_tail, Ht' by done. apply wrap_narrow. lia.
Qed.

(** ** Populating a fresh pool *)
Lemma populate_spec n : forall p i,
  pool_wf p -> pb_tail_local p = wrap 32 (0 + Z.of_nat i) ->
  Z.of_nat i + Z.of_nat n <= pb_entries p ->
  let p' := populate_ring (pb_bufs_addr p) (pb_buf_size p) (Z.of_nat i) n p in
  pool_wf p' /\ same_pool p' p /\ pb_tail_local p' = wrap 32 (Z.of_nat (i + n)) /\
  pb_delivered p' = pb_delivered p /\
  offered p' 0 (i + n) = offered p 0 i ++ (own_desc p <$> seqZ (Z.of_nat i) (Z.of_nat n)).
Proof.
  induction n as [|n IH]; intros p i Hwf Ht Hn; cbn [populate_ring].
  - rewrite Nat.add_0_r, seqZ_nil, app_nil_r by lia. split_and!; try done.
  - pose proof (pool_cap p Hwf) as [Hc _].
    rewrite (wrap_small 16) by (unfold in_u; change (2 ^ 16) with 65536; lia).
    set (p1 := recycle_raw _ _ _ p). assert (pool_wf p1) as Hwf1 by by apply recycle_raw_wf.
    destruct (IH p1 (S i) Hwf1) as (H1 & H2 & H3 & H4 & H5).
    { unfold p1. cbn [set_tail_local set_mem recycle_raw pb_tail_local]. unfold u32_add.
      rewrite Ht, wrap_add_l. f_equal. lia. }
    { change (pb_entries p1) with (pb_entries p). lia. }
    replace (Z.of_nat i + 1) with (Z.of_nat (S i)) by lia.
    change (pb_bufs_addr p1) with (pb_bufs_addr p) in *.
    change (pb_buf_size p1) with (pb_buf_size p) in *.
    rewrite (Nat.add_succ_r i n), <- (Nat.add_succ_l i n).
    split_and!; [done| |done|done|].
    { etrans; [exact H2|done]. }
    rewrite H5. unfold p1 at 1. rewrite recycle_raw_offered by (done || lia).
    rewrite (seqZ_cons (Z.of_nat i)) by lia. rewrite <- app_assoc. cbn [fmap list_fmap app].
    replace (Z.succ (Z.of_nat i)) with (Z.of_nat (S i)) by lia.
    by replace (Z.pred (Z.of_nat (S n))) with (Z.of_nat n) by lia.
Qed.

(** A freshly registered pool: every buffer offered once, in order, all of it
    published, nothing acknowledged. *)
Definition fresh_pool (p : ProvidedBufferRing) : Prop :=
  pool_wf p /\ pb_tail_local p = pb_entries p /\ tail_word p = pb_entries p /\
  offered p 0 (Z.to_nat (pb_entries p)) = own_desc p <$> seqZ 0 (pb_entries p) /\
  pb_delivered p = replicate (Z.to_nat LEDGER_BYTES) 0.

Lemma power_of_two_shape count :
  is_power_of_two count = true -> count <= MAX_PBUF_RING_ENTRIES ->
  exists k, 0 <= k < 32 /\ count = 2 ^ k.
Proof.
  intros [H1 H2]%andb_prop Hm. apply Z.ltb_lt in H1. apply Z.eqb_eq in H2.
  change MAX_PBUF_RING_ENTRIES with 32768 in Hm.
  exists (Z.log2 count). split; [|done]. split; [apply Z.log2_nonneg|].
  apply Z.log2_lt_pow2; [done|]. change (2 ^ 32) with 4294967296. lia.
Qed.

Lemma fresh_populated resources fd bgid count ra rb ba bb size :
  is_power_of_two count = true -> count <= MAX_PBUF_RING_ENTRIES ->
  fresh_pool (commit (populate_ring ba size 0 (Z.to_nat count)
    (mkPool resources fd bgid (count - 1) count ra rb ba bb size 0
       (replicate (Z.to_nat LEDGER_BYTES) 0) (replicate (Z.to_nat count) (mkBuf 0 0 0 0))))).
Proof.
  intros Hp Hm. destruct (power_of_two_shape _ Hp Hm) as (k & Hk & Hpow).
  change MAX_PBUF_RING_ENTRIES with 32768 in Hm.
  assert (0 < count) as Hpos by (rewrite Hpow; lia).
  set (p0 := mkPool _ _ _ _ _ _ _ _ _ _ _ _ _).
  assert (pool_wf p0) as Hwf0.
  { unfold pool_wf, p0. cbn [pb_mem pb_mask pb_entries pb_tail_local pb_delivered].
    split_and!; [|lia|done|done|apply length_replicate|by apply Forall_replicate].
    exists k. rewrite length_replicate. split_and!; lia. }
  destruct (populate_spec (Z.to_nat count) p0 0 Hwf0) as (H1 & (H2a & H2b & H2c & H2d) & H3 & H4 & H5);
    [done|cbn; lia|].
  cbn [pb_bufs_addr pb_buf_size p0 Nat.add] in *. change (Z.of_nat 0) with 0 in *.
  rewrite Z2Nat.id in H3, H5 by lia.
  rewrite wrap_small in H3 by (unfold in_u; change (2 ^ 32) with 4294967296; lia).
  set (p1 := populate_ring _ _ _ _ _) in *. cbn [pb_entries p0] in H2b.
  split_and!.
  - by apply commit_wf.
  - cbn. congruence.
  - rewrite commit_tail, H3 by done. cbn. rewrite H2b. apply wrap_small.
    unfold in_u. change (2 ^ 16) with 65536. lia.
  - rewrite commit_offered. cbn [commit set_mem pb_entries]. rewrite H2b, H5.
    apply list_fmap_ext. intros i x _. unfold own_desc. cbn. rewrite H2c, H2d. done.
  - exact H4.
Qed.

(** ** Conservation of buffers *)
(** The pool, the kernel's 16-bit head, and the buffers a completion handed to
    the program and not yet recycled. *)
Record PoolState : Set := mkPS { ps_pool : ProvidedBufferRing; ps_khead : Z; ps_hand : list Z }.
Inductive pool_step : PoolState -> PoolState -> Prop :=
| step_select p kh hand :
    0 < kernel_avail p kh ->
    pool_step (mkPS p kh hand)
      (mkPS p (as_u16 (kh + 1)) (ib_bid (pb_mem p !!! slot (pb_mask p) kh) :: hand))
| step_recycle p p' kh l r id :
    recycle id p = Some p' -> pool_step (mkPS p kh (l ++ id :: r)) (mkPS p' kh (l ++ r))
| step_recycle_ack p p' kh l r tok :
    recycle_acknowledged tok p = Some p' ->
    pool_step (mkPS p kh (l ++ ack_buf_id tok :: r)) (mkPS p' kh (l ++ r))
| step_lease p p' kh l r id len c :
    claim id len p = Some c -> CompletedBuffer.drop c = Some p' ->
    pool_step (mkPS p kh (l ++ id :: r)) (mkPS p' kh (l ++ r))
| step_ack p p' kh hand id len res :
    acknowledge id len p = (res, p') -> pool_step (mkPS p kh hand) (mkPS p' kh hand)
| step_commit p kh hand : pool_step (mkPS p kh hand) (mkPS (commit p) kh hand).

Definition conserved (s : PoolState) : Prop :=
  let p := ps_pool s in
  exists (h : Z) (n m : nat) (ids : list Z),
    pool_wf p /\ ps_khead s = as_u16 h /\
    pb_tail_local p = wrap 32 (h + Z.of_nat (n + m)) /\
    tail_word p = as_u16 (h + Z.of_nat n) /\
    offered p h (n + m) = own_desc p <$> ids /\
    ids ++ ps_hand s ≡ₚ seqZ 0 (pb_entries p).

Lemma conserved_room s h n m ids :
  pool_wf (ps_pool s) -> offered (ps_pool s) h (n + m) = own_desc (ps_pool s) <$> ids ->
  ids ++ ps_hand s ≡ₚ seqZ 0 (pb_entries (ps_pool s)) ->
  Z.of_nat (n + m) + Z.of_nat (length (ps_hand s)) = pb_entries (ps_pool s).
Proof.
  intros Hwf Ho Hp. destruct (pool_cap _ Hwf) as [? _].
  apply (f_equal length) in Ho. unfold offered in Ho. rewrite window_length, length_fmap in Ho.
  apply Permutation_length in Hp. rewrite length_app, length_seqZ in Hp. lia.
Qed.

Lemma slot_wrap16 p i :
  pool_wf p -> slot (pb_mask p) (as_u16 i) = slot (pb_mask p) (wrap 32 i).
Proof.
  intros Hwf. pose proof (pool_cap p Hwf) as [Hc He]. destruct Hwf as (Hr & _).
  rewrite (slot_wrap (pb_mem p)), !(slot_mod (pb_mem p)) by done. f_equal.
  destruct Hr as (k & Hk & Hm & _). rewrite Hm in *. apply (wrap_narrow k 16 i).
  split; [lia|]. enough (k <= 15) by lia. apply (Z.pow_le_mono_r_iff 2); [lia|lia|].
  change (2 ^ 15) with 32768. rewrite <- He. lia.
Qed.

(** *** Each step conserves *)
Lemma conserved_select p kh hand :
  conserved (mkPS p kh hand) -> 0 < kernel_avail p kh ->
  conserved (mkPS p (as_u16 (kh + 1)) (ib_bid (pb_mem p !!! slot (pb_mask p) kh) :: hand)).
Proof.
  intros (h & n & m & ids & Hwf & Hk & Ht & Htw & Ho & Hp) Hav. cbn [ps_pool ps_khead ps_hand] in *.
  pose proof (conserved_room (mkPS p kh hand) _ _ _ _ Hwf Ho Hp) as Hroom. cbn in Hroom.
  pose proof (pool_cap p Hwf) as [Hc He].
  subst kh. rewrite (avail_exact p h (Z.of_nat n)) in Hav by (done || lia).
  destruct n as [|n]; [lia|]. destruct ids as [|id ids].
  { apply (f_equal length) in Ho. unfold offered in Ho. by rewrite window_length in Ho. }
  exists (h + 1), n, m, ids. cbn [ps_pool ps_khead ps_hand].
  unfold offered in Ho. cbn [Nat.add fmap list_fmap] in Ho. rewrite window_cons in Ho.
  injection Ho as Hd Ho. assert (slot (pb_mask p) (wrap 32 h) < length (pb_mem p))%nat as Hb
    by (apply slot_in_bounds; by destruct Hwf).
  rewrite (list_lookup_total_fmap desc _ _ Hb) in Hd.
  assert (ib_bid (pb_mem p !!! slot (pb_mask p) (as_u16 h)) = id) as Hbid.
  { rewrite slot_wrap16 by done. unfold desc, own_desc in Hd. by simplify_eq. }
  split_and!; try done.
  - by rewrite wrap_add_l.
  - rewrite Ht. f_equal. lia.
  - rewrite Htw. f_equal. lia.
  - unfold offered. by rewrite <- window_head_wrap.
  - rewrite Hbid. rewrite <- Hp. cbn. symmetry. apply Permutation_middle.
Qed.

Lemma conserved_recycle p p' kh l r id :
  conserved (mkPS p kh (l ++ id :: r)) -> recycle id p = Some p' ->
  conserved (mkPS p' kh (l ++ r)).
Proof.
  intros (h & n & m & ids & Hwf & Hk & Ht & Htw & Ho & Hp) Hr. cbn [ps_pool ps_khead ps_hand] in *.
  pose proof (conserved_room (mkPS p kh (l ++ id :: r)) _ _ _ _ Hwf Ho Hp) as Hroom.
  cbn [ps_pool ps_hand] in Hroom. rewrite length_app in Hroom. cbn [length] in Hroom.
  assert (id < pb_entries p) as Hid.
  { assert (id ∈ seqZ 0 (pb_entries p)) as Hin%elem_of_seqZ; [|lia]. rewrite <- Hp. set_solver. }
  destruct (recycle_spec id p h (n + m) Hwf Ht ltac:(lia) Hid)
    as (q & Hq & Hwf' & Hs & Ht' & Hw & Ho' & Hdl).
  rewrite Hr in Hq. injection Hq as <-.
  exists h, n, (S m), (ids ++ [id]). cbn [ps_pool ps_khead ps_hand].
  rewrite Nat.add_succ_r. split_and!; try done.
  - by rewrite Hw.
  - by rewrite Ho', Ho, (own_desc_fmap p' p _ Hs), fmap_app.
  - destruct Hs as (_ & -> & _). rewrite <- Hp. rewrite <- app_assoc. cbn. f_equiv.
    by rewrite Permutation_middle.
Qed.

(** *** The ledger's bits *)
Lemma one_bit k n : 0 <= k -> Z.testbit (1 <<< k) n = (n =? k).
Proof. intros Hk. by rewrite Z.shiftl_1_l, Z.pow2_bits_eqb, Z.eqb_sym. Qed.
Lemma land_bit x k : 0 <= k -> negb ((x &&& (1 <<< k)) =? 0) = Z.testbit x k.
Proof.
  intros Hk. destruct (Z.testbit x k) eqn:Hb.
  - destruct (Z.eqb_spec (x &&& (1 <<< k)) 0) as [H0|]; [|done].
    apply (f_equal (fun z => Z.testbit z k)) in H0.
    by rewrite Z.land_spec, Hb, one_bit, Z.eqb_refl, Z.bits_0 in H0 by lia.
  - replace (x &&& (1 <<< k)) with 0; [done|]. apply Z.bits_inj'. intros n Hn.
    rewrite Z.bits_0, Z.land_spec, one_bit by lia.
    destruct (Z.eqb_spec n k) as [->|]; [by rewrite Hb|by rewrite andb_false_r].
Qed.
Lemma one_bit_u8 k : 0 <= k < 8 -> in_u 8 (1 <<< k).
Proof.
  intros Hk. rewrite Z.shiftl_1_l. unfold in_u. split; [apply Z.pow_nonneg; lia|].
  apply Z.pow_lt_mono_r; lia.
Qed.

Lemma ledger_get_testbit id p :
  ledger_get id p = Z.testbit (pb_delivered p !!! Z.to_nat (id / 8)) (id mod 8).
Proof. unfold ledger_get. apply land_bit. apply Z.mod_pos_bound. lia. Qed.

Lemma ledger_set_wf id b p : pool_wf p -> pool_wf (ledger_set id b p).
Proof.
  intros (Hr & He & Hm & Ht & Hl & Hb). unfold pool_wf, ledger_set.
  cbn [set_delivered pb_mem pb_mask pb_entries pb_tail_local pb_delivered].
  split_and!; try done; [by rewrite length_alter|].
  pose proof (Z.mod_pos_bound id 8 ltac:(lia)) as Hmod.
  apply Forall_alter; [done|]. intros x _ Hx. destruct b.
  - apply lor_u_bound; [lia|done|by apply one_bit_u8].
  - apply land_u_bound; [lia|]. unfold not_flags. apply wrap_range. lia.
Qed.

(** The ledger is a set of ids: setting one bit changes only that id. *)
Lemma ledger_get_set i j v p :
  pool_wf p -> 0 <= i < MAX_PBUF_RING_ENTRIES -> 0 <= j < MAX_PBUF_RING_ENTRIES ->
  ledger_get i (ledger_set j v p) = if i =? j then v else ledger_get i p.
Proof.
  intros (_ & _ & _ & _ & Hl & Hb) Hi Hj. change MAX_PBUF_RING_ENTRIES with 32768 in *.
  change LEDGER_BYTES with 4096 in Hl. rewrite !ledger_get_testbit.
  unfold ledger_set. cbn [set_delivered pb_delivered].
  pose proof (Z.mod_pos_bound i 8 ltac:(lia)). pose proof (Z.mod_pos_bound j 8 ltac:(lia)).
  pose proof (Z.div_mod i 8 ltac:(lia)). pose proof (Z.div_mod j 8 ltac:(lia)).
  assert (0 <= j / 8 < 4096) as Hjd by (split; [apply Z.div_pos; lia|apply Z.div_lt_upper_bound; lia]).
  assert (0 <= i / 8) as Hid by (apply Z.div_pos; lia).
  destruct (Z.eq_dec (i / 8) (j / 8)) as [Hd|Hd]; last first.
  { rewrite list_lookup_total_alter_ne by lia. by destruct (Z.eqb_spec i j); [congruence|]. }
  rewrite Hd, list_lookup_total_alter_eq by lia. destruct v.
  - rewrite Z.lor_spec, one_bit by lia.
    destruct (Z.eqb_spec (i mod 8) (j mod 8)), (Z.eqb_spec i j);
      rewrite ?orb_true_r, ?orb_false_r; done || lia.
  - rewrite Z.land_spec. unfold not_flags. rewrite wrap_testbit, Z.lnot_spec, one_bit by lia.
    destruct (Z.ltb_spec (i mod 8) 8); [|lia].
    destruct (Z.eqb_spec (i mod 8) (j mod 8)), (Z.eqb_spec i j);
      cbn; rewrite ?andb_true_r, ?andb_false_r; done || lia.
Qed.

Lemma conserved_ledger p kh hand id b :
  conserved (mkPS p kh hand) -> conserved (mkPS (ledger_set id b p) kh hand).
Proof.
  intros (h & n & m & ids & Hwf & Hrest). exists h, n, m, ids. cbn [ps_pool ps_khead ps_hand] in *.
  split; [by apply ledger_set_wf|exact Hrest].
Qed.

Lemma conserved_commit p kh hand :
  conserved (mkPS p kh hand) -> conserved (mkPS (commit p) kh hand).
Proof.
  intros (h & n & m & ids & Hwf & Hk & Ht & Htw & Ho & Hp). cbn [ps_pool ps_khead ps_hand] in *.
  exists h, (n + m)%nat, 0%nat, ids. cbn [ps_pool ps_khead ps_hand].
  rewrite Nat.add_0_r, commit_offered. split_and!; try done; [by apply commit_wf|].
  rewrite commit_tail, Ht by done. apply wrap_narrow. lia.
Qed.

Lemma acknowledge_pool id len p res p' :
  acknowledge id len p = (res, p') -> p' = p \/ p' = ledger_set id true p.
Proof. unfold acknowledge. repeat case_match; naive_solver. Qed.

Lemma pool_step_conserved s s' : conserved s -> pool_step s s' -> conserved s'.
Proof.
  intros Hc Hs. destruct Hs as [p kh hand Hav|p p' kh l r id Hr|p p' kh l r tok Hr
    |p p' kh l r id len c Hcl Hd|p p' kh hand id len res Ha|p kh hand].
  - by apply conserved_select.
  - by apply (conserved_recycle p p' kh l r id).
  - eapply conserved_recycle; [|exact Hr]. by apply conserved_ledger.
  - unfold claim in Hcl. case_match; [done|]. injection Hcl as <-.
    unfold CompletedBuffer.drop, recycle_and_commit in Hd. cbn in Hd.
    apply fmap_Some in Hd as (q & Hq & ->). apply conserved_commit.
    by apply (conserved_recycle p q kh l r id).
  - destruct (acknowledge_pool _ _ _ _ _ Ha) as [-> | ->]; [done|]. by apply conserved_ledger.
  - by apply conserved_commit.
Qed.

Lemma pool_run_conserved s s' : rtc pool_step s s' -> conserved s -> conserved s'.
Proof. induction 1; eauto using pool_step_conserved. Qed.

Lemma fresh_conserved p : fresh_pool p -> conserved (mkPS p 0 []).
Proof.
  intros (Hwf & Ht & Hw & Ho & _). pose proof (pool_cap p Hwf) as [Hc _].
  exists 0, (Z.to_nat (pb_entries p)), 0%nat, (seqZ 0 (pb_entries p)).
  cbn [ps_pool ps_khead ps_hand]. rewrite Nat.add_0_r, app_nil_r, Z2Nat.id by lia.
  split_and!; try done.
  - rewrite Ht. symmetry. apply wrap_small. unfold in_u. change (2 ^ 32) with 4294967296. lia.
  - rewrite Hw. symmetry. apply wrap_small. unfold in_u. change (2 ^ 16) with 65536. lia.
Qed.

(** C19. Under any interleaving of kernel selections, acknowledgements and
    recycles (raw, through a lease or through a token) of buffers in the
    program's hands, starting from a registered pool, every buffer is in
    exactly one place: offered in the ring, or in hand; the descriptors in the
    ring are the pool's own; the kernel sees exactly the published ones; and
    recycling a buffer in hand never finds the ring full. *)
Theorem pool_conservation p s :
  fresh_pool p -> rtc pool_step (mkPS p 0 []) s ->
  exists (h : Z) (n m : nat) (ids : list Z),
    ps_khead s = as_u16 h /\ kernel_avail (ps_pool s) (ps_khead s) = Z.of_nat n /\
    offered (ps_pool s) h (n + m) = own_desc (ps_pool s) <$> ids /\
    ids ++ ps_hand s ≡ₚ seqZ 0 (pb_entries (ps_pool s)) /\ NoDup (ids ++ ps_hand s) /\
    forall id, id ∈ ps_hand s ->
      is_Some (recycle id (ps_pool s)) /\ Z.of_nat (n + m) < pb_entries (ps_pool s).
Proof.
  intros Hf Hrun.
  assert (conserved s) as (h & n & m & ids & Hwf & Hk & Ht & Hw & Ho & Hp).
  { by apply (pool_run_conserved (mkPS p 0 [])); [|apply fresh_conserved]. }
  pose proof (conserved_room s h n m ids Hwf Ho Hp) as Hroom.
  pose proof (pool_cap _ Hwf) as [Hc _].
  exists h, n, m, ids. split_and!; try done.
  - rewrite Hk. apply avail_exact; [done|lia].
  - rewrite Hp. apply NoDup_seqZ.
  - intros id Hid. assert (id ∈ seqZ 0 (pb_entries (ps_pool s))) as Hin%elem_of_seqZ
      by (rewrite <- Hp; apply elem_of_app; by right).
    split.
    + unfold recycle. destruct (Z.ltb_spec id (pb_entries (ps_pool s))); [done|lia].
    + destruct (ps_hand s); [by apply elem_of_nil in Hid|]. cbn in Hroom. lia.
Qed.

(** ** The ledger's contract *)
(** `acknowledge` refuses exactly the out-of-range and the already
    acknowledged deliveries and otherwise mints the token and marks only that
    id; a second acknowledgement is refused until the token is recycled, after
    which the id can be acknowledged again; the raw `recycle` never clears the
    mark. *)
Theorem acknowledge_once p id len :
  pool_wf p -> 0 <= id < 65536 -> 0 <= len ->
  let '(res, p') := acknowledge id len p in
  match res with
  | Err (OutOfRange i l) =>
      i = id /\ l = len /\ p' = p /\ (pb_entries p <= id \/ pb_buf_size p < len)
  | Err (AlreadyAcknowledged i) =>
      i = id /\ p' = p /\ id < pb_entries p /\ ledger_get id p = true
  | Ok token =>
      token = mkAck id len /\ id < pb_entries p /\ len <= pb_buf_size p /\
      ledger_get id p = false /\ pool_wf p' /\ pb_mem p' = pb_mem p /\
      (forall j, 0 <= j < MAX_PBUF_RING_ENTRIES ->
         ledger_get j p' = (j =? id) || ledger_get j p) /\
      (forall l, l <= pb_buf_size p ->
         acknowledge id l p' = (Err (AlreadyAcknowledged id), p')) /\
      (exists q, recycle_acknowledged token p' = Some q /\ ledger_get id q = false /\
         fst (acknowledge id len q) = Ok token) /\
      (exists q, recycle id p' = Some q /\ ledger_get id q = true)
  end.
Proof.
  intros Hwf Hid Hlen. pose proof (pool_cap p Hwf) as [Hc _]. unfold acknowledge at 1.
  destruct (Z.leb_spec (pb_entries p) id); [cbn; by auto|].
  destruct (Z.ltb_spec (pb_buf_size p) len); [cbn; by auto|]. cbn [orb].
  destruct (ledger_get id p) eqn:Hg; [done|].
  assert (0 <= id < MAX_PBUF_RING_ENTRIES) as Hid' by (change MAX_PBUF_RING_ENTRIES with 32768; lia).
  assert (pool_wf (ledger_set id true p)) as Hwf' by by apply ledger_set_wf.
  assert (ledger_get id (ledger_set id true p) = true) as Hset
    by (by rewrite ledger_get_set, Z.eqb_refl).
  assert (ledger_get id (ledger_set id false (ledger_set id true p)) = false) as Hclr
    by (by rewrite ledger_get_set, Z.eqb_refl).
  split_and!; try done.
  - intros j Hj. rewrite ledger_get_set by done. by destruct (j =? id).
  - intros l Hl. unfold acknowledge. cbn [ledger_set set_delivered pb_entries pb_buf_size].
    destruct (Z.leb_spec (pb_entries p) id); [lia|]. destruct (Z.ltb_spec (pb_buf_size p) l); [lia|].
    cbn [orb]. fold (ledger_set id true p). by rewrite Hset.
  - unfold recycle_acknowledged, recycle. cbn [ack_buf_id]. set (q0 := ledger_set id false _) in *.
    change (pb_entries q0) with (pb_entries p). destruct (Z.ltb_spec id (pb_entries p)); [|lia].
    eexists; split; [done|]. split; [exact Hclr|]. unfold acknowledge.
    change (pb_entries (recycle_raw _ _ _ q0)) with (pb_entries p).
    change (pb_buf_size (recycle_raw _ _ _ q0)) with (pb_buf_size p).
    destruct (Z.leb_spec (pb_entries p) id); [lia|].
    destruct (Z.ltb_spec (pb_buf_size p) len); [lia|].
    change (ledger_get id (recycle_raw _ _ _ q0)) with (ledger_get id q0). by rewrite Hclr.
  - unfold recycle. change (pb_entries (ledger_set id true p)) with (pb_entries p).
    destruct (Z.ltb_spec id (pb_entries p)); [|lia]. eexists; split; [done|exact Hset].
Qed.

(** C40. A token carries no identity of the pool that minted it: a pool whose
    buffers the kernel all holds accepts another pool's token, recycles a
    buffer no completion handed out, and publishes more descriptors than it
    has buffers. *)
Theorem foreign_token_overfills a b id len a' tok :
  acknowledge id len a = (Ok tok, a') -> fresh_pool b -> 0 <= id < pb_entries b ->
  kernel_avail b 0 = pb_entries b /\
  exists b', recycle_acknowledged_and_commit tok b = Some b' /\
    kernel_avail b' 0 = pb_entries b + 1.
Proof.
  intros Ha (Hwf & Ht & Hw & _) Hid. pose proof (pool_cap b Hwf) as [Hc _].
  assert (forall n, 0 <= n < 65536 -> n = as_u16 (0 + n)) as Hsmall.
  { intros n Hn. symmetry. apply wrap_small. unfold in_u. change (2 ^ 16) with 65536. lia. }
  split; [apply (avail_exact b 0); [rewrite Hw; apply Hsmall|]; lia|].
  unfold acknowledge in Ha. do 2 (case_match; [done|]). injection Ha as <- _.
  unfold recycle_acknowledged_and_commit, recycle_acknowledged, recycle. cbn [ack_buf_id].
  set (b0 := ledger_set id false b). change (pb_entries b0) with (pb_entries b).
  destruct (Z.ltb_spec id (pb_entries b)); [|lia]. eexists; split; [done|].
  apply (avail_exact _ 0); [|lia].
  rewrite commit_tail by (apply recycle_raw_wf; by apply ledger_set_wf). cbn.
  unfold u32_add. rewrite Ht, wrap_narrow by lia. f_equal.
Qed.

(** ** Slices *)
(** `buffer`, `buffer_mut`, `claim` and `acknowledge` accept the same ids
    and lengths; the slice they give is the start of the buffer the descriptor
    of that id names, lies inside the pool's region, and slices of different
    ids never overlap. *)
Theorem slices_in_bounds p id len s :
  pool_wf p -> 0 <= id -> 0 <= len ->
  pb_bufs_bytes p = pb_entries p * pb_buf_size p -> 0 <= pb_bufs_addr p ->
  pb_bufs_addr p + pb_bufs_bytes p <= 2 ^ 64 ->
  buffer id len p = Some s ->
  buffer_mut id len p = Some s /\ claim id len p = Some (CompletedBuffer.mk p id len) /\
  CompletedBuffer.bytes (CompletedBuffer.mk p id len) = Some s /\
  own_desc p id = (as_u64 (slice_ptr s), pb_buf_size p, id) /\ slice_len s = len /\
  pb_bufs_addr p <= slice_ptr s /\
  slice_ptr s + slice_len s <= pb_bufs_addr p + pb_bufs_bytes p /\
  (forall id' len' s', 0 <= id' -> 0 <= len' -> id <> id' -> buffer id' len' p = Some s' ->
     slice_ptr s + slice_len s <= slice_ptr s' \/ slice_ptr s' + slice_len s' <= slice_ptr s).
Proof.
  intros Hwf Hid Hlen Hbytes Ha Hmax Hb. pose proof Hb as Hb0.
  unfold buffer, buffer_slice in Hb. destruct (_ || _) eqn:Hc; [done|]. injection Hb as <-.
  pose proof Hc as [H1%Z.leb_gt H2%Z.ltb_ge]%orb_false_elim.
  cbn [slice_ptr slice_len]. split_and!; try done.
  - unfold claim. by rewrite Hc.
  - nia.
  - rewrite Hbytes. nia.
  - intros id' len' s' Hid' Hlen' Hne Hb'. unfold buffer, buffer_slice in Hb'.
    destruct (_ || _) eqn:Hc' in Hb'; [done|]. injection Hb' as <-. cbn.
    apply orb_false_elim in Hc' as [H3%Z.leb_gt H4%Z.ltb_ge].
    destruct (Z.lt_trichotomy id id') as [Hlt|[->|Hlt]]; [left; nia|done|right; nia].
Qed.

(** Populating changes the tail and the ring's memory only. *)
Lemma populate_frame n ba size i p :
  let q := commit (populate_ring ba size i n p) in
  pb_resources q = pb_resources p /\ pb_bgid q = pb_bgid p /\ pb_entries q = pb_entries p /\
  pb_fd q = pb_fd p /\ pb_ring_addr q = pb_ring_addr p /\ pb_ring_bytes q = pb_ring_bytes p /\
  pb_bufs_addr q = pb_bufs_addr p /\ pb_bufs_bytes q = pb_bufs_bytes p.
Proof. revert i p. induction n as [|n IH]; intros i p; [done|]. cbn [populate_ring].
  exact (IH _ (recycle_raw _ _ _ p)). Qed.

(** ** Resources across a pool's life *)
Section Lifecycle.
  Context {K : Type} {PW : PtrWidth} `{SK : SetupKernel K, RK : RegisterKernel K}.
  Implicit Types (o : Os K).

Lemma munmap_held ptr res n L F r o :
  held ptr res n (L ⊎ {[+ r +]}) F o ->
  held ptr res n L F (munmap r o) /\ faults (munmap r o) = faults o.
Proof.
  destruct o as [L0 F0 P f k]. intros (Hp & Hl & Hf). cbn [pages live fds] in *. subst.
  replace (L ⊎ _ ⊎ _) with (L ⊎ owned_regions res ⊎ {[+ r +]}) by multiset_solver.
  rewrite munmap_live. split; [|done]. by split_and!.
Qed.

Lemma register_held ptr res n L F fd op arg nr o :
  held ptr res n L F o ->
  held ptr res n L F (snd (io_uring_register fd op arg nr o)) /\
  faults (snd (io_uring_register fd op arg nr o)) = faults o.
Proof. intros Hh. unfold io_uring_register. by destruct (sys_register _ _ _ _ _). Qed.

(** What a dropped pool releases, before its reference to the ring. *)
Lemma drop_pool_regions ptr res n L F p o :
  pb_resources p = ptr ->
  held ptr res n (L ⊎ {[+ (pb_ring_addr p, pb_ring_bytes p) +]}
    ⊎ {[+ (pb_bufs_addr p, pb_bufs_bytes p) +]}) F o ->
  exists o1, drop_pool p o = release ptr o1 /\ held ptr res n L F o1 /\ faults o1 = faults o.
Proof.
  intros <- Hh. unfold drop_pool.
  destruct (register_held _ _ _ _ _ (pb_fd p) (RegisterOp.raw RegisterOp.UnregisterPbufRing)
    (unregister_arg (pb_bgid p)) 1 _ Hh) as [H1 F1].
  destruct (io_uring_register _ _ _ _ o) as [r o1]. cbn [snd] in H1, F1.
  destruct (munmap_held _ _ _ _ _ _ _ H1) as [H2 F2].
  destruct (munmap_held _ _ _ _ _ _ _ H2) as [H3 F3].
  eexists; split; [done|]. split; [exact H3|]. unfold new_region in *. congruence.
Qed.

(** The accounting behind the two theorems below. *)
Lemma registration_balance ptr res n L F o bgid count buf_size flags :
  held ptr res n L F o -> 1 <= n < 2 ^ 31 - 1 ->
  match register_provided_buffers_on ptr bgid count buf_size flags o with
  | (Err _, o') =>
      live o' = live o /\ fds o' = fds o /\ pages o' = pages o /\ faults o' = faults o
  | (Ok p, o') =>
      pb_resources p = ptr /\ pb_ring_bytes p = count * 16 /\ fresh_pool p /\ pb_bgid p = bgid /\ pb_entries p = count /\ pb_fd p = res_fd res /\
      pb_bufs_bytes p = count * buf_size /\ pb_bufs_bytes p < 2 ^ usize_bits /\
      held ptr res (n + 1) (L ⊎ {[+ (pb_ring_addr p, count * 16) +]}
        ⊎ {[+ (pb_bufs_addr p, pb_bufs_bytes p) +]}) F o' /\ faults o' = faults o /\
      held ptr res n L F (drop_pool p o') /\ faults (drop_pool p o') = faults o
  end.
Proof.
  destruct o as [L0 F0 P f k]. intros Hh Hn. pose proof Hh as (Hp & Hl & Hf).
  cbn [pages live fds] in Hp, Hl, Hf. unfold register_provided_buffers_on.
  destruct (_ =? _); [done|]. destruct (_ =? _); [done|].
  destruct (is_power_of_two count) eqn:Hpow; [cbn [negb]|done].
  destruct (Z.gtb_spec count MAX_PBUF_RING_ENTRIES) as [|Hmax]; [done|].
  unfold checked_ring_bytes. destruct (Z.ltb_spec (count * 16) (2 ^ usize_bits)); [|done].
  unfold mmap_anon at 1. cbn [oracle]. destruct (sys_mmap _ _ _ k) as [[ra|e] k1]; [|done].
  cbn [live fds pages faults].
  destruct (Z.ltb_spec (count * buf_size) (2 ^ usize_bits)); [|by rewrite munmap_live].
  unfold mmap_anon. cbn [oracle]. destruct (sys_mmap _ _ _ k1) as [[ba|e] k2];
    cbn [live fds pages faults]; [|by rewrite munmap_live].
  unfold io_uring_register. cbn [oracle live fds pages faults].
  destruct (sys_register _ _ _ _ k2) as [[a|e] k3]; [|by rewrite !munmap_live].
  assert (resources_fd ptr (mkOs L0 F0 P f k) = res_fd res) as Hfd
    by (unfold resources_fd; cbn; by rewrite Hp).
  rewrite Hfd. set (pool := commit _). set (o3 := mkOs _ _ _ _ _).
  assert (fresh_pool pool) as Hfresh by (apply fresh_populated; [done|lia]).
  assert (held ptr res n (L ⊎ {[+ (ra, count * 16) +]} ⊎ {[+ (ba, count * buf_size) +]}) F o3) as Hh3.
  { split; [exact Hp|]. cbn [live fds o3]. rewrite Hl. split; [clear; multiset_solver|done]. }
  destruct (retain_held _ _ _ _ _ _ Hh3 ltac:(lia)) as [H4 F4].
  assert (pb_resources pool = ptr /\ pb_bgid pool = bgid /\ pb_entries pool = count /\
    pb_fd pool = res_fd res /\ pb_ring_addr pool = ra /\ pb_ring_bytes pool = count * 16 /\
    pb_bufs_addr pool = ba /\ pb_bufs_bytes pool = count * buf_size)
    as (E1 & E2 & E3 & E4 & E5 & E6 & E7 & E8) by apply populate_frame.
  clearbody pool. rewrite <- E5, <- E6, <- E7, <- E8 in H4.
  destruct (drop_pool_regions _ _ _ _ _ pool _ E1 H4) as (o5 & Hd & H5 & F5).
  destruct (release_shared _ _ _ _ _ _ H5 ltac:(lia)) as [H6 F6].
  replace (n + 1 - 1) with n in H6 by lia. rewrite Hd, E8. rewrite E6, E8 in H4.
  split_and!; try done; cbn [faults o3] in *; congruence.
Qed.

(** C20. Registering a pool is balanced on every path: a refusal leaves every
    mapping, descriptor and reference as it was; a success takes two mappings
    and one reference to the parent ring, hands out a fresh pool, and dropping
    that pool gives back exactly those, whether or not the kernel accepts the
    unregistration. *)
Theorem registration_lifecycle ptr res n L F o bgid count buf_size flags :
  held ptr res n L F o -> 1 <= n < 2 ^ 31 - 1 ->
  match register_provided_buffers_on ptr bgid count buf_size flags o with
  | (Err _, o') =>
      live o' = live o /\ fds o' = fds o /\ pages o' = pages o /\ faults o' = faults o
  | (Ok p, o') =>
      fresh_pool p /\ pb_bgid p = bgid /\ pb_entries p = count /\ pb_fd p = res_fd res /\
      pb_bufs_bytes p = count * buf_size /\ pb_bufs_bytes p < 2 ^ usize_bits /\
      held ptr res (n + 1) (L ⊎ {[+ (pb_ring_addr p, count * 16) +]}
        ⊎ {[+ (pb_bufs_addr p, pb_bufs_bytes p) +]}) F o' /\ faults o' = faults o /\
      held ptr res n L F (drop_pool p o') /\ faults (drop_pool p o') = faults o
  end.
Proof.
  intros Hh Hn. pose proof (registration_balance ptr res n L F o bgid count buf_size flags Hh Hn) as Hb.
  destruct (register_provided_buffers_on _ _ _ _ _ _) as [[p|e] o']; [by apply Hb|done].
Qed.

(** A pool outlives the ring it was registered on: when the ring's own
    handle is dropped first, the descriptor stays open and every mapping stays
    live until the pool is dropped, which then releases the pool's memory and
    the ring's. *)
Theorem pool_outlives_ring ptr res L F o bgid count buf_size flags p o' :
  held ptr res 1 L F o ->
  register_provided_buffers_on ptr bgid count buf_size flags o = (Ok p, o') ->
  let ring_dropped := release ptr o' in
  let pool_dropped := drop_pool p ring_dropped in
  live ring_dropped = live o' /\ fds ring_dropped = fds o' /\ pb_fd p ∈ fds ring_dropped /\
  live pool_dropped = L /\ fds pool_dropped = F /\ pages pool_dropped !! ptr = None /\
  faults pool_dropped = faults o.
Proof.
  intros Hh Hr. pose proof (registration_balance ptr res 1 L F o bgid count buf_size flags Hh
    ltac:(change (2 ^ 31) with 2147483648; lia)) as Hl. rewrite Hr in Hl.
  destruct Hl as (E1 & E2 & _ & _ & _ & Hfd & _ & _ & H2 & F2 & _).
  destruct (release_shared _ _ _ _ _ _ H2 ltac:(change (2 ^ 31) with 2147483648; lia)) as [H1 F1].
  cbv zeta. pose proof H1 as (_ & El & Ef). pose proof H2 as (_ & El' & Ef').
  rewrite <- E2 in H1. destruct (drop_pool_regions _ _ _ _ _ p _ E1 H1) as (o5 & Hd & H5 & F5).
  destruct (release_last _ _ _ _ _ H5) as (? & ? & ? & ?). rewrite Hd.
  split_and!; try congruence. rewrite Ef, Hfd. multiset_solver.
Qed.

(** The argument checks come before any system call, in this order; the
    overflow refusal is given only for a size that does not fit a `usize`,
    which no pair of `u32`s reaches on a 64-bit target. *)
Theorem registration_refusals ptr bgid count buf_size flags o :
  let refused k :=
    register_provided_buffers_on ptr bgid count buf_size flags o =
      (Err (Setup (InvalidArg k)), o) in
  (count = 0 -> refused BufferCountZero) /\
  (count <> 0 -> buf_size = 0 -> refused BufferSizeZero) /\
  (count <> 0 -> buf_size <> 0 -> is_power_of_two count = false ->
     refused BufferCountNotPowerOfTwo) /\
  (count <> 0 -> buf_size <> 0 -> is_power_of_two count = true -> 32768 < count ->
     refused BufferCountTooLarge) /\
  (fst (register_provided_buffers_on ptr bgid count buf_size flags o) =
     Err (Setup (InvalidArg BufferRingSizeOverflow)) ->
   2 ^ usize_bits <= count * Z.max 16 buf_size) /\
  (usize_bits = 64 -> in_u 32 count -> in_u 32 buf_size ->
   fst (register_provided_buffers_on ptr bgid count buf_size flags o) <>
     Err (Setup (InvalidArg BufferRingSizeOverflow))).
Proof.
  set (r := register_provided_buffers_on ptr bgid count buf_size flags o).
  assert (fst r = Err (Setup (InvalidArg BufferRingSizeOverflow)) ->
    0 < count /\ 2 ^ usize_bits <= count * Z.max 16 buf_size) as Hov.
  { unfold r, register_provided_buffers_on.
    destruct (count =? 0); [done|]. destruct (buf_size =? 0); [done|].
    destruct (is_power_of_two count) eqn:Hp; [cbn [negb]|done].
    unfold is_power_of_two in Hp. apply andb_prop in Hp as [Hp%Z.ltb_lt _].
    destruct (count >? _); [done|]. unfold checked_ring_bytes, mmap_anon.
    destruct (Z.ltb_spec (count * 16) (2 ^ usize_bits)); [|intros _; split; [done|nia]].
    destruct (sys_mmap _ _ _ (oracle o)) as [[ra|e] k1]; [|done].
    destruct (Z.ltb_spec (count * buf_size) (2 ^ usize_bits)); [|intros _; split; [done|nia]].
    destruct (sys_mmap _ _ _ _) as [[ba|e] k2]; [|done].
    by destruct (io_uring_register _ _ _ _ _) as [[?|?] ?]. }
  intros refused. unfold refused, r in *. clear refused.
  split_and!.
  - intros ->. done.
  - intros H1 ->. unfold register_provided_buffers_on. by destruct (Z.eqb_spec count 0).
  - intros H1 H2 H3. unfold register_provided_buffers_on. rewrite H3.
    by destruct (Z.eqb_spec count 0), (Z.eqb_spec buf_size 0).
  - intros H1 H2 H3 H4. unfold register_provided_buffers_on. rewrite H3.
    change MAX_PBUF_RING_ENTRIES with 32768.
    by destruct (Z.eqb_spec count 0), (Z.eqb_spec buf_size 0), (Z.gtb_spec count 32768);
      try lia.
  - intros H. by apply Hov.
  - intros Hw [_ Hc] [_ Hb] H. apply Hov in H as [Hpos H]. rewrite Hw in H.
    change (2 ^ 64) with (4294967296 * 4294967296) in H. change (2 ^ 32) with 4294967296 in *. nia.
Qed.
End Lifecycle.

(** ** Concrete pools *)
Definition demo_pool_of (bgid count : Z) : ProvidedBufferRing :=
  commit (populate_ring 65536 8 0 (Z.to_nat count)
    (mkPool 4096 3 bgid (count - 1) count 16384 (count * 16) 65536 (count * 8) 8 0
       (replicate (Z.to_nat LEDGER_BYTES) 0) (replicate (Z.to_nat count) (mkBuf 0 0 0 0)))).
Definition demo_pool : ProvidedBufferRing := demo_pool_of 7 4.
Lemma demo_fresh : fresh_pool demo_pool.
Proof. apply fresh_populated; done. Qed.

(** The kernel took buffer 0; it comes back behind the other three. *)
Lemma recycle_publishes_witness :
  exists p', recycle 0 demo_pool = Some p' /\ kernel_avail (commit p') (as_u16 1) = 4 /\
    (ib_bid <$> pb_mem p') = [0; 1; 2; 3].
Proof.
  destruct (recycle_publishes demo_pool 0 1 3 (proj1 demo_fresh) ltac:(reflexivity)
    ltac:(reflexivity) ltac:(reflexivity)) as (p' & Hr & _ & _ & _ & _ & _ & Ha).
  exists p'. split; [exact Hr|]. split; [exact Ha|].
  assert (Some (ib_bid <$> pb_mem p') = (fun q => ib_bid <$> pb_mem q) <$> recycle 0 demo_pool) as E
    by (rewrite Hr; reflexivity).
  vm_compute in E. injection E as E. exact E.
Defined.

(** Select, acknowledge, select again. *)
Lemma pool_conservation_witness :
  exists h n m ids, kernel_avail (ledger_set 0 true demo_pool) 2 = Z.of_nat n /\
    offered (ledger_set 0 true demo_pool) h (n + m) = own_desc (ledger_set 0 true demo_pool) <$> ids /\
    ids ++ [1; 0] ≡ₚ seqZ 0 4.
Proof.
  assert (rtc pool_step (mkPS demo_pool 0 []) (mkPS (ledger_set 0 true demo_pool) 2 [1; 0])) as Hrun.
  { eapply rtc_l; [apply step_select; vm_compute; reflexivity|].
    eapply rtc_l; [eapply (step_ack _ _ _ _ 0 5); vm_compute; reflexivity|].
    eapply rtc_l; [apply step_select; vm_compute; reflexivity|].
    match goal with |- rtc _ ?a ?b => replace a with b by (vm_compute; reflexivity) end.
    apply rtc_refl. }
  destruct (pool_conservation demo_pool _ demo_fresh Hrun)
    as (h & n & m & ids & _ & Ha & Ho & Hp & _).
  exists h, n, m, ids. split; [exact Ha|]. split; [exact Ho|exact Hp].
Defined.

Lemma acknowledge_once_witness :
  fst (acknowledge 2 5 (snd (acknowledge 2 5 demo_pool))) = Err (AlreadyAcknowledged 2).
Proof.
  pose proof (acknowledge_once demo_pool 2 5 (proj1 demo_fresh) ltac:(lia) ltac:(lia)) as H.
  assert (is_ok (fst (acknowledge 2 5 demo_pool)) = true) as Hok by (vm_compute; reflexivity).
  destruct (acknowledge 2 5 demo_pool) as [[tok|e] p'] eqn:E; [|discriminate Hok].
  destruct H as (_ & _ & Hle & _ & _ & _ & _ & H & _). cbn [snd]. rewrite (H 5 Hle). reflexivity.
Defined.

(** A token of a larger pool, spent on a pool of four buffers. *)
Lemma foreign_token_overfills_witness :
  exists tok a' b', acknowledge 2 5 (demo_pool_of 9 8) = (Ok tok, a') /\
    recycle_acknowledged_and_commit tok demo_pool = Some b' /\ kernel_avail b' 0 = 5.
Proof.
  eexists (mkAck 2 5), _.
  assert (acknowledge 2 5 (demo_pool_of 9 8) =
    (Ok (mkAck 2 5), ledger_set 2 true (demo_pool_of 9 8))) as E by (vm_compute; reflexivity).
  destruct (foreign_token_overfills _ demo_pool _ _ _ _ E demo_fresh
    ltac:(vm_compute; split; congruence)) as (_ & b' & Hb & Ha).
  exists b'. split; [exact E|]. split; [exact Hb|exact Ha].
Defined.

Lemma slices_in_bounds_witness :
  slice_ptr <$> buffer 3 8 demo_pool = Some (65536 + 24) /\ 65536 + 24 + 8 <= 65536 + 32.
Proof.
  assert (buffer 3 8 demo_pool = Some (mkSlice (65536 + 24) 8)) as E by (vm_compute; reflexivity).
  split; [rewrite E; reflexivity|].
  apply (slices_in_bounds demo_pool 3 8 _ (proj1 demo_fresh) ltac:(lia) ltac:(lia)
    ltac:(vm_compute; reflexivity) ltac:(vm_compute; congruence)
    ltac:(vm_compute; congruence) E).
Defined.

(** A kernel that maps at increasing addresses and registers while its budget
    of system calls lasts. *)
Record ToyReg : Set := mkToyReg { toy_next : Z; toy_budget : nat }.
#[export] Instance toy_reg_setup : SetupKernel ToyReg := {
  sys_mmap len fd off k := (Ok (toy_next k), mkToyReg (toy_next k + len) (toy_budget k));
  sys_setup entries p k := (Ok 3, p, k);
  sys_ram k a := 0
}.
#[export] Instance toy_register : RegisterKernel ToyReg := {
  sys_register fd op arg nr k :=
    match toy_budget k with
    | O => (Err EINVAL, k)
    | S n => (Ok arg, mkToyReg (toy_next k) n)
    end
}.
Definition reg_os (budget : nat) : Os ToyReg :=
  mkOs (owned_regions demo_page) {[+ 3 +]} {[ 4096 := demo_page ]} 0 (mkToyReg 65536 budget).
Lemma reg_held budget : held 4096 demo_page 1 ∅ ∅ (reg_os budget).
Proof. split; [|split; multiset_solver]. apply lookup_singleton_eq. Qed.

(** The kernel refuses the registration after both mappings were made. *)
Lemma registration_lifecycle_witness :
  fst (register_provided_buffers 4096 7 4 8 (reg_os 0)) = Err (Setup (SetupSyscall EINVAL)) /\
  live (snd (register_provided_buffers 4096 7 4 8 (reg_os 0))) = live (reg_os 0).
Proof.
  pose proof (registration_lifecycle 4096 demo_page 1 ∅ ∅ (reg_os 0) 7 4 8 0 (reg_held 0)
    ltac:(change (2 ^ 31) with 2147483648; lia)) as H.
  assert (fst (register_provided_buffers 4096 7 4 8 (reg_os 0)) = Err (Setup (SetupSyscall EINVAL)))
    as E by (vm_compute; reflexivity).
  split; [exact E|]. unfold register_provided_buffers, empty_flags in *.
  destruct (register_provided_buffers_on 4096 7 4 8 0 (reg_os 0)) as [[p|e] o']; [discriminate E|].
  exact (proj1 H).
Defined.

Lemma pool_outlives_ring_witness :
  exists p o', register_provided_buffers 4096 7 4 8 (reg_os 2) = (Ok p, o') /\
    pb_fd p ∈ fds (release 4096 o') /\ fds (drop_pool p (release 4096 o')) = ∅.
Proof.
  assert (is_ok (fst (register_provided_buffers 4096 7 4 8 (reg_os 2))) = true) as Hok
    by (vm_compute; reflexivity).
  unfold register_provided_buffers, empty_flags in *.
  destruct (register_provided_buffers_on 4096 7 4 8 0 (reg_os 2)) as [[p|e] o'] eqn:E;
    [|discriminate Hok].
  exists p, o'. split; [reflexivity|].
  destruct (pool_outlives_ring 4096 demo_page ∅ ∅ (reg_os 2) 7 4 8 0 p o' (reg_held 2) E)
    as (_ & _ & Hfd & _ & Hf & _). split; [exact Hfd|exact Hf].
Defined.

Lemma registration_refusals_witness :
  fst (register_provided_buffers 4096 7 6 8 (reg_os 2)) =
    Err (Setup (InvalidArg BufferCountNotPowerOfTwo)).
Proof.
  unfold register_provided_buffers.
  rewrite (proj1 (proj2 (proj2 (registration_refusals 4096 7 6 8 empty_flags (reg_os 2))))
    ltac:(lia) ltac:(lia) ltac:(reflexivity)).
  reflexivity.
Defined.
