(* ===== verification/PbufRace.v ===== *)
(** * A provided-buffer ring between the program and the kernel

    The buffers of a pool change hands twice: the program offers one by writing a
    descriptor and publishing the tail ([commit]); the kernel takes the descriptor,
    fills the buffer and posts a completion, whose publication hands it back.  Both
    publications are release stores, of the pool's 16-bit tail and of the completion
    ring's tail, and nothing else orders the two sides.  [step] interleaves them
    access by access over [WeakMem].  As long as the program recycles what it holds,
    neither a descriptor nor a buffer is ever used by both sides at once
    ([pool_race_free]). *)
From stdpp Require Import base numbers list option relations.
From Stdlib Require Import ZArith Lia.
From S2P Require Import Prelude Flags Types RingIndex WeakMem WeakRing Resources Pbuf.
Local Open Scope Z_scope.
Local Open Scope rust_scope.

(** A descriptor without its reserved half-word, which the tail shares. *)
Notation Desc := (Z * Z * Z)%type.
Definition bid (d : Desc) : Z := snd d.
#[export] Instance desc_inhabited : Inhabited Desc := populate (0, 0, 0).

(** ** The accesses of the two methods *)
(* src/src/ring/pbuf.rs:756-769 ProvidedBufferRing::recycle_raw *)
Definition recycle_raw_prog (mask tail addr len bid : Z) : prog Desc Z :=
  Write (slot mask tail) (addr, len, bid) (Ret (u32_add tail 1)).
(* src/src/ring/pbuf.rs:744-752 ProvidedBufferRing::commit *)
Definition commit_prog (tail : Z) : prog Desc Z :=
  Store Release Tail (as_u16 tail) (Ret tail).

(** A pool as descriptors and a tail; a program run on it alone. *)
Definition descs (p : ProvidedBufferRing) : list Desc := desc <$> pb_mem p.
Fixpoint run_alone (pr : prog Desc Z) (ds : list Desc) (word : Z) : option (Z * list Desc * Z) :=
  match pr with
  | Ret tail => Some (tail, ds, word)
  | Write s d k => run_alone k (<[s := d]> ds) word
  | Store _ Tail x k => run_alone k ds x
  | _ => None
  end.
Lemma pool_methods_are_programs p addr len b :
  (0 < length (pb_mem p))%nat ->
  run_alone (recycle_raw_prog (pb_mask p) (pb_tail_local p) addr len b) (descs p) (tail_word p) =
    Some (pb_tail_local (recycle_raw addr len b p), descs (recycle_raw addr len b p),
          tail_word (recycle_raw addr len b p)) /\
  run_alone (commit_prog (pb_tail_local p)) (descs p) (tail_word p) =
    Some (pb_tail_local (commit p), descs (commit p), tail_word (commit p)).
Proof.
  intros Hp. split.
  - cbn [recycle_raw_prog run_alone]. unfold recycle_raw, descs, tail_word.
    cbn [pb_mem pb_tail_local set_tail_local set_mem]. do 2 f_equal.
    + f_equal. by rewrite list_fmap_insert.
    + set (s := slot _ _). destruct (decide (s = 0%nat)) as [->|Hs].
      * by rewrite list_lookup_total_insert_eq.
      * by rewrite list_lookup_total_insert_ne.
  - cbn [commit_prog run_alone]. unfold commit, descs, tail_word.
    cbn [pb_mem pb_tail_local set_mem]. destruct (pb_mem p) as [|e l]; [cbn in Hp; lia|].
    by destruct e.
Qed.

(** ** The 16-bit word *)
(** The memory of the model of a 32-bit ring, whose tail this one shows the low
    half of. *)
Record halves (m mh : wm Desc) : Prop := {
  h_head : hist m Head = hist mh Head;
  h_tail : hist m Tail = (fun '(x, v) => (as_u16 x, v)) <$> hist mh Tail;
  h_cells : cells m = cells mh; h_wr : wr m = wr mh; h_rd : rd m = rd mh;
  h_vp : vp m = vp mh; h_vc : vc m = vc mh; h_race : race m = race mh
}.
Lemma halves_view_of a m mh : halves m mh -> view_of a m = view_of a mh.
Proof. intros []. by destruct a; try split. Qed.
Lemma halves_set_view a v m mh : halves m mh -> halves (set_view a v m) (set_view a v mh).
Proof. intros []. by destruct a; try split. Qed.
Lemma halves_load_head a o t m mh x m' :
  halves m mh -> load a o Head t m = Some (x, m') ->
  exists mh', load a o Head t mh = Some (x, mh') /\ halves m' mh'.
Proof.
  intros Hh (w & Hx & Ht & ->)%load_inv. rewrite (halves_view_of a m mh) in * by done.
  rewrite (h_head _ _ Hh) in Hx. eexists. split; [by apply load_at|]. by apply halves_set_view.
Qed.
Lemma halves_load_tail a o t m mh x m' :
  halves m mh -> load a o Tail t m = Some (x, m') ->
  exists x' mh', load a o Tail t mh = Some (x', mh') /\ x = as_u16 x' /\ halves m' mh'.
Proof.
  intros Hh (w & Hx & Ht & ->)%load_inv. rewrite (halves_view_of a m mh) in * by done.
  rewrite (h_tail _ _ Hh), list_lookup_fmap in Hx.
  destruct (hist mh Tail !! t) as [[x' w']|] eqn:E; [|done]. injection Hx as <- <-.
  do 2 eexists. split; [by apply load_at|]. split; [done|]. by apply halves_set_view.
Qed.
Lemma halves_store_head a o x m mh : halves m mh -> halves (store a o Head x m) (store a o Head x mh).
Proof.
  intros Hh. unfold store. rewrite (halves_view_of a m mh), (h_head _ _ Hh) by done.
  destruct Hh. by destruct a; split; cbn; rewrite ?h_head0.
Qed.
Lemma halves_store_tail a o x m mh :
  halves m mh -> halves (store a o Tail (as_u16 x) m) (store a o Tail x mh).
Proof.
  intros Hh. unfold store. rewrite (halves_view_of a m mh), (h_tail _ _ Hh), length_fmap by done.
  destruct Hh. destruct a; (split; cbn [hist append set_view cells wr rd vp vc race]; [done| |done..]);
    rewrite !decide_True, fmap_app by done; cbn; by f_equal.
Qed.
Lemma halves_cell_write s d m mh : halves m mh -> halves (cell_write s d m) (cell_write s d mh).
Proof. intros [?? Hc Hw Hr Hp Hv Hx]. split; cbn; rewrite ?Hc, ?Hw, ?Hr, ?Hp, ?Hv, ?Hx; done. Qed.
Lemma halves_cell_read s m mh :
  halves m mh -> fst (cell_read s m) = fst (cell_read s mh) /\
  halves (snd (cell_read s m)) (snd (cell_read s mh)).
Proof.
  intros [?? Hc Hw Hr Hp Hv Hx]. split; [cbn; by rewrite Hc|].
  split; cbn; rewrite ?Hc, ?Hw, ?Hr, ?Hp, ?Hv, ?Hx; done.
Qed.

Lemma load_keeps a o l t (m : wm Desc) x m' :
  load a o l t m = Some (x, m') ->
  view_le (vp m) (vp m') /\ view_le (vc m) (vc m') /\ hist m' = hist m /\ cells m' = cells m.
Proof.
  intros Hl. pose proof (access_grows a _ _ _ _ (a_load a _ _ (fun _ => Ret tt) _ _ _ _ Hl)) as (Hp & Hc & _).
  apply load_inv in Hl as (w & _ & _ & ->). split; [done|]. split; [done|]. by destruct a.
Qed.

(** ** The buffers *)
(** When each was last used, by the program and by the kernel, and whether one was
    used while the user had not synchronised with the other's last use. *)
Record uses : Type := mkUses { by_p : Z -> nat; by_k : Z -> nat; clash : bool }.
Definition upd (id : Z) (n : nat) (f : Z -> nat) : Z -> nat :=
  fun i => if decide (i = id) then n else f i.
Definition now (a : agent) (v : view) : nat := match a with P => v_p v | C => v_c v end.
Definition other (a : agent) : agent := match a with P => C | C => P end.
(** A use of buffer [id]: a plain access outside the ring's slots. *)
Definition use (a : agent) (id : Z) (m : wm Desc) (u : uses) : wm Desc * uses :=
  let v := view_of a m in
  let n := now a (tick a v) in
  let last := match a with P => by_k u id | C => by_p u id end in
  (set_view a (tick a v) m,
   mkUses (match a with P => upd id n (by_p u) | C => by_p u end)
     (match a with P => by_k u | C => upd id n (by_k u) end)
     (clash u || negb (bool_decide (last <= now (other a) v)%nat))).

Module Pool.
(** The program's side: its local tail, the count of deliveries it last saw, how
    many it has reaped, and the buffers it holds. *)
Record prog_side : Type := mkProg { tail : Z; pseen : Z; reaped : nat; hand : list Z }.
(** The kernel's: its 16-bit head, the tail it last saw, and the buffers it holds. *)
Record kern_side : Type := mkKern { khead : Z; kseen : Z; held : list Z }.
(** What was offered, what was taken, and the buffers posted in completions. *)
Record log : Type := mkLog { offered : list Desc; taken : list Desc; posted : list Z }.
Record t : Type := mk { m : wm Desc; pr : prog_side; ke : kern_side; lg : log; us : uses }.

Section System.
(** The pool: its mask, where its buffers start, and how long each is. *)
Variables (mask bufs_addr buf_size : Z).
Definition addr_of (id : Z) : Z := as_u64 (bufs_addr + id * buf_size).
(** A pool as registration finds it: nothing offered, every buffer the program's. *)
Definition init (arr : list Desc) : t :=
  mk (at_rest 0 arr) (mkProg 0 0 0 (seqZ 0 (mask + 1))) (mkKern 0 0 []) (mkLog [] [] [])
    (mkUses (fun _ => 0%nat) (fun _ => 0%nat) false).

(** [Head] stands for the tail of the completion ring, counted in deliveries from
    this pool: the program acquires it before it reaps one. *)
Inductive step : t -> t -> Prop :=
| p_look i x m m' tl sn re ha k g u :
    load P Acquire Head i m = Some (x, m') ->
    step (mk m (mkProg tl sn re ha) k g u) (mk m' (mkProg tl x re ha) k g u)
| p_reap id m tl sn re ha k g u :
    as_u32 (Z.of_nat re) <> sn -> posted g !! re = Some id ->
    step (mk m (mkProg tl sn re ha) k g u) (mk m (mkProg tl sn (S re) (id :: ha)) k g u)
| p_touch id m tl sn re ha k g u :
    id ∈ ha ->
    step (mk m (mkProg tl sn re ha) k g u)
      (mk (fst (use P id m u)) (mkProg tl sn re ha) k g (snd (use P id m u)))
| p_recycle id m m' tl tl' sn re h1 h2 k off ta po u :
    access P (recycle_raw_prog mask tl (addr_of id) buf_size id) m (Ret tl') m' ->
    step (mk m (mkProg tl sn re (h1 ++ id :: h2)) k (mkLog off ta po) u)
      (mk m' (mkProg tl' sn re (h1 ++ h2)) k
         (mkLog (off ++ [(addr_of id, buf_size, id)]) ta po) u)
| p_commit m m' tl sn re ha k g u :
    access P (commit_prog tl) m (Ret tl) m' ->
    step (mk m (mkProg tl sn re ha) k g u) (mk m' (mkProg tl sn re ha) k g u)
(** The kernel looks at the tail, takes the next descriptor, fills a buffer it has
    taken, posts the completion of one, in any order, and publishes. *)
| k_look i x m m' p kh ks he g u :
    load C Acquire Tail i m = Some (x, m') ->
    step (mk m p (mkKern kh ks he) g u) (mk m' p (mkKern kh x he) g u)
| k_take d m m' p kh ks he off ta po u :
    kh <> ks -> cell_read (slot mask kh) m = (d, m') ->
    step (mk m p (mkKern kh ks he) (mkLog off ta po) u)
      (mk m' p (mkKern (as_u16 (kh + 1)) ks (bid d :: he)) (mkLog off (ta ++ [d]) po) u)
| k_fill id m p kh ks he g u :
    id ∈ he ->
    step (mk m p (mkKern kh ks he) g u)
      (mk (fst (use C id m u)) p (mkKern kh ks he) g (snd (use C id m u)))
| k_post id m p kh ks h1 h2 off ta po u :
    step (mk m p (mkKern kh ks (h1 ++ id :: h2)) (mkLog off ta po) u)
      (mk m p (mkKern kh ks (h1 ++ h2)) (mkLog off ta (po ++ [id])) u)
| k_publish m p k g u :
    step (mk m p k g u)
      (mk (store C Release Head (as_u32 (Z.of_nat (length (posted g)))) m) p k g u).
Definition reachable (arr : list Desc) (s : t) : Prop := rtc step (init arr) s.

(** ** The invariant *)
(** Who holds which buffer, and what he knows of the other's last use.  [W] are the
    epochs the descriptors were written at, [R] those they were read at, [Q] those
    the deliveries were posted at. *)
Record bufs_ok (vp vc : view) (ha he : list Z) (re nr : nat) (po : list Z) (off : list Desc)
    (u : uses) (W Q : list nat) : Prop := {
  b_clash : clash u = false;
  b_p id : (by_p u id <= v_p vp)%nat;
  b_k id : (by_k u id <= v_c vc)%nat;
  b_hand id : id ∈ ha -> (by_k u id <= v_c vp)%nat;
  b_held id : id ∈ he -> (by_p u id <= v_p vc)%nat;
  b_offered i d w : (nr <= i)%nat -> off !! i = Some d -> W !! i = Some w ->
    (by_p u (bid d) <= w)%nat;
  b_posted j id q : (re <= j)%nat -> po !! j = Some id -> Q !! j = Some q ->
    (by_k u id <= q)%nat
}.
(** Where the buffers are. *)
Definition places (ha he : list Z) (re nr : nat) (po : list Z) (off : list Desc) : list Z :=
  ha ++ he ++ drop re po ++ (bid <$> drop nr off).

Record inv (s : t) (mh : wm Desc) (W R Q gh gt : list nat) (acq ct : nat) : Prop := {
  i_halves : halves (m s) mh;
  i_ring : spsc 0 mask mh (offered (lg s)) W R gh gt acq ct;
  i_tail : tail (pr s) = word 0 (length (offered (lg s)));
  i_pseen : pseen (pr s) = word 0 acq;
  i_khead : khead (ke s) = as_u16 (word 0 (length R));
  i_kseen : kseen (ke s) = as_u16 (word 0 ct);
  i_taken : taken (lg s) = take (length R) (offered (lg s));
  i_own : Forall (fun d => d = (addr_of (bid d), buf_size, bid d)) (offered (lg s));
  i_posts : index_hist 0 (hist mh Head) gh Q v_c;
  i_posted : length Q = length (posted (lg s));
  i_q : up_to (length Q) Q (v_c (vc mh));
  i_knows : up_to acq Q (v_c (vp mh));
  i_reaped : (reaped (pr s) <= acq)%nat;
  i_held : (length Q + length (held (ke s)) = length R)%nat;
  i_places : places (hand (pr s)) (held (ke s)) (reaped (pr s)) (length R) (posted (lg s))
      (offered (lg s)) ≡ₚ seqZ 0 (mask + 1);
  i_bufs : bufs_ok (vp mh) (vc mh) (hand (pr s)) (held (ke s)) (reaped (pr s)) (length R)
      (posted (lg s)) (offered (lg s)) (us s) W Q
}.
Definition good (s : t) : Prop := exists mh W R Q gh gt acq ct, inv s mh W R Q gh gt acq ct.

(** *** What the steps keep *)
Lemma bufs_views vp vc vp' vc' ha he re nr po off u W Q :
  view_le vp vp' -> view_le vc vc' -> bufs_ok vp vc ha he re nr po off u W Q ->
  bufs_ok vp' vc' ha he re nr po off u W Q.
Proof.
  intros (_ & _ & _ & Hp & Hc) (_ & _ & _ & Hp' & Hc') []. split; try done.
  - intros id. specialize (b_p0 id). lia.
  - intros id. specialize (b_k0 id). lia.
  - intros id Hin. specialize (b_hand0 id Hin). lia.
  - intros id Hin. specialize (b_held0 id Hin). lia.
Qed.
Lemma acq_posted s mh W R Q gh gt acq ct : inv s mh W R Q gh gt acq ct -> (acq <= length Q)%nat.
Proof.
  intros []. destruct (sp_p_seen _ _ _ _ _ _ _ _ _ _ i_ring0) as (t & _ & Ht).
  eapply hist_bound; [done|]. by eapply list_elem_of_lookup_2.
Qed.
(** Whoever holds a buffer may offer it: the ring has a slot for every buffer. *)
Lemma room s mh W R Q gh gt acq ct :
  inv s mh W R Q gh gt acq ct -> hand (pr s) <> [] ->
  Z.of_nat (length (offered (lg s))) + 1 <= Z.of_nat acq + (mask + 1).
Proof.
  intros Hi Hh. pose proof (acq_posted _ _ _ _ _ _ _ _ _ Hi). destruct Hi.
  pose proof (consumed_le _ _ _ _ _ _ _ _ _ _ i_ring0).
  pose proof (sp_below _ _ _ _ _ _ _ _ _ _ i_ring0).
  pose proof (sp_ins _ _ _ _ _ _ _ _ _ _ i_ring0).
  destruct (ring_shape_cap _ _ (sp_shape _ _ _ _ _ _ _ _ _ _ i_ring0)).
  apply Permutation_length in i_places0. unfold places in i_places0.
  rewrite !length_app, length_fmap, !length_drop, length_seqZ in i_places0.
  destruct (hand (pr s)); [done|]. cbn in i_places0. lia.
Qed.
Lemma p_look_good i x m m' tl sn re ha k g u :
  load P Acquire Head i m = Some (x, m') ->
  good (mk m (mkProg tl sn re ha) k g u) -> good (mk m' (mkProg tl x re ha) k g u).
Proof.
  intros Hl (mh & W & R & Q & gh & gt & acq & ct & []). cbn in *.
  destruct (halves_load_head _ _ _ _ _ _ _ i_halves0 Hl) as (mh' & Hl' & Hh).
  destruct (producer_acquires_at _ _ _ _ _ _ _ _ _ _ _ _ _ Hl' i_ring0)
    as (a & v & Hv & Ha & Hle & -> & Hge & Hs).
  destruct (ih_value _ _ _ _ _ i_posts0 _ _ _ _ Hv Ha) as (_ & _ & Hu).
  destruct (load_keeps _ _ _ _ _ _ _ Hl') as (Hp & Hc & Hhist & HC).
  exists mh', W, R, Q, gh, gt, a, ct. split; cbn in *; try done.
  - by rewrite Hhist.
  - eapply up_to_mono; [|exact i_q0]. apply Hc.
  - eapply up_to_mono; [|exact Hu]. apply Hle.
  - lia.
  - by apply (bufs_views (vp mh) (vc mh)).
Qed.

Lemma p_reap_good id m tl sn re ha k g u :
  as_u32 (Z.of_nat re) <> sn -> posted g !! re = Some id ->
  good (mk m (mkProg tl sn re ha) k g u) -> good (mk m (mkProg tl sn (S re) (id :: ha)) k g u).
Proof.
  intros Hne Hid (mh & W & R & Q & gh & gt & acq & ct & Hi).
  pose proof (acq_posted _ _ _ _ _ _ _ _ _ Hi) as Hacq. destruct Hi. cbn in *.
  assert (re < acq)%nat as Hlt.
  { destruct (decide (re = acq)) as [->|]; [by rewrite i_pseen0 in Hne|lia]. }
  exists mh, W, R, Q, gh, gt, acq, ct. split; cbn; try done.
  - rewrite <- i_places0. unfold places. rewrite (drop_S _ _ _ Hid). solve_Permutation.
  - destruct i_bufs0. split; cbn in *; try done.
    + intros id' [->|Hin]%elem_of_cons; [|by apply b_hand0].
      destruct (lookup_lt_is_Some_2 Q re ltac:(lia)) as [q Hq].
      specialize (b_posted0 re id q ltac:(lia) Hid Hq). specialize (i_knows0 re q Hlt Hq). lia.
    + intros j id' q Hj. apply b_posted0. lia.
Qed.

(** No buffer is in two places. *)
Lemma places_disjoint ha he re nr po off :
  places ha he re nr po off ≡ₚ seqZ 0 (mask + 1) ->
  (forall id, id ∈ ha -> id ∉ he) /\
  (forall id i d, id ∈ ha -> (nr <= i)%nat -> off !! i = Some d -> bid d <> id) /\
  (forall id j id', id ∈ he -> (re <= j)%nat -> po !! j = Some id' -> id' <> id).
Proof.
  intros Hp. assert (NoDup (places ha he re nr po off)) as Hnd by (rewrite Hp; apply NoDup_seqZ).
  assert (forall {A} n i (l : list A) x, (n <= i)%nat -> l !! i = Some x -> x ∈ drop n l) as Hd.
  { intros A n i l x Hni Hx. apply (list_elem_of_lookup_2 _ (i - n)). rewrite lookup_drop.
    by replace (n + (i - n))%nat with i by lia. }
  unfold places in Hnd. apply NoDup_app in Hnd as (_ & Ha & Hnd).
  apply NoDup_app in Hnd as (_ & He & _). split_and!.
  - intros id Hid Hin. apply (Ha id Hid). by apply elem_of_app; left.
  - intros id i d Hid Hi Hx <-. apply (Ha _ Hid). apply elem_of_app. right. apply elem_of_app. right.
    apply list_elem_of_fmap. exists d. eauto.
  - intros id j id' Hid Hj Hx ->. apply (He _ Hid). apply elem_of_app. left. eauto.
Qed.

Lemma p_touch_good id m tl sn re ha k g u :
  id ∈ ha -> good (mk m (mkProg tl sn re ha) k g u) ->
  good (mk (fst (use P id m u)) (mkProg tl sn re ha) k g (snd (use P id m u))).
Proof.
  intros Hin (mh & W & R & Q & gh & gt & acq & ct & []). cbn in *.
  destruct (places_disjoint _ _ _ _ _ _ i_places0) as (D1 & D2 & _).
  exists (set_view P (tick P (vp mh)) mh), W, R, Q, gh, gt, acq, ct.
  rewrite (h_vp _ _ i_halves0). split; cbn -[tick] in *; try done.
  - by apply (halves_set_view P).
  - eapply spsc_views; [exact i_ring0|..]; cbn; auto with weak. apply (tick_le P).
  - destruct i_bufs0. split; cbn in *; try done.
    + rewrite b_clash0. apply negb_false_iff, bool_decide_eq_true_2. by apply b_hand0.
    + intros id'. unfold upd. destruct (decide _); [lia|]. specialize (b_p0 id'). lia.
    + intros id' Hid'. unfold upd. rewrite decide_False; [by apply b_held0|].
      intros ->. by apply (D1 id).
    + intros i d w Hi Hd Hw. unfold upd. rewrite decide_False; [by eapply b_offered0|].
      by eapply D2.
Qed.
Lemma k_fill_good id m p kh ks he g u :
  id ∈ he -> good (mk m p (mkKern kh ks he) g u) ->
  good (mk (fst (use C id m u)) p (mkKern kh ks he) g (snd (use C id m u))).
Proof.
  intros Hin (mh & W & R & Q & gh & gt & acq & ct & []). cbn in *.
  destruct (places_disjoint _ _ _ _ _ _ i_places0) as (D1 & _ & D3).
  exists (set_view C (tick C (vc mh)) mh), W, R, Q, gh, gt, acq, ct.
  rewrite (h_vc _ _ i_halves0). split; cbn -[tick] in *; try done.
  - by apply (halves_set_view C).
  - eapply spsc_views; [exact i_ring0|..]; cbn; auto with weak. apply (tick_le C).
  - eapply up_to_mono; [|done]. cbn. lia.
  - destruct i_bufs0. split; cbn in *; try done.
    + rewrite b_clash0. apply negb_false_iff, bool_decide_eq_true_2. by apply b_held0.
    + intros id'. unfold upd. destruct (decide _); [lia|]. specialize (b_k0 id'). lia.
    + intros id' Hid'. unfold upd. rewrite decide_False; [by apply b_hand0|].
      intros ->. by apply (D1 id).
    + intros j id' q Hj Hp Hq. unfold upd. rewrite decide_False; [by eapply b_posted0|].
      by eapply D3.
Qed.

Lemma p_recycle_good id m m' tl tl' sn re h1 h2 k off ta po u :
  access P (recycle_raw_prog mask tl (addr_of id) buf_size id) m (Ret tl') m' ->
  good (mk m (mkProg tl sn re (h1 ++ id :: h2)) k (mkLog off ta po) u) ->
  good (mk m' (mkProg tl' sn re (h1 ++ h2)) k (mkLog (off ++ [(addr_of id, buf_size, id)]) ta po) u).
Proof.
  intros Ha (mh & W & R & Q & gh & gt & acq & ct & Hi). inversion Ha; subst; clear Ha.
  pose proof (room _ _ _ _ _ _ _ _ _ Hi) as Hroom.
  pose proof (consumed_le _ _ _ _ _ _ _ _ _ _ (i_ring _ _ _ _ _ _ _ _ _ Hi)) as Hct.
  destruct Hi. cbn in *. specialize (Hroom ltac:(by destruct h1)).
  pose proof (sp_ins _ _ _ _ _ _ _ _ _ _ i_ring0) as HW.
  pose proof (sp_below _ _ _ _ _ _ _ _ _ _ i_ring0) as HR.
  set (d := (addr_of id, buf_size, id)) in *.
  exists (cell_write (slot mask tl) d mh), (W ++ [S (v_p (vp mh))]), R, Q, gh, gt, acq, ct.
  subst tl. split; cbn -[tick] in *; try done.
  - by apply halves_cell_write.
  - apply (producer_writes_at 0 mask d); [done|lia].
  - by rewrite word_add, length_app, Nat.add_1_r.
  - rewrite take_app_le by lia. done.
  - apply Forall_app. split; [done|]. by repeat constructor.
  - rewrite <- i_places0. unfold places. rewrite drop_app_le, fmap_app by lia. solve_Permutation.
  - destruct i_bufs0. split; cbn in *; try done.
    + intros id'. specialize (b_p0 id'). lia.
    + intros id' Hid'. apply b_hand0. set_solver.
    + intros i e w Hle [He|[Hl He]]%lookup_app_Some Hw.
      * rewrite lookup_app_l in Hw by (apply lookup_lt_Some in He; lia). by apply (b_offered0 i).
      * apply list_lookup_singleton_Some in He as [H0 <-].
        rewrite lookup_app_r in Hw by lia. replace (i - length W)%nat with 0%nat in Hw by lia.
        injection Hw as <-. specialize (b_p0 id). cbn. lia.
Qed.
Lemma p_commit_good m m' tl sn re ha k g u :
  access P (commit_prog tl) m (Ret tl) m' ->
  good (mk m (mkProg tl sn re ha) k g u) -> good (mk m' (mkProg tl sn re ha) k g u).
Proof.
  intros Ha (mh & W & R & Q & gh & gt & acq & ct & Hi). inversion Ha; subst; clear Ha.
  destruct Hi. cbn in *. pose proof (sp_ins _ _ _ _ _ _ _ _ _ _ i_ring0) as HW.
  exists (store P Release Tail tl mh), W, R, Q, gh, (gt ++ [length W]), acq, ct.
  assert (view_le (vp mh) (vp (store P Release Tail tl mh))) as Hv by (cbn; auto with weak).
  split; cbn -[join store] in *; try done.
  - by apply halves_store_tail.
  - rewrite i_tail0, <- HW. by apply producer_publishes.
  - eapply up_to_mono; [|done]. apply Hv.
  - by apply (bufs_views (vp mh) (vc mh)).
Qed.

Lemma k_look_good i x m m' p kh ks he g u :
  load C Acquire Tail i m = Some (x, m') ->
  good (mk m p (mkKern kh ks he) g u) -> good (mk m' p (mkKern kh x he) g u).
Proof.
  intros Hl (mh & W & R & Q & gh & gt & acq & ct & []). cbn in *.
  destruct (halves_load_tail _ _ _ _ _ _ _ i_halves0 Hl) as (x' & mh' & Hl' & -> & Hh).
  destruct (consumer_acquires _ _ _ _ _ _ _ _ _ _ _ _ _ Hl' i_ring0) as (a & -> & _ & Hs).
  destruct (load_keeps _ _ _ _ _ _ _ Hl') as (Hp & Hc & Hhist & HC).
  exists mh', W, R, Q, gh, gt, acq, a. split; cbn in *; try done.
  - by rewrite Hhist.
  - eapply up_to_mono; [|exact i_q0]. apply Hc.
  - eapply up_to_mono; [|exact i_knows0]. apply Hp.
  - by apply (bufs_views (vp mh) (vc mh)).
Qed.

(** A 16-bit head names the slot the 32-bit count does: a pool has at most
    [2 ^ 15] entries. *)
Lemma slot_half (l : list Desc) z :
  ring_shape l mask -> mask + 1 <= MAX_PBUF_RING_ENTRIES -> slot mask (as_u16 z) = slot mask z.
Proof.
  intros Hs Hm. rewrite !(slot_mod l) by done. destruct Hs as (k & Hk & Hc & _).
  rewrite Hc. fold (wrap k z) (wrap k (as_u16 z)). f_equal. apply wrap_narrow.
  split; [lia|]. destruct (Z.le_gt_cases k 16) as [|Hg]; [done|].
  pose proof (Z.pow_le_mono_r 2 17 k ltac:(lia) ltac:(lia)).
  change MAX_PBUF_RING_ENTRIES with 32768 in Hm. change (2 ^ 17) with 131072 in *. lia.
Qed.

Lemma k_take_good d m m' p kh ks he off ta po u :
  mask + 1 <= MAX_PBUF_RING_ENTRIES ->
  kh <> ks -> cell_read (slot mask kh) m = (d, m') ->
  good (mk m p (mkKern kh ks he) (mkLog off ta po) u) ->
  good (mk m' p (mkKern (as_u16 (kh + 1)) ks (bid d :: he)) (mkLog off (ta ++ [d]) po) u).
Proof.
  intros Hm Hne Hread (mh & W & R & Q & gh & gt & acq & ct & []). cbn in *. subst kh ks ta.
  pose proof (sp_below _ _ _ _ _ _ _ _ _ _ i_ring0) as HR.
  assert (length R < ct)%nat as Hlt.
  { destruct (decide (length R = ct)) as [E|]; [by rewrite E in Hne|lia]. }
  rewrite (slot_half (cells mh)) in Hread by (try done; apply i_ring0).
  destruct (halves_cell_read (slot mask (word 0 (length R))) _ _ i_halves0) as [Hd Hh].
  rewrite Hread in Hd, Hh. cbn [fst snd] in Hd, Hh.
  destruct (consumer_reads _ _ _ _ _ _ _ _ _ _ i_ring0 Hlt) as (r & Hoff & Hs).
  fold (cell 0 mask (length R)) in Hd, Hh. rewrite <- Hd in Hoff.
  set (mh' := snd (cell_read (cell 0 mask (length R)) mh)) in *.
  assert (view_le (vc mh) (vc mh')) as Hv by apply (tick_le C).
  assert (vp mh' = vp mh /\ hist mh' = hist mh) as [Hvp Hhist] by done. clearbody mh'.
  exists mh', W, (R ++ [r]), Q, gh, gt, acq, ct. split; cbn in *; try done.
  - rewrite wrap_add_l, length_app, Nat.add_1_r, <- word_add. unfold u32_add.
    by rewrite wrap_narrow by lia.
  - rewrite length_app, Nat.add_1_r. symmetry. by apply take_S_r.
  - by rewrite Hhist.
  - eapply up_to_mono; [|exact i_q0]. apply Hv.
  - by rewrite Hvp.
  - rewrite length_app. cbn. lia.
  - rewrite <- i_places0. unfold places. rewrite (drop_S off d (length R)) by done.
    rewrite length_app, Nat.add_1_r, fmap_cons. solve_Permutation.
  - rewrite Hvp. apply (bufs_views _ _ (vp mh) (vc mh')) in i_bufs0; [|done..]. destruct i_bufs0.
    split; try done.
    + intros id [->|Hin]%elem_of_cons; [|by apply b_held0].
      destruct (lookup_lt_is_Some_2 W (length R)) as [w Hw].
      { pose proof (consumed_le _ _ _ _ _ _ _ _ _ _ i_ring0). lia. }
      specialize (b_offered0 (length R) d w ltac:(lia) Hoff Hw).
      pose proof (sp_c_knows _ _ _ _ _ _ _ _ _ _ i_ring0 (length R) w Hlt Hw).
      assert (v_p (vc mh) <= v_p (vc mh'))%nat by apply Hv. lia.
    + intros i e w Hi. rewrite length_app in Hi. apply b_offered0. lia.
Qed.

Lemma k_post_good id m p kh ks h1 h2 off ta po u :
  good (mk m p (mkKern kh ks (h1 ++ id :: h2)) (mkLog off ta po) u) ->
  good (mk m p (mkKern kh ks (h1 ++ h2)) (mkLog off ta (po ++ [id])) u).
Proof.
  intros (mh & W & R & Q & gh & gt & acq & ct & Hi).
  pose proof (acq_posted _ _ _ _ _ _ _ _ _ Hi) as Hacq. destruct Hi. cbn in *.
  exists mh, W, R, (Q ++ [v_c (vc mh)]), gh, gt, acq, ct. split; cbn in *; try done.
  - by apply hist_grows.
  - rewrite !length_app, i_posted0. done.
  - apply (up_to_snoc Q (v_c (vc mh)) (v_c (vc mh))); [done|lia|lia].
  - by apply up_to_app.
  - rewrite !length_app in *. cbn in *. lia.
  - rewrite <- i_places0. unfold places. rewrite drop_app_le by lia. solve_Permutation.
  - destruct i_bufs0. split; try done.
    + intros id' Hid'. apply b_held0. set_solver.
    + intros j id' q Hj [Hp|[Hl Hp]]%lookup_app_Some Hq.
      * rewrite lookup_app_l in Hq by (apply lookup_lt_Some in Hp; lia). by apply (b_posted0 j).
      * apply list_lookup_singleton_Some in Hp as [H0 <-].
        rewrite lookup_app_r in Hq by lia. replace (j - length Q)%nat with 0%nat in Hq by lia.
        injection Hq as <-. apply b_k0.
Qed.

Lemma k_publish_good m p k g u :
  good (mk m p k g u) ->
  good (mk (store C Release Head (as_u32 (Z.of_nat (length (posted g)))) m) p k g u).
Proof.
  intros (mh & W & R & Q & gh & gt & acq & ct & []). cbn in *. rewrite <- i_posted0.
  change (as_u32 (Z.of_nat (length Q))) with (word 0 (length Q)).
  exists (store C Release Head (word 0 (length Q)) mh), W, R, Q, (gh ++ [length Q]), gt, acq, ct.
  assert (view_le (vc mh) (vc (store C Release Head (word 0 (length Q)) mh))) as Hv
    by (cbn; auto with weak).
  assert (forall d, d ∈ gh -> (d <= length Q)%nat) as Hg by (intros; by eapply hist_bound).
  split; cbn -[join store] in *; try done.
  - by apply halves_store_head.
  - apply consumer_publishes_at; [done|lia|done].
  - apply hist_store; [done|done| |done]. eapply up_to_mono; [|done]. cbn. lia.
  - eapply up_to_mono; [|done]. apply Hv.
  - by apply (bufs_views (vp mh) (vc mh)).
Qed.

Lemma pool_init_good arr : ring_shape arr mask -> good (init arr).
Proof.
  intros Hs. exists (at_rest 0 arr), [], [], [], [0%nat], [0%nat], 0%nat, 0%nat.
  pose proof (at_rest_spsc 0 mask arr Hs) as Hr.
  split; cbn; try done.
  - apply Hr.
  - unfold places. cbn. by rewrite app_nil_r.
Qed.
Lemma pool_step_good s s' : mask + 1 <= MAX_PBUF_RING_ENTRIES -> step s s' -> good s -> good s'.
Proof.
  intros Hm []; eauto using p_look_good, p_reap_good, p_touch_good, p_recycle_good, p_commit_good,
    k_look_good, k_take_good, k_fill_good, k_post_good, k_publish_good.
Qed.
Lemma pool_reachable_good arr s :
  ring_shape arr mask -> mask + 1 <= MAX_PBUF_RING_ENTRIES -> reachable arr s -> good s.
Proof.
  intros Hs Hm Hr. apply pool_init_good in Hs. revert Hs.
  induction Hr; intros Hg; [done|]. eauto using pool_step_good.
Qed.
End System.
End Pool.

(** C6. The program recycles what it holds and commits; the kernel takes descriptors,
    fills the buffers and posts their completions in any order, from any thread.
    However the two interleave access by access, and however stale the indices,
    no descriptor is written while it is read and no buffer is used by one side
    before it has synchronised with the other's last use.  The descriptors taken
    are the first of those offered, in order, each of them its buffer's own; no
    buffer is held by both, and never more than the capacity are outstanding. *)
Theorem pool_race_free mask bufs_addr buf_size arr s :
  ring_shape arr mask -> mask + 1 <= MAX_PBUF_RING_ENTRIES ->
  Pool.reachable mask bufs_addr buf_size arr s ->
  race (Pool.m s) = false /\ clash (Pool.us s) = false /\
  Pool.taken (Pool.lg s) `prefix_of` Pool.offered (Pool.lg s) /\
  Forall (fun d => d = (as_u64 (bufs_addr + bid d * buf_size), buf_size, bid d))
    (Pool.taken (Pool.lg s)) /\
  NoDup (Pool.hand (Pool.pr s) ++ Pool.held (Pool.ke s)) /\
  Z.of_nat (length (Pool.offered (Pool.lg s))) <=
    Z.of_nat (length (Pool.taken (Pool.lg s))) + (mask + 1).
Proof.
  intros Hs Hm Hr.
  destruct (Pool.pool_reachable_good _ _ _ _ _ Hs Hm Hr) as (mh & W & R & Q & gh & gt & acq & ct & []).
  pose proof (known_le _ _ _ _ _ _ _ _ _ _ i_ring) as Hacq.
  pose proof (consumed_le _ _ _ _ _ _ _ _ _ _ i_ring) as Hct.
  pose proof (sp_below _ _ _ _ _ _ _ _ _ _ i_ring) as HR.
  pose proof (sp_room _ _ _ _ _ _ _ _ _ _ i_ring) as Hroom.
  pose proof (sp_ins _ _ _ _ _ _ _ _ _ _ i_ring) as HW.
  rewrite i_taken. split_and!.
  - rewrite (h_race _ _ i_halves). apply i_ring.
  - apply i_bufs.
  - exists (drop (length R) (Pool.offered (Pool.lg s))). by rewrite take_drop.
  - by apply Forall_take.
  - assert (NoDup (Pool.places (Pool.hand (Pool.pr s)) (Pool.held (Pool.ke s))
      (Pool.reaped (Pool.pr s)) (length R) (Pool.posted (Pool.lg s)) (Pool.offered (Pool.lg s))))
      as Hnd by (rewrite i_places; apply NoDup_seqZ).
    unfold Pool.places in Hnd. rewrite app_assoc in Hnd. by apply NoDup_app in Hnd as (? & _).
  - rewrite length_take. lia.
Qed.

(** ** A concrete run *)
(** A pool of two: buffer 1 is offered, published, taken, filled, delivered and read. *)
Lemma delivered_run : exists s, Pool.reachable 1 4096 256 [(0, 0, 0); (0, 0, 0)] s /\
  Pool.taken (Pool.lg s) = [(4352, 256, 1)] /\ Pool.hand (Pool.pr s) = [1; 0] /\
  by_p (Pool.us s) 1 = 2%nat /\ by_k (Pool.us s) 1 = 2%nat.
Proof.
  eexists. split; [unfold Pool.reachable, Pool.init|].
  - eapply rtc_l; [eapply (Pool.p_recycle _ _ _ 1 _ _ _ _ _ _ [0] []); by apply a_write|].
    eapply rtc_l; [eapply Pool.p_commit; apply a_store|].
    eapply rtc_l; [eapply (Pool.k_look _ _ _ 1%nat); apply load_at; [reflexivity|cbn; lia]|].
    eapply rtc_l; [eapply Pool.k_take; [done|reflexivity]|].
    eapply rtc_l; [eapply (Pool.k_fill _ _ _ 1); by left|].
    eapply rtc_l; [eapply (Pool.k_post _ _ _ 1 _ _ _ _ [] [])|].
    eapply rtc_l; [apply Pool.k_publish|].
    eapply rtc_l; [eapply (Pool.p_look _ _ _ 1%nat); apply load_at; [reflexivity|cbn; lia]|].
    eapply rtc_l; [by eapply (Pool.p_reap _ _ _ 1)|].
    eapply rtc_l; [eapply (Pool.p_touch _ _ _ 1); by left|]. apply rtc_refl.
  - by split_and!.
Qed.
Lemma pool_race_free_witness : exists s,
  Pool.taken (Pool.lg s) = [(4352, 256, 1)] /\ race (Pool.m s) = false /\ clash (Pool.us s) = false.
Proof.
  destruct delivered_run as (s & Hr & Ht & _). exists s. split; [done|].
  assert (ring_shape [(0, 0, 0); (0, 0, 0)] 1) as Hs by (by exists 1).
  destruct (pool_race_free 1 4096 256 _ s Hs ltac:(done) Hr) as (? & ? & _). by split.
Defined.
