(* ===== verification/RecvmsgOut.v ===== *)
(** * The buffer of a multishot recvmsg (types/net.rs, ring/pbuf.rs)

    The kernel prepends a header, the sender's address and the control data to
    the payload; [parse] carves the buffer up.  A slice's content is the list
    of its bytes, and the outer [option] is the panic of an index out of range. *)
From stdpp Require Import base numbers list option.
From Stdlib Require Import ZArith Lia.
From S2P Require Import Prelude Flags Types UserMem Pbuf.
Local Open Scope Z_scope.
Local Open Scope rust_scope.

(* src/src/types/net.rs:249-254 RecvmsgOut *)
Record RecvmsgOut : Set := mkRecvmsgOut {
  ro_namelen : Z; ro_controllen : Z; ro_payloadlen : Z; ro_flags : Z
}.
(* src/src/types/net.rs:264-273 RecvmsgParts *)
Record RecvmsgParts : Set := mkParts {
  rp_header : RecvmsgOut; rp_name : list Z; rp_control : list Z; rp_payload : list Z
}.
#[export] Instance recvmsgout_repr : Repr RecvmsgOut := {
  size_of := 16;
  align_of := 4;
  to_mem h := pack [4; 4; 4; 4]%nat [ro_namelen h; ro_controllen h; ro_payloadlen h; ro_flags h];
  of_mem bs := match unpack [4; 4; 4; 4]%nat bs with
               | [n; c; p; f] => mkRecvmsgOut n c p f
               | _ => mkRecvmsgOut 0 0 0 0
               end;
  repr_ok h := in_u 32 (ro_namelen h) /\ in_u 32 (ro_controllen h) /\ in_u 32 (ro_payloadlen h) /\
               in_u 32 (ro_flags h)
}.
(* src/src/types/net.rs:277-277 RecvmsgOut::SIZE *)
Definition SIZE : Z := Z.of_nat (size_of RecvmsgOut).

(** `&buf[a..b]` and `&buf[a..]`. *)
Definition slice_range {A} (buf : list A) (a b : Z) : option (list A) :=
  if (a <=? b) && (b <=? Z.of_nat (length buf))
  then Some (take (Z.to_nat (b - a)) (drop (Z.to_nat a) buf)) else None.
Definition slice_from {A} (buf : list A) (a : Z) : option (list A) :=
  if a <=? Z.of_nat (length buf) then Some (drop (Z.to_nat a) buf) else None.
Definition checked_add {PW : PtrWidth} (a b : Z) : option Z :=
  if a + b <? 2 ^ usize_bits then Some (a + b) else None.

(* src/src/types/net.rs:340-342 RecvmsgOut::read_u32 *)
Definition read_u32 (buf : list Z) (off : nat) : option Z :=
  b0 ← buf !! off; b1 ← buf !! (off + 1)%nat; b2 ← buf !! (off + 2)%nat;
  b3 ← buf !! (off + 3)%nat; Some (le_combine [b0; b1; b2; b3]).

Section Parse.
  Context {PW : PtrWidth}.
(* src/src/types/net.rs:299-334 RecvmsgOut::parse *)
Definition parse (buf : list Z) (msg_namelen msg_controllen : Z) : option (option RecvmsgParts) :=
  let name_reserved := msg_namelen in
  let ctrl_reserved := msg_controllen in
  match (x ← checked_add SIZE name_reserved; checked_add x ctrl_reserved) with
  | None => Some None
  | Some fixed =>
      if Z.of_nat (length buf) <? fixed then Some None
      else
        namelen ← read_u32 buf 0;
        controllen ← read_u32 buf 4;
        payloadlen ← read_u32 buf 8;
        flags ← read_u32 buf 12;
        let header := mkRecvmsgOut namelen controllen payloadlen flags in
        let name_len := Z.min (ro_namelen header) name_reserved in
        let ctrl_len := Z.min (ro_controllen header) ctrl_reserved in
        let name_start := SIZE in
        let ctrl_start := name_start + name_reserved in
        let payload_start := ctrl_start + ctrl_reserved in
        name ← slice_range buf name_start (name_start + name_len);
        control ← slice_range buf ctrl_start (ctrl_start + ctrl_len);
        payload ← slice_from buf payload_start;
        Some (Some (mkParts header name control payload))
  end.

(** The content of the buffer a completion names, in the memory [m]. *)
(* src/src/ring/pbuf.rs:519-528 ProvidedBufferRing::recvmsg_parts *)
Definition recvmsg_parts (buf_id len msg_namelen msg_controllen : Z) (self : ProvidedBufferRing)
  (m : UMem) : option (option RecvmsgParts) :=
  match buffer buf_id len self with
  | None => Some None
  | Some buf =>
      let bytes := read_bytes (slice_ptr buf) (Z.to_nat (slice_len buf)) m in
      parse bytes msg_namelen msg_controllen
  end.
(* src/src/ring/pbuf.rs:1090-1099 BufferConsumer::recvmsg_parts *)
Definition consumer_recvmsg_parts (buf_id len msg_namelen msg_controllen : Z)
  (self : BufferConsumer.t) (m : UMem) : option (option RecvmsgParts) :=
  match buffer buf_id len (BufferConsumer.inner self) with
  | None => Some None
  | Some buf =>
      let bytes := read_bytes (slice_ptr buf) (Z.to_nat (slice_len buf)) m in
      parse bytes msg_namelen msg_controllen
  end.
End Parse.

(** ** Theorems *)
#[export] Instance recvmsgout_laws : ReprLaws RecvmsgOut.
Proof.
  split; [by intros []|]. intros [] (? & ? & ? & ?). cbn [to_mem of_mem recvmsgout_repr] in *.
  rewrite unpack_exact by fields. done.
Qed.

Lemma read_u32_at pre x rest :
  in_u 32 x -> read_u32 (pre ++ le_split 4 x ++ rest) (length pre) = Some x.
Proof.
  intros Hx. unfold read_u32.
  assert (forall i, (i < 4)%nat ->
    (pre ++ le_split 4 x ++ rest) !! (length pre + i)%nat = le_split 4 x !! i) as Hl.
  { intros i Hi. rewrite lookup_app_r, Nat.add_comm, Nat.add_sub by lia.
    by rewrite lookup_app_l by (rewrite le_split_length; lia). }
  rewrite <- (Nat.add_0_r (length pre)) at 1. rewrite (Hl 0%nat) by lia. cbn [mbind option_bind].
  rewrite (Hl 1%nat), (Hl 2%nat), (Hl 3%nat) by lia.
  pose proof (le_combine_split 4 x) as Hc. cbn [le_split] in *. cbn [lookup list_lookup mbind option_bind].
  f_equal. rewrite Hc. by apply wrap_small.
Qed.

Lemma slice_range_app {A} (pre mid post : list A) a n :
  a = Z.of_nat (length pre) -> 0 <= n <= Z.of_nat (length mid) ->
  slice_range (pre ++ mid ++ post) a (a + n) = Some (take (Z.to_nat n) mid).
Proof.
  intros -> Hn. unfold slice_range. rewrite !length_app.
  destruct (Z.leb_spec (Z.of_nat (length pre)) (Z.of_nat (length pre) + n)); [|lia].
  destruct (Z.leb_spec (Z.of_nat (length pre) + n)
    (Z.of_nat (length pre + (length mid + length post)))); [|lia]. cbn [andb]. f_equal.
  rewrite Nat2Z.id, drop_app_length. replace (Z.of_nat (length pre) + n - Z.of_nat (length pre))
    with n by lia. by rewrite take_app_le by lia.
Qed.

(** What the kernel writes: the header, the two reserved regions, the payload. *)
Definition recvmsg_image (h : RecvmsgOut) (name ctl payload : list Z) : list Z :=
  to_mem h ++ name ++ ctl ++ payload.

(** Every long enough buffer is such an image. *)
Lemma image_of_bytes buf n c :
  Forall (in_u 8) buf -> 0 <= n -> 0 <= c -> 16 + n + c <= Z.of_nat (length buf) ->
  exists h name ctl payload, repr_ok h /\ buf = recvmsg_image h name ctl payload /\
    Z.of_nat (length name) = n /\ Z.of_nat (length ctl) = c.
Proof.
  intros Hb Hn Hc Hlen.
  assert (forall k (l : list Z), Forall (in_u 8) l -> (4 <= length l)%nat -> k = le_combine (take 4 l) ->
    in_u 32 k /\ take 4 l = le_split 4 k) as Hw.
  { intros k l Hl Hge ->. assert (length (take 4 l) = 4%nat) as Hl4 by (rewrite length_take; lia).
    assert (Forall (in_u 8) (take 4 l)) as Hf by by apply Forall_take.
    assert (le_split 4 (le_combine (take 4 l)) = take 4 l) as He
      by (rewrite <- Hl4 at 1; by apply le_split_combine).
    split; [|done]. rewrite <- He, le_combine_split. by apply wrap_range. }
  set (w i := le_combine (take 4 (drop (4 * i) buf))).
  assert (forall i, (i < 4)%nat -> in_u 32 (w i) /\ take 4 (drop (4 * i) buf) = le_split 4 (w i)) as Hwi.
  { intros i Hi. apply Hw; [by apply Forall_drop|rewrite length_drop; lia|done]. }
  exists (mkRecvmsgOut (w 0%nat) (w 1%nat) (w 2%nat) (w 3%nat)), (take (Z.to_nat n) (drop 16 buf)),
    (take (Z.to_nat c) (drop (16 + Z.to_nat n) buf)), (drop (16 + Z.to_nat n + Z.to_nat c) buf).
  split_and!.
  - split_and!; apply Hwi; lia.
  - unfold recvmsg_image. cbn [to_mem recvmsgout_repr ro_namelen ro_controllen ro_payloadlen ro_flags
      pack]. rewrite app_nil_r.
    rewrite <- !(fun i Hi => proj2 (Hwi i Hi)) by lia. rewrite <- !app_assoc. cbn [Nat.mul Nat.add].
    rewrite <- (take_drop 4 buf) at 1. f_equal.
    rewrite <- (take_drop 4 (drop 4 buf)) at 1. f_equal. rewrite drop_drop. cbn [Nat.add].
    rewrite <- (take_drop 4 (drop 8 buf)) at 1. f_equal. rewrite drop_drop. cbn [Nat.add].
    rewrite <- (take_drop 4 (drop 12 buf)) at 1. f_equal. rewrite drop_drop. cbn [Nat.add].
    rewrite <- (take_drop (Z.to_nat n) (drop 16 buf)) at 1. f_equal. rewrite drop_drop.
    rewrite <- (take_drop (Z.to_nat c) (drop (16 + Z.to_nat n) buf)) at 1. f_equal.
    by rewrite drop_drop.
  - rewrite length_take, length_drop. lia.
  - rewrite length_take, length_drop. lia.
Qed.

Lemma checked_fixed {PW : PtrWidth} n c :
  0 <= n -> 0 <= c ->
  (x ← checked_add SIZE n; checked_add x c) =
  (if 16 + n + c <? 2 ^ usize_bits then Some (16 + n + c) else None).
Proof.
  intros Hn Hc. unfold checked_add. change SIZE with 16.
  destruct (Z.ltb_spec (16 + n) (2 ^ usize_bits)); cbn [mbind option_bind]; [done|].
  by destruct (Z.ltb_spec (16 + n + c) (2 ^ usize_bits)); [lia|].
Qed.

Lemma parse_image {PW : PtrWidth} h name ctl payload :
  repr_ok h ->
  let n := Z.of_nat (length name) in let c := Z.of_nat (length ctl) in
  Z.of_nat (length (recvmsg_image h name ctl payload)) < 2 ^ usize_bits ->
  parse (recvmsg_image h name ctl payload) n c =
  Some (Some (mkParts h (take (Z.to_nat (Z.min (ro_namelen h) n)) name)
                (take (Z.to_nat (Z.min (ro_controllen h) c)) ctl) payload)).
Proof.
  intros Hh. cbv zeta. unfold parse. set (buf := recvmsg_image h name ctl payload). intros Hlen.
  rewrite checked_fixed by lia.
  assert (length buf = 16 + length name + length ctl + length payload)%nat as Hl.
  { unfold buf, recvmsg_image. rewrite !length_app, to_mem_length. cbn. lia. }
  destruct (Z.ltb_spec (16 + Z.of_nat (length name) + Z.of_nat (length ctl)) (2 ^ usize_bits)); [|lia].
  destruct (Z.ltb_spec (Z.of_nat (length buf)) (16 + Z.of_nat (length name) + Z.of_nat (length ctl)));
    [lia|].
  destruct h as [hn hc hp hf]. destruct Hh as (Hhn & Hhc & Hhp & Hhf).
  cbn [ro_namelen ro_controllen ro_payloadlen ro_flags] in *.
  assert (buf = le_split 4 hn ++ le_split 4 hc ++ le_split 4 hp ++ le_split 4 hf ++
    name ++ ctl ++ payload) as Hbuf.
  { unfold buf, recvmsg_image. cbn [to_mem recvmsgout_repr pack ro_namelen ro_controllen
      ro_payloadlen ro_flags]. by rewrite app_nil_r, <- !app_assoc. }
  assert (read_u32 buf 0 = Some hn) as -> by (rewrite Hbuf; by apply (read_u32_at [])).
  assert (read_u32 buf 4 = Some hc) as ->.
  { rewrite Hbuf. by apply (read_u32_at (le_split 4 hn)). }
  assert (read_u32 buf 8 = Some hp) as ->.
  { rewrite Hbuf, (app_assoc (le_split 4 hn)). by apply (read_u32_at (le_split 4 hn ++ le_split 4 hc)). }
  assert (read_u32 buf 12 = Some hf) as ->.
  { rewrite Hbuf, (app_assoc (le_split 4 hn)), (app_assoc (le_split 4 hn ++ _)).
    by apply (read_u32_at ((le_split 4 hn ++ le_split 4 hc) ++ le_split 4 hp)). }
  cbn [mbind option_bind ro_namelen ro_controllen]. unfold in_u in *. change SIZE with 16.
  set (hd := to_mem (mkRecvmsgOut hn hc hp hf)).
  assert (length hd = 16%nat) as Hhd by reflexivity.
  assert (buf = hd ++ name ++ ctl ++ payload) as -> by done.
  rewrite (slice_range_app hd name (ctl ++ payload) 16) by (rewrite ?Hhd; lia).
  cbn [mbind option_bind].
  rewrite (app_assoc hd name), (slice_range_app (hd ++ name) ctl payload)
    by (rewrite ?length_app, ?Hhd; lia).
  cbn [mbind option_bind]. unfold slice_from.
  destruct (Z.leb_spec (16 + Z.of_nat (length name) + Z.of_nat (length ctl))
    (Z.of_nat (length ((hd ++ name) ++ ctl ++ payload)))); [|rewrite !length_app in *; lia].
  cbn [mbind option_bind]. do 3 f_equal. rewrite app_assoc, drop_app_length'; [done|].
  rewrite !length_app, Hhd. lia.
Qed.

(** C25. Parsing the buffer of a multishot recvmsg never panics, whatever the
    buffer holds: a buffer too short for the header and the two reserved regions
    is refused, and any other is carved up exactly, the header decoded, the
    address and the control data cut to the lesser of what arrived and what was
    reserved, and everything behind the reserved regions the payload. *)
Theorem recvmsg_out_exact {PW : PtrWidth} buf n c :
  Forall (in_u 8) buf -> 0 <= n -> 0 <= c -> Z.of_nat (length buf) < 2 ^ usize_bits ->
  if Z.of_nat (length buf) <? 16 + n + c then parse buf n c = Some None
  else exists h name ctl payload,
    buf = recvmsg_image h name ctl payload /\ repr_ok h /\
    Z.of_nat (length name) = n /\ Z.of_nat (length ctl) = c /\
    parse buf n c = Some (Some (mkParts h (take (Z.to_nat (Z.min (ro_namelen h) n)) name)
                            (take (Z.to_nat (Z.min (ro_controllen h) c)) ctl) payload)).
Proof.
  intros Hb Hn Hc Hl. destruct (Z.ltb_spec (Z.of_nat (length buf)) (16 + n + c)) as [Hs|Hs].
  - unfold parse. rewrite checked_fixed by done.
    destruct (Z.ltb_spec (16 + n + c) (2 ^ usize_bits)); [|done].
    by destruct (Z.ltb_spec (Z.of_nat (length buf)) (16 + n + c)); [|lia].
  - destruct (image_of_bytes buf n c Hb Hn Hc Hs) as (h & name & ctl & payload & Hh & -> & <- & <-).
    exists h, name, ctl, payload. split_and!; try done; try apply Hh. by apply parse_image.
Qed.

Lemma recvmsg_out_exact_witness :
  let buf := recvmsg_image (mkRecvmsgOut 20 0 3 0) (replicate 16 7) [] [104; 101; 121] in
  exists h name ctl payload, buf = recvmsg_image h name ctl payload /\
    parse buf 16 0 = Some (Some (mkParts h (take (Z.to_nat (Z.min (ro_namelen h) 16)) name)
                             (take (Z.to_nat (Z.min (ro_controllen h) 0)) ctl) payload)).
Proof.
  set (buf := recvmsg_image _ _ _ _).
  destruct (recvmsg_out_exact buf 16 0) as (h & name & ctl & payload & E & _ & _ & _ & P).
  - apply Forall_fold_right. vm_compute. repeat split; congruence.
  - lia.
  - lia.
  - vm_compute. reflexivity.
  - exists h, name, ctl, payload. split; [exact E|exact P].
Defined.
