(* ===== verification/Owned.v ===== *)
(** * Owned requests: identities, events and tickets (owned/)

    A request owns its buffer; queueing it yields a ticket stamped with the
    ring's identity and a fresh request identity, which travels through the
    kernel as the entry's `user_data`; a reaped completion becomes a terminal
    [Receipt] or a [PartialReceipt]; a matching receipt buys the buffer back.
    [OwnedRequest] is the interface the queue needs of a request kind, with an
    instance per kind modelled. *)
From stdpp Require Import base numbers list option gmap gmultiset.
From Stdlib Require Import ZArith Lia.
From S2P Require Import Prelude Flags Types RingIndex Sqe SqeFile SqeNet Resources Layout.
From S2P Require Import Pbuf.
Local Open Scope Z_scope.
Local Open Scope rust_scope.

(** ** Identities *)
(* src/src/owned/identity.rs:13-14 RingId *)
Definition RingId : Set := Z.
(* src/src/owned/identity.rs:34-35 RequestId *)
Definition RequestId : Set := Z.
(** The process-wide counter of ring identities is an argument. *)
(* src/src/owned/identity.rs:18-21 RingId::next *)
Definition next_ring_id (next : Z) : RingId * Z := (next, u32_add next 1).
Module RequestIdSource.
(* src/src/owned/identity.rs:54-56 RequestIdSource *)
Record t : Set := mk { next_id : Z }.
(* src/src/owned/identity.rs:59-63 RequestIdSource::new *)
Definition new : t := mk 1.
(* src/src/owned/identity.rs:69-71 RequestIdSource::next *)
Definition next (self : t) : RequestId * t := (next_id self, mk (u64_add (next_id self) 1)).
End RequestIdSource.

(** ** Receipts and events *)
(* src/src/owned/request.rs:391-396 Receipt *)
Record Receipt : Set := mkReceipt { rc_ring : RingId; rc_id : RequestId; rc_result : Z; rc_flags : Z }.
(* src/src/owned/request.rs:430-432 Receipt::belongs_to *)
Definition belongs_to (self : Receipt) (ring : RingId) (id : RequestId) : bool :=
  (rc_id self =? id) && (rc_ring self =? ring).
Module PartialReceipt.
(* src/src/owned/event.rs:28-33 PartialReceipt *)
Record t : Set := mk { ring : RingId; id : RequestId; result : Z; flags : Z }.
(* src/src/owned/event.rs:70-72 PartialReceipt::buffer_id *)
Definition buffer_id (self : t) : option Z := cqe_buffer_id (flags self).
(* src/src/owned/event.rs:77-79 PartialReceipt::belongs_to *)
Definition belongs_to (self : t) (r : RingId) (i : RequestId) : bool :=
  (id self =? i) && (ring self =? r).
End PartialReceipt.
Module Event.
(* src/src/owned/event.rs:88-96 Event *)
Inductive t : Set :=
| Complete (receipt : Receipt)
| Partial (partial : PartialReceipt.t).
(* src/src/owned/event.rs:101-106 Event::into_receipt *)
Definition into_receipt (self : t) : option Receipt :=
  match self with Complete r => Some r | Partial _ => None end.
(* src/src/owned/event.rs:110-115 Event::id *)
Definition id (self : t) : RequestId :=
  match self with Complete r => rc_id r | Partial p => PartialReceipt.id p end.
(* src/src/owned/event.rs:119-124 Event::ring *)
Definition ring (self : t) : RingId :=
  match self with Complete r => rc_ring r | Partial p => PartialReceipt.ring p end.
(* src/src/owned/event.rs:128-133 Event::raw_result *)
Definition raw_result (self : t) : Z :=
  match self with Complete r => rc_result r | Partial p => PartialReceipt.result p end.
(* src/src/owned/event.rs:137-142 Event::flags *)
Definition flags (self : t) : Z :=
  match self with Complete r => rc_flags r | Partial p => PartialReceipt.flags p end.
(* src/src/owned/event.rs:146-148 Event::is_terminal *)
Definition is_terminal (self : t) : bool :=
  match self with Complete _ => true | Partial _ => false end.
(* src/src/owned/event.rs:153-158 Event::belongs_to *)
Definition belongs_to (self : t) (r : RingId) (i : RequestId) : bool :=
  match self with
  | Complete c => belongs_to c r i
  | Partial p => PartialReceipt.belongs_to p r i
  end.
End Event.

(** ** Address-stable storage *)
(** `stable_ptr` is a function of the owner, so moving the owner keeps it; the
    mutable pointer is the same address. *)
Class StableBuffer (B : Type) := {
  stable_ptr : B -> Z;
  stable_len : B -> Z
}.
(* src/src/owned/buffer.rs:55-59 MmapBuffer *)
Record MmapBuffer : Set := mkMmapBuffer { mb_addr : Z; mb_len : Z; mb_mapped : Z }.
(* src/src/owned/buffer.rs:62-62 MmapBuffer::PAGE *)
Definition PAGE : Z := 4096.
(** [next_multiple_of] with a check that the result fits. *)
Definition checked_next_multiple_of {PW : PtrWidth} (len m : Z) : option Z :=
  let r := next_multiple_of len m in if r <? 2 ^ usize_bits then Some r else None.
(* src/src/owned/buffer.rs:136-144 MmapBuffer (StableBuffer) *)
#[export] Instance mmap_stable : StableBuffer MmapBuffer := {
  stable_ptr := mb_addr;
  stable_len := mb_len
}.
Section MmapBuffer.
  Context {K : Type} {PW : PtrWidth} `{SK : SetupKernel K}.
(* src/src/owned/buffer.rs:74-97 MmapBuffer::with_capacity *)
Definition with_capacity (len : Z) (o : Os K) : result MmapBuffer Error * Os K :=
  if len =? 0 then (Err (from_setup (InvalidArg BufferSizeZero)), o)
  else
    match checked_next_multiple_of len PAGE with
    | None => (Err (from_setup (InvalidArg BufferRingSizeOverflow)), o)
    | Some mapped =>
        match mmap_anon mapped o with
        | (Err e, o) => (Err e, o)
        | (Ok addr, o) => (Ok (mkMmapBuffer addr len mapped), o)
        end
    end.
(* src/src/owned/buffer.rs:124-131 MmapBuffer::drop *)
Definition drop_buffer (self : MmapBuffer) (o : Os K) : Os K :=
  munmap (new_region (mb_addr self) (mb_mapped self)) o.
End MmapBuffer.

(* src/src/owned/request.rs:84-90 Prepared::clamp_len *)
Definition clamp_len (len : Z) : Z := if len >? 4294967295 then 4294967295 else as_u32 len.

(* src/src/owned/request.rs:11-17 Direction *)
Inductive Direction : Set := Read | Write.
(** A completion's result: the count, or the kernel's error. *)
Definition result_of (raw : Z) : result Z Error :=
  match from_failed_cqe raw with Some e => Err e | None => Ok (as_u32 raw) end.

(** ** Reads and writes (owned/request.rs) *)
Module Request.
(* src/src/owned/request.rs:23-40 Prepared *)
Record Prepared (B : Type) : Type := mkPrepared {
  p_buf : B; p_fd : Z; p_offset : Z; p_len : Z; p_direction : Direction; p_addr : Z
}.
(* src/src/owned/request.rs:198-207 Pending *)
Record Pending (B : Type) : Type := mkPending {
  t_buf : B; t_ring : RingId; t_id : RequestId; t_fd : Z; t_offset : Z; t_len : Z;
  t_direction : Direction; t_addr : Z
}.
(* src/src/owned/request.rs:315-320 Completed *)
Record Completed (B : Type) : Type := mkCompleted {
  d_buf : B; d_id : RequestId; d_direction : Direction; d_result : Z
}.
Arguments mkPrepared {B} _ _ _ _ _ _.
Arguments p_buf {B} _. Arguments p_fd {B} _. Arguments p_offset {B} _.
Arguments p_len {B} _. Arguments p_direction {B} _. Arguments p_addr {B} _.
Arguments mkPending {B} _ _ _ _ _ _ _ _.
Arguments t_buf {B} _. Arguments t_ring {B} _. Arguments t_id {B} _. Arguments t_fd {B} _.
Arguments t_offset {B} _. Arguments t_len {B} _. Arguments t_direction {B} _. Arguments t_addr {B} _.
Arguments mkCompleted {B} _ _ _ _.
Arguments d_buf {B} _. Arguments d_id {B} _. Arguments d_direction {B} _. Arguments d_result {B} _.

Section Ops.
  Context {B : Type} `{StableBuffer B}.
(* src/src/owned/request.rs:53-64 Prepared::read *)
Definition read (fd : Z) (buf : B) (offset : Z) : Prepared B :=
  mkPrepared buf fd offset (clamp_len (stable_len buf)) Read (stable_ptr buf).
(* src/src/owned/request.rs:70-81 Prepared::write *)
Definition write (fd : Z) (buf : B) (offset : Z) : Prepared B :=
  mkPrepared buf fd offset (clamp_len (stable_len buf)) Write (stable_ptr buf).
End Ops.
Section Moves.
  Context {B : Type}.
(* src/src/owned/request.rs:102-107 Prepared::with_len *)
Definition with_len (len : Z) (self : Prepared B) : Prepared B :=
  if len <? p_len self
  then mkPrepared (p_buf self) (p_fd self) (p_offset self) len (p_direction self) (p_addr self)
  else self.
(* src/src/owned/request.rs:129-131 Prepared::into_buffer *)
Definition into_buffer (self : Prepared B) : B := p_buf self.
(* src/src/owned/request.rs:149-177 Prepared::into_pending *)
Definition into_pending (ring : RingId) (id : RequestId) (self : Prepared B) : Sqe * Pending B :=
  let sqe := match p_direction self with
             | Read => FileOps.read_ptr (p_fd self) (p_addr self) (p_len self) (p_offset self)
             | Write => FileOps.write_ptr (p_fd self) (p_addr self) (p_len self) (p_offset self)
             end in
  (Modifiers.with_user_data sqe id,
   mkPending (p_buf self) ring id (p_fd self) (p_offset self) (p_len self) (p_direction self)
     (p_addr self)).
(* src/src/owned/request.rs:248-250 Pending::matches *)
Definition matches (self : Pending B) (receipt : Receipt) : bool :=
  belongs_to receipt (t_ring self) (t_id self).
(* src/src/owned/request.rs:260-274 Pending::reclaim_unsubmitted *)
Definition reclaim_unsubmitted (self : Pending B) : Prepared B :=
  mkPrepared (t_buf self) (t_fd self) (t_offset self) (t_len self) (t_direction self) (t_addr self).
(* src/src/owned/request.rs:286-302 Pending::redeem *)
Definition redeem (self : Pending B) (receipt : Receipt)
  : result (Completed B) (Pending B * Receipt) :=
  if negb (matches self receipt) then Err (self, receipt)
  else Ok (mkCompleted (t_buf self) (t_id self) (t_direction self) (rc_result receipt)).
(* src/src/owned/request.rs:348-353 Completed::result *)
Definition completed_result (self : Completed B) : result Z Error := result_of (d_result self).
(* src/src/owned/request.rs:379-381 Completed::into_parts *)
Definition into_parts (self : Completed B) : result Z Error * B :=
  (completed_result self, d_buf self).
End Moves.
(* src/src/owned/request.rs:368-371 Completed::into_buffer *)
Definition completed_into_buffer {B} (self : Completed B) : B := d_buf self.
End Request.

(** ** Zero-copy sends (owned/zerocopy.rs) *)
Module Zc.
(* src/src/owned/zerocopy.rs:33-41 PreparedZc *)
Record Prepared (B : Type) : Type := mkPrepared {
  p_buf : B; p_fd : Z; p_len : Z; p_flags : Z; p_addr : Z
}.
(* src/src/owned/zerocopy.rs:152-161 PendingZc *)
Record Pending (B : Type) : Type := mkPending {
  t_buf : B; t_ring : RingId; t_id : RequestId; t_fd : Z; t_len : Z; t_flags : Z; t_addr : Z;
  t_sent : option Z
}.
(* src/src/owned/zerocopy.rs:294-299 ZcCompleted *)
Record Completed (B : Type) : Type := mkCompleted {
  d_buf : B; d_id : RequestId; d_sent : option Z; d_notified : Z
}.
Arguments mkPrepared {B} _ _ _ _ _.
Arguments p_buf {B} _. Arguments p_fd {B} _. Arguments p_len {B} _. Arguments p_flags {B} _.
Arguments p_addr {B} _.
Arguments mkPending {B} _ _ _ _ _ _ _ _.
Arguments t_buf {B} _. Arguments t_ring {B} _. Arguments t_id {B} _. Arguments t_fd {B} _.
Arguments t_len {B} _. Arguments t_flags {B} _. Arguments t_addr {B} _. Arguments t_sent {B} _.
Arguments mkCompleted {B} _ _ _ _.
Arguments d_buf {B} _. Arguments d_id {B} _. Arguments d_sent {B} _. Arguments d_notified {B} _.

Section Ops.
  Context {B : Type} `{StableBuffer B}.
(* src/src/owned/zerocopy.rs:66-73 PreparedZc::clamp_len *)
Definition clamp_len (len : Z) : Z := if len >? 4294967295 then 4294967295 else as_u32 len.
(* src/src/owned/zerocopy.rs:54-64 PreparedZc::send *)
Definition send (fd : Z) (buf : B) (flags : Z) : Prepared B :=
  mkPrepared buf fd (clamp_len (stable_len buf)) flags (stable_ptr buf).
End Ops.
Section Moves.
  Context {B : Type}.
(* src/src/owned/zerocopy.rs:80-85 PreparedZc::with_len *)
Definition with_len (len : Z) (self : Prepared B) : Prepared B :=
  if len <? p_len self
  then mkPrepared (p_buf self) (p_fd self) len (p_flags self) (p_addr self) else self.
(* src/src/owned/zerocopy.rs:118-137 PreparedZc::into_pending *)
Definition into_pending (ring : RingId) (id : RequestId) (self : Prepared B) : Sqe * Pending B :=
  let sqe := NetOps.send_zc_ptr (p_fd self) (p_addr self) (p_len self) (p_flags self) in
  (Modifiers.with_user_data sqe id,
   mkPending (p_buf self) ring id (p_fd self) (p_len self) (p_flags self) (p_addr self) None).
(* src/src/owned/zerocopy.rs:205-207 PendingZc::matches *)
Definition matches (self : Pending B) (receipt : Receipt) : bool :=
  belongs_to receipt (t_ring self) (t_id self).
(* src/src/owned/zerocopy.rs:211-213 PendingZc::matches_sent *)
Definition matches_sent (self : Pending B) (notice : PartialReceipt.t) : bool :=
  PartialReceipt.belongs_to notice (t_ring self) (t_id self).
(* src/src/owned/zerocopy.rs:224-233 PendingZc::record_sent *)
Definition record_sent (self : Pending B) (notice : PartialReceipt.t)
  : result (Pending B) (Pending B * PartialReceipt.t) :=
  if negb (matches_sent self notice) then Err (self, notice)
  else Ok (mkPending (t_buf self) (t_ring self) (t_id self) (t_fd self) (t_len self) (t_flags self)
             (t_addr self) (Some (PartialReceipt.result notice))).
(* src/src/owned/zerocopy.rs:240-253 PendingZc::reclaim_unsubmitted *)
Definition reclaim_unsubmitted (self : Pending B) : Prepared B :=
  mkPrepared (t_buf self) (t_fd self) (t_len self) (t_flags self) (t_addr self).
(* src/src/owned/zerocopy.rs:265-281 PendingZc::redeem *)
Definition redeem (self : Pending B) (receipt : Receipt)
  : result (Completed B) (Pending B * Receipt) :=
  if negb (matches self receipt) then Err (self, receipt)
  else Ok (mkCompleted (t_buf self) (t_id self) (t_sent self) (rc_result receipt)).
(* src/src/owned/zerocopy.rs:330-339 ZcCompleted::result *)
Definition completed_result (self : Completed B) : result Z Error :=
  let raw := match d_sent self with Some sent => sent | None => d_notified self end in
  result_of raw.
End Moves.
(* src/src/owned/zerocopy.rs:112-115 PreparedZc::into_buffer *)
Definition into_buffer {B} (self : Prepared B) : B := p_buf self.
(* src/src/owned/zerocopy.rs:354-357 ZcCompleted::into_buffer *)
Definition completed_into_buffer {B} (self : Completed B) : B := d_buf self.
(* src/src/owned/zerocopy.rs:365-367 ZcCompleted::into_parts *)
Definition completed_into_parts {B} (self : Completed B) : result Z Error * B :=
  (completed_result self, d_buf self).
End Zc.

(** ** Requests that own nothing (owned/cancel.rs, owned/msgring.rs) *)
Module Cancel.
(* src/src/owned/cancel.rs:33-41 CancelTarget *)
Inductive Target : Set := UserData (data : Z) | Fd (fd : Z) | Any.
(* src/src/owned/cancel.rs:48-51 PreparedCancel *)
Record Prepared : Set := mkPrepared { p_target : Target; p_flags : Z }.
(* src/src/owned/cancel.rs:123-127 PendingCancel *)
Record Pending : Set := mkPending { t_ring : RingId; t_id : RequestId; t_target : Target }.
(* src/src/owned/cancel.rs:174-178 CancelDone *)
Record Done : Set := mkDone { d_target : Target; d_id : RequestId; d_result : Z }.
(* src/src/types/cancel.rs:52-64 CancelOutcome *)
Inductive Outcome : Set := Applied (n : Z) | NotFound | AlreadyCompleting | OutcomeFailed (e : Errno).
(* src/src/types/cancel.rs:75-82 CancelOutcome::from_raw *)
Definition outcome_from_raw (result : Z) : Outcome :=
  if result =? -2 then NotFound
  else if result =? -114 then AlreadyCompleting
  else if result <? 0 then OutcomeFailed (neg_i32 result)
  else Applied (as_u32 result).
(* src/src/owned/cancel.rs:56-61 PreparedCancel::user_data *)
Definition user_data (target flags : Z) : Prepared := mkPrepared (UserData target) flags.
(* src/src/owned/cancel.rs:69-74 PreparedCancel::fd *)
Definition on_fd (target flags : Z) : Prepared := mkPrepared (Fd target) flags.
(* src/src/owned/cancel.rs:81-86 PreparedCancel::any *)
Definition any (flags : Z) : Prepared := mkPrepared Any flags.
(* src/src/owned/cancel.rs:101-113 PreparedCancel::into_pending *)
Definition into_pending (ring : RingId) (id : RequestId) (self : Prepared) : Sqe * Pending :=
  let sqe := match p_target self with
             | UserData target => NetOps.cancel_with_flags target (p_flags self)
             | Fd fd => NetOps.cancel_fd fd (p_flags self)
             | Any => NetOps.cancel_any (p_flags self)
             end in
  (Modifiers.with_user_data sqe id, mkPending ring id (p_target self)).
(* src/src/owned/cancel.rs:150-152 PendingCancel::matches *)
Definition matches (self : Pending) (receipt : Receipt) : bool :=
  belongs_to receipt (t_ring self) (t_id self).
(* src/src/owned/cancel.rs:160-169 PendingCancel::redeem *)
Definition redeem (self : Pending) (receipt : Receipt) : result Done (Pending * Receipt) :=
  if negb (matches self receipt) then Err (self, receipt)
  else Ok (mkDone (t_target self) (t_id self) (rc_result receipt)).
(* src/src/owned/cancel.rs:201-203 CancelDone::outcome *)
Definition outcome (self : Done) : Outcome := outcome_from_raw (d_result self).
(* src/src/types/cancel.rs:85-88 CancelOutcome::is_applied *)
Definition is_applied (self : Outcome) : bool := match self with Applied _ => true | _ => false end.
End Cancel.

Module MsgRing.
(* src/src/owned/msgring.rs:30-35 PreparedMsgRing *)
Record Prepared : Set := mkPrepared { p_target : Z; p_len : Z; p_data : Z; p_flags : Z }.
(* src/src/owned/msgring.rs:89-93 PendingMsgRing *)
Record Pending : Set := mkPending { t_ring : RingId; t_id : RequestId; t_target : Z }.
(* src/src/owned/msgring.rs:146-150 MsgRingDone *)
Record Done : Set := mkDone { d_target : Z; d_id : RequestId; d_result : Z }.
(* src/src/owned/msgring.rs:44-51 PreparedMsgRing::new *)
Definition new (target len data flags : Z) : Prepared := mkPrepared target len data flags.
(* src/src/owned/msgring.rs:72-80 PreparedMsgRing::into_pending *)
Definition into_pending (ring : RingId) (id : RequestId) (self : Prepared) : Sqe * Pending :=
  let sqe := NetOps.msg_ring_with_flags (p_target self) (p_len self) (p_data self) (p_flags self) in
  (Modifiers.with_user_data sqe id, mkPending ring id (p_target self)).
(* src/src/owned/msgring.rs:116-118 PendingMsgRing::matches *)
Definition matches (self : Pending) (receipt : Receipt) : bool :=
  belongs_to receipt (t_ring self) (t_id self).
(* src/src/owned/msgring.rs:131-140 PendingMsgRing::redeem *)
Definition redeem (self : Pending) (receipt : Receipt) : result Done (Pending * Receipt) :=
  if negb (matches self receipt) then Err (self, receipt)
  else Ok (mkDone (t_target self) (t_id self) (rc_result receipt)).
(* src/src/owned/msgring.rs:173-175 MsgRingDone::is_ok *)
Definition is_ok (self : Done) : bool := cqe_is_ok (d_result self).
End MsgRing.

(** ** Multishot receives and reads (owned/multishot.rs, readmultishot.rs) *)
Module Multishot.
(* src/src/owned/multishot.rs:67-71 PreparedMultishot *)
Record PreparedRecv : Set := mkPreparedRecv { p_fd : Z; p_bgid : Z; p_flags : Z }.
(* src/src/owned/multishot.rs:146-151 MultishotRecv *)
Record Recv : Set := mkRecv { t_ring : RingId; t_id : RequestId; t_bgid : Z; t_fd : Z }.
(* src/src/owned/readmultishot.rs:26-30 PreparedReadMultishot *)
Record PreparedRead : Set := mkPreparedRead { r_fd : Z; r_offset : Z; r_bgid : Z }.
(* src/src/owned/multishot.rs:81-83 PreparedMultishot::recv *)
Definition recv (fd bgid flags : Z) : PreparedRecv := mkPreparedRecv fd bgid flags.
(* src/src/owned/readmultishot.rs:41-43 PreparedReadMultishot::on *)
Definition read_on (fd offset bgid : Z) : PreparedRead := mkPreparedRead fd offset bgid.
(* src/src/owned/multishot.rs:104-117 PreparedMultishot::into_pending *)
Definition into_pending (ring : RingId) (id : RequestId) (self : PreparedRecv) : Sqe * Recv :=
  let sqe := Modifiers.buffer_select (NetOps.recv_multishot (p_fd self) (p_flags self))
               (p_bgid self) in
  (Modifiers.with_user_data sqe id, mkRecv ring id (p_bgid self) (p_fd self)).
(** `MultishotRead` has the fields of `MultishotRecv`. *)
(* src/src/owned/readmultishot.rs:64-75 PreparedReadMultishot::into_pending *)
Definition into_pending_read (ring : RingId) (id : RequestId) (self : PreparedRead) : Sqe * Recv :=
  let sqe := FileOps.read_multishot (r_fd self) (r_offset self) (r_bgid self) in
  (Modifiers.with_user_data sqe id, mkRecv ring id (r_bgid self) (r_fd self)).
(* src/src/owned/multishot.rs:180-182 MultishotRecv::matches *)
Definition matches (self : Recv) (event : Event.t) : bool :=
  Event.belongs_to event (t_ring self) (t_id self).

(** One arrival: a pool slot, out of the pool until the lease ends. *)
(* src/src/owned/multishot.rs:280-284 Arrival *)
Record Arrival : Set := mkArrival { a_pool : BufferConsumer.t; a_buf_id : Z; a_len : Z }.
(** `u32::try_from(result)` fails exactly on negative results. *)
(* src/src/owned/multishot.rs:301-306 Arrival::claim *)
Definition arrival_claim (buffer_id : option Z) (result : Z) (pool : BufferConsumer.t)
  : option Arrival :=
  match buffer_id with
  | Some buf_id => if 0 <=? result then Some (mkArrival pool buf_id result) else None
  | None => None
  end.
(* src/src/owned/multishot.rs:315-317 Arrival::bytes *)
Definition arrival_bytes (self : Arrival) : option Slice :=
  BufferConsumer.buffer (a_buf_id self) (a_len self) (a_pool self).
(* src/src/owned/multishot.rs:339-346 Arrival::drop *)
Definition arrival_drop (self : Arrival) : option BufferConsumer.t :=
  BufferConsumer.recycle_and_commit (a_buf_id self) (a_pool self).
(* src/src/owned/multishot.rs:354-357 Finished *)
Record Finished : Set := mkFinished { f_receipt : Receipt; f_last : option Arrival }.
(* src/src/owned/multishot.rs:213-222 Delivery *)
Inductive Delivery : Set :=
| Data (a : Arrival)
| Empty (result : Z)
| Done (f : Finished).
(* src/src/owned/multishot.rs:236-248 Delivery::from_event *)
Definition from_event (event : Event.t) (pool : BufferConsumer.t) : Delivery :=
  match event with
  | Event.Partial partial =>
      let result := PartialReceipt.result partial in
      match arrival_claim (PartialReceipt.buffer_id partial) result pool with
      | Some a => Data a
      | None => Empty result
      end
  | Event.Complete receipt =>
      let last := arrival_claim (cqe_buffer_id (rc_flags receipt)) (rc_result receipt) pool in
      Done (mkFinished receipt last)
  end.
(* src/src/owned/multishot.rs:122-128 Armed *)
Inductive Armed : Set := Yes | FinishedArmed.
(* src/src/owned/multishot.rs:252-257 Delivery::armed *)
Definition armed (self : Delivery) : Armed :=
  match self with Data _ | Empty _ => Yes | Done _ => FinishedArmed end.
(* src/src/owned/multishot.rs:264-270 Delivery::bytes *)
Definition delivery_bytes (self : Delivery) : option Slice :=
  match self with
  | Data a => arrival_bytes a
  | Done f => match f_last f with Some a => arrival_bytes a | None => None end
  | Empty _ => None
  end.
(* src/src/owned/multishot.rs:194-203 MultishotRecv::record *)
Definition record (self : Recv) (event : Event.t) (pool : BufferConsumer.t)
  : result Delivery Event.t :=
  if negb (matches self event) then Err event else Ok (from_event event pool).
(* src/src/owned/multishot.rs:395-401 Finished::result *)
Definition finished_result (self : Finished) : result Z Error := result_of (rc_result (f_receipt self)).
(* src/src/owned/multishot.rs:375-377 Finished::take_last *)
Definition take_last (self : Finished) : option Arrival * Finished :=
  (f_last self, mkFinished (f_receipt self) None).
(* src/src/owned/multishot.rs:132-135 Armed::is_armed *)
Definition is_armed (self : Armed) : bool := match self with Yes => true | FinishedArmed => false end.
(* src/src/owned/multishot.rs:408-411 Finished::into_parts *)
Definition into_parts (self : Finished) : Receipt * option Arrival := (f_receipt self, f_last self).
(** `MultishotRead` keeps its own copies of `matches` and `record`. *)
(* src/src/owned/readmultishot.rs:121-124 MultishotRead::matches *)
Definition read_matches (self : Recv) (event : Event.t) : bool :=
  Event.belongs_to event (t_ring self) (t_id self).
(* src/src/owned/readmultishot.rs:136-145 MultishotRead::record *)
Definition record_read (self : Recv) (event : Event.t) (pool : BufferConsumer.t)
  : result Delivery Event.t :=
  if negb (read_matches self event) then Err event else Ok (from_event event pool).
(** Ending a delivery's lease, if it holds one, returns the pool. *)
Definition lease_of (d : Delivery) : option Arrival :=
  match d with Data a => Some a | Done f => f_last f | Empty _ => None end.
End Multishot.

(** ** Multishot accept (owned/accept.rs) *)
Module Accept.
(* src/src/owned/accept.rs:56-59 PreparedAccept *)
Record Prepared : Set := mkPrepared { p_fd : Z; p_flags : Z }.
(* src/src/owned/accept.rs:109-113 MultishotAccept *)
Record Armed : Set := mkArmed { t_ring : RingId; t_id : RequestId; t_fd : Z }.
(* src/src/owned/accept.rs:87-97 PreparedAccept::into_pending *)
Definition into_pending (ring : RingId) (id : RequestId) (self : Prepared) : Sqe * Armed :=
  (Modifiers.with_user_data (NetOps.accept_multishot (p_fd self) (p_flags self)) id,
   mkArmed ring id (p_fd self)).
(* src/src/owned/accept.rs:136-138 MultishotAccept::matches *)
Definition matches (self : Armed) (event : Event.t) : bool :=
  Event.belongs_to event (t_ring self) (t_id self).
(* src/src/owned/accept.rs:69-72 PreparedAccept::on *)
Definition on (fd flags : Z) : Prepared := mkPrepared fd flags.
(** A socket is the descriptor it owns. *)
(* src/src/owned/accept.rs:169-176 MultishotAccept::claim *)
Definition claim (result : Z) : option Z := if 0 <=? result then Some result else None.
(* src/src/owned/accept.rs:227-231 AcceptFinished *)
Record Finished : Set := mkFinished { f_receipt : Receipt; f_last : option Z }.
(* src/src/owned/accept.rs:186-196 Incoming *)
Inductive Incoming : Set :=
| Connection (socket : Z)
| Empty (result : Z)
| Done (finished : Finished).
(* src/src/owned/accept.rs:152-166 MultishotAccept::record *)
Definition record (self : Armed) (event : Event.t) : result Incoming Event.t :=
  if negb (matches self event) then Err event
  else Ok (match event with
           | Event.Partial partial =>
               let result := PartialReceipt.result partial in
               match claim result with Some s => Connection s | None => Empty result end
           | Event.Complete receipt => Done (mkFinished receipt (claim (rc_result receipt)))
           end).
(* src/src/owned/accept.rs:200-206 Incoming::armed *)
Definition armed (self : Incoming) : Multishot.Armed :=
  match self with
  | Connection _ | Empty _ => Multishot.Yes
  | Done _ => Multishot.FinishedArmed
  end.
(* src/src/owned/accept.rs:259-266 AcceptFinished::result *)
Definition finished_result (self : Finished) : result Z Error := result_of (rc_result (f_receipt self)).
(* src/src/owned/accept.rs:273-276 AcceptFinished::into_parts *)
Definition into_parts (self : Finished) : Receipt * option Z := (f_receipt self, f_last self).
(* src/src/owned/accept.rs:213-219 Incoming::into_connection *)
Definition into_connection (self : Incoming) : option Z :=
  match self with
  | Connection s => Some s
  | Done finished => snd (into_parts finished)
  | Empty _ => None
  end.
End Accept.

(** ** What the queue needs of a request kind *)
(** [give_back] is what a refused push returns: the storage reclaimed from the
    ticket, or the copy kept when the request owns nothing. *)
Class OwnedRequest (P T : Type) := {
  into_pending : RingId -> RequestId -> P -> Sqe * T;
  give_back : P -> T -> P;
  ticket_ring : T -> RingId;
  ticket_id : T -> RequestId
}.
Class OwnedRequestLaws (P T : Type) `{OwnedRequest P T} := {
  into_user_data ring id p : Modifiers.get_user_data (fst (into_pending ring id p)) = id;
  into_ring ring id p : ticket_ring (snd (into_pending ring id p)) = ring;
  into_id ring id p : ticket_id (snd (into_pending ring id p)) = id;
  give_back_intact ring id p : give_back p (snd (into_pending ring id p)) = p
}.

#[export] Instance request_owned B : OwnedRequest (Request.Prepared B) (Request.Pending B) := {
  into_pending := Request.into_pending;
  give_back p t := Request.reclaim_unsubmitted t;
  ticket_ring := Request.t_ring;
  ticket_id := Request.t_id
}.
#[export] Instance zc_owned B : OwnedRequest (Zc.Prepared B) (Zc.Pending B) := {
  into_pending := Zc.into_pending;
  give_back p t := Zc.reclaim_unsubmitted t;
  ticket_ring := Zc.t_ring;
  ticket_id := Zc.t_id
}.
#[export] Instance cancel_owned : OwnedRequest Cancel.Prepared Cancel.Pending := {
  into_pending := Cancel.into_pending;
  give_back p t := p;
  ticket_ring := Cancel.t_ring;
  ticket_id := Cancel.t_id
}.
#[export] Instance msgring_owned : OwnedRequest MsgRing.Prepared MsgRing.Pending := {
  into_pending := MsgRing.into_pending;
  give_back p t := p;
  ticket_ring := MsgRing.t_ring;
  ticket_id := MsgRing.t_id
}.
#[export] Instance recv_owned : OwnedRequest Multishot.PreparedRecv Multishot.Recv := {
  into_pending := Multishot.into_pending;
  give_back p t := p;
  ticket_ring := Multishot.t_ring;
  ticket_id := Multishot.t_id
}.
#[export] Instance read_owned : OwnedRequest Multishot.PreparedRead Multishot.Recv := {
  into_pending := Multishot.into_pending_read;
  give_back p t := p;
  ticket_ring := Multishot.t_ring;
  ticket_id := Multishot.t_id
}.
#[export] Instance accept_owned : OwnedRequest Accept.Prepared Accept.Armed := {
  into_pending := Accept.into_pending;
  give_back p t := p;
  ticket_ring := Accept.t_ring;
  ticket_id := Accept.t_id
}.

#[export] Instance request_owned_laws B : OwnedRequestLaws (Request.Prepared B) (Request.Pending B).
Proof. split; try done. by intros ring id []. Qed.
#[export] Instance zc_owned_laws B : OwnedRequestLaws (Zc.Prepared B) (Zc.Pending B).
Proof. split; try done. by intros ring id []. Qed.
#[export] Instance cancel_owned_laws : OwnedRequestLaws Cancel.Prepared Cancel.Pending.
Proof. split; try done. Qed.
#[export] Instance msgring_owned_laws : OwnedRequestLaws MsgRing.Prepared MsgRing.Pending.
Proof. split; try done. Qed.
#[export] Instance recv_owned_laws : OwnedRequestLaws Multishot.PreparedRecv Multishot.Recv.
Proof. split; try done. Qed.
#[export] Instance read_owned_laws : OwnedRequestLaws Multishot.PreparedRead Multishot.Recv.
Proof. split; try done. Qed.
#[export] Instance accept_owned_laws : OwnedRequestLaws Accept.Prepared Accept.Armed.
Proof. split; try done. Qed.

(** ** What a ticket keeps and gives back *)
(** A ticket answered by one receipt: [settle] is the completed request a
    matching receipt buys, [held] the storage the ticket keeps, [withdraw] the
    storage the completed request returns and [reported] its raw result. *)
Class Custody (P T D S : Type) `{OwnedRequest P T} := {
  redeem_with : T -> Receipt -> result D (T * Receipt);
  deposit : P -> S;
  held : T -> S;
  withdraw : D -> S;
  reported : D -> Z
}.
Class CustodyLaws (P T D S : Type) `{Custody P T D S} := {
  held_deposit ring id p : held (snd (into_pending ring id p)) = deposit p;
  redeem_spec t r :
    match redeem_with t r with
    | Ok d => belongs_to r (ticket_ring t) (ticket_id t) = true /\
              withdraw d = held t /\ reported d = rc_result r
    | Err e => belongs_to r (ticket_ring t) (ticket_id t) = false /\ e = (t, r)
    end
}.
(** Every kind's `redeem` tests the match first. *)
Ltac owned_laws :=
  split; [done|done|done|]; first [done|by intros ring id []|by intros ring id [? [] ? ? ?]].
Tactic Notation "custody_laws" reference(redeem) reference(matches) :=
  split; [done|]; intros t r; cbn; unfold redeem, matches;
  destruct (belongs_to _ _ _); cbn; done.

#[export] Instance request_custody B :
  Custody (Request.Prepared B) (Request.Pending B) (Request.Completed B) B := {
  redeem_with := Request.redeem;
  deposit := Request.p_buf;
  held := Request.t_buf;
  withdraw := Request.d_buf;
  reported := Request.d_result
}.
#[export] Instance zc_custody B : Custody (Zc.Prepared B) (Zc.Pending B) (Zc.Completed B) B := {
  redeem_with := Zc.redeem;
  deposit := Zc.p_buf;
  held := Zc.t_buf;
  withdraw := Zc.d_buf;
  reported := Zc.d_notified
}.
#[export] Instance request_custody_laws B :
  CustodyLaws (Request.Prepared B) (Request.Pending B) (Request.Completed B) B.
Proof. custody_laws Request.redeem Request.matches. Qed.
#[export] Instance zc_custody_laws B : CustodyLaws (Zc.Prepared B) (Zc.Pending B) (Zc.Completed B) B.
Proof. custody_laws Zc.redeem Zc.matches. Qed.

#[export] Instance cancel_custody : Custody Cancel.Prepared Cancel.Pending Cancel.Done unit := {
  redeem_with := Cancel.redeem;
  deposit p := tt;
  held t := tt;
  withdraw d := tt;
  reported := Cancel.d_result
}.
#[export] Instance cancel_custody_laws : CustodyLaws Cancel.Prepared Cancel.Pending Cancel.Done unit.
Proof. custody_laws Cancel.redeem Cancel.matches. Qed.

#[export] Instance msgring_custody : Custody MsgRing.Prepared MsgRing.Pending MsgRing.Done unit := {
  redeem_with := MsgRing.redeem;
  deposit p := tt;
  held t := tt;
  withdraw d := tt;
  reported := MsgRing.d_result
}.
#[export] Instance msgring_custody_laws : CustodyLaws MsgRing.Prepared MsgRing.Pending MsgRing.Done unit.
Proof. custody_laws MsgRing.redeem MsgRing.matches. Qed.
