(* ===== verification/Register.v ===== *)
(** * Registration calls (ring/register.rs, ring/rsrc_tags.rs, ring/probe.rs)

    Each method marshals its arguments into a structure on the stack, or passes
    a slice, and makes one io_uring_register call; some read back what the kernel
    left in the structure.  `self` is the ring's descriptor, a slice its address
    and length, and [local] the address of the local the structure lives in. *)
From stdpp Require Import base numbers list option.
From Stdlib Require Import ZArith Lia.
From S2P Require Import Prelude Flags Types UserMem Syscall Sqe Resources Owned.
Local Open Scope Z_scope.
Local Open Scope rust_scope.

(** ** Argument structures (types/buffers.rs, types/cancel.rs, types/napi.rs) *)
(* src/src/types/buffers.rs:170-177 IoUringFilesUpdate *)
Record IoUringFilesUpdate : Set := mkFilesUpdate { fu_offset : Z; fu_resv : Z; fu_fds : Z }.
(* src/src/types/buffers.rs:180-187 IoUringRsrcUpdate *)
Record IoUringRsrcUpdate : Set := mkRsrcUpdate { ru_offset : Z; ru_resv : Z; ru_data : Z }.
(* src/src/types/buffers.rs:202-210 IoUringRsrcRegister *)
Record IoUringRsrcRegister : Set := mkRsrcRegister {
  rr_nr : Z; rr_flags : Z; rr_resv2 : Z; rr_data : Z; rr_tags : Z
}.
(* src/src/types/buffers.rs:219-228 IoUringRsrcUpdate2 *)
Record IoUringRsrcUpdate2 : Set := mkRsrcUpdate2 {
  r2_offset : Z; r2_resv : Z; r2_data : Z; r2_tags : Z; r2_nr : Z; r2_resv2 : Z
}.
(* src/src/types/buffers.rs:232-238 IoUringFileIndexRange *)
Record IoUringFileIndexRange : Set := mkIndexRange { fr_off : Z; fr_len : Z; fr_resv : Z }.
(** The three padding words are one little-endian word. *)
(* src/src/types/buffers.rs:265-274 IoUringCloneBuffers *)
Record IoUringCloneBuffers : Set := mkCloneBuffers {
  cb_src_fd : Z; cb_flags : Z; cb_src_off : Z; cb_dst_off : Z; cb_nr : Z; cb_pad : Z
}.

(** A structure of unsigned fields of the given widths. *)
Definition plain_repr {T : Type} (size : nat) (align : Z) (ws : list nat) (get : T -> list Z)
  (make : list Z -> T) : Repr T :=
  {| size_of := size; align_of := align; to_mem x := pack ws (get x); of_mem bs := make (unpack ws bs);
     repr_ok x := Forall2 (fun w v => in_u (8 * Z.of_nat w) v) ws (get x) |}.
Lemma plain_laws {T} size align ws get (make : list Z -> T) :
  sum_list ws = size -> (forall x, length (get x) = length ws) -> (forall x, make (get x) = x) ->
  @ReprLaws T (plain_repr size align ws get make).
Proof.
  intros Hs Hl Hm. split.
  - intros x. cbn. by rewrite pack_length.
  - intros x Hx. cbn in *. by rewrite unpack_exact.
Qed.

#[export] Instance filesupdate_repr : Repr IoUringFilesUpdate :=
  plain_repr 16 8 [4; 4; 8]%nat (fun x => [fu_offset x; fu_resv x; fu_fds x])
    (fun l => match l with [a; b; c] => mkFilesUpdate a b c | _ => mkFilesUpdate 0 0 0 end).
#[export] Instance rsrcupdate_repr : Repr IoUringRsrcUpdate :=
  plain_repr 16 8 [4; 4; 8]%nat (fun x => [ru_offset x; ru_resv x; ru_data x])
    (fun l => match l with [a; b; c] => mkRsrcUpdate a b c | _ => mkRsrcUpdate 0 0 0 end).
#[export] Instance rsrcregister_repr : Repr IoUringRsrcRegister :=
  plain_repr 32 8 [4; 4; 8; 8; 8]%nat
    (fun x => [rr_nr x; rr_flags x; rr_resv2 x; rr_data x; rr_tags x])
    (fun l => match l with
              | [a; b; c; d; e] => mkRsrcRegister a b c d e
              | _ => mkRsrcRegister 0 0 0 0 0
              end).
#[export] Instance rsrcupdate2_repr : Repr IoUringRsrcUpdate2 :=
  plain_repr 32 8 [4; 4; 8; 8; 4; 4]%nat
    (fun x => [r2_offset x; r2_resv x; r2_data x; r2_tags x; r2_nr x; r2_resv2 x])
    (fun l => match l with
              | [a; b; c; d; e; f] => mkRsrcUpdate2 a b c d e f
              | _ => mkRsrcUpdate2 0 0 0 0 0 0
              end).
#[export] Instance indexrange_repr : Repr IoUringFileIndexRange :=
  plain_repr 16 8 [4; 4; 8]%nat (fun x => [fr_off x; fr_len x; fr_resv x])
    (fun l => match l with [a; b; c] => mkIndexRange a b c | _ => mkIndexRange 0 0 0 end).
#[export] Instance clonebuffers_repr : Repr IoUringCloneBuffers :=
  plain_repr 32 4 [4; 4; 4; 4; 4; 12]%nat
    (fun x => [cb_src_fd x; cb_flags x; cb_src_off x; cb_dst_off x; cb_nr x; cb_pad x])
    (fun l => match l with
              | [a; b; c; d; e; f] => mkCloneBuffers a b c d e f
              | _ => mkCloneBuffers 0 0 0 0 0 0
              end).
Ltac plain := apply plain_laws; [reflexivity|by intros []|by intros []].
#[export] Instance filesupdate_laws : ReprLaws IoUringFilesUpdate. Proof. plain. Qed.
#[export] Instance rsrcupdate_laws : ReprLaws IoUringRsrcUpdate. Proof. plain. Qed.
#[export] Instance rsrcregister_laws : ReprLaws IoUringRsrcRegister. Proof. plain. Qed.
#[export] Instance rsrcupdate2_laws : ReprLaws IoUringRsrcUpdate2. Proof. plain. Qed.
#[export] Instance indexrange_laws : ReprLaws IoUringFileIndexRange. Proof. plain. Qed.
#[export] Instance clonebuffers_laws : ReprLaws IoUringCloneBuffers. Proof. plain. Qed.

(** `[u32; 2]`, the worker limits. *)
#[export] Instance u32_pair_repr : Repr (Z * Z) :=
  plain_repr 8 4 [4; 4]%nat (fun x => [x.1; x.2])
    (fun l => match l with [a; b] => (a, b) | _ => (0, 0) end).
#[export] Instance u32_pair_laws : ReprLaws (Z * Z). Proof. plain. Qed.

(** ** Synchronous cancellation (types/cancel.rs) *)
Module SyncCancel.
(** A `RawTimeout` has the layout of a [Timespec]. *)
(* src/src/types/cancel.rs:120-123 RawTimeout::NONE *)
Definition NONE : Timespec := mkTimespec (-1) (-1).
(* src/src/types/cancel.rs:126-133 From<Timespec> for RawTimeout *)
Definition raw_timeout (ts : Timespec) : Timespec := mkTimespec (tv_sec ts) (tv_nsec ts).
(* src/src/types/cancel.rs:140-144 SyncCancelKey *)
Inductive Key : Set := UserData (target : Z) | Fd (fd : Z) | Any.
(* src/src/types/cancel.rs:154-159 SyncCancelReg *)
Record Reg : Set := mkReg { key : Key; flags : Z; opcode : option Opcode.t; timeout : option Timespec }.
(* src/src/types/cancel.rs:164-171 SyncCancelReg::user_data *)
Definition user_data (target flags : Z) : Reg := mkReg (UserData target) flags None None.
(* src/src/types/cancel.rs:178-185 SyncCancelReg::fd *)
Definition fd (target flags : Z) : Reg := mkReg (Fd target) flags None None.
(* src/src/types/cancel.rs:190-197 SyncCancelReg::any *)
Definition any (flags : Z) : Reg := mkReg Any flags None None.
(* src/src/types/cancel.rs:201-204 SyncCancelReg::matching_opcode *)
Definition matching_opcode (opcode : Opcode.t) (self : Reg) : Reg :=
  mkReg (key self) (flags self) (Some opcode) (timeout self).
(* src/src/types/cancel.rs:214-217 SyncCancelReg::timeout *)
Definition with_timeout (ts : Timespec) (self : Reg) : Reg :=
  mkReg (key self) (flags self) (opcode self) (Some ts).
(** The padding is kept as two little-endian words. *)
(* src/src/types/cancel.rs:252-260 RawSyncCancelReg *)
Record Raw : Set := mkRaw {
  r_addr : Z; r_fd : Z; r_flags : Z; r_timeout : Timespec; r_opcode : Z; r_pad : Z; r_pad2 : Z
}.
(* src/src/types/cancel.rs:220-246 SyncCancelReg::as_raw *)
Definition as_raw (self : Reg) : Raw :=
  let fl := flags self in
  let '(addr, fd, fl) := match key self with
    | UserData target => (target, 0, fl)
    | Fd target => (0, RawFd.as_i32 target, fl ||| CancelFlags.FD)
    | Any => (0, 0, fl ||| CancelFlags.ANY)
    end in
  let '(opcode, fl) := match opcode self with
    | Some op => (Opcode.raw op, fl ||| CancelFlags.OP)
    | None => (0, fl)
    end in
  mkRaw addr fd fl (match timeout self with Some ts => raw_timeout ts | None => NONE end) opcode 0 0.
End SyncCancel.
#[export] Instance synccancel_repr : Repr SyncCancel.Raw := {
  size_of := 64;
  align_of := 8;
  to_mem x := pack [8; 4; 4; 8; 8; 1; 7; 24]%nat
    [SyncCancel.r_addr x; as_u32 (SyncCancel.r_fd x); SyncCancel.r_flags x;
     as_u64 (tv_sec (SyncCancel.r_timeout x)); as_u64 (tv_nsec (SyncCancel.r_timeout x));
     SyncCancel.r_opcode x; SyncCancel.r_pad x; SyncCancel.r_pad2 x];
  of_mem bs := match unpack [8; 4; 4; 8; 8; 1; 7; 24]%nat bs with
    | [a; f; fl; s; n; op; p; p2] =>
        SyncCancel.mkRaw a (as_i32 f) fl (mkTimespec (as_i64 s) (as_i64 n)) op p p2
    | _ => SyncCancel.mkRaw 0 0 0 SyncCancel.NONE 0 0 0
    end;
  repr_ok x := in_u 64 (SyncCancel.r_addr x) /\ in_i 32 (SyncCancel.r_fd x) /\
    in_u 32 (SyncCancel.r_flags x) /\ in_i 64 (tv_sec (SyncCancel.r_timeout x)) /\
    in_i 64 (tv_nsec (SyncCancel.r_timeout x)) /\ in_u 8 (SyncCancel.r_opcode x) /\
    in_u 56 (SyncCancel.r_pad x) /\ in_u 192 (SyncCancel.r_pad2 x)
}.
#[export] Instance synccancel_laws : ReprLaws SyncCancel.Raw.
Proof.
  split; [by intros []|]. intros [a f fl [s n] op p p2] (? & ? & ? & ? & ? & ? & ? & ?).
  cbn [to_mem of_mem synccancel_repr SyncCancel.r_addr SyncCancel.r_fd SyncCancel.r_flags
    SyncCancel.r_timeout SyncCancel.r_opcode SyncCancel.r_pad SyncCancel.r_pad2 tv_sec tv_nsec] in *.
  rewrite unpack_exact by fields. by rewrite !as_signed_wrap, !as_signed_small by done.
Qed.

(** ** NAPI busy polling (types/napi.rs) *)
Module Napi.
(* src/src/types/napi.rs:13-16 NapiTrackingStrategy *)
Inductive Strategy : Set := Dynamic | Static.
Definition strategy_raw (s : Strategy) : Z := match s with Dynamic => 0 | Static => 1 end.
(* src/src/types/napi.rs:26-30 NapiTrackingMode *)
Inductive Mode : Set := DynamicMode | StaticMode | Inactive.
(* src/src/types/napi.rs:33-39 NapiTrackingMode::from_raw *)
Definition mode_from_raw (raw : Z) : Mode :=
  if raw =? 0 then DynamicMode else if raw =? 1 then StaticMode else Inactive.
(* src/src/types/napi.rs:50-59 NapiSettings *)
Record Settings : Set := mkSettings { busy_poll_timeout_usec : Z; prefer_busy_poll : bool; tracking : Mode }.
(* src/src/types/napi.rs:74-83 NapiOp *)
Inductive Op : Set := RegisterOp_ | StaticAddId | StaticDelId.
Definition op_raw (o : Op) : Z := match o with RegisterOp_ => 0 | StaticAddId => 1 | StaticDelId => 2 end.
(* src/src/types/napi.rs:86-95 RawNapi *)
Record Raw : Set := mkRaw {
  busy_poll_to : Z; prefer : Z; n_opcode : Z; pad : Z; op_param : Z; resv : Z
}.
Definition raw_default : Raw := mkRaw 0 0 0 0 0 0.
(* src/src/types/napi.rs:62-68 NapiSettings::from_raw *)
Definition settings_from_raw (raw : Raw) : Settings :=
  mkSettings (busy_poll_to raw) (negb (prefer raw =? 0)) (mode_from_raw (op_param raw)).
(* src/src/types/napi.rs:98-111 RawNapi::register *)
Definition register (busy_poll_timeout_usec : Z) (prefer_busy_poll : bool) (tracking : Strategy) : Raw :=
  mkRaw busy_poll_timeout_usec (Z.b2z prefer_busy_poll) (op_raw RegisterOp_) 0 (strategy_raw tracking) 0.
(* src/src/types/napi.rs:113-122 RawNapi::static_id *)
Definition static_id (op : Op) (napi_id : Z) : Raw := mkRaw 0 0 (op_raw op) 0 napi_id 0.
End Napi.
#[export] Instance napi_repr : Repr Napi.Raw :=
  plain_repr 16 4 [4; 1; 1; 2; 4; 4]%nat
    (fun x => [Napi.busy_poll_to x; Napi.prefer x; Napi.n_opcode x; Napi.pad x; Napi.op_param x;
               Napi.resv x])
    (fun l => match l with
              | [a; b; c; d; e; f] => Napi.mkRaw a b c d e f
              | _ => Napi.raw_default
              end).
#[export] Instance napi_laws : ReprLaws Napi.Raw. Proof. plain. Qed.

(** ** The methods (ring/register.rs) *)
(** Where the locals of a method live. *)
Class StackFrame := { local : nat -> Z }.
#[export] Instance stack_at_4096 : StackFrame | 10 := { local i := 4096 + 64 * Z.of_nat i }.
(** A call that returns nothing. *)
Definition done_ {K E A} (m : M (World K) E A) : M (World K) E unit := do! m in ret tt.
(** `?` on a raw call's error. *)
Definition try_ {K A} (m : M (World K) Errno A) : M (World K) Error A := fun w =>
  let '(r, w) := m w in (map_err from_errno r, w).
(** A structure on the stack: stored before the call that gets its address, and
    read back after it. *)
Definition with_local {K E A} {SF : StackFrame} {T} `{Repr T} (i : nat) (x : T)
  (f : Z -> M (World K) E A) : M (World K) E A := fun w =>
  f (local i) (set_world_mem (ptr_write (local i) x) w).
Definition read_local {K E} {SF : StackFrame} (T : Type) `{Repr T} (i : nat) : M (World K) E T :=
  fun w => (Ok (ptr_read (local i) (w_mem w)), w).

Module Registration.
Import RegisterOp.
Section Methods.
  Context {K : Type} {PW : PtrWidth} {A : Arch} {RS : RawSyscall K} {SF : StackFrame}.
  Notation Call R := (M (World K) Error R).
  Implicit Types (self : Z) (s : Slice).
  Notation op x := (RegisterOp.raw x).
(* src/src/ring/register.rs:26-33 IoUring::register_raw *)
Definition register_raw self (opcode arg nr_args : Z) : M (World K) Errno Z :=
  Syscall.io_uring_register self opcode arg nr_args.
(* src/src/ring/register.rs:41-53 IoUring::register_buffers *)
Definition register_buffers self bufs : Call unit :=
  done_ (try_ (register_raw self (op RegisterBuffers) (slice_ptr bufs) (as_u32 (slice_len bufs)))).
(* src/src/ring/register.rs:60-64 IoUring::unregister_buffers *)
Definition unregister_buffers self : Call unit :=
  done_ (try_ (register_raw self (op UnregisterBuffers) 0 0)).
(* src/src/ring/register.rs:71-83 IoUring::register_files *)
Definition register_files self fds : Call unit :=
  done_ (try_ (register_raw self (op RegisterFiles) (slice_ptr fds) (as_u32 (slice_len fds)))).
(* src/src/ring/register.rs:90-94 IoUring::unregister_files *)
Definition unregister_files self : Call unit :=
  done_ (try_ (register_raw self (op UnregisterFiles) 0 0)).
(* src/src/ring/register.rs:104-122 IoUring::update_registered_files *)
Definition update_registered_files self fds (offset : Z) : Call unit :=
  let arg := mkFilesUpdate offset 0 (as_u64 (slice_ptr fds)) in
  done_ (with_local 0 arg (fun p =>
    try_ (register_raw self (op RegisterFilesUpdate) p (as_u32 (slice_len fds))))).
(* src/src/ring/register.rs:137-149 IoUring::register_file_alloc_range *)
Definition register_file_alloc_range self (off len : Z) : Call unit :=
  let arg := mkIndexRange off len 0 in
  done_ (with_local 0 arg (fun p => try_ (register_raw self (op RegisterFileAllocRange) p 0))).
(* src/src/ring/register.rs:159-171 IoUring::register_eventfd *)
Definition register_eventfd self (efd : Z) : Call unit :=
  let raw := RawFd.as_i32 efd in
  done_ (with_local 0 raw (fun p => try_ (register_raw self (op RegisterEventFd) p 1))).
(* src/src/ring/register.rs:179-191 IoUring::register_eventfd_async *)
Definition register_eventfd_async self (efd : Z) : Call unit :=
  let raw := RawFd.as_i32 efd in
  done_ (with_local 0 raw (fun p => try_ (register_raw self (op RegisterEventFdAsync) p 1))).
(* src/src/ring/register.rs:198-202 IoUring::unregister_eventfd *)
Definition unregister_eventfd self : Call unit :=
  done_ (try_ (register_raw self (op UnregisterEventFd) 0 0)).
(* src/src/ring/register.rs:219-231 IoUring::register_iowq_affinity *)
Definition register_iowq_affinity self mask : Call unit :=
  done_ (try_ (register_raw self (op RegisterIowqAff) (slice_ptr mask) (as_u32 (slice_len mask)))).
(* src/src/ring/register.rs:239-243 IoUring::unregister_iowq_affinity *)
Definition unregister_iowq_affinity self : Call unit :=
  done_ (try_ (register_raw self (op UnregisterIowqAff) 0 0)).
(* src/src/ring/register.rs:254-270 IoUring::set_iowq_max_workers *)
Definition set_iowq_max_workers self (max_bounded max_unbounded : Z) : Call unit :=
  let workers := (max_bounded, max_unbounded) in
  done_ (with_local 0 workers (fun p => try_ (register_raw self (op RegisterIowqMaxWorkers) p 2))).
(* src/src/ring/register.rs:281-297 IoUring::register_ring_fd *)
Definition register_ring_fd self : Call Z :=
  let reg := mkRsrcUpdate 4294967295 0 (as_u64 self) in
  do! with_local 0 reg (fun p => try_ (register_raw self (op RegisterRingFds) p 1)) in
  let! reg := read_local IoUringRsrcUpdate 0 in
  ret (ru_offset reg).
(* src/src/ring/register.rs:308-324 IoUring::unregister_ring_fd *)
Definition unregister_ring_fd self (offset : Z) : Call unit :=
  let reg := mkRsrcUpdate offset 0 0 in
  done_ (with_local 0 reg (fun p => try_ (register_raw self (op UnregisterRingFds) p 1))).
(* src/src/ring/register.rs:337-341 IoUring::enable_rings *)
Definition enable_rings self : Call unit :=
  done_ (try_ (register_raw self (op RegisterEnableRings) 0 0)).
(* src/src/ring/register.rs:363-378 IoUring::sync_cancel *)
Definition sync_cancel self (reg : SyncCancel.Reg) : Call Cancel.Outcome := fun w =>
  let raw := SyncCancel.as_raw reg in
  match with_local 0 raw (fun p => register_raw self (op RegisterSyncCancel) p 1) w with
  | (Ok n, w) => (Ok (Cancel.Applied (as_u32 n)), w)
  | (Err errno, w) => (Ok (Cancel.outcome_from_raw (as_i32 (- errno))), w)
  end.
(* src/src/ring/register.rs:398-415 IoUring::register_napi *)
Definition register_napi self (busy_poll_timeout_usec : Z) (prefer_busy_poll : bool)
  (tracking : Napi.Strategy) : Call Napi.Settings :=
  let raw := Napi.register busy_poll_timeout_usec prefer_busy_poll tracking in
  do! with_local 0 raw (fun p => try_ (register_raw self (op RegisterNapi) p 1)) in
  let! raw := read_local Napi.Raw 0 in
  ret (Napi.settings_from_raw raw).
(* src/src/ring/register.rs:426-438 IoUring::unregister_napi *)
Definition unregister_napi self : Call Napi.Settings :=
  let raw := Napi.raw_default in
  do! with_local 0 raw (fun p => try_ (register_raw self (op UnregisterNapi) p 1)) in
  let! raw := read_local Napi.Raw 0 in
  ret (Napi.settings_from_raw raw).
(* src/src/ring/register.rs:451-463 IoUring::napi_add_static_id *)
Definition napi_add_static_id self (napi_id : Z) : Call unit :=
  let raw := Napi.static_id Napi.StaticAddId napi_id in
  done_ (with_local 0 raw (fun p => try_ (register_raw self (op RegisterNapi) p 1))).
(* src/src/ring/register.rs:471-483 IoUring::napi_remove_static_id *)
Definition napi_remove_static_id self (napi_id : Z) : Call unit :=
  let raw := Napi.static_id Napi.StaticDelId napi_id in
  done_ (with_local 0 raw (fun p => try_ (register_raw self (op RegisterNapi) p 1))).
(* src/src/ring/register.rs:533-559 IoUring::clone_registered_buffers_raw *)
Definition clone_registered_buffers_raw self (src flags src_off dst_off nr : Z) : Call unit :=
  let arg := mkCloneBuffers (as_u32 (RawFd.as_i32 src)) flags src_off dst_off nr 0 in
  done_ (with_local 0 arg (fun p => try_ (register_raw self (op RegisterCloneBuffers) p 0))).
(* src/src/ring/register.rs:500-502 IoUring::clone_registered_buffers *)
Definition clone_registered_buffers self (src : Z) : Call unit :=
  clone_registered_buffers_raw self src empty_flags 0 0 0.
(* src/src/ring/register.rs:513-515 IoUring::clone_registered_buffers_replacing *)
Definition clone_registered_buffers_replacing self (src : Z) : Call unit :=
  clone_registered_buffers_raw self src CloneBuffersFlags.DST_REPLACE 0 0 0.

(** *** Tagged tables (ring/rsrc_tags.rs).  [None] is the panic of the assertion. *)
(* src/src/ring/rsrc_tags.rs:34-60 IoUring::register_files_tagged *)
Definition register_files_tagged self fds tags : option (Call unit) :=
  if slice_len fds =? slice_len tags then
    let arg := mkRsrcRegister (as_u32 (slice_len fds)) 0 0 (as_u64 (slice_ptr fds))
                 (as_u64 (slice_ptr tags)) in
    Some (done_ (with_local 0 arg (fun p => try_ (register_raw self (op RegisterFiles2) p
      (as_u32 (Z.of_nat (size_of IoUringRsrcRegister)))))))
  else None.
(* src/src/ring/rsrc_tags.rs:77-109 IoUring::update_registered_files_tagged *)
Definition update_registered_files_tagged self fds tags (offset : Z) : option (Call unit) :=
  if slice_len fds =? slice_len tags then
    let arg := mkRsrcUpdate2 offset 0 (as_u64 (slice_ptr fds)) (as_u64 (slice_ptr tags))
                 (as_u32 (slice_len fds)) 0 in
    Some (done_ (with_local 0 arg (fun p => try_ (register_raw self (op RegisterFilesUpdate2) p
      (as_u32 (Z.of_nat (size_of IoUringRsrcUpdate2)))))))
  else None.
(* src/src/ring/rsrc_tags.rs:126-152 IoUring::register_buffers_tagged *)
Definition register_buffers_tagged self bufs tags : option (Call unit) :=
  if slice_len bufs =? slice_len tags then
    let arg := mkRsrcRegister (as_u32 (slice_len bufs)) 0 0 (as_u64 (slice_ptr bufs))
                 (as_u64 (slice_ptr tags)) in
    Some (done_ (with_local 0 arg (fun p => try_ (register_raw self (op RegisterBuffers2) p
      (as_u32 (Z.of_nat (size_of IoUringRsrcRegister)))))))
  else None.
(* src/src/ring/rsrc_tags.rs:169-201 IoUring::update_registered_buffers_tagged *)
Definition update_registered_buffers_tagged self bufs tags (offset : Z) : option (Call unit) :=
  if slice_len bufs =? slice_len tags then
    let arg := mkRsrcUpdate2 offset 0 (as_u64 (slice_ptr bufs)) (as_u64 (slice_ptr tags))
                 (as_u32 (slice_len bufs)) 0 in
    Some (done_ (with_local 0 arg (fun p => try_ (register_raw self (op RegisterBuffersUpdate) p
      (as_u32 (Z.of_nat (size_of IoUringRsrcUpdate2)))))))
  else None.
End Methods.
End Registration.

(** ** The opcode probe (ring/probe.rs) *)
Module Probe.
(* src/src/ring/probe.rs:20-27 ProbeOp *)
Record Op : Set := mkOp { po_op : Z; po_resv : Z; po_flags : Z; po_resv2 : Z }.
(** The three reserved words are one little-endian word. *)
(* src/src/ring/probe.rs:30-37 ProbeHeader *)
Record Header : Set := mkHeader { last_op_ : Z; ops_len : Z; h_resv : Z; h_resv2 : Z }.
(* src/src/ring/probe.rs:44-44 SLOTS *)
Definition SLOTS : Z := 256.
(* src/src/ring/probe.rs:47-47 SLOT_COUNT *)
Definition SLOT_COUNT : nat := Z.to_nat SLOTS.
(* src/src/ring/probe.rs:66-70 Probe *)
Record t : Set := mk { header : Header; ops : list Op }.
(* src/src/ring/probe.rs:74-74 Probe::SUPPORTED *)
Definition SUPPORTED : Z := 1.
(** The derived defaults. *)
Definition header_default : Header := mkHeader 0 0 0 0.
Definition op_default : Op := mkOp 0 0 0 0.
#[export] Instance op_repr : Repr Op :=
  plain_repr 8 4 [1; 1; 2; 4]%nat (fun x => [po_op x; po_resv x; po_flags x; po_resv2 x])
    (fun l => match l with [a; b; c; d] => mkOp a b c d | _ => op_default end).
#[export] Instance header_repr : Repr Header :=
  plain_repr 16 4 [1; 1; 2; 12]%nat (fun x => [last_op_ x; ops_len x; h_resv x; h_resv2 x])
    (fun l => match l with [a; b; c; d] => mkHeader a b c d | _ => header_default end).
#[export] Instance op_laws : ReprLaws Op. Proof. plain. Qed.
#[export] Instance header_laws : ReprLaws Header. Proof. plain. Qed.
(** The header, then the array. *)
Definition write_probe (a : Z) (p : t) (m : UMem) : UMem :=
  write_array (a + Z.of_nat (size_of Header)) (ops p) (ptr_write a (header p) m).
Definition read_probe (a : Z) (m : UMem) : t :=
  mk (ptr_read a m) (read_array (a + Z.of_nat (size_of Header)) SLOT_COUNT m).

Section Call.
  Context {K : Type} {PW : PtrWidth} {A : Arch} {RS : RawSyscall K} {SF : StackFrame}.
(* src/src/ring/probe.rs:83-99 Probe::interrogate *)
Definition interrogate (ring : Z) : M (World K) Error t := fun w =>
  let probe := mk header_default (replicate SLOT_COUNT op_default) in
  let w := set_world_mem (write_probe (local 0) probe) w in
  match try_ (Syscall.io_uring_register ring (RegisterOp.raw RegisterOp.RegisterProbe) (local 0) SLOTS) w
  with
  | (Ok _, w) => (Ok (read_probe (local 0) (w_mem w)), w)
  | (Err e, w) => (Err e, w)
  end.
(* src/src/ring/probe.rs:151-153 IoUring::probe *)
Definition probe (self : Z) : M (World K) Error t := interrogate self.
End Call.
(* src/src/ring/probe.rs:106-109 Probe::last_op *)
Definition last_op (self : t) : Z := last_op_ (header self).
(* src/src/ring/probe.rs:112-115 Probe::reported *)
Definition reported (self : t) : Z := ops_len (header self).
(** A report longer than the array would panic; `ops_len` is a byte. *)
(* src/src/ring/probe.rs:131-136 Probe::supports_raw *)
Definition supports_raw (self : t) (raw : Z) : bool :=
  existsb (fun entry => (po_op entry =? raw) && negb (po_flags entry &&& SUPPORTED =? 0))
    (take (Z.to_nat (reported self)) (ops self)).
(* src/src/ring/probe.rs:122-125 Probe::supports *)
Definition supports (self : t) (op : Opcode.t) : bool := supports_raw self (Opcode.raw op).
End Probe.
#[export] Existing Instances Probe.op_repr Probe.header_repr Probe.op_laws Probe.header_laws.
