(* ===== verification/RegisterSpec.v ===== *)
(** * Registration calls: the theorems

    The kernel's reading of a register call, by opcode, from the memory the
    argument points to; that every method makes the call it is named after, with
    the caller's arguments, and reports what the kernel answered; and the probe. *)
From stdpp Require Import base numbers list option.
From Stdlib Require Import ZArith Lia.
From S2P Require Import Prelude Flags Types UserMem Syscall Sqe SqeSpec Owned Register.
Local Open Scope Z_scope.
Local Open Scope rust_scope.

(** ** The kernel's reading *)
(** What a request must have to be cancelled: nothing, for "any". *)
Record selector : Set := mkSelector {
  sel_fd : option Z; sel_opcode : option Z; sel_user_data : option Z
}.
Inductive request : Set :=
| QBuffers (base n : Z) | QUnBuffers
| QFiles (base n : Z) | QUnFiles
| QFilesUpdate (fds n offset : Z)
| QAllocRange (off len : Z)
| QEventFd (fd : Z) (async : bool) | QUnEventFd
| QAffinity (mask n : Z) | QUnAffinity
| QWorkers (bounded unbounded : Z)
| QRingFd (slot : option Z) (fd : Z) | QUnRingFd (slot : Z)
| QEnable
| QSyncCancel (sel : selector) (flags : Z) (timeout : option Timespec)
| QNapi (timeout : Z) (prefer : bool) (strategy : Z) | QNapiId (add : bool) (id : Z) | QUnNapi
| QClone (src flags src_off dst_off nr : Z)
| QTagged (buffers : bool) (data tags n : Z)
| QTaggedUpdate (buffers : bool) (data tags n offset : Z)
| QProbe (dest n : Z).

(** The key bits of a cancellation are part of its key. *)
Definition cancel_keys : Z := CancelFlags.FD ||| CancelFlags.ANY ||| CancelFlags.OP.
(** The user data is compared unless a descriptor or an opcode selects, or when
    the flags ask for it; "any" compares nothing. *)
Definition read_selector (r : SyncCancel.Raw) : selector :=
  let fl := SyncCancel.r_flags r in
  if contains fl CancelFlags.ANY then mkSelector None None None
  else mkSelector
    (if contains fl CancelFlags.FD then Some (SyncCancel.r_fd r) else None)
    (if contains fl CancelFlags.OP then Some (SyncCancel.r_opcode r) else None)
    (if contains fl CancelFlags.USERDATA || negb (contains fl CancelFlags.FD || contains fl CancelFlags.OP)
     then Some (SyncCancel.r_addr r) else None).
Definition read_cancel (r : SyncCancel.Raw) : option request :=
  let fl := SyncCancel.r_flags r in
  if (SyncCancel.r_pad r =? 0) && (SyncCancel.r_pad2 r =? 0) then
    Some (QSyncCancel (read_selector r) (Z.ldiff fl cancel_keys)
      (if (tv_sec (SyncCancel.r_timeout r) =? -1) && (tv_nsec (SyncCancel.r_timeout r) =? -1)
       then None else Some (SyncCancel.r_timeout r)))
  else None.
Definition read_napi (r : Napi.Raw) : option request :=
  if (Napi.pad r =? 0) && (Napi.resv r =? 0) then
    match Napi.n_opcode r with
    | 0 => Some (QNapi (Napi.busy_poll_to r) (negb (Napi.prefer r =? 0)) (Napi.op_param r))
    | 1 => Some (QNapiId true (Napi.op_param r))
    | 2 => Some (QNapiId false (Napi.op_param r))
    | _ => None
    end
  else None.
(** A probe is given zeroed. *)
Definition zero_op (o : Probe.Op) : bool :=
  (Probe.po_op o =? 0) && (Probe.po_resv o =? 0) && (Probe.po_flags o =? 0) && (Probe.po_resv2 o =? 0).
Definition zero_header (h : Probe.Header) : bool :=
  (Probe.last_op_ h =? 0) && (Probe.ops_len h =? 0) && (Probe.h_resv h =? 0) && (Probe.h_resv2 h =? 0).
Definition zero_probe (a nr : Z) (m : UMem) : bool :=
  zero_header (ptr_read a m) && forallb zero_op (read_array (a + 16) (Z.to_nat nr) m).
(** Reserved fields must be zero, and counts what the opcode fixes; [None] is the
    kernel's EINVAL. *)
Definition reg_read (m : UMem) (op arg nr : Z) : option request :=
  match op with
  | 0 => Some (QBuffers arg nr)
  | 1 => if (arg =? 0) && (nr =? 0) then Some QUnBuffers else None
  | 2 => Some (QFiles arg nr)
  | 3 => if (arg =? 0) && (nr =? 0) then Some QUnFiles else None
  | 4 => if nr =? 1 then Some (QEventFd (ptr_read arg m) false) else None
  | 5 => if (arg =? 0) && (nr =? 0) then Some QUnEventFd else None
  | 6 => let u := ptr_read (T := IoUringFilesUpdate) arg m in
         if fu_resv u =? 0 then Some (QFilesUpdate (fu_fds u) nr (fu_offset u)) else None
  | 7 => if nr =? 1 then Some (QEventFd (ptr_read arg m) true) else None
  | 8 => if (nr <=? 256) && zero_probe arg nr m then Some (QProbe arg nr) else None
  | 12 => if (arg =? 0) && (nr =? 0) then Some QEnable else None
  | 13 | 15 =>
      let r := ptr_read (T := IoUringRsrcRegister) arg m in
      if (nr =? 32) && (rr_flags r =? 0) && (rr_resv2 r =? 0)
      then Some (QTagged (op =? 15) (rr_data r) (rr_tags r) (rr_nr r)) else None
  | 14 | 16 =>
      let r := ptr_read (T := IoUringRsrcUpdate2) arg m in
      if (nr =? 32) && (r2_resv r =? 0) && (r2_resv2 r =? 0)
      then Some (QTaggedUpdate (op =? 16) (r2_data r) (r2_tags r) (r2_nr r) (r2_offset r)) else None
  | 17 => Some (QAffinity arg nr)
  | 18 => if (arg =? 0) && (nr =? 0) then Some QUnAffinity else None
  | 19 => let w := ptr_read (T := Z * Z) arg m in
          if nr =? 2 then Some (QWorkers w.1 w.2) else None
  | 20 => let r := ptr_read (T := IoUringRsrcUpdate) arg m in
          if (nr =? 1) && (ru_resv r =? 0)
          then Some (QRingFd (if ru_offset r =? 4294967295 then None else Some (ru_offset r))
                       (as_i32 (ru_data r))) else None
  | 21 => let r := ptr_read (T := IoUringRsrcUpdate) arg m in
          if (nr =? 1) && (ru_resv r =? 0) && (ru_data r =? 0)
          then Some (QUnRingFd (ru_offset r)) else None
  | 24 => if nr =? 1 then read_cancel (ptr_read arg m) else None
  | 25 => let r := ptr_read (T := IoUringFileIndexRange) arg m in
          if (nr =? 0) && (fr_resv r =? 0) then Some (QAllocRange (fr_off r) (fr_len r)) else None
  | 27 => if nr =? 1 then read_napi (ptr_read arg m) else None
  | 28 => if nr =? 1 then Some QUnNapi else None
  | 30 => let r := ptr_read (T := IoUringCloneBuffers) arg m in
          if (nr =? 1) && (cb_pad r =? 0)
          then Some (QClone (as_i32 (cb_src_fd r)) (cb_flags r) (cb_src_off r) (cb_dst_off r)
                       (cb_nr r))
          else None
  | _ => None
  end.

Section Spec.
  Context {K : Type} {PW : PtrWidth} {A : Arch} {RS : RawSyscall K} {SF : StackFrame}.
  Notation Call R := (M (World K) Error R).

(** The method [m] on the ring [fd] makes one register call, which the kernel
    reads as [q]; it writes no memory but its own local, and [answer] is what it
    returns for the kernel's result and the memory the kernel left. *)
Definition makes {R} (m : Call R) (fd : Z) (q : request)
  (answer : result Z Errno -> UMem -> result R Error) : Prop :=
  forall w, exists mem op arg nr,
  only_within (local 0) 64 (w_mem w) mem /\ reg_read mem op arg nr = Some q /\
  let '(r, w') := Syscall.io_uring_register fd op arg nr (mkWorld mem (w_kernel w)) in
  m w = (answer r (w_mem w'), w').
(** It makes one register call which the kernel does not accept, for its count
    alone: the same call with a count of one it would read as [q]. *)
Definition miscounts {R} (m : Call R) (fd : Z) (q : request)
  (answer : result Z Errno -> UMem -> result R Error) : Prop :=
  forall w, exists mem op arg nr,
  only_within (local 0) 64 (w_mem w) mem /\ reg_read mem op arg nr = None /\
  reg_read mem op arg 1 = Some q /\
  let '(r, w') := Syscall.io_uring_register fd op arg nr (mkWorld mem (w_kernel w)) in
  m w = (answer r (w_mem w'), w').
(** Nothing but success or the kernel's error. *)
Definition acknowledged (r : result Z Errno) (_ : UMem) : result unit Error :=
  match r with Ok _ => Ok tt | Err e => Err (Syscall e) end.
(** What the kernel left in the local. *)
Definition answered {T R} `{Repr T} (f : T -> R) (r : result Z Errno) (m : UMem) : result R Error :=
  match r with Ok _ => Ok (f (ptr_read (local 0) m)) | Err e => Err (Syscall e) end.

Lemma makes_plain fd op arg nr q :
  (forall m, reg_read m op arg nr = Some q) ->
  makes (done_ (try_ (Registration.register_raw fd op arg nr))) fd q acknowledged.
Proof.
  intros Hq [m k]. exists m, op, arg, nr. split; [apply only_within_refl|]. split; [apply Hq|].
  unfold done_, try_, bind, Registration.register_raw. cbn [w_kernel].
  by destruct (Syscall.io_uring_register fd op arg nr (mkWorld m k)) as [[?|?] ?].
Qed.

Lemma makes_local {T} `{ReprLaws T} (x : T) fd op nr q :
  (size_of T <= 64)%nat -> repr_ok x ->
  (forall m, ptr_read (local 0) m = x -> reg_read m op (local 0) nr = Some q) ->
  makes (done_ (with_local 0 x (fun p => try_ (Registration.register_raw fd op p nr)))) fd q acknowledged.
Proof.
  intros Hsz Hx Hq [m k]. exists (ptr_write (local 0) x m), op, (local 0), nr. split_and!.
  - eapply only_within_weaken; [..|apply ptr_write_within]; lia.
  - apply Hq. by apply ptr_read_write.
  - unfold done_, try_, bind, with_local, Registration.register_raw, set_world_mem.
    cbn [w_mem w_kernel].
    by destruct (Syscall.io_uring_register _ _ _ _ _) as [[?|?] ?].
Qed.

Lemma miscounts_local {T} `{ReprLaws T} (x : T) fd op nr q :
  (size_of T <= 64)%nat -> repr_ok x ->
  (forall m, ptr_read (local 0) m = x -> reg_read m op (local 0) nr = None) ->
  (forall m, ptr_read (local 0) m = x -> reg_read m op (local 0) 1 = Some q) ->
  miscounts (done_ (with_local 0 x (fun p => try_ (Registration.register_raw fd op p nr)))) fd q acknowledged.
Proof.
  intros Hsz Hx Hn Hq w. destruct w as [m k]. set (mem := ptr_write (local 0) x m).
  assert (ptr_read (local 0) mem = x) as Hrd by by apply ptr_read_write.
  exists mem, op, (local 0), nr. split; [|split; [by apply Hn|split; [by apply Hq|]]].
  - eapply only_within_weaken; [..|apply ptr_write_within]; lia.
  - unfold done_, try_, bind, with_local, Registration.register_raw, set_world_mem.
    cbn [w_mem w_kernel]. fold mem.
    by destruct (Syscall.io_uring_register _ _ _ _ _) as [[?|?] ?].
Qed.

Lemma makes_answered {T U R} `{ReprLaws T} `{Repr U} (x : T) (f : U -> R) fd op nr q :
  (size_of T <= 64)%nat -> repr_ok x ->
  (forall m, ptr_read (local 0) m = x -> reg_read m op (local 0) nr = Some q) ->
  makes (do! with_local 0 x (fun p => try_ (Registration.register_raw fd op p nr)) in
         let! y := read_local U 0 in ret (f y)) fd q (answered f).
Proof.
  intros Hsz Hx Hq [m k]. exists (ptr_write (local 0) x m), op, (local 0), nr. split_and!.
  - eapply only_within_weaken; [..|apply ptr_write_within]; lia.
  - apply Hq. by apply ptr_read_write.
  - unfold try_, bind, with_local, Registration.register_raw, set_world_mem, read_local, ret.
    cbn [w_mem w_kernel].
    by destruct (Syscall.io_uring_register _ _ _ _ _) as [[?|?] ?].
Qed.
Lemma register_errno fd op arg nr w e w' :
  Syscall.io_uring_register fd op arg nr w = (Err e, w') -> 1 <= e <= 4095.
Proof.
  unfold Syscall.io_uring_register, Syscall.call. destruct (syscall _ _ w) as [r ?].
  intros [= Hc <-]. by apply check_errno in Hc.
Qed.

(** A cancellation's answer is its outcome, never an error. *)
Definition cancel_answer (r : result Z Errno) (_ : UMem) : result Cancel.Outcome Error :=
  Ok match r with
     | Ok n => Cancel.Applied (as_u32 n)
     | Err e => if e =? 2 then Cancel.NotFound else if e =? 114 then Cancel.AlreadyCompleting
                else Cancel.OutcomeFailed e
     end.

Definition settings_answer := answered (R := Napi.Settings) Napi.settings_from_raw.

(** A tagged call: refused when the tags do not match the table. *)
Definition tagged (m : option (Call unit)) (s tags : Slice) (fd : Z) (q : request) : Prop :=
  if slice_len s =? slice_len tags then exists c, m = Some c /\ makes c fd q acknowledged
  else m = None.
Lemma tagged_intro c s tags fd q :
  makes c fd q acknowledged ->
  tagged (if slice_len s =? slice_len tags then Some c else None) s tags fd q.
Proof. unfold tagged. intros H. destruct (slice_len s =? slice_len tags); [by exists c|done]. Qed.
End Spec.

Section Exact.
  Context {K : Type} {PW : PtrWidth} {A : Arch} {RS : RawSyscall K} {SF : StackFrame}.

Lemma u32_len s : slice_ok s -> as_u32 (slice_len s) = slice_len s.
Proof. intros [_ H]. by apply wrap_small. Qed.
Lemma u64_ptr s : slice_ok s -> as_u64 (slice_ptr s) = slice_ptr s.
Proof.
  intros [H _]. apply wrap_small. unfold ptr_ok, in_u in *.
  destruct usize_cases as [E|E]; rewrite E in H; lia.
Qed.
Lemma ptr_u64 s : slice_ok s -> in_u 64 (slice_ptr s).
Proof. intros H. rewrite <- (u64_ptr s H). apply wrap_range. lia. Qed.

Lemma fd_i32 fd : fd_ok fd -> RawFd.as_i32 fd = fd.
Proof. apply i32_fd. Qed.
Lemma fd_i32_ok fd : fd_ok fd -> in_i 32 (RawFd.as_i32 fd).
Proof. intros H. rewrite fd_i32 by done. unfold fd_ok, in_i in *. change (32 - 1) with 31. lia. Qed.
Lemma fd_u32 fd : fd_ok fd -> as_i32 (as_u32 (RawFd.as_i32 fd)) = fd.
Proof. intros H. rewrite as_signed_wrap by lia. rewrite (fd_i32 fd) by done. by apply i32_fd. Qed.

Lemma register_size : as_u32 (Z.of_nat (size_of IoUringRsrcRegister)) = 32.
Proof. reflexivity. Qed.
Lemma update_size : as_u32 (Z.of_nat (size_of IoUringRsrcUpdate2)) = 32.
Proof. reflexivity. Qed.

Lemma fd_u64 fd : fd_ok fd -> as_i32 (as_u64 fd) = fd.
Proof. intros H. rewrite wrap_small by (unfold fd_ok, in_u in *; lia). by apply i32_fd. Qed.

(** A method whose argument is a structure: its fields are in range, and the
    kernel reads them back. *)
Ltac field_ok :=
  first [ assumption | by apply fd_i32_ok | refine (wrap_range _ _ _); vm_compute; congruence
        | split; vm_compute; congruence ].
Ltac reads_back :=
  let m := fresh in let Hm := fresh in
  intros m Hm; cbn [reg_read RegisterOp.raw]; rewrite ?Hm, ?register_size, ?update_size;
  cbn -[Z.land Z.lor as_signed wrap];
  rewrite ?u32_len, ?u64_ptr, ?fd_i32, ?fd_u32 by done.
Ltac local_arg :=
  lazymatch goal with
  | |- (_ <= _)%nat => vm_compute; repeat constructor
  | |- repr_ok _ =>
      cbn -[in_u in_i Z.of_nat Z.mul];
      repeat first [ apply Forall2_nil_2 | apply Forall2_cons_2 ]; try field_ok
  | |- _ => reads_back
  end.

(** C26. Every registration method but the three clones makes one register call,
    which the kernel reads, with reserved fields clear, as the operation the
    method is named after on exactly the caller's slices, descriptors, indices and
    flags; no memory but the method's own structure is written; and it succeeds or
    fails exactly as the kernel answered.  A tagged call panics, before any system
    call, exactly when there is not one tag per entry.  The clones make a call the
    kernel refuses, for the count of zero they pass: with a count of one it would
    be the clone asked for. *)
Theorem registrations_seen fd efd s tags a b c flags :
  fd_ok efd -> slice_ok s -> slice_ok tags -> in_u 32 a -> in_u 32 b -> in_u 32 c -> in_u 32 flags ->
  let ptr := slice_ptr s in let n := slice_len s in
  makes (Registration.register_buffers fd s) fd (QBuffers ptr n) acknowledged /\
  makes (Registration.unregister_buffers fd) fd QUnBuffers acknowledged /\
  makes (Registration.register_files fd s) fd (QFiles ptr n) acknowledged /\
  makes (Registration.unregister_files fd) fd QUnFiles acknowledged /\
  makes (Registration.update_registered_files fd s a) fd (QFilesUpdate ptr n a) acknowledged /\
  makes (Registration.register_file_alloc_range fd a b) fd (QAllocRange a b) acknowledged /\
  makes (Registration.register_eventfd fd efd) fd (QEventFd efd false) acknowledged /\
  makes (Registration.register_eventfd_async fd efd) fd (QEventFd efd true) acknowledged /\
  makes (Registration.unregister_eventfd fd) fd QUnEventFd acknowledged /\
  makes (Registration.register_iowq_affinity fd s) fd (QAffinity ptr n) acknowledged /\
  makes (Registration.unregister_iowq_affinity fd) fd QUnAffinity acknowledged /\
  makes (Registration.set_iowq_max_workers fd a b) fd (QWorkers a b) acknowledged /\
  makes (Registration.unregister_ring_fd fd a) fd (QUnRingFd a) acknowledged /\
  makes (Registration.enable_rings fd) fd QEnable acknowledged /\
  makes (Registration.napi_add_static_id fd a) fd (QNapiId true a) acknowledged /\
  makes (Registration.napi_remove_static_id fd a) fd (QNapiId false a) acknowledged /\
  miscounts (Registration.clone_registered_buffers fd efd) fd (QClone efd 0 0 0 0) acknowledged /\
  miscounts (Registration.clone_registered_buffers_replacing fd efd) fd
    (QClone efd CloneBuffersFlags.DST_REPLACE 0 0 0) acknowledged /\
  miscounts (Registration.clone_registered_buffers_raw fd efd flags a b c) fd
    (QClone efd flags a b c) acknowledged /\
  tagged (Registration.register_files_tagged fd s tags) s tags fd
    (QTagged false ptr (slice_ptr tags) n) /\
  tagged (Registration.register_buffers_tagged fd s tags) s tags fd
    (QTagged true ptr (slice_ptr tags) n) /\
  tagged (Registration.update_registered_files_tagged fd s tags a) s tags fd
    (QTaggedUpdate false ptr (slice_ptr tags) n a) /\
  tagged (Registration.update_registered_buffers_tagged fd s tags a) s tags fd
    (QTaggedUpdate true ptr (slice_ptr tags) n a).
Proof.
  intros He Hs Ht Ha Hb Hc Hf. cbv zeta.
  split_and!; try (apply tagged_intro);
    unfold Registration.clone_registered_buffers, Registration.clone_registered_buffers_replacing;
    first [ apply makes_plain; intros m; cbn [reg_read RegisterOp.raw]; by rewrite ?u32_len
          | idtac ].
  all: first [apply makes_local|apply miscounts_local]; local_arg; reflexivity.
Qed.

Lemma cancel_keys_cleared fl n :
  fl &&& cancel_keys = 0 -> n &&& cancel_keys = n -> Z.ldiff (fl ||| n) cancel_keys = fl.
Proof.
  intros Hf Hn. apply Z.bits_inj'. intros i Hi.
  apply (f_equal (fun x => Z.testbit x i)) in Hf, Hn. rewrite Z.bits_0 in Hf.
  rewrite !Z.land_spec in *. rewrite Z.ldiff_spec, Z.lor_spec.
  destruct (Z.testbit fl i), (Z.testbit n i), (Z.testbit cancel_keys i); done.
Qed.
Lemma cancel_key_bit fl n b :
  fl &&& cancel_keys = 0 -> b &&& cancel_keys = b -> contains (fl ||| n) b = contains n b.
Proof.
  intros Hf Hb. unfold contains. f_equal. rewrite <- Hb. apply Z.bits_inj'. intros i Hi.
  apply (f_equal (fun x => Z.testbit x i)) in Hf. rewrite Z.bits_0 in Hf.
  rewrite !Z.land_spec, Z.lor_spec in *.
  destruct (Z.testbit fl i), (Z.testbit n i), (Z.testbit cancel_keys i), (Z.testbit b i); done.
Qed.

(** A timeout made by [Timespec::new]; the caller's flags leave the key bits alone. *)
Definition reg_ok (r : SyncCancel.Reg) : Prop :=
  (match SyncCancel.key r with
   | SyncCancel.UserData t => in_u 64 t | SyncCancel.Fd f => fd_ok f | SyncCancel.Any => True end) /\
  in_u 32 (SyncCancel.flags r) /\ SyncCancel.flags r &&& cancel_keys = 0 /\
  (forall ts, SyncCancel.timeout r = Some ts -> in_i 64 (tv_sec ts) /\ 0 <= tv_nsec ts < 1000000000).

Definition key_bits (r : SyncCancel.Reg) : Z :=
  match SyncCancel.key r with
  | SyncCancel.UserData _ => 0 | SyncCancel.Fd _ => CancelFlags.FD | SyncCancel.Any => CancelFlags.ANY
  end ||| match SyncCancel.opcode r with Some _ => CancelFlags.OP | None => 0 end.
Lemma as_raw_flags r :
  SyncCancel.r_flags (SyncCancel.as_raw r) = SyncCancel.flags r ||| key_bits r.
Proof.
  destruct r as [[] fl [] ts]; cbn -[Z.lor]; unfold key_bits; cbn [SyncCancel.key SyncCancel.opcode];
    by rewrite ?Z.lor_assoc, ?Z.lor_0_r.
Qed.
Lemma as_raw_range r : reg_ok r -> repr_ok (SyncCancel.as_raw r).
Proof.
  intros (Hk & Hu & _ & Ht).
  assert (in_u 32 (SyncCancel.r_flags (SyncCancel.as_raw r))) as Hfl.
  { rewrite as_raw_flags. apply lor_u_bound; [lia|done|].
    by destruct r as [[] ? [] ?]. }
  assert (forall o, in_u 8 (match o with Some o => Opcode.raw o | None => 0 end)) as Ho
    by (intros [[]|]; split; vm_compute; congruence).
  specialize (Ho (SyncCancel.opcode r)).
  assert (in_i 64 (tv_sec (SyncCancel.r_timeout (SyncCancel.as_raw r))) /\
          in_i 64 (tv_nsec (SyncCancel.r_timeout (SyncCancel.as_raw r)))) as [Hs Hn].
  { destruct r as [[] fl [] [ts|]]; cbn -[in_i] in *;
      first [ destruct (Ht ts eq_refl); unfold in_i in *; cbn in *; lia | split; split; done ]. }
  destruct r as [[] fl [] ts]; cbn -[in_u in_i Z.lor] in *; rewrite ?fd_i32 by done;
    split_and!; try done;
    rewrite <- (fd_i32 fd) by done; by apply fd_i32_ok.
Qed.

(** What the caller of a cancellation gets.  A descriptor's key carries no user
    data, so asking to compare it compares with zero. *)
Definition selects (r : SyncCancel.Reg) : selector :=
  let op := option_map Opcode.raw (SyncCancel.opcode r) in
  let by_data := contains (SyncCancel.flags r) CancelFlags.USERDATA in
  match SyncCancel.key r, SyncCancel.opcode r with
  | SyncCancel.Any, _ => mkSelector None None None
  | SyncCancel.Fd f, _ => mkSelector (Some f) op (if by_data then Some 0 else None)
  | SyncCancel.UserData t, None => mkSelector None None (Some t)
  | SyncCancel.UserData t, Some _ => mkSelector None op (if by_data then Some t else None)
  end.

Lemma userdata_bit fl n :
  n &&& CancelFlags.USERDATA = 0 ->
  contains (fl ||| n) CancelFlags.USERDATA = contains fl CancelFlags.USERDATA.
Proof. intros Hn. unfold contains. by rewrite Z.land_lor_distr_l, Hn, Z.lor_0_r. Qed.

Lemma key_bits_any r :
  contains (key_bits r) CancelFlags.ANY =
    match SyncCancel.key r with SyncCancel.Any => true | _ => false end.
Proof. by destruct r as [[] ? [] ?]. Qed.
Lemma key_bits_fd r :
  contains (key_bits r) CancelFlags.FD =
    match SyncCancel.key r with SyncCancel.Fd _ => true | _ => false end.
Proof. by destruct r as [[] ? [] ?]. Qed.
Lemma key_bits_op r :
  contains (key_bits r) CancelFlags.OP = match SyncCancel.opcode r with Some _ => true | None => false end.
Proof. by destruct r as [[] ? [] ?]. Qed.

Lemma read_as_raw r : reg_ok r ->
  read_cancel (SyncCancel.as_raw r) =
    Some (QSyncCancel (selects r) (SyncCancel.flags r) (SyncCancel.timeout r)).
Proof.
  intros (Hk & _ & Hf & Ht). unfold read_cancel, read_selector. rewrite as_raw_flags.
  rewrite cancel_keys_cleared by (done || by destruct r as [[] ? [] ?]).
  rewrite !cancel_key_bit by done. rewrite userdata_bit by by destruct r as [[] ? [] ?].
  rewrite key_bits_any, key_bits_fd, key_bits_op.
  destruct r as [key fl op ts]. unfold selects.
  cbn [SyncCancel.key SyncCancel.flags SyncCancel.opcode SyncCancel.timeout] in *.
  assert (match ts with Some t => tv_nsec t =? -1 | None => true end =
          match ts with Some _ => false | None => true end) as Hb.
  { destruct ts as [ts|]; [|done]. destruct (Ht ts eq_refl). lia. }
  destruct (contains fl CancelFlags.USERDATA), key, op, ts as [[]|]; cbn -[Z.eqb] in *;
    rewrite ?Hb, ?andb_false_r, ?fd_i32 by done; done.
Qed.

(** C27. The methods that report what the kernel left behind: registering the ring's
    own descriptor asks for any free slot and returns the slot the kernel wrote;
    setting and clearing NAPI polling returns the settings the kernel had, the
    deprecated "inactive" mode included; and a synchronous cancellation selects by
    the caller's key and opcode (but an opcode replaces a key of user data unless
    the flags ask for both, and "any" ignores it), under exactly the caller's flags
    and timeout, without bound when none is given, and answers with an outcome:
    never with an error, whatever the kernel says. *)
Theorem registrations_answer fd usec prefer strategy r :
  fd_ok fd -> in_u 32 usec -> reg_ok r ->
  makes (Registration.register_ring_fd fd) fd (QRingFd None fd) (answered ru_offset) /\
  makes (Registration.register_napi fd usec prefer strategy) fd
    (QNapi usec prefer (Napi.strategy_raw strategy)) settings_answer /\
  makes (Registration.unregister_napi fd) fd QUnNapi settings_answer /\
  makes (Registration.sync_cancel fd r) fd
    (QSyncCancel (selects r) (SyncCancel.flags r) (SyncCancel.timeout r)) cancel_answer.
Proof.
  intros Hfd Hu Hr. split_and!.
  - apply makes_answered; local_arg. by rewrite fd_u64.
  - apply (makes_answered (T := Napi.Raw) (U := Napi.Raw)); destruct prefer, strategy; local_arg; done.
  - apply (makes_answered (T := Napi.Raw) (U := Napi.Raw)); local_arg; done.
  - intros [m k]. exists (ptr_write (local 0) (SyncCancel.as_raw r) m), 24, (local 0), 1. split_and!.
    { exact (ptr_write_within (T := SyncCancel.Raw) _ _ _). }
    { cbn [reg_read]. rewrite ptr_read_write by by apply as_raw_range. by apply read_as_raw. }
    unfold Registration.sync_cancel, with_local, Registration.register_raw, set_world_mem.
    cbn [w_mem w_kernel RegisterOp.raw].
    destruct (Syscall.io_uring_register _ _ _ _ _) as [[n|e] w'] eqn:E; [done|].
    apply register_errno in E.
    unfold Cancel.outcome_from_raw, neg_i32, cancel_answer.
    rewrite (as_signed_small 32 (- e)) by (unfold in_i; lia || lia). rewrite Z.opp_involutive.
    rewrite (as_signed_small 32 e) by (unfold in_i; lia || lia).
    repeat case_match; (done || lia).
Qed.

(** ** The probe *)
(** What the kernel answers: the header and the entries it has, over the zeroed
    structure it was given. *)
Definition answer_probe (a : Z) (h : Probe.Header) (entries : list Probe.Op) (m : UMem) : UMem :=
  write_array (a + 16) entries (ptr_write a h m).
Definition zeroed : Probe.t :=
  Probe.mk Probe.header_default (replicate Probe.SLOT_COUNT Probe.op_default).

Lemma read_write_probe a p m :
  repr_ok (Probe.header p) -> Forall repr_ok (Probe.ops p) -> length (Probe.ops p) = Probe.SLOT_COUNT ->
  Probe.read_probe a (Probe.write_probe a p m) = p.
Proof.
  intros Hh Ho Hl. destruct p as [h ops]. unfold Probe.read_probe, Probe.write_probe.
  cbn [Probe.header Probe.ops] in *. rewrite <- Hl, read_write_array by done. f_equal.
  rewrite (ptr_read_apart a _ _ _ _ (write_array_within ops _ _)).
  - by apply ptr_read_write.
  - unfold apart. lia.
Qed.
Lemma read_array_app {T} `{Repr T} n k : forall a m,
  read_array a (n + k) m = read_array (T := T) a n m ++ read_array (a + Z.of_nat (size_of T * n)) k m.
Proof.
  induction n as [|n IH]; intros a m; [cbn; by rewrite Nat.mul_0_r, Z.add_0_r|].
  cbn [Nat.add read_array app]. rewrite IH. f_equal. f_equal. f_equal. lia.
Qed.

Lemma read_answer a h entries m :
  repr_ok h -> Forall repr_ok entries -> Probe.ops_len h = Z.of_nat (length entries) ->
  exists rest, Probe.read_probe a (answer_probe a h entries m) = Probe.mk h (entries ++ rest).
Proof.
  intros Hh He Hl.
  assert (length entries <= Probe.SLOT_COUNT)%nat as Hle.
  { cbn in Hh. inversion_clear Hh as [|? ? ? ? _ Hh']. inversion_clear Hh' as [|? ? ? ? Hb _].
    change (in_u 8 (Probe.ops_len h)) in Hb. unfold in_u in Hb.
    change (length entries <= 256)%nat. lia. }
  unfold Probe.read_probe, answer_probe.
  rewrite (ptr_read_apart a _ _ _ _ (write_array_within entries _ _)) by (unfold apart; cbn; lia).
  rewrite ptr_read_write by done.
  replace Probe.SLOT_COUNT with (length entries + (Probe.SLOT_COUNT - length entries))%nat by lia.
  rewrite read_array_app, read_write_array by done. by eexists.
Qed.

Lemma flag_bit z : negb (z &&& 1 =? 0) = Z.testbit z 0.
Proof.
  rewrite Z.bit0_odd. change 1 with (Z.ones 1). rewrite Z.land_ones by lia.
  change (2 ^ 1) with 2. rewrite Zmod_odd. by destruct (Z.odd z).
Qed.
Lemma zeroed_is_zero a m : zero_probe a 256 (Probe.write_probe a zeroed m) = true.
Proof.
  assert (Forall repr_ok (Probe.ops zeroed)) as Hops.
  { apply Forall_replicate. cbn -[in_u Z.of_nat Z.mul]. fields. }
  assert (repr_ok (Probe.header zeroed)) as Hh0 by (cbn -[in_u Z.of_nat Z.mul]; fields).
  pose proof (read_write_probe a zeroed m Hh0 Hops (length_replicate _ _)) as Hr.
  pose proof (f_equal Probe.header Hr) as Hh. pose proof (f_equal Probe.ops Hr) as Ho.
  unfold Probe.read_probe in Hh, Ho. cbn [Probe.header Probe.ops] in Hh, Ho.
  change (Z.of_nat (size_of Probe.Header)) with 16 in Ho.
  unfold zero_probe. change (Z.to_nat 256) with Probe.SLOT_COUNT. rewrite Hh, Ho. reflexivity.
Qed.

(** Probing hands the kernel a zeroed table of 256 entries, writes nothing else, and
    fails exactly when the call fails.  When the kernel answers with a header and
    [entries], the highest opcode and the count are the header's, and an
    operation is supported exactly when one of those entries names it with the
    supported bit set: whatever the rest of the table holds is never consulted. *)
Theorem probe_exact fd w h entries :
  repr_ok h -> Forall repr_ok entries -> Probe.ops_len h = Z.of_nat (length entries) ->
  let sent := Probe.write_probe (local 0) zeroed (w_mem w) in
  reg_read sent 8 (local 0) 256 = Some (QProbe (local 0) 256) /\
  only_within (local 0) 2064 (w_mem w) sent /\
  let '(r, w') := Syscall.io_uring_register fd 8 (local 0) 256 (mkWorld sent (w_kernel w)) in
  (forall e, r = Err e -> Probe.probe fd w = (Err (Syscall e), w')) /\
  (forall n, r = Ok n -> w_mem w' = answer_probe (local 0) h entries sent ->
   exists p, Probe.probe fd w = (Ok p, w') /\
   Probe.last_op p = Probe.last_op_ h /\ Probe.reported p = Z.of_nat (length entries) /\
   (forall op, Probe.supports p op = true <->
      exists e, e ∈ entries /\ Probe.po_op e = Opcode.raw op /\ Z.testbit (Probe.po_flags e) 0 = true)).
Proof.
  intros Hh He Hl. cbv zeta. split; [cbn [reg_read]; by rewrite zeroed_is_zero|]. split.
  { unfold Probe.write_probe. eapply only_within_trans.
    - apply (only_within_weaken (local 0) 16); [lia|lia|].
      exact (ptr_write_within (local 0) (Probe.header zeroed) (w_mem w)).
    - apply (only_within_weaken (local 0 + 16) 2048); [lia|lia|].
      exact (write_array_within (T := Probe.Op) (Probe.ops zeroed) _ _). }
  destruct (Syscall.io_uring_register _ _ _ _ _) as [r w'] eqn:E.
  assert (Probe.probe fd w = match r with Ok _ => (Ok (Probe.read_probe (local 0) (w_mem w')), w')
                             | Err e => (Err (Syscall e), w') end) as ->.
  { unfold Probe.probe, Probe.interrogate, set_world_mem, try_. cbn [RegisterOp.raw].
    change Probe.SLOTS with 256. fold zeroed. rewrite E. by destruct r. }
  split; [by intros e ->|]. intros n -> Hm. rewrite Hm.
  destruct (read_answer (local 0) h entries (Probe.write_probe (local 0) zeroed (w_mem w))) as [rest ->]; [done..|].
  eexists. split; [done|]. split; [done|]. split; [done|]. intros op.
  unfold Probe.supports, Probe.supports_raw, Probe.reported. cbn [Probe.header Probe.ops].
  rewrite Hl, Nat2Z.id, take_app_length, existsb_exists.
  setoid_rewrite list_elem_of_In. split; intros (e & Hin & Hc); exists e; (split; [done|]).
  - apply andb_true_iff in Hc as [Hc Hb]. by rewrite <- flag_bit, Z.eqb_eq in *.
  - destruct Hc as [-> Hb]. by rewrite Z.eqb_refl, flag_bit.
Qed.
End Exact.

Definition small_kernel_header : Probe.Header := Probe.mkHeader 1 2 0 0.
Definition small_kernel_ops : list Probe.Op := [Probe.mkOp 0 0 1 0; Probe.mkOp 1 0 0 0].
(** A kernel with a no-op and nothing else. *)
Definition small_kernel : RawSyscall unit := {|
  syscall _ args w := (0, set_world_mem
    (answer_probe (nth 2 args 0) small_kernel_header small_kernel_ops) w) |}.

Lemma registrations_seen_witness :
  makes (RS := zero_kernel) (Registration.register_files 3 (mkSlice 64 2)) 3 (QFiles 64 2) acknowledged.
Proof.
  refine (proj1 (proj2 (proj2 (registrations_seen (RS := zero_kernel) 3 5 (mkSlice 64 2) (mkSlice 128 2)
    1 2 3 0 _ _ _ _ _ _ _)))).
  2, 3: split.
  all: split; vm_compute; congruence.
Defined.
Lemma registrations_answer_witness :
  makes (RS := zero_kernel) (Registration.sync_cancel 3 (SyncCancel.fd 5 CancelFlags.ALL)) 3
    (QSyncCancel (mkSelector (Some 5) None None) CancelFlags.ALL None) cancel_answer.
Proof.
  refine (proj2 (proj2 (proj2 (registrations_answer (RS := zero_kernel) 3 50 true Napi.Dynamic
    (SyncCancel.fd 5 CancelFlags.ALL) _ _ _)))).
  1-2: split; vm_compute; congruence.
  split; [split; vm_compute; congruence|]. split; [split; vm_compute; congruence|].
  split; [reflexivity|]. intros ts H. discriminate H.
Defined.
Lemma probe_exact_witness :
  exists p w', Probe.probe (RS := small_kernel) 3 (mkWorld (fun _ => 7) tt) = (Ok p, w') /\
  Probe.supports p Opcode.Nop = true /\ Probe.supports p Opcode.Readv <> true.
Proof.
  destruct (probe_exact (RS := small_kernel) 3 (mkWorld (fun _ => 7) tt) small_kernel_header small_kernel_ops)
    as (_ & _ & Hp).
  { cbn -[in_u Z.of_nat Z.mul]; fields; split; vm_compute; congruence. }
  { repeat apply Forall_cons_2; [..|apply Forall_nil_2]; cbn -[in_u Z.of_nat Z.mul]; fields;
      split; vm_compute; congruence. }
  { reflexivity. }
  destruct (Hp) as [_ Hok].
  destruct (Hok 0 eq_refl eq_refl) as (p & Hprobe & _ & _ & Hs).
  exists p. eexists. split; [exact Hprobe|]. split.
  - apply Hs. exists (Probe.mkOp 0 0 1 0). split; [constructor|]. done.
  - rewrite Hs. intros (e & He & Hop & Hb).
    repeat (apply elem_of_cons in He as [->|He]); [by vm_compute in Hop| by vm_compute in Hb|].
    by apply elem_of_nil in He.
Defined.
