(* ===== verification/Wrappers.v ===== *)
(** * Plain wrappers (net.rs, eventfd.rs, inotify.rs, fs.rs)

    Owned descriptors: each method makes one system call.  A handle is its raw
    descriptor; dropping a handle closes it, [into_fd] gives it up, and both take
    the handle with them.  References are their addresses, and locals live at
    [local]. *)
From stdpp Require Import base numbers list option.
From Stdlib Require Import ZArith Lia.
From S2P Require Import Prelude Flags Types UserMem Syscall Sqe SqeSpec Resources Owned Register.
Local Open Scope Z_scope.
Local Open Scope rust_scope.

(** ** Flag words (types/eventfd.rs, types/inotify.rs) *)
Module EventFdFlags.
(* src/src/types/eventfd.rs:7-7 EventFdFlags::NONBLOCK *)
Definition NONBLOCK : Z := 2048.
(* src/src/types/eventfd.rs:9-9 EventFdFlags::CLOEXEC *)
Definition CLOEXEC : Z := 524288.
(* src/src/types/eventfd.rs:11-11 EventFdFlags::SEMAPHORE *)
Definition SEMAPHORE : Z := 1.
End EventFdFlags.
Module InotifyInitFlags.
(* src/src/types/inotify.rs:65-65 InotifyInitFlags::NONBLOCK *)
Definition NONBLOCK : Z := 2048.
(* src/src/types/inotify.rs:67-67 InotifyInitFlags::CLOEXEC *)
Definition CLOEXEC : Z := 524288.
End InotifyInitFlags.

(** A `u32` local. *)
Definition u32_repr : Repr Z := {|
  size_of := 4; align_of := 4; to_mem v := pack [4]%nat [v];
  of_mem bs := match unpack [4]%nat bs with [v] => v | _ => 0 end; repr_ok v := in_u 32 v |}.
(** Eight bytes in native order, which is little-endian on every supported target. *)
Definition u64_repr : Repr Z := {|
  size_of := 8; align_of := 1; to_mem v := pack [8]%nat [v];
  of_mem bs := match unpack [8]%nat bs with [v] => v | _ => 0 end; repr_ok v := in_u 64 v |}.
Lemma u32_laws : @ReprLaws Z u32_repr.
Proof. split; [done|]. intros v ?. cbn [to_mem of_mem u32_repr repr_ok] in *. by rewrite unpack_exact by fields. Qed.
Lemma u64_laws : @ReprLaws Z u64_repr.
Proof. split; [done|]. intros v ?. cbn [to_mem of_mem u64_repr repr_ok] in *. by rewrite unpack_exact by fields. Qed.

(** `?` on a raw call, its result decoded by [f]; and a result whose error is
    ignored, as in a `drop`. *)
Definition as_ {K R S} (f : R -> S) (m : M (World K) Errno R) : M (World K) Error S :=
  let! r := try_ m in ret (f r).
Definition ignore {K R} (m : M (World K) Errno R) : M (World K) Error unit := fun w =>
  let '(_, w) := m w in (Ok tt, w).

(** ** Sockets (net.rs) *)
Module Socket.
(* src/src/net.rs:25-28 Socket *)
Record t : Set := mk { fd : Z }.
Section Methods.
  Context {K : Type} {PW : PtrWidth} {A : Arch} {RS : RawSyscall K} {SF : StackFrame}.
  Notation Call R := (M (World K) Error R).
  Implicit Types (self : t) (addr value : Z) (buf : Slice).
(* src/src/net.rs:40-43 Socket::new *)
Definition new (domain sock_type protocol : Z) : Call t :=
  as_ mk (Syscall.socket domain sock_type protocol).
(* src/src/net.rs:56-68 Socket::with_typed_flags *)
Definition with_typed_flags (domain : AddressFamily.t) (sock_type : SocketType.t) (protocol flags : Z)
  : Call t :=
  as_ mk (Syscall.socket (AddressFamily.as_raw domain)
    (SocketType.as_raw sock_type ||| as_i32 flags) protocol).
(* src/src/net.rs:88-92 Socket::from_fd *)
Definition from_fd (fd : Z) : t := mk fd.
(* src/src/net.rs:97-103 Socket::into_fd *)
Definition into_fd self : Z := fd self.
(* src/src/net.rs:110-121 Socket::bind *)
Definition bind_ self addr : Call unit :=
  try_ (Syscall.bind_ (fd self) addr (as_u32 (Z.of_nat (size_of SockAddrIn)))).
(* src/src/net.rs:128-139 Socket::connect *)
Definition connect self addr : Call unit :=
  try_ (Syscall.connect (fd self) addr (as_u32 (Z.of_nat (size_of SockAddrIn)))).
(** Both locals of the calls that report an address: the address, and its length. *)
Definition with_address {R} (f : Z -> Z -> M (World K) Errno R) : Call (R * SockAddrIn) :=
  with_local 0 sockaddr_default (fun addr =>
  with_local (H := u32_repr) 1 (as_u32 (Z.of_nat (size_of SockAddrIn))) (fun len =>
  let! r := try_ (f addr len) in
  let! a := read_local SockAddrIn 0 in
  ret (r, a))).
(* src/src/net.rs:149-163 Socket::accept *)
Definition accept self (flags : Z) : Call (t * SockAddrIn) :=
  let! p := with_address (fun addr len => Syscall.accept4 (fd self) addr len (as_i32 flags)) in
  ret (mk p.1, p.2).
(* src/src/net.rs:170-172 Socket::listen *)
Definition listen self (backlog : Z) : Call unit := try_ (Syscall.listen (fd self) backlog).
(* src/src/net.rs:183-197 Socket::set_option *)
Definition set_option (T : Type) `{Repr T} self (level optname value : Z) : Call unit :=
  try_ (Syscall.setsockopt (fd self) level optname value (as_u32 (Z.of_nat (size_of T)))).
(* src/src/net.rs:204-209 Socket::send *)
Definition send self buf (flags : Z) : Call Z :=
  try_ (Syscall.sendto (fd self) (slice_ptr buf) (slice_len buf) flags).
(* src/src/net.rs:216-221 Socket::recv *)
Definition recv self buf (flags : Z) : Call Z :=
  try_ (Syscall.recvfrom (fd self) (slice_ptr buf) (slice_len buf) flags).
(* src/src/net.rs:228-230 Socket::shutdown *)
Definition shutdown self (how : ShutdownHow.t) : Call unit :=
  try_ (Syscall.shutdown (fd self) (ShutdownHow.raw how)).
(* src/src/net.rs:239-243 Socket::close *)
Definition close self : Call unit := try_ (Syscall.close (fd self)).
(* src/src/net.rs:250-257 Socket::local_addr *)
Definition local_addr self : Call SockAddrIn :=
  let! p := with_address (fun addr len => Syscall.getsockname (fd self) addr len) in ret p.2.
(* src/src/net.rs:261-263 Socket::drop *)
Definition drop self : Call unit := ignore (Syscall.close (fd self)).
End Methods.
End Socket.

(** ** Event counters (eventfd.rs) *)
Module EventFd.
(* src/src/eventfd.rs:47-49 EventFd *)
Record t : Set := mk { fd : Z }.
Section Methods.
  Context {K : Type} {PW : PtrWidth} {A : Arch} {RS : RawSyscall K} {SF : StackFrame}.
  Notation Call R := (M (World K) Error R).
  Implicit Types self : t.
(* src/src/eventfd.rs:71-74 EventFd::with_flags *)
Definition with_flags (initval flags : Z) : Call t := as_ mk (Syscall.eventfd2 initval flags).
(* src/src/eventfd.rs:61-64 EventFd::new *)
Definition new (initval : Z) : Call t := as_ mk (Syscall.eventfd2 initval EventFdFlags.NONBLOCK).
(* src/src/eventfd.rs:88-94 EventFd::into_fd *)
Definition into_fd self : Z := fd self.
(* src/src/eventfd.rs:105-111 EventFd::write *)
Definition write self (value : Z) : Call unit :=
  with_local (H := u64_repr) 0 value (fun buf => done_ (try_ (Syscall.write (fd self) buf 8))).
(* src/src/eventfd.rs:122-128 EventFd::read *)
Definition read self : Call Z :=
  with_local (H := u64_repr) 0 0 (fun buf =>
  do! try_ (Syscall.read (fd self) buf 8) in
  read_local (H := u64_repr) Z 0).
(* src/src/eventfd.rs:137-141 EventFd::close *)
Definition close self : Call unit := try_ (Syscall.close (fd self)).
(* src/src/eventfd.rs:145-147 EventFd::drop *)
Definition drop self : Call unit := ignore (Syscall.close (fd self)).
End Methods.
End EventFd.

(** ** Watches (inotify.rs) *)
Module Inotify.
(* src/src/inotify.rs:41-43 Inotify *)
Record t : Set := mk { fd : Z }.
Section Methods.
  Context {K : Type} {PW : PtrWidth} {A : Arch} {RS : RawSyscall K}.
  Notation Call R := (M (World K) Error R).
  Implicit Types self : t.
(* src/src/inotify.rs:67-70 Inotify::with_flags *)
Definition with_flags (flags : Z) : Call t := as_ mk (Syscall.inotify_init1 flags).
(* src/src/inotify.rs:55-57 Inotify::new *)
Definition new : Call t := with_flags InotifyInitFlags.NONBLOCK.
(* src/src/inotify.rs:84-90 Inotify::into_fd *)
Definition into_fd self : Z := fd self.
(* src/src/inotify.rs:102-109 Inotify::add_watch *)
Definition add_watch self (path mask : Z) : Call Z :=
  as_ as_i32 (Syscall.inotify_add_watch (fd self) path mask).
(* src/src/inotify.rs:117-119 Inotify::remove_watch *)
Definition remove_watch self (wd : Z) : Call unit := try_ (Syscall.inotify_rm_watch (fd self) wd).
(* src/src/inotify.rs:123-125 Inotify::drop *)
Definition drop self : Call unit := ignore (Syscall.close (fd self)).
End Methods.
End Inotify.

(** ** Files (fs.rs) *)
Module File.
(* src/src/fs.rs:22-25 File *)
Record t : Set := mk { fd : Z }.
Section Methods.
  Context {K : Type} {PW : PtrWidth} {A : Arch} {RS : RawSyscall K}.
  Notation Call R := (M (World K) Error R).
  Implicit Types self : t.
(* src/src/fs.rs:35-39 File::from_fd *)
Definition from_fd (fd : Z) : t := mk fd.
(* src/src/fs.rs:53-59 File::into_fd *)
Definition into_fd self : Z := fd self.
(* src/src/fs.rs:68-72 File::close *)
Definition close self : Call unit := try_ (Syscall.close (fd self)).
(* src/src/fs.rs:76-78 File::drop *)
Definition drop self : Call unit := ignore (Syscall.close (fd self)).
End Methods.
End File.

(** ** Theorems *)
Section Exact.
  Context {K : Type} {PW : PtrWidth} {A : Arch} {RS : RawSyscall K} {SF : StackFrame}.
  Notation Call R := (M (World K) Error R).

(** The method makes one system call, which the kernel reads as [c] with the
    memory in a state [pre] allows, and [answer] is what it returns for the
    kernel's result and the memory the kernel left. *)
Definition calls {R} (t : Target) (m : Call R) (pre : UMem -> UMem -> Prop) (c : syscall_request)
  (answer : result Z Errno -> UMem -> result R Error) : Prop :=
  forall w, exists mem nr args, pre (w_mem w) mem /\ read_syscall t nr args = Some c /\
  let '(r, w') := syscall nr args (mkWorld mem (w_kernel w)) in
  m w = (answer (Syscall.check r) (w_mem w'), w').
(** The decoded value, or the kernel's error. *)
Definition reports {R} (f : Z -> R) (r : result Z Errno) (_ : UMem) : result R Error :=
  match r with Ok v => Ok (f v) | Err e => Err (Syscall e) end.
(** The value, and the address the kernel left. *)
Definition reports_address {R} (f : Z -> SockAddrIn -> R) (r : result Z Errno) (m : UMem)
  : result R Error :=
  match r with Ok v => Ok (f v (ptr_read (local 0) m)) | Err e => Err (Syscall e) end.
(** The locals the call is given: an empty address, and room for it. *)
Definition addressed (m m' : UMem) : Prop :=
  ptr_read (local 0) m' = sockaddr_default /\ ptr_read (H := u32_repr) (local 1) m' = 16 /\
  (forall x, ~ (local 0 <= x < local 0 + 16) -> ~ (local 1 <= x < local 1 + 4) -> m' x = m x).
(** The eight bytes the call is given. *)
Definition buffered (v : Z) (m m' : UMem) : Prop :=
  ptr_read (H := u64_repr) (local 0) m' = v /\ only_within (local 0) 8 m m'.

Lemma calls_plain {R S} t (m : M (World K) Errno R) (f : Z -> R) (g : R -> S) c :
  issues t m f c -> calls t (as_ g m) eq c (reports (fun v => g (f v))).
Proof.
  intros (nr & args & Hr & Hm) [mem k]. exists mem, nr, args. split; [done|]. split; [done|].
  specialize (Hm (mkWorld mem k)). unfold as_, try_, bind. cbn [w_kernel].
  destruct (syscall nr args (mkWorld mem k)) as [r w']. rewrite Hm.
  by destruct (Syscall.check r).
Qed.
Lemma calls_try {R} t (m : M (World K) Errno R) (f : Z -> R) c :
  issues t m f c -> calls t (try_ m) eq c (reports f).
Proof.
  intros (nr & args & Hr & Hm) [mem k]. exists mem, nr, args. split; [done|]. split; [done|].
  specialize (Hm (mkWorld mem k)). unfold try_. cbn [w_kernel].
  destruct (syscall nr args (mkWorld mem k)) as [r w']. rewrite Hm.
  by destruct (Syscall.check r).
Qed.
Lemma calls_ignore {R} t (m : M (World K) Errno R) (f : Z -> R) c :
  issues t m f c -> calls t (ignore m) eq c (fun _ _ => Ok tt).
Proof.
  intros (nr & args & Hr & Hm) [mem k]. exists mem, nr, args. split; [done|]. split; [done|].
  specialize (Hm (mkWorld mem k)). unfold ignore. cbn [w_kernel].
  destruct (syscall nr args (mkWorld mem k)) as [r w']. by rewrite Hm.
Qed.
Lemma calls_addressed {R S} t (m : Z -> Z -> M (World K) Errno R) (f : Z -> R) (g : R * SockAddrIn -> S) c :
  apart (local 0) 16 (local 1) 4 -> issues t (m (local 0) (local 1)) f c ->
  calls t (let! p := Socket.with_address m in ret (g p)) addressed c
    (reports_address (fun v a => g (f v, a))).
Proof.
  intros Ha (nr & args & Hr & Hm) [mem k].
  exists (ptr_write (H := u32_repr) (local 1) 16 (ptr_write (local 0) sockaddr_default mem)), nr, args.
  split; [|split; [done|]].
  - split; [|split].
    + rewrite (ptr_read_apart (T := SockAddrIn) (local 0) (local 1) 4 (ptr_write (local 0) sockaddr_default mem)).
      * by apply ptr_read_write.
      * exact (ptr_write_within (H0 := u32_laws) (local 1) 16 _).
      * exact Ha.
    + apply (ptr_read_write (H0 := u32_laws)). split; vm_compute; congruence.
    + intros x H0 H1.
      rewrite (ptr_write_within (H0 := u32_laws) (local 1) 16 _ x) by (cbn; lia).
      rewrite (ptr_write_within (local 0) sockaddr_default mem x) by (cbn; lia). done.
  - unfold Socket.with_address, bind, with_local, try_, read_local, set_world_mem, ret.
    cbn [w_mem w_kernel].
    change (as_u32 (Z.of_nat (size_of SockAddrIn))) with 16.
    specialize (Hm (mkWorld (ptr_write (H := u32_repr) (local 1) 16 (ptr_write (local 0) sockaddr_default mem)) k)).
    destruct (syscall nr args _) as [r w']. rewrite Hm. by destruct (Syscall.check r).
Qed.
(** The counter the kernel left. *)
Definition reports_counter (r : result Z Errno) (m : UMem) : result Z Error :=
  match r with Ok _ => Ok (ptr_read (H := u64_repr) (local 0) m) | Err e => Err (Syscall e) end.
Lemma buffered_write v m : in_u 64 v -> buffered v m (ptr_write (H := u64_repr) (local 0) v m).
Proof.
  intros Hv. split; [by apply (ptr_read_write (H0 := u64_laws))|].
  exact (ptr_write_within (H0 := u64_laws) (local 0) v m).
Qed.
Lemma calls_buffered {R S} t v (m : Z -> M (World K) Errno R) (f : Z -> R) c
  (rest : M (World K) Error S) (answer : UMem -> S) :
  in_u 64 v -> issues t (m (local 0)) f c ->
  (forall w, rest w = (Ok (answer (w_mem w)), w)) ->
  calls t (with_local (H := u64_repr) 0 v (fun buf => do! try_ (m buf) in rest)) (buffered v) c
    (fun r mem => match r with Ok _ => Ok (answer mem) | Err e => Err (Syscall e) end).
Proof.
  intros Hv (nr & args & Hr & Hm) Hrest [mem k].
  exists (ptr_write (H := u64_repr) (local 0) v mem), nr, args.
  split; [by apply buffered_write|]. split; [done|].
  specialize (Hm (mkWorld (ptr_write (H := u64_repr) (local 0) v mem) k)).
  unfold with_local, bind, try_, set_world_mem. cbn [w_mem w_kernel].
  destruct (syscall nr args _) as [r w']. rewrite Hm.
  destruct (Syscall.check r); [by rewrite Hrest|done].
Qed.

Ltac one_call HA :=
  first [ eapply calls_try; issue HA
        | eapply (calls_plain _ _ (fun v => v)); issue HA
        | eapply calls_ignore; issue HA ].

(** On every supported architecture each method of an owned descriptor makes one
    system call, on its own descriptor and with exactly the caller's arguments,
    and reports what the kernel answered.  The calls that report an address are
    given room for one and return what the kernel wrote there; an event counter
    is written and read through eight bytes of its own; dropping a handle closes
    its descriptor and ignores the answer. *)
Theorem handles_exact t fd domain ty proto flags type dom addr backlog level name {T} `{Repr T} val buf
  how value init mask wd path :
  A = numbers t -> 0 <= fd < 2 ^ 31 -> apart (local 0) 16 (local 1) 4 ->
  in_i 32 domain -> in_i 32 ty -> in_i 32 proto -> 0 <= flags < 2 ^ 31 -> in_i 32 backlog ->
  in_i 32 level -> in_i 32 name -> Z.of_nat (size_of T) < 2 ^ 32 -> in_u 64 value -> in_u 32 init ->
  in_u 32 mask -> in_i 32 wd ->
  let unit := reports (fun _ => tt) in
  calls t (Socket.new domain ty proto) eq (SSocket domain ty proto) (reports Socket.mk) /\
  calls t (Socket.with_typed_flags dom type proto flags) eq
    (SSocket (AddressFamily.as_raw dom) (SocketType.as_raw type ||| flags) proto) (reports Socket.mk) /\
  calls t (Socket.bind_ (Socket.mk fd) addr) eq (SBind fd addr 16) unit /\
  calls t (Socket.connect (Socket.mk fd) addr) eq (SConnect fd addr 16) unit /\
  calls t (Socket.listen (Socket.mk fd) backlog) eq (SListen fd backlog) unit /\
  calls t (Socket.accept (Socket.mk fd) flags) addressed
    (SAccept4 fd (local 0) (local 1) flags) (reports_address (fun v a => (Socket.mk v, a))) /\
  calls t (Socket.local_addr (Socket.mk fd)) addressed
    (SGetsockname fd (local 0) (local 1)) (reports_address (fun _ a => a)) /\
  calls t (Socket.set_option T (Socket.mk fd) level name val) eq
    (SSetsockopt fd level name val (Z.of_nat (size_of T))) unit /\
  calls t (Socket.send (Socket.mk fd) buf flags) eq
    (SSendto fd (slice_ptr buf) (slice_len buf) flags 0 0) (reports (fun n => n)) /\
  calls t (Socket.recv (Socket.mk fd) buf flags) eq
    (SRecvfrom fd (slice_ptr buf) (slice_len buf) flags 0 0) (reports (fun n => n)) /\
  calls t (Socket.shutdown (Socket.mk fd) how) eq (SShutdown fd (ShutdownHow.raw how)) unit /\
  calls t (Socket.close (Socket.mk fd)) eq (SClose fd) unit /\
  calls t (Socket.drop (Socket.mk fd)) eq (SClose fd) (fun _ _ => Ok tt) /\
  calls t (EventFd.with_flags init flags) eq (SEventfd2 init flags) (reports EventFd.mk) /\
  calls t (EventFd.new init) eq (SEventfd2 init EventFdFlags.NONBLOCK) (reports EventFd.mk) /\
  calls t (EventFd.write (EventFd.mk fd) value) (buffered value) (SWrite fd (local 0) 8) unit /\
  calls t (EventFd.read (EventFd.mk fd)) (buffered 0) (SRead fd (local 0) 8) reports_counter /\
  calls t (EventFd.close (EventFd.mk fd)) eq (SClose fd) unit /\
  calls t (EventFd.drop (EventFd.mk fd)) eq (SClose fd) (fun _ _ => Ok tt) /\
  calls t (Inotify.with_flags flags) eq (SInotifyInit1 flags) (reports Inotify.mk) /\
  calls t Inotify.new eq (SInotifyInit1 InotifyInitFlags.NONBLOCK) (reports Inotify.mk) /\
  calls t (Inotify.add_watch (Inotify.mk fd) path mask) eq (SInotifyAddWatch fd path mask)
    (reports (fun v => as_i32 v)) /\
  calls t (Inotify.remove_watch (Inotify.mk fd) wd) eq (SInotifyRmWatch fd wd) unit /\
  calls t (Inotify.drop (Inotify.mk fd)) eq (SClose fd) (fun _ _ => Ok tt) /\
  calls t (File.close (File.mk fd)) eq (SClose fd) unit /\
  calls t (File.drop (File.mk fd)) eq (SClose fd) (fun _ _ => Ok tt).
Proof.
  intros HA Hfd Hap Hd Hty Hp Hfl Hb Hl Hn HT Hv Hi Hm Hwd. cbv zeta.
  pose proof (i32_fd flags Hfl) as Hflags.
  assert (in_i 32 flags) as Hfi by (unfold in_i; change (32 - 1) with 31; lia).
  assert (in_u 32 flags) as Hfu by (unfold in_u; lia).
  assert (as_u32 (Z.of_nat (size_of T)) = Z.of_nat (size_of T)) as HsT by (apply wrap_small; unfold in_u; lia).
  assert (in_i 32 (SocketType.as_raw type ||| flags)) as Hlor.
  { destruct (lor_u_bound 31 (SocketType.as_raw type) flags) as [? ?]; [lia|by destruct type|done|].
    unfold in_i. change (32 - 1) with 31. lia. }
  assert (in_i 32 (AddressFamily.as_raw dom)) as Hdom by by destruct dom.
  assert (in_u 32 (ShutdownHow.raw how)) as Hhow by by destruct how.
  unfold Socket.with_typed_flags, Socket.set_option. rewrite ?HsT, ?Hflags.
  assert (in_u 32 (Z.of_nat (size_of T))) as HTu by (unfold in_u; lia).
  split_and!; try one_call HA.
  - unfold Socket.accept. rewrite Hflags.
    apply (calls_addressed t (fun a l => Syscall.accept4 fd a l flags) (fun v => v) (fun p => (Socket.mk p.1, p.2))); [done|].
    issue HA.
  - apply (calls_addressed t (fun a l => Syscall.getsockname fd a l) (fun _ => tt) (fun p => p.2)); [done|].
    issue HA.
  - apply (calls_buffered t value (fun b => Syscall.write fd b 8) (fun v => v) _ (ret tt) (fun _ => tt)); [done| |done].
    issue HA.
  - apply (calls_buffered t 0 (fun b => Syscall.read fd b 8) (fun v => v) _
      (read_local (H := u64_repr) Z 0) (fun m => ptr_read (H := u64_repr) (local 0) m)); [done| |done].
    issue HA.
Qed.
End Exact.

(** ** The event counter *)
Inductive counter_op : Set := Add (v : Z) | Take.
(** eventfd(2): the counter holds at most [2^64 - 2]; a write that would pass it,
    and a read of zero, fail with EAGAIN. *)
Definition counter_step (c : Z) (o : counter_op) : result Z Errno * Z :=
  match o with
  | Add v => if v =? 2 ^ 64 - 1 then (Err 22, c)
             else if c + v <? 2 ^ 64 - 1 then (Ok 0, c + v) else (Err 11, c)
  | Take => if c =? 0 then (Err 11, c) else (Ok c, 0)
  end.
Fixpoint counter_run (c : Z) (ops : list counter_op) : list (result Z Error) * Z :=
  match ops with
  | [] => ([], c)
  | o :: ops => let '(r, c) := counter_step c o in
                let '(rs, c) := counter_run c ops in (map_err from_errno r :: rs, c)
  end.
Definition op_ok (o : counter_op) : Prop := match o with Add v => in_u 64 v | Take => True end.

Section Counter.
  Context {K : Type} {PW : PtrWidth} {A : Arch} {RS : RawSyscall K} {SF : StackFrame}.
  Variable fd : Z.
  Variables (counter : K -> Z) (set_counter : Z -> K -> K).
(** The kernel's side: a write takes the eight bytes it is given, a read stores
    eight. *)
Definition kernel_write (buf : Z) (w : World K) : Z * World K :=
  match counter_step (counter (w_kernel w)) (Add (ptr_read (H := u64_repr) buf (w_mem w))) with
  | (Ok _, c) => (8, mkWorld (w_mem w) (set_counter c (w_kernel w)))
  | (Err e, _) => (- e, w)
  end.
Definition kernel_read (buf : Z) (w : World K) : Z * World K :=
  match counter_step (counter (w_kernel w)) Take with
  | (Ok v, c) => (8, mkWorld (ptr_write (H := u64_repr) buf v (w_mem w)) (set_counter c (w_kernel w)))
  | (Err e, _) => (- e, w)
  end.
Record EventFdKernel : Prop := {
  counter_set c k : counter (set_counter c k) = c;
  write_law buf w : syscall SYS_WRITE [fd; buf; 8] w = kernel_write buf w;
  read_law buf w : syscall SYS_READ [fd; buf; 8] w = kernel_read buf w
}.

Definition apply_op (o : counter_op) : M (World K) Error Z :=
  match o with
  | Add v => do! EventFd.write (EventFd.mk fd) v in ret 0
  | Take => EventFd.read (EventFd.mk fd)
  end.
Fixpoint apply_ops (ops : list counter_op) (w : World K) : list (result Z Error) * World K :=
  match ops with
  | [] => ([], w)
  | o :: ops => let '(r, w) := apply_op o w in
                let '(rs, w) := apply_ops ops w in (r :: rs, w)
  end.

Lemma check_error e : 1 <= e <= 4095 -> Syscall.check (- e) = Err e.
Proof. apply (check_roundtrip (Err e)). Qed.

Lemma apply_op_steps o w :
  EventFdKernel -> op_ok o -> in_u 64 (counter (w_kernel w)) ->
  let '(r, w') := apply_op o w in
  (r, counter (w_kernel w')) =
    (let '(a, c) := counter_step (counter (w_kernel w)) o in (map_err from_errno a, c)).
Proof.
  intros HK Ho Hc. destruct w as [mem k]. cbn [w_kernel] in *.
  assert (forall e, e = 11 \/ e = 22 -> Syscall.check (- e) = Err e) as Hch
    by (intros e He; apply check_error; lia).
  destruct o as [v|]; unfold apply_op.
  - unfold EventFd.write, done_, with_local, bind, try_, set_world_mem, Syscall.write, Syscall.call.
    cbn [w_mem w_kernel EventFd.fd]. rewrite (write_law HK). unfold kernel_write. cbn [w_mem w_kernel].
    rewrite (ptr_read_write (H0 := u64_laws)) by done. cbn [counter_step].
    destruct (v =? 2 ^ 64 - 1); [by rewrite Hch by by right|].
    destruct (counter k + v <? 2 ^ 64 - 1); [cbn -[Z.add]; by rewrite (counter_set HK)|].
    by rewrite Hch by by left.
  - unfold EventFd.read, with_local, bind, try_, set_world_mem, Syscall.read, Syscall.call.
    cbn [w_mem w_kernel EventFd.fd]. rewrite (read_law HK). unfold kernel_read. cbn [w_mem w_kernel].
    cbn [counter_step].
    destruct (Z.eqb_spec (counter k) 0) as [E|E]; [by rewrite Hch by by left|].
    unfold read_local. cbn -[u64_repr Z.eqb].
    rewrite (ptr_read_write (H0 := u64_laws)) by done. by rewrite (counter_set HK).
Qed.

Lemma counter_step_range c o : in_u 64 c -> op_ok o -> in_u 64 (counter_step c o).2.
Proof.
  intros Hc Ho. destruct o as [v|]; cbn.
  - destruct (v =? 2 ^ 64 - 1); [done|]. destruct (Z.ltb_spec (c + v) (2 ^ 64 - 1)); [|done].
    cbn [snd]. unfold op_ok, in_u in *. lia.
  - destruct (c =? 0); [done|]. by split.
Qed.

(** Against a kernel whose event counter behaves as documented, any sequence of
    writes and reads through a handle answers, operation by operation, as the
    counter itself: written values add up, a read takes the whole sum and resets
    it, and a write that would overflow, the reserved value, and a read of zero
    are refused with the kernel's error and change nothing. *)
Theorem eventfd_counts ops w :
  EventFdKernel -> in_u 64 (counter (w_kernel w)) -> Forall op_ok ops ->
  let '(rs, w') := apply_ops ops w in
  (rs, counter (w_kernel w')) = counter_run (counter (w_kernel w)) ops.
Proof.
  intros HK. revert w. induction ops as [|o ops IH]; intros w Hc Ho; [done|].
  inversion_clear Ho as [|? ? H1 H2]. cbn [apply_ops counter_run].
  pose proof (apply_op_steps o w HK H1 Hc) as Hs.
  pose proof (counter_step_range _ o Hc H1) as Hr.
  destruct (apply_op o w) as [r w1], (counter_step (counter (w_kernel w)) o) as [a c].
  injection Hs as -> Hc1. cbn in Hr. specialize (IH w1).
  destruct (apply_ops ops w1) as [rs w2]. rewrite <- Hc1.
  rewrite <- Hc1 in Hr. specialize (IH Hr H2).
  destruct (counter_run (counter (w_kernel w1)) ops) as [rs' c']. by injection IH as -> ->.
Qed.
End Counter.

(** A kernel that is one event counter, on the descriptor 5. *)
Definition counter_kernel : RawSyscall Z := {|
  syscall nr args w :=
    if (nr =? 1) && (nth 0 args 0 =? 5)
    then kernel_write (fun c => c) (fun c _ => c) (nth 1 args 0) w
    else if (nr =? 0) && (nth 0 args 0 =? 5)
    then kernel_read (fun c => c) (fun c _ => c) (nth 1 args 0) w
    else (0, w) |}.
Lemma eventfd_counts_witness :
  let '(rs, w) := apply_ops (RS := counter_kernel) 5 [Add 3; Add 4; Take; Take] (mkWorld (fun _ => 0) 0) in
  (rs, w_kernel w) = ([Ok 0; Ok 0; Ok 7; Err (Syscall 11)], 0).
Proof.
  refine (eventfd_counts (RS := counter_kernel) 5 (fun c => c) (fun c _ => c) [Add 3; Add 4; Take; Take]
    (mkWorld (fun _ => 0) 0) _ _ _).
  - by split.
  - by split.
  - repeat apply Forall_cons_2; first [done | by split | constructor].
Defined.
Lemma handles_exact_witness :
  calls (RS := zero_kernel) X86_64_t (EventFd.write (EventFd.mk 5) 7)
    (buffered 7) (SWrite 5 4096 8) (reports (fun _ => tt)).
Proof.
  refine (proj1 (proj2 (proj2 (proj2 (proj2 (proj2 (proj2 (proj2 (proj2 (proj2 (proj2 (proj2 (proj2 (proj2 (proj2 (proj2 ((handles_exact (RS := zero_kernel) (A := x86_64_numbers)
    X86_64_t 5 2 1 0 0 SocketType.Stream AddressFamily.Inet 0 16 0 0 (T := SockAddrIn) 0 (mkSlice 0 0)
    ShutdownHow.Both 7 0 0 0 0 _ _ _ _ _ _ _ _ _ _ _ _ _ _ _)))))))))))))))))).
  all: first [ by constructor | left; vm_compute; congruence | split; vm_compute; congruence
             | vm_compute; congruence ].
Defined.
