(* ===== verification/OwnedPath.v ===== *)
(** * Owned requests over paths (owned/path.rs and its clients)

    A path is copied or adopted into storage the request owns, so the kernel
    can read it at any time before the completion: unlink, rmdir and mkdir
    (pathop.rs), rename, link and symlink, open, openat2 and statx.
    The definitions that stage a structure also return the memory they wrote. *)
From stdpp Require Import base numbers list option.
From Stdlib Require Import ZArith Lia.
From S2P Require Import Prelude Flags Types UserMem RingIndex Sqe SqeFile SqeNet Resources Owned.
Local Open Scope Z_scope.
Local Open Scope rust_scope.
Set Implicit Arguments.
Set Maximal Implicit Insertion.

(** A completed request that carries nothing but success or failure. *)
Definition unit_result (raw : Z) : result unit Error :=
  match from_failed_cqe raw with Some e => Err e | None => Ok tt end.
(** A descriptor the process now owns: `u32::try_from(result).ok()`. *)
Definition claim_fd (result : Z) : option Z := if 0 <=? result then Some result else None.

(** ** Path storage *)
Module OwnedPath.
(* src/src/owned/path.rs:26-45 PathError *)
Inductive PathError : Set := NotTerminated | Empty | TooLong (needed got : Z).
(* src/src/owned/path.rs:71-76 OwnedPath *)
Record t (S : Type) : Type := mk { storage : S; len : Z }.

Section Ops.
  Context {S : Type} `{StableBuffer S}.
(* src/src/owned/path.rs:89-113 OwnedPath::copy_into *)
Definition copy_into (storage : S) (path : list Z) (m : UMem)
  : result (t S) (S * PathError) * UMem :=
  if (length path =? 0)%nat then (Err (storage, Empty), m)
  else if existsb (Z.eqb 0) path then (Err (storage, NotTerminated), m)
  else
    let needed := Z.of_nat (length path) + 1 in
    let got := stable_len storage in
    if got <? needed then (Err (storage, TooLong needed got), m)
    else
      let base := stable_ptr storage in
      let m := write_bytes base path m in
      let m := write_bytes (base + Z.of_nat (length path)) [0] m in
      (Ok (mk storage (Z.of_nat (length path))), m).
(* src/src/owned/path.rs:126-136 OwnedPath::adopt *)
Definition adopt (storage : S) (m : UMem) : result (t S) (S * PathError) :=
  let len := stable_len storage in
  let bytes := read_bytes (stable_ptr storage) (Z.to_nat len) m in
  match fst <$> list_find (fun b => b = 0) bytes with
  | None => Err (storage, NotTerminated)
  | Some O => Err (storage, Empty)
  | Some n => Ok (mk storage (Z.of_nat n))
  end.
(* src/src/owned/path.rs:151-156 OwnedPath::as_bytes *)
Definition as_bytes (self : t S) (m : UMem) : list Z :=
  read_bytes (stable_ptr (storage self)) (Z.to_nat (len self)) m.
(* src/src/owned/path.rs:159-161 OwnedPath::stable_ptr *)
Definition path_ptr (self : t S) : Z := stable_ptr (storage self).
End Ops.
(* src/src/owned/path.rs:164-167 OwnedPath::into_storage *)
Definition into_storage {S} (self : t S) : S := storage self.
End OwnedPath.
Notation Path := OwnedPath.t.
Notation path_ptr := OwnedPath.path_ptr.

(** ** Unlink, rmdir, mkdir (owned/pathop.rs) *)
Module PathOp.
(* src/src/owned/pathop.rs:59-70 PathOpKind *)
Inductive Kind : Set := Unlink | Rmdir | Mkdir (mode : Z).
(* src/src/owned/pathop.rs:79-88 PathOpKind::sqe *)
Definition kind_sqe (self : Kind) (dir : DirFd.t) (addr : Z) : Sqe :=
  match self with
  | Unlink => FileOps.unlinkat_ptr (DirFd.as_raw dir) addr 0
  | Rmdir => FileOps.unlinkat_ptr (DirFd.as_raw dir) addr UnlinkFlags.REMOVEDIR
  | Mkdir mode => FileOps.mkdirat_ptr (DirFd.as_raw dir) addr mode
  end.
(* src/src/owned/pathop.rs:92-99 PreparedPathOp *)
Record Prepared (S : Type) : Type := mkPrepared {
  p_path : Path S; p_dir : DirFd.t; p_kind : Kind; p_addr : Z
}.
(* src/src/owned/pathop.rs:222-230 PendingPathOp *)
Record Pending (S : Type) : Type := mkPending {
  t_path : Path S; t_ring : RingId; t_id : RequestId; t_dir : DirFd.t; t_kind : Kind; t_addr : Z
}.
(* src/src/owned/pathop.rs:319-324 PathOpCompleted *)
Record Completed (S : Type) : Type := mkCompleted {
  d_path : Path S; d_kind : Kind; d_id : RequestId; d_result : Z
}.
Section Ops.
  Context {S : Type} `{StableBuffer S}.
(* src/src/owned/pathop.rs:108-117 PreparedPathOp::new *)
Definition new (dir : DirFd.t) (path : Path S) (kind : Kind) : Prepared S :=
  mkPrepared path dir kind (path_ptr path).
(* src/src/owned/pathop.rs:123-126 PreparedPathOp::unlink_at *)
Definition unlink_at (dir : DirFd.t) (path : Path S) : Prepared S := new dir path Unlink.
(* src/src/owned/pathop.rs:129-132 PreparedPathOp::unlink_cwd *)
Definition unlink_cwd (path : Path S) : Prepared S := unlink_at DirFd.Cwd path.
(* src/src/owned/pathop.rs:138-141 PreparedPathOp::rmdir_at *)
Definition rmdir_at (dir : DirFd.t) (path : Path S) : Prepared S := new dir path Rmdir.
(* src/src/owned/pathop.rs:144-147 PreparedPathOp::rmdir_cwd *)
Definition rmdir_cwd (path : Path S) : Prepared S := rmdir_at DirFd.Cwd path.
(* src/src/owned/pathop.rs:153-156 PreparedPathOp::mkdir_at *)
Definition mkdir_at (dir : DirFd.t) (path : Path S) (mode : Z) : Prepared S :=
  new dir path (Mkdir mode).
(* src/src/owned/pathop.rs:159-162 PreparedPathOp::mkdir_cwd *)
Definition mkdir_cwd (path : Path S) (mode : Z) : Prepared S := mkdir_at DirFd.Cwd path mode.
End Ops.
Section Moves.
  Context {S : Type}.
(* src/src/owned/pathop.rs:189-206 PreparedPathOp::into_pending *)
Definition into_pending (ring : RingId) (id : RequestId) (self : Prepared S) : Sqe * Pending S :=
  let sqe := kind_sqe (p_kind self) (p_dir self) (p_addr self) in
  (Modifiers.with_user_data sqe id,
   mkPending (p_path self) ring id (p_dir self) (p_kind self) (p_addr self)).
(* src/src/owned/pathop.rs:257-260 PendingPathOp::matches *)
Definition matches (self : Pending S) (receipt : Receipt) : bool :=
  belongs_to receipt (t_ring self) (t_id self).
(* src/src/owned/pathop.rs:268-280 PendingPathOp::reclaim_unsubmitted *)
Definition reclaim_unsubmitted (self : Pending S) : Prepared S :=
  mkPrepared (t_path self) (t_dir self) (t_kind self) (t_addr self).
(* src/src/owned/pathop.rs:292-307 PendingPathOp::redeem *)
Definition redeem (self : Pending S) (receipt : Receipt)
  : result (Completed S) (Pending S * Receipt) :=
  if negb (matches self receipt) then Err (self, receipt)
  else Ok (mkCompleted (t_path self) (t_kind self) (t_id self) (rc_result receipt)).
(* src/src/owned/pathop.rs:360-365 PathOpCompleted::result *)
Definition completed_result (self : Completed S) : result unit Error := unit_result (d_result self).
End Moves.
(* src/src/owned/pathop.rs:183-186 PreparedPathOp::into_path *)
Definition prepared_into_path {S} (self : Prepared S) : Path S := p_path self.
(* src/src/owned/pathop.rs:349-352 PathOpCompleted::is_ok *)
Definition is_ok {S} (self : Completed S) : bool := cqe_is_ok (d_result self).
(* src/src/owned/pathop.rs:374-377 PathOpCompleted::into_path *)
Definition into_path {S} (self : Completed S) : Path S := d_path self.
End PathOp.

(** ** Rename (owned/rename.rs) *)
Module Rename.
(* src/src/owned/rename.rs:66-85 RenameMode *)
Inductive Mode : Set := Replace | NoReplace | Exchange.
(* src/src/owned/rename.rs:89-95 RenameMode::flags *)
Definition mode_flags (self : Mode) : Z :=
  match self with
  | Replace => 0
  | NoReplace => RenameFlags.NOREPLACE
  | Exchange => RenameFlags.EXCHANGE
  end.
(* src/src/owned/rename.rs:99-109 PreparedRename *)
Record Prepared (F T : Type) : Type := mkPrepared {
  p_from : Path F; p_to : Path T; p_from_dir : DirFd.t; p_to_dir : DirFd.t; p_mode : Mode;
  p_from_addr : Z; p_to_addr : Z
}.
(* src/src/owned/rename.rs:228-239 PendingRename *)
Record Pending (F T : Type) : Type := mkPending {
  t_from : Path F; t_to : Path T; t_ring : RingId; t_id : RequestId; t_from_dir : DirFd.t;
  t_to_dir : DirFd.t; t_mode : Mode; t_from_addr : Z; t_to_addr : Z
}.
(* src/src/owned/rename.rs:343-349 RenameCompleted *)
Record Completed (F T : Type) : Type := mkCompleted {
  d_from : Path F; d_to : Path T; d_mode : Mode; d_id : RequestId; d_result : Z
}.
Section Ops.
  Context {F T : Type} `{StableBuffer F} `{StableBuffer T}.
(* src/src/owned/rename.rs:122-141 PreparedRename::new *)
Definition new (from_dir : DirFd.t) (from : Path F) (to_dir : DirFd.t) (to : Path T) (mode : Mode)
  : Prepared F T := mkPrepared from to from_dir to_dir mode (path_ptr from) (path_ptr to).
(* src/src/owned/rename.rs:144-147 PreparedRename::cwd *)
Definition cwd (from : Path F) (to : Path T) (mode : Mode) : Prepared F T :=
  new DirFd.Cwd from DirFd.Cwd to mode.
End Ops.
Section Moves.
  Context {F T : Type}.
(* src/src/owned/rename.rs:186-214 PreparedRename::into_pending *)
Definition into_pending (ring : RingId) (id : RequestId) (self : Prepared F T)
  : Sqe * Pending F T :=
  let sqe := FileOps.renameat_ptr (DirFd.as_raw (p_from_dir self)) (p_from_addr self)
               (DirFd.as_raw (p_to_dir self)) (p_to_addr self) (mode_flags (p_mode self)) in
  (Modifiers.with_user_data sqe id,
   mkPending (p_from self) (p_to self) ring id (p_from_dir self) (p_to_dir self) (p_mode self)
     (p_from_addr self) (p_to_addr self)).
(* src/src/owned/rename.rs:266-269 PendingRename::matches *)
Definition matches (self : Pending F T) (receipt : Receipt) : bool :=
  belongs_to receipt (t_ring self) (t_id self).
(* src/src/owned/rename.rs:278-298 PendingRename::reclaim_unsubmitted *)
Definition reclaim_unsubmitted (self : Pending F T) : Prepared F T :=
  mkPrepared (t_from self) (t_to self) (t_from_dir self) (t_to_dir self) (t_mode self)
    (t_from_addr self) (t_to_addr self).
(* src/src/owned/rename.rs:310-331 PendingRename::redeem *)
Definition redeem (self : Pending F T) (receipt : Receipt)
  : result (Completed F T) (Pending F T * Receipt) :=
  if negb (matches self receipt) then Err (self, receipt)
  else Ok (mkCompleted (t_from self) (t_to self) (t_mode self) (t_id self) (rc_result receipt)).
(* src/src/owned/rename.rs:389-394 RenameCompleted::result *)
Definition completed_result (self : Completed F T) : result unit Error := unit_result (d_result self).
End Moves.
(* src/src/owned/rename.rs:180-183 PreparedRename::into_paths *)
Definition prepared_into_paths {F T} (self : Prepared F T) : Path F * Path T := (p_from self, p_to self).
(* src/src/owned/rename.rs:374-377 RenameCompleted::is_ok *)
Definition is_ok {F T} (self : Completed F T) : bool := cqe_is_ok (d_result self).
(* src/src/owned/rename.rs:409-412 RenameCompleted::into_paths *)
Definition into_paths {F T} (self : Completed F T) : Path F * Path T := (d_from self, d_to self).
End Rename.

(** ** Link and symlink (owned/link.rs) *)
Module Link.
(* src/src/owned/link.rs:51-68 LinkKind *)
Inductive Kind : Set :=
| Symlink (new_dir : DirFd.t)
| Link (old_dir new_dir : DirFd.t) (flags : Z).
(* src/src/owned/link.rs:78-98 LinkKind::sqe *)
Definition kind_sqe (self : Kind) (old_addr new_addr : Z) : Sqe :=
  match self with
  | Symlink new_dir => FileOps.symlinkat_ptr old_addr (DirFd.as_raw new_dir) new_addr
  | Link old_dir new_dir flags =>
      FileOps.linkat_ptr (DirFd.as_raw old_dir) old_addr (DirFd.as_raw new_dir) new_addr flags
  end.
(* src/src/owned/link.rs:102-110 PreparedLink *)
Record Prepared (F T : Type) : Type := mkPrepared {
  p_old : Path F; p_new : Path T; p_kind : Kind; p_old_addr : Z; p_new_addr : Z
}.
(* src/src/owned/link.rs:229-238 PendingLink *)
Record Pending (F T : Type) : Type := mkPending {
  t_old : Path F; t_new : Path T; t_ring : RingId; t_id : RequestId; t_kind : Kind;
  t_old_addr : Z; t_new_addr : Z
}.
(* src/src/owned/link.rs:340-346 LinkCompleted *)
Record Completed (F T : Type) : Type := mkCompleted {
  d_old : Path F; d_new : Path T; d_kind : Kind; d_id : RequestId; d_result : Z
}.
Section Ops.
  Context {F T : Type} `{StableBuffer F} `{StableBuffer T}.
(* src/src/owned/link.rs:119-130 PreparedLink::new *)
Definition new (old : Path F) (new : Path T) (kind : Kind) : Prepared F T :=
  mkPrepared old new kind (path_ptr old) (path_ptr new).
(* src/src/owned/link.rs:134-137 PreparedLink::symlink_at *)
Definition symlink_at (old : Path F) (new_dir : DirFd.t) (dest : Path T) : Prepared F T :=
  new old dest (Symlink new_dir).
(* src/src/owned/link.rs:141-144 PreparedLink::symlink_cwd *)
Definition symlink_cwd (old : Path F) (dest : Path T) : Prepared F T :=
  symlink_at old DirFd.Cwd dest.
(* src/src/owned/link.rs:148-165 PreparedLink::link_at *)
Definition link_at (old_dir : DirFd.t) (old : Path F) (new_dir : DirFd.t) (dest : Path T)
  (flags : Z) : Prepared F T := new old dest (Link old_dir new_dir flags).
(* src/src/owned/link.rs:168-171 PreparedLink::link_cwd *)
Definition link_cwd (old : Path F) (dest : Path T) (flags : Z) : Prepared F T :=
  link_at DirFd.Cwd old DirFd.Cwd dest flags.
End Ops.
Section Moves.
  Context {F T : Type}.
(* src/src/owned/link.rs:198-216 PreparedLink::into_pending *)
Definition into_pending (ring : RingId) (id : RequestId) (self : Prepared F T)
  : Sqe * Pending F T :=
  let sqe := kind_sqe (p_kind self) (p_old_addr self) (p_new_addr self) in
  (Modifiers.with_user_data sqe id,
   mkPending (p_old self) (p_new self) ring id (p_kind self) (p_old_addr self) (p_new_addr self)).
(* src/src/owned/link.rs:265-268 PendingLink::matches *)
Definition matches (self : Pending F T) (receipt : Receipt) : bool :=
  belongs_to receipt (t_ring self) (t_id self).
(* src/src/owned/link.rs:277-295 PendingLink::reclaim_unsubmitted *)
Definition reclaim_unsubmitted (self : Pending F T) : Prepared F T :=
  mkPrepared (t_old self) (t_new self) (t_kind self) (t_old_addr self) (t_new_addr self).
(* src/src/owned/link.rs:307-328 PendingLink::redeem *)
Definition redeem (self : Pending F T) (receipt : Receipt)
  : result (Completed F T) (Pending F T * Receipt) :=
  if negb (matches self receipt) then Err (self, receipt)
  else Ok (mkCompleted (t_old self) (t_new self) (t_kind self) (t_id self) (rc_result receipt)).
(* src/src/owned/link.rs:379-384 LinkCompleted::result *)
Definition completed_result (self : Completed F T) : result unit Error := unit_result (d_result self).
End Moves.
(* src/src/owned/link.rs:192-195 PreparedLink::into_paths *)
Definition prepared_into_paths {F T} (self : Prepared F T) : Path F * Path T := (p_old self, p_new self).
(* src/src/owned/link.rs:368-371 LinkCompleted::is_ok *)
Definition is_ok {F T} (self : Completed F T) : bool := cqe_is_ok (d_result self).
(* src/src/owned/link.rs:399-402 LinkCompleted::into_paths *)
Definition into_paths {F T} (self : Completed F T) : Path F * Path T := (d_old self, d_new self).
End Link.

(** ** Open (owned/open.rs) *)
Module Open.
(* src/src/owned/open.rs:36-44 PreparedOpen *)
Record Prepared (S : Type) : Type := mkPrepared {
  p_path : Path S; p_dir : DirFd.t; p_flags : Z; p_mode : Z; p_addr : Z
}.
(* src/src/owned/open.rs:141-149 PendingOpen *)
Record Pending (S : Type) : Type := mkPending {
  t_path : Path S; t_ring : RingId; t_id : RequestId; t_dir : DirFd.t; t_flags : Z; t_mode : Z;
  t_addr : Z
}.
(** A `File` is the descriptor it owns. *)
(* src/src/owned/open.rs:252-257 Opened *)
Record Opened (S : Type) : Type := mkOpened {
  d_path : Path S; d_file : option Z; d_id : RequestId; d_result : Z
}.
Section Ops.
  Context {S : Type} `{StableBuffer S}.
(* src/src/owned/open.rs:56-66 PreparedOpen::at *)
Definition at_ (dir : DirFd.t) (path : Path S) (flags mode : Z) : Prepared S :=
  mkPrepared path dir flags mode (path_ptr path).
(* src/src/owned/open.rs:69-72 PreparedOpen::cwd *)
Definition cwd (path : Path S) (flags mode : Z) : Prepared S := at_ DirFd.Cwd path flags mode.
End Ops.
Section Moves.
  Context {S : Type}.
(* src/src/owned/open.rs:105-123 PreparedOpen::into_pending *)
Definition into_pending (ring : RingId) (id : RequestId) (self : Prepared S) : Sqe * Pending S :=
  let sqe := FileOps.openat_ptr (DirFd.as_raw (p_dir self)) (p_addr self) (p_flags self)
               (p_mode self) in
  (Modifiers.with_user_data sqe id,
   mkPending (p_path self) ring id (p_dir self) (p_flags self) (p_mode self) (p_addr self)).
(* src/src/owned/open.rs:176-179 PendingOpen::matches *)
Definition matches (self : Pending S) (receipt : Receipt) : bool :=
  belongs_to receipt (t_ring self) (t_id self).
(* src/src/owned/open.rs:187-200 PendingOpen::reclaim_unsubmitted *)
Definition reclaim_unsubmitted (self : Pending S) : Prepared S :=
  mkPrepared (t_path self) (t_dir self) (t_flags self) (t_mode self) (t_addr self).
(* src/src/owned/open.rs:231-237 PendingOpen::claim *)
Definition claim (result : Z) : option Z := claim_fd result.
(* src/src/owned/open.rs:212-228 PendingOpen::redeem *)
Definition redeem (self : Pending S) (receipt : Receipt)
  : result (Opened S) (Pending S * Receipt) :=
  if negb (matches self receipt) then Err (self, receipt)
  else
    let result := rc_result receipt in
    Ok (mkOpened (t_path self) (claim result) (t_id self) result).
(* src/src/owned/open.rs:284-289 Opened::result *)
Definition completed_result (self : Opened S) : result unit Error := unit_result (d_result self).
End Moves.
(* src/src/owned/open.rs:99-102 PreparedOpen::into_path *)
Definition prepared_into_path {S} (self : Prepared S) : Path S := p_path self.
(* src/src/owned/open.rs:273-276 Opened::is_ok *)
Definition is_ok {S} (self : Opened S) : bool := cqe_is_ok (d_result self).
(* src/src/owned/open.rs:307-310 Opened::into_file *)
Definition into_file {S} (self : Opened S) : option Z := d_file self.
(* src/src/owned/open.rs:318-321 Opened::into_parts *)
Definition into_parts {S} (self : Opened S) : option Z * Path S := (d_file self, d_path self).
End Open.

(** ** openat2 (owned/openat2.rs) *)
Module Openat2.
(* src/src/owned/openat2.rs:66-66 MODE_BITS *)
Definition MODE_BITS : Z := 4095.
(* src/src/owned/openat2.rs:75-85 Openat2Mode *)
Inductive Mode : Set := Existing | Create (mode : Z) | CreateNew (mode : Z) | Tmpfile (mode : Z).
(* src/src/owned/openat2.rs:89-96 Openat2Mode::flags *)
Definition mode_flags (self : Mode) : Z :=
  match self with
  | Existing => empty_flags
  | Create _ => OpenFlags.CREAT
  | CreateNew _ => union_const OpenFlags.CREAT OpenFlags.EXCL
  | Tmpfile _ => OpenFlags.TMPFILE
  end.
(* src/src/owned/openat2.rs:99-104 Openat2Mode::mode *)
Definition mode_bits (self : Mode) : Z :=
  match self with Existing => 0 | Create mode | CreateNew mode | Tmpfile mode => mode end.
(* src/src/owned/openat2.rs:111-140 Openat2Error *)
Inductive Openat2Error : Set :=
| HowTooSmall (needed got : Z)
| HowMisaligned (needed : Z)
| ModeOutsidePermissionBits (stray : Z).
(* src/src/owned/openat2.rs:163-176 PreparedOpenat2 *)
Record Prepared (S H : Type) : Type := mkPrepared {
  p_path : Path S; p_how_store : H; p_dir : DirFd.t; p_flags : Z; p_mode : Mode; p_resolve : Z;
  p_path_addr : Z; p_how_addr : Z
}.
(* src/src/owned/openat2.rs:387-399 PendingOpenat2 *)
Record Pending (S H : Type) : Type := mkPending {
  t_path : Path S; t_how_store : H; t_ring : RingId; t_id : RequestId; t_dir : DirFd.t;
  t_flags : Z; t_mode : Mode; t_resolve : Z; t_path_addr : Z; t_how_addr : Z
}.
(* src/src/owned/openat2.rs:522-528 Opened2 *)
Record Opened2 (S H : Type) : Type := mkOpened2 {
  d_path : Path S; d_how_store : H; d_file : option Z; d_id : RequestId; d_result : Z
}.
(* src/src/owned/openat2.rs:368-369 PreparedOpenat2::HOW_SIZE *)
Definition HOW_SIZE : Z := as_u32 (Z.of_nat (size_of OpenHow)).
Section Moves.
  Context {S H : Type}.
(** What `publish_how` writes. *)
Definition how_of (self : Prepared S H) : OpenHow :=
  mkOpenHow (p_flags self ||| mode_flags (p_mode self)) (mode_bits (p_mode self)) (p_resolve self).
(* src/src/owned/openat2.rs:267-278 PreparedOpenat2::publish_how *)
Definition publish_how (self : Prepared S H) (m : UMem) : UMem :=
  ptr_write (p_how_addr self) (how_of self) m.
(* src/src/owned/openat2.rs:308-314 PreparedOpenat2::published_how *)
Definition published_how (self : Prepared S H) (m : UMem) : OpenHow :=
  ptr_read (p_how_addr self) m.
(* src/src/owned/openat2.rs:329-361 PreparedOpenat2::into_pending *)
Definition into_pending (ring : RingId) (id : RequestId) (self : Prepared S H)
  : Sqe * Pending S H :=
  let sqe := FileOps.openat2_ptr (DirFd.as_raw (p_dir self)) (p_path_addr self) (p_how_addr self)
               HOW_SIZE in
  (Modifiers.with_user_data sqe id,
   mkPending (p_path self) (p_how_store self) ring id (p_dir self) (p_flags self) (p_mode self)
     (p_resolve self) (p_path_addr self) (p_how_addr self)).
(* src/src/owned/openat2.rs:432-435 PendingOpenat2::matches *)
Definition matches (self : Pending S H) (receipt : Receipt) : bool :=
  belongs_to receipt (t_ring self) (t_id self).
(* src/src/owned/openat2.rs:443-464 PendingOpenat2::reclaim_unsubmitted *)
Definition reclaim_unsubmitted (self : Pending S H) : Prepared S H :=
  mkPrepared (t_path self) (t_how_store self) (t_dir self) (t_flags self) (t_mode self)
    (t_resolve self) (t_path_addr self) (t_how_addr self).
(* src/src/owned/openat2.rs:501-507 PendingOpenat2::claim *)
Definition claim (result : Z) : option Z := claim_fd result.
(* src/src/owned/openat2.rs:476-498 PendingOpenat2::redeem *)
Definition redeem (self : Pending S H) (receipt : Receipt)
  : result (Opened2 S H) (Pending S H * Receipt) :=
  if negb (matches self receipt) then Err (self, receipt)
  else
    let result := rc_result receipt in
    Ok (mkOpened2 (t_path self) (t_how_store self) (claim result) (t_id self) result).
(* src/src/owned/openat2.rs:555-560 Opened2::result *)
Definition completed_result (self : Opened2 S H) : result unit Error :=
  unit_result (d_result self).
End Moves.
Section Ops.
  Context {S H : Type} `{StableBuffer S} `{StableBuffer H}.
(* src/src/owned/openat2.rs:195-243 PreparedOpenat2::at *)
Definition at_ (dir : DirFd.t) (path : Path S) (flags : Z) (mode : Mode) (resolve : Z)
  (how_store : H) (m : UMem) : result (Prepared S H) (Path S * H * Openat2Error) * UMem :=
  let stray := mode_bits mode &&& not_flags 32 MODE_BITS in
  if negb (stray =? 0) then (Err (path, how_store, ModeOutsidePermissionBits stray), m)
  else
    let needed := Z.of_nat (size_of OpenHow) in
    let got := stable_len how_store in
    if got <? needed then (Err (path, how_store, HowTooSmall needed got), m)
    else
      let base := stable_ptr how_store in
      let align := align_of OpenHow in
      if negb (is_multiple_of base align) then (Err (path, how_store, HowMisaligned align), m)
      else
        let prepared := mkPrepared path how_store dir flags mode resolve (path_ptr path) base in
        (Ok prepared, publish_how prepared m).
(* src/src/owned/openat2.rs:250-258 PreparedOpenat2::cwd *)
Definition cwd (path : Path S) (flags : Z) (mode : Mode) (resolve : Z) (how_store : H) (m : UMem)
  : result (Prepared S H) (Path S * H * Openat2Error) * UMem :=
  at_ DirFd.Cwd path flags mode resolve how_store m.
End Ops.
(* src/src/owned/openat2.rs:323-326 PreparedOpenat2::into_parts *)
Definition prepared_into_parts {S H} (self : Prepared S H) : Path S * H := (p_path self, p_how_store self).
(* src/src/owned/openat2.rs:544-547 Opened2::is_ok *)
Definition is_ok {S H} (self : Opened2 S H) : bool := cqe_is_ok (d_result self).
(* src/src/owned/openat2.rs:578-581 Opened2::into_file *)
Definition into_file {S H} (self : Opened2 S H) : option Z := d_file self.
(* src/src/owned/openat2.rs:589-592 Opened2::into_parts *)
Definition into_parts {S H} (self : Opened2 S H) : option Z * Path S * H :=
  (d_file self, d_path self, d_how_store self).
End Openat2.

(** ** statx (owned/statx.rs) *)
Module StatxOp.
(* src/src/owned/statx.rs:53-53 STATX_RESERVED *)
Definition STATX_RESERVED : Z := 2147483648.
(* src/src/owned/statx.rs:59-84 StatxError *)
Inductive StatxError : Set :=
| DestTooSmall (needed got : Z)
| DestMisaligned (needed : Z)
| ReservedMaskBit.
(* src/src/owned/statx.rs:105-116 PreparedStatx *)
Record Prepared (S D : Type) : Type := mkPrepared {
  p_path : Path S; p_dest : D; p_dir : DirFd.t; p_flags : Z; p_mask : Z; p_path_addr : Z;
  p_dest_addr : Z
}.
(* src/src/owned/statx.rs:264-274 PendingStatx *)
Record Pending (S D : Type) : Type := mkPending {
  t_path : Path S; t_dest : D; t_ring : RingId; t_id : RequestId; t_dir : DirFd.t; t_flags : Z;
  t_mask : Z; t_path_addr : Z; t_dest_addr : Z
}.
(* src/src/owned/statx.rs:372-378 StatxCompleted *)
Record Completed (S D : Type) : Type := mkCompleted {
  d_path : Path S; d_dest : D; d_id : RequestId; d_result : Z; d_dest_addr : Z
}.
Section Ops.
  Context {S D : Type} `{StableBuffer S} `{StableBuffer D}.
(* src/src/owned/statx.rs:134-169 PreparedStatx::at *)
Definition at_ (dir : DirFd.t) (path : Path S) (flags mask : Z) (dest : D)
  : result (Prepared S D) (Path S * D * StatxError) :=
  if negb (mask &&& STATX_RESERVED =? 0) then Err (path, dest, ReservedMaskBit)
  else
    let needed := Z.of_nat (size_of Statx) in
    let got := stable_len dest in
    if got <? needed then Err (path, dest, DestTooSmall needed got)
    else
      let base := stable_ptr dest in
      let align := align_of Statx in
      if negb (is_multiple_of base align) then Err (path, dest, DestMisaligned align)
      else Ok (mkPrepared path dest dir flags mask (path_ptr path) base).
(* src/src/owned/statx.rs:176-183 PreparedStatx::cwd *)
Definition cwd (path : Path S) (flags mask : Z) (dest : D)
  : result (Prepared S D) (Path S * D * StatxError) := at_ DirFd.Cwd path flags mask dest.
End Ops.
Section Moves.
  Context {S D : Type}.
(* src/src/owned/statx.rs:221-250 PreparedStatx::into_pending *)
Definition into_pending (ring : RingId) (id : RequestId) (self : Prepared S D)
  : Sqe * Pending S D :=
  let sqe := FileOps.statx_ptr (DirFd.as_raw (p_dir self)) (p_path_addr self) (p_flags self)
               (p_mask self) (p_dest_addr self) in
  (Modifiers.with_user_data sqe id,
   mkPending (p_path self) (p_dest self) ring id (p_dir self) (p_flags self) (p_mask self)
     (p_path_addr self) (p_dest_addr self)).
(* src/src/owned/statx.rs:295-298 PendingStatx::matches *)
Definition matches (self : Pending S D) (receipt : Receipt) : bool :=
  belongs_to receipt (t_ring self) (t_id self).
(* src/src/owned/statx.rs:306-326 PendingStatx::reclaim_unsubmitted *)
Definition reclaim_unsubmitted (self : Pending S D) : Prepared S D :=
  mkPrepared (t_path self) (t_dest self) (t_dir self) (t_flags self) (t_mask self)
    (t_path_addr self) (t_dest_addr self).
(* src/src/owned/statx.rs:338-360 PendingStatx::redeem *)
Definition redeem (self : Pending S D) (receipt : Receipt)
  : result (Completed S D) (Pending S D * Receipt) :=
  if negb (matches self receipt) then Err (self, receipt)
  else Ok (mkCompleted (t_path self) (t_dest self) (t_id self) (rc_result receipt)
             (t_dest_addr self)).
(* src/src/owned/statx.rs:405-410 StatxCompleted::result *)
Definition completed_result (self : Completed S D) : result unit Error :=
  unit_result (d_result self).
(* src/src/owned/statx.rs:421-430 StatxCompleted::stat *)
Definition stat (self : Completed S D) (m : UMem) : option Statx :=
  if d_result self <? 0 then None else Some (ptr_read (d_dest_addr self) m).
End Moves.
(* src/src/owned/statx.rs:215-218 PreparedStatx::into_parts *)
Definition prepared_into_parts {S D} (self : Prepared S D) : Path S * D := (p_path self, p_dest self).
(* src/src/owned/statx.rs:394-397 StatxCompleted::is_ok *)
Definition is_ok {S D} (self : Completed S D) : bool := cqe_is_ok (d_result self).
(* src/src/owned/statx.rs:442-445 StatxCompleted::into_parts *)
Definition into_parts {S D} (self : Completed S D) : Path S * D := (d_path self, d_dest self).
End StatxOp.

(** ** The interface the queue needs *)
#[export] Instance pathop_owned S : OwnedRequest (PathOp.Prepared S) (PathOp.Pending S) := {
  into_pending := PathOp.into_pending;
  give_back p t := PathOp.reclaim_unsubmitted t;
  ticket_ring := PathOp.t_ring;
  ticket_id := PathOp.t_id
}.
#[export] Instance pathop_custody S : Custody (PathOp.Prepared S) (PathOp.Pending S) (PathOp.Completed S) (Path S) := {
  redeem_with := PathOp.redeem;
  deposit p := PathOp.p_path p;
  held t := PathOp.t_path t;
  withdraw d := PathOp.d_path d;
  reported := PathOp.d_result
}.
#[export] Instance pathop_laws S : OwnedRequestLaws (PathOp.Prepared S) (PathOp.Pending S).
Proof. owned_laws. Qed.
#[export] Instance pathop_custody_laws S : CustodyLaws (PathOp.Prepared S) (PathOp.Pending S) (PathOp.Completed S) (Path S).
Proof. custody_laws PathOp.redeem PathOp.matches. Qed.

#[export] Instance rename_owned F T : OwnedRequest (Rename.Prepared F T) (Rename.Pending F T) := {
  into_pending := Rename.into_pending;
  give_back p t := Rename.reclaim_unsubmitted t;
  ticket_ring := Rename.t_ring;
  ticket_id := Rename.t_id
}.
#[export] Instance rename_custody F T : Custody (Rename.Prepared F T) (Rename.Pending F T) (Rename.Completed F T) (Path F * Path T) := {
  redeem_with := Rename.redeem;
  deposit p := (Rename.p_from p, Rename.p_to p);
  held t := (Rename.t_from t, Rename.t_to t);
  withdraw d := (Rename.d_from d, Rename.d_to d);
  reported := Rename.d_result
}.
#[export] Instance rename_laws F T : OwnedRequestLaws (Rename.Prepared F T) (Rename.Pending F T).
Proof. owned_laws. Qed.
#[export] Instance rename_custody_laws F T : CustodyLaws (Rename.Prepared F T) (Rename.Pending F T) (Rename.Completed F T) (Path F * Path T).
Proof. custody_laws Rename.redeem Rename.matches. Qed.

#[export] Instance link_owned F T : OwnedRequest (Link.Prepared F T) (Link.Pending F T) := {
  into_pending := Link.into_pending;
  give_back p t := Link.reclaim_unsubmitted t;
  ticket_ring := Link.t_ring;
  ticket_id := Link.t_id
}.
#[export] Instance link_custody F T : Custody (Link.Prepared F T) (Link.Pending F T) (Link.Completed F T) (Path F * Path T) := {
  redeem_with := Link.redeem;
  deposit p := (Link.p_old p, Link.p_new p);
  held t := (Link.t_old t, Link.t_new t);
  withdraw d := (Link.d_old d, Link.d_new d);
  reported := Link.d_result
}.
#[export] Instance link_laws F T : OwnedRequestLaws (Link.Prepared F T) (Link.Pending F T).
Proof. owned_laws. Qed.
#[export] Instance link_custody_laws F T : CustodyLaws (Link.Prepared F T) (Link.Pending F T) (Link.Completed F T) (Path F * Path T).
Proof. custody_laws Link.redeem Link.matches. Qed.

#[export] Instance open_owned S : OwnedRequest (Open.Prepared S) (Open.Pending S) := {
  into_pending := Open.into_pending;
  give_back p t := Open.reclaim_unsubmitted t;
  ticket_ring := Open.t_ring;
  ticket_id := Open.t_id
}.
#[export] Instance open_custody S : Custody (Open.Prepared S) (Open.Pending S) (Open.Opened S) (Path S) := {
  redeem_with := Open.redeem;
  deposit p := Open.p_path p;
  held t := Open.t_path t;
  withdraw d := Open.d_path d;
  reported := Open.d_result
}.
#[export] Instance open_laws S : OwnedRequestLaws (Open.Prepared S) (Open.Pending S).
Proof. owned_laws. Qed.
#[export] Instance open_custody_laws S : CustodyLaws (Open.Prepared S) (Open.Pending S) (Open.Opened S) (Path S).
Proof. custody_laws Open.redeem Open.matches. Qed.

#[export] Instance openat2_owned S H : OwnedRequest (Openat2.Prepared S H) (Openat2.Pending S H) := {
  into_pending := Openat2.into_pending;
  give_back p t := Openat2.reclaim_unsubmitted t;
  ticket_ring := Openat2.t_ring;
  ticket_id := Openat2.t_id
}.
#[export] Instance openat2_custody S H : Custody (Openat2.Prepared S H) (Openat2.Pending S H) (Openat2.Opened2 S H) (Path S * H) := {
  redeem_with := Openat2.redeem;
  deposit p := (Openat2.p_path p, Openat2.p_how_store p);
  held t := (Openat2.t_path t, Openat2.t_how_store t);
  withdraw d := (Openat2.d_path d, Openat2.d_how_store d);
  reported := Openat2.d_result
}.
#[export] Instance openat2_laws S H : OwnedRequestLaws (Openat2.Prepared S H) (Openat2.Pending S H).
Proof. owned_laws. Qed.
#[export] Instance openat2_custody_laws S H : CustodyLaws (Openat2.Prepared S H) (Openat2.Pending S H) (Openat2.Opened2 S H) (Path S * H).
Proof. custody_laws Openat2.redeem Openat2.matches. Qed.

#[export] Instance statx_owned S D : OwnedRequest (StatxOp.Prepared S D) (StatxOp.Pending S D) := {
  into_pending := StatxOp.into_pending;
  give_back p t := StatxOp.reclaim_unsubmitted t;
  ticket_ring := StatxOp.t_ring;
  ticket_id := StatxOp.t_id
}.
#[export] Instance statx_custody S D : Custody (StatxOp.Prepared S D) (StatxOp.Pending S D) (StatxOp.Completed S D) (Path S * D) := {
  redeem_with := StatxOp.redeem;
  deposit p := (StatxOp.p_path p, StatxOp.p_dest p);
  held t := (StatxOp.t_path t, StatxOp.t_dest t);
  withdraw d := (StatxOp.d_path d, StatxOp.d_dest d);
  reported := StatxOp.d_result
}.
#[export] Instance statx_laws S D : OwnedRequestLaws (StatxOp.Prepared S D) (StatxOp.Pending S D).
Proof. owned_laws. Qed.
#[export] Instance statx_custody_laws S D : CustodyLaws (StatxOp.Prepared S D) (StatxOp.Pending S D) (StatxOp.Completed S D) (Path S * D).
Proof. custody_laws StatxOp.redeem StatxOp.matches. Qed.
