(* ===== verification/OwnedDirect.v ===== *)
(** * The registered file table (owned/slot.rs and its clients)

    Slots of a ring's file table, and the requests that fill or read them:
    direct open, direct socket, direct multishot accept, and the installation
    of a slot's file into the descriptor table. *)
From stdpp Require Import base numbers list option.
From Stdlib Require Import ZArith Lia.
From S2P Require Import Prelude Flags Types UserMem RingIndex Sqe SqeFile SqeNet Resources Owned OwnedPath.
Local Open Scope Z_scope.
Local Open Scope rust_scope.
Set Implicit Arguments.
Set Maximal Implicit Insertion.

(** ** Slots (owned/slot.rs) *)
Module Slot.
(* src/src/owned/slot.rs:43-43 FILE_INDEX_ALLOC *)
Definition FILE_INDEX_ALLOC : Z := 4294967295.
(** A `SlotIndex` is the index it wraps; [index_new] is the only constructor. *)
(* src/src/owned/slot.rs:60-60 SlotIndex::MAX *)
Definition MAX : Z := 4294967295 - 2.
(* src/src/owned/slot.rs:68-75 SlotIndex::new *)
Definition index_new (index : Z) : option Z := if index >? MAX then None else Some index.
(* src/src/owned/slot.rs:91-102 SlotTarget *)
Inductive Target : Set := Auto | Exact (slot : Z).
(* src/src/owned/slot.rs:110-116 SlotTarget::exact *)
Definition exact (index : Z) : option Target :=
  match index_new index with Some slot => Some (Exact slot) | None => None end.
(* src/src/owned/slot.rs:122-129 SlotTarget::raw *)
Definition raw (self : Target) : Z :=
  match self with
  | Auto => as_i32 FILE_INDEX_ALLOC
  | Exact slot => as_i32 (slot + 1)
  end.
(* src/src/owned/slot.rs:136-148 SlotTarget::resolve *)
Definition resolve (self : Target) (result : Z) : option Z :=
  match self with
  | Exact slot => Some slot
  | Auto => if result <? 0 then None else index_new (as_u32 result)
  end.
(* src/src/owned/slot.rs:172-177 DirectSlot *)
Record DirectSlot : Set := mkDirectSlot { ds_index : Z; ds_ring : RingId }.
(* src/src/owned/slot.rs:199-202 DirectSlot::belongs_to *)
Definition slot_belongs_to (self : DirectSlot) (ring : RingId) : bool := ds_ring self =? ring.
(* src/src/owned/slot.rs:208-212 DirectSlot::as_fixed_fd *)
Definition as_fixed_fd (self : DirectSlot) : Z := as_i32 (ds_index self).
End Slot.

(** ** Direct open (owned/direct.rs) *)
Module DirectOpen.
(* src/src/owned/direct.rs:59-74 DirectOpenError *)
Inductive DirectOpenError : Set := CloseOnExec.
(* src/src/owned/direct.rs:44-51 PreparedDirectOpen *)
Record Prepared (S : Type) : Type := mkPrepared {
  p_path : Path S; p_dir : DirFd.t; p_flags : Z; p_mode : Z; p_target : Slot.Target; p_addr : Z
}.
(* src/src/owned/direct.rs:208-217 PendingDirectOpen *)
Record Pending (S : Type) : Type := mkPending {
  t_path : Path S; t_ring : RingId; t_id : RequestId; t_dir : DirFd.t; t_flags : Z; t_mode : Z;
  t_target : Slot.Target; t_addr : Z
}.
(* src/src/owned/direct.rs:311-316 DirectOpened *)
Record Opened (S : Type) : Type := mkOpened {
  d_path : Path S; d_slot : option Slot.DirectSlot; d_id : RequestId; d_result : Z
}.
Section Ops.
  Context {S : Type} `{StableBuffer S}.
(* src/src/owned/direct.rs:94-113 PreparedDirectOpen::at *)
Definition at_ (dir : DirFd.t) (path : Path S) (flags mode : Z) (target : Slot.Target)
  : result (Prepared S) (Path S * DirectOpenError) :=
  if contains flags OpenFlags.CLOEXEC then Err (path, CloseOnExec)
  else
    let addr := path_ptr path in
    Ok (mkPrepared path dir flags mode target addr).
(* src/src/owned/direct.rs:120-127 PreparedDirectOpen::cwd *)
Definition cwd (path : Path S) (flags mode : Z) (target : Slot.Target)
  : result (Prepared S) (Path S * DirectOpenError) := at_ DirFd.Cwd path flags mode target.
End Ops.
Section Moves.
  Context {S : Type}.
(* src/src/owned/direct.rs:166-193 PreparedDirectOpen::into_pending *)
Definition into_pending (ring : RingId) (id : RequestId) (self : Prepared S) : Sqe * Pending S :=
  let sqe := FileOps.openat_direct (DirFd.as_raw (p_dir self)) (p_addr self) (p_flags self)
               (p_mode self) (Slot.raw (p_target self)) in
  (Modifiers.with_user_data sqe id,
   mkPending (p_path self) ring id (p_dir self) (p_flags self) (p_mode self) (p_target self)
     (p_addr self)).
(* src/src/owned/direct.rs:244-247 PendingDirectOpen::matches *)
Definition matches (self : Pending S) (receipt : Receipt) : bool :=
  belongs_to receipt (t_ring self) (t_id self).
(* src/src/owned/direct.rs:254-268 PendingDirectOpen::reclaim_unsubmitted *)
Definition reclaim_unsubmitted (self : Pending S) : Prepared S :=
  mkPrepared (t_path self) (t_dir self) (t_flags self) (t_mode self) (t_target self) (t_addr self).
(* src/src/owned/direct.rs:276-299 PendingDirectOpen::redeem *)
Definition redeem (self : Pending S) (receipt : Receipt)
  : result (Opened S) (Pending S * Receipt) :=
  if negb (matches self receipt) then Err (self, receipt)
  else
    let result := rc_result receipt in
    let slot := if result <? 0 then None
                else match Slot.resolve (t_target self) result with
                     | Some index => Some (Slot.mkDirectSlot index (t_ring self))
                     | None => None
                     end in
    Ok (mkOpened (t_path self) slot (t_id self) result).
(* src/src/owned/direct.rs:348-353 DirectOpened::result *)
Definition completed_result (self : Opened S) : result unit Error := unit_result (d_result self).
(* src/src/owned/direct.rs:362-365 DirectOpened::index *)
Definition index (self : Opened S) : option Z :=
  match d_slot self with Some s => Some (Slot.ds_index s) | None => None end.
End Moves.
(* src/src/owned/direct.rs:160-163 PreparedDirectOpen::into_path *)
Definition prepared_into_path {S} (self : Prepared S) : Path S := p_path self.
(* src/src/owned/direct.rs:336-339 DirectOpened::is_ok *)
Definition is_ok {S} (self : Opened S) : bool := cqe_is_ok (d_result self).
(* src/src/owned/direct.rs:374-377 DirectOpened::into_parts *)
Definition into_parts {S} (self : Opened S) : option Slot.DirectSlot * Path S := (d_slot self, d_path self).
End DirectOpen.

(** ** Direct socket (owned/direct_socket.rs) *)
Module DirectSocket.
(* src/src/owned/direct_socket.rs:64-73 DirectSocketError *)
Inductive DirectSocketError : Set := CloseOnExec.
(* src/src/owned/direct_socket.rs:54-61 PreparedDirectSocket *)
Record Prepared : Set := mkPrepared {
  p_domain : AddressFamily.t; p_sock_type : SocketType.t; p_protocol : Z; p_flags : Z;
  p_target : Slot.Target
}.
(* src/src/owned/direct_socket.rs:186-192 PendingDirectSocket *)
Record Pending : Set := mkPending { t_ring : RingId; t_id : RequestId; t_target : Slot.Target }.
(* src/src/owned/direct_socket.rs:246-251 DirectSocketCreated *)
Record Created : Set := mkCreated {
  d_slot : option Slot.DirectSlot; d_id : RequestId; d_result : Z
}.
(* src/src/owned/direct_socket.rs:96-113 PreparedDirectSocket::new *)
Definition new (domain : AddressFamily.t) (sock_type : SocketType.t) (protocol flags : Z)
  (target : Slot.Target) : result Prepared DirectSocketError :=
  if contains flags SocketFlags.CLOEXEC then Err CloseOnExec
  else Ok (mkPrepared domain sock_type protocol flags target).
(* src/src/owned/direct_socket.rs:120-127 PreparedDirectSocket::auto *)
Definition auto (domain : AddressFamily.t) (sock_type : SocketType.t) (protocol flags : Z)
  : result Prepared DirectSocketError := new domain sock_type protocol flags Slot.Auto.
(* src/src/owned/direct_socket.rs:160-177 PreparedDirectSocket::into_pending *)
Definition into_pending (ring : RingId) (id : RequestId) (self : Prepared) : Sqe * Pending :=
  let sqe := NetOps.socket_direct_at (p_domain self) (p_sock_type self) (p_protocol self)
               (p_flags self) (Slot.raw (p_target self)) in
  (Modifiers.with_user_data sqe id, mkPending ring id (p_target self)).
(* src/src/owned/direct_socket.rs:214-217 PendingDirectSocket::matches *)
Definition matches (self : Pending) (receipt : Receipt) : bool :=
  belongs_to receipt (t_ring self) (t_id self).
(* src/src/owned/direct_socket.rs:225-242 PendingDirectSocket::redeem *)
Definition redeem (self : Pending) (receipt : Receipt) : result Created (Pending * Receipt) :=
  if negb (matches self receipt) then Err (self, receipt)
  else
    let result := rc_result receipt in
    let slot := if result <? 0 then None
                else match Slot.resolve (t_target self) result with
                     | Some index => Some (Slot.mkDirectSlot index (t_ring self))
                     | None => None
                     end in
    Ok (mkCreated slot (t_id self) result).
(* src/src/owned/direct_socket.rs:288-293 DirectSocketCreated::result *)
Definition completed_result (self : Created) : result unit Error := unit_result (d_result self).
(* src/src/owned/direct_socket.rs:302-305 DirectSocketCreated::index *)
Definition index (self : Created) : option Z :=
  match d_slot self with Some s => Some (Slot.ds_index s) | None => None end.
(* src/src/owned/direct_socket.rs:271-274 DirectSocketCreated::is_ok *)
Definition is_ok (self : Created) : bool := cqe_is_ok (d_result self).
(* src/src/owned/direct_socket.rs:308-311 DirectSocketCreated::into_slot *)
Definition into_slot (self : Created) : option Slot.DirectSlot := d_slot self.
End DirectSocket.

(** ** Direct multishot accept (owned/direct_accept.rs) *)
Module DirectAccept.
(* src/src/owned/direct_accept.rs:64-68 PreparedDirectAccept *)
Record Prepared : Set := mkPrepared { p_fd : Z; p_flags : Z }.
(* src/src/owned/direct_accept.rs:118-123 DirectAccept *)
Record Armed : Set := mkArmed { t_ring : RingId; t_id : RequestId; t_fd : Z }.
(* src/src/owned/direct_accept.rs:241-245 DirectAcceptFinished *)
Record Finished : Set := mkFinished { f_receipt : Receipt; f_last : option Slot.DirectSlot }.
(* src/src/owned/direct_accept.rs:197-211 DirectIncoming *)
Inductive Incoming : Set :=
| Installed (slot : Slot.DirectSlot)
| Empty (result : Z)
| Done (finished : Finished).
(* src/src/owned/direct_accept.rs:80-83 PreparedDirectAccept::on *)
Definition on (fd flags : Z) : Prepared := mkPrepared fd flags.
(* src/src/owned/direct_accept.rs:98-108 PreparedDirectAccept::into_pending *)
Definition into_pending (ring : RingId) (id : RequestId) (self : Prepared) : Sqe * Armed :=
  (Modifiers.with_user_data (NetOps.accept_multishot_direct (p_fd self) (p_flags self)) id,
   mkArmed ring id (p_fd self)).
(* src/src/owned/direct_accept.rs:145-148 DirectAccept::matches *)
Definition matches (self : Armed) (event : Event.t) : bool :=
  Event.belongs_to event (t_ring self) (t_id self).
(* src/src/owned/direct_accept.rs:183-187 DirectAccept::claim *)
Definition claim (self : Armed) (result : Z) : option Slot.DirectSlot :=
  match Slot.resolve Slot.Auto result with
  | Some index => Some (Slot.mkDirectSlot index (t_ring self))
  | None => None
  end.
(* src/src/owned/direct_accept.rs:159-175 DirectAccept::record *)
Definition record (self : Armed) (event : Event.t) : result Incoming Event.t :=
  if negb (matches self event) then Err event
  else
    match event with
    | Event.Partial partial =>
        let result := PartialReceipt.result partial in
        Ok (match claim self result with Some s => Installed s | None => Empty result end)
    | Event.Complete receipt =>
        let last := claim self (rc_result receipt) in
        Ok (Done (mkFinished receipt last))
    end.
(* src/src/owned/direct_accept.rs:215-221 DirectIncoming::armed *)
Definition armed (self : Incoming) : Multishot.Armed :=
  match self with
  | Installed _ | Empty _ => Multishot.Yes
  | Done _ => Multishot.FinishedArmed
  end.
(* src/src/owned/direct_accept.rs:288-291 DirectAcceptFinished::into_parts *)
Definition into_parts (self : Finished) : Receipt * option Slot.DirectSlot :=
  (f_receipt self, f_last self).
(* src/src/owned/direct_accept.rs:227-234 DirectIncoming::into_slot *)
Definition into_slot (self : Incoming) : option Slot.DirectSlot :=
  match self with
  | Installed slot => Some slot
  | Done finished => snd (into_parts finished)
  | Empty _ => None
  end.
(* src/src/owned/direct_accept.rs:275-282 DirectAcceptFinished::result *)
Definition finished_result (self : Finished) : result Z Error := result_of (rc_result (f_receipt self)).
End DirectAccept.

(** ** Installing a slot's file (owned/fixedfdinstall.rs) *)
Module FixedFdInstall.
(* src/src/owned/fixedfdinstall.rs:42-46 PreparedFixedFdInstall *)
Record Prepared : Set := mkPrepared { p_slot : Z; p_flags : Z }.
(* src/src/owned/fixedfdinstall.rs:96-101 PendingFixedFdInstall *)
Record Pending : Set := mkPending { t_ring : RingId; t_id : RequestId; t_slot : Z }.
(* src/src/owned/fixedfdinstall.rs:160-166 FixedFdInstalled *)
Record Installed : Set := mkInstalled {
  d_slot : Z; d_file : option Z; d_id : RequestId; d_result : Z
}.
(* src/src/owned/fixedfdinstall.rs:55-58 PreparedFixedFdInstall::new *)
Definition new (slot flags : Z) : Prepared := mkPrepared slot flags.
(* src/src/owned/fixedfdinstall.rs:61-64 PreparedFixedFdInstall::of *)
Definition of_slot (slot : Slot.DirectSlot) (flags : Z) : Prepared :=
  new (Slot.ds_index slot) flags.
(* src/src/owned/fixedfdinstall.rs:79-87 PreparedFixedFdInstall::into_pending *)
Definition into_pending (ring : RingId) (id : RequestId) (self : Prepared) : Sqe * Pending :=
  let sqe := FileOps.fixed_fd_install (p_slot self) (p_flags self) in
  (Modifiers.with_user_data sqe id, mkPending ring id (p_slot self)).
(* src/src/owned/fixedfdinstall.rs:123-126 PendingFixedFdInstall::matches *)
Definition matches (self : Pending) (receipt : Receipt) : bool :=
  belongs_to receipt (t_ring self) (t_id self).
(* src/src/owned/fixedfdinstall.rs:149-156 PendingFixedFdInstall::claim *)
Definition claim (result : Z) : option Z := claim_fd result.
(* src/src/owned/fixedfdinstall.rs:134-146 PendingFixedFdInstall::redeem *)
Definition redeem (self : Pending) (receipt : Receipt) : result Installed (Pending * Receipt) :=
  if negb (matches self receipt) then Err (self, receipt)
  else
    let result := rc_result receipt in
    let file := claim result in
    Ok (mkInstalled (t_slot self) file (t_id self) result).
(* src/src/owned/fixedfdinstall.rs:199-204 FixedFdInstalled::result *)
Definition completed_result (self : Installed) : result unit Error := unit_result (d_result self).
(* src/src/owned/fixedfdinstall.rs:188-191 FixedFdInstalled::is_ok *)
Definition is_ok (self : Installed) : bool := cqe_is_ok (d_result self).
(* src/src/owned/fixedfdinstall.rs:213-216 FixedFdInstalled::into_file *)
Definition into_file (self : Installed) : option Z := d_file self.
End FixedFdInstall.

(** ** The interface the queue needs *)

#[export] Instance direct_open_owned S : OwnedRequest (DirectOpen.Prepared S) (DirectOpen.Pending S) := {
  into_pending := DirectOpen.into_pending;
  give_back p t := DirectOpen.reclaim_unsubmitted t;
  ticket_ring := DirectOpen.t_ring;
  ticket_id := DirectOpen.t_id
}.
#[export] Instance direct_open_custody S : Custody (DirectOpen.Prepared S) (DirectOpen.Pending S) (DirectOpen.Opened S) (Path S) := {
  redeem_with := DirectOpen.redeem;
  deposit p := DirectOpen.p_path p;
  held t := DirectOpen.t_path t;
  withdraw d := DirectOpen.d_path d;
  reported := DirectOpen.d_result
}.
#[export] Instance direct_open_laws S : OwnedRequestLaws (DirectOpen.Prepared S) (DirectOpen.Pending S).
Proof. owned_laws. Qed.
#[export] Instance direct_open_custody_laws S : CustodyLaws (DirectOpen.Prepared S) (DirectOpen.Pending S) (DirectOpen.Opened S) (Path S).
Proof. custody_laws DirectOpen.redeem DirectOpen.matches. Qed.

#[export] Instance direct_socket_owned : OwnedRequest DirectSocket.Prepared DirectSocket.Pending := {
  into_pending := DirectSocket.into_pending;
  give_back p t := p;
  ticket_ring := DirectSocket.t_ring;
  ticket_id := DirectSocket.t_id
}.
#[export] Instance direct_socket_custody : Custody DirectSocket.Prepared DirectSocket.Pending DirectSocket.Created unit := {
  redeem_with := DirectSocket.redeem;
  deposit p := tt;
  held t := tt;
  withdraw d := tt;
  reported := DirectSocket.d_result
}.
#[export] Instance direct_socket_laws : OwnedRequestLaws DirectSocket.Prepared DirectSocket.Pending.
Proof. owned_laws. Qed.
#[export] Instance direct_socket_custody_laws : CustodyLaws DirectSocket.Prepared DirectSocket.Pending DirectSocket.Created unit.
Proof. custody_laws DirectSocket.redeem DirectSocket.matches. Qed.

#[export] Instance fixed_fd_install_owned : OwnedRequest FixedFdInstall.Prepared FixedFdInstall.Pending := {
  into_pending := FixedFdInstall.into_pending;
  give_back p t := p;
  ticket_ring := FixedFdInstall.t_ring;
  ticket_id := FixedFdInstall.t_id
}.
#[export] Instance fixed_fd_install_custody : Custody FixedFdInstall.Prepared FixedFdInstall.Pending FixedFdInstall.Installed unit := {
  redeem_with := FixedFdInstall.redeem;
  deposit p := tt;
  held t := tt;
  withdraw d := tt;
  reported := FixedFdInstall.d_result
}.
#[export] Instance fixed_fd_install_laws : OwnedRequestLaws FixedFdInstall.Prepared FixedFdInstall.Pending.
Proof. owned_laws. Qed.
#[export] Instance fixed_fd_install_custody_laws : CustodyLaws FixedFdInstall.Prepared FixedFdInstall.Pending FixedFdInstall.Installed unit.
Proof. custody_laws FixedFdInstall.redeem FixedFdInstall.matches. Qed.

#[export] Instance direct_accept_owned : OwnedRequest DirectAccept.Prepared DirectAccept.Armed := {
  into_pending := DirectAccept.into_pending;
  give_back p t := p;
  ticket_ring := DirectAccept.t_ring;
  ticket_id := DirectAccept.t_id
}.
#[export] Instance direct_accept_laws : OwnedRequestLaws DirectAccept.Prepared DirectAccept.Armed.
Proof. owned_laws. Qed.
