(* ===== verification/OwnedStaged.v ===== *)
(** * Requests that publish one value (owned/staged_value.rs, staged_addr.rs)

    A value or an address is written into storage the request owns, and the
    entry points at it: timeouts, epoll registrations, bind and connect.  The
    two engines are classes over the operation, as the traits [ValueOp] and
    [AddrOp] are in the source. *)
From stdpp Require Import base numbers list option.
From Stdlib Require Import ZArith Lia.
From S2P Require Import Prelude Flags Types UserMem RingIndex Sqe SqeFile SqeNet Resources Owned.
Local Open Scope Z_scope.
Local Open Scope rust_scope.
Set Implicit Arguments.
Set Maximal Implicit Insertion.

(** ** One value (owned/staged_value.rs) *)
Module Value.
(* src/src/owned/staged_value.rs:34-72 ValueOp *)
Class ValueOp (Op : Type) := {
  Context_ : Type;
  Info : Type;
  Val : Type;
  Outcome : Type;
  OpError : Type;
  val_repr : Repr Val;
  too_small : Z -> Z -> OpError;
  misaligned : Z -> OpError;
  value : Context_ -> Val;
  build_sqe : Context_ -> Z -> Sqe;
  info : Context_ -> Info;
  classify : Z -> Outcome
}.
#[export] Existing Instance val_repr.
Arguments Context_ Op {_}. Arguments Info Op {_}. Arguments Val Op {_}.
Arguments Outcome Op {_}. Arguments OpError Op {_}.

Section Engine.
  Context {S : Type} (Op : Type) {VO : ValueOp Op}.
(* src/src/owned/staged_value.rs:75-81 ValuePrepared *)
Record Prepared : Type := mkPrepared { p_store : S; p_ctx : Context_ Op; p_addr : Z }.
(* src/src/owned/staged_value.rs:182-189 ValuePending *)
Record Pending : Type := mkPending {
  t_store : S; t_ring : RingId; t_id : RequestId; t_ctx : Context_ Op; t_addr : Z
}.
(* src/src/owned/staged_value.rs:274-280 ValueDone *)
Record Done : Type := mkDone {
  d_store : S; d_info : Info Op; d_id : RequestId; d_result : Z
}.
(* src/src/owned/staged_value.rs:122-128 ValuePrepared::publish *)
Definition publish (self : Prepared) (m : UMem) : UMem :=
  ptr_write (p_addr self) (value (p_ctx self)) m.
(* src/src/owned/staged_value.rs:140-146 ValuePrepared::published *)
Definition published (self : Prepared) (m : UMem) : Val Op := ptr_read (p_addr self) m.
(* src/src/owned/staged_value.rs:95-114 ValuePrepared::new *)
Definition new `{StableBuffer S} (ctx : Context_ Op) (store : S) (m : UMem)
  : result Prepared (S * OpError Op) * UMem :=
  let needed := Z.of_nat (size_of (Val Op)) in
  let got := stable_len store in
  if got <? needed then (Err (store, too_small needed got), m)
  else
    let base := stable_ptr store in
    let align := align_of (Val Op) in
    if negb (is_multiple_of base align) then (Err (store, misaligned align), m)
    else
      let prepared := mkPrepared store ctx base in
      (Ok prepared, publish prepared m).
(* src/src/owned/staged_value.rs:155-170 ValuePrepared::into_pending *)
Definition into_pending (ring : RingId) (id : RequestId) (self : Prepared) : Sqe * Pending :=
  let sqe := build_sqe (p_ctx self) (p_addr self) in
  (Modifiers.with_user_data sqe id, mkPending (p_store self) ring id (p_ctx self) (p_addr self)).
(* src/src/owned/staged_value.rs:216-219 ValuePending::matches *)
Definition matches (self : Pending) (receipt : Receipt) : bool :=
  belongs_to receipt (t_ring self) (t_id self).
(* src/src/owned/staged_value.rs:227-238 ValuePending::reclaim_unsubmitted *)
Definition reclaim_unsubmitted (self : Pending) : Prepared :=
  mkPrepared (t_store self) (t_ctx self) (t_addr self).
(* src/src/owned/staged_value.rs:246-262 ValuePending::redeem *)
Definition redeem (self : Pending) (receipt : Receipt) : result Done (Pending * Receipt) :=
  if negb (matches self receipt) then Err (self, receipt)
  else Ok (mkDone (t_store self) (info (t_ctx self)) (t_id self) (rc_result receipt)).
(* src/src/owned/staged_value.rs:296-299 ValueDone::outcome *)
Definition outcome (self : Done) : Outcome Op := classify (d_result self).
(* src/src/owned/staged_value.rs:314-317 ValueDone::into_parts *)
Definition into_parts (self : Done) : Outcome Op * S := (outcome self, d_store self).
End Engine.
Arguments Prepared S Op {VO}. Arguments Pending S Op {VO}. Arguments Done S Op {VO}.
Arguments new {S Op VO _} _ _ _.
End Value.

(** ** Timeouts (owned/timeout.rs) *)
Module Timeout.
(* src/src/owned/timeout.rs:76-76 EXPIRED *)
Definition EXPIRED : Z := -62.
(* src/src/owned/timeout.rs:78-78 CANCELLED *)
Definition CANCELLED : Z := -125.
(* src/src/owned/timeout.rs:85-92 Count *)
Inductive Count : Set := Timer | Completions (n : Z).
(* src/src/owned/timeout.rs:96-101 Count::raw *)
Definition count_raw (self : Count) : Z := match self with Timer => 0 | Completions n => n end.
(* src/src/owned/timeout.rs:110-125 Expiry *)
Inductive Expiry : Set := Expired | CountReached | Cancelled | Failed (e : Errno).
(* src/src/owned/timeout.rs:129-136 Expiry::from_raw *)
Definition expiry_from_raw (result : Z) : Expiry :=
  if result =? EXPIRED then Expired
  else if result =? CANCELLED then Cancelled
  else if result <? 0 then Failed (neg_i32 result)
  else CountReached.
(* src/src/owned/timeout.rs:146-149 Expiry::is_expired *)
Definition is_expired (self : Expiry) : bool := match self with Expired => true | _ => false end.
(* src/src/owned/timeout.rs:156-159 Expiry::is_ok *)
Definition expiry_is_ok (self : Expiry) : bool := match self with Failed _ => false | _ => true end.
(* src/src/owned/timeout.rs:177-198 TimeoutError *)
Inductive TimeoutError : Set := StoreTooSmall (needed got : Z) | StoreMisaligned (needed : Z).
(* src/src/owned/timeout.rs:215-220 TimeoutCtx *)
Record Ctx : Set := mkCtx { c_duration : Timespec; c_count : Count; c_flags : Z }.
(* src/src/owned/timeout.rs:224-224 TimeoutOp *)
Inductive TimeoutOp : Set := .
(* src/src/owned/timeout.rs:226-259 TimeoutOp (ValueOp) *)
#[export] Instance timeout_op : Value.ValueOp TimeoutOp := {
  Value.Context_ := Ctx;
  Value.Info := Count;
  Value.Val := Timespec;
  Value.Outcome := Expiry;
  Value.OpError := TimeoutError;
  Value.too_small := StoreTooSmall;
  Value.misaligned := StoreMisaligned;
  Value.value ctx := c_duration ctx;
  Value.build_sqe ctx addr :=
    let count := as_u32 (count_raw (c_count ctx)) in
    NetOps.timeout_ptr addr count (c_flags ctx);
  Value.info ctx := c_count ctx;
  Value.classify := expiry_from_raw
}.
Section Ops.
  Context {S : Type} `{StableBuffer S}.
(* src/src/owned/timeout.rs:291-303 PreparedTimeout::build *)
Definition build (duration : Timespec) (count : Count) (flags : Z) (store : S) (m : UMem)
  : result (Value.Prepared S TimeoutOp) (S * TimeoutError) * UMem :=
  let ctx := mkCtx duration count flags in
  Value.new (Op := TimeoutOp) ctx store m.
(* src/src/owned/timeout.rs:274-276 PreparedTimeout::after *)
Definition after (duration : Timespec) (count : Count) (store : S) (m : UMem)
  : result (Value.Prepared S TimeoutOp) (S * TimeoutError) * UMem := build duration count 0 store m.
(* src/src/owned/timeout.rs:286-288 PreparedTimeout::at *)
Definition at_ (deadline : Timespec) (count : Count) (store : S) (m : UMem)
  : result (Value.Prepared S TimeoutOp) (S * TimeoutError) * UMem :=
  build deadline count TimeoutFlags.ABS store m.
End Ops.
(* src/src/owned/timeout.rs:320-323 PreparedTimeout::is_absolute *)
Definition is_absolute {S} (self : Value.Prepared S TimeoutOp) : bool :=
  contains (c_flags (Value.p_ctx self)) TimeoutFlags.ABS.
(* src/src/owned/timeout.rs:388-391 PendingTimeout::cancel_key *)
Definition cancel_key {S} (self : Value.Pending S TimeoutOp) : Z := Value.t_id self.
(* src/src/owned/timeout.rs:449-452 TimeoutCompleted::expiry *)
Definition expiry {S} (self : Value.Done S TimeoutOp) : Expiry := Value.outcome self.
(** The public types wrap the engine's and forward to it. *)
(* src/src/owned/timeout.rs:335-338 PreparedTimeout::into_store *)
Definition prepared_into_store {S} (self : Value.Prepared S TimeoutOp) : S := Value.p_store self.
(* src/src/owned/timeout.rs:341-344 PreparedTimeout::into_pending *)
Definition into_pending {S} (ring : RingId) (id : RequestId) (self : Value.Prepared S TimeoutOp)
  : Sqe * Value.Pending S TimeoutOp := Value.into_pending ring id self.
(* src/src/owned/timeout.rs:394-397 PendingTimeout::matches *)
Definition matches {S} (self : Value.Pending S TimeoutOp) (receipt : Receipt) : bool :=
  Value.matches self receipt.
(* src/src/owned/timeout.rs:405-408 PendingTimeout::reclaim_unsubmitted *)
Definition reclaim_unsubmitted {S} (self : Value.Pending S TimeoutOp) : Value.Prepared S TimeoutOp :=
  Value.reclaim_unsubmitted self.
(* src/src/owned/timeout.rs:420-425 PendingTimeout::redeem *)
Definition redeem {S} (self : Value.Pending S TimeoutOp) (receipt : Receipt)
  : result (Value.Done S TimeoutOp) (Value.Pending S TimeoutOp * Receipt) :=
  Value.redeem self receipt.
(* src/src/owned/timeout.rs:461-464 TimeoutCompleted::into_store *)
Definition into_store {S} (self : Value.Done S TimeoutOp) : S := Value.d_store self.
(* src/src/owned/timeout.rs:467-470 TimeoutCompleted::into_parts *)
Definition into_parts {S} (self : Value.Done S TimeoutOp) : Expiry * S := Value.into_parts self.
End Timeout.

(** ** epoll registrations (owned/epoll.rs) *)
Module EpollCtl.
(* src/src/owned/epoll.rs:59-59 EEXIST *)
Definition EEXIST : Z := -17.
(* src/src/owned/epoll.rs:61-61 ENOENT *)
Definition ENOENT : Z := -2.
(* src/src/owned/epoll.rs:69-87 EpollChange *)
Inductive Change : Set := Add (events data : Z) | Mod (events data : Z) | Del.
(* src/src/owned/epoll.rs:91-97 EpollChange::op *)
Definition change_op (self : Change) : EpollOp.t :=
  match self with Add _ _ => EpollOp.Add | Mod _ _ => EpollOp.Mod | Del => EpollOp.Del end.
(* src/src/owned/epoll.rs:100-108 EpollChange::event *)
Definition change_event (self : Change) : EpollEvent :=
  match self with
  | Add events data | Mod events data => mkEpollEvent events data
  | Del => mkEpollEvent 0 0
  end.
(* src/src/owned/epoll.rs:116-126 EpollOutcome *)
Inductive Outcome : Set := Applied | AlreadyRegistered | NotRegistered | Failed (e : Errno).
(* src/src/owned/epoll.rs:130-137 EpollOutcome::from_raw *)
Definition outcome_from_raw (result : Z) : Outcome :=
  if result =? EEXIST then AlreadyRegistered
  else if result =? ENOENT then NotRegistered
  else if result <? 0 then Failed (neg_i32 result)
  else Applied.
(* src/src/owned/epoll.rs:147-150 EpollOutcome::is_applied *)
Definition is_applied (self : Outcome) : bool := match self with Applied => true | _ => false end.
(* src/src/owned/epoll.rs:165-182 EpollError *)
Inductive EpollError : Set := StoreTooSmall (needed got : Z) | StoreMisaligned (needed : Z).
(* src/src/owned/epoll.rs:199-204 EpollCtx *)
Record Ctx : Set := mkCtx { c_epoll : Z; c_target : Z; c_change : Change }.
(* src/src/owned/epoll.rs:208-208 EpollCtlOp *)
Inductive EpollCtlOp : Set := .
(* src/src/owned/epoll.rs:210-241 EpollCtlOp (ValueOp) *)
#[export] Instance epoll_op `{TargetArch} : Value.ValueOp EpollCtlOp := {
  Value.Context_ := Ctx;
  Value.Info := Change;
  Value.Val := EpollEvent;
  Value.Outcome := Outcome;
  Value.OpError := EpollError;
  Value.too_small := StoreTooSmall;
  Value.misaligned := StoreMisaligned;
  Value.value ctx := change_event (c_change ctx);
  Value.build_sqe ctx addr :=
    NetOps.epoll_ctl_ptr (c_epoll ctx) (change_op (c_change ctx)) (c_target ctx) addr;
  Value.info ctx := c_change ctx;
  Value.classify := outcome_from_raw
}.
(* src/src/owned/epoll.rs:257-269 PreparedEpollCtl::new *)
Definition new {S} `{TargetArch} `{StableBuffer S} (epoll target : Z) (change : Change) (store : S)
  (m : UMem) : result (Value.Prepared S EpollCtlOp) (S * EpollError) * UMem :=
  let ctx := mkCtx epoll target change in
  Value.new (Op := EpollCtlOp) ctx store m.
(** The public types wrap the engine's and forward to it. *)
(* src/src/owned/epoll.rs:301-304 PreparedEpollCtl::into_store *)
Definition prepared_into_store {S} {TA : TargetArch} (self : Value.Prepared S EpollCtlOp) : S := Value.p_store self.
(* src/src/owned/epoll.rs:307-310 PreparedEpollCtl::into_pending *)
Definition into_pending {S} {TA : TargetArch} (ring : RingId) (id : RequestId) (self : Value.Prepared S EpollCtlOp)
  : Sqe * Value.Pending S EpollCtlOp := Value.into_pending ring id self.
(* src/src/owned/epoll.rs:347-350 PendingEpollCtl::matches *)
Definition matches {S} {TA : TargetArch} (self : Value.Pending S EpollCtlOp) (receipt : Receipt) : bool :=
  Value.matches self receipt.
(* src/src/owned/epoll.rs:358-361 PendingEpollCtl::reclaim_unsubmitted *)
Definition reclaim_unsubmitted {S} {TA : TargetArch} (self : Value.Pending S EpollCtlOp) : Value.Prepared S EpollCtlOp :=
  Value.reclaim_unsubmitted self.
(* src/src/owned/epoll.rs:369-374 PendingEpollCtl::redeem *)
Definition redeem {S} {TA : TargetArch} (self : Value.Pending S EpollCtlOp) (receipt : Receipt)
  : result (Value.Done S EpollCtlOp) (Value.Pending S EpollCtlOp * Receipt) :=
  Value.redeem self receipt.
(* src/src/owned/epoll.rs:394-397 EpollCtlDone::outcome *)
Definition outcome {S} {TA : TargetArch} (self : Value.Done S EpollCtlOp) : Outcome := Value.outcome self.
(* src/src/owned/epoll.rs:406-409 EpollCtlDone::into_store *)
Definition into_store {S} {TA : TargetArch} (self : Value.Done S EpollCtlOp) : S := Value.d_store self.
(* src/src/owned/epoll.rs:412-415 EpollCtlDone::into_parts *)
Definition into_parts {S} {TA : TargetArch} (self : Value.Done S EpollCtlOp) : Outcome * S := Value.into_parts self.
End EpollCtl.

(** ** One address (owned/staged_addr.rs) *)
Module Addr.
(* src/src/owned/staged_addr.rs:29-29 ADDR_LEN *)
Definition ADDR_LEN : Z := Z.of_nat (size_of SockAddrIn).
(* src/src/owned/staged_addr.rs:36-36 ADDR_LEN_U32 *)
Definition ADDR_LEN_U32 : Z := 16.
(* src/src/owned/staged_addr.rs:41-60 AddrOp *)
Class AddrOp (Op : Type) := {
  Outcome : Type;
  OpError : Type;
  too_small : Z -> Z -> OpError;
  build_sqe : Z -> Z -> Z -> Sqe;
  classify : Z -> Outcome
}.
Arguments Outcome Op {_}. Arguments OpError Op {_}.
Arguments build_sqe Op {_} _ _ _. Arguments classify Op {_} _. Arguments too_small Op {_} _ _.

(** `Op` is a phantom parameter of the three. *)
(* src/src/owned/staged_addr.rs:63-71 StagedPrepared *)
Record Prepared (S Op : Type) : Type := mkPrepared {
  p_store : S; p_fd : Z; p_addr : SockAddrIn; p_staged : Z
}.
(* src/src/owned/staged_addr.rs:186-195 StagedPending *)
Record Pending (S Op : Type) : Type := mkPending {
  t_store : S; t_ring : RingId; t_id : RequestId; t_fd : Z; t_addr : SockAddrIn; t_staged : Z
}.
(* src/src/owned/staged_addr.rs:282-288 StagedDone *)
Record Done (S Op : Type) : Type := mkDone {
  d_store : S; d_addr : SockAddrIn; d_id : RequestId; d_result : Z
}.
Arguments mkPrepared {S Op} _ _ _ _. Arguments mkPending {S Op} _ _ _ _ _ _.
Arguments mkDone {S Op} _ _ _ _.

Section Engine.
  Context {S : Type} (Op : Type) {AO : AddrOp Op}.
(* src/src/owned/staged_addr.rs:109-117 StagedPrepared::publish *)
Definition publish (self : Prepared S Op) (m : UMem) : UMem :=
  let bytes := to_bytes (p_addr self) in write_bytes (p_staged self) bytes m.
(* src/src/owned/staged_addr.rs:135-143 StagedPrepared::published *)
Definition published (self : Prepared S Op) (m : UMem) : list Z :=
  read_bytes (p_staged self) (Z.to_nat ADDR_LEN) m.
(* src/src/owned/staged_addr.rs:84-99 StagedPrepared::new *)
Definition new `{StableBuffer S} (fd : Z) (addr : SockAddrIn) (store : S) (m : UMem)
  : result (Prepared S Op) (S * OpError Op) * UMem :=
  let got := stable_len store in
  if got <? ADDR_LEN then (Err (store, too_small Op ADDR_LEN got), m)
  else
    let staged := stable_ptr store in
    let prepared := mkPrepared store fd addr staged in
    (Ok prepared, publish prepared m).
(* src/src/owned/staged_addr.rs:154-171 StagedPrepared::into_pending *)
Definition into_pending (ring : RingId) (id : RequestId) (self : Prepared S Op) : Sqe * Pending S Op :=
  let sqe := build_sqe Op (p_fd self) (p_staged self) ADDR_LEN_U32 in
  (Modifiers.with_user_data sqe id,
   mkPending (p_store self) ring id (p_fd self) (p_addr self) (p_staged self)).
(* src/src/owned/staged_addr.rs:222-225 StagedPending::matches *)
Definition matches (self : Pending S Op) (receipt : Receipt) : bool :=
  belongs_to receipt (t_ring self) (t_id self).
(* src/src/owned/staged_addr.rs:233-246 StagedPending::reclaim_unsubmitted *)
Definition reclaim_unsubmitted (self : Pending S Op) : Prepared S Op :=
  mkPrepared (t_store self) (t_fd self) (t_addr self) (t_staged self).
(* src/src/owned/staged_addr.rs:254-270 StagedPending::redeem *)
Definition redeem (self : Pending S Op) (receipt : Receipt) : result (Done S Op) (Pending S Op * Receipt) :=
  if negb (matches self receipt) then Err (self, receipt)
  else Ok (mkDone (t_store self) (t_addr self) (t_id self) (rc_result receipt)).
(* src/src/owned/staged_addr.rs:304-307 StagedDone::outcome *)
Definition outcome (self : Done S Op) : Outcome Op := classify Op (d_result self).
(* src/src/owned/staged_addr.rs:322-325 StagedDone::into_parts *)
Definition into_parts (self : Done S Op) : Outcome Op * S := (outcome self, d_store self).
End Engine.
Arguments new {S} Op {AO _} _ _ _ _.
End Addr.

(** ** Bind (owned/bind.rs) *)
Module Bind.
(* src/src/owned/bind.rs:65-65 EADDRINUSE *)
Definition EADDRINUSE : Z := -98.
(* src/src/owned/bind.rs:67-67 EINVAL *)
Definition EINVAL : Z := -22.
(* src/src/owned/bind.rs:69-69 EACCES *)
Definition EACCES : Z := -13.
(* src/src/owned/bind.rs:78-94 BindOutcome *)
Inductive Outcome : Set :=
| Bound | AddressInUse | AlreadyBound | PermissionDenied | Failed (e : Errno).
(* src/src/owned/bind.rs:98-106 BindOutcome::from_raw *)
Definition outcome_from_raw (result : Z) : Outcome :=
  if result =? EADDRINUSE then AddressInUse
  else if result =? EINVAL then AlreadyBound
  else if result =? EACCES then PermissionDenied
  else if result <? 0 then Failed (neg_i32 result)
  else Bound.
(* src/src/owned/bind.rs:116-119 BindOutcome::is_bound *)
Definition is_bound (self : Outcome) : bool := match self with Bound => true | _ => false end.
(* src/src/owned/bind.rs:135-144 BindError *)
Inductive BindError : Set := StoreTooSmall (needed got : Z).
(* src/src/owned/bind.rs:158-158 BindOp *)
Inductive BindOp : Set := .
(* src/src/owned/bind.rs:160-176 BindOp (AddrOp) *)
#[export] Instance bind_op : Addr.AddrOp BindOp := {
  Addr.Outcome := Outcome;
  Addr.OpError := BindError;
  Addr.too_small := StoreTooSmall;
  Addr.build_sqe := NetOps.bind_ptr;
  Addr.classify := outcome_from_raw
}.
(* src/src/owned/bind.rs:192-194 PreparedBind::new *)
Definition new {S} `{StableBuffer S} (fd : Z) (addr : SockAddrIn) (store : S) (m : UMem)
  : result (Addr.Prepared S BindOp) (S * BindError) * UMem := Addr.new BindOp fd addr store m.
(** The public types wrap the engine's and forward to it. *)
(* src/src/owned/bind.rs:220-223 PreparedBind::into_store *)
Definition prepared_into_store {S} (self : Addr.Prepared S BindOp) : S := Addr.p_store self.
(* src/src/owned/bind.rs:226-229 PreparedBind::into_pending *)
Definition into_pending {S} (ring : RingId) (id : RequestId) (self : Addr.Prepared S BindOp)
  : Sqe * Addr.Pending S BindOp := Addr.into_pending ring id self.
(* src/src/owned/bind.rs:266-269 PendingBind::matches *)
Definition matches {S} (self : Addr.Pending S BindOp) (receipt : Receipt) : bool :=
  Addr.matches self receipt.
(* src/src/owned/bind.rs:277-280 PendingBind::reclaim_unsubmitted *)
Definition reclaim_unsubmitted {S} (self : Addr.Pending S BindOp) : Addr.Prepared S BindOp :=
  Addr.reclaim_unsubmitted self.
(* src/src/owned/bind.rs:288-293 PendingBind::redeem *)
Definition redeem {S} (self : Addr.Pending S BindOp) (receipt : Receipt)
  : result (Addr.Done S BindOp) (Addr.Pending S BindOp * Receipt) :=
  Addr.redeem self receipt.
(* src/src/owned/bind.rs:313-316 BindDone::outcome *)
Definition outcome {S} (self : Addr.Done S BindOp) : Outcome := Addr.outcome self.
(* src/src/owned/bind.rs:328-331 BindDone::into_store *)
Definition into_store {S} (self : Addr.Done S BindOp) : S := Addr.d_store self.
(* src/src/owned/bind.rs:334-337 BindDone::into_parts *)
Definition into_parts {S} (self : Addr.Done S BindOp) : Outcome * S := Addr.into_parts self.
End Bind.

(** ** Connect (owned/connect.rs) *)
Module Connect.
(* src/src/owned/connect.rs:68-68 ECONNREFUSED *)
Definition ECONNREFUSED : Z := -111.
(* src/src/owned/connect.rs:70-70 EISCONN *)
Definition EISCONN : Z := -106.
(* src/src/owned/connect.rs:72-72 ETIMEDOUT *)
Definition ETIMEDOUT : Z := -110.
(* src/src/owned/connect.rs:74-74 ENETUNREACH *)
Definition ENETUNREACH : Z := -101.
(* src/src/owned/connect.rs:81-99 ConnectOutcome *)
Inductive Outcome : Set :=
| Connected | ConnectionRefused | AlreadyConnected | TimedOut | NetworkUnreachable
| Failed (e : Errno).
(* src/src/owned/connect.rs:103-112 ConnectOutcome::from_raw *)
Definition outcome_from_raw (result : Z) : Outcome :=
  if result =? ECONNREFUSED then ConnectionRefused
  else if result =? EISCONN then AlreadyConnected
  else if result =? ETIMEDOUT then TimedOut
  else if result =? ENETUNREACH then NetworkUnreachable
  else if result <? 0 then Failed (neg_i32 result)
  else Connected.
(* src/src/owned/connect.rs:122-125 ConnectOutcome::is_connected *)
Definition is_connected (self : Outcome) : bool :=
  match self with Connected => true | _ => false end.
(* src/src/owned/connect.rs:142-151 ConnectError *)
Inductive ConnectError : Set := StoreTooSmall (needed got : Z).
(* src/src/owned/connect.rs:165-165 ConnectOp *)
Inductive ConnectOp : Set := .
(* src/src/owned/connect.rs:167-183 ConnectOp (AddrOp) *)
#[export] Instance connect_op : Addr.AddrOp ConnectOp := {
  Addr.Outcome := Outcome;
  Addr.OpError := ConnectError;
  Addr.too_small := StoreTooSmall;
  Addr.build_sqe := NetOps.connect_ptr;
  Addr.classify := outcome_from_raw
}.
(* src/src/owned/connect.rs:199-201 PreparedConnect::new *)
Definition new {S} `{StableBuffer S} (fd : Z) (addr : SockAddrIn) (store : S) (m : UMem)
  : result (Addr.Prepared S ConnectOp) (S * ConnectError) * UMem :=
  Addr.new ConnectOp fd addr store m.
(** The public types wrap the engine's and forward to it. *)
(* src/src/owned/connect.rs:227-230 PreparedConnect::into_store *)
Definition prepared_into_store {S} (self : Addr.Prepared S ConnectOp) : S := Addr.p_store self.
(* src/src/owned/connect.rs:233-236 PreparedConnect::into_pending *)
Definition into_pending {S} (ring : RingId) (id : RequestId) (self : Addr.Prepared S ConnectOp)
  : Sqe * Addr.Pending S ConnectOp := Addr.into_pending ring id self.
(* src/src/owned/connect.rs:273-276 PendingConnect::matches *)
Definition matches {S} (self : Addr.Pending S ConnectOp) (receipt : Receipt) : bool :=
  Addr.matches self receipt.
(* src/src/owned/connect.rs:284-287 PendingConnect::reclaim_unsubmitted *)
Definition reclaim_unsubmitted {S} (self : Addr.Pending S ConnectOp) : Addr.Prepared S ConnectOp :=
  Addr.reclaim_unsubmitted self.
(* src/src/owned/connect.rs:295-300 PendingConnect::redeem *)
Definition redeem {S} (self : Addr.Pending S ConnectOp) (receipt : Receipt)
  : result (Addr.Done S ConnectOp) (Addr.Pending S ConnectOp * Receipt) :=
  Addr.redeem self receipt.
(* src/src/owned/connect.rs:320-323 ConnectDone::outcome *)
Definition outcome {S} (self : Addr.Done S ConnectOp) : Outcome := Addr.outcome self.
(* src/src/owned/connect.rs:332-335 ConnectDone::into_store *)
Definition into_store {S} (self : Addr.Done S ConnectOp) : S := Addr.d_store self.
(* src/src/owned/connect.rs:338-341 ConnectDone::into_parts *)
Definition into_parts {S} (self : Addr.Done S ConnectOp) : Outcome * S := Addr.into_parts self.
End Connect.

#[export] Existing Instances Value.val_repr Timeout.timeout_op EpollCtl.epoll_op.
#[export] Existing Instances Bind.bind_op Connect.connect_op.

(** ** The interface the queue needs *)
Section Instances.
  Context (S Op : Type).
#[export] Instance value_owned {VO : Value.ValueOp Op} :
  OwnedRequest (Value.Prepared S Op) (Value.Pending S Op) := {
  into_pending := Value.into_pending;
  give_back p t := Value.reclaim_unsubmitted t;
  ticket_ring := Value.t_ring;
  ticket_id := Value.t_id
}.
#[export] Instance value_custody {VO : Value.ValueOp Op} :
  Custody (Value.Prepared S Op) (Value.Pending S Op) (Value.Done S Op) S := {
  redeem_with := Value.redeem;
  deposit := Value.p_store;
  held := Value.t_store;
  withdraw := Value.d_store;
  reported := Value.d_result
}.
#[export] Instance value_laws {VO : Value.ValueOp Op} :
  OwnedRequestLaws (Value.Prepared S Op) (Value.Pending S Op).
Proof. owned_laws. Qed.
#[export] Instance value_custody_laws {VO : Value.ValueOp Op} :
  CustodyLaws (Value.Prepared S Op) (Value.Pending S Op) (Value.Done S Op) S.
Proof. custody_laws Value.redeem Value.matches. Qed.

#[export] Instance addr_owned {AO : Addr.AddrOp Op} :
  OwnedRequest (Addr.Prepared S Op) (Addr.Pending S Op) := {
  into_pending := Addr.into_pending;
  give_back p t := Addr.reclaim_unsubmitted t;
  ticket_ring := Addr.t_ring;
  ticket_id := Addr.t_id
}.
#[export] Instance addr_custody {AO : Addr.AddrOp Op} :
  Custody (Addr.Prepared S Op) (Addr.Pending S Op) (Addr.Done S Op) S := {
  redeem_with := Addr.redeem;
  deposit := Addr.p_store;
  held := Addr.t_store;
  withdraw := Addr.d_store;
  reported := Addr.d_result
}.
#[export] Instance addr_laws {AO : Addr.AddrOp Op} :
  OwnedRequestLaws (Addr.Prepared S Op) (Addr.Pending S Op).
Proof. owned_laws. Qed.
#[export] Instance addr_custody_laws {AO : Addr.AddrOp Op} :
  CustodyLaws (Addr.Prepared S Op) (Addr.Pending S Op) (Addr.Done S Op) S.
Proof. custody_laws Addr.redeem Addr.matches. Qed.
End Instances.
#[export] Existing Instances value_owned value_custody value_laws value_custody_laws.
#[export] Existing Instances addr_owned addr_custody addr_laws addr_custody_laws.
