(* ===== verification/OwnedArrays.v ===== *)
(** * Requests over arrays and destinations

    Futex waits and wakes (futex.rs), and the requests that own an array the
    kernel reads (futexwaitv.rs, filesupdate.rs) or storage it fills
    (epollwait.rs, pipe.rs, waitid.rs). *)
From stdpp Require Import base numbers list option.
From Stdlib Require Import ZArith Lia.
From S2P Require Import Prelude Flags Types UserMem RingIndex Sqe SqeFile SqeNet Resources Owned OwnedPath OwnedDirect.
Local Open Scope Z_scope.
Local Open Scope rust_scope.
Set Implicit Arguments.
Set Maximal Implicit Insertion.

(** ** Futex wait and wake (owned/futex.rs) *)
Module FutexWait.
(* src/src/owned/futex.rs:36-36 EAGAIN *)
Definition EAGAIN : Z := -11.
(* src/src/owned/futex.rs:38-38 ECANCELED *)
Definition ECANCELED : Z := -125.
(* src/src/owned/futex.rs:41-52 FutexWaitOutcome *)
Inductive Outcome : Set := Woken | ValueMismatch | Cancelled | Failed (e : Errno).
(* src/src/owned/futex.rs:55-62 FutexWaitOutcome::from_raw *)
Definition outcome_from_raw (result : Z) : Outcome :=
  if result =? 0 then Woken
  else if result =? EAGAIN then ValueMismatch
  else if result =? ECANCELED then Cancelled
  else Failed (neg_i32 result).
(* src/src/owned/futex.rs:69-75 PreparedFutexWait *)
Record Prepared : Set := mkPrepared { p_uaddr : Z; p_val : Z; p_mask : Z; p_flags : Z }.
(* src/src/owned/futex.rs:133-138 PendingFutexWait *)
Record Pending : Set := mkPending { t_ring : RingId; t_id : RequestId; t_uaddr : Z }.
(* src/src/owned/futex.rs:188-192 FutexWaitDone *)
Record Done : Set := mkDone { d_id : RequestId; d_result : Z }.
(* src/src/owned/futex.rs:98-106 PreparedFutexWait::new *)
Definition new (uaddr val mask flags : Z) : Prepared := mkPrepared uaddr val mask flags.
(* src/src/owned/futex.rs:115-125 PreparedFutexWait::into_pending *)
Definition into_pending (ring : RingId) (id : RequestId) (self : Prepared) : Sqe * Pending :=
  let sqe := NetOps.futex_wait (p_uaddr self) (p_val self) (p_mask self) (p_flags self) in
  (Modifiers.with_user_data sqe id, mkPending ring id (p_uaddr self)).
(* src/src/owned/futex.rs:165-168 PendingFutexWait::matches *)
Definition matches (self : Pending) (receipt : Receipt) : bool :=
  belongs_to receipt (t_ring self) (t_id self).
(* src/src/owned/futex.rs:176-184 PendingFutexWait::redeem *)
Definition redeem (self : Pending) (receipt : Receipt) : result Done (Pending * Receipt) :=
  if negb (matches self receipt) then Err (self, receipt)
  else Ok (mkDone (t_id self) (rc_result receipt)).
(* src/src/owned/futex.rs:208-211 FutexWaitDone::outcome *)
Definition outcome (self : Done) : Outcome := outcome_from_raw (d_result self).
End FutexWait.

Module FutexWake.
(* src/src/owned/futex.rs:218-224 PreparedFutexWake *)
Record Prepared : Set := mkPrepared { p_uaddr : Z; p_count : Z; p_mask : Z; p_flags : Z }.
(* src/src/owned/futex.rs:274-279 PendingFutexWake *)
Record Pending : Set := mkPending { t_ring : RingId; t_id : RequestId; t_uaddr : Z }.
(* src/src/owned/futex.rs:327-331 FutexWakeDone *)
Record Done : Set := mkDone { d_id : RequestId; d_result : Z }.
(* src/src/owned/futex.rs:241-249 PreparedFutexWake::new *)
Definition new (uaddr count mask flags : Z) : Prepared := mkPrepared uaddr count mask flags.
(* src/src/owned/futex.rs:258-268 PreparedFutexWake::into_pending *)
Definition into_pending (ring : RingId) (id : RequestId) (self : Prepared) : Sqe * Pending :=
  let sqe := NetOps.futex_wake (p_uaddr self) (p_count self) (p_mask self) (p_flags self) in
  (Modifiers.with_user_data sqe id, mkPending ring id (p_uaddr self)).
(* src/src/owned/futex.rs:304-307 PendingFutexWake::matches *)
Definition matches (self : Pending) (receipt : Receipt) : bool :=
  belongs_to receipt (t_ring self) (t_id self).
(* src/src/owned/futex.rs:315-323 PendingFutexWake::redeem *)
Definition redeem (self : Pending) (receipt : Receipt) : result Done (Pending * Receipt) :=
  if negb (matches self receipt) then Err (self, receipt)
  else Ok (mkDone (t_id self) (rc_result receipt)).
(* src/src/owned/futex.rs:352-358 FutexWakeDone::woken *)
Definition woken (self : Done) : result Z Error := result_of (d_result self).
End FutexWake.

(** ** Waiting on several futexes (owned/futexwaitv.rs) *)
Module FutexWaitvOp.
(* src/src/owned/futexwaitv.rs:35-61 FutexWaitvError *)
Inductive FutexWaitvError : Set :=
| ArrayTooSmall (needed got : Z)
| ArrayMisaligned (needed : Z)
| TooManyWaiters (got max : Z)
| NoWaiters.
(* src/src/owned/futexwaitv.rs:85-91 PreparedFutexWaitv *)
Record Prepared (V : Type) : Type := mkPrepared { p_array : V; p_count : Z; p_addr : Z }.
(* src/src/owned/futexwaitv.rs:209-216 PendingFutexWaitv *)
Record Pending (V : Type) : Type := mkPending {
  t_array : V; t_ring : RingId; t_id : RequestId; t_count : Z; t_addr : Z
}.
(* src/src/owned/futexwaitv.rs:292-296 FutexWaitvDone *)
Record Done (V : Type) : Type := mkDone { d_array : V; d_id : RequestId; d_result : Z }.
(* src/src/owned/futexwaitv.rs:116-155 PreparedFutexWaitv::new *)
Definition new {V} `{StableBuffer V} (waiters : list FutexWaitv) (array : V) (m : UMem)
  : result (Prepared V) (V * FutexWaitvError) * UMem :=
  let count := Z.of_nat (length waiters) in
  if count =? 0 then (Err (array, NoWaiters), m)
  else if count >? FUTEX_WAITV_MAX then (Err (array, TooManyWaiters count FUTEX_WAITV_MAX), m)
  else
    let needed := Z.of_nat (size_of FutexWaitv) * count in
    let got := stable_len array in
    if got <? needed then (Err (array, ArrayTooSmall needed got), m)
    else
      let base := stable_ptr array in
      let align := align_of FutexWaitv in
      if negb (is_multiple_of base align) then (Err (array, ArrayMisaligned align), m)
      else
        let m := write_array base waiters m in
        (Ok (mkPrepared array count base), m).
Section Moves.
  Context {V : Type}.
(* src/src/owned/futexwaitv.rs:172-188 PreparedFutexWaitv::into_pending *)
Definition into_pending (ring : RingId) (id : RequestId) (self : Prepared V) : Sqe * Pending V :=
  let nr := as_u32 (p_count self) in
  let sqe := NetOps.futex_waitv_ptr (p_addr self) nr in
  (Modifiers.with_user_data sqe id, mkPending (p_array self) ring id (p_count self) (p_addr self)).
(* src/src/owned/futexwaitv.rs:243-246 PendingFutexWaitv::matches *)
Definition matches (self : Pending V) (receipt : Receipt) : bool :=
  belongs_to receipt (t_ring self) (t_id self).
(* src/src/owned/futexwaitv.rs:254-265 PendingFutexWaitv::reclaim_unsubmitted *)
Definition reclaim_unsubmitted (self : Pending V) : Prepared V :=
  mkPrepared (t_array self) (t_count self) (t_addr self).
(* src/src/owned/futexwaitv.rs:273-287 PendingFutexWaitv::redeem *)
Definition redeem (self : Pending V) (receipt : Receipt) : result (Done V) (Pending V * Receipt) :=
  if negb (matches self receipt) then Err (self, receipt)
  else Ok (mkDone (t_array self) (t_id self) (rc_result receipt)).
(* src/src/owned/futexwaitv.rs:323-329 FutexWaitvDone::woken_index *)
Definition woken_index (self : Done V) : result Z Error := result_of (d_result self).
End Moves.
(* src/src/owned/futexwaitv.rs:166-169 PreparedFutexWaitv::into_array *)
Definition prepared_into_array {V} (self : Prepared V) : V := p_array self.
(* src/src/owned/futexwaitv.rs:332-335 FutexWaitvDone::into_array *)
Definition into_array {V} (self : Done V) : V := d_array self.
End FutexWaitvOp.

(** ** Updating the file table (owned/filesupdate.rs) *)
Module FilesUpdate.
(* src/src/owned/filesupdate.rs:66-66 CLEAR *)
Definition CLEAR : Z := -1.
(* src/src/owned/filesupdate.rs:73-82 TableEntry *)
Inductive Entry : Set := Install (fd : Z) | Clear.
(* src/src/owned/filesupdate.rs:86-92 TableEntry::raw *)
Definition entry_raw (self : Entry) : Z :=
  match self with Install fd => RawFd.as_i32 fd | Clear => CLEAR end.
(* src/src/owned/filesupdate.rs:100-124 Update *)
Inductive Update : Set :=
| All (count : Z)
| Partial (installed requested : Z)
| Failed (e : Errno).
(* src/src/owned/filesupdate.rs:128-142 Update::from_raw *)
Definition update_from_raw (result requested : Z) : Update :=
  if result <? 0 then Failed (neg_i32 result)
  else
    let installed := as_u32 result in
    if installed >=? requested then All requested else Partial installed requested.
(* src/src/owned/filesupdate.rs:152-159 Update::installed *)
Definition installed (self : Update) : Z :=
  match self with All count => count | Partial installed _ => installed | Failed _ => 0 end.
(* src/src/owned/filesupdate.rs:165-168 Update::is_complete *)
Definition is_complete (self : Update) : bool := match self with All _ => true | _ => false end.
(* src/src/owned/filesupdate.rs:188-210 FilesUpdateError *)
Inductive FilesUpdateError : Set :=
| StoreTooSmall (needed got : Z)
| StoreMisaligned (needed : Z)
| Empty.
(** The const parameter `N` is the length of the entries. *)
(* src/src/owned/filesupdate.rs:231-238 PreparedFilesUpdate *)
Record Prepared (S : Type) : Type := mkPrepared {
  p_store : S; p_entries : list Entry; p_offset : Z; p_addr : Z
}.
(* src/src/owned/filesupdate.rs:390-398 PendingFilesUpdate *)
Record Pending (S : Type) : Type := mkPending {
  t_store : S; t_ring : RingId; t_id : RequestId; t_entries : list Entry; t_offset : Z; t_addr : Z
}.
(* src/src/owned/filesupdate.rs:488-494 FilesUpdated *)
Record Updated (S : Type) : Type := mkUpdated {
  d_store : S; d_entries : list Entry; d_offset : Z; d_id : RequestId; d_result : Z
}.
Section Moves.
  Context {S : Type}.
(* src/src/owned/filesupdate.rs:296-305 PreparedFilesUpdate::publish *)
Definition publish (self : Prepared S) (m : UMem) : UMem :=
  write_array (p_addr self) (entry_raw <$> p_entries self) m.
(* src/src/owned/filesupdate.rs:333-343 PreparedFilesUpdate::published *)
Definition published (self : Prepared S) (m : UMem) : list Z :=
  read_array (p_addr self) (length (p_entries self)) m.
(* src/src/owned/filesupdate.rs:323-327 PreparedFilesUpdate::slots *)
Definition slots (self : Prepared S) : Z := as_u32 (Z.of_nat (length (p_entries self))).
(* src/src/owned/filesupdate.rs:257-288 PreparedFilesUpdate::at *)
Definition at_ `{StableBuffer S} (offset : Z) (entries : list Entry) (store : S) (m : UMem)
  : result (Prepared S) (S * FilesUpdateError) * UMem :=
  if Z.of_nat (length entries) =? 0 then (Err (store, Empty), m)
  else
    let needed := Z.of_nat (size_of Z) * Z.of_nat (length entries) in
    let got := stable_len store in
    if got <? needed then (Err (store, StoreTooSmall needed got), m)
    else
      let base := stable_ptr store in
      let align := align_of Z in
      if negb (is_multiple_of base align) then (Err (store, StoreMisaligned align), m)
      else
        let prepared := mkPrepared store entries offset base in
        (Ok prepared, publish prepared m).
(* src/src/owned/filesupdate.rs:352-376 PreparedFilesUpdate::into_pending *)
Definition into_pending (ring : RingId) (id : RequestId) (self : Prepared S) : Sqe * Pending S :=
  let sqe := NetOps.files_update_ptr (p_addr self) (slots self) (p_offset self) in
  (Modifiers.with_user_data sqe id,
   mkPending (p_store self) ring id (p_entries self) (p_offset self) (p_addr self)).
(* src/src/owned/filesupdate.rs:425-428 PendingFilesUpdate::matches *)
Definition matches (self : Pending S) (receipt : Receipt) : bool :=
  belongs_to receipt (t_ring self) (t_id self).
(* src/src/owned/filesupdate.rs:436-448 PendingFilesUpdate::reclaim_unsubmitted *)
Definition reclaim_unsubmitted (self : Pending S) : Prepared S :=
  mkPrepared (t_store self) (t_entries self) (t_offset self) (t_addr self).
(* src/src/owned/filesupdate.rs:460-476 PendingFilesUpdate::redeem *)
Definition redeem (self : Pending S) (receipt : Receipt)
  : result (Updated S) (Pending S * Receipt) :=
  if negb (matches self receipt) then Err (self, receipt)
  else Ok (mkUpdated (t_store self) (t_entries self) (t_offset self) (t_id self)
             (rc_result receipt)).
(* src/src/owned/filesupdate.rs:513-517 FilesUpdated::update *)
Definition update (self : Updated S) : Update :=
  update_from_raw (d_result self) (as_u32 (Z.of_nat (length (d_entries self)))).
(* src/src/owned/filesupdate.rs:538-541 FilesUpdated::into_parts *)
Definition into_parts (self : Updated S) : Update * S := (update self, d_store self).
End Moves.
(* src/src/owned/filesupdate.rs:346-349 PreparedFilesUpdate::into_store *)
Definition prepared_into_store {S} (self : Prepared S) : S := p_store self.
(* src/src/owned/filesupdate.rs:532-535 FilesUpdated::into_store *)
Definition into_store {S} (self : Updated S) : S := d_store self.
End FilesUpdate.

(** ** Waiting on an epoll instance (owned/epollwait.rs) *)
Module EpollWait.
(* src/src/owned/epollwait.rs:27-44 EpollWaitError *)
Inductive EpollWaitError : Set := StoreTooSmall (needed got : Z) | StoreMisaligned (needed : Z).
(* src/src/owned/epollwait.rs:62-69 clamp_max_events *)
Definition clamp_max_events (slots : Z) : Z :=
  if slots >? 4294967295 then 4294967295 else as_u32 slots.
(* src/src/owned/epollwait.rs:72-80 PreparedEpollWait *)
Record Prepared (D : Type) : Type := mkPrepared {
  p_store : D; p_epfd : Z; p_max_events : Z; p_addr : Z
}.
(* src/src/owned/epollwait.rs:170-178 PendingEpollWait *)
Record Pending (D : Type) : Type := mkPending {
  t_store : D; t_ring : RingId; t_id : RequestId; t_epfd : Z; t_max_events : Z; t_addr : Z
}.
(* src/src/owned/epollwait.rs:258-263 EpollWaitCompleted *)
Record Completed (D : Type) : Type := mkCompleted {
  d_store : D; d_id : RequestId; d_result : Z; d_addr : Z
}.
(* src/src/owned/epollwait.rs:98-121 PreparedEpollWait::new *)
Definition new {D} `{TargetArch} `{StableBuffer D} (epfd : Z) (store : D)
  : result (Prepared D) (D * EpollWaitError) :=
  let needed := Z.of_nat (size_of EpollEvent) in
  let got := stable_len store in
  if got <? needed then Err (store, StoreTooSmall needed got)
  else
    let base := stable_ptr store in
    let align := align_of EpollEvent in
    if negb (is_multiple_of base align) then Err (store, StoreMisaligned align)
    else
      let max_events := clamp_max_events (got / needed) in
      Ok (mkPrepared store epfd max_events base).
Section Moves.
  Context {D : Type}.
(* src/src/owned/epollwait.rs:144-160 PreparedEpollWait::into_pending *)
Definition into_pending (ring : RingId) (id : RequestId) (self : Prepared D) : Sqe * Pending D :=
  let sqe := NetOps.epoll_wait_ptr (p_epfd self) (p_addr self) (p_max_events self) in
  (Modifiers.with_user_data sqe id,
   mkPending (p_store self) ring id (p_epfd self) (p_max_events self) (p_addr self)).
(* src/src/owned/epollwait.rs:199-202 PendingEpollWait::matches *)
Definition matches (self : Pending D) (receipt : Receipt) : bool :=
  belongs_to receipt (t_ring self) (t_id self).
(* src/src/owned/epollwait.rs:210-222 PendingEpollWait::reclaim_unsubmitted *)
Definition reclaim_unsubmitted (self : Pending D) : Prepared D :=
  mkPrepared (t_store self) (t_epfd self) (t_max_events self) (t_addr self).
(* src/src/owned/epollwait.rs:230-245 PendingEpollWait::redeem *)
Definition redeem (self : Pending D) (receipt : Receipt)
  : result (Completed D) (Pending D * Receipt) :=
  if negb (matches self receipt) then Err (self, receipt)
  else Ok (mkCompleted (t_store self) (t_id self) (rc_result receipt) (t_addr self)).
(* src/src/owned/epollwait.rs:285-291 EpollWaitCompleted::count *)
Definition count (self : Completed D) : result Z Error := result_of (d_result self).
(* src/src/owned/epollwait.rs:298-309 EpollWaitCompleted::events *)
Definition events `{TargetArch} (self : Completed D) (m : UMem) : list EpollEvent :=
  match count self with
  | Err _ => []
  | Ok n => read_array (d_addr self) (Z.to_nat n) m
  end.
End Moves.
(* src/src/owned/epollwait.rs:138-141 PreparedEpollWait::into_store *)
Definition prepared_into_store {D} (self : Prepared D) : D := p_store self.
(* src/src/owned/epollwait.rs:318-321 EpollWaitCompleted::into_store *)
Definition into_store {D} (self : Completed D) : D := d_store self.
End EpollWait.

(** ** Pipes (owned/pipe.rs) *)
Module Pipe.
(* src/src/owned/pipe.rs:38-38 DEST_LEN *)
Definition DEST_LEN : Z := 2 * Z.of_nat (size_of Z).
(* src/src/owned/pipe.rs:40-40 DEST_ALIGN *)
Definition DEST_ALIGN : Z := align_of Z.
(* src/src/owned/pipe.rs:43-57 PipeError *)
Inductive PipeError : Set := DestTooSmall (needed got : Z) | DestMisaligned (needed : Z).
(* src/src/owned/pipe.rs:73-80 PreparedPipe *)
Record Prepared (D : Type) : Type := mkPrepared { p_dest : D; p_flags : Z; p_addr : Z }.
(* src/src/owned/pipe.rs:157-164 PendingPipe *)
Record Pending (D : Type) : Type := mkPending {
  t_dest : D; t_ring : RingId; t_id : RequestId; t_flags : Z; t_addr : Z
}.
(* src/src/owned/pipe.rs:249-254 PipeCreated *)
Record Created (D : Type) : Type := mkCreated {
  d_dest : D; d_id : RequestId; d_result : Z; d_addr : Z
}.
(* src/src/owned/pipe.rs:97-116 PreparedPipe::new *)
Definition new {D} `{StableBuffer D} (flags : Z) (dest : D) : result (Prepared D) (D * PipeError) :=
  let got := stable_len dest in
  if got <? DEST_LEN then Err (dest, DestTooSmall DEST_LEN got)
  else
    let base := stable_ptr dest in
    if negb (is_multiple_of base DEST_ALIGN) then Err (dest, DestMisaligned DEST_ALIGN)
    else Ok (mkPrepared dest flags base).
Section Moves.
  Context {D : Type}.
(* src/src/owned/pipe.rs:133-147 PreparedPipe::into_pending *)
Definition into_pending (ring : RingId) (id : RequestId) (self : Prepared D) : Sqe * Pending D :=
  let sqe := FileOps.pipe_ptr (p_addr self) (p_flags self) in
  (Modifiers.with_user_data sqe id, mkPending (p_dest self) ring id (p_flags self) (p_addr self)).
(* src/src/owned/pipe.rs:191-194 PendingPipe::matches *)
Definition matches (self : Pending D) (receipt : Receipt) : bool :=
  belongs_to receipt (t_ring self) (t_id self).
(* src/src/owned/pipe.rs:202-213 PendingPipe::reclaim_unsubmitted *)
Definition reclaim_unsubmitted (self : Pending D) : Prepared D :=
  mkPrepared (t_dest self) (t_flags self) (t_addr self).
(* src/src/owned/pipe.rs:221-236 PendingPipe::redeem *)
Definition redeem (self : Pending D) (receipt : Receipt)
  : result (Created D) (Pending D * Receipt) :=
  if negb (matches self receipt) then Err (self, receipt)
  else Ok (mkCreated (t_dest self) (t_id self) (rc_result receipt) (t_addr self)).
(* src/src/owned/pipe.rs:282-287 PipeCreated::result *)
Definition completed_result (self : Created D) : result unit Error := unit_result (d_result self).
(* src/src/owned/pipe.rs:290-299 PipeCreated::read_fd *)
Definition read_fd (self : Created D) (m : UMem) : option Z :=
  if d_result self <? 0 then None else Some (ptr_read (d_addr self) m).
(* src/src/owned/pipe.rs:302-310 PipeCreated::write_fd *)
Definition write_fd (self : Created D) (m : UMem) : option Z :=
  if d_result self <? 0 then None
  else Some (ptr_read (d_addr self + Z.of_nat (size_of Z)) m).
End Moves.
(* src/src/owned/pipe.rs:127-130 PreparedPipe::into_dest *)
Definition prepared_into_dest {D} (self : Prepared D) : D := p_dest self.
(* src/src/owned/pipe.rs:271-274 PipeCreated::is_ok *)
Definition is_ok {D} (self : Created D) : bool := cqe_is_ok (d_result self).
(* src/src/owned/pipe.rs:319-322 PipeCreated::into_dest *)
Definition into_dest {D} (self : Created D) : D := d_dest self.
End Pipe.

(** ** Waiting on a child (owned/waitid.rs) *)
Module WaitId.
(* src/src/owned/waitid.rs:29-43 WaitIdError *)
Inductive WaitIdError : Set := DestTooSmall (needed got : Z) | DestMisaligned (needed : Z).
(* src/src/owned/waitid.rs:62-70 PreparedWaitId *)
Record Prepared (D : Type) : Type := mkPrepared {
  p_dest : option D; p_id_type : IdType.t; p_id : Z; p_options : Z; p_dest_addr : Z
}.
(* src/src/owned/waitid.rs:184-193 PendingWaitId *)
Record Pending (D : Type) : Type := mkPending {
  t_dest : option D; t_ring : RingId; t_id : RequestId; t_id_type : IdType.t; t_waitid_id : Z;
  t_options : Z; t_dest_addr : Z
}.
(* src/src/owned/waitid.rs:284-289 WaitIdCompleted *)
Record Completed (D : Type) : Type := mkCompleted {
  d_dest : option D; d_id : RequestId; d_result : Z; d_dest_addr : Z
}.
(* src/src/owned/waitid.rs:87-115 PreparedWaitId::new *)
Definition new {D} `{StableBuffer D} (id_type : IdType.t) (id options : Z) (dest : D)
  : result (Prepared D) (D * WaitIdError) :=
  let needed := Z.of_nat (size_of WaitidSiginfo) in
  let got := stable_len dest in
  if got <? needed then Err (dest, DestTooSmall needed got)
  else
    let base := stable_ptr dest in
    let align := align_of WaitidSiginfo in
    if negb (is_multiple_of base align) then Err (dest, DestMisaligned align)
    else Ok (mkPrepared (Some dest) id_type id options base).
(* src/src/owned/waitid.rs:121-130 PreparedWaitId::discard *)
Definition discard {D} (id_type : IdType.t) (id options : Z) : Prepared D :=
  mkPrepared None id_type id options 0.
Section Moves.
  Context {D : Type}.
(* src/src/owned/waitid.rs:157-174 PreparedWaitId::into_pending *)
Definition into_pending (ring : RingId) (id : RequestId) (self : Prepared D) : Sqe * Pending D :=
  let sqe := NetOps.waitid (p_id_type self) (p_id self) (p_dest_addr self) (p_options self) in
  (Modifiers.with_user_data sqe id,
   mkPending (p_dest self) ring id (p_id_type self) (p_id self) (p_options self)
     (p_dest_addr self)).
(* src/src/owned/waitid.rs:220-223 PendingWaitId::matches *)
Definition matches (self : Pending D) (receipt : Receipt) : bool :=
  belongs_to receipt (t_ring self) (t_id self).
(* src/src/owned/waitid.rs:231-244 PendingWaitId::reclaim_unsubmitted *)
Definition reclaim_unsubmitted (self : Pending D) : Prepared D :=
  mkPrepared (t_dest self) (t_id_type self) (t_waitid_id self) (t_options self) (t_dest_addr self).
(* src/src/owned/waitid.rs:256-272 PendingWaitId::redeem *)
Definition redeem (self : Pending D) (receipt : Receipt)
  : result (Completed D) (Pending D * Receipt) :=
  if negb (matches self receipt) then Err (self, receipt)
  else Ok (mkCompleted (t_dest self) (t_id self) (rc_result receipt) (t_dest_addr self)).
(* src/src/owned/waitid.rs:316-321 WaitIdCompleted::result *)
Definition completed_result (self : Completed D) : result unit Error := unit_result (d_result self).
(* src/src/owned/waitid.rs:329-338 WaitIdCompleted::info *)
Definition info (self : Completed D) (m : UMem) : option WaitidSiginfo :=
  if (d_result self <? 0) || (d_dest_addr self =? 0) then None
  else Some (ptr_read (d_dest_addr self) m).
End Moves.
(* src/src/owned/waitid.rs:151-154 PreparedWaitId::into_dest *)
Definition prepared_into_dest {D} (self : Prepared D) : option D := p_dest self.
(* src/src/owned/waitid.rs:305-308 WaitIdCompleted::is_ok *)
Definition is_ok {D} (self : Completed D) : bool := cqe_is_ok (d_result self).
(* src/src/owned/waitid.rs:341-344 WaitIdCompleted::into_dest *)
Definition into_dest {D} (self : Completed D) : option D := d_dest self.
End WaitId.

(** ** The interface the queue needs *)

#[export] Instance futex_wait_owned : OwnedRequest FutexWait.Prepared FutexWait.Pending := {
  into_pending := FutexWait.into_pending;
  give_back p t := p;
  ticket_ring := FutexWait.t_ring;
  ticket_id := FutexWait.t_id
}.
#[export] Instance futex_wait_custody : Custody FutexWait.Prepared FutexWait.Pending FutexWait.Done unit := {
  redeem_with := FutexWait.redeem;
  deposit p := tt;
  held t := tt;
  withdraw d := tt;
  reported := FutexWait.d_result
}.
#[export] Instance futex_wait_laws : OwnedRequestLaws FutexWait.Prepared FutexWait.Pending.
Proof. owned_laws. Qed.
#[export] Instance futex_wait_custody_laws : CustodyLaws FutexWait.Prepared FutexWait.Pending FutexWait.Done unit.
Proof. custody_laws FutexWait.redeem FutexWait.matches. Qed.

#[export] Instance futex_wake_owned : OwnedRequest FutexWake.Prepared FutexWake.Pending := {
  into_pending := FutexWake.into_pending;
  give_back p t := p;
  ticket_ring := FutexWake.t_ring;
  ticket_id := FutexWake.t_id
}.
#[export] Instance futex_wake_custody : Custody FutexWake.Prepared FutexWake.Pending FutexWake.Done unit := {
  redeem_with := FutexWake.redeem;
  deposit p := tt;
  held t := tt;
  withdraw d := tt;
  reported := FutexWake.d_result
}.
#[export] Instance futex_wake_laws : OwnedRequestLaws FutexWake.Prepared FutexWake.Pending.
Proof. owned_laws. Qed.
#[export] Instance futex_wake_custody_laws : CustodyLaws FutexWake.Prepared FutexWake.Pending FutexWake.Done unit.
Proof. custody_laws FutexWake.redeem FutexWake.matches. Qed.

#[export] Instance futex_waitv_owned V : OwnedRequest (FutexWaitvOp.Prepared V) (FutexWaitvOp.Pending V) := {
  into_pending := FutexWaitvOp.into_pending;
  give_back p t := FutexWaitvOp.reclaim_unsubmitted t;
  ticket_ring := FutexWaitvOp.t_ring;
  ticket_id := FutexWaitvOp.t_id
}.
#[export] Instance futex_waitv_custody V : Custody (FutexWaitvOp.Prepared V) (FutexWaitvOp.Pending V) (FutexWaitvOp.Done V) V := {
  redeem_with := FutexWaitvOp.redeem;
  deposit p := FutexWaitvOp.p_array p;
  held t := FutexWaitvOp.t_array t;
  withdraw d := FutexWaitvOp.d_array d;
  reported := FutexWaitvOp.d_result
}.
#[export] Instance futex_waitv_laws V : OwnedRequestLaws (FutexWaitvOp.Prepared V) (FutexWaitvOp.Pending V).
Proof. owned_laws. Qed.
#[export] Instance futex_waitv_custody_laws V : CustodyLaws (FutexWaitvOp.Prepared V) (FutexWaitvOp.Pending V) (FutexWaitvOp.Done V) V.
Proof. custody_laws FutexWaitvOp.redeem FutexWaitvOp.matches. Qed.

#[export] Instance files_update_owned S : OwnedRequest (FilesUpdate.Prepared S) (FilesUpdate.Pending S) := {
  into_pending := FilesUpdate.into_pending;
  give_back p t := FilesUpdate.reclaim_unsubmitted t;
  ticket_ring := FilesUpdate.t_ring;
  ticket_id := FilesUpdate.t_id
}.
#[export] Instance files_update_custody S : Custody (FilesUpdate.Prepared S) (FilesUpdate.Pending S) (FilesUpdate.Updated S) S := {
  redeem_with := FilesUpdate.redeem;
  deposit p := FilesUpdate.p_store p;
  held t := FilesUpdate.t_store t;
  withdraw d := FilesUpdate.d_store d;
  reported := FilesUpdate.d_result
}.
#[export] Instance files_update_laws S : OwnedRequestLaws (FilesUpdate.Prepared S) (FilesUpdate.Pending S).
Proof. owned_laws. Qed.
#[export] Instance files_update_custody_laws S : CustodyLaws (FilesUpdate.Prepared S) (FilesUpdate.Pending S) (FilesUpdate.Updated S) S.
Proof. custody_laws FilesUpdate.redeem FilesUpdate.matches. Qed.

#[export] Instance epoll_wait_owned D : OwnedRequest (EpollWait.Prepared D) (EpollWait.Pending D) := {
  into_pending := EpollWait.into_pending;
  give_back p t := EpollWait.reclaim_unsubmitted t;
  ticket_ring := EpollWait.t_ring;
  ticket_id := EpollWait.t_id
}.
#[export] Instance epoll_wait_custody D : Custody (EpollWait.Prepared D) (EpollWait.Pending D) (EpollWait.Completed D) D := {
  redeem_with := EpollWait.redeem;
  deposit p := EpollWait.p_store p;
  held t := EpollWait.t_store t;
  withdraw d := EpollWait.d_store d;
  reported := EpollWait.d_result
}.
#[export] Instance epoll_wait_laws D : OwnedRequestLaws (EpollWait.Prepared D) (EpollWait.Pending D).
Proof. owned_laws. Qed.
#[export] Instance epoll_wait_custody_laws D : CustodyLaws (EpollWait.Prepared D) (EpollWait.Pending D) (EpollWait.Completed D) D.
Proof. custody_laws EpollWait.redeem EpollWait.matches. Qed.

#[export] Instance pipe_owned D : OwnedRequest (Pipe.Prepared D) (Pipe.Pending D) := {
  into_pending := Pipe.into_pending;
  give_back p t := Pipe.reclaim_unsubmitted t;
  ticket_ring := Pipe.t_ring;
  ticket_id := Pipe.t_id
}.
#[export] Instance pipe_custody D : Custody (Pipe.Prepared D) (Pipe.Pending D) (Pipe.Created D) D := {
  redeem_with := Pipe.redeem;
  deposit p := Pipe.p_dest p;
  held t := Pipe.t_dest t;
  withdraw d := Pipe.d_dest d;
  reported := Pipe.d_result
}.
#[export] Instance pipe_laws D : OwnedRequestLaws (Pipe.Prepared D) (Pipe.Pending D).
Proof. owned_laws. Qed.
#[export] Instance pipe_custody_laws D : CustodyLaws (Pipe.Prepared D) (Pipe.Pending D) (Pipe.Created D) D.
Proof. custody_laws Pipe.redeem Pipe.matches. Qed.

#[export] Instance waitid_owned D : OwnedRequest (WaitId.Prepared D) (WaitId.Pending D) := {
  into_pending := WaitId.into_pending;
  give_back p t := WaitId.reclaim_unsubmitted t;
  ticket_ring := WaitId.t_ring;
  ticket_id := WaitId.t_id
}.
#[export] Instance waitid_custody D : Custody (WaitId.Prepared D) (WaitId.Pending D) (WaitId.Completed D) (option D) := {
  redeem_with := WaitId.redeem;
  deposit p := WaitId.p_dest p;
  held t := WaitId.t_dest t;
  withdraw d := WaitId.d_dest d;
  reported := WaitId.d_result
}.
#[export] Instance waitid_laws D : OwnedRequestLaws (WaitId.Prepared D) (WaitId.Pending D).
Proof. owned_laws. Qed.
#[export] Instance waitid_custody_laws D : CustodyLaws (WaitId.Prepared D) (WaitId.Pending D) (WaitId.Completed D) (option D).
Proof. custody_laws WaitId.redeem WaitId.matches. Qed.
