(* ===== verification/OwnedMsg.v ===== *)
(** * Vectored and message requests

    Reads and writes over several buffers (owned/vectored.rs), and messages
    whose header, descriptors and address are staged in one region
    (owned/msgregion.rs): sendmsg, zero-copy sendmsg and recvmsg.  An array
    `[B; N]` is a list, and `N` its length. *)
From stdpp Require Import base numbers list option.
From Stdlib Require Import ZArith Lia.
From S2P Require Import Prelude Flags Types UserMem RingIndex Sqe SqeFile SqeNet Resources Owned.
Local Open Scope Z_scope.
Local Open Scope rust_scope.
Set Implicit Arguments.
Set Maximal Implicit Insertion.

(** The full lengths, and the lengths asked for, cut to what is owned. *)
Definition full_lens {B} `{StableBuffer B} (bufs : list B) : list Z := stable_len <$> bufs.
Definition clamped_lens {B} `{StableBuffer B} (lens : list Z) (bufs : list B) : list Z :=
  zip_with (fun want buf => Z.min want (stable_len buf)) lens bufs.
(** One descriptor per buffer. *)
Definition descriptors {B} `{StableBuffer B} (bufs : list B) (lens : list Z) : list IoVec :=
  zip_with (fun buf len => mkIoVec (stable_ptr buf) len) bufs lens.

(** ** Vectored reads and writes (owned/vectored.rs) *)
Module Vectored.
(* src/src/owned/vectored.rs:41-58 VectoredError *)
Inductive VectoredError : Set := ArrayTooSmall (needed got : Z) | ArrayMisaligned (needed : Z).
(* src/src/owned/vectored.rs:60-64 From<VectoredError> *)
Definition from_vectored (_ : VectoredError) : Error := Setup (InvalidArg BufferSizeZero).
(* src/src/owned/vectored.rs:84-94 PreparedVectored *)
Record Prepared (B V : Type) : Type := mkPrepared {
  p_bufs : list B; p_vecs : V; p_fd : Z; p_offset : Z; p_direction : Direction; p_array : Z
}.
(* src/src/owned/vectored.rs:304-316 PendingVectored *)
Record Pending (B V : Type) : Type := mkPending {
  t_bufs : list B; t_vecs : V; t_ring : RingId; t_id : RequestId; t_fd : Z; t_offset : Z;
  t_direction : Direction; t_array : Z
}.
(* src/src/owned/vectored.rs:418-423 VectoredCompleted *)
Record Completed (B V : Type) : Type := mkCompleted {
  d_bufs : list B; d_vecs : V; d_result : Z; d_direction : Direction
}.
Section Ops.
  Context {PW : PtrWidth} {B V : Type} `{StableBuffer B}.
(* src/src/owned/vectored.rs:205-217 PreparedVectored::write_array *)
Definition write_array (self : Prepared B V) (lens : list Z) (m : UMem) : UMem :=
  UserMem.write_array (p_array self) (descriptors (p_bufs self) lens) m.
(* src/src/owned/vectored.rs:163-202 PreparedVectored::build *)
Definition build `{StableBuffer V} (fd : Z) (bufs : list B) (vecs : V) (offset : Z)
  (direction : Direction) (lens : list Z) (m : UMem)
  : result (Prepared B V) (list B * V * VectoredError) * UMem :=
  let needed := Z.of_nat (size_of IoVec) * Z.of_nat (length bufs) in
  let got := stable_len vecs in
  if got <? needed then (Err (bufs, vecs, ArrayTooSmall needed got), m)
  else
    let base := stable_ptr vecs in
    if negb (is_multiple_of base (align_of IoVec))
    then (Err (bufs, vecs, ArrayMisaligned (align_of IoVec)), m)
    else
      let prepared := mkPrepared bufs vecs fd offset direction base in
      (Ok prepared, write_array prepared lens m).
(* src/src/owned/vectored.rs:110-121 PreparedVectored::readv *)
Definition readv `{StableBuffer V} (fd : Z) (bufs : list B) (vecs : V) (offset : Z) (m : UMem)
  : result (Prepared B V) (list B * V * VectoredError) * UMem :=
  let lens := full_lens bufs in build fd bufs vecs offset Read lens m.
(* src/src/owned/vectored.rs:134-145 PreparedVectored::writev *)
Definition writev `{StableBuffer V} (fd : Z) (bufs : list B) (vecs : V) (offset : Z) (m : UMem)
  : result (Prepared B V) (list B * V * VectoredError) * UMem :=
  let lens := full_lens bufs in build fd bufs vecs offset Write lens m.
(* src/src/owned/vectored.rs:153-161 PreparedVectored::with_lens *)
Definition with_lens (lens : list Z) (self : Prepared B V) (m : UMem) : Prepared B V * UMem :=
  let clamped := clamped_lens lens (p_bufs self) in
  (self, write_array self clamped m).
End Ops.
Section Moves.
  Context {B V : Type}.
(* src/src/owned/vectored.rs:220-227 PreparedVectored::total_len *)
Definition total_len {PW : PtrWidth} (self : Prepared B V) (m : UMem) : Z :=
  foldr Z.add 0 (iov_len <$> read_array (p_array self) (length (p_bufs self)) m).
(* src/src/owned/vectored.rs:267-295 PreparedVectored::into_pending *)
Definition into_pending (ring : RingId) (id : RequestId) (self : Prepared B V)
  : Sqe * Pending B V :=
  let nr := as_u32 (Z.of_nat (length (p_bufs self))) in
  let sqe := match p_direction self with
             | Read => FileOps.readv_ptr (p_fd self) (p_array self) nr (p_offset self)
             | Write => FileOps.writev_ptr (p_fd self) (p_array self) nr (p_offset self)
             end in
  (Modifiers.with_user_data sqe id,
   mkPending (p_bufs self) (p_vecs self) ring id (p_fd self) (p_offset self) (p_direction self)
     (p_array self)).
(* src/src/owned/vectored.rs:355-358 PendingVectored::matches *)
Definition matches (self : Pending B V) (receipt : Receipt) : bool :=
  belongs_to receipt (t_ring self) (t_id self).
(* src/src/owned/vectored.rs:395-414 PendingVectored::reclaim_unsubmitted *)
Definition reclaim_unsubmitted (self : Pending B V) : Prepared B V :=
  mkPrepared (t_bufs self) (t_vecs self) (t_fd self) (t_offset self) (t_direction self)
    (t_array self).
(* src/src/owned/vectored.rs:366-387 PendingVectored::redeem *)
Definition redeem (self : Pending B V) (receipt : Receipt)
  : result (Completed B V) (Pending B V * Receipt) :=
  if negb (matches self receipt) then Err (self, receipt)
  else Ok (mkCompleted (t_bufs self) (t_vecs self) (rc_result receipt) (t_direction self)).
(* src/src/owned/vectored.rs:449-455 VectoredCompleted::result *)
Definition completed_result (self : Completed B V) : result Z Error := result_of (d_result self).
(* src/src/owned/vectored.rs:467-469 VectoredCompleted::into_parts *)
Definition into_parts (self : Completed B V) : result Z Error * list B * V :=
  (completed_result self, d_bufs self, d_vecs self).
End Moves.
(* src/src/owned/vectored.rs:261-264 PreparedVectored::into_parts *)
Definition prepared_into_parts {B V} (self : Prepared B V) : list B * V := (p_bufs self, p_vecs self).
End Vectored.

(** ** The staging region (owned/msgregion.rs) *)
Module Region.
(* src/src/owned/msgregion.rs:44-44 MAX_IOV *)
Definition MAX_IOV : Z := 1024.
(* src/src/owned/msgregion.rs:50-82 MsgRegionError *)
Inductive MsgRegionError : Set :=
| RegionTooSmall (needed got : Z)
| RegionMisaligned (needed : Z)
| TooManyDescriptors (got max : Z).
(* src/src/owned/msgregion.rs:104-110 MsgRegion *)
Record t (R : Type) : Type := mk { store : R; hdr : Z; vecs : Z; name : Z; count : Z }.
Section Region.
  Context {PW : PtrWidth} {R : Type}.
(* src/src/owned/msgregion.rs:175-177 MsgRegion::name_offset *)
Definition name_offset (count : Z) : Z :=
  Z.of_nat (size_of MsgHdr) + Z.of_nat (size_of IoVec) * count.
(* src/src/owned/msgregion.rs:171-173 MsgRegion::bytes_for *)
Definition bytes_for (count : Z) : Z := name_offset count + Z.of_nat (size_of SockAddrIn).
(* src/src/owned/msgregion.rs:124-166 MsgRegion::stage *)
Definition stage `{StableBuffer R} (store : R) (count : Z) : result (t R) (R * MsgRegionError) :=
  if count >? MAX_IOV then Err (store, TooManyDescriptors count MAX_IOV)
  else
    let needed := bytes_for count in
    let got := stable_len store in
    if got <? needed then Err (store, RegionTooSmall needed got)
    else
      let base := stable_ptr store in
      let align := align_of MsgHdr in
      if negb (is_multiple_of base align) then Err (store, RegionMisaligned align)
      else
        let hdr := base in
        let vecs := base + Z.of_nat (size_of MsgHdr) in
        let name := base + name_offset count in
        Ok (mk store hdr vecs name count).
(* src/src/owned/msgregion.rs:185-190 MsgRegion::write_descriptor *)
Definition write_descriptor (self : t R) (index : nat) (base len : Z) (m : UMem) : UMem :=
  ptr_write (vecs self + Z.of_nat (size_of IoVec) * Z.of_nat index) (mkIoVec base len) m.
(* src/src/owned/msgregion.rs:193-198 MsgRegion::descriptor *)
Definition descriptor (self : t R) (index : nat) (m : UMem) : IoVec :=
  ptr_read (vecs self + Z.of_nat (size_of IoVec) * Z.of_nat index) m.
(* src/src/owned/msgregion.rs:201-205 MsgRegion::write_name *)
Definition write_name (self : t R) (addr : SockAddrIn) (m : UMem) : UMem :=
  ptr_write (name self) addr m.
(* src/src/owned/msgregion.rs:214-218 MsgRegion::staged_name *)
Definition staged_name (self : t R) (m : UMem) : SockAddrIn := ptr_read (name self) m.
(** The header `publish_header` builds. *)
Definition header_of (self : t R) (named : bool) : MsgHdr :=
  mkMsgHdr (if named then name self else 0)
    (if named then as_u32 (Z.of_nat (size_of SockAddrIn)) else 0)
    (vecs self) (count self) 0 0 0.
(* src/src/owned/msgregion.rs:231-246 MsgRegion::publish_header *)
Definition publish_header (self : t R) (named : bool) (m : UMem) : UMem :=
  ptr_write (hdr self) (header_of self named) m.
(* src/src/owned/msgregion.rs:250-254 MsgRegion::header *)
Definition header (self : t R) (m : UMem) : MsgHdr := ptr_read (hdr self) m.
(* src/src/owned/msgregion.rs:257-259 MsgRegion::header_ptr *)
Definition header_ptr (self : t R) : Z := hdr self.
(* src/src/owned/msgregion.rs:262-264 MsgRegion::into_store *)
Definition into_store (self : t R) : R := store self.
(* src/src/owned/msgregion.rs:267-281 MsgRegion::from_parts *)
Definition from_parts (store : R) (hdr vecs name count : Z) : t R := mk store hdr vecs name count.
(* src/src/owned/msgregion.rs:285-296 MsgRegion::into_raw_parts *)
Definition into_raw_parts (self : t R) : R * Z * Z * Z * Z :=
  (store self, hdr self, vecs self, name self, count self).
(** The loop of the three `write_descriptors`: descriptor [i] names buffer [i]. *)
Fixpoint write_from (self : t R) (i : nat) (vs : list IoVec) (m : UMem) : UMem :=
  match vs with
  | [] => m
  | v :: vs => write_from self (S i) vs (write_descriptor self i (iov_base v) (iov_len v) m)
  end.
(** The sum of the descriptors' lengths, as `total_len` and `capacity` read it. *)
Definition lens_sum (self : t R) (n : nat) (m : UMem) : Z :=
  foldr Z.add 0 ((fun i => iov_len (descriptor self i m)) <$> seq 0 n).
End Region.
End Region.

(** ** sendmsg (owned/sendmsg.rs) *)
Module Sendmsg.
(* src/src/owned/sendmsg.rs:58-64 SendTarget *)
Inductive Target : Set := Connected | To (addr : SockAddrIn).
Definition is_to (self : Target) : bool := match self with To _ => true | Connected => false end.
(* src/src/owned/sendmsg.rs:71-77 PreparedSendmsg *)
Record Prepared (B R : Type) : Type := mkPrepared {
  p_bufs : list B; p_region : Region.t R; p_fd : Z; p_flags : Z; p_target : Target
}.
(* src/src/owned/sendmsg.rs:288-303 PendingSendmsg *)
Record Pending (B R : Type) : Type := mkPending {
  t_bufs : list B; t_store : R; t_hdr : Z; t_vecs : Z; t_name : Z; t_count : Z; t_ring : RingId;
  t_id : RequestId; t_fd : Z; t_flags : Z; t_target : Target
}.
(* src/src/owned/sendmsg.rs:407-411 SendmsgCompleted *)
Record Completed (B R : Type) : Type := mkCompleted {
  d_bufs : list B; d_region : Region.t R; d_result : Z
}.
Section Ops.
  Context {PW : PtrWidth} {B R : Type} `{StableBuffer B}.
(* src/src/owned/sendmsg.rs:146-157 PreparedSendmsg::write_descriptors *)
Definition write_descriptors (self : Prepared B R) (lens : list Z) (m : UMem) : UMem :=
  Region.write_from (p_region self) 0 (descriptors (p_bufs self) lens) m.
(* src/src/owned/sendmsg.rs:160-166 PreparedSendmsg::publish *)
Definition publish (self : Prepared B R) (m : UMem) : UMem :=
  let m := match p_target self with
           | To addr => Region.write_name (p_region self) addr m
           | Connected => m
           end in
  Region.publish_header (p_region self) (is_to (p_target self)) m.
(* src/src/owned/sendmsg.rs:121-143 PreparedSendmsg::build *)
Definition build `{StableBuffer R} (fd : Z) (bufs : list B) (region : R) (target : Target)
  (flags : Z) (lens : list Z) (m : UMem)
  : result (Prepared B R) (list B * R * Region.MsgRegionError) * UMem :=
  match Region.stage region (Z.of_nat (length bufs)) with
  | Err (store, e) => (Err (bufs, store, e), m)
  | Ok region =>
      let prepared := mkPrepared bufs region fd flags target in
      let m := write_descriptors prepared lens m in
      (Ok prepared, publish prepared m)
  end.
(* src/src/owned/sendmsg.rs:91-103 PreparedSendmsg::new *)
Definition new `{StableBuffer R} (fd : Z) (bufs : list B) (region : R) (target : Target)
  (flags : Z) (m : UMem) : result (Prepared B R) (list B * R * Region.MsgRegionError) * UMem :=
  let lens := full_lens bufs in build fd bufs region target flags lens m.
(* src/src/owned/sendmsg.rs:111-119 PreparedSendmsg::with_lens *)
Definition with_lens (lens : list Z) (self : Prepared B R) (m : UMem) : Prepared B R * UMem :=
  let clamped := clamped_lens lens (p_bufs self) in
  (self, write_descriptors self clamped m).
End Ops.
Section Moves.
  Context {B R : Type}.
(* src/src/owned/sendmsg.rs:195-198 PreparedSendmsg::total_len *)
Definition total_len {PW : PtrWidth} (self : Prepared B R) (m : UMem) : Z :=
  Region.lens_sum (p_region self) (length (p_bufs self)) m.
(* src/src/owned/sendmsg.rs:204-207 PreparedSendmsg::published_header *)
Definition published_header {PW : PtrWidth} (self : Prepared B R) (m : UMem) : MsgHdr :=
  Region.header (p_region self) m.
(** The assertion on the index panics: [None]. *)
(* src/src/owned/sendmsg.rs:214-218 PreparedSendmsg::published_descriptor *)
Definition published_descriptor {PW : PtrWidth} (self : Prepared B R) (index : nat) (m : UMem)
  : option IoVec :=
  if (index <? length (p_bufs self))%nat then Some (Region.descriptor (p_region self) index m)
  else None.
(* src/src/owned/sendmsg.rs:244-273 PreparedSendmsg::into_pending *)
Definition into_pending (ring : RingId) (id : RequestId) (self : Prepared B R)
  : Sqe * Pending B R :=
  let sqe := NetOps.sendmsg_ptr (p_fd self) (Region.header_ptr (p_region self)) (p_flags self) in
  let '(store, hdr, vecs, name, count) := Region.into_raw_parts (p_region self) in
  (Modifiers.with_user_data sqe id,
   mkPending (p_bufs self) store hdr vecs name count ring id (p_fd self) (p_flags self)
     (p_target self)).
(* src/src/owned/sendmsg.rs:336-339 PendingSendmsg::matches *)
Definition matches (self : Pending B R) (receipt : Receipt) : bool :=
  belongs_to receipt (t_ring self) (t_id self).
(** The region a ticket is made of. *)
Definition region_of (self : Pending B R) : Region.t R :=
  Region.from_parts (t_store self) (t_hdr self) (t_vecs self) (t_name self) (t_count self).
(* src/src/owned/sendmsg.rs:347-367 PendingSendmsg::redeem *)
Definition redeem (self : Pending B R) (receipt : Receipt)
  : result (Completed B R) (Pending B R * Receipt) :=
  if negb (matches self receipt) then Err (self, receipt)
  else Ok (mkCompleted (t_bufs self) (region_of self) (rc_result receipt)).
(* src/src/owned/sendmsg.rs:376-394 PendingSendmsg::reclaim_unsubmitted *)
Definition reclaim_unsubmitted (self : Pending B R) : Prepared B R :=
  mkPrepared (t_bufs self) (region_of self) (t_fd self) (t_flags self) (t_target self).
(* src/src/owned/sendmsg.rs:429-435 SendmsgCompleted::result *)
Definition completed_result (self : Completed B R) : result Z Error := result_of (d_result self).
(* src/src/owned/sendmsg.rs:458-460 SendmsgCompleted::into_parts *)
Definition into_parts (self : Completed B R) : result Z Error * list B * R :=
  (completed_result self, d_bufs self, Region.into_store (d_region self)).
End Moves.
(* src/src/owned/sendmsg.rs:238-241 PreparedSendmsg::into_parts *)
Definition prepared_into_parts {B R} (self : Prepared B R) : list B * R := (p_bufs self, Region.into_store (p_region self)).
End Sendmsg.

(** ** Zero-copy sendmsg (owned/sendmsg_zc.rs) *)
Module SendmsgZc.
(* src/src/owned/sendmsg_zc.rs:36-42 PreparedSendmsgZc *)
Record Prepared (B R : Type) : Type := mkPrepared {
  p_bufs : list B; p_region : Region.t R; p_fd : Z; p_flags : Z; p_target : Sendmsg.Target
}.
(* src/src/owned/sendmsg_zc.rs:231-245 PendingSendmsgZc *)
Record Pending (B R : Type) : Type := mkPending {
  t_bufs : list B; t_store : R; t_hdr : Z; t_vecs : Z; t_name : Z; t_count : Z; t_ring : RingId;
  t_id : RequestId; t_fd : Z; t_flags : Z; t_target : Sendmsg.Target; t_sent : option Z
}.
(* src/src/owned/sendmsg_zc.rs:384-389 SendmsgZcCompleted *)
Record Completed (B R : Type) : Type := mkCompleted {
  d_bufs : list B; d_region : Region.t R; d_sent : option Z; d_notified : Z
}.
Section Ops.
  Context {PW : PtrWidth} {B R : Type} `{StableBuffer B}.
(* src/src/owned/sendmsg_zc.rs:105-116 PreparedSendmsgZc::write_descriptors *)
Definition write_descriptors (self : Prepared B R) (lens : list Z) (m : UMem) : UMem :=
  Region.write_from (p_region self) 0 (descriptors (p_bufs self) lens) m.
(* src/src/owned/sendmsg_zc.rs:118-124 PreparedSendmsgZc::publish *)
Definition publish (self : Prepared B R) (m : UMem) : UMem :=
  let m := match p_target self with
           | Sendmsg.To addr => Region.write_name (p_region self) addr m
           | Sendmsg.Connected => m
           end in
  Region.publish_header (p_region self) (Sendmsg.is_to (p_target self)) m.
(* src/src/owned/sendmsg_zc.rs:81-103 PreparedSendmsgZc::build *)
Definition build `{StableBuffer R} (fd : Z) (bufs : list B) (region : R) (target : Sendmsg.Target)
  (flags : Z) (lens : list Z) (m : UMem)
  : result (Prepared B R) (list B * R * Region.MsgRegionError) * UMem :=
  match Region.stage region (Z.of_nat (length bufs)) with
  | Err (store, e) => (Err (bufs, store, e), m)
  | Ok region =>
      let prepared := mkPrepared bufs region fd flags target in
      let m := write_descriptors prepared lens m in
      (Ok prepared, publish prepared m)
  end.
(* src/src/owned/sendmsg_zc.rs:53-65 PreparedSendmsgZc::new *)
Definition new `{StableBuffer R} (fd : Z) (bufs : list B) (region : R) (target : Sendmsg.Target)
  (flags : Z) (m : UMem) : result (Prepared B R) (list B * R * Region.MsgRegionError) * UMem :=
  let lens := full_lens bufs in build fd bufs region target flags lens m.
(* src/src/owned/sendmsg_zc.rs:71-79 PreparedSendmsgZc::with_lens *)
Definition with_lens (lens : list Z) (self : Prepared B R) (m : UMem) : Prepared B R * UMem :=
  let clamped := clamped_lens lens (p_bufs self) in
  (self, write_descriptors self clamped m).
End Ops.
Section Moves.
  Context {B R : Type}.
(* src/src/owned/sendmsg_zc.rs:188-218 PreparedSendmsgZc::into_pending *)
Definition into_pending (ring : RingId) (id : RequestId) (self : Prepared B R)
  : Sqe * Pending B R :=
  let sqe := NetOps.sendmsg_zc_ptr (p_fd self) (Region.header_ptr (p_region self)) (p_flags self) in
  let '(store, hdr, vecs, name, count) := Region.into_raw_parts (p_region self) in
  (Modifiers.with_user_data sqe id,
   mkPending (p_bufs self) store hdr vecs name count ring id (p_fd self) (p_flags self)
     (p_target self) None).
(* src/src/owned/sendmsg_zc.rs:287-290 PendingSendmsgZc::matches *)
Definition matches (self : Pending B R) (receipt : Receipt) : bool :=
  belongs_to receipt (t_ring self) (t_id self).
(* src/src/owned/sendmsg_zc.rs:293-296 PendingSendmsgZc::matches_sent *)
Definition matches_sent (self : Pending B R) (notice : PartialReceipt.t) : bool :=
  PartialReceipt.belongs_to notice (t_ring self) (t_id self).
(* src/src/owned/sendmsg_zc.rs:307-316 PendingSendmsgZc::record_sent *)
Definition record_sent (self : Pending B R) (notice : PartialReceipt.t)
  : result (Pending B R) (Pending B R * PartialReceipt.t) :=
  if negb (matches_sent self notice) then Err (self, notice)
  else Ok (mkPending (t_bufs self) (t_store self) (t_hdr self) (t_vecs self) (t_name self)
             (t_count self) (t_ring self) (t_id self) (t_fd self) (t_flags self) (t_target self)
             (Some (PartialReceipt.result notice))).
Definition region_of (self : Pending B R) : Region.t R :=
  Region.from_parts (t_store self) (t_hdr self) (t_vecs self) (t_name self) (t_count self).
(* src/src/owned/sendmsg_zc.rs:323-341 PendingSendmsgZc::reclaim_unsubmitted *)
Definition reclaim_unsubmitted (self : Pending B R) : Prepared B R :=
  mkPrepared (t_bufs self) (region_of self) (t_fd self) (t_flags self) (t_target self).
(* src/src/owned/sendmsg_zc.rs:349-371 PendingSendmsgZc::redeem *)
Definition redeem (self : Pending B R) (receipt : Receipt)
  : result (Completed B R) (Pending B R * Receipt) :=
  if negb (matches self receipt) then Err (self, receipt)
  else Ok (mkCompleted (t_bufs self) (region_of self) (t_sent self) (rc_result receipt)).
(* src/src/owned/sendmsg_zc.rs:414-424 SendmsgZcCompleted::result *)
Definition completed_result (self : Completed B R) : result Z Error :=
  let raw := match d_sent self with Some sent => sent | None => d_notified self end in
  result_of raw.
(* src/src/owned/sendmsg_zc.rs:442-444 SendmsgZcCompleted::into_parts *)
Definition into_parts (self : Completed B R) : result Z Error * list B * R :=
  (completed_result self, d_bufs self, Region.into_store (d_region self)).
End Moves.
(* src/src/owned/sendmsg_zc.rs:182-185 PreparedSendmsgZc::into_parts *)
Definition prepared_into_parts {B R} (self : Prepared B R) : list B * R := (p_bufs self, Region.into_store (p_region self)).
End SendmsgZc.

(** ** recvmsg (owned/recvmsg.rs) *)
Module Recvmsg.
(* src/src/owned/recvmsg.rs:53-54 AF_INET_FAMILY *)
Definition AF_INET_FAMILY : Z := as_u16 (AddressFamily.as_raw AddressFamily.Inet).
(* src/src/owned/recvmsg.rs:57-58 RESERVED_NAME_LEN *)
Definition RESERVED_NAME_LEN : Z := as_u32 (Z.of_nat (size_of SockAddrIn)).
(* src/src/owned/recvmsg.rs:66-72 PeerWanted *)
Inductive PeerWanted : Set := No | Yes.
(* src/src/owned/recvmsg.rs:90-119 PeerAddress *)
Inductive PeerAddress : Set :=
| NoPeer
| V4 (addr : SockAddrIn)
| Truncated (reported reserved : Z)
| Other (family reported : Z).
(* src/src/owned/recvmsg.rs:123-129 PeerAddress::v4 *)
Definition peer_v4 (self : PeerAddress) : option SockAddrIn :=
  match self with V4 addr => Some addr | _ => None end.
(* src/src/owned/recvmsg.rs:132-135 PeerAddress::is_truncated *)
Definition is_truncated (self : PeerAddress) : bool :=
  match self with Truncated _ _ => true | _ => false end.
(* src/src/owned/recvmsg.rs:587-591 Received *)
Record Received : Set := mkReceived { bytes : Z; flags : Z }.
(* src/src/owned/recvmsg.rs:611-614 Received::truncated *)
Definition truncated (self : Received) : bool := contains (flags self) MsgOutFlags.TRUNC.
(* src/src/owned/recvmsg.rs:617-620 Received::control_truncated *)
Definition control_truncated (self : Received) : bool := contains (flags self) MsgOutFlags.CTRUNC.
(* src/src/owned/recvmsg.rs:143-149 PreparedRecvmsg *)
Record Prepared (B R : Type) : Type := mkPrepared {
  p_bufs : list B; p_region : Region.t R; p_fd : Z; p_flags : Z; p_peer : PeerWanted
}.
(* src/src/owned/recvmsg.rs:351-366 PendingRecvmsg *)
Record Pending (B R : Type) : Type := mkPending {
  t_bufs : list B; t_store : R; t_hdr : Z; t_vecs : Z; t_name : Z; t_count : Z; t_ring : RingId;
  t_id : RequestId; t_fd : Z; t_flags : Z; t_wanted : PeerWanted
}.
(* src/src/owned/recvmsg.rs:474-479 RecvmsgCompleted *)
Record Completed (B R : Type) : Type := mkCompleted {
  d_bufs : list B; d_region : Region.t R; d_result : Z; d_wanted : PeerWanted
}.
Section Ops.
  Context {PW : PtrWidth} {B R : Type} `{StableBuffer B}.
(* src/src/owned/recvmsg.rs:219-229 PreparedRecvmsg::write_descriptors *)
Definition write_descriptors (self : Prepared B R) (lens : list Z) (m : UMem) : UMem :=
  Region.write_from (p_region self) 0 (descriptors (p_bufs self) lens) m.
(* src/src/owned/recvmsg.rs:237-243 PreparedRecvmsg::publish *)
Definition publish (self : Prepared B R) (m : UMem) : UMem :=
  let named := match p_peer self with Yes => true | No => false end in
  let m := if named then Region.write_name (p_region self) sockaddr_default m else m in
  Region.publish_header (p_region self) named m.
(* src/src/owned/recvmsg.rs:194-216 PreparedRecvmsg::build *)
Definition build `{StableBuffer R} (fd : Z) (bufs : list B) (region : R) (peer : PeerWanted)
  (flags : Z) (lens : list Z) (m : UMem)
  : result (Prepared B R) (list B * R * Region.MsgRegionError) * UMem :=
  match Region.stage region (Z.of_nat (length bufs)) with
  | Err (store, e) => (Err (bufs, store, e), m)
  | Ok region =>
      let prepared := mkPrepared bufs region fd flags peer in
      let m := write_descriptors prepared lens m in
      (Ok prepared, publish prepared m)
  end.
(* src/src/owned/recvmsg.rs:164-176 PreparedRecvmsg::new *)
Definition new `{StableBuffer R} (fd : Z) (bufs : list B) (region : R) (peer : PeerWanted)
  (flags : Z) (m : UMem) : result (Prepared B R) (list B * R * Region.MsgRegionError) * UMem :=
  let lens := full_lens bufs in build fd bufs region peer flags lens m.
(* src/src/owned/recvmsg.rs:184-192 PreparedRecvmsg::with_lens *)
Definition with_lens (lens : list Z) (self : Prepared B R) (m : UMem) : Prepared B R * UMem :=
  let clamped := clamped_lens lens (p_bufs self) in
  (self, write_descriptors self clamped m).
End Ops.
Section Moves.
  Context {B R : Type}.
(* src/src/owned/recvmsg.rs:272-275 PreparedRecvmsg::capacity *)
Definition capacity {PW : PtrWidth} (self : Prepared B R) (m : UMem) : Z :=
  Region.lens_sum (p_region self) (length (p_bufs self)) m.
(* src/src/owned/recvmsg.rs:307-336 PreparedRecvmsg::into_pending *)
Definition into_pending (ring : RingId) (id : RequestId) (self : Prepared B R)
  : Sqe * Pending B R :=
  let sqe := NetOps.recvmsg_ptr (p_fd self) (Region.header_ptr (p_region self)) (p_flags self) in
  let '(store, hdr, vecs, name, count) := Region.into_raw_parts (p_region self) in
  (Modifiers.with_user_data sqe id,
   mkPending (p_bufs self) store hdr vecs name count ring id (p_fd self) (p_flags self)
     (p_peer self)).
(* src/src/owned/recvmsg.rs:399-402 PendingRecvmsg::matches *)
Definition matches (self : Pending B R) (receipt : Receipt) : bool :=
  belongs_to receipt (t_ring self) (t_id self).
Definition region_of (self : Pending B R) : Region.t R :=
  Region.from_parts (t_store self) (t_hdr self) (t_vecs self) (t_name self) (t_count self).
(* src/src/owned/recvmsg.rs:411-433 PendingRecvmsg::redeem *)
Definition redeem (self : Pending B R) (receipt : Receipt)
  : result (Completed B R) (Pending B R * Receipt) :=
  if negb (matches self receipt) then Err (self, receipt)
  else Ok (mkCompleted (t_bufs self) (region_of self) (rc_result receipt) (t_wanted self)).
(* src/src/owned/recvmsg.rs:442-460 PendingRecvmsg::reclaim_unsubmitted *)
Definition reclaim_unsubmitted (self : Pending B R) : Prepared B R :=
  mkPrepared (t_bufs self) (region_of self) (t_fd self) (t_flags self) (t_wanted self).
(* src/src/owned/recvmsg.rs:495-498 RecvmsgCompleted::failed *)
Definition failed (self : Completed B R) : bool := d_result self <? 0.
(* src/src/owned/recvmsg.rs:501-504 RecvmsgCompleted::header *)
Definition header {PW : PtrWidth} (self : Completed B R) (m : UMem) : MsgHdr :=
  Region.header (d_region self) m.
(* src/src/owned/recvmsg.rs:518-529 RecvmsgCompleted::received *)
Definition received {PW : PtrWidth} (self : Completed B R) (m : UMem) : result Received Error :=
  match from_failed_cqe (d_result self) with
  | Some e => Err e
  | None =>
      let flags := as_u32 (msg_flags (header self m)) in
      Ok (mkReceived (as_u32 (d_result self)) flags)
  end.
(* src/src/owned/recvmsg.rs:538-562 RecvmsgCompleted::peer *)
Definition peer {PW : PtrWidth} (self : Completed B R) (m : UMem) : PeerAddress :=
  if failed self || (match d_wanted self with No => true | Yes => false end) then NoPeer
  else
    let reserved := RESERVED_NAME_LEN in
    let reported := msg_namelen (header self m) in
    if reported =? 0 then NoPeer
    else if reported >? reserved then Truncated reported reserved
    else
      let staged := Region.staged_name (d_region self) m in
      if (reported <? reserved) || negb (sin_family staged =? AF_INET_FAMILY)
      then Other (sin_family staged) reported
      else V4 staged.
(* src/src/owned/recvmsg.rs:574-578 RecvmsgCompleted::into_parts *)
Definition into_parts {PW : PtrWidth} (self : Completed B R) (m : UMem)
  : result Received Error * PeerAddress * list B * R :=
  let received := received self m in
  let peer := peer self m in
  (received, peer, d_bufs self, Region.into_store (d_region self)).
End Moves.
(* src/src/owned/recvmsg.rs:301-304 PreparedRecvmsg::into_parts *)
Definition prepared_into_parts {B R} (self : Prepared B R) : list B * R := (p_bufs self, Region.into_store (p_region self)).
End Recvmsg.

(** ** The interface the queue needs *)

#[export] Instance vectored_owned B V : OwnedRequest (Vectored.Prepared B V) (Vectored.Pending B V) := {
  into_pending := Vectored.into_pending;
  give_back p t := Vectored.reclaim_unsubmitted t;
  ticket_ring := Vectored.t_ring;
  ticket_id := Vectored.t_id
}.
#[export] Instance vectored_custody B V : Custody (Vectored.Prepared B V) (Vectored.Pending B V) (Vectored.Completed B V) (list B * V) := {
  redeem_with := Vectored.redeem;
  deposit p := (Vectored.p_bufs p, Vectored.p_vecs p);
  held t := (Vectored.t_bufs t, Vectored.t_vecs t);
  withdraw d := (Vectored.d_bufs d, Vectored.d_vecs d);
  reported := Vectored.d_result
}.
#[export] Instance vectored_laws B V : OwnedRequestLaws (Vectored.Prepared B V) (Vectored.Pending B V).
Proof. owned_laws. Qed.
#[export] Instance vectored_custody_laws B V : CustodyLaws (Vectored.Prepared B V) (Vectored.Pending B V) (Vectored.Completed B V) (list B * V).
Proof. custody_laws Vectored.redeem Vectored.matches. Qed.

#[export] Instance sendmsg_owned B R : OwnedRequest (Sendmsg.Prepared B R) (Sendmsg.Pending B R) := {
  into_pending := Sendmsg.into_pending;
  give_back p t := Sendmsg.reclaim_unsubmitted t;
  ticket_ring := Sendmsg.t_ring;
  ticket_id := Sendmsg.t_id
}.
#[export] Instance sendmsg_custody B R : Custody (Sendmsg.Prepared B R) (Sendmsg.Pending B R) (Sendmsg.Completed B R) (list B * R) := {
  redeem_with := Sendmsg.redeem;
  deposit p := (Sendmsg.p_bufs p, Region.store (Sendmsg.p_region p));
  held t := (Sendmsg.t_bufs t, Sendmsg.t_store t);
  withdraw d := (Sendmsg.d_bufs d, Region.store (Sendmsg.d_region d));
  reported := Sendmsg.d_result
}.
#[export] Instance sendmsg_laws B R : OwnedRequestLaws (Sendmsg.Prepared B R) (Sendmsg.Pending B R).
Proof. owned_laws. Qed.
#[export] Instance sendmsg_custody_laws B R : CustodyLaws (Sendmsg.Prepared B R) (Sendmsg.Pending B R) (Sendmsg.Completed B R) (list B * R).
Proof. custody_laws Sendmsg.redeem Sendmsg.matches. Qed.

#[export] Instance sendmsg_zc_owned B R : OwnedRequest (SendmsgZc.Prepared B R) (SendmsgZc.Pending B R) := {
  into_pending := SendmsgZc.into_pending;
  give_back p t := SendmsgZc.reclaim_unsubmitted t;
  ticket_ring := SendmsgZc.t_ring;
  ticket_id := SendmsgZc.t_id
}.
#[export] Instance sendmsg_zc_custody B R : Custody (SendmsgZc.Prepared B R) (SendmsgZc.Pending B R) (SendmsgZc.Completed B R) (list B * R) := {
  redeem_with := SendmsgZc.redeem;
  deposit p := (SendmsgZc.p_bufs p, Region.store (SendmsgZc.p_region p));
  held t := (SendmsgZc.t_bufs t, SendmsgZc.t_store t);
  withdraw d := (SendmsgZc.d_bufs d, Region.store (SendmsgZc.d_region d));
  reported := SendmsgZc.d_notified
}.
#[export] Instance sendmsg_zc_laws B R : OwnedRequestLaws (SendmsgZc.Prepared B R) (SendmsgZc.Pending B R).
Proof. owned_laws. Qed.
#[export] Instance sendmsg_zc_custody_laws B R : CustodyLaws (SendmsgZc.Prepared B R) (SendmsgZc.Pending B R) (SendmsgZc.Completed B R) (list B * R).
Proof. custody_laws SendmsgZc.redeem SendmsgZc.matches. Qed.

#[export] Instance recvmsg_owned B R : OwnedRequest (Recvmsg.Prepared B R) (Recvmsg.Pending B R) := {
  into_pending := Recvmsg.into_pending;
  give_back p t := Recvmsg.reclaim_unsubmitted t;
  ticket_ring := Recvmsg.t_ring;
  ticket_id := Recvmsg.t_id
}.
#[export] Instance recvmsg_custody B R : Custody (Recvmsg.Prepared B R) (Recvmsg.Pending B R) (Recvmsg.Completed B R) (list B * R) := {
  redeem_with := Recvmsg.redeem;
  deposit p := (Recvmsg.p_bufs p, Region.store (Recvmsg.p_region p));
  held t := (Recvmsg.t_bufs t, Recvmsg.t_store t);
  withdraw d := (Recvmsg.d_bufs d, Region.store (Recvmsg.d_region d));
  reported := Recvmsg.d_result
}.
#[export] Instance recvmsg_laws B R : OwnedRequestLaws (Recvmsg.Prepared B R) (Recvmsg.Pending B R).
Proof. owned_laws. Qed.
#[export] Instance recvmsg_custody_laws B R : CustodyLaws (Recvmsg.Prepared B R) (Recvmsg.Pending B R) (Recvmsg.Completed B R) (list B * R).
Proof. custody_laws Recvmsg.redeem Recvmsg.matches. Qed.
