(* ===== verification/Footprint.v ===== *)
(** * What the library touches in the memory it is given

    An owned request stages what the kernel reads in storage its caller hands
    over, and reads back what the kernel left there.  Its footprint is that
    storage: [storage_only] says so of every operation that stores or loads,
    whatever the storage's address and length and on every branch.  [footprint] is
    exact: no byte elsewhere changes, and nothing the operation does depends on
    one. *)
From stdpp Require Import base numbers list option.
From Stdlib Require Import ZArith Lia.
From S2P Require Import Prelude Flags Types UserMem Sqe Owned OwnedPath OwnedDirect OwnedStaged OwnedArrays OwnedMsg.
Local Open Scope Z_scope.
Local Open Scope rust_scope.

(** ** Footprints *)
Section Footprint.
  Context (a n : Z).
Definition agree (m1 m2 : UMem) : Prop := forall x, a <= x < a + n -> m1 x = m2 x.
(** A load: the value is a function of the range's bytes. *)
Definition looks {R} (f : UMem -> R) : Prop := forall m1 m2, agree m1 m2 -> f m1 = f m2.
(** A store: the range alone changes, and by what is in it. *)
Definition stays (g : UMem -> UMem) : Prop :=
  (forall m, only_within a n m (g m)) /\ forall m1 m2, agree m1 m2 -> agree (g m1) (g m2).
Definition footprint {R} (f : UMem -> R * UMem) : Prop :=
  looks (fun m => fst (f m)) /\ stays (fun m => snd (f m)).

Lemma looks_pure {R} (x : R) : looks (fun _ => x).
Proof. done. Qed.
Lemma looks_map {R S} (f : UMem -> R) (g : R -> S) : looks f -> looks (fun m => g (f m)).
Proof. intros Hf m1 m2 H. by rewrite (Hf m1 m2 H). Qed.
Lemma looks_pair {R S T} (f : UMem -> R) (g : UMem -> S) (k : R -> S -> T) :
  looks f -> looks g -> looks (fun m => k (f m) (g m)).
Proof. intros Hf Hg m1 m2 H. by rewrite (Hf m1 m2 H), (Hg m1 m2 H). Qed.
Lemma looks_bytes b k : a <= b -> b + Z.of_nat k <= a + n -> looks (read_bytes b k).
Proof. intros Hb Hk m1 m2 H. symmetry. apply read_bytes_ext. intros x Hx. symmetry. apply H. lia. Qed.
Lemma looks_read T `{Repr T} b :
  a <= b -> b + Z.of_nat (size_of T) <= a + n -> looks (fun m => ptr_read (T := T) b m).
Proof. intros Hb Hk. unfold ptr_read. by apply looks_map, looks_bytes. Qed.
Lemma looks_array T `{Repr T} k : forall b,
  a <= b -> b + Z.of_nat (size_of T * k) <= a + n -> looks (fun m => read_array (T := T) b k m).
Proof.
  induction k as [|k IH]; intros b Hb Hk; [exact (looks_pure [])|]. cbn [read_array].
  rewrite Nat.mul_succ_r in Hk.
  apply (looks_pair (fun m => ptr_read (T := T) b m) _ cons); [apply (looks_read T); lia|apply IH; lia].
Qed.

Lemma stays_id : stays (fun m => m).
Proof. split; [intros m; apply only_within_refl|done]. Qed.
Lemma stays_then g g' : stays g -> stays g' -> stays (fun m => g' (g m)).
Proof.
  intros [W E] [W' E']. split; [|auto]. intros m. by eapply only_within_trans; [apply W|apply W'].
Qed.
Lemma stays_bytes b bs : a <= b -> b + Z.of_nat (length bs) <= a + n -> stays (write_bytes b bs).
Proof.
  intros Hb Hk. split.
  - intros m. apply (only_within_weaken b (Z.of_nat (length bs))); [lia|lia|apply write_bytes_within].
  - intros m1 m2 H x Hx. unfold write_bytes. destruct (_ && _); [done|by apply H].
Qed.
Lemma stays_write T `{ReprLaws T} b (x : T) :
  a <= b -> b + Z.of_nat (size_of T) <= a + n -> stays (ptr_write b x).
Proof. intros Hb Hk. apply stays_bytes; by rewrite ?to_mem_length. Qed.
Lemma stays_array T `{ReprLaws T} (xs : list T) : forall b,
  a <= b -> b + Z.of_nat (size_of T * length xs) <= a + n -> stays (write_array b xs).
Proof.
  induction xs as [|x xs IH]; intros b Hb Hk; [apply stays_id|]. cbn [write_array length] in *.
  rewrite Nat.mul_succ_r in Hk.
  apply (stays_then (ptr_write b x)); [apply (stays_write T); lia|apply IH; lia].
Qed.

(** The branches of a preparation: a refusal, and a value with what it stored. *)
Lemma footprint_refused {R} (x : R) : footprint (fun m => (x, m)).
Proof. split; [done|apply stays_id]. Qed.
Lemma footprint_staged {R} (x : R) g : stays g -> footprint (fun m => (x, g m)).
Proof. intros Hg. by split. Qed.
Lemma footprint_if {R} (b : bool) (f f' : UMem -> R * UMem) :
  (b = true -> footprint f) -> (b = false -> footprint f') ->
  footprint (fun m => if b then f m else f' m).
Proof. destruct b; auto. Qed.
End Footprint.
(** Splits the checks of a preparation, down to the store. *)
Ltac checks :=
  repeat match goal with
    | |- footprint _ _ (pair _) => apply footprint_refused
    | |- footprint _ _ (fun m => (_, m)) => apply footprint_refused
    | |- footprint _ _ (fun m => if _ then _ else _) =>
        apply footprint_if; let Hc := fresh in intros Hc; try apply Z.ltb_ge in Hc
    end.
Notation storage P st := (P (stable_ptr st) (stable_len st)) (only parsing).

(** ** Each kind *)
Section Kinds.
  Context {PW : PtrWidth} {TA : TargetArch} {S : Type} `{StableBuffer S}.
  Implicit Types st : S.

Lemma copy_footprint st path : storage footprint st (OwnedPath.copy_into st path).
Proof.
  unfold OwnedPath.copy_into. checks.
  apply footprint_staged, (stays_then _ _ (write_bytes _ _)); apply stays_bytes; cbn; lia.
Qed.
Lemma openat2_footprint {T} `{StableBuffer T} dir (path : Path T) flags mode resolve st :
  storage footprint st (Openat2.at_ dir path flags mode resolve st).
Proof.
  unfold Openat2.at_. checks.
  apply footprint_staged, (stays_write _ _ OpenHow); cbn in *; lia.
Qed.
Lemma value_footprint Op {VO : Value.ValueOp Op} `{!ReprLaws (Value.Val Op)} ctx st :
  storage footprint st (Value.new (Op := Op) ctx st).
Proof.
  unfold Value.new. checks.
  apply footprint_staged, (stays_write _ _ (Value.Val Op)); cbn; lia.
Qed.
Lemma addr_footprint Op {AO : Addr.AddrOp Op} fd addr st :
  storage footprint st (Addr.new Op fd addr st).
Proof.
  unfold Addr.new. checks.
  apply footprint_staged, stays_bytes; cbn in *; [lia|]. unfold Addr.ADDR_LEN in *. cbn in *. lia.
Qed.
Lemma futexes_footprint waiters st : storage footprint st (FutexWaitvOp.new waiters st).
Proof.
  unfold FutexWaitvOp.new. checks.
  apply footprint_staged, (stays_array _ _ FutexWaitv); lia.
Qed.
Lemma files_footprint off entries st : storage footprint st (FilesUpdate.at_ off entries st).
Proof.
  unfold FilesUpdate.at_. checks.
  apply footprint_staged, (stays_array _ _ Z); cbn [FilesUpdate.p_addr FilesUpdate.p_entries]; [lia|].
  rewrite length_fmap. lia.
Qed.
End Kinds.

(** *** Vectors and message regions *)
Section Messages.
  Context {PW : PtrWidth} {B S : Type} `{StableBuffer B} `{StableBuffer S}.
  Implicit Types st : S.

Lemma descriptors_short (bufs : list B) lens : (length (descriptors bufs lens) <= length bufs)%nat.
Proof. unfold descriptors. rewrite length_zip_with. lia. Qed.
Lemma array_stays a n (bufs : list B) lens b :
  a <= b -> b + Z.of_nat (size_of IoVec) * Z.of_nat (length bufs) <= a + n ->
  stays a n (write_array b (descriptors bufs lens)).
Proof.
  intros Hb Hk. pose proof (descriptors_short bufs lens). apply (stays_array _ _ IoVec); nia.
Qed.
Lemma vectored_footprint fd (bufs : list B) st off dir lens :
  storage footprint st (Vectored.build fd bufs st off dir lens).
Proof.
  unfold Vectored.build. checks.
  apply footprint_staged, array_stays; cbn [Vectored.p_array Vectored.p_bufs]; lia.
Qed.

(** A region laid out inside the storage. *)
Record placed (st : S) (r : Region.t S) : Prop := {
  pl_hdr : Region.hdr r = stable_ptr st;
  pl_vecs : Region.vecs r = stable_ptr st + Z.of_nat (size_of MsgHdr);
  pl_name : Region.name r = stable_ptr st + Region.name_offset (Region.count r);
  pl_count : 0 <= Region.count r;
  pl_fits : Region.bytes_for (Region.count r) <= stable_len st
}.
Lemma stage_placed st count r : 0 <= count ->
  Region.stage st count = Ok r -> placed st r /\ Region.count r = count.
Proof.
  intros Hn. unfold Region.stage. destruct (_ >? _); [done|].
  destruct (Z.ltb_spec (stable_len st) (Region.bytes_for count)); [done|].
  destruct (negb _); [done|]. intros [= <-]. by repeat split.
Qed.
Lemma placed_room st r : placed st r ->
  Z.of_nat (size_of MsgHdr) + Z.of_nat (size_of IoVec) * Region.count r + 16 <= stable_len st.
Proof. intros [_ _ _ _ Hf]. exact Hf. Qed.
Lemma descriptor_stays st r i base len : placed st r -> Z.of_nat i < Region.count r ->
  storage stays st (Region.write_descriptor r i base len).
Proof.
  intros Hp Hi. pose proof (placed_room st r Hp). destruct Hp as [_ Hv _ _ _].
  apply (stays_write _ _ IoVec); rewrite Hv; nia.
Qed.
Lemma write_from_stays st r vs : placed st r -> forall i,
  Z.of_nat (i + length vs) <= Region.count r -> storage stays st (Region.write_from r i vs).
Proof.
  intros Hp. induction vs as [|v vs IH]; intros i Hi; [apply stays_id|]. cbn [length] in Hi.
  apply (stays_then _ _ (Region.write_descriptor r i (iov_base v) (iov_len v))).
  - apply descriptor_stays; [done|lia].
  - apply IH. lia.
Qed.
Lemma name_stays st r addr : placed st r -> storage stays st (Region.write_name r addr).
Proof.
  intros Hp. pose proof (placed_room st r Hp). destruct Hp as [_ _ Hn Hc _].
  apply (stays_write _ _ SockAddrIn); rewrite Hn; unfold Region.name_offset; cbn [size_of sockaddr_repr]; nia.
Qed.
Lemma header_stays st r named : placed st r -> storage stays st (Region.publish_header r named).
Proof.
  intros Hp. pose proof (placed_room st r Hp). destruct Hp as [Hh _ _ Hc _].
  apply (stays_write _ _ MsgHdr); rewrite Hh; nia.
Qed.
(** The three preparations of a message stage alike: descriptors, the address when
    there is one, and the header. *)
Lemma message_stays st r (bufs : list B) lens (name : option SockAddrIn) named :
  placed st r -> Region.count r = Z.of_nat (length bufs) ->
  storage stays st (fun m => Region.publish_header r named
    (match name with Some a => Region.write_name r a | None => fun m => m end
      (Region.write_from r 0 (descriptors bufs lens) m))).
Proof.
  intros Hp Hc. pose proof (descriptors_short bufs lens).
  apply (stays_then _ _ (fun m => match name with Some a => Region.write_name r a | None => fun m => m end
    (Region.write_from r 0 (descriptors bufs lens) m))); [|by apply header_stays].
  apply (stays_then _ _ (Region.write_from r 0 (descriptors bufs lens))).
  - apply write_from_stays; [done|lia].
  - destruct name; [by apply name_stays|apply stays_id].
Qed.
Lemma sendmsg_footprint fd (bufs : list B) st target flags lens :
  storage footprint st (Sendmsg.build fd bufs st target flags lens).
Proof.
  unfold Sendmsg.build. destruct (Region.stage _ _) as [r|[? ?]] eqn:E; [|apply footprint_refused].
  apply stage_placed in E as [Hp Hc]; [|lia]. apply footprint_staged.
  pose proof (message_stays st r bufs lens (match target with Sendmsg.To a => Some a | _ => None end)
    (Sendmsg.is_to target) Hp Hc) as Hs. by destruct target.
Qed.
Lemma sendmsg_zc_footprint fd (bufs : list B) st target flags lens :
  storage footprint st (SendmsgZc.build fd bufs st target flags lens).
Proof.
  unfold SendmsgZc.build. destruct (Region.stage _ _) as [r|[? ?]] eqn:E; [|apply footprint_refused].
  apply stage_placed in E as [Hp Hc]; [|lia]. apply footprint_staged.
  pose proof (message_stays st r bufs lens (match target with Sendmsg.To a => Some a | _ => None end)
    (Sendmsg.is_to target) Hp Hc) as Hs. by destruct target.
Qed.
Lemma recvmsg_footprint fd (bufs : list B) st peer flags lens :
  storage footprint st (Recvmsg.build fd bufs st peer flags lens).
Proof.
  unfold Recvmsg.build. destruct (Region.stage _ _) as [r|[? ?]] eqn:E; [|apply footprint_refused].
  apply stage_placed in E as [Hp Hc]; [|lia]. apply footprint_staged.
  pose proof (message_stays st r bufs lens
    (match peer with Recvmsg.Yes => Some sockaddr_default | _ => None end)
    (match peer with Recvmsg.Yes => true | _ => false end) Hp Hc) as Hs. by destruct peer.
Qed.
End Messages.

(** ** What is read back *)
Ltac unchecks H :=
  repeat match type of H with
    | (if ?b then _ else _) = _ =>
        let E := fresh in destruct b eqn:E; [discriminate H|]; try apply Z.ltb_ge in E
    | (if ?b then _ else _, _) = _ => destruct b
    end.
Section Reads.
  Context {PW : PtrWidth} {TA : TargetArch} {B S T : Type}.
  Context `{StableBuffer B} `{StableBuffer S} `{StableBuffer T}.
  Implicit Types st : S.

Lemma copied_reads st path p m m' :
  OwnedPath.copy_into st path m = (Ok p, m') -> storage looks st (OwnedPath.as_bytes p).
Proof.
  unfold OwnedPath.copy_into. intros Hp. unchecks Hp. injection Hp as <- _.
  apply looks_bytes; cbn; lia.
Qed.
Lemma adopt_reads st : storage looks st (OwnedPath.adopt st).
Proof.
  unfold OwnedPath.adopt.
  apply (looks_map _ _ _ (fun bytes => match fst <$> list_find (fun b => b = 0) bytes with
    | None => _ | Some O => _ | Some (Datatypes.S n) => _ end)).
  intros m1 m2 Hm. apply read_bytes_ext. intros x Hx. apply Hm. lia.
Qed.
Lemma how_reads dir (path : Path T) flags mode resolve st p m m' :
  Openat2.at_ dir path flags mode resolve st m = (Ok p, m') ->
  storage looks st (Openat2.published_how p).
Proof.
  unfold Openat2.at_. intros Hp. unchecks Hp. injection Hp as <- _.
  apply (looks_read _ _ OpenHow); cbn in *; lia.
Qed.
Lemma value_reads Op {VO : Value.ValueOp Op} ctx st p m m' :
  Value.new (Op := Op) ctx st m = (Ok p, m') -> storage looks st (Value.published p).
Proof.
  unfold Value.new. intros Hp. unchecks Hp. injection Hp as <- _.
  apply (looks_read _ _ (Value.Val Op)); cbn; lia.
Qed.
Lemma addr_reads Op {AO : Addr.AddrOp Op} fd addr st p m m' :
  Addr.new Op fd addr st m = (Ok p, m') -> storage looks st (Addr.published p).
Proof.
  unfold Addr.new. intros Hp. unchecks Hp. injection Hp as <- _.
  apply looks_bytes; unfold Addr.ADDR_LEN in *; cbn in *; lia.
Qed.
Lemma files_reads off entries st p m m' :
  FilesUpdate.at_ off entries st m = (Ok p, m') -> storage looks st (FilesUpdate.published p).
Proof.
  unfold FilesUpdate.at_. intros Hp. unchecks Hp. injection Hp as <- _.
  apply (looks_array _ _ Z); cbn in *; lia.
Qed.
Lemma vectored_reads fd (bufs : list B) st off dir lens p m m' :
  Vectored.build fd bufs st off dir lens m = (Ok p, m') ->
  storage looks st (Vectored.total_len p) /\ forall lens, storage footprint st (Vectored.with_lens lens p).
Proof.
  unfold Vectored.build. intros Hp. unchecks Hp. injection Hp as <- _. split.
  - unfold Vectored.total_len. cbn [Vectored.p_array Vectored.p_bufs].
    apply (looks_map _ _ (fun m => read_array (T := IoVec) _ _ m)
      (fun vs => foldr Z.add 0 (iov_len <$> vs))), (looks_array _ _ IoVec); nia.
  - intros lens'. apply footprint_staged, array_stays; cbn [Vectored.p_array Vectored.p_bufs]; lia.
Qed.

(** A placed region is read inside the storage. *)
Lemma descriptor_reads st r i : placed st r -> Z.of_nat i < Region.count r ->
  storage looks st (Region.descriptor r i).
Proof.
  intros Hp Hi. pose proof (placed_room st r Hp). destruct Hp as [_ Hv _ _ _].
  apply (looks_read _ _ IoVec); rewrite Hv; nia.
Qed.
Lemma lens_reads st r k : placed st r -> Z.of_nat k <= Region.count r ->
  storage looks st (Region.lens_sum r k).
Proof.
  intros Hp Hk m1 m2 Hm. unfold Region.lens_sum. f_equal. apply list_fmap_ext. intros j i Hi.
  apply lookup_seq in Hi as [-> Hi]. cbn [Nat.add]. f_equal.
  apply (descriptor_reads st r j Hp); [lia|exact Hm].
Qed.
Lemma header_reads st r : placed st r -> storage looks st (Region.header r).
Proof.
  intros Hp. pose proof (placed_room st r Hp). destruct Hp as [Hh _ _ Hc _].
  apply (looks_read _ _ MsgHdr); rewrite Hh; nia.
Qed.
Lemma name_reads st r : placed st r -> storage looks st (Region.staged_name r).
Proof.
  intros Hp. pose proof (placed_room st r Hp). destruct Hp as [_ _ Hn Hc _].
  apply (looks_read _ _ SockAddrIn); rewrite Hn; unfold Region.name_offset;
    cbn [size_of sockaddr_repr]; nia.
Qed.
Lemma sendmsg_reads fd (bufs : list B) st target flags lens p m m' :
  Sendmsg.build fd bufs st target flags lens m = (Ok p, m') ->
  storage looks st (Sendmsg.total_len p) /\ storage looks st (Sendmsg.published_header p) /\
  (forall i, storage looks st (Sendmsg.published_descriptor p i)) /\
  forall lens, storage footprint st (Sendmsg.with_lens lens p).
Proof.
  unfold Sendmsg.build. destruct (Region.stage _ _) as [r|[? ?]] eqn:E; [|done].
  apply stage_placed in E as [Hp Hc]; [|lia]. intros [= <- _]. split_and!.
  - apply lens_reads; [done|cbn; lia].
  - by apply header_reads.
  - intros i. unfold Sendmsg.published_descriptor. cbn [Sendmsg.p_bufs Sendmsg.p_region].
    destruct (Nat.ltb_spec i (length bufs)); [|done].
    apply (looks_map _ _ (Region.descriptor r i) Some), descriptor_reads; [done|lia].
  - intros lens'. apply footprint_staged, write_from_stays; [done|].
    pose proof (descriptors_short bufs (clamped_lens lens' bufs)).
    cbn [Sendmsg.p_bufs Sendmsg.p_region]. lia.
Qed.
Lemma parts_reads st (d : Recvmsg.Completed B S) :
  placed st (Recvmsg.d_region d) -> storage looks st (Recvmsg.into_parts d).
Proof.
  intros Hp m1 m2 Hm. unfold Recvmsg.into_parts, Recvmsg.received, Recvmsg.peer, Recvmsg.header.
  by rewrite (header_reads st _ Hp m1 m2 Hm), (name_reads st _ Hp m1 m2 Hm).
Qed.
Lemma sendmsg_zc_reads fd (bufs : list B) st target flags lens p m m' :
  SendmsgZc.build fd bufs st target flags lens m = (Ok p, m') ->
  forall lens, storage footprint st (SendmsgZc.with_lens lens p).
Proof.
  unfold SendmsgZc.build. destruct (Region.stage _ _) as [r|[? ?]] eqn:E; [|done].
  apply stage_placed in E as [Hp Hc]; [|lia]. intros [= <- _] lens'.
  apply footprint_staged, write_from_stays; [done|].
  pose proof (descriptors_short bufs (clamped_lens lens' bufs)).
  cbn [SendmsgZc.p_bufs SendmsgZc.p_region]. lia.
Qed.
Lemma recvmsg_reads fd (bufs : list B) st peer flags lens p m m' ring id r d :
  Recvmsg.build fd bufs st peer flags lens m = (Ok p, m') ->
  Recvmsg.redeem (snd (Recvmsg.into_pending ring id p)) r = Ok d ->
  storage looks st (Recvmsg.capacity p) /\ storage looks st (Recvmsg.into_parts d) /\
  forall lens, storage footprint st (Recvmsg.with_lens lens p).
Proof.
  unfold Recvmsg.build. destruct (Region.stage _ _) as [g|[? ?]] eqn:E; [|done].
  apply stage_placed in E as [Hp Hc]; [|lia]. intros [= <- _].
  unfold Recvmsg.redeem. destruct (negb _); [done|]. intros [= <-]. split_and!.
  - apply lens_reads; [done|cbn [Recvmsg.p_bufs Recvmsg.p_region]; lia].
  - apply parts_reads. by destruct g.
  - intros lens'. apply footprint_staged, write_from_stays; [done|].
    pose proof (descriptors_short bufs (clamped_lens lens' bufs)).
    cbn [Recvmsg.p_bufs Recvmsg.p_region]. lia.
Qed.
Lemma statx_reads dir (path : Path T) flags mask st p ring id r d :
  StatxOp.at_ dir path flags mask st = Ok p ->
  StatxOp.redeem (snd (StatxOp.into_pending ring id p)) r = Ok d -> storage looks st (StatxOp.stat d).
Proof.
  unfold StatxOp.at_. intros Hp. unchecks Hp. injection Hp as <-.
  unfold StatxOp.redeem. destruct (StatxOp.matches _ _); cbn [negb]; [|done]. intros [= <-].
  unfold StatxOp.stat.
  destruct (_ <? 0); [done|].
  apply (looks_map _ _ (fun m => ptr_read (T := Statx) _ m) Some), (looks_read _ _ Statx); cbn in *; lia.
Qed.
Lemma pipe_reads flags st p ring id r d :
  Pipe.new flags st = Ok p -> Pipe.redeem (snd (Pipe.into_pending ring id p)) r = Ok d ->
  storage looks st (Pipe.read_fd d) /\ storage looks st (Pipe.write_fd d).
Proof.
  unfold Pipe.new. intros Hp. unchecks Hp. injection Hp as <-.
  unfold Pipe.redeem. destruct (Pipe.matches _ _); cbn [negb]; [|done]. intros [= <-]. unfold Pipe.read_fd, Pipe.write_fd, Pipe.DEST_LEN in *.
  split; destruct (_ <? 0); try done;
    apply (looks_map _ _ (fun m => ptr_read (T := Z) _ m) Some), (looks_read _ _ Z); cbn in *; lia.
Qed.
Lemma waitid_reads id_type wid options st p ring id r d :
  WaitId.new id_type wid options st = Ok p ->
  WaitId.redeem (snd (WaitId.into_pending ring id p)) r = Ok d -> storage looks st (WaitId.info d).
Proof.
  unfold WaitId.new. intros Hp. unchecks Hp. injection Hp as <-.
  unfold WaitId.redeem. destruct (WaitId.matches _ _); cbn [negb]; [|done]. intros [= <-]. unfold WaitId.info.
  destruct (_ || _); [done|].
  apply (looks_map _ _ (fun m => ptr_read (T := WaitidSiginfo) _ m) Some), (looks_read _ _ WaitidSiginfo);
    cbn in *; lia.
Qed.
Lemma clamp_below slots : 0 <= slots -> EpollWait.clamp_max_events slots <= slots.
Proof.
  intros Hs. unfold EpollWait.clamp_max_events.
  destruct (Z.gtb_spec slots 4294967295); [lia|]. apply Z.mod_le; lia.
Qed.
Lemma epoll_count {D} (d : EpollWait.Completed D) k :
  EpollWait.count d = Ok k -> 0 <= k <= EpollWait.d_result d.
Proof.
  unfold EpollWait.count, result_of, from_failed_cqe.
  destruct (Z.ltb_spec (EpollWait.d_result d) 0); [done|]. intros [= <-].
  pose proof (wrap_range 32 (EpollWait.d_result d) ltac:(lia)) as [? _].
  split; [done|]. apply Z.mod_le; lia.
Qed.
(** The kernel reports no more events than were asked for. *)
Lemma epoll_reads epfd st p ring id r d :
  EpollWait.new epfd st = Ok p ->
  EpollWait.redeem (snd (EpollWait.into_pending ring id p)) r = Ok d ->
  rc_result r <= EpollWait.p_max_events p -> storage looks st (EpollWait.events d).
Proof.
  unfold EpollWait.new. intros Hp. unchecks Hp. injection Hp as <-.
  unfold EpollWait.redeem. destruct (EpollWait.matches _ _); cbn [negb]; [|done]. intros [= <-] Hr.
  assert (0 < Z.of_nat (size_of EpollEvent)) as Hs by (cbn; lia).
  pose proof (Z.mul_div_le (stable_len st) _ Hs). assert (0 <= stable_len st) as Hl by lia.
  pose proof (clamp_below _ (Z.div_pos _ _ Hl Hs)) as Hc.
  unfold EpollWait.events. destruct (EpollWait.count _) as [k|] eqn:Ek; [|done].
  apply epoll_count in Ek. cbn [EpollWait.d_result] in Ek.
  change (rc_result r <= EpollWait.clamp_max_events (stable_len st / Z.of_nat (size_of EpollEvent))) in Hr.
  apply (looks_array _ _ EpollEvent); cbn [EpollWait.d_addr EpollWait.t_addr EpollWait.into_pending snd
    EpollWait.p_addr]; [lia|].
  rewrite Nat2Z.inj_mul, Z2Nat.id by lia. nia.
Qed.
End Reads.

(** ** The footprint of the whole library *)
Section Library.
  Context {PW : PtrWidth} {TA : TargetArch} {B S T : Type}.
  Context `{StableBuffer B} `{StableBuffer S} `{StableBuffer T}.
(** What reads the staged values of a prepared request. *)
Definition staged_reads (st : S) (bufs : list B) (path : Path T) : Prop :=
  storage looks st (OwnedPath.adopt st) /\
  (forall t p m m', OwnedPath.copy_into st t m = (Ok p, m') ->
     storage looks st (OwnedPath.as_bytes p)) /\
  (forall dir flags mode resolve p m m',
     Openat2.at_ dir path flags mode resolve st m = (Ok p, m') ->
     storage looks st (Openat2.published_how p)) /\
  (forall duration count flags p m m', Timeout.build duration count flags st m = (Ok p, m') ->
     storage looks st (Value.published p)) /\
  (forall epfd fd change p m m', EpollCtl.new epfd fd change st m = (Ok p, m') ->
     storage looks st (Value.published p)) /\
  (forall fd addr p m m', Bind.new fd addr st m = (Ok p, m') ->
     storage looks st (Addr.published p)) /\
  (forall fd addr p m m', Connect.new fd addr st m = (Ok p, m') ->
     storage looks st (Addr.published p)) /\
  (forall off entries p m m', FilesUpdate.at_ off entries st m = (Ok p, m') ->
     storage looks st (FilesUpdate.published p)) /\
  (forall fd off dir lens p m m', Vectored.build fd bufs st off dir lens m = (Ok p, m') ->
     storage looks st (Vectored.total_len p) /\
     forall lens, storage footprint st (Vectored.with_lens lens p)) /\
  (forall fd target flags lens p m m', Sendmsg.build fd bufs st target flags lens m = (Ok p, m') ->
     storage looks st (Sendmsg.total_len p) /\ storage looks st (Sendmsg.published_header p) /\
     (forall i, storage looks st (Sendmsg.published_descriptor p i)) /\
     forall lens, storage footprint st (Sendmsg.with_lens lens p)) /\
  (forall fd target flags lens p m m', SendmsgZc.build fd bufs st target flags lens m = (Ok p, m') ->
     forall lens, storage footprint st (SendmsgZc.with_lens lens p)).
(** What reads a redeemed request's storage, after any answer; the kernel's count of
    epoll events is at most the number asked for. *)
Definition redeemed_reads (st : S) (bufs : list B) (path : Path T) : Prop :=
  (forall fd peer flags lens p m m' ring id r d,
     Recvmsg.build fd bufs st peer flags lens m = (Ok p, m') ->
     Recvmsg.redeem (snd (Recvmsg.into_pending ring id p)) r = Ok d ->
     storage looks st (Recvmsg.capacity p) /\ storage looks st (Recvmsg.into_parts d) /\
     forall lens, storage footprint st (Recvmsg.with_lens lens p)) /\
  (forall dir flags mask p ring id r d, StatxOp.at_ dir path flags mask st = Ok p ->
     StatxOp.redeem (snd (StatxOp.into_pending ring id p)) r = Ok d ->
     storage looks st (StatxOp.stat d)) /\
  (forall flags p ring id r d, Pipe.new flags st = Ok p ->
     Pipe.redeem (snd (Pipe.into_pending ring id p)) r = Ok d ->
     storage looks st (Pipe.read_fd d) /\ storage looks st (Pipe.write_fd d)) /\
  (forall id_type wid options p ring id r d, WaitId.new id_type wid options st = Ok p ->
     WaitId.redeem (snd (WaitId.into_pending ring id p)) r = Ok d ->
     storage looks st (WaitId.info d)) /\
  (forall epfd p ring id r d, EpollWait.new epfd st = Ok p ->
     EpollWait.redeem (snd (EpollWait.into_pending ring id p)) r = Ok d ->
     rc_result r <= EpollWait.p_max_events p -> storage looks st (EpollWait.events d)).

(** C30. An owned request touches no byte of the process but those of the storage it
    was handed, whatever the storage's address and length, the arguments and the
    memory, refusals included.  Every preparation that stores (a path, an openat2
    `how`, a timespec, an epoll event, a socket address, futex waiters, descriptors,
    vectors, a message region) leaves every other byte as it was, and neither what it
    returns nor what it stores depends on one; what is read back from the storage,
    from a prepared request or from a redeemed one, is a function of the storage's
    bytes alone. *)
Theorem storage_only (st : S) (bufs : list B) (path : Path T) :
  (forall t, storage footprint st (OwnedPath.copy_into st t)) /\
  (forall dir flags mode resolve, storage footprint st (Openat2.at_ dir path flags mode resolve st)) /\
  (forall duration count flags, storage footprint st (Timeout.build duration count flags st)) /\
  (forall epfd fd change, storage footprint st (EpollCtl.new epfd fd change st)) /\
  (forall fd addr, storage footprint st (Bind.new fd addr st)) /\
  (forall fd addr, storage footprint st (Connect.new fd addr st)) /\
  (forall waiters, storage footprint st (FutexWaitvOp.new waiters st)) /\
  (forall off entries, storage footprint st (FilesUpdate.at_ off entries st)) /\
  (forall fd off dir lens, storage footprint st (Vectored.build fd bufs st off dir lens)) /\
  (forall fd target flags lens, storage footprint st (Sendmsg.build fd bufs st target flags lens)) /\
  (forall fd target flags lens, storage footprint st (SendmsgZc.build fd bufs st target flags lens)) /\
  (forall fd peer flags lens, storage footprint st (Recvmsg.build fd bufs st peer flags lens)) /\
  staged_reads st bufs path /\ redeemed_reads st bufs path.
Proof.
  split_and!; intros.
  - apply copy_footprint.
  - apply openat2_footprint.
  - exact (value_footprint (VO := Timeout.timeout_op) _ (Timeout.mkCtx duration count flags) st).
  - exact (value_footprint (VO := EpollCtl.epoll_op) _ (EpollCtl.mkCtx epfd fd change) st).
  - exact (addr_footprint Bind.BindOp fd addr st).
  - exact (addr_footprint Connect.ConnectOp fd addr st).
  - apply futexes_footprint.
  - apply files_footprint.
  - apply vectored_footprint.
  - apply sendmsg_footprint.
  - apply sendmsg_zc_footprint.
  - apply recvmsg_footprint.
  - unfold staged_reads. split_and!; intros.
    + apply adopt_reads.
    + by eapply copied_reads.
    + by eapply how_reads.
    + by eapply (value_reads _ (VO := Timeout.timeout_op)).
    + by eapply (value_reads _ (VO := EpollCtl.epoll_op)).
    + by eapply (addr_reads Bind.BindOp).
    + by eapply (addr_reads Connect.ConnectOp).
    + by eapply files_reads.
    + by eapply vectored_reads.
    + by eapply sendmsg_reads.
    + by eapply sendmsg_zc_reads.
  - unfold redeemed_reads. split_and!; intros.
    + by eapply recvmsg_reads.
    + by eapply statx_reads.
    + by eapply pipe_reads.
    + by eapply waitid_reads.
    + by eapply epoll_reads.
Qed.
End Library.

(** A path and an epoll wait on the same storage; a byte beyond it changes. *)
Definition page_end : Z := 4160.
Definition demo_storage : MmapBuffer := mkMmapBuffer 4096 64 4096.
Definition demo_bytes : UMem := fun x => x mod 251.
Lemma storage_only_witness :
  let path := OwnedPath.mk demo_storage 2 in
  let text := [47; 97] in
  let m := snd (OwnedPath.copy_into demo_storage text demo_bytes) in
  let wait := EpollWait.mkPrepared demo_storage 5 5 4096 in
  let done := EpollWait.mkCompleted demo_storage 9 2 4096 in
  OwnedPath.copy_into demo_storage text demo_bytes = (Ok path, m) /\
  EpollWait.new 5 demo_storage = Ok wait /\
  m page_end = demo_bytes page_end /\
  OwnedPath.as_bytes path m = OwnedPath.as_bytes path (write_bytes page_end [255] m) /\
  EpollWait.events done m = EpollWait.events done (write_bytes page_end [255] m).
Proof.
  cbv zeta.
  destruct (storage_only (T := MmapBuffer) demo_storage [demo_storage] (OwnedPath.mk demo_storage 2))
    as (Hcopy & _ & _ & _ & _ & _ & _ & _ & _ & _ & _ & _ & (_ & Hpath & _) & (_ & _ & _ & _ & Hwait)).
  assert (forall m, agree 4096 64 m (write_bytes page_end [255] m)) as Hfar.
  { intros m x Hx. symmetry. apply (write_bytes_within page_end [255] m). unfold page_end. lia. }
  split_and!; [reflexivity|reflexivity| | |].
  - apply (Hcopy [47; 97]). right. unfold page_end. cbn. lia.
  - eapply (Hpath [47; 97] _ demo_bytes); [reflexivity|apply Hfar].
  - eapply (Hwait 5 _ 1 9 (mkReceipt 1 9 2 0)); [reflexivity|reflexivity|discriminate|apply Hfar].
Defined.
