(* ===== verification/Display.v ===== *)
(** * The texts of errors and outcomes

    The `Display` implementations of the crate.  A text is a list of pieces: a
    character written, or a number the formatting macro prints ([Text]).  What
    is printed identifies the value: two errors of a type never print alike
    ([texts_identify]), which is proved by looking at the pieces side by side
    ([face]).  The sink of the formatter and the errors it may report are not
    modelled, nor are the derived `Debug` texts. *)
From Stdlib Require Import Ascii String.
From Stdlib Require Import ZArith Lia.
From stdpp Require Import base numbers list option.
From S2P Require Import Prelude Flags Types Pbuf Owned OwnedPath OwnedDirect OwnedStaged OwnedArrays OwnedMsg.
Local Open Scope Z_scope.
Local Open Scope rust_scope.
Local Open Scope list_scope.

(** ** Texts *)
(** `{}`, `{:x}` and `{:o}`. *)
Inductive Radix : Set := Dec | Hex | Oct.
Definition base_of (r : Radix) : Z := match r with Dec => 10 | Hex => 16 | Oct => 8 end.
Inductive piece : Set := Chr (c : ascii) | Num (r : Radix) (n : Z).
Definition Text : Set := list piece.
Definition lit (s : string) : Text := Chr <$> list_ascii_of_string s.
Definition dec (n : Z) : Text := [Num Dec n].
Definition hex (n : Z) : Text := [Num Hex n].
Definition oct (n : Z) : Text := [Num Oct n].
Class Display (A : Type) := fmt : A -> Text.

(** ** Printing *)
Definition digit_char (d : Z) : ascii :=
  ascii_of_nat (Z.to_nat (if d <? 10 then 48 + d else 87 + d)).
(** The digits of [n], most significant first; [Z.log2 n + 1] rounds suffice, as
    each divides by two at least. *)
Fixpoint digits (fuel : nat) (b n : Z) (acc : list Z) : list Z :=
  match fuel with
  | O => acc
  | S fuel => if n <? b then n :: acc else digits fuel b (n / b) (n mod b :: acc)
  end.
Definition digits_of (b n : Z) : list Z := digits (S (Z.to_nat (Z.log2 n))) b n [].
Definition number (r : Radix) (n : Z) : list ascii :=
  (if n <? 0 then ["-"%char] else []) ++ (digit_char <$> digits_of (base_of r) (Z.abs n)).
Definition render_piece (p : piece) : list ascii :=
  match p with Chr c => [c] | Num r n => number r n end.
Definition render (t : Text) : list ascii := t ≫= render_piece.
Definition show {A} `{Display A} (a : A) : list ascii := render (fmt a).
Definition show_string {A} `{Display A} (a : A) : string := string_of_list_ascii (show a).

(** ** Reading numbers back *)
Definition value_of (b : Z) (l : list Z) : Z := foldl (fun v d => v * b + d) 0 l.
Definition char_digit (c : ascii) : Z :=
  let n := Z.of_nat (nat_of_ascii c) in if n <? 58 then n - 48 else n - 87.
Definition is_digit (r : Radix) (c : ascii) : bool :=
  let n := Z.of_nat (nat_of_ascii c) in
  ((48 <=? n) && (n <? 58) || (97 <=? n) && (n <? 123)) && (char_digit c <? base_of r).

Lemma base_range r : 2 <= base_of r <= 16.
Proof. destruct r; cbn; lia. Qed.
Lemma digit_char_ok r d :
  0 <= d < base_of r -> is_digit r (digit_char d) = true /\ char_digit (digit_char d) = d.
Proof.
  intros Hd. pose proof (base_range r). unfold is_digit, char_digit, digit_char.
  rewrite nat_ascii_embedding by (destruct (Z.ltb_spec d 10); lia).
  destruct (Z.ltb_spec d 10); rewrite Z2Nat.id by lia; repeat (case_match || lia); lia.
Qed.
Lemma foldl_value b l v : foldl (fun v d => v * b + d) v l = v * b ^ Z.of_nat (length l) + value_of b l.
Proof.
  unfold value_of. revert v. induction l as [|d l IH]; intros v; cbn [foldl length].
  { change (Z.of_nat 0) with 0. lia. }
  rewrite IH, (IH (0 * b + d)). replace (Z.of_nat (S (length l))) with (Z.of_nat (length l) + 1) by lia.
  rewrite Z.pow_add_r by lia. nia.
Qed.
Lemma digits_ok b fuel n acc :
  2 <= b -> 0 <= n < 2 ^ Z.of_nat fuel ->
  Forall (fun d => 0 <= d < b) acc ->
  Forall (fun d => 0 <= d < b) (digits fuel b n acc) /\
  value_of b (digits fuel b n acc) = n * b ^ Z.of_nat (length acc) + value_of b acc.
Proof.
  intros Hb. revert n acc. induction fuel as [|fuel IH]; intros n acc Hn Hacc.
  { change (2 ^ Z.of_nat 0) with 1 in Hn. replace n with 0 by lia. by split. }
  cbn [digits]. destruct (Z.ltb_spec n b) as [Hlt|Hge].
  { split; [constructor; [lia|done]|]. unfold value_of at 1. cbn [foldl]. by rewrite foldl_value. }
  replace (Z.of_nat (S fuel)) with (Z.of_nat fuel + 1) in Hn by lia. rewrite Z.pow_add_r in Hn by lia.
  pose proof (Z.mod_pos_bound n b ltac:(lia)) as Hm.
  destruct (IH (n / b) (n mod b :: acc)) as [H1 H2].
  - split; [apply Z.div_pos; lia|]. apply Z.div_lt_upper_bound; [lia|].
    change (2 ^ 1) with 2 in Hn. nia.
  - by constructor.
  - split; [done|]. rewrite H2. unfold value_of at 1. cbn [foldl length]. rewrite foldl_value.
    replace (Z.of_nat (S (length acc))) with (Z.of_nat (length acc) + 1) by lia.
    rewrite Z.pow_add_r, Z.pow_1_r by lia. pose proof (Z_div_mod_eq_full n b) as E.
    rewrite E at 3. ring.
Qed.
Lemma digits_of_ok b n :
  2 <= b -> 0 <= n -> Forall (fun d => 0 <= d < b) (digits_of b n) /\ value_of b (digits_of b n) = n.
Proof.
  intros Hb Hn. destruct (digits_ok b (S (Z.to_nat (Z.log2 n))) n [] Hb) as [H1 H2]; [|done|].
  - replace (Z.of_nat (S (Z.to_nat (Z.log2 n)))) with (Z.succ (Z.log2 n)) by (pose proof (Z.log2_nonneg n); lia).
    destruct (decide (n = 0)) as [->|]; [cbn; lia|]. pose proof (Z.log2_spec n ltac:(lia)). lia.
  - split; [exact H1|]. unfold digits_of. rewrite H2. change (value_of b []) with 0.
    change (Z.of_nat (length [])) with 0. rewrite Z.pow_0_r. lia.
Qed.
(** Reading the longest run of digits gives the number back, and the rest. *)
Lemma digits_split r l l' X Y :
  Forall (fun c => is_digit r c = true) l -> Forall (fun c => is_digit r c = true) l' ->
  match X with c :: _ => is_digit r c = false | [] => True end ->
  match Y with c :: _ => is_digit r c = false | [] => True end ->
  l ++ X = l' ++ Y -> l = l' /\ X = Y.
Proof.
  intros Hl. revert l'. induction Hl as [|c l Hc Hl IH]; intros [|c' l'] Hl' HX HY E; cbn in E.
  - done.
  - subst X. apply Forall_cons_1 in Hl' as [Hc' _]. congruence.
  - subst Y. congruence.
  - injection E as -> E. apply Forall_cons_1 in Hl' as [_ Hl']. by destruct (IH l' Hl' HX HY E) as [-> ->].
Qed.
Lemma digit_chars r n : 0 <= n ->
  Forall (fun c => is_digit r c = true) (digit_char <$> digits_of (base_of r) n).
Proof.
  intros Hn. pose proof (base_range r). destruct (digits_of_ok (base_of r) n ltac:(lia) Hn) as [H1 _].
  rewrite Forall_fmap. eapply Forall_impl; [|exact H1]. intros d Hd. by apply digit_char_ok.
Qed.
Lemma digits_of_inj r m n : 0 <= m -> 0 <= n ->
  digit_char <$> digits_of (base_of r) m = digit_char <$> digits_of (base_of r) n -> m = n.
Proof.
  intros Hm Hn E. pose proof (base_range r).
  destruct (digits_of_ok (base_of r) m ltac:(lia) Hm) as [H1 <-].
  destruct (digits_of_ok (base_of r) n ltac:(lia) Hn) as [H2 <-].
  f_equal. clear -E H1 H2. revert H2 E. generalize (digits_of (base_of r) n) as l'.
  induction H1 as [|d l Hd Hl IH]; intros [|d' l'] Hl' E; try done.
  apply Forall_cons_1 in Hl' as [Hd' Hl']. injection E as E1 E2. f_equal; [|by apply IH].
  apply (f_equal char_digit) in E1. by rewrite (proj2 (digit_char_ok r d Hd)), (proj2 (digit_char_ok r d' Hd')) in E1.
Qed.
Definition heads (r : Radix) (t : Text) : bool :=
  match t with [] => false | Chr c :: _ => is_digit r c | Num _ _ :: _ => true end.
Lemma number_cons r n : exists c l, number r n = c :: l /\
  (if n <? 0 then c = "-"%char else is_digit r c = true).
Proof.
  unfold number. destruct (n <? 0); cbn [app]; [by eauto|].
  pose proof (digit_chars r (Z.abs n) ltac:(lia)) as H. unfold digits_of in *.
  destruct (digits _ _ _ _) as [|d l] eqn:E; [|apply Forall_cons_1 in H as [H _]; eauto].
  exfalso. clear H. cbn in E.
  destruct (_ <? _); [done|]. assert (forall f n d acc, digits f (base_of r) n (d :: acc) <> []) as Hne.
  { induction f; intros; cbn; [done|]. destruct (_ <? _); auto. }
  by apply Hne in E.
Qed.
Lemma minus_no_digit r : is_digit r "-" = false.
Proof. by destruct r. Qed.
Lemma number_inj r m n X Y :
  match X with c :: _ => is_digit r c = false | [] => True end ->
  match Y with c :: _ => is_digit r c = false | [] => True end ->
  number r m ++ X = number r n ++ Y -> m = n /\ X = Y.
Proof.
  intros HX HY E. destruct (number_cons r m) as (c & l & Em & Hm), (number_cons r n) as (c' & l' & En & Hn).
  pose proof E as E'. rewrite Em, En in E'. injection E' as <- _. clear Em En.
  unfold number in E. destruct (Z.ltb_spec m 0), (Z.ltb_spec n 0); cbn [app] in E;
    try (subst c; rewrite minus_no_digit in *; discriminate).
  - injection E as E. apply digits_split with (r := r) in E as [E ->]; [|apply digit_chars; lia..|done|done].
    apply digits_of_inj in E; [split; [lia|done]|lia..].
  - apply digits_split with (r := r) in E as [E ->]; [|apply digit_chars; lia..|done|done].
    apply digits_of_inj in E; [split; [lia|done]|lia..].
Qed.

(** ** Two texts side by side *)
(** What the pieces of two texts say about equal renderings: they cannot be
    equal, these numbers must be, or nothing is said. *)
Inductive verdict : Set := Apart | Alike (l : list (Z * Z)) | Unclear.
Definition also (p : Z * Z) (v : verdict) : verdict :=
  match v with Alike l => Alike (p :: l) | v => v end.
Fixpoint face (t1 t2 : Text) : verdict :=
  match t1, t2 with
  | [], [] => Alike []
  | [], _ | _, [] => Apart
  | Chr a :: t1, Chr b :: t2 => if Ascii.eqb a b then face t1 t2 else Apart
  | Num r m :: t1, Num s n :: t2 =>
      if bool_decide (base_of r = base_of s) && negb (heads r t1) && negb (heads s t2)
      then also (m, n) (face t1 t2) else Unclear
  | Chr c :: _, Num r _ :: _ | Num r _ :: _, Chr c :: _ =>
      if is_digit r c || Ascii.eqb c "-" then Unclear else Apart
  end.
Lemma heads_render r t : heads r t = false ->
  match render t with c :: _ => is_digit r c = false | [] => True end.
Proof. destruct t as [|[c|s n] t]; cbn; [done|done|discriminate]. Qed.
Lemma number_not r n c X Y :
  (is_digit r c || Ascii.eqb c "-") = false -> number r n ++ X <> c :: Y.
Proof.
  intros [H1 H2]%orb_false_elim E. destruct (number_cons r n) as (c' & l & En & Hc').
  rewrite En in E. injection E as -> _. destruct (n <? 0); [by subst c|congruence].
Qed.
Lemma face_ok t1 t2 :
  render t1 = render t2 ->
  match face t1 t2 with
  | Apart => False | Alike l => Forall (fun p => fst p = snd p) l | Unclear => True
  end.
Proof.
  revert t2. induction t1 as [|p t1 IH]; intros [|q t2] E.
  - by constructor.
  - destruct q as [c|r n]; [done|]. unfold render in E. rewrite bind_cons in E. cbn [render_piece] in E.
    destruct (number_cons r n) as (c & l & En & _). by rewrite En in E.
  - destruct p as [c|r n]; [done|]. unfold render in E. rewrite bind_cons in E. cbn [render_piece] in E.
    destruct (number_cons r n) as (c & l & En & _). by rewrite En in E.
  - unfold render in E. rewrite !bind_cons in E. fold (render t1) in E. fold (render t2) in E.
    destruct p as [a|r m], q as [b|s n]; cbn [render_piece app] in E; cbn [face].
    + injection E as -> E. rewrite Ascii.eqb_refl. by apply IH.
    + destruct (_ || _) eqn:Hc; [done|]. symmetry in E. by apply number_not in E.
    + destruct (_ || _) eqn:Hc; [done|]. by apply number_not in E.
    + case_bool_decide as Hr; [|done]. destruct (heads r t1) eqn:H1, (heads s t2) eqn:H2; cbn; [done..|].
      assert (r = s) as <- by (by destruct r, s).
      apply number_inj in E as [-> E]; [|by apply heads_render..].
      specialize (IH t2 E). destruct (face t1 t2); cbn; [done|by constructor|done].
Qed.

(** A type whose texts are told apart piece by piece. *)
Class Distinct (A : Type) `{Display A} := distinct : forall a b : A,
  match face (fmt a) (fmt b) with
  | Apart => True | Alike l => Forall (fun p => fst p = snd p) l -> a = b | Unclear => False
  end.
#[export] Instance show_inj A `{Distinct A} : Inj (=) (=) (show (A := A)).
Proof.
  intros a b E. pose proof (distinct a b) as D. pose proof (face_ok _ _ E) as F.
  by destruct (face (fmt a) (fmt b)); [|apply D|].
Qed.

(** ** `error.rs` *)
(* src/src/error.rs:32-36 Errno::fmt *)
Definition Errno_debug (self : Errno) : Text := lit "Errno(" ++ dec self ++ lit ")".
(* src/src/error.rs:38-42 Errno::fmt *)
Definition Errno_fmt (self : Errno) : Text := lit "os error " ++ dec self.
(* src/src/error.rs:83-105 InvalidArgKind::fmt *)
#[export] Instance InvalidArgKind_fmt : Display InvalidArgKind := fun self =>
  match self with
  | BufferCountZero => lit "buffer count must be non-zero"
  | BufferSizeZero => lit "buffer size must be non-zero"
  | BufferCountNotPowerOfTwo => lit "buffer count must be a power of two"
  | BufferCountTooLarge => lit "buffer count exceeds the kernel's maximum of 32768 entries"
  | BufferRingSizeOverflow => lit "buffer count * buffer/entry size overflows usize"
  | UnsupportedSetupFlags bits =>
      lit "setup flags 0x" ++ hex bits ++ lit " are not supported by this crate's ring mapping code"
  | IncompatibleSplit bits =>
      lit "setup flags 0x" ++ hex bits ++
      lit " restrict this ring to its creating thread; split() cannot honor that for a Send Submitter/Completer"
  end.
(* src/src/error.rs:116-123 SubmitError::fmt *)
#[export] Instance SubmitError_fmt : Display SubmitError := fun self =>
  match self with
  | QueueFull => lit "submission queue is full"
  | SubmitSyscall e => lit "submit syscall failed: " ++ Errno_fmt e
  end.
(* src/src/error.rs:153-164 CompletionError::fmt *)
#[export] Instance CompletionError_fmt : Display CompletionError := fun self =>
  match self with
  | NoCompletion => lit "no completion available"
  | Types.Failed e => lit "operation failed: " ++ Errno_fmt e
  | UnexpectedCompletion expected found =>
      lit "expected completion tagged " ++ dec expected ++
      lit ", found unrelated completion tagged " ++ dec found ++
      lit " -- another operation was in flight on this ring"
  end.
(* src/src/error.rs:175-182 SetupError::fmt *)
#[export] Instance SetupError_fmt : Display SetupError := fun self =>
  match self with
  | InvalidArg k => lit "invalid argument: " ++ fmt k
  | SetupSyscall e => lit "setup syscall failed: " ++ Errno_fmt e
  end.
(* src/src/error.rs:202-211 Error::fmt *)
#[export] Instance Error_fmt : Display Error := fun self =>
  match self with
  | Submit e => fmt e
  | Completion_ e => fmt e
  | Setup e => fmt e
  | Types.Syscall e => lit "syscall failed: " ++ Errno_fmt e
  end.

(** ** Value types and the buffer ring *)
(* src/src/types/buffers.rs:114-118 RawFd::fmt *)
Definition RawFd_fmt (self : Z) : Text := dec self.
(* src/src/owned/slot.rs:84-88 SlotIndex::fmt *)
Definition SlotIndex_fmt (self : Z) : Text := dec self.
(* src/src/ring/pbuf.rs:938-952 AcknowledgeError::fmt *)
#[export] Instance AcknowledgeError_fmt : Display AcknowledgeError := fun self =>
  match self with
  | OutOfRange buf_id len =>
      lit "buf_id " ++ dec buf_id ++ lit " or len " ++ dec len ++ lit " out of range"
  | AlreadyAcknowledged buf_id =>
      lit "buf_id " ++ dec buf_id ++ lit " was already acknowledged and not yet recycled"
  end.
(* src/src/types/cancel.rs:91-101 CancelOutcome::fmt *)
#[export] Instance CancelOutcome_fmt : Display Cancel.Outcome := fun self =>
  match self with
  | Cancel.Applied 0 => lit "cancelled"
  | Cancel.Applied n => lit "cancelled " ++ dec n ++ lit " request(s)"
  | Cancel.NotFound => lit "no matching request found"
  | Cancel.AlreadyCompleting => lit "matching request was already completing"
  | Cancel.OutcomeFailed e => lit "cancel failed: " ++ Errno_fmt e
  end.

(** ** Outcomes and refusals of the owned requests *)
(* src/src/owned/path.rs:47-57 PathError::fmt *)
#[export] Instance PathError_fmt : Display OwnedPath.PathError := fun self =>
  match self with
  | OwnedPath.NotTerminated => lit "path is not NUL-terminated"
  | OwnedPath.Empty => lit "path is empty"
  | OwnedPath.TooLong needed got =>
      lit "path needs " ++ dec needed ++ lit " bytes, storage has " ++ dec got
  end.
(* src/src/owned/openat2.rs:142-156 Openat2Error::fmt *)
#[export] Instance Openat2Error_fmt : Display Openat2.Openat2Error := fun self =>
  match self with
  | Openat2.HowTooSmall needed got =>
      lit "open_how storage needs " ++ dec needed ++ lit " bytes, got " ++ dec got
  | Openat2.HowMisaligned needed =>
      lit "open_how storage must be " ++ dec needed ++ lit "-byte aligned"
  | Openat2.ModeOutsidePermissionBits stray =>
      lit "mode sets bits outside 0o7777: " ++ oct stray
  end.
(* src/src/owned/statx.rs:86-98 StatxError::fmt *)
#[export] Instance StatxError_fmt : Display StatxOp.StatxError := fun self =>
  match self with
  | StatxOp.DestTooSmall needed got =>
      lit "statx destination needs " ++ dec needed ++ lit " bytes, got " ++ dec got
  | StatxOp.DestMisaligned needed =>
      lit "statx destination must be " ++ dec needed ++ lit "-byte aligned"
  | StatxOp.ReservedMaskBit => lit "statx mask sets a reserved bit"
  end.
(* src/src/owned/direct.rs:76-84 DirectOpenError::fmt *)
#[export] Instance DirectOpenError_fmt : Display DirectOpen.DirectOpenError := fun self =>
  match self with
  | DirectOpen.CloseOnExec => lit "O_CLOEXEC is meaningless for a file-table slot"
  end.
(* src/src/owned/direct_socket.rs:75-83 DirectSocketError::fmt *)
#[export] Instance DirectSocketError_fmt : Display DirectSocket.DirectSocketError := fun self =>
  match self with
  | DirectSocket.CloseOnExec => lit "SOCK_CLOEXEC is meaningless for a file-table slot"
  end.
(* src/src/owned/timeout.rs:162-171 Expiry::fmt *)
#[export] Instance Expiry_fmt : Display Timeout.Expiry := fun self =>
  match self with
  | Timeout.Expired => lit "timer expired"
  | Timeout.CountReached => lit "completion count reached first"
  | Timeout.Cancelled => lit "timeout cancelled"
  | Timeout.Failed e => lit "timeout failed: " ++ Errno_fmt e
  end.
(* src/src/owned/timeout.rs:200-211 TimeoutError::fmt *)
#[export] Instance TimeoutError_fmt : Display Timeout.TimeoutError := fun self =>
  match self with
  | Timeout.StoreTooSmall needed got =>
      lit "timespec storage needs " ++ dec needed ++ lit " bytes, got " ++ dec got
  | Timeout.StoreMisaligned needed =>
      lit "timespec storage must be " ++ dec needed ++ lit "-byte aligned"
  end.
(* src/src/owned/epoll.rs:153-162 EpollOutcome::fmt *)
#[export] Instance EpollOutcome_fmt : Display EpollCtl.Outcome := fun self =>
  match self with
  | EpollCtl.Applied => lit "epoll registration updated"
  | EpollCtl.AlreadyRegistered => lit "descriptor is already registered"
  | EpollCtl.NotRegistered => lit "descriptor is not registered"
  | EpollCtl.Failed e => lit "epoll_ctl failed: " ++ Errno_fmt e
  end.
(* src/src/owned/epoll.rs:184-195 EpollError::fmt *)
#[export] Instance EpollError_fmt : Display EpollCtl.EpollError := fun self =>
  match self with
  | EpollCtl.StoreTooSmall needed got =>
      lit "epoll_event storage needs " ++ dec needed ++ lit " bytes, got " ++ dec got
  | EpollCtl.StoreMisaligned needed =>
      lit "epoll_event storage must be " ++ dec needed ++ lit "-byte aligned"
  end.
(* src/src/owned/bind.rs:122-132 BindOutcome::fmt *)
#[export] Instance BindOutcome_fmt : Display Bind.Outcome := fun self =>
  match self with
  | Bind.Bound => lit "socket bound"
  | Bind.AddressInUse => lit "address is already in use"
  | Bind.AlreadyBound => lit "socket is already bound"
  | Bind.PermissionDenied => lit "binding this address requires privilege"
  | Bind.Failed e => lit "bind failed: " ++ Errno_fmt e
  end.
(* src/src/owned/bind.rs:146-154 BindError::fmt *)
#[export] Instance BindError_fmt : Display Bind.BindError := fun self =>
  match self with
  | Bind.StoreTooSmall needed got =>
      lit "bind address storage needs " ++ dec needed ++ lit " bytes, got " ++ dec got
  end.
(* src/src/owned/connect.rs:128-139 ConnectOutcome::fmt *)
#[export] Instance ConnectOutcome_fmt : Display Connect.Outcome := fun self =>
  match self with
  | Connect.Connected => lit "socket connected"
  | Connect.ConnectionRefused => lit "connection refused"
  | Connect.AlreadyConnected => lit "socket is already connected"
  | Connect.TimedOut => lit "connection timed out"
  | Connect.NetworkUnreachable => lit "network is unreachable"
  | Connect.Failed e => lit "connect failed: " ++ Errno_fmt e
  end.
(* src/src/owned/connect.rs:153-161 ConnectError::fmt *)
#[export] Instance ConnectError_fmt : Display Connect.ConnectError := fun self =>
  match self with
  | Connect.StoreTooSmall needed got =>
      lit "connect address storage needs " ++ dec needed ++ lit " bytes, got " ++ dec got
  end.
(* src/src/owned/futexwaitv.rs:63-78 FutexWaitvError::fmt *)
#[export] Instance FutexWaitvError_fmt : Display FutexWaitvOp.FutexWaitvError := fun self =>
  match self with
  | FutexWaitvOp.ArrayTooSmall needed got =>
      lit "futex_waitv array needs " ++ dec needed ++ lit " bytes, got " ++ dec got
  | FutexWaitvOp.ArrayMisaligned needed =>
      lit "futex_waitv array must be " ++ dec needed ++ lit "-byte aligned"
  | FutexWaitvOp.TooManyWaiters got max =>
      dec got ++ lit " waiters exceeds the kernel's limit of " ++ dec max
  | FutexWaitvOp.NoWaiters => lit "futex_waitv needs at least one waiter"
  end.
(* src/src/owned/filesupdate.rs:171-182 Update::fmt *)
#[export] Instance Update_fmt : Display FilesUpdate.Update := fun self =>
  match self with
  | FilesUpdate.All count => dec count ++ lit " slots updated"
  | FilesUpdate.Partial installed requested =>
      lit "only " ++ dec installed ++ lit " of " ++ dec requested ++ lit " slots updated"
  | FilesUpdate.Failed e => lit "files_update failed: " ++ Errno_fmt e
  end.
(* src/src/owned/filesupdate.rs:212-224 FilesUpdateError::fmt *)
#[export] Instance FilesUpdateError_fmt : Display FilesUpdate.FilesUpdateError := fun self =>
  match self with
  | FilesUpdate.StoreTooSmall needed got =>
      lit "descriptor array needs " ++ dec needed ++ lit " bytes, got " ++ dec got
  | FilesUpdate.StoreMisaligned needed =>
      lit "descriptor array must be " ++ dec needed ++ lit "-byte aligned"
  | FilesUpdate.Empty => lit "a files_update must name at least one slot"
  end.
(* src/src/owned/epollwait.rs:46-60 EpollWaitError::fmt *)
#[export] Instance EpollWaitError_fmt : Display EpollWait.EpollWaitError := fun self =>
  match self with
  | EpollWait.StoreTooSmall needed got =>
      lit "epoll_wait storage needs at least " ++ dec needed ++ lit " bytes, got " ++ dec got
  | EpollWait.StoreMisaligned needed =>
      lit "epoll_wait storage must be " ++ dec needed ++ lit "-byte aligned"
  end.
(* src/src/owned/pipe.rs:59-70 PipeError::fmt *)
#[export] Instance PipeError_fmt : Display Pipe.PipeError := fun self =>
  match self with
  | Pipe.DestTooSmall needed got =>
      lit "pipe destination needs " ++ dec needed ++ lit " bytes, got " ++ dec got
  | Pipe.DestMisaligned needed =>
      lit "pipe destination must be " ++ dec needed ++ lit "-byte aligned"
  end.
(* src/src/owned/waitid.rs:45-56 WaitIdError::fmt *)
#[export] Instance WaitIdError_fmt : Display WaitId.WaitIdError := fun self =>
  match self with
  | WaitId.DestTooSmall needed got =>
      lit "waitid destination needs " ++ dec needed ++ lit " bytes, got " ++ dec got
  | WaitId.DestMisaligned needed =>
      lit "waitid destination must be " ++ dec needed ++ lit "-byte aligned"
  end.
(* src/src/owned/vectored.rs:66-77 VectoredError::fmt *)
#[export] Instance VectoredError_fmt : Display Vectored.VectoredError := fun self =>
  match self with
  | Vectored.ArrayTooSmall needed got =>
      lit "iovec array needs " ++ dec needed ++ lit " bytes, got " ++ dec got
  | Vectored.ArrayMisaligned needed =>
      lit "iovec array must be " ++ dec needed ++ lit "-byte aligned"
  end.
(* src/src/owned/msgregion.rs:84-98 MsgRegionError::fmt *)
#[export] Instance MsgRegionError_fmt : Display Region.MsgRegionError := fun self =>
  match self with
  | Region.RegionTooSmall needed got =>
      lit "msghdr staging needs " ++ dec needed ++ lit " bytes, got " ++ dec got
  | Region.RegionMisaligned needed =>
      lit "msghdr staging must be " ++ dec needed ++ lit "-byte aligned"
  | Region.TooManyDescriptors got max =>
      dec got ++ lit " descriptors exceeds the kernel's limit of " ++ dec max
  end.

(** ** What is printed identifies the value *)
Ltac values_agree :=
  repeat match goal with
    | a : InvalidArgKind |- _ => destruct a | a : SubmitError |- _ => destruct a
    | a : CompletionError |- _ => destruct a | a : SetupError |- _ => destruct a
    end.
Ltac side_by_side :=
  intros a b; destruct a, b; values_agree; vm_compute;
  first [exact I|intros F; repeat (apply Forall_cons_1 in F as [? F]; cbn in *); by subst].
#[export] Instance InvalidArgKind_distinct : Distinct InvalidArgKind.
Proof. side_by_side. Qed.
#[export] Instance SubmitError_distinct : Distinct SubmitError.
Proof. side_by_side. Qed.
#[export] Instance CompletionError_distinct : Distinct CompletionError.
Proof. side_by_side. Qed.
#[export] Instance SetupError_distinct : Distinct SetupError.
Proof. side_by_side. Qed.
#[export] Instance Error_distinct : Distinct Error.
Proof. side_by_side. Qed.
#[export] Instance AcknowledgeError_distinct : Distinct AcknowledgeError.
Proof. side_by_side. Qed.
#[export] Instance CancelOutcome_distinct : Distinct Cancel.Outcome.
Proof. intros [[|m|m]| | |e] [[|n|n]| | |e']; vm_compute;
  first [exact I|intros F; repeat (apply Forall_cons_1 in F as [? F]; cbn in *); by simplify_eq].
Qed.
#[export] Instance PathError_distinct : Distinct OwnedPath.PathError.
Proof. side_by_side. Qed.
#[export] Instance Openat2Error_distinct : Distinct Openat2.Openat2Error.
Proof. side_by_side. Qed.
#[export] Instance StatxError_distinct : Distinct StatxOp.StatxError.
Proof. side_by_side. Qed.
#[export] Instance DirectOpenError_distinct : Distinct DirectOpen.DirectOpenError.
Proof. side_by_side. Qed.
#[export] Instance DirectSocketError_distinct : Distinct DirectSocket.DirectSocketError.
Proof. side_by_side. Qed.
#[export] Instance Expiry_distinct : Distinct Timeout.Expiry.
Proof. side_by_side. Qed.
#[export] Instance TimeoutError_distinct : Distinct Timeout.TimeoutError.
Proof. side_by_side. Qed.
#[export] Instance EpollOutcome_distinct : Distinct EpollCtl.Outcome.
Proof. side_by_side. Qed.
#[export] Instance EpollError_distinct : Distinct EpollCtl.EpollError.
Proof. side_by_side. Qed.
#[export] Instance BindOutcome_distinct : Distinct Bind.Outcome.
Proof. side_by_side. Qed.
#[export] Instance BindError_distinct : Distinct Bind.BindError.
Proof. side_by_side. Qed.
#[export] Instance ConnectOutcome_distinct : Distinct Connect.Outcome.
Proof. side_by_side. Qed.
#[export] Instance ConnectError_distinct : Distinct Connect.ConnectError.
Proof. side_by_side. Qed.
#[export] Instance FutexWaitvError_distinct : Distinct FutexWaitvOp.FutexWaitvError.
Proof. side_by_side. Qed.
#[export] Instance Update_distinct : Distinct FilesUpdate.Update.
Proof. side_by_side. Qed.
#[export] Instance FilesUpdateError_distinct : Distinct FilesUpdate.FilesUpdateError.
Proof. side_by_side. Qed.
#[export] Instance EpollWaitError_distinct : Distinct EpollWait.EpollWaitError.
Proof. side_by_side. Qed.
#[export] Instance PipeError_distinct : Distinct Pipe.PipeError.
Proof. side_by_side. Qed.
#[export] Instance WaitIdError_distinct : Distinct WaitId.WaitIdError.
Proof. side_by_side. Qed.
#[export] Instance VectoredError_distinct : Distinct Vectored.VectoredError.
Proof. side_by_side. Qed.
#[export] Instance MsgRegionError_distinct : Distinct Region.MsgRegionError.
Proof. side_by_side. Qed.

(** A type with a text for each value and no two alike. *)
Inductive displayed : Type := Displayed A `{Distinct A}.
Definition show_distinct (d : displayed) : Prop :=
  let '(Displayed A) := d in Inj (=@{A}) (=) show.
(** Every `Display` type of the crate that is not a bare number. *)
Definition displayed_types : list displayed :=
  [Displayed InvalidArgKind;
   Displayed SubmitError;
   Displayed CompletionError;
   Displayed SetupError;
   Displayed Error;
   Displayed AcknowledgeError;
   Displayed Cancel.Outcome;
   Displayed OwnedPath.PathError;
   Displayed Openat2.Openat2Error;
   Displayed StatxOp.StatxError;
   Displayed DirectOpen.DirectOpenError;
   Displayed DirectSocket.DirectSocketError;
   Displayed Timeout.Expiry;
   Displayed Timeout.TimeoutError;
   Displayed EpollCtl.Outcome;
   Displayed EpollCtl.EpollError;
   Displayed Bind.Outcome;
   Displayed Bind.BindError;
   Displayed Connect.Outcome;
   Displayed Connect.ConnectError;
   Displayed FutexWaitvOp.FutexWaitvError;
   Displayed FilesUpdate.Update;
   Displayed FilesUpdate.FilesUpdateError;
   Displayed EpollWait.EpollWaitError;
   Displayed Pipe.PipeError;
   Displayed WaitId.WaitIdError;
   Displayed Vectored.VectoredError;
   Displayed Region.MsgRegionError].

Lemma neg_i32_inj r r' : in_i 32 r -> in_i 32 r' -> r < 0 -> r' < 0 -> neg_i32 r = neg_i32 r' -> r = r'.
Proof.
  intros H H' Hr Hr' E.
  destruct (decide (r = - 2 ^ 31)) as [->|Hm], (decide (r' = - 2 ^ 31)) as [->|Hm']; try done;
    rewrite ?(neg_i32_exact r), ?(neg_i32_exact r') in E by done; [..|lia];
    change (neg_i32 (- 2 ^ 31)) with (- 2 ^ 31) in E; lia.
Qed.

(** C33. What is printed identifies the value: for each of the crate's displayed
    types, two values with the same text are equal, the numbers in them included.
    [Error] prints what the error inside it prints, yet the text still tells a
    submission, completion or setup failure from one another, so the text of a failed
    completion is that of exactly one result word. *)
Theorem texts_identify :
  Forall show_distinct displayed_types /\
  Inj (=) (=) (fun e : Errno => render (Errno_fmt e)) /\
  Inj (=) (=) (fun fd => render (RawFd_fmt fd)) /\ Inj (=) (=) (fun i => render (SlotIndex_fmt i)) /\
  (forall e, show (Submit e) = show e) /\ (forall e, show (Completion_ e) = show e) /\
  (forall e, show (Setup e) = show e) /\
  (forall r r' e e', in_i 32 r -> in_i 32 r' ->
    from_failed_cqe r = Some e -> from_failed_cqe r' = Some e' -> show e = show e' -> r = r').
Proof.
  assert (forall t m n, render (t ++ dec m) = render (t ++ dec n) -> m = n) as Hn.
  { intros t m n E. unfold render in E. rewrite !bind_app in E. apply app_inv_head in E.
    cbn in E. by apply number_inj with (X := []) (Y := []) in E as [E _]. }
  split; [|split; [|split; [|split]]].
  - repeat constructor; cbn; apply _.
  - intros m n E. by apply (Hn (lit "os error ")).
  - intros m n E. by apply (Hn []).
  - intros m n E. by apply (Hn []).
  - do 3 (split; [done|]). intros r r' e e' Hr Hr' H H' E. apply (inj show) in E as ->.
    unfold from_failed_cqe in H, H'. destruct (Z.ltb_spec r 0), (Z.ltb_spec r' 0); try done.
    apply neg_i32_inj; congruence.
Qed.
Lemma texts_identify_witness :
  (forall e, show (Submit e) = show (Completion_ (Failed 5)) -> False) /\
  (forall r, in_i 32 r -> r < 0 -> from_failed_cqe r = Some (Completion_ (Failed 5)) -> r = -5).
Proof.
  destruct texts_identify as (H & _ & _ & _ & _ & _ & _ & Hr). split.
  - intros e E. rewrite Forall_forall in H. assert (show_distinct (Displayed Error)) as Hi.
    { apply H. unfold displayed_types. do 4 right. by left. }
    by apply Hi in E.
  - intros r Hi _ He. apply (Hr r (-5) _ _ Hi ltac:(by split) He eq_refl eq_refl).
Defined.
Example show_setup :
  show_string (Setup (InvalidArg (IncompatibleSplit 4096))) =
  "invalid argument: setup flags 0x1000 restrict this ring to its creating thread; split() cannot honor that for a Send Submitter/Completer"%string.
Proof. reflexivity. Qed.
Example show_stray : show_string (Openat2.ModeOutsidePermissionBits 32768) = "mode sets bits outside 0o7777: 100000"%string.
Proof. reflexivity. Qed.
