(* ===== verification/OwnedQueue.v ===== *)
(** * The owned queue (owned/queue.rs)

    [OwnedSubmitter] stamps a fresh identity into each request, turns it into a
    ticket and pushes its entry; [OwnedCompleter] turns reaped completions into
    events.  `push` and its per-kind forms share one definition over the
    [OwnedRequest] interface, as their bodies do in the source. *)
From stdpp Require Import base numbers list option gmap gmultiset.
From Stdlib Require Import ZArith Lia.
From S2P Require Import Prelude Flags Types RingIndex Sqe SqeFile SqeNet Kernel Ring Resources Split.
From S2P Require Import UserMem Owned OwnedPath OwnedDirect OwnedStaged OwnedArrays OwnedMsg.
Local Open Scope Z_scope.
Local Open Scope rust_scope.

(** An operation on a component of the handle. *)
Definition through {A B K E R} (proj : A -> B) (put : B -> A -> A) (m : M (Sys B K) E R)
  : M (Sys A K) E R := fun s =>
  let '(r, s') := m (mkSys (proj (hd s)) (mem s) (kern s)) in
  (r, mkSys (put (hd s') (hd s)) (mem s') (kern s')).

(** ** The submission half *)
Module OwnedSubmitter.
(* src/src/owned/queue.rs:46-50 OwnedSubmitter *)
Record t : Set := mk { inner : Submitter.t; ring : RingId; ids : RequestIdSource.t }.
Definition set_inner (i : Submitter.t) (r : t) : t := mk i (ring r) (ids r).
Definition set_ids (i : RequestIdSource.t) (r : t) : t := mk (inner r) (ring r) i.

Section Ops.
  Context {K : Type} `{HK : Kernel K}.
  Notation St := (Sys t K).
Definition raw {R} (m : M (Sys Submitter.t K) Error R) : M St Error R := through inner set_inner m.

(** Undoing a push the kernel never saw: what [give_back] is for each kind that
    owns something ([reclaims_agree]). *)
(* src/src/owned/queue.rs:446-453 OwnedSubmitter::reclaim_openat2 *)
Definition reclaim_openat2 {S H} (pending : Openat2.Pending S H) : Openat2.Prepared S H :=
  Openat2.reclaim_unsubmitted pending.
(* src/src/owned/queue.rs:482-489 OwnedSubmitter::reclaim_sendmsg *)
Definition reclaim_sendmsg {B R} (pending : Sendmsg.Pending B R) : Sendmsg.Prepared B R :=
  Sendmsg.reclaim_unsubmitted pending.
(* src/src/owned/queue.rs:519-526 OwnedSubmitter::reclaim_sendmsg_zc *)
Definition reclaim_sendmsg_zc {B R} (pending : SendmsgZc.Pending B R) : SendmsgZc.Prepared B R :=
  SendmsgZc.reclaim_unsubmitted pending.
(* src/src/owned/queue.rs:556-563 OwnedSubmitter::reclaim_recvmsg *)
Definition reclaim_recvmsg {B R} (pending : Recvmsg.Pending B R) : Recvmsg.Prepared B R :=
  Recvmsg.reclaim_unsubmitted pending.
(* src/src/owned/queue.rs:705-710 OwnedSubmitter::reclaim_epoll_ctl *)
Definition reclaim_epoll_ctl {S} {TA : TargetArch} (pending : Value.Pending S EpollCtl.EpollCtlOp) : Value.Prepared S EpollCtl.EpollCtlOp :=
  EpollCtl.reclaim_unsubmitted pending.
(* src/src/owned/queue.rs:736-743 OwnedSubmitter::reclaim_epoll_wait *)
Definition reclaim_epoll_wait {D} (pending : EpollWait.Pending D) : EpollWait.Prepared D :=
  EpollWait.reclaim_unsubmitted pending.
(* src/src/owned/queue.rs:769-774 OwnedSubmitter::reclaim_pipe *)
Definition reclaim_pipe {D} (pending : Pipe.Pending D) : Pipe.Prepared D :=
  Pipe.reclaim_unsubmitted pending.
(* src/src/owned/queue.rs:807-812 OwnedSubmitter::reclaim_bind *)
Definition reclaim_bind {S} (pending : Addr.Pending S Bind.BindOp) : Addr.Prepared S Bind.BindOp :=
  Bind.reclaim_unsubmitted pending.
(* src/src/owned/queue.rs:844-849 OwnedSubmitter::reclaim_connect *)
Definition reclaim_connect {S} (pending : Addr.Pending S Connect.ConnectOp) : Addr.Prepared S Connect.ConnectOp :=
  Connect.reclaim_unsubmitted pending.
(* src/src/owned/queue.rs:882-889 OwnedSubmitter::reclaim_files_update *)
Definition reclaim_files_update {S} (pending : FilesUpdate.Pending S) : FilesUpdate.Prepared S :=
  FilesUpdate.reclaim_unsubmitted pending.
(* src/src/owned/queue.rs:922-927 OwnedSubmitter::reclaim_timeout *)
Definition reclaim_timeout {S} (pending : Value.Pending S Timeout.TimeoutOp) : Value.Prepared S Timeout.TimeoutOp :=
  Timeout.reclaim_unsubmitted pending.
(* src/src/owned/queue.rs:930-937 OwnedSubmitter::reclaim_statx *)
Definition reclaim_statx {S D} (pending : StatxOp.Pending S D) : StatxOp.Prepared S D :=
  StatxOp.reclaim_unsubmitted pending.
(* src/src/owned/queue.rs:940-945 OwnedSubmitter::reclaim_waitid *)
Definition reclaim_waitid {D} (pending : WaitId.Pending D) : WaitId.Prepared D :=
  WaitId.reclaim_unsubmitted pending.
(* src/src/owned/queue.rs:948-955 OwnedSubmitter::reclaim_futex_waitv *)
Definition reclaim_futex_waitv {V} (pending : FutexWaitvOp.Pending V) : FutexWaitvOp.Prepared V :=
  FutexWaitvOp.reclaim_unsubmitted pending.
(* src/src/owned/queue.rs:958-963 OwnedSubmitter::reclaim_path_op *)
Definition reclaim_path_op {S} (pending : PathOp.Pending S) : PathOp.Prepared S :=
  PathOp.reclaim_unsubmitted pending.
(* src/src/owned/queue.rs:966-973 OwnedSubmitter::reclaim_rename *)
Definition reclaim_rename {F T} (pending : Rename.Pending F T) : Rename.Prepared F T :=
  Rename.reclaim_unsubmitted pending.
(* src/src/owned/queue.rs:976-983 OwnedSubmitter::reclaim_link *)
Definition reclaim_link {F T} (pending : Link.Pending F T) : Link.Prepared F T :=
  Link.reclaim_unsubmitted pending.
(* src/src/owned/queue.rs:986-993 OwnedSubmitter::reclaim_direct_open *)
Definition reclaim_direct_open {S} (pending : DirectOpen.Pending S) : DirectOpen.Prepared S :=
  DirectOpen.reclaim_unsubmitted pending.
(* src/src/owned/queue.rs:996-1001 OwnedSubmitter::reclaim_open *)
Definition reclaim_open {S} (pending : Open.Pending S) : Open.Prepared S :=
  Open.reclaim_unsubmitted pending.
(* src/src/owned/queue.rs:1004-1011 OwnedSubmitter::reclaim_vectored *)
Definition reclaim_vectored {B V} (pending : Vectored.Pending B V) : Vectored.Prepared B V :=
  Vectored.reclaim_unsubmitted pending.
(* src/src/owned/queue.rs:1014-1021 OwnedSubmitter::reclaim *)
Definition reclaim {B} (pending : Request.Pending B) : Request.Prepared B :=
  Request.reclaim_unsubmitted pending.
(* src/src/owned/queue.rs:1024-1029 OwnedSubmitter::reclaim_zc *)
Definition reclaim_zc {B} (pending : Zc.Pending B) : Zc.Prepared B :=
  Zc.reclaim_unsubmitted pending.
(* src/src/owned/queue.rs:63-76 OwnedSubmitter::push *)
Definition push {P T} `{OwnedRequest P T} (request : P) (s : St) : result T (P * Error) * St :=
  let '(id, ids) := RequestIdSource.next (ids (hd s)) in
  let s := upd_hd (set_ids ids) s in
  let '(sqe, pending) := into_pending (ring (hd s)) id request in
  match raw (Submitter.push sqe) s with
  | (Ok _, s) => (Ok pending, s)
  | (Err e, s) => (Err (give_back request pending, e), s)
  end.
(* src/src/owned/queue.rs:87-97 OwnedSubmitter::push_zc *)
Definition push_zc {B} (request : Zc.Prepared B) (s : St) := push request s.
(* src/src/owned/queue.rs:110-122 OwnedSubmitter::push_multishot *)
Definition push_multishot (request : Multishot.PreparedRecv) (s : St) := push request s.
(* src/src/owned/queue.rs:133-143 OwnedSubmitter::push_read_multishot *)
Definition push_read_multishot (request : Multishot.PreparedRead) (s : St) := push request s.
(* src/src/owned/queue.rs:154-166 OwnedSubmitter::push_accept *)
Definition push_accept (request : Accept.Prepared) (s : St) := push request s.
(* src/src/owned/queue.rs:226-238 OwnedSubmitter::push_cancel *)
Definition push_cancel (request : Cancel.Prepared) (s : St) := push request s.
(* src/src/owned/queue.rs:249-261 OwnedSubmitter::push_msg_ring *)
Definition push_msg_ring (request : MsgRing.Prepared) (s : St) := push request s.
(* src/src/owned/queue.rs:177-189 OwnedSubmitter::push_direct_accept *)
Definition push_direct_accept (request : DirectAccept.Prepared) (s : St) := push request s.
(* src/src/owned/queue.rs:203-215 OwnedSubmitter::push_direct_socket *)
Definition push_direct_socket (request : DirectSocket.Prepared) (s : St) := push request s.
(* src/src/owned/queue.rs:272-284 OwnedSubmitter::push_fixed_fd_install *)
Definition push_fixed_fd_install (request : FixedFdInstall.Prepared) (s : St) := push request s.
(* src/src/owned/queue.rs:296-306 OwnedSubmitter::push_futex_wait *)
Definition push_futex_wait (request : FutexWait.Prepared) (s : St) := push request s.
(* src/src/owned/queue.rs:315-325 OwnedSubmitter::push_futex_wake *)
Definition push_futex_wake (request : FutexWake.Prepared) (s : St) := push request s.
(* src/src/owned/queue.rs:337-349 OwnedSubmitter::push_futex_waitv *)
Definition push_futex_waitv {V} (request : FutexWaitvOp.Prepared V) (s : St) := push request s.
(* src/src/owned/queue.rs:358-370 OwnedSubmitter::push_vectored *)
Definition push_vectored {B V} (request : Vectored.Prepared B V) (s : St) := push request s.
(* src/src/owned/queue.rs:382-394 OwnedSubmitter::push_open *)
Definition push_open {S} (request : Open.Prepared S) (s : St) := push request s.
(* src/src/owned/queue.rs:407-419 OwnedSubmitter::push_direct_open *)
Definition push_direct_open {S} (request : DirectOpen.Prepared S) (s : St) := push request s.
(* src/src/owned/queue.rs:431-443 OwnedSubmitter::push_openat2 *)
Definition push_openat2 {S H} (request : Openat2.Prepared S H) (s : St) := push request s.
(* src/src/owned/queue.rs:467-479 OwnedSubmitter::push_sendmsg *)
Definition push_sendmsg {B R} (request : Sendmsg.Prepared B R) (s : St) := push request s.
(* src/src/owned/queue.rs:504-516 OwnedSubmitter::push_sendmsg_zc *)
Definition push_sendmsg_zc {B R} (request : SendmsgZc.Prepared B R) (s : St) := push request s.
(* src/src/owned/queue.rs:541-553 OwnedSubmitter::push_recvmsg *)
Definition push_recvmsg {B R} (request : Recvmsg.Prepared B R) (s : St) := push request s.
(* src/src/owned/queue.rs:574-586 OwnedSubmitter::push_path_op *)
Definition push_path_op {S} (request : PathOp.Prepared S) (s : St) := push request s.
(* src/src/owned/queue.rs:598-610 OwnedSubmitter::push_rename *)
Definition push_rename {F T} (request : Rename.Prepared F T) (s : St) := push request s.
(* src/src/owned/queue.rs:619-631 OwnedSubmitter::push_link *)
Definition push_link {F T} (request : Link.Prepared F T) (s : St) := push request s.
(* src/src/owned/queue.rs:642-654 OwnedSubmitter::push_statx *)
Definition push_statx {S D} (request : StatxOp.Prepared S D) (s : St) := push request s.
(* src/src/owned/queue.rs:665-677 OwnedSubmitter::push_waitid *)
Definition push_waitid {D} (request : WaitId.Prepared D) (s : St) := push request s.
(* src/src/owned/queue.rs:690-702 OwnedSubmitter::push_epoll_ctl *)
Definition push_epoll_ctl {S} {TA : TargetArch} (request : Value.Prepared S EpollCtl.EpollCtlOp) (s : St) := push request s.
(* src/src/owned/queue.rs:721-733 OwnedSubmitter::push_epoll_wait *)
Definition push_epoll_wait {D} (request : EpollWait.Prepared D) (s : St) := push request s.
(* src/src/owned/queue.rs:754-766 OwnedSubmitter::push_pipe *)
Definition push_pipe {D} (request : Pipe.Prepared D) (s : St) := push request s.
(* src/src/owned/queue.rs:792-804 OwnedSubmitter::push_bind *)
Definition push_bind {S} (request : Addr.Prepared S Bind.BindOp) (s : St) := push request s.
(* src/src/owned/queue.rs:829-841 OwnedSubmitter::push_connect *)
Definition push_connect {S} (request : Addr.Prepared S Connect.ConnectOp) (s : St) := push request s.
(* src/src/owned/queue.rs:867-879 OwnedSubmitter::push_files_update *)
Definition push_files_update {S} (request : FilesUpdate.Prepared S) (s : St) := push request s.
(* src/src/owned/queue.rs:907-919 OwnedSubmitter::push_timeout *)
Definition push_timeout {S} (request : Value.Prepared S Timeout.TimeoutOp) (s : St) := push request s.
(* src/src/owned/queue.rs:1038-1040 OwnedSubmitter::submit *)
Definition submit : M St Error Z := raw Submitter.submit.
(* src/src/owned/queue.rs:1047-1049 OwnedSubmitter::submit_and_wait *)
Definition submit_and_wait (min_complete : Z) : M St Error Z :=
  raw (Submitter.submit_and_wait min_complete).
(* src/src/owned/queue.rs:1053-1055 OwnedSubmitter::space_left *)
Definition space_left (s : St) : Z :=
  Submitter.sq_space_left (mkSys (inner (hd s)) (mem s) (kern s)).
End Ops.
End OwnedSubmitter.

(** ** The completion half *)
Module OwnedCompleter.
(* src/src/owned/queue.rs:1074-1077 OwnedCompleter *)
Record t : Set := mk { inner : Completer.t; ring : RingId }.
Definition set_inner (i : Completer.t) (r : t) : t := mk i (ring r).

Section Ops.
  Context {K : Type} `{HK : Kernel K}.
  Notation St := (Sys t K).
Definition raw {R} (m : M (Sys Completer.t K) Error R) : M St Error R := through inner set_inner m.

(* src/src/owned/queue.rs:1127-1144 OwnedCompleter::reap_event *)
Definition reap_event (s : St) : option Event.t * St :=
  let '(c, s') := Completer.complete (mkSys (inner (hd s)) (mem s) (kern s)) in
  let s := mkSys (set_inner (hd s') (hd s)) (mem s') (kern s') in
  match c with
  | None => (None, s)
  | Some cqe =>
      let id := c_user_data cqe in
      if contains (c_flags cqe) CqeFlags.MORE
      then (Some (Event.Partial (PartialReceipt.mk (ring (hd s)) id (c_result cqe) (c_flags cqe))), s)
      else (Some (Event.Complete (mkReceipt (ring (hd s)) id (c_result cqe) (c_flags cqe))), s)
  end.
(** The loop runs until a terminal event or an empty ring: fuel. *)
(* src/src/owned/queue.rs:1101-1108 OwnedCompleter::reap *)
Fixpoint reap (fuel : nat) (s : St) : option (option Receipt * St) :=
  match fuel with
  | O => None
  | S fuel =>
      match reap_event s with
      | (None, s) => Some (None, s)
      | (Some (Event.Complete receipt), s) => Some (Some receipt, s)
      | (Some (Event.Partial _), s) => reap fuel s
      end
  end.
(* src/src/owned/queue.rs:1151-1153 OwnedCompleter::wait *)
Definition wait (min_complete : Z) : M St Error unit := raw (Completer.wait min_complete).
(* src/src/owned/queue.rs:1162-1167 OwnedCompleter::wait_one *)
Definition wait_one (fuel : nat) (s : St) : option (result Receipt Error * St) :=
  match wait 1 s with
  | (Err e, s) => Some (Err e, s)
  | (Ok _, s) =>
      match reap fuel s with
      | None => None
      | Some (Some receipt, s) => Some (Ok receipt, s)
      | Some (None, s) => Some (Err (Completion_ NoCompletion), s)
      end
  end.
(* src/src/owned/queue.rs:1170-1172 OwnedCompleter::sync *)
Definition sync : M St Error unit := raw Completer.sync_cq.
End Ops.
End OwnedCompleter.

(** The ring identity is drawn before the split is attempted. *)
(* src/src/owned/queue.rs:1205-1219 IoUring::split_owned *)
Definition split_owned {K : Type} {PW : PtrWidth} (self : IoUring.t) (next_ring : Z) (o : Os K)
  : result (OwnedSubmitter.t * OwnedCompleter.t) (IoUring.t * Error) * Z * Os K :=
  let '(ring, next_ring) := next_ring_id next_ring in
  match split self o with
  | (Err e, o) => (Err e, next_ring, o)
  | (Ok (submitter, completer), o) =>
      (Ok (OwnedSubmitter.mk submitter ring RequestIdSource.new, OwnedCompleter.mk completer ring),
       next_ring, o)
  end.
