(* ===== verification/OwnedExits.v ===== *)
(** * Ways out of an owned request

    What a caller takes out of a request it never pushed, or of a completed one:
    `into_path`, `into_parts`, `into_store` and the like.  [Exits] is what the
    kinds share: the storage deposited comes out with the answer of the result
    word, and with no other ([exits_intact]). *)
From stdpp Require Import base numbers list option.
From Stdlib Require Import ZArith Lia.
From S2P Require Import Prelude Flags Types UserMem Sqe Owned OwnedPath OwnedDirect OwnedStaged OwnedArrays OwnedMsg.
From S2P Require Import OwnedQueue.
Local Open Scope Z_scope.

(** [take_back] empties a request not pushed; [leave] is what a completed one
    yields, its answer first; [answer] is the answer expected of a ticket and a
    result word. *)
Class Exits (P T D S R : Type) := {
  take_back : P -> S;
  leave : D -> R * S;
  answer : T -> Z -> R
}.
Class ExitsLaws (P T D S R : Type) `{Custody P T D S} `{!Exits P T D S R} := {
  take_back_deposit p : take_back p = deposit p;
  leave_answer t r d : redeem_with t r = Ok d -> leave d = (answer t (rc_result r), held t)
}.
Tactic Notation "exits_laws" reference(redeem) :=
  split; [done|]; intros t r d; cbn; unfold redeem; destruct (negb _); [done|];
  by intros [= <-].

#[export] Instance request_exits B :
  Exits (Request.Prepared B) (Request.Pending B)
    (Request.Completed B) B (result Z Error) := {
  take_back := Request.into_buffer;
  leave := Request.into_parts;
  answer _ raw := result_of raw
}.
#[export] Instance zc_exits B :
  Exits (Zc.Prepared B) (Zc.Pending B)
    (Zc.Completed B) B (result Z Error) := {
  take_back := Zc.into_buffer;
  leave := Zc.completed_into_parts;
  answer t raw := result_of (default raw (Zc.t_sent t))
}.
#[export] Instance pathop_exits S :
  Exits (PathOp.Prepared S) (PathOp.Pending S)
    (PathOp.Completed S) (Path S) (result unit Error) := {
  take_back := PathOp.prepared_into_path;
  leave d := (PathOp.completed_result d, PathOp.into_path d);
  answer _ raw := unit_result raw
}.
#[export] Instance rename_exits F T :
  Exits (Rename.Prepared F T) (Rename.Pending F T)
    (Rename.Completed F T) (Path F * Path T) (result unit Error) := {
  take_back := Rename.prepared_into_paths;
  leave d := (Rename.completed_result d, Rename.into_paths d);
  answer _ raw := unit_result raw
}.
#[export] Instance link_exits F T :
  Exits (Link.Prepared F T) (Link.Pending F T)
    (Link.Completed F T) (Path F * Path T) (result unit Error) := {
  take_back := Link.prepared_into_paths;
  leave d := (Link.completed_result d, Link.into_paths d);
  answer _ raw := unit_result raw
}.
#[export] Instance open_exits S :
  Exits (Open.Prepared S) (Open.Pending S)
    (Open.Opened S) (Path S) (option Z) := {
  take_back := Open.prepared_into_path;
  leave := Open.into_parts;
  answer _ raw := claim_fd raw
}.
#[export] Instance openat2_exits S H :
  Exits (Openat2.Prepared S H) (Openat2.Pending S H)
    (Openat2.Opened2 S H) (Path S * H) (option Z) := {
  take_back := Openat2.prepared_into_parts;
  leave d := let '(file, path, how) := Openat2.into_parts d in (file, (path, how));
  answer _ raw := claim_fd raw
}.
#[export] Instance statx_exits S D :
  Exits (StatxOp.Prepared S D) (StatxOp.Pending S D)
    (StatxOp.Completed S D) (Path S * D) (result unit Error) := {
  take_back := StatxOp.prepared_into_parts;
  leave d := (StatxOp.completed_result d, StatxOp.into_parts d);
  answer _ raw := unit_result raw
}.
#[export] Instance direct_open_exits S :
  Exits (DirectOpen.Prepared S) (DirectOpen.Pending S)
    (DirectOpen.Opened S) (Path S) (option Slot.DirectSlot) := {
  take_back := DirectOpen.prepared_into_path;
  leave := DirectOpen.into_parts;
  answer t raw := if raw <? 0 then None else (fun i => Slot.mkDirectSlot i (DirectOpen.t_ring t)) <$> Slot.resolve (DirectOpen.t_target t) raw
}.
#[export] Instance futex_waitv_exits V :
  Exits (FutexWaitvOp.Prepared V) (FutexWaitvOp.Pending V)
    (FutexWaitvOp.Done V) V (result Z Error) := {
  take_back := FutexWaitvOp.prepared_into_array;
  leave d := (FutexWaitvOp.woken_index d, FutexWaitvOp.into_array d);
  answer _ raw := result_of raw
}.
#[export] Instance files_update_exits S :
  Exits (FilesUpdate.Prepared S) (FilesUpdate.Pending S)
    (FilesUpdate.Updated S) S (FilesUpdate.Update) := {
  take_back := FilesUpdate.prepared_into_store;
  leave := FilesUpdate.into_parts;
  answer t raw := FilesUpdate.update_from_raw raw (as_u32 (Z.of_nat (length (FilesUpdate.t_entries t))))
}.
#[export] Instance epoll_wait_exits D :
  Exits (EpollWait.Prepared D) (EpollWait.Pending D)
    (EpollWait.Completed D) D (result Z Error) := {
  take_back := EpollWait.prepared_into_store;
  leave d := (EpollWait.count d, EpollWait.into_store d);
  answer _ raw := result_of raw
}.
#[export] Instance pipe_exits D :
  Exits (Pipe.Prepared D) (Pipe.Pending D)
    (Pipe.Created D) D (result unit Error) := {
  take_back := Pipe.prepared_into_dest;
  leave d := (Pipe.completed_result d, Pipe.into_dest d);
  answer _ raw := unit_result raw
}.
#[export] Instance waitid_exits D :
  Exits (WaitId.Prepared D) (WaitId.Pending D)
    (WaitId.Completed D) (option D) (result unit Error) := {
  take_back := WaitId.prepared_into_dest;
  leave d := (WaitId.completed_result d, WaitId.into_dest d);
  answer _ raw := unit_result raw
}.
#[export] Instance vectored_exits B V :
  Exits (Vectored.Prepared B V) (Vectored.Pending B V)
    (Vectored.Completed B V) (list B * V) (result Z Error) := {
  take_back := Vectored.prepared_into_parts;
  leave d := let '(r, bufs, vecs) := Vectored.into_parts d in (r, (bufs, vecs));
  answer _ raw := result_of raw
}.
#[export] Instance sendmsg_exits B R :
  Exits (Sendmsg.Prepared B R) (Sendmsg.Pending B R)
    (Sendmsg.Completed B R) (list B * R) (result Z Error) := {
  take_back := Sendmsg.prepared_into_parts;
  leave d := let '(r, bufs, store) := Sendmsg.into_parts d in (r, (bufs, store));
  answer _ raw := result_of raw
}.
#[export] Instance sendmsg_zc_exits B R :
  Exits (SendmsgZc.Prepared B R) (SendmsgZc.Pending B R)
    (SendmsgZc.Completed B R) (list B * R) (result Z Error) := {
  take_back := SendmsgZc.prepared_into_parts;
  leave d := let '(r, bufs, store) := SendmsgZc.into_parts d in (r, (bufs, store));
  answer t raw := result_of (default raw (SendmsgZc.t_sent t))
}.
#[export] Instance timeout_exits S :
  Exits (Value.Prepared S Timeout.TimeoutOp) (Value.Pending S Timeout.TimeoutOp)
    (Value.Done S Timeout.TimeoutOp) S (Timeout.Expiry) := {
  take_back := Timeout.prepared_into_store;
  leave := Timeout.into_parts;
  answer _ raw := Timeout.expiry_from_raw raw
}.
#[export] Instance epoll_ctl_exits S {TA : TargetArch} :
  Exits (Value.Prepared S EpollCtl.EpollCtlOp) (Value.Pending S EpollCtl.EpollCtlOp)
    (Value.Done S EpollCtl.EpollCtlOp) S (EpollCtl.Outcome) := {
  take_back := EpollCtl.prepared_into_store;
  leave := EpollCtl.into_parts;
  answer _ raw := EpollCtl.outcome_from_raw raw
}.
#[export] Instance bind_exits S :
  Exits (Addr.Prepared S Bind.BindOp) (Addr.Pending S Bind.BindOp)
    (Addr.Done S Bind.BindOp) S (Bind.Outcome) := {
  take_back := Bind.prepared_into_store;
  leave := Bind.into_parts;
  answer _ raw := Bind.outcome_from_raw raw
}.
#[export] Instance connect_exits S :
  Exits (Addr.Prepared S Connect.ConnectOp) (Addr.Pending S Connect.ConnectOp)
    (Addr.Done S Connect.ConnectOp) S (Connect.Outcome) := {
  take_back := Connect.prepared_into_store;
  leave := Connect.into_parts;
  answer _ raw := Connect.outcome_from_raw raw
}.
#[export] Instance request_exits_laws B :
  ExitsLaws (Request.Prepared B) (Request.Pending B)
    (Request.Completed B) B (result Z Error).
Proof. exits_laws Request.redeem. Qed.
#[export] Instance zc_exits_laws B :
  ExitsLaws (Zc.Prepared B) (Zc.Pending B)
    (Zc.Completed B) B (result Z Error).
Proof. exits_laws Zc.redeem. Qed.
#[export] Instance pathop_exits_laws S :
  ExitsLaws (PathOp.Prepared S) (PathOp.Pending S)
    (PathOp.Completed S) (Path S) (result unit Error).
Proof. exits_laws PathOp.redeem. Qed.
#[export] Instance rename_exits_laws F T :
  ExitsLaws (Rename.Prepared F T) (Rename.Pending F T)
    (Rename.Completed F T) (Path F * Path T) (result unit Error).
Proof. exits_laws Rename.redeem. Qed.
#[export] Instance link_exits_laws F T :
  ExitsLaws (Link.Prepared F T) (Link.Pending F T)
    (Link.Completed F T) (Path F * Path T) (result unit Error).
Proof. exits_laws Link.redeem. Qed.
#[export] Instance open_exits_laws S :
  ExitsLaws (Open.Prepared S) (Open.Pending S)
    (Open.Opened S) (Path S) (option Z).
Proof. exits_laws Open.redeem. Qed.
#[export] Instance openat2_exits_laws S H :
  ExitsLaws (Openat2.Prepared S H) (Openat2.Pending S H)
    (Openat2.Opened2 S H) (Path S * H) (option Z).
Proof. exits_laws Openat2.redeem. Qed.
#[export] Instance statx_exits_laws S D :
  ExitsLaws (StatxOp.Prepared S D) (StatxOp.Pending S D)
    (StatxOp.Completed S D) (Path S * D) (result unit Error).
Proof. exits_laws StatxOp.redeem. Qed.
#[export] Instance direct_open_exits_laws S :
  ExitsLaws (DirectOpen.Prepared S) (DirectOpen.Pending S)
    (DirectOpen.Opened S) (Path S) (option Slot.DirectSlot).
Proof. exits_laws DirectOpen.redeem. Qed.
#[export] Instance futex_waitv_exits_laws V :
  ExitsLaws (FutexWaitvOp.Prepared V) (FutexWaitvOp.Pending V)
    (FutexWaitvOp.Done V) V (result Z Error).
Proof. exits_laws FutexWaitvOp.redeem. Qed.
#[export] Instance files_update_exits_laws S :
  ExitsLaws (FilesUpdate.Prepared S) (FilesUpdate.Pending S)
    (FilesUpdate.Updated S) S (FilesUpdate.Update).
Proof. exits_laws FilesUpdate.redeem. Qed.
#[export] Instance epoll_wait_exits_laws D :
  ExitsLaws (EpollWait.Prepared D) (EpollWait.Pending D)
    (EpollWait.Completed D) D (result Z Error).
Proof. exits_laws EpollWait.redeem. Qed.
#[export] Instance pipe_exits_laws D :
  ExitsLaws (Pipe.Prepared D) (Pipe.Pending D)
    (Pipe.Created D) D (result unit Error).
Proof. exits_laws Pipe.redeem. Qed.
#[export] Instance waitid_exits_laws D :
  ExitsLaws (WaitId.Prepared D) (WaitId.Pending D)
    (WaitId.Completed D) (option D) (result unit Error).
Proof. exits_laws WaitId.redeem. Qed.
#[export] Instance vectored_exits_laws B V :
  ExitsLaws (Vectored.Prepared B V) (Vectored.Pending B V)
    (Vectored.Completed B V) (list B * V) (result Z Error).
Proof. exits_laws Vectored.redeem. Qed.
#[export] Instance sendmsg_exits_laws B R :
  ExitsLaws (Sendmsg.Prepared B R) (Sendmsg.Pending B R)
    (Sendmsg.Completed B R) (list B * R) (result Z Error).
Proof. exits_laws Sendmsg.redeem. Qed.
#[export] Instance sendmsg_zc_exits_laws B R :
  ExitsLaws (SendmsgZc.Prepared B R) (SendmsgZc.Pending B R)
    (SendmsgZc.Completed B R) (list B * R) (result Z Error).
Proof. exits_laws SendmsgZc.redeem. Qed.
#[export] Instance timeout_exits_laws S :
  ExitsLaws (Value.Prepared S Timeout.TimeoutOp) (Value.Pending S Timeout.TimeoutOp)
    (Value.Done S Timeout.TimeoutOp) S (Timeout.Expiry).
Proof. exits_laws Value.redeem. Qed.
#[export] Instance epoll_ctl_exits_laws S {TA : TargetArch} :
  ExitsLaws (Value.Prepared S EpollCtl.EpollCtlOp) (Value.Pending S EpollCtl.EpollCtlOp)
    (Value.Done S EpollCtl.EpollCtlOp) S (EpollCtl.Outcome).
Proof. exits_laws Value.redeem. Qed.
#[export] Instance bind_exits_laws S :
  ExitsLaws (Addr.Prepared S Bind.BindOp) (Addr.Pending S Bind.BindOp)
    (Addr.Done S Bind.BindOp) S (Bind.Outcome).
Proof. exits_laws Addr.redeem. Qed.
#[export] Instance connect_exits_laws S :
  ExitsLaws (Addr.Prepared S Connect.ConnectOp) (Addr.Pending S Connect.ConnectOp)
    (Addr.Done S Connect.ConnectOp) S (Connect.Outcome).
Proof. exits_laws Addr.redeem. Qed.

(** Every kind, end to end: what was put in comes back out of a request not
    pushed, out of one whose push was refused, and, with the answer of the result
    word posted and no other, out of the completed one. *)
Theorem exits_intact {P T D S R} `{ExitsLaws P T D S R} `{!OwnedRequestLaws P T} `{!CustodyLaws P T D S}
  (p : P) ring id (raw fl : Z) :
  let t := snd (into_pending ring id p) in
  take_back p = deposit p /\ give_back p t = p /\
  exists d, redeem_with t (mkReceipt ring id raw fl) = Ok d /\ leave d = (answer t raw, deposit p).
Proof.
  cbv zeta. split; [apply take_back_deposit|]. split; [apply give_back_intact|].
  set (t := snd (into_pending ring id p)). pose proof (redeem_spec t (mkReceipt ring id raw fl)) as Hr.
  assert (belongs_to (mkReceipt ring id raw fl) (ticket_ring t) (ticket_id t) = true) as Hb.
  { unfold t. rewrite into_ring, into_id. unfold belongs_to. cbn. by rewrite !Z.eqb_refl. }
  destruct (redeem_with t (mkReceipt ring id raw fl)) as [d|e] eqn:E.
  - exists d. split; [done|]. rewrite (leave_answer _ _ _ E). unfold t. by rewrite held_deposit.
  - destruct Hr as [Hr _]. congruence.
Qed.

(** The per-kind helpers of the queue are the [give_back] of its push. *)
Lemma reclaims_agree {TA : TargetArch} B D F H R S T V :
  (forall p (t : Openat2.Pending S H), give_back p t = OwnedSubmitter.reclaim_openat2 t) /\
  (forall p (t : Sendmsg.Pending B R), give_back p t = OwnedSubmitter.reclaim_sendmsg t) /\
  (forall p (t : SendmsgZc.Pending B R), give_back p t = OwnedSubmitter.reclaim_sendmsg_zc t) /\
  (forall p (t : Recvmsg.Pending B R), give_back p t = OwnedSubmitter.reclaim_recvmsg t) /\
  (forall p (t : Value.Pending S EpollCtl.EpollCtlOp), give_back p t = OwnedSubmitter.reclaim_epoll_ctl t) /\
  (forall p (t : EpollWait.Pending D), give_back p t = OwnedSubmitter.reclaim_epoll_wait t) /\
  (forall p (t : Pipe.Pending D), give_back p t = OwnedSubmitter.reclaim_pipe t) /\
  (forall p (t : Addr.Pending S Bind.BindOp), give_back p t = OwnedSubmitter.reclaim_bind t) /\
  (forall p (t : Addr.Pending S Connect.ConnectOp), give_back p t = OwnedSubmitter.reclaim_connect t) /\
  (forall p (t : FilesUpdate.Pending S), give_back p t = OwnedSubmitter.reclaim_files_update t) /\
  (forall p (t : Value.Pending S Timeout.TimeoutOp), give_back p t = OwnedSubmitter.reclaim_timeout t) /\
  (forall p (t : StatxOp.Pending S D), give_back p t = OwnedSubmitter.reclaim_statx t) /\
  (forall p (t : WaitId.Pending D), give_back p t = OwnedSubmitter.reclaim_waitid t) /\
  (forall p (t : FutexWaitvOp.Pending V), give_back p t = OwnedSubmitter.reclaim_futex_waitv t) /\
  (forall p (t : PathOp.Pending S), give_back p t = OwnedSubmitter.reclaim_path_op t) /\
  (forall p (t : Rename.Pending F T), give_back p t = OwnedSubmitter.reclaim_rename t) /\
  (forall p (t : Link.Pending F T), give_back p t = OwnedSubmitter.reclaim_link t) /\
  (forall p (t : DirectOpen.Pending S), give_back p t = OwnedSubmitter.reclaim_direct_open t) /\
  (forall p (t : Open.Pending S), give_back p t = OwnedSubmitter.reclaim_open t) /\
  (forall p (t : Vectored.Pending B V), give_back p t = OwnedSubmitter.reclaim_vectored t) /\
  (forall p (t : Request.Pending B), give_back p t = OwnedSubmitter.reclaim t) /\
  (forall p (t : Zc.Pending B), give_back p t = OwnedSubmitter.reclaim_zc t).
Proof. by split_and!. Qed.
