(* ===== verification/OwnedSpec.v ===== *)
(** * The owned layer: the theorems

    Where a request is, from `push` to its spent receipt, under any
    interleaving with the kernel; what a refused push returns; what reaping
    yields; the pool leases of multishot deliveries; and how a message can
    counterfeit a receipt. *)
From stdpp Require Import base numbers list option gmap gmultiset relations.
From Stdlib Require Import ZArith Lia.
From S2P Require Import Prelude Flags Types RingIndex Sqe SqeFile SqeNet Kernel Ring RingSpec.
From S2P Require Import Resources Pbuf PbufSpec Owned OwnedQueue.
Local Open Scope Z_scope.
Local Open Scope rust_scope.

(** ** The halves over their queues *)
Section Halves.
  Context {K : Type}.
  Notation SubSt := (Sys OwnedSubmitter.t K).
  Notation ComSt := (Sys OwnedCompleter.t K).

Definition queued (s : SubSt) : list Sqe :=
  let i := OwnedSubmitter.inner (hd s) in
  sq_queue (Submitter.sq_mask i) (Submitter.sq_tail_local i) (mem s).
Definition completions (s : ComSt) : list Cqe :=
  let i := OwnedCompleter.inner (hd s) in
  cq_queue (Completer.cq_mask i) (Completer.cq_head_local i) (mem s).
Definition sub_at (s : SubSt) (h t l : Z) : Prop :=
  let i := OwnedSubmitter.inner (hd s) in
  sq_at (Submitter.sq_mask i) (Submitter.sq_tail_local i) (mem s) h t l.
Definition com_at (s : ComSt) (k h t : Z) : Prop :=
  let i := OwnedCompleter.inner (hd s) in
  cq_at (Completer.cq_mask i) (Completer.cq_head_local i) (mem s) k h t.

Lemma submitter_push_run e (s : Sys Submitter.t K) :
  Submitter.push e s =
  let h := hd s in
  let next := u32_add (Submitter.sq_tail_local h) 1 in
  if u32_sub next (sq_khead (mem s)) >? Submitter.sq_mask h + 1
  then (Err (Submit QueueFull), s)
  else (Ok tt, mkSys (Submitter.set_sq_tail_local next h)
    (set_sqes (<[slot (Submitter.sq_mask h) (Submitter.sq_tail_local h) := e]> (sqes (mem s))) (mem s))
    (kern s)).
Proof. unfold Submitter.push, bind, get. cbv zeta. by destruct (_ >? _). Qed.

(** The identity the next push will use. *)
Definition next_id (s : SubSt) : Z := RequestIdSource.next_id (OwnedSubmitter.ids (hd s)).

(** An owned push, on both branches. *)
Lemma owned_push_effect {P T} `{OwnedRequestLaws P T} (p : P) (s : SubSt) h t l :
  sub_at s h t l ->
  let '(res, s') := OwnedSubmitter.push p s in
  let room := l - h <? Submitter.sq_mask (OwnedSubmitter.inner (hd s)) + 1 in
  OwnedSubmitter.ring (hd s') = OwnedSubmitter.ring (hd s) /\
  next_id s' = u64_add (next_id s) 1 /\ kern s' = kern s /\
  sub_at s' h t (if room then l + 1 else l) /\
  cqes (mem s') = cqes (mem s) /\ cq_khead (mem s') = cq_khead (mem s) /\
  cq_ktail (mem s') = cq_ktail (mem s) /\
  match res with
  | Ok ticket =>
      room = true /\ ticket_id ticket = next_id s /\
      ticket_ring ticket = OwnedSubmitter.ring (hd s) /\
      exists e, queued s' = queued s ++ [e] /\ Modifiers.get_user_data e = next_id s /\
        (e, ticket) = into_pending (OwnedSubmitter.ring (hd s)) (next_id s) p
  | Err (p', err) =>
      room = false /\ p' = p /\ err = Submit QueueFull /\ queued s' = queued s /\ mem s' = mem s
  end.
Proof.
  intros Hs. unfold OwnedSubmitter.push. cbn [RequestIdSource.next]. fold (next_id s).
  cbn [upd_hd hd mem kern OwnedSubmitter.set_ids OwnedSubmitter.ring].
  pose proof (into_user_data (OwnedSubmitter.ring (hd s)) (next_id s) p) as Hu.
  pose proof (into_id (OwnedSubmitter.ring (hd s)) (next_id s) p) as Hi.
  pose proof (into_ring (OwnedSubmitter.ring (hd s)) (next_id s) p) as Hr.
  pose proof (give_back_intact (OwnedSubmitter.ring (hd s)) (next_id s) p) as Hg.
  destruct (into_pending _ _ p) as [e ticket]. cbn [fst snd] in *.
  unfold OwnedSubmitter.raw, through. rewrite submitter_push_run. cbv zeta.
  cbn [hd mem kern OwnedSubmitter.inner].
  pose proof (push_full_at _ _ _ _ _ _ Hs) as Hfull.
  pose proof (sqa_cap _ _ _ _ _ _ Hs) as Hcap.
  destruct (u32_sub _ _ >? _) eqn:E.
  - pose proof (proj1 Hfull eq_refl) as Hl.
    destruct (Z.ltb_spec (l - h) (Submitter.sq_mask (OwnedSubmitter.inner (hd s)) + 1)); [lia|].
    cbn. split_and!; done.
  - destruct (Z.ltb_spec (l - h) (Submitter.sq_mask (OwnedSubmitter.inner (hd s)) + 1)) as [Hroom|];
      [|by pose proof (proj2 Hfull ltac:(lia))].
    destruct (push_at _ _ _ _ _ _ e Hs Hroom) as (H1 & H2 & _).
    cbn. split_and!; try done. exists e. split_and!; done.
Qed.

(** Reaping one event. *)
Definition event_of (ring : RingId) (c : Cqe) : Event.t :=
  if contains (cqe_flags c) CqeFlags.MORE
  then Event.Partial (PartialReceipt.mk ring (cqe_user_data c) (cqe_res c) (cqe_flags c))
  else Event.Complete (mkReceipt ring (cqe_user_data c) (cqe_res c) (cqe_flags c)).

Lemma reap_event_effect (s : ComSt) k h t :
  com_at s k h t ->
  let '(res, s') := OwnedCompleter.reap_event s in
  OwnedCompleter.ring (hd s') = OwnedCompleter.ring (hd s) /\ mem s' = mem s /\ kern s' = kern s /\
  match completions s with
  | [] => res = None /\ s' = s
  | c :: rest =>
      res = Some (event_of (OwnedCompleter.ring (hd s)) c) /\ completions s' = rest /\
      com_at s' k (h + 1) t
  end.
Proof.
  intros Hc. unfold OwnedCompleter.reap_event, Completer.complete. cbn [hd mem kern].
  pose proof (complete_empty_at _ _ _ _ _ _ Hc) as He.
  pose proof (cq_queue_at _ _ _ _ _ _ Hc) as Hq. unfold completions. cbv zeta.
  destruct (_ =? _) eqn:E.
  - pose proof (proj1 He eq_refl) as ->. rewrite Hq, Z.sub_diag. cbn.
    destruct s as [[i r] m kk]. done.
  - assert (h < t) as Hlt.
    { destruct (decide (t = h)) as [Heq|]; [by apply He in Heq|].
      destruct (cqa_order _ _ _ _ _ _ Hc). lia. }
    destruct (complete_at _ _ _ _ _ _ Hc Hlt) as [Hc' Hq']. rewrite Hq'. cbn.
    unfold event_of. by destruct (contains _ _).
Qed.
End Halves.

(** A push of any request kind stamps a fresh identity into the entry and
    the ticket; a refused push, which happens exactly when the queue is full,
    returns the request as it was given, storage included, and leaves the ring
    untouched. *)
Theorem owned_push_spec {K : Type} {P T} `{OwnedRequestLaws P T} (p : P)
  (s : Sys OwnedSubmitter.t K) h t l :
  sub_at s h t l ->
  match OwnedSubmitter.push p s with
  | (Ok ticket, s') =>
      (exists e, queued s' = queued s ++ [e] /\ Modifiers.get_user_data e = ticket_id ticket) /\
      ticket_id ticket = next_id s /\ ticket_ring ticket = OwnedSubmitter.ring (hd s) /\
      next_id s' = u64_add (next_id s) 1 /\
      l - h < Submitter.sq_mask (OwnedSubmitter.inner (hd s)) + 1
  | (Err (p', err), s') =>
      p' = p /\ err = Submit QueueFull /\ mem s' = mem s /\ queued s' = queued s /\
      l - h = Submitter.sq_mask (OwnedSubmitter.inner (hd s)) + 1
  end.
Proof.
  intros Hs. pose proof (owned_push_effect p s h t l Hs) as Hp.
  pose proof (sqa_cap _ _ _ _ _ _ Hs) as Hcap.
  destruct (OwnedSubmitter.push p s) as [[ticket|[p' err]] s'].
  - destruct Hp as (_ & Hn & _ & _ & _ & _ & _ & Hroom%Z.ltb_lt & Hi & Hr & e & Hq & Hu & _).
    split_and!; try done. exists e. by rewrite Hi.
  - destruct Hp as (_ & _ & _ & _ & _ & _ & _ & Hroom%Z.ltb_ge & -> & -> & Hq & Hm).
    split_and!; try done. lia.
Qed.

(** ** Every request is in one place *)
(** The two halves, the shared memory, and a ghost of the kernel's side: the
    [user_data] of the entries consumed whose terminal completion is not
    posted; the receipts minted and not yet used; the identities of receipts
    used or thrown away; the tickets held; the identities accepted. *)
Record World (K : Type) : Type := mkWorld {
  w_sub : OwnedSubmitter.t; w_com : OwnedCompleter.t; w_mem : Shm; w_kern : K;
  w_flight : list Z; w_receipts : list Receipt; w_spent : list Z;
  w_tickets : list (RingId * RequestId); w_accepted : list Z
}.
Arguments mkWorld {K} _ _ _ _ _ _ _ _ _.
Arguments w_sub {K} _. Arguments w_com {K} _. Arguments w_mem {K} _. Arguments w_kern {K} _.
Arguments w_flight {K} _. Arguments w_receipts {K} _. Arguments w_spent {K} _.
Arguments w_tickets {K} _. Arguments w_accepted {K} _.

Definition terminal (c : Cqe) : bool := negb (contains (cqe_flags c) CqeFlags.MORE).
Definition terminal_ids (cs : list Cqe) : list Z := cqe_user_data <$> filter (fun c => terminal c = true) cs.

(** What io_uring documents of completions: each answers an entry in flight,
    and one without `IORING_CQE_F_MORE` is that entry's last. *)
Inductive answers : list Z -> list Cqe -> list Z -> Prop :=
| answers_nil F : answers F [] F
| answers_more F c cs F' :
    terminal c = false -> cqe_user_data c ∈ F -> answers F cs F' -> answers F (c :: cs) F'
| answers_last l r c cs F' :
    terminal c = true -> answers (l ++ r) cs F' ->
    answers (l ++ cqe_user_data c :: r) (c :: cs) F'.

Section Worlds.
  Context {K : Type}.
  Implicit Types (w : World K).
Definition sub_sys w : Sys OwnedSubmitter.t K := mkSys (w_sub w) (w_mem w) (w_kern w).
Definition com_sys w : Sys OwnedCompleter.t K := mkSys (w_com w) (w_mem w) (w_kern w).

(** One step of a program that uses the owned API, or of the kernel. *)
Inductive owned_step : World K -> World K -> Prop :=
| w_push P T `{OwnedRequestLaws P T} (p : P) (ticket : T) sub com m k F R S tk A s' :
    RequestIdSource.next_id (OwnedSubmitter.ids sub) < 2 ^ 64 - 1 ->
    OwnedSubmitter.push p (mkSys sub m k) = (Ok ticket, s') ->
    owned_step (mkWorld sub com m k F R S tk A)
      (mkWorld (hd s') com (mem s') (kern s') F R S
         ((ticket_ring ticket, ticket_id ticket) :: tk) (A ++ [ticket_id ticket]))
| w_full P T `{OwnedRequestLaws P T} (p p' : P) err sub com m k F R S tk A s' :
    RequestIdSource.next_id (OwnedSubmitter.ids sub) < 2 ^ 64 - 1 ->
    OwnedSubmitter.push p (mkSys sub m k) = (Err (p', err), s') ->
    owned_step (mkWorld sub com m k F R S tk A)
      (mkWorld (hd s') com (mem s') (kern s') F R S tk A)
| w_publish sub com m k F R S tk A :
    owned_step (mkWorld sub com m k F R S tk A)
      (mkWorld sub com
         (mem (snd (Submitter.flush_sq_tail (mkSys (OwnedSubmitter.inner sub) m k)))) k F R S tk A)
| w_count v sub com m k F R S tk A :
    owned_step (mkWorld sub com m k F R S tk A)
      (mkWorld (OwnedSubmitter.set_inner
         (Submitter.set_sq_submitted v (OwnedSubmitter.inner sub)) sub) com m k F R S tk A)
| w_consume n sub com m k F R S tk A :
    Z.of_nat n <= sq_visible m ->
    owned_step (mkWorld sub com m k F R S tk A)
      (mkWorld sub com (kernel_consume n m) k
         (F ++ (Modifiers.get_user_data <$> consumed_sqes n m)) R S tk A)
| w_post cs F' sub com m k F R S tk A :
    cq_used m + Z.of_nat (length cs) <= cq_kmask m + 1 -> answers F cs F' ->
    owned_step (mkWorld sub com m k F R S tk A)
      (mkWorld sub com (kernel_post cs m) k F' R S tk A)
| w_kernel f k' sub com m k F R S tk A :
    owned_step (mkWorld sub com m k F R S tk A)
      (mkWorld sub com (kernel_set_flags f m) k' F R S tk A)
| w_reap e sub com m k F R S tk A s' :
    OwnedCompleter.reap_event (mkSys com m k) = (Some e, s') ->
    owned_step (mkWorld sub com m k F R S tk A)
      (mkWorld sub (hd s') (mem s') (kern s') F
         (match Event.into_receipt e with Some r => r :: R | None => R end) S tk A)
| w_sync sub com m k F R S tk A s' r :
    OwnedCompleter.sync (mkSys com m k) = (r, s') ->
    owned_step (mkWorld sub com m k F R S tk A)
      (mkWorld sub (hd s') (mem s') (kern s') F R S tk A)
| w_redeem sub com m k F R1 r R2 S t1 ring id t2 A :
    belongs_to r ring id = true ->
    owned_step (mkWorld sub com m k F (R1 ++ r :: R2) S (t1 ++ (ring, id) :: t2) A)
      (mkWorld sub com m k F (R1 ++ R2) (rc_id r :: S) (t1 ++ t2) A)
| w_drop_receipt sub com m k F R1 r R2 S tk A :
    owned_step (mkWorld sub com m k F (R1 ++ r :: R2) S tk A)
      (mkWorld sub com m k F (R1 ++ R2) (rc_id r :: S) tk A)
| w_drop_ticket sub com m k F R S t1 t t2 A :
    owned_step (mkWorld sub com m k F R S (t1 ++ t :: t2) A)
      (mkWorld sub com m k F R S (t1 ++ t2) A).

(** The stages a request passes through: queued, in flight, finished but not
    reaped, receipt in hand, receipt gone. *)
Definition queued_ids w : list Z := Modifiers.get_user_data <$> queued (sub_sys w).
Definition stages w : list Z :=
  queued_ids w ++ w_flight w ++ terminal_ids (completions (com_sys w)) ++
  (rc_id <$> w_receipts w) ++ w_spent w.

Record world_ok w : Prop := {
  ok_sub : exists h t l, sub_at (sub_sys w) h t l;
  ok_com : exists k h t, com_at (com_sys w) k h t;
  ok_ring : OwnedCompleter.ring (w_com w) = OwnedSubmitter.ring (w_sub w);
  ok_stages : stages w ≡ₚ w_accepted w;
  ok_unique : NoDup (w_accepted w);
  ok_next : 1 <= next_id (sub_sys w) < 2 ^ 64;
  ok_issued : Forall (fun id => 1 <= id < next_id (sub_sys w)) (w_accepted w);
  ok_receipts : Forall (fun r => rc_ring r = OwnedSubmitter.ring (w_sub w)) (w_receipts w);
  ok_tickets : Forall (fun t => t.1 = OwnedSubmitter.ring (w_sub w) /\ t.2 ∈ w_accepted w)
                 (w_tickets w)
}.

Lemma terminal_ids_app cs ds : terminal_ids (cs ++ ds) = terminal_ids cs ++ terminal_ids ds.
Proof. unfold terminal_ids. by rewrite filter_app, fmap_app. Qed.
Lemma terminal_ids_cons c cs :
  terminal_ids (c :: cs) = (if terminal c then [cqe_user_data c] else []) ++ terminal_ids cs.
Proof. unfold terminal_ids. rewrite filter_cons. by destruct (terminal c). Qed.

Lemma answers_perm F cs F' : answers F cs F' -> F ≡ₚ terminal_ids cs ++ F'.
Proof.
  induction 1 as [|F c cs F' Ht _ _ IH|l r c cs F' Ht _ IH]; [done|..];
    rewrite terminal_ids_cons, Ht; [done|].
  cbn [app]. rewrite <- Permutation_middle, IH. done.
Qed.

Lemma push_ok P T `{OwnedRequestLaws P T} (p : P) (ticket : T) sub com m k F R S tk A s' :
  RequestIdSource.next_id (OwnedSubmitter.ids sub) < 2 ^ 64 - 1 ->
  OwnedSubmitter.push p (mkSys sub m k) = (Ok ticket, s') ->
  world_ok (mkWorld sub com m k F R S tk A) ->
  world_ok (mkWorld (hd s') com (mem s') (kern s') F R S
    ((ticket_ring ticket, ticket_id ticket) :: tk) (A ++ [ticket_id ticket])).
Proof.
  intros Hlt Hp [(h & t & l & Hs) (kk & ch & ct & Hc) Hring Hst Hu Hn Hi Hr Ht].
  pose proof (owned_push_effect p (mkSys sub m k) h t l Hs) as He. rewrite Hp in He.
  destruct He as (Er & En & Ek & Hs' & E1 & E2 & E3 & Hroom & Eid & Etr & e & Hq & Hud & _).
  unfold next_id in Hn, Hi. cbn [sub_sys hd mem kern w_sub w_mem w_kern] in *.
  unfold next_id in *. cbn [hd] in *.
  assert (u64_add (RequestIdSource.next_id (OwnedSubmitter.ids sub)) 1 =
    RequestIdSource.next_id (OwnedSubmitter.ids sub) + 1) as Ew
    by (apply wrap_small; split; lia).
  rewrite Ew in En. destruct s' as [sub' m' k']. cbn [hd mem kern] in *.
  assert (~ RequestIdSource.next_id (OwnedSubmitter.ids sub) ∈ A) as Hfresh.
  { intros Hin. rewrite Forall_forall in Hi. specialize (Hi _ Hin). lia. }
  assert (completions (mkSys com m' k') = completions (mkSys com m k)) as Hcq.
  { unfold completions, cq_queue. cbn. by rewrite E1, E3. }
  split; cbn [w_sub w_com w_mem w_kern w_flight w_receipts w_spent w_tickets w_accepted] in *.
  - by exists h, t, (if l - h <? Submitter.sq_mask (OwnedSubmitter.inner sub) + 1 then l + 1 else l).
  - exists kk, ch, ct. unfold com_at in *. by eapply cq_at_ext; [..|exact Hc].
  - congruence.
  - unfold stages, queued_ids, sub_sys, com_sys in *.
    cbn [w_sub w_com w_mem w_kern w_flight w_receipts w_spent] in *.
    rewrite Hq, Hcq, fmap_app, <- Hst, Eid. cbn [fmap list_fmap]. rewrite Hud. solve_Permutation.
  - rewrite Eid. apply NoDup_app. split_and!; [done| |apply NoDup_singleton].
    intros x Hx ->%list_elem_of_singleton. done.
  - unfold next_id. cbn. lia.
  - unfold next_id. cbn [sub_sys hd w_sub]. rewrite En, Eid. apply Forall_app. split.
    + eapply Forall_impl; [exact Hi|]. cbn. intros. lia.
    + apply Forall_singleton. lia.
  - eapply Forall_impl; [exact Hr|]. cbn. intros. congruence.
  - constructor; cbn.
    + split; [congruence|]. apply elem_of_app. right. by apply list_elem_of_singleton.
    + eapply Forall_impl; [exact Ht|]. cbn. intros x [? ?]. split; [congruence|].
      apply elem_of_app. by left.
Qed.

Lemma stages_unfold (sub : OwnedSubmitter.t) com m (k : K) F R S tk A :
  let i := OwnedSubmitter.inner sub in
  let j := OwnedCompleter.inner com in
  stages (mkWorld sub com m k F R S tk A) =
  (Modifiers.get_user_data <$> sq_queue (Submitter.sq_mask i) (Submitter.sq_tail_local i) m) ++ F ++
  terminal_ids (cq_queue (Completer.cq_mask j) (Completer.cq_head_local j) m) ++
  (rc_id <$> R) ++ S.
Proof. reflexivity. Qed.

Ltac world_simpl :=
  unfold sub_at, com_at in *;
  cbn [sub_sys com_sys hd mem kern w_sub w_com w_mem w_kern w_receipts] in *.

(** The ring's own steps: the identities and the ghost books stay. *)
Lemma ring_step_ok w w' :
  world_ok w -> (exists h t l, sub_at (sub_sys w') h t l) ->
  (exists k h t, com_at (com_sys w') k h t) ->
  OwnedSubmitter.ring (w_sub w') = OwnedSubmitter.ring (w_sub w) ->
  OwnedCompleter.ring (w_com w') = OwnedCompleter.ring (w_com w) ->
  next_id (sub_sys w) <= next_id (sub_sys w') < 2 ^ 64 ->
  stages w' ≡ₚ stages w ->
  Forall (fun r => rc_ring r = OwnedSubmitter.ring (w_sub w)) (w_receipts w') ->
  w_tickets w' ⊆ w_tickets w -> w_accepted w' = w_accepted w -> world_ok w'.
Proof.
  intros [_ _ Hring Hst Hu Hn Hi _ Ht] Hs Hc Es Ec En Hp Hr Htk Ea. split; try done.
  - congruence.
  - by rewrite Ea, Hp.
  - by rewrite Ea.
  - lia.
  - rewrite Ea. eapply Forall_impl; [exact Hi|]. cbn. intros. lia.
  - by rewrite Es.
  - rewrite Es, Ea. rewrite Forall_forall in *. intros x Hx. apply Ht, Htk, Hx.
Qed.

Lemma full_ok P T `{OwnedRequestLaws P T} (p p' : P) err sub com m k F R S tk A s' :
  RequestIdSource.next_id (OwnedSubmitter.ids sub) < 2 ^ 64 - 1 ->
  OwnedSubmitter.push p (mkSys sub m k) = (Err (p', err), s') ->
  world_ok (mkWorld sub com m k F R S tk A) ->
  world_ok (mkWorld (hd s') com (mem s') (kern s') F R S tk A).
Proof.
  intros Hlt Hp Hok. pose proof Hok as [(h & t & l & Hs) (kk & ch & ct & Hc) _ _ _ Hn _ Hr _].
  pose proof (owned_push_effect p (mkSys sub m k) h t l Hs) as He. rewrite Hp in He.
  destruct He as (Er & En & Ek & Hs' & _ & _ & _ & Hroom & _ & _ & Hq & Hm).
  destruct s' as [sub' m' k']. cbn [hd mem kern] in *. subst m' k'.
  unfold next_id in *. cbn [sub_sys hd w_sub] in *.
  assert (u64_add (RequestIdSource.next_id (OwnedSubmitter.ids sub)) 1 =
    RequestIdSource.next_id (OwnedSubmitter.ids sub) + 1) as Ew by (apply wrap_small; split; lia).
  eapply ring_step_ok; [exact Hok|..]; try (done || lia || (split; [apply Z.le_refl|apply Hn])).
  - cbn. eauto.
  - cbn. exists kk, ch, ct. exact Hc.
  - unfold next_id. cbn. lia.
  - rewrite !stages_unfold. unfold queued in Hq. cbn in *. by rewrite Hq.
Qed.

Lemma publish_ok sub com m k F R S tk A :
  world_ok (mkWorld sub com m k F R S tk A) ->
  world_ok (mkWorld sub com
    (mem (snd (Submitter.flush_sq_tail (mkSys (OwnedSubmitter.inner sub) m k)))) k F R S tk A).
Proof.
  intros Hok. pose proof Hok as [(h & t & l & Hs) (kk & ch & ct & Hc) _ _ _ Hn _ Hr _]. world_simpl.
  destruct (flush_sq_at _ _ _ _ _ _ Hs) as (Hs' & Hq & _).
  eapply ring_step_ok; [exact Hok|..]; try (done || lia || (split; [apply Z.le_refl|apply Hn])).
  - exists h, l, l. exact Hs'.
  - exists kk, ch, ct. by eapply cq_at_ext; [..|exact Hc].
Qed.

Lemma consume_ok n sub com m k F R S tk A :
  Z.of_nat n <= sq_visible m -> world_ok (mkWorld sub com m k F R S tk A) ->
  world_ok (mkWorld sub com (kernel_consume n m) k
    (F ++ (Modifiers.get_user_data <$> consumed_sqes n m)) R S tk A).
Proof.
  intros Hv Hok. pose proof Hok as [(h & t & l & Hs) (kk & ch & ct & Hc) _ _ _ Hn _ Hr _]. world_simpl.
  rewrite (sq_visible_at _ _ _ _ _ _ Hs) in Hv.
  destruct (kernel_consume_at _ _ _ _ _ _ n Hs Hv) as (Hs' & Hrd & Hq & _).
  eapply ring_step_ok; [exact Hok|..]; try (done || lia || (split; [apply Z.le_refl|apply Hn])).
  - exists (h + Z.of_nat n), t, l. exact Hs'.
  - exists kk, ch, ct. by eapply cq_at_ext; [..|exact Hc].
  - rewrite !stages_unfold. cbn in *. rewrite Hrd, Hq. unfold cq_queue at 1. cbn [kernel_consume cq_ktail cqes].
    fold (cq_queue (Completer.cq_mask (OwnedCompleter.inner com))
      (Completer.cq_head_local (OwnedCompleter.inner com)) m).
    rewrite <- (take_drop n (sq_queue _ _ m)) at 3. rewrite !fmap_app. solve_Permutation.
Qed.

Lemma post_ok cs F' sub com m k F R S tk A :
  cq_used m + Z.of_nat (length cs) <= cq_kmask m + 1 -> answers F cs F' ->
  world_ok (mkWorld sub com m k F R S tk A) ->
  world_ok (mkWorld sub com (kernel_post cs m) k F' R S tk A).
Proof.
  intros Hv Ha Hok. pose proof Hok as [(h & t & l & Hs) (kk & ch & ct & Hc) _ _ _ Hn _ Hr _]. world_simpl.
  rewrite (cq_used_at _ _ _ _ _ _ Hc), (cq_kmask_at _ _ _ _ _ _ Hc) in Hv.
  destruct (kernel_post_at _ _ _ _ _ _ cs Hc Hv) as [Hc' Hq].
  eapply ring_step_ok; [exact Hok|..]; try (done || lia || (split; [apply Z.le_refl|apply Hn])).
  - exists h, t, l. by eapply sq_at_ext; [..|exact Hs].
  - exists kk, ch, (ct + Z.of_nat (length cs)). exact Hc'.
  - rewrite !stages_unfold. cbn in *. rewrite Hq. unfold sq_queue at 1. cbn [kernel_post sq_khead sqes].
    fold (sq_queue (Submitter.sq_mask (OwnedSubmitter.inner sub))
      (Submitter.sq_tail_local (OwnedSubmitter.inner sub)) m).
    rewrite terminal_ids_app, (answers_perm _ _ _ Ha). solve_Permutation.
Qed.

Lemma reap_ok e sub com m k F R S tk A s' :
  OwnedCompleter.reap_event (mkSys com m k) = (Some e, s') ->
  world_ok (mkWorld sub com m k F R S tk A) ->
  world_ok (mkWorld sub (hd s') (mem s') (kern s') F
    (match Event.into_receipt e with Some r => r :: R | None => R end) S tk A).
Proof.
  intros He Hok. pose proof Hok as [(h & t & l & Hs) (kk & ch & ct & Hc) Hring _ _ Hn _ Hr _]. world_simpl.
  pose proof (reap_event_effect (mkSys com m k) kk ch ct Hc) as Hre. rewrite He in Hre.
  destruct Hre as (Er & Em & Ek & Hre). destruct (completions (mkSys com m k)) as [|c rest] eqn:Eq;
    [by destruct Hre|]. destruct Hre as ([= ->] & Hrest & Hc').
  destruct s' as [com' m' k']. cbn [hd mem kern] in *. subst m' k'.
  eapply ring_step_ok; [exact Hok|..]; try (done || lia || (split; [apply Z.le_refl|apply Hn])).
  - exists h, t, l. exact Hs.
  - exists kk, (ch + 1), ct. exact Hc'.
  - rewrite !stages_unfold. unfold completions in Hrest, Eq. cbn in Hrest, Eq.
    cbv zeta. rewrite Hrest, Eq, terminal_ids_cons. unfold event_of, terminal.
    destruct (contains _ _); cbn [Event.into_receipt negb app fmap list_fmap rc_id]; solve_Permutation.
  - cbn [w_receipts w_sub] in *. unfold event_of. destruct (contains _ _); cbn; [done|].
    constructor; [|done]. cbn in *. congruence.
Qed.

Lemma sync_ok sub com m k F R S tk A :
  world_ok (mkWorld sub com m k F R S tk A) ->
  world_ok (mkWorld sub com
    (set_cq_khead (Completer.cq_head_local (OwnedCompleter.inner com)) m) k F R S tk A).
Proof.
  intros Hok. pose proof Hok as [(h & t & l & Hs) (kk & ch & ct & Hc) Hring _ _ Hn _ Hr _]. world_simpl.
  pose proof (flush_cq_at _ _ _ _ _ _ Hc) as Hc'.
  eapply ring_step_ok; [exact Hok|..]; try (done || lia || (split; [apply Z.le_refl|apply Hn])).
  - exists h, t, l. by eapply sq_at_ext; [..|exact Hs].
  - exists ch, ch, ct. exact Hc'.
Qed.

Lemma books_ok sub com m k F R R' S S' tk tk' A :
  (rc_id <$> R') ++ S' ≡ₚ (rc_id <$> R) ++ S -> R' ⊆ R -> tk' ⊆ tk ->
  world_ok (mkWorld sub com m k F R S tk A) -> world_ok (mkWorld sub com m k F R' S' tk' A).
Proof.
  intros Hp HR Htk Hok. pose proof Hok as [Hs Hc _ _ _ Hn _ Hr _]. world_simpl.
  eapply ring_step_ok; [exact Hok|..]; try (done || lia || (split; [apply Z.le_refl|apply Hn])).
  - rewrite !stages_unfold. cbv zeta. by rewrite Hp.
  - cbn in *. rewrite Forall_forall in *. eauto.
Qed.

Lemma removed_subseteq {A} (l r : list A) x : l ++ r ⊆ l ++ x :: r.
Proof. intros y. rewrite !elem_of_app, elem_of_cons. tauto. Qed.

Lemma kernel_ok f k' sub com m k F R S tk A :
  world_ok (mkWorld sub com m k F R S tk A) ->
  world_ok (mkWorld sub com (kernel_set_flags f m) k' F R S tk A).
Proof.
  intros Hok. pose proof Hok as [(h & t & l & Hs) (kk & ch & ct & Hc) _ _ _ Hn _ Hr _]. world_simpl.
  eapply ring_step_ok; [exact Hok|..]; try (done || lia || (split; [apply Z.le_refl|apply Hn])).
  - exists h, t, l. by eapply sq_at_ext; [..|exact Hs].
  - exists kk, ch, ct. by eapply cq_at_ext; [..|exact Hc].
Qed.

Lemma owned_step_ok w w' : owned_step w w' -> world_ok w -> world_ok w'.
Proof.
  destruct 1 as [P T ? ? p ticket sub com m k F R S tk A s' Hlt Hp
    |P T ? ? p p' err sub com m k F R S tk A s' Hlt Hp| | | | | | |
    sub com m k F R S tk A s' r Hsy| | |]; intros Hok.
  - by eapply push_ok.
  - by eapply full_ok.
  - by apply publish_ok.
  - destruct Hok as [Hs Hc ? ? ? ? ? ? ?]. by split.
  - by apply consume_ok.
  - by eapply post_ok.
  - by eapply kernel_ok.
  - by eapply reap_ok.
  - injection Hsy as _ <-. destruct com as [i rid]. exact (sync_ok _ _ _ _ _ _ _ _ _ Hok).
  - eapply books_ok; [|apply removed_subseteq|apply removed_subseteq|exact Hok].
    rewrite !fmap_app. cbn. solve_Permutation.
  - eapply books_ok; [|apply removed_subseteq|done|exact Hok].
    rewrite !fmap_app. cbn. solve_Permutation.
  - eapply books_ok; [done|done|apply removed_subseteq|exact Hok].
Qed.

(** A ring just split into owned halves. *)
Definition fresh_world w : Prop :=
  (exists h, sub_at (sub_sys w) h h h) /\ (exists h, com_at (com_sys w) h h h) /\
  OwnedCompleter.ring (w_com w) = OwnedSubmitter.ring (w_sub w) /\
  OwnedSubmitter.ids (w_sub w) = RequestIdSource.new /\
  w_flight w = [] /\ w_receipts w = [] /\ w_spent w = [] /\ w_tickets w = [] /\ w_accepted w = [].

Lemma fresh_world_ok w : fresh_world w -> world_ok w.
Proof.
  intros ((h & Hs) & (h' & Hc) & Hr & Hids & EF & ER & ES & ET & EA).
  pose proof (sq_queue_at _ _ _ _ _ _ Hs) as Hq. pose proof (cq_queue_at _ _ _ _ _ _ Hc) as Hcq.
  rewrite Z.sub_diag in Hq, Hcq.
  split; rewrite ?EF, ?ER, ?ES, ?ET, ?EA; try done; eauto.
  - unfold stages, queued_ids, queued, completions. cbv zeta. rewrite Hq, Hcq, EF, ER, ES. done.
  - constructor.
  - unfold next_id, sub_sys. cbn. by rewrite Hids.
Qed.

Lemma owned_run_ok w w' : rtc owned_step w w' -> world_ok w -> world_ok w'.
Proof. induction 1; eauto using owned_step_ok. Qed.

(** C2. Whatever a program does with the owned halves and however the kernel
    interleaves, every accepted request is in exactly one place (queued, in
    flight, finished and unreaped, its receipt in hand, or its receipt gone),
    and identities never repeat.  So when a ticket of any kind is redeemed with
    a receipt of this ring, it gives back the storage the request was made
    with, and the kernel holds no entry with that identity any more: the
    storage comes back only after the terminal completion, and at most one
    receipt ever exists for it. *)
Theorem request_in_one_place {P T D B} `{CustodyLaws P T D B} w0 w (ticket : T) receipt done_ :
  fresh_world w0 -> rtc owned_step w0 w ->
  stages w ≡ₚ w_accepted w /\ NoDup (stages w) /\
  ((ticket_ring ticket, ticket_id ticket) ∈ w_tickets w -> receipt ∈ w_receipts w ->
   redeem_with ticket receipt = Ok done_ ->
   withdraw done_ = held ticket /\
   (forall p, ticket = snd (into_pending (ticket_ring ticket) (ticket_id ticket) p) ->
    withdraw done_ = deposit p) /\
   reported done_ = rc_result receipt /\
   ticket_id ticket ∈ w_accepted w /\
   ~ ticket_id ticket ∈ queued_ids w /\ ~ ticket_id ticket ∈ w_flight w /\
   ~ ticket_id ticket ∈ w_spent w /\
   forall r', r' ∈ w_receipts w -> rc_id r' = ticket_id ticket -> r' = receipt).
Proof.
  intros Hf Hrun. pose proof (owned_run_ok _ _ Hrun (fresh_world_ok _ Hf)) as Hok.
  destruct Hok as [_ _ _ Hst Hu _ _ _ Ht]. split; [done|].
  assert (NoDup (stages w)) as Hnd by by rewrite Hst. split; [done|].
  intros Htk Hrc Hred. pose proof (redeem_spec ticket receipt) as Hs. rewrite Hred in Hs.
  destruct Hs as (Hbel & Hw & Hrep). unfold belongs_to in Hbel.
  destruct (Z.eqb_spec (rc_id receipt) (ticket_id ticket)) as [Hid|]; [|done].
  assert (ticket_id ticket ∈ rc_id <$> w_receipts w) as Hin.
  { rewrite <- Hid. by apply list_elem_of_fmap_2. }
  unfold stages in Hnd. rewrite !NoDup_app in Hnd.
  destruct Hnd as (_ & Hs1 & _ & Hs2 & _ & _ & Hrnd & Hs4 & _).
  split_and!; [done| |done| | | | |].
  - intros p Hp. rewrite Hw, Hp. apply held_deposit.
  - rewrite Forall_forall in Ht. apply (Ht _ Htk).
  - intros Hq. apply (Hs1 _ Hq). rewrite !elem_of_app. tauto.
  - intros Hq. apply (Hs2 _ Hq). rewrite !elem_of_app. tauto.
  - by apply Hs4.
  - intros r' Hr' Hid'. apply list_elem_of_lookup in Hr' as [i Hi].
    apply list_elem_of_lookup in Hrc as [j Hj].
    assert ((rc_id <$> w_receipts w) !! i = Some (ticket_id ticket)) as E1
      by (rewrite list_lookup_fmap, Hi; cbn; congruence).
    assert ((rc_id <$> w_receipts w) !! j = Some (ticket_id ticket)) as E2
      by (rewrite list_lookup_fmap, Hj; cbn; congruence).
    pose proof (NoDup_lookup _ _ _ _ Hrnd E1 E2) as ->. congruence.
Qed.

(** ** A message counterfeits a receipt *)
(** What `IORING_OP_MSG_RING` posts on its target: the payload's length as the
    result and its data as the `user_data`. *)
Definition message_cqe (p : MsgRing.Prepared) : Cqe :=
  mkCqe (MsgRing.p_data p) (as_i32 (MsgRing.p_len p)) 0.

(** C37. A message is not told from a completion: in any reachable world where
    a request is in flight and nothing waits on the completion ring, delivering
    a message whose data is the request's identity, which any holder of a
    descriptor can send through `PreparedMsgRing`, makes the completer mint a
    terminal receipt that redeems the ticket while the kernel still holds the
    request. *)
Theorem message_forges_receipt {B} w0 w (ticket : Request.Pending B) target len flags :
  fresh_world w0 -> rtc owned_step w0 w ->
  Request.t_ring ticket = OwnedSubmitter.ring (w_sub w) ->
  Request.t_id ticket ∈ w_flight w -> completions (com_sys w) = [] ->
  cq_used (w_mem w) < cq_kmask (w_mem w) + 1 ->
  let msg := message_cqe (MsgRing.new target len (Request.t_id ticket) flags) in
  exists receipt s',
    OwnedCompleter.reap_event (mkSys (w_com w) (kernel_post [msg] (w_mem w)) (w_kern w)) =
      (Some (Event.Complete receipt), s') /\
    exists d, Request.redeem ticket receipt = Ok d /\ Request.d_buf d = Request.t_buf ticket.
Proof.
  intros Hf Hrun Hring Hfl Hq Hroom msg.
  pose proof (owned_run_ok _ _ Hrun (fresh_world_ok _ Hf)) as Hok.
  destruct Hok as [_ (k & h & t & Hc) Hr _ _ _ _ _ _]. destruct w as [sub com m kk F R S tk A].
  world_simpl. cbn [w_flight] in *.
  rewrite (cq_used_at _ _ _ _ _ _ Hc), (cq_kmask_at _ _ _ _ _ _ Hc) in Hroom.
  destruct (kernel_post_at _ _ _ _ _ _ [msg] Hc ltac:(cbn [length]; lia)) as [Hc' Hq'].
  unfold completions in Hq. cbn in Hq. rewrite Hq in Hq'. cbn [app] in Hq'.
  pose proof (reap_event_effect (mkSys com (kernel_post [msg] m) kk) _ _ _ Hc') as He.
  destruct (OwnedCompleter.reap_event _) as [res s']. destruct He as (_ & _ & _ & He).
  unfold completions in He. cbn in He. rewrite Hq' in He. destruct He as (-> & _ & _).
  eexists _, s'. split; [unfold event_of; cbn; reflexivity|].
  unfold Request.redeem, Request.matches, belongs_to. cbn [rc_id rc_ring cqe_user_data msg message_cqe MsgRing.p_data MsgRing.new].
  rewrite Z.eqb_refl, Hr, Hring, Z.eqb_refl. cbn. eexists. done.
Qed.
End Worlds.

(** ** Reaping terminal completions *)
Section Reaping.
  Context {K : Type}.

Lemma reap_spec fuel : forall (s : Sys OwnedCompleter.t K) k h t,
  com_at s k h t -> (length (completions s) < fuel)%nat ->
  exists res s', OwnedCompleter.reap fuel s = Some (res, s') /\ mem s' = mem s /\
    match res with
    | None => Forall (fun c => terminal c = false) (completions s) /\ completions s' = []
    | Some r =>
        exists skipped c, completions s = skipped ++ c :: completions s' /\
          Forall (fun c => terminal c = false) skipped /\ terminal c = true /\
          event_of (OwnedCompleter.ring (hd s)) c = Event.Complete r
    end.
Proof.
  induction fuel as [|fuel IH]; intros s k h t Hc Hf; [lia|]. cbn [OwnedCompleter.reap].
  pose proof (reap_event_effect s k h t Hc) as He.
  destruct (OwnedCompleter.reap_event s) as [res s1]. destruct He as (Hring & Hm & _ & He).
  destruct (completions s) as [|c rest] eqn:Eq.
  { destruct He as [-> ->]. exists None, s. rewrite Eq. split_and!; done. }
  destruct He as (-> & Hrest & Hc1). cbn [length] in Hf.
  destruct (terminal c) eqn:Ht; unfold terminal in Ht; unfold event_of at 1.
  - apply negb_true_iff in Ht. rewrite Ht. eexists (Some _), s1. split_and!; [done|done|].
    exists [], c. rewrite Hrest. unfold event_of, terminal. rewrite Ht. split_and!; done.
  - apply negb_false_iff in Ht. rewrite Ht.
    destruct (IH s1 k (h + 1) t Hc1 ltac:(rewrite Hrest; lia)) as (res & s2 & Hr & Hm2 & Hres).
    exists res, s2. split; [done|]. split; [congruence|].
    assert (terminal c = false) as Ht' by (unfold terminal; by rewrite Ht).
    destruct res as [r|].
    + destruct Hres as (skipped & c' & E & Hs & Hct & Hev). exists (c :: skipped), c'.
      rewrite Hrest in E. rewrite E, <- Hring. split_and!; [done|by constructor|done|done].
    + destruct Hres as [Hs He]. rewrite Hrest in Hs. split; [by constructor|done].
Qed.

(** `reap` returns after looking at no more completions than are
    available: it discards the non-terminal ones in front, mints the receipt of
    the first terminal one and leaves the rest, or finds none and empties the
    ring. *)
Theorem reap_first_terminal (s : Sys OwnedCompleter.t K) k h t :
  com_at s k h t ->
  exists res s', OwnedCompleter.reap (S (length (completions s))) s = Some (res, s') /\
    mem s' = mem s /\
    match res with
    | None => Forall (fun c => terminal c = false) (completions s) /\ completions s' = []
    | Some r =>
        exists skipped c, completions s = skipped ++ c :: completions s' /\
          Forall (fun c => terminal c = false) skipped /\ terminal c = true /\
          event_of (OwnedCompleter.ring (hd s)) c = Event.Complete r
    end.
Proof. intros Hc. apply (reap_spec _ s k h t Hc). lia. Qed.
End Reaping.

(** ** Multishot deliveries *)
Definition pool_of (c : BufferConsumer.t) : ProvidedBufferRing := BufferConsumer.inner c.

(** C21. A multishot ticket takes a completion of its own and refuses any other;
    the delivery stays armed exactly for a non-terminal one; it leases a buffer
    exactly when the completion names one and carries a byte count, and ending
    the lease puts that buffer back into the ring at once.  The test looks at no
    other flag: the buffer of an incremental pool is given back even when
    `IORING_CQE_F_BUF_MORE` says that the kernel still writes to it. *)
Theorem delivery_lease ticket event c h n :
  pool_wf (pool_of c) -> Z.of_nat n < pb_entries (pool_of c) ->
  pb_tail_local (pool_of c) = wrap 32 (h + Z.of_nat n) ->
  match Multishot.record ticket event c with
  | Err e => e = event /\
      (Event.id event <> Multishot.t_id ticket \/ Event.ring event <> Multishot.t_ring ticket)
  | Ok d =>
      Event.id event = Multishot.t_id ticket /\ Event.ring event = Multishot.t_ring ticket /\
      (Multishot.armed d = Multishot.Yes <-> Event.is_terminal event = false) /\
      match Multishot.lease_of d with
      | None => contains (Event.flags event) CqeFlags.BUFFER = false \/ Event.raw_result event < 0
      | Some a =>
          contains (Event.flags event) CqeFlags.BUFFER = true /\
          Multishot.a_len a = Event.raw_result event /\
          Multishot.a_buf_id a = as_u16 (Event.flags event >>> 16) /\
          (Multishot.a_buf_id a < pb_entries (pool_of c) ->
           exists c', Multishot.arrival_drop a = Some c' /\
             offered (pool_of c') h (S n) =
               offered (pool_of c) h n ++ [own_desc (pool_of c) (Multishot.a_buf_id a)] /\
             kernel_avail (pool_of c') (as_u16 h) = Z.of_nat (S n))
      end
  end.
Proof.
  intros Hwf Hn Ht. unfold Multishot.record, Multishot.matches.
  assert (Event.belongs_to event (Multishot.t_ring ticket) (Multishot.t_id ticket) =
    ((Event.id event =? Multishot.t_id ticket) && (Event.ring event =? Multishot.t_ring ticket)))
    as -> by by destruct event.
  destruct (Z.eqb_spec (Event.id event) (Multishot.t_id ticket)) as [Hi|]; [|cbn; by auto].
  destruct (Z.eqb_spec (Event.ring event) (Multishot.t_ring ticket)) as [Hr|]; [|cbn; by auto].
  cbn [andb negb]. split_and!; [done|done| |].
  { by destruct event; cbn; [|destruct (Multishot.arrival_claim _ _ _)]; split. }
  assert (Multishot.lease_of (Multishot.from_event event c) =
    Multishot.arrival_claim (cqe_buffer_id (Event.flags event)) (Event.raw_result event) c) as ->
    by (destruct event; cbn; [done|unfold PartialReceipt.buffer_id; by destruct (Multishot.arrival_claim _ _ _)]).
  unfold cqe_buffer_id, Multishot.arrival_claim.
  destruct (contains (Event.flags event) CqeFlags.BUFFER); [|by auto].
  destruct (Z.leb_spec 0 (Event.raw_result event)); [|by auto]. split_and!; try done.
  cbn [Multishot.a_buf_id]. intros Hid. unfold Multishot.arrival_drop. cbn [Multishot.a_buf_id Multishot.a_pool].
  destruct (recycle_spec _ _ h n Hwf Ht Hn Hid) as (p' & Hrec & Hwf' & _ & Ht' & _ & Ho & _).
  exists (BufferConsumer.mk (commit p')). unfold BufferConsumer.recycle_and_commit, recycle_and_commit.
  unfold pool_of in *. rewrite Hrec. cbn [fmap option_fmap option_map BufferConsumer.inner].
  rewrite commit_offered. split_and!; [done|done|]. apply avail_exact.
  - rewrite commit_tail, Ht' by done. apply wrap_narrow. lia.
  - pose proof (pool_cap _ Hwf). lia.
Qed.

(** ** A concrete pair of halves *)
Definition own_sub : OwnedSubmitter.t :=
  OwnedSubmitter.mk (Submitter.mk 3 3 0 0 0 4096) 7 RequestIdSource.new.
Definition own_com : OwnedCompleter.t := OwnedCompleter.mk (Completer.mk 3 7 0 4096) 7.
Definition own_mem : Shm :=
  mkShm 0 0 0 (replicate 4 ZEROED) 0 0 (replicate 8 (mkCqe 0 0 0)).
Definition own_world : World unit := mkWorld own_sub own_com own_mem tt [] [] [] [] [].
Definition own_buffer : MmapBuffer := mkMmapBuffer 65536 100 4096.
Definition own_read : Request.Prepared MmapBuffer := Request.read 5 own_buffer 0.
Definition own_ticket : Request.Pending MmapBuffer := snd (into_pending 7 1 own_read).

Lemma own_sub_at : sub_at (sub_sys own_world) 0 0 0.
Proof. split; try (done || lia). exists 2. split_and!; done || lia. Qed.
Lemma own_com_at : com_at (com_sys own_world) 0 0 0.
Proof. split; try (done || lia). exists 3. split_and!; done || lia. Qed.
Lemma own_fresh : fresh_world own_world.
Proof.
  split; [exists 0; exact own_sub_at|]. split; [exists 0; exact own_com_at|]. split_and!; done.
Qed.

(** Pushed, published and consumed. *)
Definition own_pushed : Sys OwnedSubmitter.t unit := snd (OwnedSubmitter.push own_read (sub_sys own_world)).
Definition own_published : Shm :=
  mem (snd (Submitter.flush_sq_tail (mkSys (OwnedSubmitter.inner (hd own_pushed)) (mem own_pushed) tt))).
Definition own_in_flight : World unit :=
  mkWorld (hd own_pushed) own_com (kernel_consume 1 own_published) tt [1] [] [] [(7, 1)] [1].
Lemma own_flight_run : rtc owned_step own_world own_in_flight.
Proof.
  eapply rtc_l.
  { eapply (w_push _ _ own_read own_ticket own_sub own_com own_mem tt [] [] [] [] [] own_pushed);
      [reflexivity|vm_compute; reflexivity]. }
  eapply rtc_l; [apply w_publish|].
  eapply rtc_l; [apply (w_consume 1); vm_compute; congruence|].
  match goal with |- rtc _ ?a ?b => replace a with b by (vm_compute; reflexivity) end.
  apply rtc_refl.
Qed.

(** Completed and reaped. *)
Definition own_done : World unit :=
  mkWorld (hd own_pushed)
    (OwnedCompleter.mk (Completer.mk 3 7 1 4096) 7)
    (kernel_post [mkCqe 1 100 0] (kernel_consume 1 own_published)) tt
    [] [mkReceipt 7 1 100 0] [] [(7, 1)] [1].
Lemma own_done_run : rtc owned_step own_world own_done.
Proof.
  etrans; [exact own_flight_run|].
  eapply rtc_l.
  { apply (w_post [mkCqe 1 100 0] []); [vm_compute; congruence|].
    apply (answers_last [] [] (mkCqe 1 100 0)); [reflexivity|constructor]. }
  eapply rtc_l.
  { eapply (w_reap (Event.Complete (mkReceipt 7 1 100 0))). vm_compute. reflexivity. }
  match goal with |- rtc _ ?a ?b => replace a with b by (vm_compute; reflexivity) end.
  apply rtc_refl.
Qed.

Lemma owned_push_spec_witness :
  exists s' e, OwnedSubmitter.push own_read (sub_sys own_world) = (Ok own_ticket, s') /\
    queued s' = [] ++ [e] /\ Modifiers.get_user_data e = 1.
Proof.
  pose proof (owned_push_spec own_read (sub_sys own_world) 0 0 0 own_sub_at) as H.
  assert (fst (OwnedSubmitter.push own_read (sub_sys own_world)) = Ok own_ticket) as E by reflexivity.
  destruct (OwnedSubmitter.push own_read (sub_sys own_world)) as [r s']. cbn [fst] in E. subst r.
  destruct H as ((e & Hq & Hu) & _). exists s', e. split; [reflexivity|]. split; [exact Hq|exact Hu].
Defined.

Lemma request_in_one_place_witness :
  exists d, Request.redeem own_ticket (mkReceipt 7 1 100 0) = Ok d /\
    Request.d_buf d = own_buffer /\ ~ 1 ∈ w_flight own_done.
Proof.
  exists (Request.mkCompleted own_buffer 1 Read 100). split; [reflexivity|].
  destruct (request_in_one_place own_world own_done own_ticket (mkReceipt 7 1 100 0)
    (Request.mkCompleted own_buffer 1 Read 100) own_fresh own_done_run) as (_ & _ & H).
  specialize (H ltac:(apply list_elem_of_singleton; reflexivity)
    ltac:(apply list_elem_of_singleton; reflexivity) eq_refl).
  destruct H as (_ & Hb & _ & _ & _ & Hf & _). split; [exact (Hb own_read eq_refl)|exact Hf].
Defined.

Lemma message_forges_receipt_witness :
  w_flight own_in_flight = [1] /\
  exists receipt s',
    OwnedCompleter.reap_event (mkSys own_com
      (kernel_post [mkCqe 1 0 0] (w_mem own_in_flight)) tt) = (Some (Event.Complete receipt), s') /\
    is_ok (Request.redeem own_ticket receipt) = true.
Proof.
  split; [reflexivity|].
  destruct (message_forges_receipt own_world own_in_flight own_ticket 3 0 0 own_fresh own_flight_run
    eq_refl ltac:(apply list_elem_of_singleton; reflexivity) ltac:(vm_compute; reflexivity)
    ltac:(vm_compute; reflexivity)) as (r & s' & Hr & d & Hd & _).
  exists r, s'. split; [exact Hr|]. rewrite Hd. reflexivity.
Defined.

(** A zero-copy send's result in front of its notification. *)
Definition own_zc_mem : Shm := kernel_post [mkCqe 1 100 2; mkCqe 1 0 8] own_mem.
Lemma own_zc_at : com_at (mkSys own_com own_zc_mem tt) 0 0 2.
Proof. split; try (done || lia). exists 3. split_and!; done || lia. Qed.
Lemma reap_first_terminal_witness :
  exists s', OwnedCompleter.reap 3 (mkSys own_com own_zc_mem tt) =
    (Some (Some (mkReceipt 7 1 0 8), s')) /\ completions s' = [].
Proof.
  destruct (reap_first_terminal (mkSys own_com own_zc_mem tt) 0 0 2 own_zc_at)
    as (res & s' & Hr & _ & Hres).
  change (S (length (completions (mkSys own_com own_zc_mem tt)))) with 3%nat in Hr.
  pose proof Hr as Hv. vm_compute in Hv. injection Hv as <- <-.
  eexists. split; [exact Hr|]. vm_compute. reflexivity.
Defined.

(** `BUFFER | MORE | BUF_MORE` naming buffer 0 of a pool whose kernel took it. *)
Definition inc_event : Event.t := Event.Partial (PartialReceipt.mk 7 1 5 (1 ||| 2 ||| 16)).
Lemma delivery_lease_witness :
  contains (Event.flags inc_event) CqeFlags.BUF_MORE = true /\
  exists a c', Multishot.record (Multishot.mkRecv 7 1 7 5) inc_event (BufferConsumer.mk demo_pool) =
      Ok (Multishot.Data a) /\
    Multishot.arrival_drop a = Some c' /\ kernel_avail (pool_of c') (as_u16 1) = 4.
Proof.
  split; [reflexivity|].
  pose proof (delivery_lease (Multishot.mkRecv 7 1 7 5) inc_event (BufferConsumer.mk demo_pool) 1 3
    (proj1 demo_fresh) ltac:(reflexivity) ltac:(reflexivity)) as H.
  change (Multishot.record (Multishot.mkRecv 7 1 7 5) inc_event (BufferConsumer.mk demo_pool))
    with (Ok (E := Event.t) (Multishot.Data
      (Multishot.mkArrival (BufferConsumer.mk demo_pool) 0 5))) in *.
  destruct H as (_ & _ & _ & _ & _ & _ & H).
  destruct (H ltac:(reflexivity)) as (c' & Hd & _ & Ha).
  eexists _, c'. split; [reflexivity|]. split; [exact Hd|exact Ha].
Defined.
