(* ===== verification/OwnedMemory.v ===== *)
(** * What the kernel may touch stays mapped

    Who owns the storage behind owned requests, from [with_capacity] to
    `munmap`: the program's own values, a ticket, or nobody, once a ticket has
    been dropped.  Dropping a ticket runs no destructor of its storage, whatever
    its kind, so the storage leaks; only what the program holds is unmapped by a
    drop.  [memory_stays_mapped] puts this beside the rings and the kernel of
    [OwnedSpec]: no drop, in any order and at any time, unmaps storage of a
    request the kernel still has. *)
From stdpp Require Import base numbers list option gmap gmultiset relations.
From Stdlib Require Import ZArith Lia.
From S2P Require Import Prelude Flags Types RingIndex Sqe SqeFile SqeNet Kernel Ring RingSpec.
From S2P Require Import Resources Layout Pbuf Owned OwnedPath OwnedDirect OwnedStaged OwnedArrays OwnedMsg.
From S2P Require Import OwnedQueue OwnedSpec Setup.
Local Open Scope Z_scope.
Local Open Scope rust_scope.

(** ** Dropping a ticket *)
Section Drops.
  Context {K : Type}.
(** A field in `ManuallyDrop`: its destructor does not run. *)
Definition forget {S} (field : S) (o : Os K) : Os K := o.
(* src/src/owned/request.rs:305-312 Pending::drop *)
Definition drop_request {B} (self : Request.Pending B) (o : Os K) : Os K := forget (Request.t_buf self) o.
(* src/src/owned/zerocopy.rs:284-291 PendingZc::drop *)
Definition drop_zc {B} (self : Zc.Pending B) (o : Os K) : Os K := forget (Zc.t_buf self) o.
(** `PendingVectored` has no `Drop`: only its fields go. *)
(* src/src/owned/vectored.rs:304-307 PendingVectored (its `ManuallyDrop` fields) *)
Definition drop_vectored {B V} (self : Vectored.Pending B V) (o : Os K) : Os K := forget (Vectored.t_vecs self) (forget (Vectored.t_bufs self) o).
(* src/src/owned/sendmsg.rs:397-404 PendingSendmsg::drop *)
Definition drop_sendmsg {B R} (self : Sendmsg.Pending B R) (o : Os K) : Os K := forget (Sendmsg.t_store self) (forget (Sendmsg.t_bufs self) o).
(* src/src/owned/sendmsg_zc.rs:374-381 PendingSendmsgZc::drop *)
Definition drop_sendmsg_zc {B R} (self : SendmsgZc.Pending B R) (o : Os K) : Os K := forget (SendmsgZc.t_store self) (forget (SendmsgZc.t_bufs self) o).
(* src/src/owned/recvmsg.rs:463-470 PendingRecvmsg::drop *)
Definition drop_recvmsg {B R} (self : Recvmsg.Pending B R) (o : Os K) : Os K := forget (Recvmsg.t_store self) (forget (Recvmsg.t_bufs self) o).
(* src/src/owned/pathop.rs:310-316 PendingPathOp::drop *)
Definition drop_path_op {S} (self : PathOp.Pending S) (o : Os K) : Os K := forget (PathOp.t_path self) o.
(* src/src/owned/rename.rs:334-340 PendingRename::drop *)
Definition drop_rename {F T} (self : Rename.Pending F T) (o : Os K) : Os K := forget (Rename.t_to self) (forget (Rename.t_from self) o).
(* src/src/owned/link.rs:331-337 PendingLink::drop *)
Definition drop_link {F T} (self : Link.Pending F T) (o : Os K) : Os K := forget (Link.t_new self) (forget (Link.t_old self) o).
(* src/src/owned/open.rs:240-246 PendingOpen::drop *)
Definition drop_open {S} (self : Open.Pending S) (o : Os K) : Os K := forget (Open.t_path self) o.
(* src/src/owned/direct.rs:302-308 PendingDirectOpen::drop *)
Definition drop_direct_open {S} (self : DirectOpen.Pending S) (o : Os K) : Os K := forget (DirectOpen.t_path self) o.
(* src/src/owned/openat2.rs:510-516 PendingOpenat2::drop *)
Definition drop_openat2 {S H} (self : Openat2.Pending S H) (o : Os K) : Os K := forget (Openat2.t_how_store self) (forget (Openat2.t_path self) o).
(* src/src/owned/statx.rs:363-369 PendingStatx::drop *)
Definition drop_statx_op {S D} (self : StatxOp.Pending S D) (o : Os K) : Os K := forget (StatxOp.t_dest self) (forget (StatxOp.t_path self) o).
(* src/src/owned/staged_value.rs:265-271 ValuePending::drop *)
Definition drop_value {S Op} {VO : Value.ValueOp Op} (self : Value.Pending S Op) (o : Os K) : Os K := forget (Value.t_store self) o.
(* src/src/owned/staged_addr.rs:273-279 StagedPending::drop *)
Definition drop_addr {S Op} (self : Addr.Pending S Op) (o : Os K) : Os K := forget (Addr.t_store self) o.
(* src/src/owned/futexwaitv.rs:191-197 PendingFutexWaitv::drop *)
Definition drop_futex_waitv_op {V} (self : FutexWaitvOp.Pending V) (o : Os K) : Os K := forget (FutexWaitvOp.t_array self) o.
(* src/src/owned/filesupdate.rs:479-485 PendingFilesUpdate::drop *)
Definition drop_files_update {S} (self : FilesUpdate.Pending S) (o : Os K) : Os K := forget (FilesUpdate.t_store self) o.
(* src/src/owned/epollwait.rs:248-254 PendingEpollWait::drop *)
Definition drop_epoll_wait {D} (self : EpollWait.Pending D) (o : Os K) : Os K := forget (EpollWait.t_store self) o.
(* src/src/owned/pipe.rs:239-245 PendingPipe::drop *)
Definition drop_pipe {D} (self : Pipe.Pending D) (o : Os K) : Os K := forget (Pipe.t_dest self) o.
(* src/src/owned/waitid.rs:275-281 PendingWaitId::drop *)
Definition drop_wait_id {D} (self : WaitId.Pending D) (o : Os K) : Os K := forget (WaitId.t_dest self) o.
End Drops.

(** What happens to the mappings when a ticket is dropped; the kinds without
    storage have nothing to drop. *)
Class Abandon (T : Type) := abandon : forall {K : Type}, T -> Os K -> Os K.
Class AbandonLaws (T : Type) `{Abandon T} :=
  abandon_leaks : forall {K : Type} (t : T) (o : Os K), abandon t o = o.
#[export] Instance request_abandon B : Abandon (Request.Pending B) := fun K => drop_request.
#[export] Instance zc_abandon B : Abandon (Zc.Pending B) := fun K => drop_zc.
#[export] Instance vectored_abandon B V : Abandon (Vectored.Pending B V) := fun K => drop_vectored.
#[export] Instance sendmsg_abandon B R : Abandon (Sendmsg.Pending B R) := fun K => drop_sendmsg.
#[export] Instance sendmsg_zc_abandon B R : Abandon (SendmsgZc.Pending B R) := fun K => drop_sendmsg_zc.
#[export] Instance recvmsg_abandon B R : Abandon (Recvmsg.Pending B R) := fun K => drop_recvmsg.
#[export] Instance path_op_abandon S : Abandon (PathOp.Pending S) := fun K => drop_path_op.
#[export] Instance rename_abandon F T : Abandon (Rename.Pending F T) := fun K => drop_rename.
#[export] Instance link_abandon F T : Abandon (Link.Pending F T) := fun K => drop_link.
#[export] Instance open_abandon S : Abandon (Open.Pending S) := fun K => drop_open.
#[export] Instance direct_open_abandon S : Abandon (DirectOpen.Pending S) := fun K => drop_direct_open.
#[export] Instance openat2_abandon S H : Abandon (Openat2.Pending S H) := fun K => drop_openat2.
#[export] Instance statx_op_abandon S D : Abandon (StatxOp.Pending S D) := fun K => drop_statx_op.
#[export] Instance value_abandon S Op {VO : Value.ValueOp Op} : Abandon (Value.Pending S Op) := fun K => drop_value.
#[export] Instance addr_abandon S Op : Abandon (Addr.Pending S Op) := fun K => drop_addr.
#[export] Instance futex_waitv_op_abandon V : Abandon (FutexWaitvOp.Pending V) := fun K => drop_futex_waitv_op.
#[export] Instance files_update_abandon S : Abandon (FilesUpdate.Pending S) := fun K => drop_files_update.
#[export] Instance epoll_wait_abandon D : Abandon (EpollWait.Pending D) := fun K => drop_epoll_wait.
#[export] Instance pipe_abandon D : Abandon (Pipe.Pending D) := fun K => drop_pipe.
#[export] Instance wait_id_abandon D : Abandon (WaitId.Pending D) := fun K => drop_wait_id.
#[export] Instance cancel_abandon : Abandon Cancel.Pending := fun K self o => o.
#[export] Instance msg_ring_abandon : Abandon MsgRing.Pending := fun K self o => o.
#[export] Instance futex_wait_abandon : Abandon FutexWait.Pending := fun K self o => o.
#[export] Instance futex_wake_abandon : Abandon FutexWake.Pending := fun K self o => o.
#[export] Instance direct_socket_abandon : Abandon DirectSocket.Pending := fun K self o => o.
#[export] Instance fixed_fd_install_abandon : Abandon FixedFdInstall.Pending := fun K self o => o.

#[export] Instance request_abandon_laws B : AbandonLaws (Request.Pending B).
Proof. done. Qed.
#[export] Instance zc_abandon_laws B : AbandonLaws (Zc.Pending B).
Proof. done. Qed.
#[export] Instance vectored_abandon_laws B V : AbandonLaws (Vectored.Pending B V).
Proof. done. Qed.
#[export] Instance sendmsg_abandon_laws B R : AbandonLaws (Sendmsg.Pending B R).
Proof. done. Qed.
#[export] Instance sendmsg_zc_abandon_laws B R : AbandonLaws (SendmsgZc.Pending B R).
Proof. done. Qed.
#[export] Instance recvmsg_abandon_laws B R : AbandonLaws (Recvmsg.Pending B R).
Proof. done. Qed.
#[export] Instance path_op_abandon_laws S : AbandonLaws (PathOp.Pending S).
Proof. done. Qed.
#[export] Instance rename_abandon_laws F T : AbandonLaws (Rename.Pending F T).
Proof. done. Qed.
#[export] Instance link_abandon_laws F T : AbandonLaws (Link.Pending F T).
Proof. done. Qed.
#[export] Instance open_abandon_laws S : AbandonLaws (Open.Pending S).
Proof. done. Qed.
#[export] Instance direct_open_abandon_laws S : AbandonLaws (DirectOpen.Pending S).
Proof. done. Qed.
#[export] Instance openat2_abandon_laws S H : AbandonLaws (Openat2.Pending S H).
Proof. done. Qed.
#[export] Instance statx_op_abandon_laws S D : AbandonLaws (StatxOp.Pending S D).
Proof. done. Qed.
#[export] Instance value_abandon_laws S Op {VO : Value.ValueOp Op} : AbandonLaws (Value.Pending S Op).
Proof. done. Qed.
#[export] Instance addr_abandon_laws S Op : AbandonLaws (Addr.Pending S Op).
Proof. done. Qed.
#[export] Instance futex_waitv_op_abandon_laws V : AbandonLaws (FutexWaitvOp.Pending V).
Proof. done. Qed.
#[export] Instance files_update_abandon_laws S : AbandonLaws (FilesUpdate.Pending S).
Proof. done. Qed.
#[export] Instance epoll_wait_abandon_laws D : AbandonLaws (EpollWait.Pending D).
Proof. done. Qed.
#[export] Instance pipe_abandon_laws D : AbandonLaws (Pipe.Pending D).
Proof. done. Qed.
#[export] Instance wait_id_abandon_laws D : AbandonLaws (WaitId.Pending D).
Proof. done. Qed.
#[export] Instance cancel_abandon_laws : AbandonLaws Cancel.Pending.
Proof. done. Qed.
#[export] Instance msg_ring_abandon_laws : AbandonLaws MsgRing.Pending.
Proof. done. Qed.
#[export] Instance futex_wait_abandon_laws : AbandonLaws FutexWait.Pending.
Proof. done. Qed.
#[export] Instance futex_wake_abandon_laws : AbandonLaws FutexWake.Pending.
Proof. done. Qed.
#[export] Instance direct_socket_abandon_laws : AbandonLaws DirectSocket.Pending.
Proof. done. Qed.
#[export] Instance fixed_fd_install_abandon_laws : AbandonLaws FixedFdInstall.Pending.
Proof. done. Qed.

(** ** Dropping storage *)
(** The regions a storage value owns, and its destructor. *)
Class Owner (S : Type) := {
  regions : S -> list MappedRegion;
  drop_owner : forall {K : Type}, S -> Os K -> Os K
}.
Class OwnerLaws (S : Type) `{Owner S} :=
  drop_unmaps : forall {K : Type} (s : S) (o : Os K),
    drop_owner s o = foldl (fun o r => munmap r o) o (regions s).

#[export] Instance mmap_owner : Owner MmapBuffer := {
  regions b := [new_region (mb_addr b) (mb_mapped b)];
  drop_owner K b := drop_buffer b
}.
#[export] Instance unit_owner : Owner unit := { regions _ := []; drop_owner K _ o := o }.
#[export] Instance path_owner S `{Owner S} : Owner (OwnedPath.t S) := {
  regions p := regions (OwnedPath.storage p);
  drop_owner K p := drop_owner (OwnedPath.storage p)
}.
(** Fields drop in order, and so do the elements of an array. *)
#[export] Instance prod_owner A B `{Owner A, Owner B} : Owner (A * B) := {
  regions p := regions p.1 ++ regions p.2;
  drop_owner K p o := drop_owner p.2 (drop_owner p.1 o)
}.
#[export] Instance list_owner A `{Owner A} : Owner (list A) := {
  regions l := l ≫= regions;
  drop_owner K l o := foldl (fun o a => drop_owner a o) o l
}.
#[export] Instance option_owner A `{Owner A} : Owner (option A) := {
  regions m := match m with Some a => regions a | None => [] end;
  drop_owner K m o := match m with Some a => drop_owner a o | None => o end
}.
#[export] Instance mmap_owner_laws : OwnerLaws MmapBuffer.
Proof. done. Qed.
#[export] Instance unit_owner_laws : OwnerLaws unit.
Proof. done. Qed.
#[export] Instance path_owner_laws S `{OwnerLaws S} : OwnerLaws (OwnedPath.t S).
Proof. intros K [s n] o. exact (drop_unmaps s o). Qed.
#[export] Instance prod_owner_laws A B `{OwnerLaws A, OwnerLaws B} : OwnerLaws (A * B).
Proof. intros K [a b] o. cbn. by rewrite !drop_unmaps, foldl_app. Qed.
#[export] Instance list_owner_laws A `{OwnerLaws A} : OwnerLaws (list A).
Proof.
  intros K l. induction l as [|a l IH]; intros o; [done|]. cbn in *.
  by rewrite IH, drop_unmaps, foldl_app.
Qed.
#[export] Instance option_owner_laws A `{OwnerLaws A} : OwnerLaws (option A).
Proof. intros K [a|] o; [exact (drop_unmaps a o)|done]. Qed.

(** ** The world with its memory *)
(** A ticket of any kind that owns its storage. *)
Inductive any_ticket : Type :=
| AnyTicket P T D X `{CustodyLaws P T D X} `{AbandonLaws T} `{OwnerLaws X} (t : T).
Definition tk_id (a : any_ticket) : RequestId := let '(AnyTicket P T D X t) := a in ticket_id t.
Definition tk_ring (a : any_ticket) : RingId := let '(AnyTicket P T D X t) := a in ticket_ring t.
Definition tk_regions (a : any_ticket) : list MappedRegion :=
  let '(AnyTicket P T D X t) := a in regions (held (D := D) t).
Definition tk_abandon {K} (a : any_ticket) (o : Os K) : Os K :=
  let '(AnyTicket P T D X t) := a in abandon t o.

Definition bag (l : list MappedRegion) : gmultiset (Z * Z) := list_to_set_disj l.
(** The operating system's mappings; the regions the program's own values own
    (buffers in hand, in requests not pushed and in completed ones); the tickets
    held; the regions of tickets dropped; every entry ever queued, with the
    regions behind it. *)
Record Memory (L : Type) : Type := mkMemory {
  os : Os L; mine : list MappedRegion; tickets : list any_ticket;
  leaked : list (RequestId * list MappedRegion); issued : list (Sqe * list MappedRegion)
}.
Arguments mkMemory {L} _ _ _ _ _. Arguments os {L} _. Arguments mine {L} _.
Arguments tickets {L} _. Arguments leaked {L} _. Arguments issued {L} _.

Definition lk_regions (x : RequestId * list MappedRegion) : list MappedRegion := x.2.

Section Worlds.
  Context {K L : Type} {PW : PtrWidth} `{SK : SetupKernel L}.
  Implicit Types (w : World K) (o : Os L).

Inductive mem_step : World K * Memory L -> World K * Memory L -> Prop :=
(** Rings, kernel, receipts, and requests that own nothing. *)
| m_world w w' M : owned_step w w' -> mem_step (w, M) (w', M)
(** A buffer is mapped. *)
| m_map w len b o o' mi tk le iss :
    with_capacity len o = (Ok b, o') ->
    mem_step (w, mkMemory o mi tk le iss) (w, mkMemory o' (regions b ++ mi) tk le iss)
(** A request built over storage of the program's is pushed. *)
| m_push P T D X `{HO : OwnedRequest P T, !OwnedRequestLaws P T, HC : !Custody P T D X,
      !CustodyLaws P T D X} `{AbandonLaws T} `{OwnerLaws X}
    (p : P) (t : T) sub com m k F R Sp tks A s' o mi rest tk le iss :
    RequestIdSource.next_id (OwnedSubmitter.ids sub) < 2 ^ 64 - 1 ->
    mi ≡ₚ regions (deposit (D := D) p) ++ rest ->
    OwnedSubmitter.push p (mkSys sub m k) = (Ok t, s') ->
    mem_step (mkWorld sub com m k F R Sp tks A, mkMemory o mi tk le iss)
      (mkWorld (hd s') com (mem s') (kern s') F R Sp ((ticket_ring t, ticket_id t) :: tks)
         (A ++ [ticket_id t]),
       mkMemory o rest (AnyTicket P T D X t :: tk) le
         (iss ++ [(fst (into_pending (ticket_ring t) (ticket_id t) p), regions (deposit (D := D) p))]))
(** A ticket is redeemed with a receipt in hand: the program has its storage. *)
| m_redeem P T D X `{CustodyLaws P T D X} `{AbandonLaws T} `{OwnerLaws X}
    (t : T) r (d : D) sub com m k F R1 R2 Sp tks1 tks2 A o mi tk1 tk2 le iss :
    redeem_with t r = Ok d ->
    mem_step (mkWorld sub com m k F (R1 ++ r :: R2) Sp (tks1 ++ (ticket_ring t, ticket_id t) :: tks2) A,
              mkMemory o mi (tk1 ++ AnyTicket P T D X t :: tk2) le iss)
      (mkWorld sub com m k F (R1 ++ R2) (rc_id r :: Sp) (tks1 ++ tks2) A,
       mkMemory o (regions (withdraw d) ++ mi) (tk1 ++ tk2) le iss)
(** A ticket is dropped. *)
| m_abandon w t o mi tk1 tk2 le iss :
    mem_step (w, mkMemory o mi (tk1 ++ t :: tk2) le iss)
      (w, mkMemory (tk_abandon t o) mi (tk1 ++ tk2) ((tk_id t, tk_regions t) :: le) iss)
(** Storage the program holds is dropped. *)
| m_drop w X `{OwnerLaws X} (x : X) o mi rest tk le iss :
    mi ≡ₚ regions x ++ rest ->
    mem_step (w, mkMemory o mi tk le iss) (w, mkMemory (drop_owner x o) rest tk le iss).

Record mem_ok (base : gmultiset (Z * Z)) (n : nat) (wM : World K * Memory L) : Prop := {
  mo_world : world_ok wM.1;
  mo_live : live (os wM.2) = base ⊎ bag (mine wM.2) ⊎ bag (tickets wM.2 ≫= tk_regions)
              ⊎ bag (leaked wM.2 ≫= lk_regions);
  mo_faults : faults (os wM.2) = n;
  mo_issued e regs : (e, regs) ∈ issued wM.2 ->
    Modifiers.get_user_data e ∈ w_spent wM.1 \/
    (Modifiers.get_user_data e, regs) ∈
      ((fun t => (tk_id t, tk_regions t)) <$> tickets wM.2) ++ leaked wM.2
}.

Lemma bag_app l r : bag (l ++ r) = bag l ⊎ bag r.
Proof. apply list_to_set_disj_app. Qed.
Lemma bag_nil : bag [] = ∅.
Proof. done. Qed.
Lemma bag_cons r l : bag (r :: l) = {[+ r +]} ⊎ bag l.
Proof. done. Qed.
Lemma bag_perm l r : l ≡ₚ r -> bag l = bag r.
Proof. apply list_to_set_disj_perm. Qed.
Ltac bags := repeat match goal with |- context [bag ?l] => generalize (bag l); intros ? end; multiset_solver.
Lemma bag_bind {A} (f : A -> list MappedRegion) l1 x l2 :
  bag ((l1 ++ x :: l2) ≫= f) = bag (f x) ⊎ bag ((l1 ++ l2) ≫= f).
Proof.
  rewrite !bind_app, bind_cons, !bag_app. generalize (bag (l1 ≫= f)), (bag (f x)), (bag (l2 ≫= f)).
  intros. multiset_solver.
Qed.
Lemma bag_elem {A} (f : A -> list MappedRegion) l x : x ∈ l -> bag (f x) ⊆ bag (l ≫= f).
Proof. intros (l1 & l2 & ->)%list_elem_of_split. rewrite bag_bind. generalize (bag (f x)), (bag ((l1 ++ l2) ≫= f)). intros. multiset_solver. Qed.

(** Dropping what is mapped unmaps it and nothing else, without a fault. *)
Lemma drop_owner_bag X `{OwnerLaws X} (x : X) o Y :
  live o = Y ⊎ bag (regions x) ->
  live (drop_owner x o) = Y /\ faults (drop_owner x o) = faults o.
Proof.
  rewrite drop_unmaps. generalize (regions x) as rs. intros rs. revert o Y.
  induction rs as [|r rs IH]; intros o Y Hl; cbn [foldl].
  { rewrite Hl, bag_nil. split; [multiset_solver|done]. }
  rewrite bag_cons in Hl. generalize dependent (bag rs). intros B IH Hl.
  destruct (IH (munmap r o) Y) as [E1 E2].
  - destruct o as [lv fd pg fa orc]. cbn [live] in Hl. subst lv.
    replace (Y ⊎ _) with ((Y ⊎ B) ⊎ {[+ r +]}) by multiset_solver.
    by rewrite munmap_live.
  - rewrite E1, E2. split; [done|]. destruct o as [lv fd pg fa orc]. cbn [live] in Hl. subst lv.
    replace (Y ⊎ _) with ((Y ⊎ B) ⊎ {[+ r +]}) by multiset_solver.
    by rewrite munmap_live.
Qed.
Lemma with_capacity_live len o b o' :
  with_capacity len o = (Ok b, o') ->
  live o' = live o ⊎ bag (regions b) /\ faults o' = faults o /\ mb_len b = len /\ mb_len b <= mb_mapped b.
Proof.
  unfold with_capacity, checked_next_multiple_of. destruct (_ =? 0); [done|].
  destruct (_ <? _) eqn:Hm; [|done]. unfold mmap_anon.
  destruct (sys_mmap _ _ _ _) as [[a|e] k]; [|done]. intros [= <- <-].
  cbn [live faults mb_len mb_mapped mb_addr regions mmap_owner]. rewrite bag_cons, bag_nil.
  split_and!; [multiset_solver|done|done|]. unfold next_multiple_of.
  pose proof (Z.mod_pos_bound len PAGE ltac:(done)). destruct (_ =? 0); lia.
Qed.
Lemma elem_of_removed {A} (y x : A) l1 l2 l : y ∈ (l1 ++ x :: l2) ++ l -> y = x \/ y ∈ (l1 ++ l2) ++ l.
Proof. rewrite !elem_of_app, elem_of_cons. tauto. Qed.
Lemma owned_step_spent w w' : owned_step w w' -> w_spent w ⊆ w_spent w'.
Proof. destruct 1; cbn; set_solver. Qed.

Lemma tk_abandon_leaks a o : tk_abandon a o = o.
Proof. destruct a as [P T D X ? ? ? ? ? ? ? t]. exact (abandon_leaks t o). Qed.
Lemma push_world P T `{HO : OwnedRequest P T, !OwnedRequestLaws P T} (p : P) (t : T) sub com m (k : K) F R Sp tks A s' :
  RequestIdSource.next_id (OwnedSubmitter.ids sub) < 2 ^ 64 - 1 ->
  OwnedSubmitter.push p (mkSys sub m k) = (Ok t, s') ->
  world_ok (mkWorld sub com m k F R Sp tks A) ->
  t = snd (into_pending (ticket_ring t) (ticket_id t) p) /\
  world_ok (mkWorld (hd s') com (mem s') (kern s') F R Sp ((ticket_ring t, ticket_id t) :: tks)
    (A ++ [ticket_id t])).
Proof.
  intros Hlt Hp Hok. split.
  - destruct Hok as [(h & tl & l & Hs) _ _ _ _ _ _ _ _].
    pose proof (owned_push_effect p (mkSys sub m k) h tl l Hs) as He. rewrite Hp in He.
    destruct He as (_ & _ & _ & _ & _ & _ & _ & _ & Hid & Hr & e & _ & _ & He).
    rewrite Hid, Hr, <- He. done.
  - eapply owned_step_ok; [|exact Hok]. by eapply w_push.
Qed.

Lemma mem_step_ok base n wM wM' : mem_step wM wM' -> mem_ok base n wM -> mem_ok base n wM'.
Proof.
  intros Hstep [Hw Hl Hf Hi]. destruct Hstep as [w w' M Hst|w len b o o' mi tk le iss Hm
    |P T D X HO ? HC ? ? ? ? ? p t sub com m k F R Sp tks A s' o mi rest tk le iss Hlt Hmi Hp
    |P T D X ? ? ? ? ? ? ? t r d sub com m k F R1 R2 Sp tks1 tks2 A o mi tk1 tk2 le iss Hr
    |w t o mi tk1 tk2 le iss|w X ? ? x o mi rest tk le iss Hmi];
    cbn [fst snd os mine tickets leaked issued] in *.
  - split; cbn [fst snd]; try done; [by eapply owned_step_ok|].
    intros e regs He. destruct (Hi e regs He); [left|by right]. by eapply owned_step_spent.
  - destruct (with_capacity_live _ _ _ _ Hm) as (E1 & E2 & _).
    split; cbn [fst snd os mine tickets leaked issued]; try done; [|congruence].
    rewrite E1, Hl, bag_app. bags.
  - destruct (push_world _ _ p t sub com m k F R Sp tks A s' Hlt Hp Hw) as [Et Hw'].
    assert (regions (held (D := D) t) = regions (deposit (D := D) p)) as Eh
      by (rewrite Et; by rewrite held_deposit).
    split; cbn [fst snd os mine tickets leaked issued]; try done.
    + rewrite Hl, (bag_perm _ _ Hmi), bag_app, bind_cons, bag_app. cbn [tk_regions]. rewrite Eh.
      bags.
    + intros e regs [He|He]%elem_of_app.
      * destruct (Hi e regs He) as [|Ho]; [by left|right].
        rewrite fmap_cons, <- app_comm_cons. apply elem_of_cons. by right.
      * apply list_elem_of_singleton in He as [= -> ->]. right.
        rewrite fmap_cons, <- app_comm_cons. cbn [tk_id tk_regions]. rewrite into_user_data, Eh.
        apply elem_of_cons. by left.
  - pose proof (redeem_spec t r) as Hs. rewrite Hr in Hs. destruct Hs as (Hb & Ew & _).
    split; cbn [fst snd os mine tickets leaked issued]; try done.
    + eapply owned_step_ok; [|exact Hw]. by apply w_redeem.
    + rewrite Hl, bag_bind, bag_app, Ew. cbn [tk_regions]. bags.
    + intros e regs He. unfold belongs_to in Hb. apply andb_true_iff in Hb as [Hb%Z.eqb_eq _].
      destruct (Hi e regs He) as [|Ho]; [left; set_solver|]. rewrite fmap_app, fmap_cons in Ho.
      apply elem_of_removed in Ho as [[= E _]|Ho].
      * left. cbn. rewrite E, Hb. set_solver.
      * right. by rewrite fmap_app.
  - rewrite tk_abandon_leaks. split; cbn [fst snd os mine tickets leaked issued]; try done.
    + rewrite Hl, bag_bind, bind_cons, bag_app. unfold lk_regions at 2. cbn [snd]. bags.
    + intros e regs He. destruct (Hi e regs He) as [|Ho]; [by left|right].
      rewrite fmap_app, fmap_cons in Ho. rewrite fmap_app, !elem_of_app, elem_of_cons.
      apply elem_of_removed in Ho as [Ho|Ho]; [|rewrite !elem_of_app in Ho]; tauto.
  - destruct (drop_owner_bag X x o (base ⊎ bag rest ⊎ bag (tk ≫= tk_regions) ⊎ bag (le ≫= lk_regions))) as [E1 E2].
    { rewrite Hl, (bag_perm _ _ Hmi), bag_app. bags. }
    split; cbn [fst snd os mine tickets leaked issued]; try done. congruence.
Qed.
Lemma mem_run_ok base n wM wM' : rtc mem_step wM wM' -> mem_ok base n wM -> mem_ok base n wM'.
Proof. induction 1; eauto using mem_step_ok. Qed.

(** C7. Take a program that maps buffers, builds requests over them and over any
    storage made of them, pushes, redeems, and drops buffers, requests, tickets,
    receipts and results whenever it likes, and a kernel that interleaves.  The
    regions behind every entry that is still queued or in flight are mapped, apart
    from everything the program can still unmap; nothing is unmapped twice; and
    every mapping made is the program's, a ticket's, or leaked by a dropped
    ticket. *)
Theorem memory_stays_mapped w0 o0 w (M : Memory L) :
  fresh_world w0 -> rtc mem_step (w0, mkMemory o0 [] [] [] []) (w, M) ->
  (forall e regs, (e, regs) ∈ issued M ->
     Modifiers.get_user_data e ∈ queued_ids w \/ Modifiers.get_user_data e ∈ w_flight w ->
     bag regs ⊎ bag (mine M) ⊆ live (os M)) /\
  live (os M) = live o0 ⊎ bag (mine M) ⊎ bag (tickets M ≫= tk_regions) ⊎ bag (leaked M ≫= lk_regions) /\
  faults (os M) = faults o0.
Proof.
  intros Hf Hr. destruct (mem_run_ok (live o0) (faults o0) _ _ Hr) as [Hw Hl Hfa Hi].
  { split; cbn; [by apply fresh_world_ok|multiset_solver|done|set_solver]. }
  cbn [fst snd] in *. split; [|done]. intros e regs He Hk. destruct Hw as [_ _ _ Hst Hu _ _ _ _].
  assert (NoDup (stages w)) as Hnd by by rewrite Hst. unfold stages in Hnd. rewrite !NoDup_app in Hnd.
  destruct Hnd as (_ & Hs1 & _ & Hs2 & _).
  destruct (Hi e regs He) as [Hsp|Ho].
  - exfalso. destruct Hk as [Hk|Hk]; [apply (Hs1 _ Hk)|apply (Hs2 _ Hk)]; rewrite !elem_of_app; tauto.
  - rewrite Hl. apply elem_of_app in Ho as [(t & Et & Ht)%list_elem_of_fmap|Ho].
    + injection Et as _ Er. pose proof (bag_elem tk_regions _ _ Ht) as Hb. rewrite Er. clear -Hb.
      etrans; [apply gmultiset_disj_union_mono_r, Hb|]. clear Hb. bags.
    + pose proof (bag_elem lk_regions _ _ Ho) as Hb. clear -Hb.
      etrans; [apply gmultiset_disj_union_mono_r, Hb|].
      clear Hb. bags.
Qed.

(** A read, write or zero-copy send over a fresh buffer, trimmed or not, points
    into the buffer's own mapping. *)
Theorem buffer_entry_within_mapping len n o b o' ring id fd off flags e :
  with_capacity len o = (Ok b, o') -> 0 <= len -> 0 <= n ->
  0 <= mb_addr b -> mb_addr b + mb_mapped b <= 2 ^ 64 ->
  e ∈ [fst (into_pending ring id (Request.with_len n (Request.read fd b off)));
       fst (into_pending ring id (Request.with_len n (Request.write fd b off)));
       fst (into_pending ring id (Zc.with_len n (Zc.send fd b flags)))] ->
  new_region (mb_addr b) (mb_mapped b) ∈ live o' /\ IoUringSqe.addr e = mb_addr b /\
  0 <= IoUringSqe.len e <= mb_mapped b.
Proof.
  intros Hm Hl Hn Ha Hb He. destruct (with_capacity_live _ _ _ _ Hm) as (E1 & _ & El & Hle).
  assert (0 < mb_mapped b) as Hpos.
  { destruct (Z.eq_dec (mb_mapped b) 0) as [E|]; [|lia]. unfold with_capacity in Hm.
    destruct (Z.eqb_spec len 0); [done|]. lia. }
  assert (0 <= clamp_len (stable_len b) <= mb_mapped b) as Hc.
  { unfold clamp_len. cbn [stable_len mmap_stable]. rewrite El. destruct (len >? _) eqn:E; [lia|].
    unfold wrap. rewrite Z.mod_small; lia. }
  assert (as_u64 (mb_addr b) = mb_addr b) as Ew by (apply wrap_small; split; lia).
  split.
  { rewrite E1. cbn [regions mmap_owner]. rewrite bag_cons. apply gmultiset_elem_of_disj_union. right.
    apply gmultiset_elem_of_disj_union. left. by apply gmultiset_elem_of_singleton. }
  cbn [stable_len mmap_stable] in Hc. rewrite !elem_of_cons, elem_of_nil in He. destruct He as [->|[->|[->|[]]]];
    unfold Request.with_len, Zc.with_len, Zc.send; change Zc.clamp_len with clamp_len;
    cbn -[clamp_len Z.ltb wrap];
    (destruct (Z.ltb_spec n (clamp_len (mb_len b))); cbn -[clamp_len wrap]; (split; [done|lia])).
Qed.
End Worlds.

(** ** A concrete run *)
(** The buffer's ticket is dropped while the kernel holds the entry. *)
Definition own_os : Os ToyOs := mkOs ∅ ∅ ∅ 0 (mkToyOs 65536 5).
Definition own_mapped : Os ToyOs := snd (with_capacity 100 own_os).
Definition own_abandoned : Memory ToyOs :=
  mkMemory own_mapped [] [] [(1, [(65536, 4096)])]
    [(fst (into_pending 7 1 own_read), [(65536, 4096)])].
Lemma own_abandoned_run :
  rtc mem_step (own_world, mkMemory own_os [] [] [] []) (own_in_flight, own_abandoned).
Proof.
  eapply rtc_l; [by apply (m_map _ 100 own_buffer own_os own_mapped)|].
  eapply rtc_l.
  { eapply (m_push _ _ (Request.Completed MmapBuffer) _ own_read own_ticket own_sub own_com own_mem tt
      [] [] [] [] [] own_pushed own_mapped _ []); [reflexivity| |vm_compute; reflexivity].
    by rewrite app_nil_r. }
  eapply rtc_l; [apply m_world, w_publish|].
  eapply rtc_l; [apply m_world, (w_consume 1); vm_compute; congruence|].
  eapply rtc_l; [apply (m_abandon _ _ _ _ [] [])|].
  match goal with |- rtc _ ?a ?b => replace a with b by reflexivity end. apply rtc_refl.
Qed.
Lemma memory_stays_mapped_witness :
  w_flight own_in_flight = [1] /\ tickets own_abandoned = [] /\
  (65536, 4096) ∈ live (os own_abandoned).
Proof.
  split; [reflexivity|]. split; [reflexivity|].
  destruct (memory_stays_mapped own_world own_os own_in_flight own_abandoned own_fresh own_abandoned_run)
    as (H & _ & _).
  specialize (H (fst (into_pending 7 1 own_read)) [(65536, 4096)]
    ltac:(apply list_elem_of_singleton; reflexivity)
    ltac:(right; apply list_elem_of_singleton; reflexivity)).
  eapply gmultiset_elem_of_subseteq; [|exact H]. cbn [mine own_abandoned].
  rewrite bag_cons. apply gmultiset_elem_of_disj_union. left.
  apply gmultiset_elem_of_disj_union. left. by apply gmultiset_elem_of_singleton.
Defined.
