(* ===== verification/OwnedFds.v ===== *)
(** * Descriptors handed out by completions

    Accepts, opens and installs answer with a descriptor, which the value made
    from the completion owns and closes when it is dropped.  [Hands] is what
    those request kinds share.  As long as every event is recorded once, each
    installed descriptor has one owner and is closed at most once
    ([descriptors_owned_once]).  A finished multishot gives its receipt back,
    though, and the receipt can be recorded again: the descriptor, or the pool
    buffer, then has two owners ([finished_receipt_replays]). *)
From stdpp Require Import base numbers list option gmap gmultiset relations.
From Stdlib Require Import ZArith Lia.
From S2P Require Import Prelude Flags Types RingIndex Sqe Resources Layout Setup Pbuf PbufSpec.
From S2P Require Import Owned OwnedPath OwnedDirect OwnedSpec.
Local Open Scope Z_scope.
Local Open Scope rust_scope.

(** The descriptor a completion says was installed. *)
Definition installed (e : Event.t) : list Z :=
  if 0 <=? Event.raw_result e then [Event.raw_result e] else [].
(** Dropping an `Option` of an owned descriptor. *)
Definition close_opt {K} (fd : option Z) (o : Os K) : Os K :=
  match fd with Some fd => close_fd fd o | None => o end.

(** Request kinds whose events install descriptors: what recording an event
    yields, the descriptors the value owns, and its destructor. *)
Class Hands (T V : Type) := {
  take_event : T -> Event.t -> option V;
  fds_of : V -> list Z;
  drop_value : forall {K : Type}, V -> Os K -> Os K
}.
Class HandsLaws (T V : Type) `{Hands T V} := {
  take_installed t e v : take_event t e = Some v -> fds_of v = installed e;
  drop_closes : forall {K : Type} v (o : Os K),
    drop_value v o = foldl (fun o fd => close_fd fd o) o (fds_of v)
}.

#[export] Instance accept_hands : Hands Accept.Armed Accept.Incoming := {
  take_event t e := match Accept.record t e with Ok v => Some v | Err _ => None end;
  fds_of v := option_list (Accept.into_connection v);
  drop_value K v := close_opt (Accept.into_connection v)
}.
(** A single receipt redeems the ticket. *)
Definition redeemed {T D} (redeem : T -> Receipt -> result D (T * Receipt)) (t : T) (e : Event.t) : option D :=
  match Event.into_receipt e with
  | Some r => match redeem t r with Ok d => Some d | Err _ => None end
  | None => None
  end.
#[export] Instance open_hands S : Hands (Open.Pending S) (Open.Opened S) := {
  take_event := redeemed Open.redeem;
  fds_of v := option_list (Open.d_file v);
  drop_value K v := close_opt (Open.d_file v)
}.
#[export] Instance openat2_hands S H : Hands (Openat2.Pending S H) (Openat2.Opened2 S H) := {
  take_event := redeemed Openat2.redeem;
  fds_of v := option_list (Openat2.d_file v);
  drop_value K v := close_opt (Openat2.d_file v)
}.
#[export] Instance install_hands : Hands FixedFdInstall.Pending FixedFdInstall.Installed := {
  take_event := redeemed FixedFdInstall.redeem;
  fds_of v := option_list (FixedFdInstall.d_file v);
  drop_value K v := close_opt (FixedFdInstall.d_file v)
}.
Lemma claim_installed e : option_list (claim_fd (Event.raw_result e)) = installed e.
Proof. unfold claim_fd, installed. by destruct (_ <=? _). Qed.
#[export] Instance accept_hands_laws : HandsLaws Accept.Armed Accept.Incoming.
Proof.
  split.
  - intros t e v. cbn. unfold Accept.record. destruct (negb _); [done|]. intros [= <-].
    rewrite <- claim_installed. destruct e as [r|p]; cbn; [done|].
    unfold Accept.claim, claim_fd. by destruct (_ <=? _).
  - intros K v o. cbn. by destruct (Accept.into_connection v).
Qed.
Tactic Notation "redeemed_laws" reference(redeem) :=
  split; [intros t e v; cbn; unfold redeemed, redeem; destruct e as [r|p]; [|done]; cbn;
    destruct (negb _); [done|]; intros [= <-]; apply (claim_installed (Event.Complete r))
  |intros K v o; cbn; unfold close_opt; by case_match].
#[export] Instance open_hands_laws S : HandsLaws (Open.Pending S) (Open.Opened S).
Proof. redeemed_laws Open.redeem. Qed.
#[export] Instance openat2_hands_laws S H : HandsLaws (Openat2.Pending S H) (Openat2.Opened2 S H).
Proof. redeemed_laws Openat2.redeem. Qed.
#[export] Instance install_hands_laws : HandsLaws FixedFdInstall.Pending FixedFdInstall.Installed.
Proof. redeemed_laws FixedFdInstall.redeem. Qed.

(** ** Each descriptor has one owner *)
(** A value of any of the kinds. *)
Inductive any_value : Type := AnyValue T V `{HandsLaws T V} (v : V).
Definition av_fds (a : any_value) : list Z := let '(AnyValue T V v) := a in fds_of v.
Definition av_drop {K} (a : any_value) (o : Os K) : Os K :=
  let '(AnyValue T V v) := a in drop_value v o.
(** The system; the events reaped and not yet recorded; the values held; the
    descriptors of events thrown away, which nobody closes. *)
Record Hold (L : Type) : Type := mkHold {
  h_os : Os L; h_events : list Event.t; h_values : list any_value; h_lost : list Z
}.
Arguments mkHold {L} _ _ _ _. Arguments h_os {L} _. Arguments h_events {L} _.
Arguments h_values {L} _. Arguments h_lost {L} _.
Definition bagZ (l : list Z) : gmultiset Z := list_to_set_disj l.
Definition install {L} (e : Event.t) (o : Os L) : Os L :=
  mkOs (live o) (fds o ⊎ bagZ (installed e)) (pages o) (faults o) (oracle o).

Inductive hold_step {L} : Hold L -> Hold L -> Prop :=
(** The kernel installs a descriptor and its completion is reaped. *)
| h_reap e o es vs lo : hold_step (mkHold o es vs lo) (mkHold (install e o) (es ++ [e]) vs lo)
(** An event is recorded, a value dropped, an event thrown away. *)
| h_take T V `{HandsLaws T V} (t : T) (v : V) e o es1 es2 vs lo :
    take_event t e = Some v ->
    hold_step (mkHold o (es1 ++ e :: es2) vs lo) (mkHold o (es1 ++ es2) (AnyValue T V v :: vs) lo)
| h_drop v o es vs1 vs2 lo :
    hold_step (mkHold o es (vs1 ++ v :: vs2) lo) (mkHold (av_drop v o) es (vs1 ++ vs2) lo)
| h_ignore e o es1 es2 vs lo :
    hold_step (mkHold o (es1 ++ e :: es2) vs lo) (mkHold o (es1 ++ es2) vs (installed e ++ lo)).

Section Holding.
  Context {L : Type}.
  Implicit Types (o : Os L) (h : Hold L).
Definition owned_fds h : gmultiset Z :=
  bagZ (h_events h ≫= installed) ⊎ bagZ (h_values h ≫= av_fds) ⊎ bagZ (h_lost h).
Lemma bagZ_app l r : bagZ (l ++ r) = bagZ l ⊎ bagZ r.
Proof. apply list_to_set_disj_app. Qed.
Lemma bagZ_cons x l : bagZ (x :: l) = {[+ x +]} ⊎ bagZ l.
Proof. done. Qed.
Ltac bagsZ := repeat match goal with |- context [bagZ ?l] => generalize (bagZ l); intros ? end; multiset_solver.
Lemma bagZ_bind {A} (f : A -> list Z) l1 x l2 :
  bagZ ((l1 ++ x :: l2) ≫= f) = bagZ (f x) ⊎ bagZ ((l1 ++ l2) ≫= f).
Proof. rewrite !bind_app, bind_cons, !bagZ_app. bagsZ. Qed.
Lemma close_all_bag l o Y :
  fds o = Y ⊎ bagZ l ->
  let o' := foldl (fun o fd => close_fd fd o) o l in fds o' = Y /\ faults o' = faults o.
Proof.
  revert o Y. induction l as [|fd l IH]; intros o Y Hl; cbn [foldl].
  { rewrite Hl. split; [|done]. change (bagZ []) with (∅ : gmultiset Z). multiset_solver. }
  rewrite bagZ_cons in Hl. destruct o as [lv fs pg fa orc]. cbn [fds] in Hl. subst fs.
  generalize dependent (bagZ l). intros B IH.
  replace (Y ⊎ _) with ((Y ⊎ B) ⊎ {[+ fd +]}) by multiset_solver.
  rewrite close_live. by apply (IH (mkOs lv (Y ⊎ B) pg fa orc) Y).
Qed.

Lemma hold_step_ok base n h h' :
  hold_step h h' -> fds (h_os h) = base ⊎ owned_fds h /\ faults (h_os h) = n ->
  fds (h_os h') = base ⊎ owned_fds h' /\ faults (h_os h') = n.
Proof.
  intros Hst [Hf Hn]. unfold owned_fds in *.
  destruct Hst as [e o es vs lo|T V ? ? t v e o es1 es2 vs lo Ht|v o es vs1 vs2 lo|e o es1 es2 vs lo];
    cbn [h_os h_events h_values h_lost] in *.
  - split; [|done]. cbn [install fds]. rewrite Hf, bagZ_bind, app_nil_r. bagsZ.
  - split; [|done]. rewrite Hf, bagZ_bind, bind_cons, bagZ_app. cbn [av_fds].
    rewrite (take_installed t e v Ht). bagsZ.
  - rewrite bagZ_bind in Hf. destruct v as [T V ? ? v]. cbn [av_drop av_fds] in *. rewrite drop_closes.
    destruct (close_all_bag (fds_of v) o
      (base ⊎ (bagZ (es ≫= installed) ⊎ bagZ ((vs1 ++ vs2) ≫= av_fds) ⊎ bagZ lo))) as [E1 E2].
    { rewrite Hf. bagsZ. }
    split; [exact E1|congruence].
  - split; [|done]. rewrite Hf, bagZ_bind, bagZ_app. bagsZ.
Qed.

Lemma hold_run_ok base n h h' :
  rtc hold_step h h' -> fds (h_os h) = base ⊎ owned_fds h /\ faults (h_os h) = n ->
  fds (h_os h') = base ⊎ owned_fds h' /\ faults (h_os h') = n.
Proof. induction 1; eauto using hold_step_ok. Qed.

(** C9. As long as every event is recorded at most once, each descriptor the
    kernel installs belongs to exactly one value, event, or event thrown away;
    dropping values in any order closes what they own and never a descriptor that
    is not open.  A value owns the descriptor of its own completion, and none when
    that failed. *)
Theorem descriptors_owned_once o0 h :
  rtc hold_step (mkHold o0 [] [] []) h ->
  fds (h_os h) = fds o0 ⊎ owned_fds h /\ faults (h_os h) = faults o0.
Proof.
  assert (fds (h_os (mkHold o0 [] [] [])) = fds o0 ⊎ owned_fds (mkHold o0 [] [] []) /\
    faults (h_os (mkHold o0 [] [] [])) = faults o0) as Hi.
  { split; [|done]. unfold owned_fds. cbn. multiset_solver. }
  intros Hr. by apply (hold_run_ok _ _ _ _ Hr).
Qed.
End Holding.

(** ** A receipt recorded twice *)
Lemma lease_ends c id len h n :
  pool_wf (pool_of c) -> pb_tail_local (pool_of c) = wrap 32 (h + Z.of_nat n) ->
  Z.of_nat n < pb_entries (pool_of c) -> id < pb_entries (pool_of c) ->
  exists c', Multishot.arrival_drop (Multishot.mkArrival c id len) = Some c' /\ pool_wf (pool_of c') /\
    same_pool (pool_of c') (pool_of c) /\ pb_tail_local (pool_of c') = wrap 32 (h + Z.of_nat (S n)) /\
    offered (pool_of c') h (S n) = offered (pool_of c) h n ++ [own_desc (pool_of c) id].
Proof.
  intros Hwf Ht Hn Hid. destruct (recycle_spec id _ h n Hwf Ht Hn Hid) as (p' & Hr & Hw & Hs & Ht' & _ & Ho & _).
  exists (BufferConsumer.mk (commit p')). unfold Multishot.arrival_drop, BufferConsumer.recycle_and_commit, recycle_and_commit.
  cbn [Multishot.a_buf_id Multishot.a_pool]. unfold pool_of in *. rewrite Hr.
  cbn [fmap option_fmap option_map BufferConsumer.inner]. split_and!; try done; [by apply commit_wf|by rewrite commit_offered].
Qed.
Lemma finished_leases (t : Multishot.Recv) r c :
  belongs_to r (Multishot.t_ring t) (Multishot.t_id t) = true -> 0 <= rc_result r ->
  contains (rc_flags r) CqeFlags.BUFFER = true ->
  Multishot.record t (Event.Complete r) c =
    Ok (Multishot.Done (Multishot.mkFinished r
      (Some (Multishot.mkArrival c (as_u16 (rc_flags r >>> 16)) (rc_result r))))).
Proof.
  intros Hb Hr Hf. unfold Multishot.record, Multishot.matches. cbn [Event.belongs_to]. rewrite Hb.
  cbn. unfold Multishot.arrival_claim, cqe_buffer_id. rewrite Hf. by rewrite (proj2 (Z.leb_le _ _) Hr).
Qed.

(** C38. A multishot that is over hands its receipt back ([into_parts]), and an
    event is made of any receipt, so safe code can record it again.  A finished
    accept then owns the last connection a second time: dropping both sockets
    closes the descriptor twice, the second time whatever has been given its
    number.  A finished receive leases the last buffer again, and the second lease
    puts it into the ring a second time. *)
Theorem finished_receipt_replays :
  (forall (t : Accept.Armed) r L (o : Os L) F,
    belongs_to r (Accept.t_ring t) (Accept.t_id t) = true -> 0 <= rc_result r ->
    fds o = F ⊎ {[+ rc_result r +]} -> ~ rc_result r ∈ F ->
    exists d, Accept.record t (Event.Complete r) = Ok (Accept.Done d) /\
      Accept.record t (Event.Complete (fst (Accept.into_parts d))) = Ok (Accept.Done d) /\
      Accept.into_connection (Accept.Done d) = Some (rc_result r) /\
      faults (drop_value (Accept.Done d) (drop_value (Accept.Done d) o)) = S (faults o)) /\
  (forall (t : Multishot.Recv) r c h n,
    belongs_to r (Multishot.t_ring t) (Multishot.t_id t) = true -> 0 <= rc_result r ->
    contains (rc_flags r) CqeFlags.BUFFER = true ->
    as_u16 (rc_flags r >>> 16) < pb_entries (pool_of c) ->
    pool_wf (pool_of c) -> Z.of_nat n + 1 < pb_entries (pool_of c) ->
    pb_tail_local (pool_of c) = wrap 32 (h + Z.of_nat n) ->
    exists d a c1 d' a' c2,
      Multishot.record t (Event.Complete r) c = Ok (Multishot.Done d) /\
      Multishot.into_parts d = (r, Some a) /\ Multishot.arrival_drop a = Some c1 /\
      Multishot.record t (Event.Complete (fst (Multishot.into_parts d))) c1 = Ok (Multishot.Done d') /\
      Multishot.into_parts d' = (r, Some a') /\ Multishot.arrival_drop a' = Some c2 /\
      let again := own_desc (pool_of c) (as_u16 (rc_flags r >>> 16)) in
      offered (pool_of c2) h (S (S n)) = offered (pool_of c) h n ++ [again; again]).
Proof.
  split.
  - intros t r L o F Hb Hr Hf Hn. exists (Accept.mkFinished r (Some (rc_result r))).
    assert (Accept.record t (Event.Complete r) = Ok (Accept.Done (Accept.mkFinished r (Some (rc_result r))))) as E.
    { unfold Accept.record, Accept.matches. cbn [Event.belongs_to]. rewrite Hb. cbn [negb].
      unfold Accept.claim. by rewrite (proj2 (Z.leb_le _ _) Hr). }
    split; [done|]. split; [done|]. split; [done|]. cbn. destruct o as [lv fs pg fa orc]. cbn in Hf. subst fs.
    rewrite close_live. unfold close_fd. cbn [fds]. by rewrite decide_False by done.
  - intros t r c h n Hb Hr Hbuf Hid Hwf Hn Ht.
    destruct (lease_ends c (as_u16 (rc_flags r >>> 16)) (rc_result r) h n Hwf Ht ltac:(lia) Hid)
      as (c1 & Hd1 & Hw1 & Hs1 & Ht1 & Ho1).
    pose proof Hs1 as (_ & E2 & E3 & E4).
    destruct (lease_ends c1 (as_u16 (rc_flags r >>> 16)) (rc_result r) h (S n) Hw1 Ht1 ltac:(lia) ltac:(lia))
      as (c2 & Hd2 & _ & _ & _ & Ho2).
    eexists _, _, c1, _, _, c2. split; [by apply finished_leases|]. split; [done|]. split; [done|].
    split; [by apply finished_leases|]. split; [done|]. split; [done|].
    cbv zeta. rewrite Ho2, Ho1, <- app_assoc. unfold own_desc. by rewrite E3, E4.
Qed.

(** ** Concrete runs *)
Definition listener : Accept.Armed := Accept.mkArmed 7 1 4.
Definition last_accept : Receipt := mkReceipt 7 1 9 0.
Definition fds_os : Os unit := mkOs ∅ {[+ 4 +]} ∅ 0 tt.
(** Two connections, one socket dropped. *)
Definition two_accepted : Hold unit :=
  mkHold (close_fd 8 (install (Event.Complete last_accept)
      (install (Event.Partial (PartialReceipt.mk 7 1 8 2)) fds_os)))
    [] [AnyValue _ _ (Accept.Done (Accept.mkFinished last_accept (Some 9)))] [].
Lemma two_accepted_run : rtc hold_step (mkHold fds_os [] [] []) two_accepted.
Proof.
  eapply rtc_l; [apply (h_reap (Event.Partial (PartialReceipt.mk 7 1 8 2)))|].
  eapply rtc_l; [apply (h_reap (Event.Complete last_accept))|].
  eapply rtc_l.
  { by apply (h_take _ _ listener (Accept.Connection 8) (Event.Partial (PartialReceipt.mk 7 1 8 2)) _ []). }
  eapply rtc_l.
  { by apply (h_take _ _ listener (Accept.Done (Accept.mkFinished last_accept (Some 9)))
      (Event.Complete last_accept) _ []). }
  eapply rtc_l; [apply (h_drop (AnyValue _ _ (Accept.Connection 8)) _ _ [_] [])|]. apply rtc_refl.
Qed.
Lemma descriptors_owned_once_witness :
  fds (h_os two_accepted) = {[+ 4; 9 +]} /\ faults (h_os two_accepted) = 0%nat.
Proof.
  destruct (descriptors_owned_once fds_os two_accepted two_accepted_run) as [Hf Hn].
  split; [|exact Hn]. rewrite Hf. unfold owned_fds. cbn. multiset_solver.
Defined.
Lemma finished_receipt_replays_witness :
  let o := install (Event.Complete last_accept) fds_os in
  (exists d, Accept.record listener (Event.Complete (fst (Accept.into_parts d))) = Ok (Accept.Done d) /\
     faults (drop_value (Accept.Done d) (drop_value (Accept.Done d) o)) = 1%nat) /\
  (exists a c1 a' c2, Multishot.arrival_drop a = Some c1 /\ Multishot.arrival_drop a' = Some c2 /\
     offered (pool_of c2) 2 4 = offered demo_pool 2 2 ++ replicate 2 (own_desc demo_pool 0)).
Proof.
  intros o. destruct finished_receipt_replays as [Ha Hm]. split.
  - destruct (Ha listener last_accept unit o {[+ 4 +]} eq_refl ltac:(vm_compute; congruence)
      ltac:(reflexivity)) as (d & _ & H1 & _ & H2).
    + intros H%gmultiset_elem_of_singleton. discriminate H.
    + exists d. split; [exact H1|exact H2].
  - destruct (Hm (Multishot.mkRecv 7 1 7 5) (mkReceipt 7 1 5 1) (BufferConsumer.mk demo_pool) 2 2%nat
      eq_refl ltac:(vm_compute; congruence) ltac:(reflexivity) ltac:(reflexivity) (proj1 demo_fresh)
      ltac:(reflexivity) ltac:(reflexivity)) as (d & a & c1 & d' & a' & c2 & _ & _ & H1 & _ & _ & H2 & H3).
    exists a, c1, a', c2. split; [exact H1|]. split; [exact H2|]. exact H3.
Defined.
