(* ===== verification/StagedSpec.v ===== *)
(** * Staged storage: the theorems

    What the kernel reads at the address an entry carries: paths are C strings,
    values and addresses are what the request was made with, descriptor arrays
    name each owned buffer within its bounds, and destinations are large
    enough.  Every write stays within the storage the request owns, and the
    statements hold in any later memory that left that storage alone, which is
    what the [StableBuffer] contract gives. *)
From stdpp Require Import base numbers list option.
From Stdlib Require Import ZArith Lia.
From S2P Require Import Prelude Flags Types UserMem RingIndex Sqe SqeFile SqeNet SqeSpec Resources Owned OwnedPath.
From S2P Require Import OwnedDirect OwnedStaged OwnedArrays OwnedMsg.
Local Open Scope Z_scope.
Local Open Scope rust_scope.

(** Later memories: whatever was written meanwhile, it was elsewhere. *)
Definition undisturbed (a n : Z) (m m' : UMem) : Prop :=
  exists b k, only_within b k m m' /\ apart a n b k.
Lemma undisturbed_refl a n m : undisturbed a n m m.
Proof. exists (a + n), 0. split; [apply only_within_refl|]. unfold apart. lia. Qed.
Lemma undisturbed_sub a n b k m m' :
  a <= b -> b + k <= a + n -> undisturbed a n m m' -> undisturbed b k m m'.
Proof. intros ? ? (c & l & ? & Ha). exists c, l. split; [done|]. unfold apart in *. lia. Qed.
Lemma undisturbed_bytes a n m m' :
  undisturbed a (Z.of_nat n) m m' -> read_bytes a n m' = read_bytes a n m.
Proof. intros (b & k & Hw & Ha). by eapply read_bytes_apart. Qed.
Lemma undisturbed_read {T} `{Repr T} a m m' :
  undisturbed a (Z.of_nat (size_of T)) m m' -> ptr_read (T := T) a m' = ptr_read a m.
Proof. intros Hu. unfold ptr_read. by rewrite (undisturbed_bytes _ _ _ _ Hu). Qed.
Lemma undisturbed_array {T} `{ReprLaws T} a n m m' :
  undisturbed a (Z.of_nat (size_of T * n)) m m' -> read_array (T := T) a n m' = read_array a n m.
Proof. intros (b & k & Hw & Ha). by eapply read_array_apart. Qed.

(** ** Paths *)
(** The NUL-terminated string the kernel reads at [a]. *)
Definition c_string (m : UMem) (a : Z) (s : list Z) : Prop :=
  read_bytes a (length s + 1) m = s ++ [0] /\ ~ 0 ∈ s.

Lemma c_string_unique m a s s' : c_string m a s -> c_string m a s' -> s = s'.
Proof.
  assert (forall s s', (length s <= length s')%nat -> c_string m a s -> c_string m a s' -> s = s')
    as Hw.
  { clear. intros s s' Hle [Hs Hz] [Hs' Hz'].
    destruct (decide (length s = length s')) as [E|].
    - rewrite E in Hs. rewrite Hs in Hs'. by apply app_inj_tail in Hs' as [-> _].
    - exfalso. apply Hz'.
      assert (s' !! length s = Some 0) as Hl; [|by eapply list_elem_of_lookup_2].
      rewrite <- (lookup_app_l _ [0]) by lia. rewrite <- Hs'.
      replace (length s' + 1)%nat with ((length s + 1) + (length s' - length s))%nat by lia.
      rewrite read_bytes_app, lookup_app_l by (rewrite read_bytes_length; lia).
      by rewrite Hs, list_lookup_middle by done. }
  intros H1 H2. destruct (decide (length s <= length s')%nat) as [?|Hn]; [by apply Hw|].
  symmetry. apply Hw; [lia|done|done].
Qed.

Section Paths.
  Context {S : Type} `{StableBuffer S}.
  Implicit Types (st : S) (m : UMem).

Lemma existsb_zero path : existsb (Z.eqb 0) path = false <-> ~ 0 ∈ path.
Proof.
  rewrite <- not_true_iff_false, existsb_exists. split; intros Hn Hx; apply Hn.
  - exists 0. split; [by apply list_elem_of_In|done].
  - destruct Hx as (x & Hx & <-%Z.eqb_eq). by apply list_elem_of_In.
Qed.

Lemma copied_string a path m :
  read_bytes a (length path + 1)
    (write_bytes (a + Z.of_nat (length path)) [0] (write_bytes a path m)) = path ++ [0].
Proof.
  rewrite read_bytes_app. f_equal.
  - rewrite (read_bytes_apart _ _ _ _ _ _ (write_bytes_within _ _ _)) by (unfold apart; cbn; lia).
    apply read_write_same.
  - apply read_write_same.
Qed.

Lemma copy_into_ok st path m p m' :
  OwnedPath.copy_into st path m = (Ok p, m') ->
  OwnedPath.storage p = st /\ OwnedPath.len p = Z.of_nat (length path) /\
  path <> [] /\ ~ 0 ∈ path /\ Z.of_nat (length path) + 1 <= stable_len st /\
  c_string m' (path_ptr p) path /\ only_within (stable_ptr st) (stable_len st) m m'.
Proof.
  unfold OwnedPath.copy_into. destruct (Nat.eqb_spec (length path) 0) as [|Hne]; [done|].
  destruct (existsb (Z.eqb 0) path) eqn:Ez; [done|]. apply existsb_zero in Ez.
  destruct (Z.ltb_spec (stable_len st) (Z.of_nat (length path) + 1)) as [|Hl]; [done|].
  intros [= <- <-]. split_and!; try done.
  - by intros ->.
  - split; [apply copied_string|done].
  - eapply only_within_trans.
    + apply (only_within_weaken (stable_ptr st) (Z.of_nat (length path)));
        [lia|lia|apply write_bytes_within].
    + apply (only_within_weaken (stable_ptr st + Z.of_nat (length path)) 1);
        [lia|lia|apply (write_bytes_within _ [0])].
Qed.

Lemma adopt_ok st m p :
  OwnedPath.adopt st m = Ok p ->
  OwnedPath.storage p = st /\ 0 < OwnedPath.len p < stable_len st /\
  c_string m (path_ptr p) (OwnedPath.as_bytes p m).
Proof.
  unfold OwnedPath.adopt. set (bytes := read_bytes _ _ _).
  destruct (list_find (fun b => b = 0) bytes) as [[n b]|] eqn:Ef; [|done].
  apply list_find_Some in Ef as (Hn & -> & Hbefore). cbn.
  destruct n as [|n]; [done|]. intros [= <-].
  pose proof (lookup_lt_Some _ _ _ Hn) as Hlt. unfold bytes in Hlt. rewrite read_bytes_length in Hlt.
  split; [done|]. split; [cbn; lia|].
  unfold OwnedPath.as_bytes, path_ptr. cbn [OwnedPath.storage OwnedPath.len].
  rewrite Nat2Z.id. split.
  - rewrite read_bytes_length, read_bytes_app. f_equal. cbn.
    unfold bytes, read_bytes in Hn. rewrite list_lookup_fmap in Hn.
    rewrite lookup_seq_lt in Hn by lia. injection Hn as Hn. cbn in Hn. by rewrite Z.add_0_r, Hn.
  - intros Hin. apply list_elem_of_lookup in Hin as [i Hi].
    pose proof (lookup_lt_Some _ _ _ Hi) as Hil. rewrite read_bytes_length in Hil.
    apply (Hbefore i 0); [|lia|done]. unfold bytes, read_bytes in *.
    rewrite list_lookup_fmap in *. rewrite lookup_seq_lt in * by lia. done.
Qed.

Lemma adopt_string st m s :
  c_string m (stable_ptr st) s -> s <> [] -> Z.of_nat (length s) + 1 <= stable_len st ->
  OwnedPath.adopt st m = Ok (OwnedPath.mk st (Z.of_nat (length s))).
Proof.
  intros [Hs Hz] Hne Hl. unfold OwnedPath.adopt.
  replace (Z.to_nat (stable_len st))
    with ((length s + 1) + (Z.to_nat (stable_len st) - (length s + 1)))%nat by lia.
  rewrite read_bytes_app, Hs.
  set (rest := read_bytes (_ + _) _ _).
  replace (list_find (fun b => b = 0) ((s ++ [0]) ++ rest)) with (Some (length s, 0)).
  - destruct s; [done|]. done.
  - symmetry. apply list_find_Some. rewrite <- app_assoc. split_and!; [|done|].
    + by rewrite lookup_app_r, Nat.sub_diag by done.
    + intros j y Hy Hlt ->. rewrite lookup_app_l in Hy by done.
      apply Hz. by eapply list_elem_of_lookup_2.
Qed.

Lemma c_string_undisturbed m m' a s n :
  c_string m a s -> Z.of_nat (length s) + 1 <= n -> undisturbed a n m m' -> c_string m' a s.
Proof.
  intros [Hs Hz] Hn Hu. split; [|done]. rewrite (undisturbed_bytes _ _ m); [done|].
  eapply undisturbed_sub; [..|exact Hu]; lia.
Qed.
End Paths.

(** C24. Copying a path into owned storage refuses an empty path, one with an
    interior NUL, and one whose bytes and terminator do not fit, returning the
    storage and leaving memory alone; otherwise it writes only into the storage,
    what the kernel reads at the path's address is the C string with exactly
    those bytes, then and as long as the storage is left alone, and adopting
    that storage finds the same path again. *)
Theorem path_is_c_string {S} `{StableBuffer S} (st : S) path m :
  let '(r, m') := OwnedPath.copy_into st path m in
  match r with
  | Err (st', e) =>
      st' = st /\ m' = m /\
      match e with
      | OwnedPath.Empty => path = []
      | OwnedPath.NotTerminated => path <> [] /\ 0 ∈ path
      | OwnedPath.TooLong needed got =>
          path <> [] /\ ~ 0 ∈ path /\ needed = Z.of_nat (length path) + 1 /\
          got = stable_len st /\ got < needed
      end
  | Ok p =>
      OwnedPath.storage p = st /\ only_within (stable_ptr st) (stable_len st) m m' /\
      OwnedPath.as_bytes p m' = path /\ OwnedPath.adopt st m' = Ok p /\
      forall m2, undisturbed (stable_ptr st) (stable_len st) m' m2 ->
      c_string m2 (path_ptr p) path
  end.
Proof.
  destruct (OwnedPath.copy_into st path m) as [r m'] eqn:E. destruct r as [p|[st' e]].
  - destruct (copy_into_ok _ _ _ _ _ E) as (Hst & Hlen & Hne & Hz & Hfit & Hc & Hw).
    destruct p as [st0 len]. cbn in Hst, Hlen. subst st0 len. split_and!; try done.
    + unfold OwnedPath.as_bytes. cbn. rewrite Nat2Z.id. destruct Hc as [Hc _].
      rewrite read_bytes_app in Hc. apply app_inj_1 in Hc as [Hc _]; [exact Hc|].
      apply read_bytes_length.
    + by apply adopt_string.
    + intros m2 Hu. by eapply c_string_undisturbed.
  - unfold OwnedPath.copy_into in E. destruct (Nat.eqb_spec (length path) 0) as [Hl|Hl].
    { injection E as <- <- <-. split_and!; try done. by apply nil_length_inv. }
    assert (path <> []) as Hne by by intros ->.
    destruct (existsb (Z.eqb 0) path) eqn:Ez.
    { injection E as <- <- <-. split_and!; try done.
      destruct (decide (0 ∈ path)) as [|Hn]; [done|]. apply existsb_zero in Hn. congruence. }
    apply existsb_zero in Ez. destruct (Z.ltb_spec (stable_len st) (Z.of_nat (length path) + 1)).
    + injection E as <- <- <-. done.
    + done.
Qed.

(** Adopting storage that already holds a path takes the bytes before the
    first NUL, which lies within the storage, so the kernel reads that C string
    and never runs past the storage; it refuses exactly storage without a NUL
    and storage that starts with one. *)
Theorem adopted_path_terminates {S} `{StableBuffer S} (st : S) m :
  match OwnedPath.adopt st m with
  | Ok p =>
      OwnedPath.storage p = st /\ 0 < OwnedPath.len p < stable_len st /\
      c_string m (path_ptr p) (OwnedPath.as_bytes p m)
  | Err (st', e) =>
      st' = st /\
      match e with
      | OwnedPath.NotTerminated =>
          forall i, 0 <= i < stable_len st -> m (stable_ptr st + i) <> 0
      | OwnedPath.Empty => 0 < stable_len st /\ m (stable_ptr st) = 0
      | OwnedPath.TooLong _ _ => False
      end
  end.
Proof.
  destruct (OwnedPath.adopt st m) as [p|[st' e]] eqn:E; [by apply adopt_ok|].
  unfold OwnedPath.adopt in E. set (bytes := read_bytes _ _ _) in E.
  destruct (list_find (fun b => b = 0) bytes) as [[n b]|] eqn:Ef; cbn in E.
  - apply list_find_Some in Ef as (Hn & -> & _). destruct n; [|done].
    injection E as <- <-. pose proof (lookup_lt_Some _ _ _ Hn) as Hlt.
    unfold bytes in *. rewrite read_bytes_length in Hlt. split_and!; [done|lia|].
    unfold read_bytes in Hn. rewrite list_lookup_fmap, lookup_seq_lt in Hn by lia.
    injection Hn as Hn. by rewrite Z.add_0_r in Hn.
  - injection E as <- <-. split; [done|]. intros i Hi Hm. apply list_find_None in Ef.
    apply (Forall_lookup_1 _ _ (Z.to_nat i) 0 Ef); [|done]. unfold bytes, read_bytes.
    rewrite list_lookup_fmap, lookup_seq_lt by lia. cbn. rewrite Z2Nat.id by lia. by rewrite Hm.
Qed.

(** ** The kernel's view of an entry

    A [view] is a request as the kernel understands it once it has followed
    the pointers of the entry: path strings, times, addresses, arrays. *)
Inductive view : Set :=
| VUnlink (dir : DirFd.t) (path : list Z) (flags : Z)
| VMkdir (dir : DirFd.t) (path : list Z) (mode : Z)
| VRename (dir : DirFd.t) (path : list Z) (to_dir : DirFd.t) (to : list Z) (flags : Z)
| VSymlink (target : list Z) (dir : DirFd.t) (path : list Z)
| VLink (dir : DirFd.t) (path : list Z) (to_dir : DirFd.t) (to : list Z) (flags : Z)
| VOpen (dir : DirFd.t) (path : list Z) (flags mode slot : Z)
| VOpen2 (dir : DirFd.t) (path : list Z) (how : OpenHow)
| VStatx (dir : DirFd.t) (path : list Z) (flags mask dest : Z)
| VTimeout (t : Timespec) (count flags : Z)
| VEpollCtl (epoll : Z) (op : EpollOp.t) (target : Z) (event : EpollEvent)
| VBind (fd : Z) (addr : SockAddrIn)
| VConnect (fd : Z) (addr : SockAddrIn)
| VFutexWaitv (waiters : list FutexWaitv)
| VFilesUpdate (offset : Z) (fds : list Z)
| VVectored (direction : Direction) (fd offset : Z) (vecs : list IoVec)
| VSend (zero_copy : bool) (fd flags : Z) (name : option SockAddrIn) (vecs : list IoVec)
| VRecv (fd flags : Z) (name : option Z) (vecs : list IoVec).

Section Seen.
  Context {PW : PtrWidth} {TA : TargetArch}.

(** The directory a raw `dfd` names. *)
Definition names_dir (raw : Z) (dir : DirFd.t) : Prop :=
  raw = match dir with DirFd.Cwd => -100 | DirFd.Fd fd => fd end.
Definition reads_array {T} `{Repr T} (m : UMem) (a n : Z) (xs : list T) : Prop :=
  n = Z.of_nat (length xs) /\ read_array a (length xs) m = xs.
(** The header of a message: no control data, and the descriptor array. *)
Definition reads_header (m : UMem) (a : Z) (h : MsgHdr) (vecs : list IoVec) : Prop :=
  ptr_read a m = h /\ reads_array m (msg_iov h) (msg_iovlen h) vecs /\
  msg_control h = 0 /\ msg_controllen h = 0.
Definition sockaddr_size : Z := 16.
Definition reads (m : UMem) (c : call) (v : view) : Prop :=
  match c, v with
  | CUnlinkat dfd p fl, VUnlink dir path flags =>
      names_dir dfd dir /\ c_string m p path /\ fl = flags
  | CMkdirat dfd p md, VMkdir dir path mode =>
      names_dir dfd dir /\ c_string m p path /\ md = mode
  | CRenameat odfd op ndfd np fl, VRename dir path to_dir to flags
  | CLinkat odfd op ndfd np fl, VLink dir path to_dir to flags =>
      names_dir odfd dir /\ c_string m op path /\ names_dir ndfd to_dir /\ c_string m np to /\
      fl = flags
  | CSymlinkat op ndfd np, VSymlink target dir path =>
      c_string m op target /\ names_dir ndfd dir /\ c_string m np path
  | COpenat dfd p fl md sl, VOpen dir path flags mode slot =>
      names_dir dfd dir /\ c_string m p path /\ fl = flags /\ md = mode /\ sl = slot
  | COpenat2 dfd p how size, VOpen2 dir path h =>
      names_dir dfd dir /\ c_string m p path /\ size = Z.of_nat (size_of OpenHow) /\
      ptr_read how m = h
  | CStatx dfd p fl mk buf, VStatx dir path flags mask dest =>
      names_dir dfd dir /\ c_string m p path /\ fl = flags /\ mk = mask /\ buf = dest
  | CTimeout ts n fl, VTimeout t count flags => ptr_read ts m = t /\ n = count /\ fl = flags
  | CEpollCtl ep o f ev, VEpollCtl epoll op target event =>
      ep = epoll /\ o = op /\ f = target /\ ptr_read ev m = event
  | CBind f ad adlen, VBind fd a | CConnect f ad adlen, VConnect fd a =>
      f = fd /\ adlen = sockaddr_size /\ ptr_read ad m = a
  | CFutexWaitv p n, VFutexWaitv ws => reads_array m p n ws
  | CFilesUpdate p n o, VFilesUpdate offset fds => o = offset /\ reads_array m p n fds
  | CReadv f p n o, VVectored Read fd offset vecs
  | CWritev f p n o, VVectored Write fd offset vecs =>
      f = fd /\ o = offset /\ reads_array m p n vecs
  | CSendmsg f p fl, VSend zc fd flags name vecs | CSendmsgZc f p fl, VSend zc fd flags name vecs =>
      zc = match c with CSendmsgZc _ _ _ => true | _ => false end /\ f = fd /\ fl = flags /\
      exists h, reads_header m p h vecs /\
      match name with
      | None => msg_name h = 0 /\ msg_namelen h = 0
      | Some a => msg_namelen h = sockaddr_size /\ ptr_read (msg_name h) m = a
      end
  | CRecvmsg f p fl, VRecv fd flags name vecs =>
      f = fd /\ fl = flags /\ exists h, reads_header m p h vecs /\
      match name with
      | None => msg_name h = 0 /\ msg_namelen h = 0
      | Some a => msg_name h = a /\ msg_namelen h = sockaddr_size
      end
  | _, _ => False
  end.
(** What the kernel takes an entry to ask for, in memory [m]. *)
Definition seen (m : UMem) (s : Sqe) (v : view) : Prop :=
  exists c, decode s = Some c /\ reads m c v.

Lemma seen_build m c d v :
  args_ok c -> reads m c v -> seen m (Modifiers.with_user_data (build c) d) v.
Proof. intros Hc Hr. exists c. by rewrite decode_user_data, decode_build_ok. Qed.

Definition dir_ok (d : DirFd.t) : Prop := match d with DirFd.Cwd => True | DirFd.Fd fd => fd_ok fd end.
Lemma dir_raw d : dir_ok d -> names_dir (DirFd.as_raw d) d /\ in_i 32 (DirFd.as_raw d).
Proof.
  destruct d; cbn; [done|]. intros H. rewrite fd_as_i32 by done. split; [done|].
  unfold fd_ok in H. change (2 ^ 31) with 2147483648 in H. unfold in_i.
  change (2 ^ (32 - 1)) with 2147483648. lia.
Qed.

(** Storage in this address space. *)
Definition storage_ok {S} `{StableBuffer S} (st : S) : Prop :=
  0 <= stable_ptr st /\ 0 <= stable_len st /\ stable_ptr st + stable_len st < 2 ^ usize_bits.
Lemma storage_ptr {S} `{StableBuffer S} (st : S) : storage_ok st -> ptr_ok (stable_ptr st).
Proof. unfold storage_ok, ptr_ok, in_u. lia. Qed.
End Seen.

(** The entry a request of any kind becomes, as the kernel understands it. *)
Definition asks {PW : PtrWidth} {TA : TargetArch} {P T} `{OwnedRequest P T} (m : UMem) (p : P)
  (v : view) : Prop := forall ring id, seen m (fst (into_pending ring id p)) v.

(** Reduces a request to the [call] of its constructor. *)
Ltac as_call c :=
  intros ring id;
  match goal with |- seen _ ?s _ => change s with (Modifiers.with_user_data (build c) id) end;
  apply seen_build; [cbn [args_ok]|cbn [reads]].

(** renameat2(2)'s word for a mode. *)
Definition rename_word (md : Rename.Mode) : Z :=
  match md with Rename.Replace => 0 | Rename.NoReplace => 1 | Rename.Exchange => 2 end.

(** C22. A request over paths asks the kernel for exactly what the caller asked:
    whichever way it was made, the entry decodes to that operation with the
    caller's directories, flags and mode, and its pointers lead to the C strings
    of the owned paths, the source and the destination not exchanged. *)
Theorem path_requests_seen {PW : PtrWidth} {TA : TargetArch} {S T} `{StableBuffer S}
  `{StableBuffer T} m (p : Path S) (q : Path T) a b dir dir' mode flags target :
  dir_ok dir -> dir_ok dir' -> ptr_ok (path_ptr p) -> ptr_ok (path_ptr q) ->
  c_string m (path_ptr p) a -> c_string m (path_ptr q) b -> in_u 32 mode -> in_u 32 flags ->
  asks m (PathOp.unlink_at dir p) (VUnlink dir a 0) /\
  asks m (PathOp.rmdir_at dir p) (VUnlink dir a UnlinkFlags.REMOVEDIR) /\
  asks m (PathOp.mkdir_at dir p mode) (VMkdir dir a mode) /\
  (forall md, asks m (Rename.new dir p dir' q md) (VRename dir a dir' b (rename_word md))) /\
  asks m (Link.symlink_at p dir q) (VSymlink a dir b) /\
  asks m (Link.link_at dir p dir' q flags) (VLink dir a dir' b flags) /\
  asks m (Open.at_ dir p flags mode) (VOpen dir a flags mode 0) /\
  match DirectOpen.at_ dir p flags mode target with
  | Ok r => contains flags OpenFlags.CLOEXEC = false /\
            asks m r (VOpen dir a flags mode (Slot.raw target))
  | Err (p', e) => contains flags OpenFlags.CLOEXEC = true /\ p' = p
  end.
Proof.
  intros Hd Hd' Hp Hq Ha Hb Hm Hf.
  destruct (dir_raw dir Hd) as [Hn Hi], (dir_raw dir' Hd') as [Hn' Hi'].
  split_and!.
  - as_call (CUnlinkat (DirFd.as_raw dir) (path_ptr p) 0); done.
  - as_call (CUnlinkat (DirFd.as_raw dir) (path_ptr p) UnlinkFlags.REMOVEDIR); done.
  - as_call (CMkdirat (DirFd.as_raw dir) (path_ptr p) mode); done.
  - intros md. as_call (CRenameat (DirFd.as_raw dir) (path_ptr p) (DirFd.as_raw dir') (path_ptr q)
      (Rename.mode_flags md)); [split_and!; try done; by destruct md|by destruct md].
  - as_call (CSymlinkat (path_ptr p) (DirFd.as_raw dir) (path_ptr q)); done.
  - as_call (CLinkat (DirFd.as_raw dir) (path_ptr p) (DirFd.as_raw dir') (path_ptr q) flags); done.
  - as_call (COpenat (DirFd.as_raw dir) (path_ptr p) flags mode 0); done.
  - unfold DirectOpen.at_. destruct (contains flags OpenFlags.CLOEXEC); [done|]. split; [done|].
    as_call (COpenat (DirFd.as_raw dir) (path_ptr p) flags mode (Slot.raw target)); [|done].
    split_and!; try done. destruct target; apply as_signed_range; lia.
Qed.

(** A concrete storage: an address and a length. *)
Definition at_len : Type := Z * Z.
#[local] Instance at_len_stable : StableBuffer at_len := { stable_ptr := fst; stable_len := snd }.
Definition mem0 : UMem := fun _ => 0.
(** "a" at 4096 and "b" at 8192. *)
Definition mem_ab : UMem := write_bytes 8192 [98; 0] (write_bytes 4096 [97; 0] mem0).
Definition path_a : Path at_len := OwnedPath.mk (4096, 16) 1.
Definition path_b : Path at_len := OwnedPath.mk (8192, 16) 1.

Lemma path_requests_seen_witness :
  asks mem_ab (Rename.new DirFd.Cwd path_a (DirFd.Fd 5) path_b Rename.Exchange)
    (VRename DirFd.Cwd [97] (DirFd.Fd 5) [98] 2).
Proof.
  refine (proj1 (proj2 (proj2 (proj2 (path_requests_seen mem_ab path_a path_b [97] [98]
    DirFd.Cwd (DirFd.Fd 5) 420 0 Slot.Auto _ _ _ _ _ _ _ _)))) Rename.Exchange);
    try (by repeat split; vm_compute; congruence);
    (split; [reflexivity|by intros ?%list_elem_of_singleton]).
Defined.

(** ** One published value *)
Lemma published_read {T S} `{ReprLaws T} `{StableBuffer S} (st : S) (x : T) m m2 :
  repr_ok x -> Z.of_nat (size_of T) <= stable_len st ->
  undisturbed (stable_ptr st) (stable_len st) (ptr_write (stable_ptr st) x m) m2 ->
  ptr_read (stable_ptr st) m2 = x.
Proof.
  intros Hx Hl Hu. rewrite (undisturbed_read (T := T) _ (ptr_write (stable_ptr st) x m)).
  - by apply ptr_read_write.
  - eapply undisturbed_sub; [..|exact Hu]; lia.
Qed.
Lemma published_within {T S} `{ReprLaws T} `{StableBuffer S} (st : S) (x : T) m :
  Z.of_nat (size_of T) <= stable_len st ->
  only_within (stable_ptr st) (stable_len st) m (ptr_write (stable_ptr st) x m).
Proof. intros Hl. eapply only_within_weaken; [..|apply ptr_write_within]; lia. Qed.

(** The checks every staged structure makes of its storage. *)
Definition fits {S} `{StableBuffer S} (T : Type) `{Repr T} (st : S) : Prop :=
  Z.of_nat (size_of T) <= stable_len st /\ stable_ptr st mod align_of T = 0.

Lemma land_not_flags z k : in_u 32 z -> z &&& not_flags 32 k = Z.ldiff z k.
Proof.
  intros Hz. unfold not_flags. apply Z.bits_inj'. intros n Hn.
  rewrite Z.land_spec, Z.ldiff_spec, wrap_testbit by lia.
  destruct (Z.ltb_spec n 32); cbn [andb].
  - by rewrite Z.lnot_spec by lia.
  - by rewrite (in_u_testbit 32 z n) by (done || lia).
Qed.
Lemma ldiff_ones_zero z n : 0 <= z -> 0 <= n -> Z.ldiff z (Z.ones n) = 0 -> z <= Z.ones n.
Proof.
  intros Hz Hn. rewrite Z.ldiff_ones_r, Z.shiftl_mul_pow2, Z.shiftr_div_pow2, Z.ones_equiv by done.
  intros E. pose proof (Z.div_mod z (2 ^ n)). pose proof (Z.mod_pos_bound z (2 ^ n)). lia.
Qed.

(** The creation flags each mode stands for: open(2). *)
Definition creation_word (md : Openat2.Mode) : Z :=
  match md with
  | Openat2.Existing => 0
  | Openat2.Create _ => OpenFlags.CREAT
  | Openat2.CreateNew _ => OpenFlags.CREAT ||| OpenFlags.EXCL
  | Openat2.Tmpfile _ => OpenFlags.TMPFILE
  end.

(** openat2: a mode with bits outside the permission bits, storage too small
    and misaligned storage are refused in that order, returning the path and the
    storage and touching no memory.  Otherwise only the storage is written, and
    as long as it is left alone the kernel is asked to open the caller's path
    with the caller's flags, the creation flags of the mode, its permission bits
    and the resolve flags, and no others. *)
Theorem openat2_staged {PW : PtrWidth} {TA : TargetArch} {S H} `{StableBuffer S}
  `{StableBuffer H} (path : Path S) (how : H) dir flags mode resolve m :
  dir_ok dir -> ptr_ok (path_ptr path) -> storage_ok how -> in_u 32 flags ->
  in_u 32 (Openat2.mode_bits mode) -> in_u 64 resolve ->
  let '(r, m') := Openat2.at_ dir path flags mode resolve how m in
  match r with
  | Err (path', how', e) =>
      path' = path /\ how' = how /\ m' = m /\
      match e with
      | Openat2.ModeOutsidePermissionBits stray =>
          stray = Z.ldiff (Openat2.mode_bits mode) 4095 /\ stray <> 0
      | Openat2.HowTooSmall needed got =>
          0 <= Openat2.mode_bits mode <= 4095 /\ needed = 24 /\ got = stable_len how /\ got < 24
      | Openat2.HowMisaligned align =>
          0 <= Openat2.mode_bits mode <= 4095 /\ 24 <= stable_len how /\ align = 8 /\
          stable_ptr how mod 8 <> 0
      end
  | Ok p =>
      fits OpenHow how /\ only_within (stable_ptr how) (stable_len how) m m' /\
      0 <= Openat2.mode_bits mode <= 4095 /\
      forall m2 a, undisturbed (stable_ptr how) (stable_len how) m' m2 ->
      c_string m2 (path_ptr path) a ->
      asks m2 p (VOpen2 dir a (mkOpenHow (flags ||| creation_word mode)
                                 (Openat2.mode_bits mode) resolve))
  end.
Proof.
  intros Hd Hp Hs Hf Hm Hr. destruct (dir_raw dir Hd) as [Hn Hi]. unfold Openat2.at_.
  set (bits := Openat2.mode_bits mode) in *.
  rewrite land_not_flags by done. change Openat2.MODE_BITS with 4095.
  destruct (Z.eqb_spec (Z.ldiff bits 4095) 0) as [E|E]; cbn [negb]; [|done].
  assert (0 <= bits <= 4095) as Hb.
  { split; [apply Hm|]. change 4095 with (Z.ones 12) in *. by apply ldiff_ones_zero; [apply Hm|..]. }
  change (Z.of_nat (size_of OpenHow)) with 24. change (align_of OpenHow) with 8.
  destruct (Z.ltb_spec (stable_len how) 24) as [|Hl]; [done|].
  unfold is_multiple_of. destruct (Z.eqb_spec (stable_ptr how mod 8) 0); cbn [negb]; [|done].
  assert (creation_word mode = Openat2.mode_flags mode) as -> by by destruct mode.
  set (h := mkOpenHow (flags ||| Openat2.mode_flags mode) bits resolve).
  assert (repr_ok h) as Hh.
  { split_and!; cbn; [|by apply (in_u_mono 32)|done].
    apply (in_u_mono 32); [lia|]. apply lor_u_bound; [lia|done|].
    destruct mode; split; vm_compute; congruence. }
  split_and!; [by split|by apply (published_within how h)|lia|lia|].
  intros m2 a Hu Hc.
  as_call (COpenat2 (DirFd.as_raw dir) (path_ptr path) (stable_ptr how) Openat2.HOW_SIZE).
  - split_and!; [done|done|by apply storage_ptr|by vm_compute].
  - split_and!; [done|done|done|]. by eapply published_read.
Qed.

Lemma openat2_staged_witness :
  let '(r, m') := Openat2.at_ DirFd.Cwd path_a 2 (Openat2.CreateNew 420) 8 (16384, 24) mem_ab in
  match r with
  | Ok p => asks m' p (VOpen2 DirFd.Cwd [97] (mkOpenHow 194 420 8))
  | Err _ => False
  end.
Proof.
  refine (proj2 (proj2 (proj2 (openat2_staged path_a ((16384, 24) : at_len) DirFd.Cwd 2
    (Openat2.CreateNew 420) 8 mem_ab _ _ _ _ _ _))) _ [97] (undisturbed_refl _ _ _) _);
    try (by repeat split; vm_compute; congruence).
  split; [reflexivity|by intros ?%list_elem_of_singleton].
Defined.

(** The contract of staging in a storage [st] for a request that owns [dep]:
    storage that is too small or misaligned comes back with everything else and
    memory is as it was; otherwise only the storage is written, and while nobody
    else writes there the kernel is asked for [v]. *)
Definition staged_in {PW : PtrWidth} {TA : TargetArch} {S D P T E} `{StableBuffer S}
  `{OwnedRequest P T} (dep : D) (needed align : Z) (small : Z -> Z -> E) (mis : Z -> E) (st : S)
  (m : UMem) (out : result P (D * E) * UMem) (v : view) : Prop :=
  let '(r, m') := out in
  match r with
  | Err (dep', e) =>
      dep' = dep /\ m' = m /\
      (stable_len st < needed /\ e = small needed (stable_len st) \/
       needed <= stable_len st /\ stable_ptr st mod align <> 0 /\ e = mis align)
  | Ok p =>
      needed <= stable_len st /\ stable_ptr st mod align = 0 /\
      only_within (stable_ptr st) (stable_len st) m m' /\
      forall m2, undisturbed (stable_ptr st) (stable_len st) m' m2 -> asks m2 p v
  end.
Notation staged n al small mis st := (staged_in st n al small mis st).

Lemma value_staged {PW : PtrWidth} {TA : TargetArch} {S Op} {VO : Value.ValueOp Op}
  `{StableBuffer S} (ctx : Value.Context_ Op) (st : S) m v :
  ReprLaws (Value.Val Op) -> repr_ok (Value.value ctx) ->
  (forall m2 id, ptr_read (stable_ptr st) m2 = Value.value ctx ->
   seen m2 (Modifiers.with_user_data (Value.build_sqe ctx (stable_ptr st)) id) v) ->
  staged (Z.of_nat (size_of (Value.Val Op))) (align_of (Value.Val Op)) Value.too_small
    Value.misaligned st m (Value.new ctx st m) v.
Proof.
  intros HL Hx Hseen. unfold staged_in, Value.new, is_multiple_of.
  destruct (Z.ltb_spec (stable_len st) (Z.of_nat (size_of (Value.Val Op)))); [split_and!; [done|done|by left]|].
  destruct (Z.eqb_spec (stable_ptr st mod align_of (Value.Val Op)) 0); cbn [negb]; [|split_and!; [done|done|by right]].
  split_and!; [done|done|by apply (published_within st)|].
  intros m2 Hu ring id. apply Hseen. by eapply published_read.
Qed.

(** Timeouts and epoll registrations: the time or the event is staged under
    the contract [staged], so at any later moment the kernel reads the caller's
    duration (or deadline, flagged absolute) with its completion count, or the
    caller's change with its event, for `Del` the ignored zero event. *)
Theorem values_seen {PW : PtrWidth} {TA : TargetArch} {S} `{StableBuffer S} (st : S) m t count
  flags epoll target change :
  storage_ok st -> repr_ok t -> in_u 32 (Timeout.count_raw count) -> in_u 32 flags ->
  fd_ok epoll -> fd_ok target -> repr_ok (EpollCtl.change_event change) ->
  let timed := staged 16 8 Timeout.StoreTooSmall Timeout.StoreMisaligned st m in
  timed (Timeout.build t count flags st m) (VTimeout t (Timeout.count_raw count) flags) /\
  timed (Timeout.after t count st m) (VTimeout t (Timeout.count_raw count) 0) /\
  timed (Timeout.at_ t count st m) (VTimeout t (Timeout.count_raw count) TimeoutFlags.ABS) /\
  staged (Z.of_nat (size_of EpollEvent)) (align_of EpollEvent) EpollCtl.StoreTooSmall
    EpollCtl.StoreMisaligned st m (EpollCtl.new epoll target change st m)
    (VEpollCtl epoll (EpollCtl.change_op change) target (EpollCtl.change_event change)).
Proof.
  intros Hs%storage_ptr Ht Hc Hf Hep Hta Hev. cbv zeta.
  assert (forall fl, in_u 32 fl -> staged 16 8 Timeout.StoreTooSmall Timeout.StoreMisaligned st m
    (Timeout.build t count fl st m) (VTimeout t (Timeout.count_raw count) fl)) as Hb.
  { intros fl Hfl. apply (value_staged (VO := Timeout.timeout_op) (Timeout.mkCtx t count fl));
      [apply timespec_laws|done|]. intros m2 id Hr.
    cbn [Value.build_sqe Timeout.timeout_op Timeout.c_count Timeout.c_flags]. rewrite wrap_small by done.
    apply (seen_build _ (CTimeout (stable_ptr st) (Timeout.count_raw count) fl)); done. }
  split_and!; [by apply Hb|by apply Hb|by apply Hb|].
  apply (value_staged (VO := EpollCtl.epoll_op) (EpollCtl.mkCtx epoll target change));
    [apply epoll_laws|done|]. intros m2 id Hr.
  by apply (seen_build _ (CEpollCtl epoll (EpollCtl.change_op change) target (stable_ptr st))).
Qed.

Lemma values_seen_witness :
  let '(r, m') := Timeout.at_ (mkTimespec 7 500) (Timeout.Completions 3) ((16384, 16) : at_len) mem0 in
  match r with
  | Ok p => asks m' p (VTimeout (mkTimespec 7 500) 3 1)
  | Err _ => False
  end.
Proof.
  refine (proj2 (proj2 (proj2 (proj1 (proj2 (proj2 (values_seen ((16384, 16) : at_len) mem0
    (mkTimespec 7 500) (Timeout.Completions 3) 0 3 4 EpollCtl.Del _ _ _ _ _ _ _)))))) _
    (undisturbed_refl _ _ _)); by repeat split; vm_compute; congruence.
Defined.

(** The address as the kernel reads it: `sin_zero` is published cleared. *)
Definition cleared (a : SockAddrIn) : SockAddrIn :=
  mkSockAddrIn (sin_family a) (sin_port a) (sin_addr a) 0.
Lemma addr_staged {PW : PtrWidth} {TA : TargetArch} {S Op} {AO : Addr.AddrOp Op}
  `{StableBuffer S} (st : S) fd a m v mis :
  repr_ok a ->
  (forall m2 id, ptr_read (stable_ptr st) m2 = cleared a ->
   seen m2 (Modifiers.with_user_data (Addr.build_sqe Op fd (stable_ptr st) 16) id) v) ->
  staged 16 1 (Addr.too_small Op) mis st m (Addr.new Op fd a st m) v.
Proof.
  intros (? & ? & ? & ?) Hseen. unfold staged_in, Addr.new. change Addr.ADDR_LEN with 16.
  destruct (Z.ltb_spec (stable_len st) 16); [split_and!; [done|done|by left]|].
  unfold Addr.publish. cbn [Addr.p_staged Addr.p_addr]. rewrite to_bytes_spec.
  change (write_bytes (stable_ptr st) _ m) with (ptr_write (stable_ptr st) (cleared a) m).
  split_and!; [done|apply Z.mod_1_r|by apply (published_within st)|].
  intros m2 Hu ring id. apply Hseen. eapply published_read; [|done|exact Hu].
  by split_and!.
Qed.

(** bind and connect: sixteen bytes of any alignment are staged under the
    contract [staged], and at any later moment the kernel reads the caller's
    family, port and address there, the padding zero, with the exact length. *)
Theorem addresses_seen {PW : PtrWidth} {TA : TargetArch} {S} `{StableBuffer S} (st : S) m fd a mis
  mis' :
  storage_ok st -> fd_ok fd -> repr_ok a ->
  staged 16 1 Bind.StoreTooSmall mis st m (Bind.new fd a st m) (VBind fd (cleared a)) /\
  staged 16 1 Connect.StoreTooSmall mis' st m (Connect.new fd a st m) (VConnect fd (cleared a)).
Proof.
  intros Hs%storage_ptr Hfd Ha.
  split.
  - apply (addr_staged (AO := Bind.bind_op)); [done|]. intros m2 id Hr.
    by apply (seen_build _ (CBind fd (stable_ptr st) 16)).
  - apply (addr_staged (AO := Connect.connect_op)); [done|]. intros m2 id Hr.
    by apply (seen_build _ (CConnect fd (stable_ptr st) 16)).
Qed.

Lemma addresses_seen_witness :
  let '(r, m') := Connect.new 5 (mkSockAddrIn 2 36895 16777343 9) ((16385, 16) : at_len) mem0 in
  match r with
  | Ok p => asks m' p (VConnect 5 (mkSockAddrIn 2 36895 16777343 0))
  | Err _ => False
  end.
Proof.
  refine (proj2 (proj2 (proj2 (proj2 (addresses_seen ((16385, 16) : at_len) mem0 5
    (mkSockAddrIn 2 36895 16777343 9) (fun _ => Bind.StoreTooSmall 0 0)
    (fun _ => Connect.StoreTooSmall 0 0) _ _ _)))) _ (undisturbed_refl _ _ _));
    by repeat split; vm_compute; congruence.
Defined.

(** ** Arrays *)
Lemma published_array {T S} `{ReprLaws T} `{StableBuffer S} (st : S) (xs : list T) m m2 :
  Forall repr_ok xs -> Z.of_nat (size_of T) * Z.of_nat (length xs) <= stable_len st ->
  undisturbed (stable_ptr st) (stable_len st) (write_array (stable_ptr st) xs m) m2 ->
  reads_array m2 (stable_ptr st) (Z.of_nat (length xs)) xs.
Proof.
  intros Hx Hl Hu. split; [done|].
  rewrite (undisturbed_array _ _ (write_array (stable_ptr st) xs m)).
  - by apply read_write_array.
  - eapply undisturbed_sub; [..|exact Hu]; lia.
Qed.
Lemma array_within {T S} `{ReprLaws T} `{StableBuffer S} (st : S) (xs : list T) m :
  Z.of_nat (size_of T) * Z.of_nat (length xs) <= stable_len st ->
  only_within (stable_ptr st) (stable_len st) m (write_array (stable_ptr st) xs m).
Proof. intros Hl. eapply only_within_weaken; [..|apply write_array_within]; lia. Qed.

(** A table entry as the kernel reads it. *)
Definition entry_fd (e : FilesUpdate.Entry) : Z :=
  match e with FilesUpdate.Install fd => fd | FilesUpdate.Clear => -1 end.
Definition entry_ok (e : FilesUpdate.Entry) : Prop :=
  match e with FilesUpdate.Install fd => fd_ok fd | FilesUpdate.Clear => True end.
Lemma entries_raw es :
  Forall entry_ok es ->
  FilesUpdate.entry_raw <$> es = entry_fd <$> es /\ Forall repr_ok (entry_fd <$> es).
Proof.
  induction 1 as [|e es He _ [IH1 IH2]]; [by split|].
  rewrite !fmap_cons, IH1. destruct e as [fd|]; cbn [entry_fd FilesUpdate.entry_raw] in *.
  - rewrite fd_as_i32 by done. split; [done|]. constructor; [|done].
    unfold entry_ok, fd_ok in He. change (in_i 32 fd). unfold in_i.
    change (2 ^ 31) with 2147483648 in He. change (2 ^ (32 - 1)) with 2147483648. lia.
  - split; [done|]. constructor; [|done]. split; by vm_compute.
Qed.

(** The array requests: no waiters, more than 128 waiters and an empty
    update are refused first; otherwise the array is staged under the contract
    [staged] and at any later moment the kernel reads every element the caller
    gave, in order, with their exact number: each futex waiter with its value,
    address and flags, each table entry as its descriptor or as -1 to clear. *)
Theorem arrays_seen {PW : PtrWidth} {TA : TargetArch} {S} `{StableBuffer S} (st : S) m ws offset
  es :
  storage_ok st -> Forall repr_ok ws -> in_u 32 offset -> Forall entry_ok es ->
  in_u 32 (Z.of_nat (length es)) ->
  let n := Z.of_nat (length ws) in
  (let out := FutexWaitvOp.new ws st m in
   if n =? 0 then out = (Err (st, FutexWaitvOp.NoWaiters), m)
   else if 128 <? n then out = (Err (st, FutexWaitvOp.TooManyWaiters n 128), m)
   else staged (24 * n) 8 FutexWaitvOp.ArrayTooSmall FutexWaitvOp.ArrayMisaligned st m out
          (VFutexWaitv ws)) /\
  (let out := FilesUpdate.at_ offset es st m in
   if Z.of_nat (length es) =? 0 then out = (Err (st, FilesUpdate.Empty), m)
   else staged (4 * Z.of_nat (length es)) 4 FilesUpdate.StoreTooSmall FilesUpdate.StoreMisaligned
          st m out (VFilesUpdate offset (entry_fd <$> es))).
Proof.
  intros Hs%storage_ptr Hw Ho He Hn. cbv zeta. split.
  - unfold FutexWaitvOp.new, is_multiple_of. rewrite Z.gtb_ltb. change FUTEX_WAITV_MAX with 128.
    change (Z.of_nat (size_of FutexWaitv)) with 24. change (align_of FutexWaitv) with 8.
    destruct (Z.eqb_spec (Z.of_nat (length ws)) 0); [done|].
    destruct (Z.ltb_spec 128 (Z.of_nat (length ws))); [done|]. unfold staged_in.
    destruct (Z.ltb_spec (stable_len st) (24 * Z.of_nat (length ws)));
      [split_and!; [done|done|by left]|].
    destruct (Z.eqb_spec (stable_ptr st mod 8) 0); cbn [negb]; [|split_and!; [done|done|by right]].
    split_and!; [done|done|by apply array_within|].
    intros m2 Hu ring id. cbn -[wrap NetOps.futex_waitv_ptr].
    rewrite wrap_small by (unfold in_u; change (2 ^ 32) with 4294967296; lia).
    apply (seen_build _ (CFutexWaitv (stable_ptr st) (Z.of_nat (length ws)))).
    + split; [done|]. unfold in_u. change (2 ^ 32) with 4294967296. lia.
    + by eapply published_array.
  - unfold FilesUpdate.at_, is_multiple_of. change (Z.of_nat (size_of Z)) with 4.
    change (align_of Z) with 4. destruct (Z.eqb_spec (Z.of_nat (length es)) 0); [done|].
    unfold staged_in. destruct (Z.ltb_spec (stable_len st) (4 * Z.of_nat (length es)));
      [split_and!; [done|done|by left]|].
    destruct (Z.eqb_spec (stable_ptr st mod 4) 0); cbn [negb]; [|split_and!; [done|done|by right]].
    destruct (entries_raw es He) as [Hraw Hok]. unfold FilesUpdate.publish.
    cbn [FilesUpdate.p_addr FilesUpdate.p_entries]. rewrite Hraw.
    assert (4 * Z.of_nat (length (entry_fd <$> es)) <= stable_len st) as Hl
      by by rewrite length_fmap.
    split_and!; [done|done|by apply array_within|].
    intros m2 Hu ring id. cbn -[wrap NetOps.files_update_ptr]. unfold FilesUpdate.slots.
    cbn [FilesUpdate.p_entries]. rewrite wrap_small by done.
    apply (seen_build _ (CFilesUpdate (stable_ptr st) (Z.of_nat (length es)) offset)); [done|].
    split; [done|]. rewrite <- (length_fmap entry_fd es). by eapply published_array.
Qed.

Lemma arrays_seen_witness :
  let '(r, m') := FilesUpdate.at_ 3 [FilesUpdate.Install 7; FilesUpdate.Clear]
    ((16384, 8) : at_len) mem0 in
  match r with
  | Ok p => asks m' p (VFilesUpdate 3 [7; -1])
  | Err _ => False
  end.
Proof.
  refine (proj2 (proj2 (proj2 (proj2 (arrays_seen ((16384, 8) : at_len) mem0 [] 3
    [FilesUpdate.Install 7; FilesUpdate.Clear] _ _ _ _ _)))) _ (undisturbed_refl _ _ _));
    repeat first [constructor | by repeat split; vm_compute; congruence].
Defined.

(** ** Destinations *)
(** The memory a call has the kernel transfer to or from. *)
Definition touches `{TargetArch} (c : call) : list (Z * Z) :=
  match c with
  | CRead _ buf len _ | CWrite _ buf len _ | CSendZc _ buf len _ => [(buf, len)]
  | CStatx _ _ _ _ buf => [(buf, Z.of_nat (size_of Statx))]
  | CEpollWait _ events n => [(events, Z.of_nat (size_of EpollEvent) * n)]
  | CPipe fds _ _ => [(fds, 2 * Z.of_nat (size_of Z))]
  | CWaitId _ _ infop _ => if infop =? 0 then [] else [(infop, Z.of_nat (size_of WaitidSiginfo))]
  | _ => []
  end.
Definition within {S} `{StableBuffer S} (st : S) (r : Z * Z) : Prop :=
  0 <= r.2 /\ stable_ptr st <= r.1 /\ r.1 + r.2 <= stable_ptr st + stable_len st.
(** [p] is the request [c], whose transfer stays within the storage [st]. *)
Definition lands {PW : PtrWidth} {TA : TargetArch} {S P T} `{StableBuffer S} `{OwnedRequest P T}
  (st : S) (p : P) (c : call) : Prop :=
  (forall ring id, decode (fst (into_pending ring id p)) = Some c) /\ Forall (within st) (touches c).

Lemma lands_at {PW : PtrWidth} {TA : TargetArch} {S P T} `{StableBuffer S} `{OwnedRequest P T}
  (st : S) (p : P) c n :
  (forall ring id, fst (into_pending ring id p) = Modifiers.with_user_data (build c) id) ->
  args_ok c -> touches c = [(stable_ptr st, n)] -> 0 <= n <= stable_len st -> lands st p c.
Proof.
  intros Hb Hc Ht Hn. split; [intros ring id; by rewrite Hb, decode_user_data, decode_build_ok|].
  rewrite Ht. constructor; [|constructor]. unfold within. cbn. lia.
Qed.

(** The length a transfer asks for: never more than the storage, nor than a
    `u32` holds. *)
Lemma clamp_len_min n : 0 <= n -> clamp_len n = Z.min n 4294967295.
Proof.
  intros Hn. unfold clamp_len. rewrite Z.gtb_ltb. destruct (Z.ltb_spec 4294967295 n); [lia|].
  rewrite wrap_small; [lia|]. unfold in_u. change (2 ^ 32) with 4294967296. lia.
Qed.

(** Transfers stay within the storage the request owns: reads, writes and
    zero-copy sends, shortened by the caller or not, move at most the storage
    and at most [2 ^ 32 - 1] bytes, exactly the lesser of the three. *)
Theorem transfers_in_bounds {PW : PtrWidth} {TA : TargetArch} {S} `{StableBuffer S} (st : S) fd
  offset flags want :
  storage_ok st -> fd_ok fd -> in_u 64 offset -> in_u 32 flags -> in_u 32 want ->
  let most := Z.min (stable_len st) 4294967295 in
  let n := Z.min want most in let a := stable_ptr st in
  lands st (Request.read fd st offset) (CRead fd a most offset) /\
  lands st (Request.with_len want (Request.read fd st offset)) (CRead fd a n offset) /\
  lands st (Request.write fd st offset) (CWrite fd a most offset) /\
  lands st (Request.with_len want (Request.write fd st offset)) (CWrite fd a n offset) /\
  lands st (Zc.send fd st flags) (CSendZc fd a most flags) /\
  lands st (Zc.with_len want (Zc.send fd st flags)) (CSendZc fd a n flags).
Proof.
  intros Hs Hfd Ho Hf Hw. cbv zeta. pose proof (storage_ptr st Hs) as Hp.
  destruct Hs as (_ & Hl & _).
  assert (in_u 32 (Z.min (stable_len st) 4294967295)) as Hm
    by (unfold in_u; change (2 ^ 32) with 4294967296; lia).
  assert (in_u 32 (Z.min want (Z.min (stable_len st) 4294967295))) as Hn by (unfold in_u in *; lia).
  assert (forall B (p : Request.Prepared B), Request.with_len want p = Request.mkPrepared
    (Request.p_buf p) (Request.p_fd p) (Request.p_offset p) (Z.min want (Request.p_len p))
    (Request.p_direction p) (Request.p_addr p)) as HR.
  { intros B [b f o l d a]. unfold Request.with_len. cbn.
    destruct (Z.ltb_spec want l); f_equal; lia. }
  assert (forall B (p : Zc.Prepared B), Zc.with_len want p = Zc.mkPrepared (Zc.p_buf p)
    (Zc.p_fd p) (Z.min want (Zc.p_len p)) (Zc.p_flags p) (Zc.p_addr p)) as HZ.
  { intros B [b f l fl a]. unfold Zc.with_len. cbn. destruct (Z.ltb_spec want l); f_equal; lia. }
  unfold Request.read, Request.write, Zc.send. change Zc.clamp_len with clamp_len.
  rewrite clamp_len_min, !HR, HZ by lia.
  cbn [Request.p_buf Request.p_fd Request.p_offset Request.p_len Request.p_direction
    Request.p_addr Zc.p_buf Zc.p_fd Zc.p_len Zc.p_flags Zc.p_addr].
  unfold in_u in Hw.
  split_and!; (eapply lands_at; [reflexivity|by split_and!|reflexivity|lia]).
Qed.

Lemma transfers_in_bounds_witness :
  lands ((4096, 8192) : at_len) (Request.with_len 100 (Request.read 3 ((4096, 8192) : at_len) 0))
    (CRead 3 4096 100 0).
Proof.
  refine (proj1 (proj2 (transfers_in_bounds ((4096, 8192) : at_len) 3 0 0 100 _ _ _ _ _)));
    by repeat split; vm_compute; congruence.
Defined.

(** The checks of a destination: refused with the storage, or accepted. *)
Definition accepts {P S E} `{StableBuffer S} (needed align : Z) (small : Z -> Z -> E)
  (mis : Z -> E) (st : S) (out : result P (S * E)) (ok : P -> Prop) : Prop :=
  match out with
  | Err (st', e) =>
      st' = st /\
      (stable_len st < needed /\ e = small needed (stable_len st) \/
       needed <= stable_len st /\ stable_ptr st mod align <> 0 /\ e = mis align)
  | Ok p => needed <= stable_len st /\ stable_ptr st mod align = 0 /\ ok p
  end.

(** The destinations the kernel fills are large enough and aligned.  An
    epoll wait, a pipe and a waitid refuse storage that is too small or
    misaligned, giving it back; what they accept, they hand to the kernel with
    its own address, and the kernel's write stays inside: an epoll wait asks for
    as many whole events as fit (at least one, at most [2 ^ 32 - 1]), a pipe for
    two descriptors, a waitid for one siginfo, or nothing at all when it
    discards it. *)
Theorem destinations_in_bounds {PW : PtrWidth} {TA : TargetArch} {S} `{StableBuffer S} (st : S)
  epfd flags idt id opts :
  storage_ok st -> fd_ok epfd -> in_u 32 flags -> in_i 32 id -> in_u 32 opts ->
  let size := Z.of_nat (size_of EpollEvent) in let a := stable_ptr st in
  accepts size (align_of EpollEvent) EpollWait.StoreTooSmall EpollWait.StoreMisaligned st
    (EpollWait.new epfd st) (fun p =>
      let n := Z.min (stable_len st / size) 4294967295 in
      0 < n /\ lands st p (CEpollWait epfd a n)) /\
  accepts 8 4 Pipe.DestTooSmall Pipe.DestMisaligned st (Pipe.new flags st) (fun p =>
    lands st p (CPipe a flags 0)) /\
  accepts 128 4 WaitId.DestTooSmall WaitId.DestMisaligned st (WaitId.new idt id opts st) (fun p =>
    a <> 0 -> lands st p (CWaitId idt id a opts)) /\
  lands st (WaitId.discard (D := S) idt id opts) (CWaitId idt id 0 opts).
Proof.
  intros Hs Hep Hf Hid Ho. cbv zeta. pose proof (storage_ptr st Hs) as Hp.
  destruct Hs as (_ & Hl & _). split_and!.
  - unfold accepts, EpollWait.new, is_multiple_of.
    assert (0 < Z.of_nat (size_of EpollEvent)) as Hsz by (cbn; lia).
    set (size := Z.of_nat (size_of EpollEvent)) in *.
    destruct (Z.ltb_spec (stable_len st) size) as [|Hge]; [split; [done|by left]|].
    destruct (Z.eqb_spec (stable_ptr st mod align_of EpollEvent) 0); cbn [negb];
      [|split; [done|by right]].
    assert (0 < stable_len st / size) as Hq by (apply Z.div_str_pos; lia).
    change (EpollWait.clamp_max_events (stable_len st / size))
      with (clamp_len (stable_len st / size)). rewrite clamp_len_min by lia.
    pose proof (Z.mul_div_le (stable_len st) size Hsz).
    split_and!; [done|done|lia|].
    apply (lands_at _ _ _ (size * Z.min (stable_len st / size) 4294967295)); [done| |done|nia].
    split_and!; [done|done|]. unfold in_u. change (2 ^ 32) with 4294967296. lia.
  - unfold accepts, Pipe.new, is_multiple_of. change Pipe.DEST_LEN with 8.
    change Pipe.DEST_ALIGN with 4.
    destruct (Z.ltb_spec (stable_len st) 8); [split; [done|by left]|].
    destruct (Z.eqb_spec (stable_ptr st mod 4) 0); cbn [negb]; [|split; [done|by right]].
    split_and!; [done|done|]. apply (lands_at _ _ _ 8); [done|by split_and!|done|lia].
  - unfold accepts, WaitId.new, is_multiple_of. change (Z.of_nat (size_of WaitidSiginfo)) with 128.
    change (align_of WaitidSiginfo) with 4.
    destruct (Z.ltb_spec (stable_len st) 128); [split; [done|by left]|].
    destruct (Z.eqb_spec (stable_ptr st mod 4) 0); cbn [negb]; [|split; [done|by right]].
    split_and!; [done|done|]. intros Ha. apply (lands_at _ _ _ 128); [done|by split_and!| |lia].
    cbn [touches]. by destruct (Z.eqb_spec (stable_ptr st) 0).
  - split; [|constructor]. intros ring i. cbn [into_pending waitid_owned].
    rewrite <- (decode_build_ok (CWaitId idt id 0 opts)); [done|].
    split_and!; [done| |done]. split; [done|]. pose proof usize_cases. nia.
Qed.

Lemma destinations_in_bounds_witness :
  match EpollWait.new 4 ((4096, 40) : at_len) with
  | Ok p => lands ((4096, 40) : at_len) p (CEpollWait 4 4096 3)
  | Err _ => False
  end.
Proof.
  refine (proj2 (proj2 (proj2 (proj1 (destinations_in_bounds ((4096, 40) : at_len) 4 0 IdType.All 0 4
    _ _ _ _ _))))); by repeat split; vm_compute; congruence.
Defined.

Lemma top_bit_clear mask : in_u 32 mask -> (mask &&& 2 ^ 31 =? 0) = (mask <? 2 ^ 31).
Proof.
  intros Hm. destruct (Z.ltb_spec mask (2 ^ 31)) as [Hl|Hl].
  - apply Z.eqb_eq, Z.bits_inj'. intros n Hn. rewrite Z.land_spec, Z.pow2_bits_eqb, Z.bits_0 by lia.
    destruct (Z.eqb_spec 31 n) as [<-|]; [|by rewrite andb_false_r].
    rewrite (in_u_testbit 31); [done|lia|]. by split; [apply Hm|].
  - apply Z.eqb_neq. intros E. assert (Z.testbit (mask &&& 2 ^ 31) 31 = false) as Hb
      by (rewrite E; apply Z.bits_0).
    rewrite Z.land_spec, Z.pow2_bits_true, andb_true_r in Hb by lia.
    rewrite Z.testbit_odd, Z.shiftr_div_pow2 in Hb by lia.
    replace (mask / 2 ^ 31) with 1 in Hb; [done|].
    apply (Z.div_unique _ _ _ (mask - 2 ^ 31)); [|lia]. left.
    destruct Hm as [_ Hm]. change (2 ^ 32) with (2 * 2 ^ 31) in Hm. lia.
Qed.

(** statx: the reserved mask bit, a destination too small and a misaligned
    one are refused in that order, and path and destination come back.  What is
    accepted asks for the caller's path, flags and mask, and the kernel's record
    lands within the destination. *)
Theorem statx_staged {PW : PtrWidth} {TA : TargetArch} {S D} `{StableBuffer S} `{StableBuffer D}
  (path : Path S) (dest : D) dir flags mask :
  dir_ok dir -> ptr_ok (path_ptr path) -> storage_ok dest -> in_u 32 flags -> in_u 32 mask ->
  match StatxOp.at_ dir path flags mask dest with
  | Err (path', dest', e) =>
      path' = path /\ dest' = dest /\
      match e with
      | StatxOp.ReservedMaskBit => 2 ^ 31 <= mask
      | StatxOp.DestTooSmall needed got =>
          mask < 2 ^ 31 /\ needed = 256 /\ got = stable_len dest /\ got < 256
      | StatxOp.DestMisaligned align =>
          mask < 2 ^ 31 /\ 256 <= stable_len dest /\ align = 8 /\ stable_ptr dest mod 8 <> 0
      end
  | Ok p =>
      mask < 2 ^ 31 /\ fits Statx dest /\
      lands dest p (CStatx (DirFd.as_raw dir) (path_ptr path) flags mask (stable_ptr dest)) /\
      forall m a, c_string m (path_ptr path) a ->
      asks m p (VStatx dir a flags mask (stable_ptr dest))
  end.
Proof.
  intros Hd Hp Hs Hf Hm. destruct (dir_raw dir Hd) as [Hn Hi]. unfold StatxOp.at_.
  change StatxOp.STATX_RESERVED with (2 ^ 31). rewrite top_bit_clear by done.
  destruct (Z.ltb_spec mask (2 ^ 31)); cbn [negb]; [|done].
  unfold is_multiple_of. change (Z.of_nat (size_of Statx)) with 256.
  change (align_of Statx) with 8.
  destruct (Z.ltb_spec (stable_len dest) 256); [done|].
  destruct (Z.eqb_spec (stable_ptr dest mod 8) 0); cbn [negb]; [|done].
  pose proof (storage_ptr dest Hs) as Hpd. split_and!; [done|by split| |].
  - apply (lands_at _ _ _ 256); [done|by split_and!|done|lia].
  - intros m a Hc.
    by as_call (CStatx (DirFd.as_raw dir) (path_ptr path) flags mask (stable_ptr dest)).
Qed.

Lemma statx_staged_witness :
  match StatxOp.at_ DirFd.Cwd path_a 256 2047 ((4096, 300) : at_len) with
  | Ok p => lands ((4096, 300) : at_len) p (CStatx (-100) 4096 256 2047 4096)
  | Err _ => False
  end.
Proof.
  refine (proj1 (proj2 (proj2 (statx_staged path_a ((4096, 300) : at_len) DirFd.Cwd 256 2047
    _ _ _ _ _)))); by repeat split; vm_compute; congruence.
Defined.

(** What the kernel wrote is what the caller reads back: after a success
    the statx record, the events of an epoll wait, both ends of a pipe and the
    siginfo of a waitid are read from the destination exactly as the kernel
    stored them, as many events as it reported; after a failure nothing is
    read, and nothing is read of a discarded siginfo. *)
Theorem answers_read_back {TA : TargetArch} {S D} (st : D) (path : Path S) m a n x evs r w si :
  repr_ok x -> Forall repr_ok evs -> in_i 32 (Z.of_nat (length evs)) -> repr_ok r -> repr_ok w ->
  repr_ok si -> a <> 0 ->
  let good {A} (z : A) : option A := if n <? 0 then None else Some z in
  let fds := write_array a [r; w] m in
  StatxOp.stat (StatxOp.mkCompleted path st 1 n a) (ptr_write a x m) = good x /\
  EpollWait.events (EpollWait.mkCompleted st 1 (Z.of_nat (length evs)) a) (write_array a evs m) =
    evs /\
  (n < 0 -> EpollWait.events (EpollWait.mkCompleted st 1 n a) m = []) /\
  Pipe.read_fd (Pipe.mkCreated st 1 n a) fds = good r /\
  Pipe.write_fd (Pipe.mkCreated st 1 n a) fds = good w /\
  WaitId.info (WaitId.mkCompleted (Some st) 1 n a) (ptr_write a si m) = good si /\
  WaitId.info (WaitId.mkCompleted (D := D) None 1 n 0) m = None.
Proof.
  intros Hx He Hn Hr Hw Hsi Ha. cbv zeta.
  assert (forall p : UMem, read_array (T := Z) a 2 p =
    [ptr_read (T := Z) a p; ptr_read (T := Z) (a + Z.of_nat (size_of Z)) p]) as Htwo by done.
  assert (Forall repr_ok [r; w]) as Hrw by auto.
  pose proof (read_write_array [r; w] a m Hrw) as Hends. cbn [length] in Hends.
  rewrite Htwo in Hends. split_and!.
  - unfold StatxOp.stat. cbn [StatxOp.d_result StatxOp.d_dest_addr].
    by rewrite ptr_read_write by done.
  - unfold EpollWait.events, EpollWait.count, result_of, from_failed_cqe.
    cbn [EpollWait.d_result EpollWait.d_addr].
    destruct (Z.ltb_spec (Z.of_nat (length evs)) 0); [lia|].
    rewrite wrap_small, Nat2Z.id; [by apply read_write_array|].
    destruct Hn as [_ Hn]. change (2 ^ (32 - 1)) with 2147483648 in Hn. unfold in_u.
    change (2 ^ 32) with 4294967296. lia.
  - intros Hneg. unfold EpollWait.events, EpollWait.count, result_of, from_failed_cqe.
    cbn [EpollWait.d_result]. by destruct (Z.ltb_spec n 0); [|lia].
  - unfold Pipe.read_fd. cbn [Pipe.d_result Pipe.d_addr].
    by apply (f_equal (hd r)) in Hends; cbn [hd] in Hends; rewrite Hends.
  - unfold Pipe.write_fd. cbn [Pipe.d_result Pipe.d_addr].
    by apply (f_equal (fun l => hd r (tl l))) in Hends; cbn [hd tl] in Hends; rewrite Hends.
  - unfold WaitId.info. cbn [WaitId.d_result WaitId.d_dest_addr].
    destruct (Z.eqb_spec a 0); [done|]. rewrite orb_false_r. by rewrite ptr_read_write by done.
  - unfold WaitId.info. cbn [WaitId.d_result WaitId.d_dest_addr]. by rewrite orb_true_r.
Qed.

Lemma answers_read_back_witness :
  EpollWait.events (EpollWait.mkCompleted tt 1 2 4096)
    (write_array 4096 [mkEpollEvent 1 7; mkEpollEvent 4 9] mem0) =
  [mkEpollEvent 1 7; mkEpollEvent 4 9].
Proof.
  refine (proj1 (proj2 (answers_read_back tt path_a mem0 4096 0 statx_zero
    [mkEpollEvent 1 7; mkEpollEvent 4 9] 5 6 siginfo_default _ _ _ _ _ _ _)));
    repeat first [constructor | by repeat split; vm_compute; congruence].
Defined.
