(* ===== verification/MsgSpec.v ===== *)
(** * Scattered buffers and messages: the theorems

    Vectored transfers and messages name several owned buffers through an array
    of descriptors: the array, the header and the address are where the kernel
    looks for them, each descriptor stays within its buffer, and shortening a
    request rewrites the array in place.  Then what a received message reports. *)
From stdpp Require Import base numbers list option.
From Stdlib Require Import ZArith Lia.
From S2P Require Import Prelude Flags Types UserMem RingIndex Sqe SqeFile SqeNet SqeSpec Resources Owned OwnedPath.
From S2P Require Import OwnedStaged OwnedArrays OwnedMsg StagedSpec.
Local Open Scope Z_scope.
Local Open Scope rust_scope.

(** ** Descriptors *)
Section Descriptors.
  Context {PW : PtrWidth} {B : Type} `{StableBuffer B}.
  Implicit Types (bufs : list B) (lens : list Z).

(** Each descriptor lies within its buffer. *)
Definition name_buffers bufs (vs : list IoVec) : Prop :=
  Forall2 (fun b v => within b (iov_base v, iov_len v)) bufs vs.

Lemma descriptors_name bufs lens :
  Forall storage_ok bufs -> Forall2 (fun b l => 0 <= l <= stable_len b) bufs lens ->
  name_buffers bufs (descriptors bufs lens) /\ Forall repr_ok (descriptors bufs lens) /\
  length (descriptors bufs lens) = length bufs.
Proof.
  intros Hb Hl. unfold descriptors, name_buffers.
  induction Hl as [|b l bufs lens Hbl _ IH]; [by repeat constructor|].
  inversion_clear Hb as [|? ? Hok Hrest]. destruct (IH Hrest) as (IH1 & IH2 & IH3).
  destruct Hok as (? & ? & ?). cbn [zip_with length]. split_and!.
  - constructor; [|done]. unfold within. cbn. lia.
  - constructor; [|done]. split; unfold in_u; cbn; lia.
  - by rewrite IH3.
Qed.

Lemma full_lens_ok bufs :
  Forall storage_ok bufs -> Forall2 (fun b l => 0 <= l <= stable_len b) bufs (full_lens bufs).
Proof.
  induction 1 as [|b bufs (? & ? & ?) _ IH]; [constructor|]. constructor; [lia|done].
Qed.
Lemma clamped_lens_ok bufs lens :
  Forall storage_ok bufs -> Forall (Z.le 0) lens -> length lens = length bufs ->
  Forall2 (fun b l => 0 <= l <= stable_len b) bufs (clamped_lens lens bufs).
Proof.
  intros Hb Hl. revert bufs Hb. induction Hl as [|l lens Hl _ IH]; intros [|b bufs] Hb E;
    [constructor|done|done|].
  inversion_clear Hb as [|? ? (? & ? & ?) Hrest]. cbn [clamped_lens zip_with].
  constructor; [lia|]. apply IH; [done|]. by injection E.
Qed.
End Descriptors.

(** The contract of a request over the buffers [bufs] staged in [store]: the
    contract [staged_in], the descriptors being the whole buffers; and shortening
    rewrites only the store, after which they are the lengths asked for, cut to
    the buffers. *)
Definition scattered {PW : PtrWidth} {TA : TargetArch} {B R P T E} `{StableBuffer B}
  `{StableBuffer R} `{OwnedRequest P T} (needed align : Z) (small : Z -> Z -> E) (mis : Z -> E)
  (bufs : list B) (store : R) (m : UMem) (out : result P (list B * R * E) * UMem)
  (shorten : list Z -> P -> UMem -> P * UMem) (v : list IoVec -> view) : Prop :=
  let whole := descriptors bufs (full_lens bufs) in
  name_buffers bufs whole /\
  staged_in (bufs, store) needed align small mis store m out (v whole) /\
  forall p m' lens, out = (Ok p, m') -> length lens = length bufs -> Forall (Z.le 0) lens ->
  let cut := descriptors bufs (clamped_lens lens bufs) in
  let '(p', m'') := shorten lens p m' in
  name_buffers bufs cut /\ only_within (stable_ptr store) (stable_len store) m' m'' /\
  forall m2, undisturbed (stable_ptr store) (stable_len store) m'' m2 -> asks m2 p' (v cut).

(** ** Vectored transfers *)
Section Vectored.
  Context {PW : PtrWidth} {TA : TargetArch} {B V : Type} `{StableBuffer B} `{StableBuffer V}.
  Context (bufs : list B) (vecs : V) (fd offset : Z).
  Hypothesis Hbufs : Forall storage_ok bufs.
  Hypothesis Hvecs : storage_ok vecs.
  Hypothesis Hfd : fd_ok fd.
  Hypothesis Hoff : in_u 64 offset.
  Hypothesis Hnr : in_u 32 (Z.of_nat (length bufs)).

(** With room for the array, the request it is written for. *)
Lemma vectored_asks dir lens m m2 :
  Z.of_nat (size_of IoVec) * Z.of_nat (length bufs) <= stable_len vecs ->
  Forall2 (fun b l => 0 <= l <= stable_len b) bufs lens ->
  let p := Vectored.mkPrepared bufs vecs fd offset dir (stable_ptr vecs) in
  let m' := Vectored.write_array p lens m in
  only_within (stable_ptr vecs) (stable_len vecs) m m' /\
  (undisturbed (stable_ptr vecs) (stable_len vecs) m' m2 ->
   asks m2 p (VVectored dir fd offset (descriptors bufs lens)) /\
   Vectored.total_len p m2 = foldr Z.add 0 lens).
Proof.
  intros Hfit Hl. destruct (descriptors_name bufs lens Hbufs Hl) as (_ & Hok & Hlen). cbv zeta.
  unfold Vectored.write_array. cbn [Vectored.p_array Vectored.p_bufs].
  split; [by apply array_within; rewrite Hlen|]. intros Hu.
  destruct (published_array vecs (descriptors bufs lens) m m2) as [_ Hr];
    [done|by rewrite Hlen|done|].
  split.
  - intros ring id. cbn -[wrap FileOps.readv_ptr FileOps.writev_ptr]. rewrite wrap_small by done.
    assert (reads_array m2 (stable_ptr vecs) (Z.of_nat (length bufs)) (descriptors bufs lens))
      as Ha by by split; [rewrite Hlen|].
    destruct dir.
    + apply (seen_build _ (CReadv fd (stable_ptr vecs) (Z.of_nat (length bufs)) offset)); [|done].
      by pose proof (storage_ptr vecs Hvecs).
    + apply (seen_build _ (CWritev fd (stable_ptr vecs) (Z.of_nat (length bufs)) offset)); [|done].
      by pose proof (storage_ptr vecs Hvecs).
  - unfold Vectored.total_len. cbn [Vectored.p_array Vectored.p_bufs].
    rewrite <- Hlen, Hr. clear -Hl. unfold descriptors.
    induction Hl as [|b l bufs lens _ _ IH]; [done|]. cbn. by rewrite <- IH.
Qed.

Lemma vectored_scattered dir m :
  scattered (Z.of_nat (size_of IoVec) * Z.of_nat (length bufs)) (align_of IoVec)
    Vectored.ArrayTooSmall Vectored.ArrayMisaligned bufs vecs m
    (Vectored.build fd bufs vecs offset dir (full_lens bufs) m) Vectored.with_lens
    (VVectored dir fd offset).
Proof.
  pose proof (full_lens_ok bufs Hbufs) as Hfull. split_and!.
  - by apply descriptors_name.
  - unfold staged_in, Vectored.build, is_multiple_of.
    destruct (Z.ltb_spec (stable_len vecs) (Z.of_nat (size_of IoVec) * Z.of_nat (length bufs)));
      [split_and!; [done|done|by left]|].
    destruct (Z.eqb_spec (stable_ptr vecs mod align_of IoVec) 0); cbn [negb];
      [|split_and!; [done|done|by right]].
    split_and!; [done|done| |].
    + by destruct (vectored_asks dir (full_lens bufs) m m) as [Hw _].
    + intros m2 Hu. by destruct (vectored_asks dir (full_lens bufs) m m2) as [_ [Ha _]].
  - intros p m' lens Hout Hlen Hpos. unfold Vectored.build in Hout. revert Hout.
    destruct (Z.ltb_spec (stable_len vecs) (Z.of_nat (size_of IoVec) * Z.of_nat (length bufs)));
      [done|]. destruct (negb _); [done|]. intros [= <- <-].
    pose proof (clamped_lens_ok bufs lens Hbufs Hpos Hlen) as Hcut.
    unfold Vectored.with_lens. cbn [Vectored.p_bufs]. split_and!.
    + by apply descriptors_name.
    + by eapply (vectored_asks dir).
    + intros m2 Hu. by eapply (vectored_asks dir).
Qed.
End Vectored.

(** Vectored reads and writes meet the contract [scattered]: the kernel is
    asked for a transfer over exactly the caller's buffers, in order and in
    their own bounds, in the given direction at the given offset, and after
    shortening for the lengths asked for, whose sum [total_len] reports. *)
Theorem vectored_seen {PW : PtrWidth} {TA : TargetArch} {B V} `{StableBuffer B} `{StableBuffer V}
  (bufs : list B) (vecs : V) m fd offset :
  Forall storage_ok bufs -> storage_ok vecs -> fd_ok fd -> in_u 64 offset ->
  in_u 32 (Z.of_nat (length bufs)) ->
  let needed := Z.of_nat (size_of IoVec) * Z.of_nat (length bufs) in
  let run out dir := scattered needed (align_of IoVec) Vectored.ArrayTooSmall
    Vectored.ArrayMisaligned bufs vecs m out Vectored.with_lens (VVectored dir fd offset) in
  run (Vectored.readv fd bufs vecs offset m) Read /\
  run (Vectored.writev fd bufs vecs offset m) Write /\
  forall p m' lens, Vectored.readv fd bufs vecs offset m = (Ok p, m') ->
  length lens = length bufs -> Forall (Z.le 0) lens ->
  let '(p', m'') := Vectored.with_lens lens p m' in
  Vectored.total_len p' m'' = foldr Z.add 0 (clamped_lens lens bufs).
Proof.
  intros Hb Hv Hfd Ho Hn. cbv zeta. split_and!; [by apply vectored_scattered..|].
  intros p m' lens Hout Hlen Hpos. unfold Vectored.readv, Vectored.build in Hout. revert Hout.
  destruct (Z.ltb_spec (stable_len vecs) (Z.of_nat (size_of IoVec) * Z.of_nat (length bufs)));
    [done|]. destruct (negb _); [done|]. intros [= <- <-].
  eapply (vectored_asks bufs vecs fd offset Hb Hv Hfd Ho Hn Read); [done| |apply undisturbed_refl].
  by apply clamped_lens_ok.
Qed.

#[local] Existing Instance at_len_stable.
Definition two_bufs : list at_len := [(4096, 64); (8192, 16)].
Lemma two_bufs_ok : Forall storage_ok two_bufs.
Proof. repeat constructor; vm_compute; congruence. Qed.

Lemma vectored_seen_witness :
  scattered 32 8 Vectored.ArrayTooSmall Vectored.ArrayMisaligned two_bufs ((16384, 32) : at_len)
    mem0 (Vectored.readv 5 two_bufs ((16384, 32) : at_len) 0 mem0) Vectored.with_lens
    (VVectored Read 5 0).
Proof.
  refine (proj1 (vectored_seen two_bufs ((16384, 32) : at_len) mem0 5 0 two_bufs_ok _ _ _ _));
    by repeat split; vm_compute; congruence.
Defined.

(** ** Messages *)
Section Message.
  Context {PW : PtrWidth} {TA : TargetArch} {R : Type} `{StableBuffer R}.
  Implicit Types (r : Region.t R) (vs : list IoVec) (m : UMem).

Lemma region_sizes : (size_of MsgHdr = 7 * ptr_bytes)%nat /\ (size_of IoVec = 2 * ptr_bytes)%nat /\
  (0 < ptr_bytes)%nat.
Proof. split_and!; [done|done|]. destruct ptr_bytes_cases as [[-> _]|[-> _]]; lia. Qed.

(** A region staged in [store]: its three parts follow each other inside. *)
Definition region_in r (store : R) (n : nat) : Prop :=
  Region.store r = store /\ Region.count r = Z.of_nat n /\ (n <= 1024)%nat /\
  Region.hdr r = stable_ptr store /\
  Region.vecs r = Region.hdr r + Z.of_nat (size_of MsgHdr) /\
  Region.name r = Region.vecs r + Z.of_nat (size_of IoVec * n) /\
  Region.name r + 16 <= stable_ptr store + stable_len store.

Lemma stage_spec store n :
  match Region.stage store (Z.of_nat n) with
  | Ok r => Z.of_nat n <= 1024 /\ Region.bytes_for (Z.of_nat n) <= stable_len store /\
            stable_ptr store mod align_of MsgHdr = 0 /\ region_in r store n
  | Err (store', e) =>
      store' = store /\
      (1024 < Z.of_nat n /\ e = Region.TooManyDescriptors (Z.of_nat n) 1024 \/
       Z.of_nat n <= 1024 /\
       (stable_len store < Region.bytes_for (Z.of_nat n) /\
        e = Region.RegionTooSmall (Region.bytes_for (Z.of_nat n)) (stable_len store) \/
        Region.bytes_for (Z.of_nat n) <= stable_len store /\
        stable_ptr store mod align_of MsgHdr <> 0 /\
        e = Region.RegionMisaligned (align_of MsgHdr)))
  end.
Proof.
  unfold Region.stage, is_multiple_of. rewrite Z.gtb_ltb. change Region.MAX_IOV with 1024.
  destruct (Z.ltb_spec 1024 (Z.of_nat n)); [by split; [|left]|].
  destruct (Z.ltb_spec (stable_len store) (Region.bytes_for (Z.of_nat n))).
  { split; [done|]. right. split; [done|by left]. }
  destruct (Z.eqb_spec (stable_ptr store mod align_of MsgHdr) 0); cbn [negb].
  - split_and!; try done. unfold region_in. cbn [Region.store Region.count Region.hdr Region.vecs
      Region.name]. unfold Region.bytes_for, Region.name_offset in *.
    change (Z.of_nat (size_of SockAddrIn)) with 16 in *. split_and!; try done; lia.
  - split; [done|]. right. split; [done|by right].
Qed.

Lemma write_from_array r vs : forall i m,
  Region.write_from r i vs m = write_array (Region.vecs r + Z.of_nat (size_of IoVec) * Z.of_nat i) vs m.
Proof.
  induction vs as [|[b l] vs IH]; intros i m; [done|]. cbn [Region.write_from write_array].
  rewrite IH. unfold Region.write_descriptor. cbn [iov_base iov_len]. f_equal. lia.
Qed.

(** What the region says, as the kernel reads it. *)
Definition message_in m r named vs (name : option SockAddrIn) : Prop :=
  ptr_read (Region.hdr r) m = Region.header_of r named /\
  read_array (Region.vecs r) (length vs) m = vs /\
  match name with Some a => ptr_read (Region.name r) m = a | None => True end.

Lemma message_undisturbed m m' r store named vs name :
  region_in r store (length vs) -> undisturbed (stable_ptr store) (stable_len store) m m' ->
  message_in m r named vs name -> message_in m' r named vs name.
Proof.
  intros (_ & _ & _ & Hh & Hv & Hn & Hend) Hu (H1 & H2 & H3). rewrite Hv, Hh in Hn.
  split_and!.
  - rewrite <- H1. apply undisturbed_read. eapply undisturbed_sub; [..|exact Hu]; lia.
  - rewrite <- H2 at 2. apply undisturbed_array. eapply undisturbed_sub; [..|exact Hu]; lia.
  - destruct name as [a|]; [|done]. rewrite <- H3. apply undisturbed_read.
    change (Z.of_nat (size_of SockAddrIn)) with 16. eapply undisturbed_sub; [..|exact Hu]; lia.
Qed.

(** Writing the descriptors leaves the header and the name as they were. *)
Lemma message_descriptors m r store named vs vs' name :
  region_in r store (length vs) -> length vs' = length vs -> Forall repr_ok vs' ->
  message_in m r named vs name ->
  let m' := Region.write_from r 0 vs' m in
  message_in m' r named vs' name /\ only_within (stable_ptr store) (stable_len store) m m'.
Proof.
  intros (_ & _ & _ & Hh & Hv & Hn & Hend) Hlen Hok (H1 & H2 & H3). cbv zeta.
  rewrite write_from_array, Z.mul_0_r, Z.add_0_r.
  pose proof (write_array_within vs' (Region.vecs r) m) as Hw. rewrite Hlen in Hw.
  split.
  - split_and!.
    + rewrite <- H1. eapply ptr_read_apart; [exact Hw|]. unfold apart. lia.
    + by apply read_write_array.
    + destruct name as [a|]; [|done]. rewrite <- H3. eapply ptr_read_apart; [exact Hw|].
      unfold apart. lia.
  - eapply only_within_weaken; [..|exact Hw]; lia.
Qed.

Lemma header_ok r store n named :
  storage_ok store -> region_in r store n -> repr_ok (Region.header_of r named).
Proof.
  intros (? & ? & ?) (_ & Hc & ? & Hh & Hv & Hn & Hend). destruct region_sizes as (Hs1 & Hs2 & _).
  unfold Region.header_of. rewrite Hc.
  assert (0 <= Region.vecs r < 2 ^ usize_bits /\ 0 <= Region.name r < 2 ^ usize_bits) as [? ?]
    by (split; lia).
  assert (1024 < 2 ^ 32 <= 2 ^ usize_bits) as [? ?] by by destruct usize_cases as [-> | ->].
  split_and!; cbn; try (unfold in_u; destruct named; lia); try by destruct named.
  all: unfold in_u, in_i; try lia.
Qed.

Definition is_named (name : option SockAddrIn) : bool := match name with Some _ => true | None => false end.
Definition publish_message r (name : option SockAddrIn) m : UMem :=
  Region.publish_header r (is_named name)
    (match name with Some a => Region.write_name r a m | None => m end).

Lemma message_published m r store vs name :
  storage_ok store -> region_in r store (length vs) -> Forall repr_ok vs ->
  match name with Some a => repr_ok a | None => True end ->
  let m' := publish_message r name (Region.write_from r 0 vs m) in
  message_in m' r (is_named name) vs name /\ only_within (stable_ptr store) (stable_len store) m m'.
Proof.
  intros Hs Hr Hok Hname. pose proof (header_ok r store _ (is_named name) Hs Hr) as Hhok.
  destruct Hr as (_ & _ & _ & Hh & Hv & Hn & Hend). cbv zeta.
  unfold publish_message, Region.publish_header. rewrite write_from_array, Z.mul_0_r, Z.add_0_r.
  set (m1 := write_array (Region.vecs r) vs m).
  set (m2 := match name with Some a => Region.write_name r a m1 | None => m1 end).
  pose proof (write_array_within vs (Region.vecs r) m) as Hw1. fold m1 in Hw1.
  assert (only_within (Region.name r) 16 m1 m2) as Hw2.
  { destruct name as [a|]; [|apply only_within_refl].
    exact (ptr_write_within (T := SockAddrIn) (Region.name r) a m1). }
  pose proof (ptr_write_within (Region.hdr r) (Region.header_of r (is_named name)) m2) as Hw3.
  split; [split_and!|].
  - by apply ptr_read_write.
  - rewrite (read_array_apart _ _ _ _ _ _ Hw3) by (unfold apart; lia).
    rewrite (read_array_apart _ _ _ _ _ _ Hw2) by (unfold apart; lia). by apply read_write_array.
  - destruct name as [a|]; [|done]. rewrite (ptr_read_apart _ _ _ _ _ Hw3)
      by (unfold apart; change (Z.of_nat (size_of SockAddrIn)) with 16; lia).
    by apply ptr_read_write.
  - eapply only_within_trans; [eapply only_within_weaken; [..|exact Hw1]; lia|].
    eapply only_within_trans; [eapply only_within_weaken; [..|exact Hw2]; lia|].
    eapply only_within_weaken; [..|exact Hw3]; lia.
Qed.

Lemma message_reads m r store vs name :
  region_in r store (length vs) -> message_in m r (is_named name) vs name ->
  reads_header m (Region.hdr r) (Region.header_of r (is_named name)) vs /\
  match name with
  | None => msg_name (Region.header_of r (is_named name)) = 0 /\
            msg_namelen (Region.header_of r (is_named name)) = 0
  | Some a => msg_name (Region.header_of r (is_named name)) = Region.name r /\
              msg_namelen (Region.header_of r (is_named name)) = sockaddr_size /\
              ptr_read (Region.name r) m = a
  end.
Proof.
  intros (_ & Hc & _) (H1 & H2 & H3). split.
  - split_and!; try done.
  - by destruct name.
Qed.
End Message.

(** The contract of the message kinds: too many buffers are refused first. *)
Definition message_staged {PW : PtrWidth} {TA : TargetArch} {B R P T} `{StableBuffer B}
  `{StableBuffer R} `{OwnedRequest P T} (bufs : list B) (store : R) (m : UMem)
  (out : result P (list B * R * Region.MsgRegionError) * UMem)
  (shorten : list Z -> P -> UMem -> P * UMem) (v : list IoVec -> view) : Prop :=
  let n := Z.of_nat (length bufs) in
  if 1024 <? n then out = (Err (bufs, store, Region.TooManyDescriptors n 1024), m)
  else scattered (Region.bytes_for n) (align_of MsgHdr) Region.RegionTooSmall
         Region.RegionMisaligned bufs store m out shorten v.

(** The three kinds differ in the request they make of the region. *)
Lemma region_staged {PW : PtrWidth} {TA : TargetArch} {B R P T} `{StableBuffer B}
  `{StableBuffer R} `{OwnedRequest P T} (bufs : list B) (store : R) m (make : Region.t R -> P) name
  (shorten : list Z -> P -> UMem -> P * UMem) v :
  Forall storage_ok bufs -> storage_ok store ->
  match name with Some a => repr_ok a | None => True end ->
  (forall r lens m, shorten lens (make r) m =
     (make r, Region.write_from r 0 (descriptors bufs (clamped_lens lens bufs)) m)) ->
  (forall r m2 vs, length vs = length bufs -> region_in r store (length vs) ->
     message_in m2 r (is_named name) vs name -> asks m2 (make r) (v vs)) ->
  message_staged bufs store m
    (match Region.stage store (Z.of_nat (length bufs)) with
     | Err (s, e) => (Err (bufs, s, e), m)
     | Ok r => (Ok (make r), publish_message r name
                  (Region.write_from r 0 (descriptors bufs (full_lens bufs)) m))
     end) shorten v.
Proof.
  intros Hb Hs Hname Hsh Hasks. unfold message_staged.
  destruct (descriptors_name bufs (full_lens bufs) Hb (full_lens_ok bufs Hb)) as (Hin & Hok & Hlen).
  pose proof (stage_spec store (length bufs)) as Hst.
  destruct (Region.stage store (Z.of_nat (length bufs))) as [r|[s e]].
  2:{ destruct Hst as [-> Hst]. destruct (Z.ltb_spec 1024 (Z.of_nat (length bufs))).
    { destruct Hst as [[_ ->]|[? _]]; [done|lia]. }
    destruct Hst as [[? _]|[_ Hst]]; [lia|]. split; [done|]. split; [|done].
    split_and!; [done|done|]. by destruct Hst as [[? ->]|(? & ? & ->)]; [left|right]. }
  destruct Hst as (Hn & Hfit & Hal & Hr). destruct (Z.ltb_spec 1024 (Z.of_nat (length bufs))); [lia|].
  assert (region_in r store (length (descriptors bufs (full_lens bufs)))) as Hr' by by rewrite Hlen.
  destruct (message_published m r store _ name Hs Hr' Hok Hname) as [Hm Hw].
  split; [done|]. split; [split_and!; [done|done|done|]|].
  - intros m2 Hu. apply Hasks; [done|done|]. by eapply message_undisturbed.
  - intros p m' lens [= <- <-] Hl Hpos. rewrite Hsh.
    destruct (descriptors_name bufs (clamped_lens lens bufs) Hb (clamped_lens_ok bufs lens Hb Hpos Hl))
      as (Hcin & Hcok & Hclen).
    assert (region_in r store (length (descriptors bufs (clamped_lens lens bufs)))) as Hr2
      by by rewrite Hclen.
    destruct (message_descriptors _ r store _ _ (descriptors bufs (clamped_lens lens bufs)) name Hr'
      ltac:(by rewrite Hclen) Hcok Hm) as [Hm2 Hw2].
    split_and!; [done|done|]. intros m2 Hu. apply Hasks; [done|done|]. by eapply message_undisturbed.
Qed.

(** The address a send names. *)
Definition target_name (t : Sendmsg.Target) : option SockAddrIn :=
  match t with Sendmsg.To a => Some a | Sendmsg.Connected => None end.
(** Where a receive leaves room for the sender's address. *)
Definition peer_name {PW : PtrWidth} {R} `{StableBuffer R} (w : Recvmsg.PeerWanted) (store : R)
  (n : Z) : option Z :=
  match w with Recvmsg.Yes => Some (stable_ptr store + Region.name_offset n) | Recvmsg.No => None end.

(** C23. Messages meet the contract [message_staged]: more than 1024 buffers, a
    region too small and a misaligned one are refused in that order with
    everything returned; otherwise the header, the descriptors and the address
    are staged inside the region without overlapping, and as long as it is left
    alone the kernel is asked to send exactly the caller's buffers to the address
    given (or none), zero-copy or not, or to receive into them with room for
    the sender's address exactly when it is wanted. *)
Theorem messages_seen {PW : PtrWidth} {TA : TargetArch} {B R} `{StableBuffer B} `{StableBuffer R}
  (bufs : list B) (region : R) m fd target flags peer :
  Forall storage_ok bufs -> storage_ok region -> fd_ok fd -> in_u 32 flags ->
  match target with Sendmsg.To a => repr_ok a | Sendmsg.Connected => True end ->
  message_staged bufs region m (Sendmsg.new fd bufs region target flags m) Sendmsg.with_lens
    (VSend false fd flags (target_name target)) /\
  message_staged bufs region m (SendmsgZc.new fd bufs region target flags m) SendmsgZc.with_lens
    (VSend true fd flags (target_name target)) /\
  message_staged bufs region m (Recvmsg.new fd bufs region peer flags m) Recvmsg.with_lens
    (VRecv fd flags (peer_name peer region (Z.of_nat (length bufs)))).
Proof.
  intros Hb Hs Hfd Hf Ht.
  assert (forall r vs, region_in r region vs -> ptr_ok (Region.hdr r)) as Hp.
  { intros r vs (_ & _ & _ & -> & _). by apply storage_ptr. }
  split_and!; [destruct target as [|a]..|destruct peer].
  - refine (region_staged bufs region m (fun r => Sendmsg.mkPrepared bufs r fd flags _) None _ _
      Hb Hs Ht _ _); [done|]. intros r m2 vs _ Hr Hm ring id.
    apply (seen_build _ (CSendmsg fd (Region.hdr r) flags)); [by split_and!; [|eapply Hp|]|].
    split_and!; [done..|]. eexists. by apply (message_reads m2 r region vs None).
  - refine (region_staged bufs region m (fun r => Sendmsg.mkPrepared bufs r fd flags _) (Some a) _ _
      Hb Hs Ht _ _); [done|]. intros r m2 vs _ Hr Hm ring id.
    apply (seen_build _ (CSendmsg fd (Region.hdr r) flags)); [by split_and!; [|eapply Hp|]|].
    destruct (message_reads m2 r region vs (Some a) Hr Hm) as (Hh & Hn & ? & Ha).
    split_and!; [done..|]. eexists. split; [exact Hh|]. by rewrite Hn.
  - refine (region_staged bufs region m (fun r => SendmsgZc.mkPrepared bufs r fd flags _) None _ _
      Hb Hs Ht _ _); [done|]. intros r m2 vs _ Hr Hm ring id.
    apply (seen_build _ (CSendmsgZc fd (Region.hdr r) flags)); [by split_and!; [|eapply Hp|]|].
    split_and!; [done..|]. eexists. by apply (message_reads m2 r region vs None).
  - refine (region_staged bufs region m (fun r => SendmsgZc.mkPrepared bufs r fd flags _) (Some a)
      _ _ Hb Hs Ht _ _); [done|]. intros r m2 vs _ Hr Hm ring id.
    apply (seen_build _ (CSendmsgZc fd (Region.hdr r) flags)); [by split_and!; [|eapply Hp|]|].
    destruct (message_reads m2 r region vs (Some a) Hr Hm) as (Hh & Hn & ? & Ha).
    split_and!; [done..|]. eexists. split; [exact Hh|]. by rewrite Hn.
  - refine (region_staged bufs region m (fun r => Recvmsg.mkPrepared bufs r fd flags _) None _ _
      Hb Hs _ _ _); [done|done|]. intros r m2 vs _ Hr Hm ring id.
    apply (seen_build _ (CRecvmsg fd (Region.hdr r) flags)); [by split_and!; [|eapply Hp|]|].
    split_and!; [done..|]. eexists. by apply (message_reads m2 r region vs None).
  - refine (region_staged bufs region m (fun r => Recvmsg.mkPrepared bufs r fd flags _)
      (Some sockaddr_default) _ _ Hb Hs _ _ _); [by split_and!|done|].
    intros r m2 vs Hlen Hr Hm ring id.
    apply (seen_build _ (CRecvmsg fd (Region.hdr r) flags)); [by split_and!; [|eapply Hp|]|].
    destruct (message_reads m2 r region vs _ Hr Hm) as (Hh & Hn & ? & _).
    split_and!; [done..|]. eexists. split; [exact Hh|]. split; [|done]. rewrite Hn.
    destruct Hr as (_ & _ & _ & Hhd & Hv & Hnm & _). rewrite Hnm, Hv, Hhd, Hlen.
    unfold Region.name_offset. lia.
Qed.

Lemma messages_seen_witness :
  message_staged two_bufs ((16384, 104) : at_len) mem0
    (SendmsgZc.new 5 two_bufs ((16384, 104) : at_len) (Sendmsg.To (mkSockAddrIn 2 80 1 0)) 64 mem0)
    SendmsgZc.with_lens (VSend true 5 64 (Some (mkSockAddrIn 2 80 1 0))).
Proof.
  refine (proj1 (proj2 (messages_seen two_bufs ((16384, 104) : at_len) mem0 5
    (Sendmsg.To (mkSockAddrIn 2 80 1 0)) 64 Recvmsg.No two_bufs_ok _ _ _ _)));
    by repeat split; vm_compute; congruence.
Defined.

(** A finished recvmsg reports what the kernel stored: when the kernel has
    written the sender's address [a], its length [n] and the message flags [f]
    into the region, a success reports the byte count and those flags, and the
    sender is `V4` exactly when it was wanted, the length is a whole IPv4 address
    and its family is AF_INET; nothing when it was not wanted or not given,
    truncated when it was longer than the room, and otherwise its family and
    length.  A failure reports the error and no sender. *)
Theorem recvmsg_reports {PW : PtrWidth} {TA : TargetArch} {B R} `{StableBuffer R}
  (d : Recvmsg.Completed B R) (store : R) k h m a n f :
  storage_ok store -> region_in (Recvmsg.d_region d) store k ->
  repr_ok h -> repr_ok a -> in_u 32 n -> in_i 32 f -> in_i 32 (Recvmsg.d_result d) ->
  let r := Recvmsg.d_region d in
  let h' := mkMsgHdr (msg_name h) n (msg_iov h) (msg_iovlen h) (msg_control h) (msg_controllen h) f in
  let m' := ptr_write (Region.name r) a (ptr_write (Region.hdr r) h' m) in
  let res := Recvmsg.d_result d in
  Recvmsg.received d m' =
    (if res <? 0 then Err (Completion_ (Failed (neg_i32 res)))
     else Ok (Recvmsg.mkReceived res (as_u32 f))) /\
  Recvmsg.peer d m' =
    (if (res <? 0) || match Recvmsg.d_wanted d with Recvmsg.No => true | Recvmsg.Yes => false end
     then Recvmsg.NoPeer
     else if n =? 0 then Recvmsg.NoPeer
     else if 16 <? n then Recvmsg.Truncated n 16
     else if (n =? 16) && (sin_family a =? 2) then Recvmsg.V4 a
     else Recvmsg.Other (sin_family a) n).
Proof.
  intros Hs Hr Hh Ha Hn Hf Hres. cbv zeta.
  destruct Hr as (_ & _ & _ & Hhd & Hv & Hnm & Hend).
  set (h' := mkMsgHdr _ n _ _ _ _ f). set (r := Recvmsg.d_region d) in *.
  set (m' := ptr_write (Region.name r) a _).
  assert (Region.header r m' = h') as Hheader.
  { unfold Region.header, m'.
    rewrite (ptr_read_apart _ _ _ _ _ (ptr_write_within (T := SockAddrIn) _ _ _))
      by (unfold apart; lia).
    apply ptr_read_write. destruct Hh as (? & ? & ? & ? & ? & ? & ?). by split_and!. }
  assert (Region.staged_name r m' = a) as Hstaged by by apply (ptr_read_write (T := SockAddrIn)).
  split.
  - unfold Recvmsg.received, Recvmsg.header, from_failed_cqe. fold r. rewrite Hheader.
    destruct (Z.ltb_spec (Recvmsg.d_result d) 0); [done|].
    rewrite (wrap_small 32 (Recvmsg.d_result d)); [done|]. destruct Hres as [_ Hres].
    change (2 ^ (32 - 1)) with 2147483648 in Hres. unfold in_u. change (2 ^ 32) with 4294967296. lia.
  - unfold Recvmsg.peer, Recvmsg.header, Recvmsg.failed. fold r. rewrite Hheader, Hstaged.
    change Recvmsg.RESERVED_NAME_LEN with 16. change Recvmsg.AF_INET_FAMILY with 2.
    cbn [msg_namelen h']. rewrite Z.gtb_ltb.
    destruct (_ || _); [done|]. destruct (n =? 0); [done|].
    destruct (Z.ltb_spec 16 n); [done|]. destruct (Z.ltb_spec n 16), (Z.eqb_spec n 16); try lia;
      cbn [orb andb]; [done|]. by destruct (sin_family a =? 2).
Qed.

Lemma recvmsg_reports_witness :
  match Region.stage ((16384, 104) : at_len) 2 with
  | Ok r =>
      let d := Recvmsg.mkCompleted two_bufs r 512 Recvmsg.Yes in
      let m := ptr_write (Region.name r) (mkSockAddrIn 2 80 1 0)
        (ptr_write (Region.hdr r) (mkMsgHdr 16472 16 16440 2 0 0 32) mem0) in
      Recvmsg.peer d m = Recvmsg.V4 (mkSockAddrIn 2 80 1 0)
  | Err _ => False
  end.
Proof.
  set (r := Region.mk ((16384, 104) : at_len) 16384 16440 16472 2).
  refine (proj2 (recvmsg_reports (Recvmsg.mkCompleted two_bufs r 512 Recvmsg.Yes)
    ((16384, 104) : at_len) 2 (mkMsgHdr 16472 16 16440 2 0 0 0) mem0 (mkSockAddrIn 2 80 1 0) 16 32
    _ _ _ _ _ _ _)); repeat split; vm_compute; try congruence.
  lia.
Defined.
