(* ===== verification/OutcomeSpec.v ===== *)
(** * Outcomes and slots: the theorems

    How the result word of a completion is classified by each request kind, and
    that a direct request reports the very slot of the file table the kernel
    filled. *)
From stdpp Require Import base numbers list option.
From Stdlib Require Import ZArith Lia.
From S2P Require Import Prelude Flags Types UserMem Sqe SqeFile SqeNet SqeSpec Resources Owned OwnedPath.
From S2P Require Import OwnedDirect OwnedStaged OwnedArrays StagedSpec.
Local Open Scope Z_scope.
Local Open Scope rust_scope.

(** ** Result words *)
(** The failure an outcome stands for; 0 for a success. *)
Definition bind_raw (o : Bind.Outcome) : Z :=
  match o with
  | Bind.Bound => 0
  | Bind.AddressInUse => -98
  | Bind.AlreadyBound => -22
  | Bind.PermissionDenied => -13
  | Bind.Failed e => - e
  end.
Definition connect_raw (o : Connect.Outcome) : Z :=
  match o with
  | Connect.Connected => 0
  | Connect.ConnectionRefused => -111
  | Connect.AlreadyConnected => -106
  | Connect.TimedOut => -110
  | Connect.NetworkUnreachable => -101
  | Connect.Failed e => - e
  end.
Definition expiry_raw (o : Timeout.Expiry) : Z :=
  match o with
  | Timeout.Expired => -62
  | Timeout.CountReached => 0
  | Timeout.Cancelled => -125
  | Timeout.Failed e => - e
  end.
Definition epoll_raw (o : EpollCtl.Outcome) : Z :=
  match o with
  | EpollCtl.Applied => 0
  | EpollCtl.AlreadyRegistered => -17
  | EpollCtl.NotRegistered => -2
  | EpollCtl.Failed e => - e
  end.
Definition cancel_raw (o : Cancel.Outcome) : Z :=
  match o with
  | Cancel.Applied _ => 0
  | Cancel.NotFound => -2
  | Cancel.AlreadyCompleting => -114
  | Cancel.OutcomeFailed e => - e
  end.
Definition wait_raw (o : FutexWait.Outcome) : Z :=
  match o with
  | FutexWait.Woken => 0
  | FutexWait.ValueMismatch => -11
  | FutexWait.Cancelled => -125
  | FutexWait.Failed e => - e
  end.
Definition update_raw (o : FilesUpdate.Update) : Z :=
  match o with FilesUpdate.Failed e => - e | _ => 0 end.

Lemma neg_errno r : in_i 32 r -> - 2 ^ 31 < r -> neg_i32 r = - r.
Proof.
  intros [? Hr] ?. unfold neg_i32. apply as_signed_small; [lia|]. unfold in_i.
  change (2 ^ (32 - 1)) with (2 ^ 31) in *. lia.
Qed.

(** Walks a classifier's tests. *)
Ltac classify :=
  repeat match goal with
  | |- context [?a =? ?b] => destruct (Z.eqb_spec a b)
  | |- context [?a <? ?b] => destruct (Z.ltb_spec a b)
  end; cbn; rewrite ?neg_errno by done; try lia.

(** C32. Every classifier is faithful to the completion's result word.  A
    negative result (other than `i32::MIN`, which no error is) is classified as
    a failure from which the error is recovered exactly, whether it is one the
    kind names or any other; and a success is never taken for a failure, nor a
    failure for a success.  A files update also tells how many slots were
    installed, and whether that is all of them. *)
Theorem outcomes_faithful r n :
  in_i 32 r -> - 2 ^ 31 < r -> in_u 32 n ->
  (r < 0 ->
   bind_raw (Bind.outcome_from_raw r) = r /\ connect_raw (Connect.outcome_from_raw r) = r /\
   expiry_raw (Timeout.expiry_from_raw r) = r /\ epoll_raw (EpollCtl.outcome_from_raw r) = r /\
   cancel_raw (Cancel.outcome_from_raw r) = r /\ wait_raw (FutexWait.outcome_from_raw r) = r /\
   update_raw (FilesUpdate.update_from_raw r n) = r /\
   FilesUpdate.installed (FilesUpdate.update_from_raw r n) = 0) /\
  (0 <= r ->
   Bind.outcome_from_raw r = Bind.Bound /\ Connect.outcome_from_raw r = Connect.Connected /\
   Timeout.expiry_from_raw r = Timeout.CountReached /\
   EpollCtl.outcome_from_raw r = EpollCtl.Applied /\
   Cancel.outcome_from_raw r = Cancel.Applied r /\
   FilesUpdate.update_from_raw r n =
     (if n <=? r then FilesUpdate.All n else FilesUpdate.Partial r n)) /\
  (FutexWait.outcome_from_raw r = FutexWait.Woken <-> r = 0) /\
  (Bind.is_bound (Bind.outcome_from_raw r) = true <-> 0 <= r) /\
  (Connect.is_connected (Connect.outcome_from_raw r) = true <-> 0 <= r) /\
  (EpollCtl.is_applied (EpollCtl.outcome_from_raw r) = true <-> 0 <= r) /\
  (FilesUpdate.is_complete (FilesUpdate.update_from_raw r n) = true <-> 0 <= r /\ n <= r).
Proof.
  intros Hr Hmin Hn.
  assert (0 <= r -> as_u32 r = r) as Hu.
  { intros. apply wrap_small. destruct Hr as [_ Hr]. unfold in_u.
    change (2 ^ (32 - 1)) with 2147483648 in Hr. change (2 ^ 32) with 4294967296. lia. }
  unfold Bind.outcome_from_raw, Connect.outcome_from_raw, Timeout.expiry_from_raw,
    EpollCtl.outcome_from_raw, Cancel.outcome_from_raw, FutexWait.outcome_from_raw,
    FilesUpdate.update_from_raw, Bind.EADDRINUSE, Bind.EINVAL, Bind.EACCES, Connect.ECONNREFUSED,
    Connect.EISCONN, Connect.ETIMEDOUT, Connect.ENETUNREACH, Timeout.EXPIRED, Timeout.CANCELLED,
    EpollCtl.EEXIST, EpollCtl.ENOENT, FutexWait.EAGAIN, FutexWait.ECANCELED.
  rewrite Z.geb_leb. split_and!.
  - intros Hneg. split_and!; classify.
  - intros Hpos. rewrite Hu by done.
    split_and!; classify; done.
  - split; [|by intros ->]. classify; done.
  - split; classify; done.
  - split; classify; done.
  - split; classify; done.
  - destruct (Z.ltb_spec r 0) as [|Hpos]; [split; [done|lia]|]. rewrite Hu by done.
    destruct (Z.leb_spec n r); cbn; split; done || lia.
Qed.

Lemma outcomes_faithful_witness :
  connect_raw (Connect.outcome_from_raw (-115)) = -115 /\
  FilesUpdate.update_from_raw 3 5 = FilesUpdate.Partial 3 5.
Proof.
  split.
  - refine (proj1 (proj2 (proj1 (outcomes_faithful (-115) 0 _ _ _) _)));
      try reflexivity; split; vm_compute; congruence.
  - refine (proj2 (proj2 (proj2 (proj2 (proj2 (proj1 (proj2 (outcomes_faithful 3 5 _ _ _)) _))))));
      try lia; split; vm_compute; congruence.
Defined.

(** ** Slots of the file table *)
(** The kernel's reading of a `file_index`: 0 asks for a plain descriptor, all
    ones for any free slot (the kernel picks [free]), and anything else for the
    slot before it. *)
Definition kernel_slot (file_index free : Z) : option Z :=
  if file_index =? 0 then None
  else if file_index =? 2 ^ 32 - 1 then Some free
  else Some (file_index - 1).
(** A target the crate can build. *)
Definition target_ok (t : Slot.Target) : Prop :=
  match t with Slot.Auto => True | Slot.Exact s => Slot.index_new s = Some s /\ 0 <= s end.
(** What the kernel answers: the slot it allocated, or 0 for one that was named. *)
Definition slot_answer (t : Slot.Target) (slot : Z) : Z :=
  match t with Slot.Auto => slot | Slot.Exact _ => 0 end.

Lemma index_new_spec index : Slot.index_new index = if index <? 2 ^ 32 - 2 then Some index else None.
Proof.
  unfold Slot.index_new, Slot.MAX. rewrite Z.gtb_ltb. change (2 ^ 32 - 2) with 4294967294.
  destruct (Z.ltb_spec (4294967295 - 2) index), (Z.ltb_spec index 4294967294); done || lia.
Qed.

Lemma target_slot t free :
  target_ok t -> 0 <= free < 2 ^ 31 ->
  exists slot, kernel_slot (as_u32 (Slot.raw t)) free = Some slot /\
  (t = Slot.Auto -> slot = free) /\ (forall s, t = Slot.Exact s -> slot = s) /\
  forall r, r = slot_answer t slot -> Slot.resolve t r = Some slot.
Proof.
  change (2 ^ 31) with 2147483648. intros Ht Hfree. destruct t as [|s]; cbn [Slot.raw].
  - exists free. split_and!; try done. cbn [slot_answer]. intros r ->. unfold Slot.resolve.
    destruct (Z.ltb_spec free 0); [lia|].
    rewrite wrap_small by (unfold in_u; change (2 ^ 32) with 4294967296; lia).
    rewrite index_new_spec. change (2 ^ 32 - 2) with 4294967294.
    by destruct (Z.ltb_spec free 4294967294); [|lia].
  - destruct Ht as [Hs Hpos]. rewrite index_new_spec in Hs.
    change (2 ^ 32 - 2) with 4294967294 in Hs. destruct (Z.ltb_spec s 4294967294); [|done].
    exists s. split_and!; try done; [|by intros ? [= ->]].
    rewrite wrap_as_signed by lia.
    rewrite wrap_small by (unfold in_u; change (2 ^ 32) with 4294967296; lia).
    unfold kernel_slot. change (2 ^ 32 - 1) with 4294967295.
    destruct (Z.eqb_spec (s + 1) 0); [lia|]. destruct (Z.eqb_spec (s + 1) 4294967295); [lia|].
    f_equal. lia.
Qed.

(** A direct request always fills a slot of the file table and reports that
    very slot.  `SlotIndex::new` admits exactly the indices below [2 ^ 32 - 2],
    so the encoded `file_index` of a target is never 0 and only `Auto` asks for
    allocation; whatever slot the kernel fills is the one resolved from its
    answer, for direct opens and direct sockets alike, and a failure resolves to
    none. *)
Theorem direct_slot_agrees {S} (p : DirectOpen.Pending S) (q : DirectSocket.Pending) t free index ring
  id rc :
  target_ok t -> 0 <= free < 2 ^ 31 -> in_u 32 index ->
  DirectOpen.t_target p = t -> DirectOpen.t_ring p = ring -> DirectOpen.t_id p = id ->
  DirectSocket.t_target q = t -> DirectSocket.t_ring q = ring -> DirectSocket.t_id q = id ->
  belongs_to rc ring id = true ->
  (Slot.index_new index = if index <? 2 ^ 32 - 2 then Some index else None) /\
  exists slot, kernel_slot (as_u32 (Slot.raw t)) free = Some slot /\
  (t = Slot.Auto -> slot = free) /\ (forall s, t = Slot.Exact s -> slot = s) /\
  let reported := if rc_result rc <? 0 then None else Some (Slot.mkDirectSlot slot ring) in
  (rc_result rc < 0 \/ rc_result rc = slot_answer t slot ->
   (exists d, DirectOpen.redeem p rc = Ok d /\ DirectOpen.d_slot d = reported) /\
   (exists d, DirectSocket.redeem q rc = Ok d /\ DirectSocket.d_slot d = reported)).
Proof.
  intros Ht Hfree Hidx Hp Hpr Hpi Hq Hqr Hqi Hrc.
  assert (DirectOpen.matches p rc = true) as Hmp by (unfold DirectOpen.matches; by rewrite Hpr, Hpi).
  assert (DirectSocket.matches q rc = true) as Hmq by (unfold DirectSocket.matches; by rewrite Hqr, Hqi).
  split; [apply index_new_spec|].
  destruct (target_slot t free Ht Hfree) as (slot & Hk & Ha & He & Hres).
  exists slot. split_and!; [done|done|done|]. cbv zeta. intros Hans.
  unfold DirectOpen.redeem, DirectSocket.redeem. rewrite Hmp, Hmq, Hp, Hq, Hpr, Hqr. cbn [negb].
  destruct (Z.ltb_spec (rc_result rc) 0) as [|Hpos]; [by split; eexists|].
  destruct Hans as [|Hans]; [lia|]. rewrite Hres by done. by split; eexists.
Qed.

Lemma direct_slot_agrees_witness :
  let p := DirectOpen.mkPending path_a 7 3 DirFd.Cwd 0 0 Slot.Auto 4096 in
  exists d, DirectOpen.redeem p (mkReceipt 7 3 5 0) = Ok d /\
            DirectOpen.d_slot d = Some (Slot.mkDirectSlot 5 7).
Proof.
  destruct (direct_slot_agrees (DirectOpen.mkPending path_a 7 3 DirFd.Cwd 0 0 Slot.Auto 4096)
    (DirectSocket.mkPending 7 3 Slot.Auto) Slot.Auto 5 0 7 3 (mkReceipt 7 3 5 0)) as (_ & s & _ & Ha & _ & H);
    try reflexivity; try lia; try (split; vm_compute; congruence).
  rewrite (Ha eq_refl) in H. exact (proj1 (H (or_intror eq_refl))).
Defined.
