(* ===== verification/Lifecycle.v ===== *)
(** * The life of an owned request, end to end

    The composition of the staging theorems ([StagedSpec], [MsgSpec]), the owned
    queue ([OwnedSpec]) and the ring ([RingSpec]): from the request the caller
    made, through the entry the kernel reads, to the storage and the result the
    caller gets back. *)
From stdpp Require Import base numbers list option.
From Stdlib Require Import ZArith Lia.
From S2P Require Import Prelude Flags Types UserMem RingIndex Sqe SqeFile SqeNet SqeSpec Kernel Ring RingSpec.
From S2P Require Import Resources Owned OwnedPath OwnedDirect OwnedStaged OwnedArrays OwnedMsg OwnedQueue.
From S2P Require Import OwnedSpec StagedSpec.
Local Open Scope Z_scope.
Local Open Scope rust_scope.

Section Life.
  Context {K : Type} {PW : PtrWidth} {TA : TargetArch}.
  Context {P T D B : Type} `{CustodyLaws P T D B} `{!OwnedRequestLaws P T}.

(** The shared rings once the submission half has published its tail. *)
Definition published_mem (s : Sys OwnedSubmitter.t K) : Shm :=
  mem (snd (Submitter.flush_sq_tail (mkSys (OwnedSubmitter.inner (hd s)) (mem s) (kern s)))).

(** Everything queued is published, and what the kernel then takes is the queue's
    front, in order. *)
Lemma published_queue (s : Sys OwnedSubmitter.t K) h t l n :
  sub_at s h t l -> (n <= length (queued s))%nat ->
  Z.of_nat n <= sq_visible (published_mem s) /\
  consumed_sqes n (published_mem s) = take n (queued s).
Proof.
  intros Hs Hn. unfold sub_at, queued in *. destruct (flush_sq_at _ _ _ _ _ _ Hs) as (Hs' & Hq & _).
  change (published_mem s) with (set_sq_ktail (Submitter.sq_tail_local (OwnedSubmitter.inner (hd s))) (mem s)).
  assert (Z.of_nat n <= l - h) as Hb.
  { rewrite (sq_queue_at _ _ _ _ _ _ Hs), window_length in Hn.
    destruct (sqa_order _ _ _ _ _ _ Hs). lia. }
  rewrite (sq_visible_at _ _ _ _ _ _ Hs'). split; [done|].
  destruct (kernel_consume_at _ _ _ _ _ _ n Hs' Hb) as (_ & -> & _). by rewrite Hq.
Qed.

(** What the next completion [c] does to the holder of [ticket]: more to come, its
    own answer with the storage, or another request's receipt, which is refused
    and handed back with the ticket. *)
Definition settles (ticket : T) (deposited : B) (c : Cqe) (ev : option Event.t) : Prop :=
  match ev with
  | None => False
  | Some (Event.Partial _) => terminal c = false
  | Some (Event.Complete r) =>
      terminal c = true /\
      if cqe_user_data c =? ticket_id ticket
      then exists d, redeem_with ticket r = Ok d /\ withdraw d = deposited /\ reported d = cqe_res c
      else redeem_with ticket r = Err (ticket, r)
  end.
Lemma event_settles ticket deposited ring c :
  held ticket = deposited -> ticket_ring ticket = ring ->
  settles ticket deposited c (Some (event_of ring c)).
Proof.
  intros Hh Hr. unfold settles, event_of, terminal. destruct (contains _ _); [done|].
  split; [done|].
  pose proof (redeem_spec ticket (mkReceipt ring (cqe_user_data c) (cqe_res c) (cqe_flags c))) as Hs.
  unfold belongs_to in Hs. cbn [rc_id rc_ring rc_result] in Hs. rewrite Hr, Z.eqb_refl, andb_true_r in Hs.
  destruct (redeem_with ticket _) as [d|e]; destruct Hs as [-> Hs].
  - exists d. rewrite <- Hh. by destruct Hs.
  - by rewrite Hs.
Qed.

(** C3. End to end: a request of any kind that asks the kernel for [v] is either
    refused whole, exactly when the queue is full, or queued behind what was
    queued; once published, the kernel takes the queue's entries in order, and in
    the request's own it reads [v], as long as the storage is left alone.  And
    whatever completion the caller reaps next, it either announces more, or is
    the request's own answer, which gives back the very storage deposited with
    the result the kernel posted, or is another's, which leaves ticket and
    receipt as they were. *)
Theorem request_round_trip (p : P) (v : view) (um : UMem) (s : Sys OwnedSubmitter.t K) h t l :
  sub_at s h t l -> asks um p v ->
  match OwnedSubmitter.push p s with
  | (Err (p', e), s') =>
      p' = p /\ e = Submit QueueFull /\ queued s' = queued s /\
      l - h = Submitter.sq_mask (OwnedSubmitter.inner (hd s)) + 1
  | (Ok ticket, s') => exists e,
      queued s' = queued s ++ [e] /\ seen um e v /\
      (let n := length (queued s') in
       Z.of_nat n <= sq_visible (published_mem s') /\
       consumed_sqes n (published_mem s') = queued s ++ [e]) /\
      forall (cs : Sys OwnedCompleter.t K) k ch ct c rest,
        com_at cs k ch ct -> OwnedCompleter.ring (hd cs) = OwnedSubmitter.ring (hd s) ->
        completions cs = c :: rest ->
        let '(ev, cs') := OwnedCompleter.reap_event cs in
        completions cs' = rest /\ settles ticket (deposit p) c ev
  end.
Proof.
  intros Hs Hv. pose proof (owned_push_effect p s h t l Hs) as Hp.
  pose proof (sqa_cap _ _ _ _ _ _ Hs) as Hcap.
  destruct (OwnedSubmitter.push p s) as [[ticket|[p' err]] s'].
  - destruct Hp as (_ & _ & _ & Hs' & _ & _ & _ & _ & Hi & Hr & e & Hq & Hu & He).
    exists e. split; [done|].
    pose proof (Hv (OwnedSubmitter.ring (hd s)) (next_id s)) as Hseen.
    pose proof (held_deposit (OwnedSubmitter.ring (hd s)) (next_id s) p) as Hheld.
    rewrite <- He in Hseen, Hheld. cbn [fst snd] in Hseen, Hheld. split; [done|]. split.
    + cbv zeta. destruct (published_queue s' _ _ _ (length (queued s')) Hs' (le_n _)) as [Hn Hc].
      split; [done|]. by rewrite Hc, take_ge, Hq.
    + intros cs k ch ct c rest Hc Hring Hcs.
      pose proof (reap_event_effect cs k ch ct Hc) as Hre.
      destruct (OwnedCompleter.reap_event cs) as [ev cs'].
      rewrite Hcs in Hre. destruct Hre as (_ & _ & _ & -> & Hrest & _). split; [done|].
      apply event_settles; [done|]. by rewrite Hr, Hring.
  - destruct Hp as (_ & _ & _ & _ & _ & _ & _ & Hroom%Z.ltb_ge & -> & -> & Hq & _).
    split_and!; try done. lia.
Qed.
End Life.

#[local] Existing Instance at_len_stable.
(** A rename, answered with success after another request's completion. *)
Definition life_rename : Rename.Prepared at_len at_len :=
  Rename.new DirFd.Cwd path_a (DirFd.Fd 5) path_b Rename.Exchange.
Definition life_completions : Sys OwnedCompleter.t unit :=
  mkSys own_com (kernel_post [mkCqe 9 4 0; mkCqe 1 0 0] own_mem) tt.
Lemma life_com_at : com_at life_completions 0 0 2.
Proof. split; try (done || lia). exists 3. split_and!; done || lia. Qed.
Lemma life_asks : asks mem_ab life_rename (VRename DirFd.Cwd [97] (DirFd.Fd 5) [98] 2).
Proof.
  as_call (CRenameat (-100) 4096 5 8192 2).
  - split_and!; try (split; vm_compute; congruence).
  - split_and!; try done; (split; [reflexivity|by intros ?%list_elem_of_singleton]).
Qed.
Lemma request_round_trip_witness :
  exists ticket s' e, OwnedSubmitter.push life_rename (sub_sys own_world) = (Ok ticket, s') /\
    queued s' = [e] /\ seen mem_ab e (VRename DirFd.Cwd [97] (DirFd.Fd 5) [98] 2) /\
    settles ticket (path_a, path_b) (mkCqe 9 4 0) (fst (OwnedCompleter.reap_event life_completions)).
Proof.
  pose proof (request_round_trip life_rename _ mem_ab (sub_sys own_world) 0 0 0 own_sub_at life_asks) as H.
  destruct (OwnedSubmitter.push life_rename (sub_sys own_world)) as [[ticket|[p' err]] s'] eqn:E;
    [|by vm_compute in E].
  destruct H as (e & Hq & Hseen & _ & Hc). exists ticket, s', e.
  split; [done|]. split; [exact Hq|]. split; [exact Hseen|].
  specialize (Hc life_completions 0 0 2 (mkCqe 9 4 0) [mkCqe 1 0 0] life_com_at eq_refl eq_refl).
  destruct (OwnedCompleter.reap_event life_completions) as [ev cs']. exact (proj2 Hc).
Defined.
