(* ===== verification/Miri.v ===== *)
(** * A machine for the owned lifecycle (owned/miri.rs)

    owned/miri.rs runs the requests under an interpreter that stops at any access
    to memory that is not allocated: heap storage stands in for the mapped
    buffers, and a stand-in kernel reaches it through nothing but the entry it was
    given.  This is that harness: [Machine], whose heap is the [Os] of [Resources],
    [HeapBuffer] and [FakeKernel].  An access outside a live block, a misaligned
    one, or a release of what is not live ends a run with [Undefined], a failed
    assertion with [Panicked]; the library's own accesses are checked by [lib].  [MiriIo], [MiriPaths] and [MiriStaged] are the tests,
    and [MiriTests] says that they pass. *)
From stdpp Require Import base numbers list option gmap gmultiset.
From Stdlib Require Import ZArith Lia.
From Stdlib Require String Ascii.
From S2P Require Import Prelude Flags Types UserMem Sqe Resources Layout Pbuf.
From S2P Require Import Owned OwnedPath OwnedDirect OwnedStaged OwnedArrays OwnedMsg OwnedMemory.
Local Open Scope Z_scope.
Local Open Scope rust_scope.

(** ** The machine *)
(** Why a run ends early. *)
Inductive Stop : Set := Undefined | Panicked.
(** The allocator's next address, and the alignment each block was asked for. *)
Record Heap : Type := mkHeap { brk : Z; aligns : gmap Z Z }.
(** The bytes; the live blocks; the identities handed out by the current
    [Lifecycle], whose counter is a cell; and the counter of ring identities. *)
Record Machine : Type := mkMachine {
  bytes : UMem; os : Os Heap; ids : RequestIdSource.t; rings : Z
}.
Notation Run R := (M Machine Stop R).
Definition set_bytes (b : UMem) (m : Machine) : Machine := mkMachine b (os m) (ids m) (rings m).
Definition set_os (o : Os Heap) (m : Machine) : Machine := mkMachine (bytes m) o (ids m) (rings m).
Definition boot : Machine :=
  mkMachine (fun _ => 0) (mkOs ∅ ∅ ∅ 0 (mkHeap 4096 ∅)) RequestIdSource.new 1.

(** `assert!`, `assert_eq!`, `expect`. *)
Definition assert (b : bool) : Run unit := if b then ret tt else throw Panicked.
Definition assert_eq {A} `{EqDecision A} (x y : A) : Run unit := assert (bool_decide (x = y)).
Definition expect {A E} (r : result A E) : Run A :=
  match r with Ok a => ret a | Err _ => throw Panicked end.
Definition expect_err {A E} (r : result A E) : Run E :=
  match r with Ok _ => throw Panicked | Err e => ret e end.
Definition expect_some {A} (o : option A) : Run A :=
  match o with Some a => ret a | None => throw Panicked end.
(** The range lies in one live block. *)
Definition in_live (a n : Z) (m : Machine) : bool :=
  existsb (fun '(b, l) => (b <=? a) && (a + n <=? b + l)) (elements (live (os m))).
(** A method of the library that stores through, or reads, the process's memory.  It
    is code of the crate, which loads and stores without asking the machine, so the
    machine finds out what it touched: it runs on two memories that differ in every
    byte that is not live.  An answer, or a live byte, that differs was read from
    dead memory; a dead byte near a block that changed was stored to.  Either ends
    the run.  [touches_storage] in [MiriTests] is that a method whose footprint is a
    live block is never stopped. *)
Definition poisoned (p : Z) (m : Machine) : UMem :=
  let blocks := elements (live (os m)) in
  fun x => if existsb (fun '(b, l) => (b <=? x) && (x + 1 <=? b + l)) blocks then bytes m x else p.
Definition span (a n : Z) : list Z := (fun i => a + Z.of_nat i) <$> seq 0 (Z.to_nat n).
(** What is compared: every block and the bytes around it. *)
Definition RED_ZONE : Z := 16.
Definition watched (m : Machine) : list Z :=
  elements (live (os m)) ≫= fun '(b, l) => span (b - RED_ZONE) (l + 2 * RED_ZONE).
Definition well_behaved {R} `{EqDecision R} (f : UMem -> R * UMem) (m : Machine) : bool :=
  let '(r1, b1) := f (poisoned 85 m) in
  let '(r2, b2) := f (poisoned 170 m) in
  bool_decide (r1 = r2) &&
  forallb (fun x => if in_live x 1 m then b1 x =? b2 x else (b1 x =? 85) && (b2 x =? 170)) (watched m).
Definition lib {R} `{EqDecision R} (f : UMem -> R * UMem) : Run R := fun m =>
  if well_behaved f m then let '(r, b) := f (bytes m) in (Ok r, set_bytes b m)
  else (Err Undefined, m).
Definition peek {R} `{EqDecision R} (f : UMem -> R) : Run R := lib (fun b => (f b, b)).

(** Reads and writes through a pointer. *)
Definition load_bytes (a n : Z) : Run (list Z) := fun m =>
  if in_live a n m then (Ok (read_bytes a (Z.to_nat n) (bytes m)), m) else (Err Undefined, m).
Definition store_bytes (a : Z) (bs : list Z) : Run unit := fun m =>
  if in_live a (Z.of_nat (length bs)) m then (Ok tt, set_bytes (write_bytes a bs (bytes m)) m)
  else (Err Undefined, m).
Definition load_byte (a : Z) : Run Z := let! bs := load_bytes a 1 in ret (nth 0 bs 0).
Definition store_byte (a v : Z) : Run unit := store_bytes a [v].
Definition aligned (a n : Z) : Run unit :=
  if is_multiple_of a n then ret tt else throw Undefined.
(** `ptr.read()` and `ptr.write(x)` of a whole `T`. *)
Definition load_as (T : Type) `{Repr T} (a : Z) : Run T :=
  do! aligned a (align_of T) in
  let! bs := load_bytes a (Z.of_nat (size_of T)) in ret (of_mem bs).
Definition store_as {T : Type} `{Repr T} (a : Z) (x : T) : Run unit :=
  do! aligned a (align_of T) in store_bytes a (to_mem x).

(** The allocator: a block no better aligned than was asked for, with a gap before
    the next; addresses are not reused. *)
Definition alloc_zeroed (len align : Z) : Run Z := fun m =>
  let o := os m in
  let ptr := next_multiple_of (brk (oracle o)) (2 * align) + align in
  let heap := mkHeap (ptr + len + 1) (<[ptr := align]> (aligns (oracle o))) in
  (Ok ptr,
   mkMachine (write_bytes ptr (replicate (Z.to_nat len) 0) (bytes m))
     (mkOs (live o ⊎ {[+ (ptr, len) +]}) (fds o) (pages o) (faults o) heap) (ids m) (rings m)).
(** A release must name a live block and its layout. *)
Definition dealloc (ptr len align : Z) : Run unit := fun m =>
  let o := os m in
  if bool_decide ((ptr, len) ∈ live o) && bool_decide (aligns (oracle o) !! ptr = Some align)
  then (Ok tt, set_os (munmap (new_region ptr len) o) m) else (Err Undefined, m).

(** ** Heap storage *)
Module HeapBuffer.
(* src/src/owned/miri.rs:60-64 HeapBuffer *)
Record t : Set := mk { ptr : Z; len : Z; align : Z }.
Section Methods.
  Context {PW : PtrWidth}.
(* src/src/owned/miri.rs:67-69 HeapBuffer::layout_of *)
Definition layout_of (len align : Z) : Run (Z * Z) :=
  if is_power_of_two align && (next_multiple_of len align <=? 2 ^ (usize_bits - 1) - 1)
  then ret (len, align) else throw Panicked.
(* src/src/owned/miri.rs:71-73 HeapBuffer::layout *)
Definition layout (self : t) : Run (Z * Z) := layout_of (len self) (align self).
(* src/src/owned/miri.rs:91-96 HeapBuffer::with_alignment *)
Definition with_alignment (len align : Z) : Run t :=
  do! assert (len >? 0) in
  let! l := layout_of len align in
  let! ptr := alloc_zeroed (fst l) (snd l) in
  do! assert (negb (ptr =? 0)) in
  ret (mk ptr len align).
(* src/src/owned/miri.rs:76-78 HeapBuffer::with_capacity *)
Definition with_capacity (len : Z) : Run t := with_alignment len 1.
(* src/src/owned/miri.rs:87-89 HeapBuffer::for_descriptors *)
Definition for_descriptors (len : Z) : Run t := with_alignment len (align_of IoVec).
(* src/src/owned/miri.rs:98-102 HeapBuffer::as_slice *)
Definition as_slice (self : t) : Run (list Z) := load_bytes (ptr self) (len self).
(** The slice is where the stores below go. *)
(* src/src/owned/miri.rs:104-107 HeapBuffer::as_mut_slice *)
Definition as_mut_slice (self : t) : Slice := mkSlice (ptr self) (len self).
(* src/src/owned/miri.rs:141-145 HeapBuffer::reclaim_aligned *)
Definition reclaim_aligned (ptr len align : Z) : Run unit :=
  let! l := layout_of len align in dealloc ptr (fst l) (snd l).
(* src/src/owned/miri.rs:119-123 HeapBuffer::reclaim_leaked *)
Definition reclaim_leaked (ptr len : Z) : Run unit := reclaim_aligned ptr len 1.
(* src/src/owned/miri.rs:130-133 HeapBuffer::reclaim_leaked_descriptors *)
Definition reclaim_leaked_descriptors (ptr len : Z) : Run unit :=
  reclaim_aligned ptr len (align_of IoVec).
(* src/src/owned/miri.rs:149-153 HeapBuffer::drop *)
Definition drop (self : t) : Run unit :=
  let! l := layout self in dealloc (ptr self) (fst l) (snd l).
End Methods.
End HeapBuffer.
Notation HeapBuffer := HeapBuffer.t.
(** What the harness compares: answers of the library's methods. *)
#[export] Instance heap_eq_dec : EqDecision HeapBuffer.
Proof. solve_decision. Defined.
#[export] Instance path_error_eq_dec : EqDecision OwnedPath.PathError.
Proof. solve_decision. Defined.
#[export] Instance vectored_error_eq_dec : EqDecision Vectored.VectoredError.
Proof. solve_decision. Defined.
#[export] Instance region_error_eq_dec : EqDecision Region.MsgRegionError.
Proof. solve_decision. Defined.
#[export] Instance timeout_error_eq_dec : EqDecision Timeout.TimeoutError.
Proof. solve_decision. Defined.
#[export] Instance epoll_error_eq_dec : EqDecision EpollCtl.EpollError.
Proof. solve_decision. Defined.
#[export] Instance bind_error_eq_dec : EqDecision Bind.BindError.
Proof. solve_decision. Defined.
#[export] Instance connect_error_eq_dec : EqDecision Connect.ConnectError.
Proof. solve_decision. Defined.
#[export] Instance files_error_eq_dec : EqDecision FilesUpdate.FilesUpdateError.
Proof. solve_decision. Defined.
#[export] Instance openat2_mode_eq_dec : EqDecision Openat2.Mode.
Proof. solve_decision. Defined.
#[export] Instance openat2_error_eq_dec : EqDecision Openat2.Openat2Error.
Proof. solve_decision. Defined.
#[export] Instance dir_fd_eq_dec : EqDecision DirFd.t.
Proof. solve_decision. Defined.
#[export] Instance direction_eq_dec : EqDecision Direction.
Proof. solve_decision. Defined.
#[export] Instance timespec_eq_dec : EqDecision Timespec.
Proof. solve_decision. Defined.
#[export] Instance sock_addr_eq_dec : EqDecision SockAddrIn.
Proof. solve_decision. Defined.
#[export] Instance epoll_event_eq_dec : EqDecision EpollEvent.
Proof. solve_decision. Defined.
#[export] Instance open_how_eq_dec : EqDecision OpenHow.
Proof. solve_decision. Defined.
#[export] Instance msg_hdr_eq_dec : EqDecision MsgHdr.
Proof. solve_decision. Defined.
#[export] Instance io_vec_eq_dec : EqDecision IoVec.
Proof. solve_decision. Defined.
#[export] Instance statx_time_eq_dec : EqDecision StatxTimestamp.
Proof. solve_decision. Defined.
#[export] Instance statx_eq_dec : EqDecision Statx.
Proof. solve_decision. Defined.
#[export] Instance target_eq_dec : EqDecision Sendmsg.Target.
Proof. solve_decision. Defined.
#[export] Instance wanted_eq_dec : EqDecision Recvmsg.PeerWanted.
Proof. solve_decision. Defined.
#[export] Instance received_eq_dec : EqDecision Recvmsg.Received.
Proof. solve_decision. Defined.
#[export] Instance peer_eq_dec : EqDecision Recvmsg.PeerAddress.
Proof. solve_decision. Defined.
#[export] Instance count_eq_dec : EqDecision Timeout.Count.
Proof. solve_decision. Defined.
#[export] Instance timeout_ctx_eq_dec : EqDecision Timeout.Ctx.
Proof. solve_decision. Defined.
#[export] Instance change_eq_dec : EqDecision EpollCtl.Change.
Proof. solve_decision. Defined.
#[export] Instance epoll_ctx_eq_dec : EqDecision EpollCtl.Ctx.
Proof. solve_decision. Defined.
#[export] Instance entry_eq_dec : EqDecision FilesUpdate.Entry.
Proof. solve_decision. Defined.
#[export] Instance path_eq_dec S `{EqDecision S} : EqDecision (Path S).
Proof. solve_decision. Defined.
#[export] Instance region_eq_dec S `{EqDecision S} : EqDecision (Region.t S).
Proof. solve_decision. Defined.
#[export] Instance vectored_eq_dec S T `{EqDecision S} `{EqDecision T} : EqDecision (Vectored.Prepared S T).
Proof. solve_decision. Defined.
#[export] Instance sendmsg_eq_dec S T `{EqDecision S} `{EqDecision T} : EqDecision (Sendmsg.Prepared S T).
Proof. solve_decision. Defined.
#[export] Instance recvmsg_eq_dec S T `{EqDecision S} `{EqDecision T} : EqDecision (Recvmsg.Prepared S T).
Proof. solve_decision. Defined.
#[export] Instance files_eq_dec S `{EqDecision S} : EqDecision (FilesUpdate.Prepared S).
Proof. solve_decision. Defined.
#[export] Instance openat2_eq_dec S T `{EqDecision S} `{EqDecision T} : EqDecision (Openat2.Prepared S T).
Proof. solve_decision. Defined.
#[export] Instance value_eq_dec S Op {VO : Value.ValueOp Op} `{EqDecision S} `{EqDecision (Value.Context_ Op)} :
  EqDecision (Value.Prepared S Op).
Proof. solve_decision. Defined.
#[export] Instance addr_eq_dec S Op `{EqDecision S} : EqDecision (Addr.Prepared S Op).
Proof. solve_decision. Defined.
(* src/src/owned/miri.rs:158-166 HeapBuffer::stable_ptr *)
#[export] Instance heap_stable : StableBuffer HeapBuffer := {
  stable_ptr := HeapBuffer.ptr;
  stable_len := HeapBuffer.len
}.
(** What the callers do with a mutable slice: `copy_from_slice`, which panics on
    another length, `fill`, and an assignment to one element. *)
Definition copy_from_slice (s : Slice) (bs : list Z) : Run unit :=
  do! assert (Z.of_nat (length bs) =? slice_len s) in store_bytes (slice_ptr s) bs.
Definition fill (s : Slice) (v : Z) : Run unit :=
  store_bytes (slice_ptr s) (replicate (Z.to_nat (slice_len s)) v).
Definition set_index (s : Slice) (i v : Z) : Run unit :=
  do! assert ((0 <=? i) && (i <? slice_len s)) in store_byte (slice_ptr s + i) v.

(** ** What a drop does *)
(** The end of a value's scope.  A ticket is dropped by its own destructor
    ([OwnedMemory]), heap storage is freed, and a structure drops its fields. *)
Class Dropped (T : Type) := drop : T -> Run unit.
#[export] Instance heap_dropped {PW : PtrWidth} : Dropped HeapBuffer := HeapBuffer.drop.
#[export] Instance ticket_dropped T `{Abandon T} : Dropped T | 100 := fun t m =>
  (Ok tt, set_os (abandon t (os m)) m).
#[export] Instance path_dropped S `{Dropped S} : Dropped (Path S) := fun p => drop (OwnedPath.storage p).
Fixpoint drop_all {T} `{Dropped T} (l : list T) : Run unit :=
  match l with [] => ret tt | x :: l => do! drop x in drop_all l end.
#[export] Instance list_dropped T `{Dropped T} : Dropped (list T) := drop_all.
#[export] Instance pair_dropped S T `{Dropped S} `{Dropped T} : Dropped (S * T) := fun '(x, y) =>
  do! drop x in drop y.
#[export] Instance completed_dropped B `{Dropped B} : Dropped (Request.Completed B) := fun c =>
  drop (Request.d_buf c).
#[export] Instance zc_completed_dropped B `{Dropped B} : Dropped (Zc.Completed B) := fun c =>
  drop (Zc.d_buf c).
#[export] Instance vectored_completed_dropped B V `{Dropped B} `{Dropped V} :
  Dropped (Vectored.Completed B V) := fun c => do! drop (Vectored.d_bufs c) in drop (Vectored.d_vecs c).
#[export] Instance vectored_prepared_dropped B V `{Dropped B} `{Dropped V} :
  Dropped (Vectored.Prepared B V) := fun p => do! drop (Vectored.p_bufs p) in drop (Vectored.p_vecs p).

(** ** The stand-in kernel *)
Module FakeKernel.
(* src/src/owned/miri.rs:184-186 FakeKernel *)
Record t : Set := mk { sqe : Sqe }.
Section Methods.
  Context {PW : PtrWidth} {TA : TargetArch}.
(* src/src/owned/miri.rs:189-191 FakeKernel::holding *)
Definition holding (sqe : Sqe) : t := mk sqe.
(* src/src/owned/miri.rs:193-195 FakeKernel::addr *)
Definition addr (self : t) : Z := IoUringSqe.addr (sqe self).
(** `usize::try_from(addr).expect(..)`. *)
Definition pointer (addr : Z) : Run Z := if addr <? 2 ^ usize_bits then ret addr else throw Panicked.
(* src/src/owned/miri.rs:206-209 FakeKernel::published_ptr *)
Definition published_ptr (self : t) : Run Z := pointer (addr self).
(* src/src/owned/miri.rs:211-213 FakeKernel::len *)
Definition len (self : t) : Z := IoUringSqe.len (sqe self).
(* src/src/owned/miri.rs:215-217 FakeKernel::user_data *)
Definition user_data (self : t) : Z := IoUringSqe.user_data (sqe self).

(** `for i in 0..len { dst.add(i).write(v) }` and its converse. *)
Fixpoint write_each (dst v : Z) (n : nat) : Run unit :=
  match n with O => ret tt | S n => do! store_byte dst v in write_each (dst + 1) v n end.
Fixpoint read_each (src : Z) (n : nat) : Run (list Z) :=
  match n with
  | O => ret []
  | S n => let! b := load_byte src in let! bs := read_each (src + 1) n in ret (b :: bs)
  end.
(* src/src/owned/miri.rs:223-233 FakeKernel::complete_read *)
Definition complete_read (self : t) (fill : Z) : Run Z :=
  let! dst := published_ptr self in
  do! write_each dst fill (Z.to_nat (len self)) in
  if len self <? 2 ^ 31 then ret (len self) else throw Panicked.
(* src/src/owned/miri.rs:236-245 FakeKernel::observe_write *)
Definition observe_write (self : t) : Run (list Z) :=
  let! src := published_ptr self in read_each src (Z.to_nat (len self)).
(* src/src/owned/miri.rs:248-255 FakeKernel::post_completion *)
Definition post_completion (self : t) (ring : RingId) (result : Z) : Receipt :=
  mkReceipt ring (user_data self) result 0.
(* src/src/owned/miri.rs:261-268 FakeKernel::post_send *)
Definition post_send (self : t) (ring : RingId) (result : Z) : PartialReceipt.t :=
  PartialReceipt.mk ring (user_data self) result CqeFlags.MORE.
(* src/src/owned/miri.rs:271-278 FakeKernel::post_notification *)
Definition post_notification (self : t) (ring : RingId) : Receipt :=
  mkReceipt ring (user_data self) 0 CqeFlags.NOTIF.

(* src/src/owned/miri.rs:424-433 FakeKernel::read_epoll_event *)
Definition read_epoll_event (self : t) : Run EpollEvent :=
  let! base := published_ptr self in load_as EpollEvent base.
(* src/src/owned/miri.rs:436-438 FakeKernel::published_epoll_op *)
Definition published_epoll_op (self : t) : Z := IoUringSqe.len (sqe self).
(* src/src/owned/miri.rs:444-452 FakeKernel::read_sock_addr *)
Definition read_sock_addr (self : t) : Run (list Z) :=
  let! base := published_ptr self in load_bytes base 16.
(* src/src/owned/miri.rs:455-457 FakeKernel::published_addr_len *)
Definition published_addr_len (self : t) : Z := IoUringSqe.off (sqe self).
(** `for i in 0..n { seen.push(base.add(i).read()) }` over whole values. *)
Fixpoint load_each (T : Type) `{Repr T} (base : Z) (n : nat) : Run (list T) :=
  match n with
  | O => ret []
  | S n => let! x := load_as T base in
           let! xs := load_each T (base + Z.of_nat (size_of T)) n in ret (x :: xs)
  end.
(* src/src/owned/miri.rs:467-480 FakeKernel::read_fd_array *)
Definition read_fd_array (self : t) : Run (list Z) :=
  let! base := published_ptr self in load_each Z base (Z.to_nat (len self)).
(* src/src/owned/miri.rs:484-486 FakeKernel::published_offset *)
Definition published_offset (self : t) : Z := IoUringSqe.off (sqe self).
(* src/src/owned/miri.rs:498-507 FakeKernel::read_timespec *)
Definition read_timespec (self : t) : Run Timespec :=
  let! base := published_ptr self in load_as Timespec base.
(* src/src/owned/miri.rs:511-513 FakeKernel::published_count *)
Definition published_count (self : t) : Z := IoUringSqe.off (sqe self).

(* src/src/owned/miri.rs:524-533 FakeKernel::read_msghdr *)
Definition read_msghdr (self : t) : Run MsgHdr :=
  let! base := published_ptr self in load_as MsgHdr base.
(* src/src/owned/miri.rs:541-548 FakeKernel::message_descriptor *)
Definition message_descriptor (self : t) (i : nat) : Run IoVec :=
  let! hdr := read_msghdr self in
  do! assert (Z.of_nat i <? msg_iovlen hdr) in
  load_as IoVec (msg_iov hdr + Z.of_nat (i * size_of IoVec)).
Fixpoint gather (self : t) (idx : list nat) : Run (list Z) :=
  match idx with
  | [] => ret []
  | i :: idx =>
      let! vec := message_descriptor self i in
      let! bs := read_each (iov_base vec) (Z.to_nat (iov_len vec)) in
      let! rest := gather self idx in ret (bs ++ rest)
  end.
(* src/src/owned/miri.rs:556-568 FakeKernel::observe_sendmsg *)
Definition observe_sendmsg (self : t) : Run (list Z) :=
  let! hdr := read_msghdr self in gather self (seq 0 (Z.to_nat (msg_iovlen hdr))).
(** The inner loop of a delivery stops with the payload; what is left of it. *)
Fixpoint fill_from (dst : Z) (n : nat) (payload : list Z) : Run (list Z) :=
  match n, payload with
  | S n, b :: payload => do! store_byte dst b in fill_from (dst + 1) n payload
  | _, _ => ret payload
  end.
Fixpoint scatter (self : t) (idx : list nat) (payload : list Z) : Run (list Z) :=
  match idx with
  | [] => ret payload
  | i :: idx =>
      let! vec := message_descriptor self i in
      let! payload := fill_from (iov_base vec) (Z.to_nat (iov_len vec)) payload in
      scatter self idx payload
  end.
Definition set_back (h : MsgHdr) (namelen flags : Z) : MsgHdr :=
  mkMsgHdr (msg_name h) namelen (msg_iov h) (msg_iovlen h) (msg_control h) (msg_controllen h) flags.
Definition SOCK_ADDR_IN : Z := Z.of_nat (size_of SockAddrIn).
(* src/src/owned/miri.rs:583-635 FakeKernel::deliver_recvmsg *)
Definition deliver_recvmsg (self : t) (payload : list Z) (peer : option SockAddrIn) : Run Z :=
  let! hdr := read_msghdr self in
  let! rest := scatter self (seq 0 (Z.to_nat (msg_iovlen hdr))) payload in
  let written := Z.of_nat (length payload) - Z.of_nat (length rest) in
  let flags := if written <? Z.of_nat (length payload) then MsgOutFlags.TRUNC else 0 in
  let! namelen :=
    match peer with
    | Some addr =>
        if negb (msg_name hdr =? 0) then
          do! assert (msg_namelen hdr >=? SOCK_ADDR_IN) in
          do! store_as (msg_name hdr) addr in ret (as_u32 SOCK_ADDR_IN)
        else ret 0
    | None => ret 0
    end in
  let! dst := published_ptr self in
  do! store_as dst (set_back hdr namelen (as_i32 flags)) in ret written.
(* src/src/owned/miri.rs:651-673 FakeKernel::deliver_with_reported_namelen *)
Definition deliver_with_reported_namelen (self : t) (payload : list Z) (reported : Z)
    (wrote : option SockAddrIn) : Run Z :=
  let! written := deliver_recvmsg self payload None in
  let! hdr := read_msghdr self in
  do! match wrote with
      | Some addr =>
          do! assert (negb (msg_name hdr =? 0)) in store_as (msg_name hdr) addr
      | None => ret tt
      end in
  let! dst := published_ptr self in
  do! store_as dst (set_back hdr reported (msg_flags hdr)) in ret written.
(* src/src/owned/miri.rs:640-642 FakeKernel::deliver_oversized_peer *)
Definition deliver_oversized_peer (self : t) (payload : list Z) (reported : Z) : Run Z :=
  deliver_with_reported_namelen self payload reported None.
(* src/src/owned/miri.rs:680-698 FakeKernel::message_name *)
Definition message_name (self : t) : Run (option SockAddrIn) :=
  let! hdr := read_msghdr self in
  if msg_name hdr =? 0 then do! assert_eq (msg_namelen hdr) 0 in ret None
  else
    do! assert_eq (msg_namelen hdr) SOCK_ADDR_IN in
    let! a := load_as SockAddrIn (msg_name hdr) in ret (Some a).

(* src/src/owned/miri.rs:709-716 FakeKernel::read_open_how *)
Definition read_open_how (self : t) : Run OpenHow :=
  let! base := pointer (IoUringSqe.off (sqe self)) in load_as OpenHow base.
(* src/src/owned/miri.rs:723-725 FakeKernel::published_how_size *)
Definition published_how_size (self : t) : Z := IoUringSqe.len (sqe self).
(** The scan of a path to its NUL.  The loop has no bound of its own; [fuel] is a
    bound on the live bytes, so that it never runs out first ([scan_finds]). *)
Fixpoint scan (fuel : nat) (a : Z) : Run (list Z) :=
  match fuel with
  | O => throw Undefined
  | S fuel =>
      let! b := load_byte a in
      if b =? 0 then ret [] else let! bs := scan fuel (a + 1) in ret (b :: bs)
  end.
Definition live_bytes (m : Machine) : nat :=
  sum_list ((fun '(_, l) => Z.to_nat l) <$> elements (live (os m))).
Definition scan_live (a : Z) : Run (list Z) := fun m => scan (S (live_bytes m)) a m.
(* src/src/owned/miri.rs:735-751 FakeKernel::resolve_second_path *)
Definition resolve_second_path (self : t) : Run (list Z) :=
  let! base := pointer (IoUringSqe.off (sqe self)) in scan_live base.
(* src/src/owned/miri.rs:754-761 FakeKernel::post_status *)
Definition post_status (self : t) (ring : RingId) (result : Z) : Receipt :=
  mkReceipt ring (user_data self) result 0.
(* src/src/owned/miri.rs:770-773 FakeKernel::published_dest *)
Definition published_dest (self : t) : Run Z := pointer (IoUringSqe.off (sqe self)).
(** `Statx { stx_mask, stx_size, stx_nlink: 1, ..Statx::default() }` *)
Definition filled_statx (mask size : Z) : Statx :=
  let z := mkStatxTimestamp 0 0 0 in
  mkStatx mask 0 0 1 0 0 0 0 0 size 0 0 z z z z 0 0 0 0 0 0 0 0.
(* src/src/owned/miri.rs:781-799 FakeKernel::complete_statx *)
Definition complete_statx (self : t) (ring : RingId) (mask size : Z) : Run Receipt :=
  let! dst := published_dest self in
  do! store_as dst (filled_statx mask size) in
  ret (mkReceipt ring (user_data self) 0 0).
(* src/src/owned/miri.rs:811-826 FakeKernel::resolve_path *)
Definition resolve_path (self : t) : Run (list Z) :=
  let! base := published_ptr self in scan_live base.
(* src/src/owned/miri.rs:829-836 FakeKernel::post_open *)
Definition post_open (self : t) (ring : RingId) (fd : Z) : Receipt :=
  mkReceipt ring (user_data self) fd 0.
(* src/src/owned/miri.rs:848-857 FakeKernel::descriptor *)
Definition descriptor (self : t) (i : nat) : Run IoVec :=
  let! base := published_ptr self in load_as IoVec (base + Z.of_nat (i * size_of IoVec)).
(* src/src/owned/miri.rs:860-868 FakeKernel::complete_readv *)
Definition complete_readv (self : t) (i : nat) (fill : Z) : Run Z :=
  let! vec := descriptor self i in
  do! write_each (iov_base vec) fill (Z.to_nat (iov_len vec)) in ret (iov_len vec).
(* src/src/owned/miri.rs:871-879 FakeKernel::observe_writev *)
Definition observe_writev (self : t) (i : nat) : Run (list Z) :=
  let! vec := descriptor self i in read_each (iov_base vec) (Z.to_nat (iov_len vec)).
End Methods.
End FakeKernel.

(** ** Submission *)
Module Lifecycle.
(** The identity source is the machine's cell. *)
(* src/src/owned/miri.rs:282-285 Lifecycle *)
Record t : Set := mk { ring : RingId }.
(* src/src/owned/miri.rs:288-293 Lifecycle::new *)
Definition new : Run t := fun m =>
  let '(ring, rings) := next_ring_id (rings m) in
  (Ok (mk ring), mkMachine (bytes m) (os m) RequestIdSource.new rings).
(** `self.ids.next()` *)
Definition next_id : Run RequestId := fun m =>
  let '(id, ids) := RequestIdSource.next (ids m) in
  (Ok id, mkMachine (bytes m) (os m) ids (rings m)).
(** The body every `submit` has. *)
Definition hand_over {P T} `{OwnedRequest P T} (self : t) (prepared : P) : Run (FakeKernel.t * T) :=
  let! id := next_id in
  let '(sqe, pending) := into_pending (ring self) id prepared in
  ret (FakeKernel.holding sqe, pending).
Section Submit.
  Context {B S V R D F T H : Type} {TA : TargetArch}.
(* src/src/owned/miri.rs:295-298 Lifecycle::submit *)
Definition submit (self : t) (prepared : Request.Prepared B)
  : Run (FakeKernel.t * Request.Pending B) := hand_over self prepared.
(* src/src/owned/miri.rs:300-303 Lifecycle::submit_zc *)
Definition submit_zc (self : t) (prepared : Zc.Prepared B)
  : Run (FakeKernel.t * Zc.Pending B) := hand_over self prepared.
(* src/src/owned/miri.rs:305-311 Lifecycle::submit_vectored *)
Definition submit_vectored (self : t) (prepared : Vectored.Prepared B V)
  : Run (FakeKernel.t * Vectored.Pending B V) := hand_over self prepared.
(* src/src/owned/miri.rs:313-319 Lifecycle::submit_open *)
Definition submit_open (self : t) (prepared : Open.Prepared S)
  : Run (FakeKernel.t * Open.Pending S) := hand_over self prepared.
(* src/src/owned/miri.rs:321-327 Lifecycle::submit_direct_open *)
Definition submit_direct_open (self : t) (prepared : DirectOpen.Prepared S)
  : Run (FakeKernel.t * DirectOpen.Pending S) := hand_over self prepared.
(* src/src/owned/miri.rs:329-335 Lifecycle::submit_statx *)
Definition submit_statx (self : t) (prepared : StatxOp.Prepared S D)
  : Run (FakeKernel.t * StatxOp.Pending S D) := hand_over self prepared.
(* src/src/owned/miri.rs:337-343 Lifecycle::submit_path_op *)
Definition submit_path_op (self : t) (prepared : PathOp.Prepared S)
  : Run (FakeKernel.t * PathOp.Pending S) := hand_over self prepared.
(* src/src/owned/miri.rs:345-351 Lifecycle::submit_rename *)
Definition submit_rename (self : t) (prepared : Rename.Prepared F T)
  : Run (FakeKernel.t * Rename.Pending F T) := hand_over self prepared.
(* src/src/owned/miri.rs:353-359 Lifecycle::submit_openat2 *)
Definition submit_openat2 (self : t) (prepared : Openat2.Prepared S H)
  : Run (FakeKernel.t * Openat2.Pending S H) := hand_over self prepared.
(* src/src/owned/miri.rs:361-367 Lifecycle::submit_sendmsg *)
Definition submit_sendmsg (self : t) (prepared : Sendmsg.Prepared B R)
  : Run (FakeKernel.t * Sendmsg.Pending B R) := hand_over self prepared.
(* src/src/owned/miri.rs:369-375 Lifecycle::submit_recvmsg *)
Definition submit_recvmsg (self : t) (prepared : Recvmsg.Prepared B R)
  : Run (FakeKernel.t * Recvmsg.Pending B R) := hand_over self prepared.
(* src/src/owned/miri.rs:377-383 Lifecycle::submit_timeout *)
Definition submit_timeout (self : t) (prepared : Value.Prepared S Timeout.TimeoutOp)
  : Run (FakeKernel.t * Value.Pending S Timeout.TimeoutOp) := hand_over self prepared.
(* src/src/owned/miri.rs:385-391 Lifecycle::submit_files_update *)
Definition submit_files_update (self : t) (prepared : FilesUpdate.Prepared S)
  : Run (FakeKernel.t * FilesUpdate.Pending S) := hand_over self prepared.
(* src/src/owned/miri.rs:393-399 Lifecycle::submit_epoll_ctl *)
Definition submit_epoll_ctl (self : t) (prepared : Value.Prepared S EpollCtl.EpollCtlOp)
  : Run (FakeKernel.t * Value.Pending S EpollCtl.EpollCtlOp) := hand_over self prepared.
(* src/src/owned/miri.rs:401-407 Lifecycle::submit_bind *)
Definition submit_bind (self : t) (prepared : Addr.Prepared S Bind.BindOp)
  : Run (FakeKernel.t * Addr.Pending S Bind.BindOp) := hand_over self prepared.
(* src/src/owned/miri.rs:409-415 Lifecycle::submit_connect *)
Definition submit_connect (self : t) (prepared : Addr.Prepared S Connect.ConnectOp)
  : Run (FakeKernel.t * Addr.Pending S Connect.ConnectOp) := hand_over self prepared.
End Submit.
End Lifecycle.

(** ** Passing *)
(** No undefined access and no failed assertion, no release of what was not live,
    and nothing left allocated. *)
Definition passes (test : Run unit) : bool :=
  match test boot with
  | (Ok _, m) => bool_decide (live (os m) = ∅) && (faults (os m) =? 0)%nat
  | (Err _, _) => false
  end.
(** A byte string. *)
Definition text (s : String.string) : list Z :=
  (fun c => Z.of_nat (Ascii.nat_of_ascii c)) <$> String.list_ascii_of_string s.
Arguments text s%_string_scope.

(** ** What the tests share *)
(** Moving a ticket between owners, through a `Box` and back. *)
Definition moved {T} (x : T) : T := x.
Definition all_are (v : Z) (bs : list Z) : bool := forallb (Z.eqb v) bs.
(** `bufs[i]` *)
Definition at_index {T} (l : list T) (i : nat) : Run T := expect_some (l !! i).
Fixpoint reclaim_each {PW : PtrWidth} (leaked : list (Z * Z)) : Run unit :=
  match leaked with
  | [] => ret tt
  | (ptr, len) :: leaked => do! HeapBuffer.reclaim_leaked ptr len in reclaim_each leaked
  end.
Definition place (b : HeapBuffer) : Z * Z := (HeapBuffer.ptr b, HeapBuffer.len b).
(** `u16::to_be`, and a loopback or other address in memory order. *)
Definition to_be (port : Z) : Z := le_combine (be_split 2 port).
Definition v4 (port a b c d : Z) : SockAddrIn := mkSockAddrIn 2 (to_be port) (le_combine [a; b; c; d]) 0.
Definition same_addr (x y : SockAddrIn) : bool := bool_decide (to_mem x = to_mem y).
