(* ===== verification/MiriIo.v ===== *)
(** * The tests of owned/miri.rs: transfers *)
From stdpp Require Import base numbers list option.
From Stdlib Require Import ZArith Lia.
From Stdlib Require String.
From S2P Require Import Prelude Flags Types UserMem Sqe Owned OwnedMsg OwnedMemory Miri.
Import String.StringSyntax.
Local Open Scope Z_scope.
Local Open Scope rust_scope.

Section Tests.
  Context {PW : PtrWidth} {TA : TargetArch}.
(* src/src/owned/miri.rs:882-896 kernel_write_through_the_sqe_pointer_lands_in_the_owned_buffer *)
Definition kernel_write_through_the_sqe_pointer_lands_in_the_owned_buffer : Run unit :=
  let! cycle := Lifecycle.new in
  let! buf := HeapBuffer.with_capacity 64 in
  let! (kernel, pending) := Lifecycle.submit cycle (Request.read 7 buf 0) in
  let! result := FakeKernel.complete_read kernel 171 in
  let receipt := FakeKernel.post_completion kernel (Lifecycle.ring cycle) result in
  let! completed := expect (Request.redeem pending receipt) in
  let! n := expect (Request.completed_result completed) in
  do! assert_eq n 64 in
  let! bytes := HeapBuffer.as_slice (Request.d_buf completed) in
  do! assert (all_are 171 bytes) in
  drop completed.

(** `[(); n].map(|()| HeapBuffer::with_capacity(len))` *)
Fixpoint buffers (n : nat) (len : Z) : Run (list HeapBuffer) :=
  match n with
  | O => ret []
  | S n => let! b := HeapBuffer.with_capacity len in let! bs := buffers n len in ret (b :: bs)
  end.
Fixpoint complete_each (kernel : FakeKernel.t) (fills : list (nat * Z)) : Run Z :=
  match fills with
  | [] => ret 0
  | (i, fill) :: fills =>
      let! n := FakeKernel.complete_readv kernel i fill in
      let! total := complete_each kernel fills in ret (n + total)
  end.
(* src/src/owned/miri.rs:898-922 the_kernel_reaches_every_vectored_buffer_through_the_published_array *)
Definition the_kernel_reaches_every_vectored_buffer_through_the_published_array : Run unit :=
  let! cycle := Lifecycle.new in
  let! bufs := buffers 3 4 in
  let! vecs := HeapBuffer.for_descriptors 256 in
  let! prepared := lib (Vectored.readv 7 bufs vecs 0) in
  let! prepared := expect prepared in
  let! (kernel, pending) := Lifecycle.submit_vectored cycle prepared in
  let! total := complete_each kernel [(0%nat, 161); (1%nat, 178); (2%nat, 195)] in
  let receipt := FakeKernel.post_completion kernel (Lifecycle.ring cycle) total in
  let! completed := expect (Vectored.redeem pending receipt) in
  let! n := expect (Vectored.completed_result completed) in
  do! assert_eq n 12 in
  let bufs := Vectored.d_bufs completed in
  let! b0 := at_index bufs 0 in let! b1 := at_index bufs 1 in let! b2 := at_index bufs 2 in
  let! s0 := HeapBuffer.as_slice b0 in do! assert (all_are 161 s0) in
  let! s1 := HeapBuffer.as_slice b1 in do! assert (all_are 178 s1) in
  let! s2 := HeapBuffer.as_slice b2 in do! assert (all_are 195 s2) in
  drop completed.
(* src/src/owned/miri.rs:924-961 a_vectored_ticket_keeps_its_array_valid_across_moves *)
Definition a_vectored_ticket_keeps_its_array_valid_across_moves : Run unit :=
  let! cycle := Lifecycle.new in
  let! bufs := buffers 2 8 in
  let! vecs := HeapBuffer.for_descriptors 256 in
  let! prepared := lib (Vectored.readv 7 bufs vecs 0) in
  let! prepared := expect prepared in
  let! (kernel, pending) := Lifecycle.submit_vectored cycle prepared in
  let moved := moved pending in
  let! total := complete_each kernel [(0%nat, 90); (1%nat, 90)] in
  let receipt := FakeKernel.post_completion kernel (Lifecycle.ring cycle) total in
  let! completed := expect (Vectored.redeem moved receipt) in
  let! n := expect (Vectored.completed_result completed) in
  do! assert_eq n 16 in
  let! b0 := at_index (Vectored.d_bufs completed) 0 in
  let! b1 := at_index (Vectored.d_bufs completed) 1 in
  let! s0 := HeapBuffer.as_slice b0 in do! assert (all_are 90 s0) in
  let! s1 := HeapBuffer.as_slice b1 in do! assert (all_are 90 s1) in
  drop completed.
(* src/src/owned/miri.rs:963-981 a_gather_write_publishes_the_bytes_each_buffer_staged *)
Definition a_gather_write_publishes_the_bytes_each_buffer_staged : Run unit :=
  let! cycle := Lifecycle.new in
  let! bufs := buffers 2 4 in
  let! b0 := at_index bufs 0 in let! b1 := at_index bufs 1 in
  do! copy_from_slice (HeapBuffer.as_mut_slice b0) (text "abcd") in
  do! copy_from_slice (HeapBuffer.as_mut_slice b1) (text "efgh") in
  let! vecs := HeapBuffer.for_descriptors 256 in
  let! prepared := lib (Vectored.writev 1 bufs vecs 0) in
  let! prepared := expect prepared in
  let! (kernel, pending) := Lifecycle.submit_vectored cycle prepared in
  let! s0 := FakeKernel.observe_writev kernel 0 in do! assert_eq s0 (text "abcd") in
  let! s1 := FakeKernel.observe_writev kernel 1 in do! assert_eq s1 (text "efgh") in
  let receipt := FakeKernel.post_completion kernel (Lifecycle.ring cycle) 8 in
  let! completed := expect (Vectored.redeem pending receipt) in
  let! n := expect (Vectored.completed_result completed) in
  do! assert_eq n 8 in
  drop completed.
(* src/src/owned/miri.rs:983-1020 abandoning_a_vectored_ticket_leaks_rather_than_freeing_live_storage *)
Definition abandoning_a_vectored_ticket_leaks_rather_than_freeing_live_storage : Run unit :=
  let! cycle := Lifecycle.new in
  let! bufs := buffers 2 8 in
  let buf_addrs := place <$> bufs in
  let! vecs := HeapBuffer.for_descriptors 256 in
  let vec_addr := place vecs in
  let! prepared := lib (Vectored.readv 7 bufs vecs 0) in
  let! prepared := expect prepared in
  let! (kernel, pending) := Lifecycle.submit_vectored cycle prepared in
  do! drop pending in
  let! _ := complete_each kernel [(0%nat, 119); (1%nat, 119)] in
  let! seen := FakeKernel.observe_writev kernel 0 in
  do! assert_eq seen (replicate 8 119) in
  do! reclaim_each buf_addrs in
  HeapBuffer.reclaim_leaked_descriptors (fst vec_addr) (snd vec_addr).
(* src/src/owned/miri.rs:1022-1039 reclaiming_an_unpublished_vectored_request_returns_usable_storage *)
Definition reclaiming_an_unpublished_vectored_request_returns_usable_storage : Run unit :=
  let! cycle := Lifecycle.new in
  let! bufs := buffers 2 8 in
  let! vecs := HeapBuffer.for_descriptors 256 in
  let! prepared := lib (Vectored.writev 3 bufs vecs 0) in
  let! prepared := expect prepared in
  let! (_, pending) := Lifecycle.submit_vectored cycle prepared in
  let recovered := Vectored.reclaim_unsubmitted pending in
  do! assert_eq (Vectored.p_fd recovered) 3 in
  let! b0 := at_index (Vectored.p_bufs recovered) 0 in
  do! set_index (HeapBuffer.as_mut_slice b0) 0 1 in
  drop recovered.
(* src/src/owned/miri.rs:1041-1056 kernel_reads_the_bytes_the_caller_staged_before_submission *)
Definition kernel_reads_the_bytes_the_caller_staged_before_submission : Run unit :=
  let! cycle := Lifecycle.new in
  let! buf := HeapBuffer.with_capacity 8 in
  let prepared := Request.write 1 buf 0 in
  do! copy_from_slice (HeapBuffer.as_mut_slice (Request.p_buf prepared)) (text "ququmatz") in
  let! (kernel, pending) := Lifecycle.submit cycle prepared in
  let! seen := FakeKernel.observe_write kernel in
  do! assert_eq seen (text "ququmatz") in
  let receipt := FakeKernel.post_completion kernel (Lifecycle.ring cycle) 8 in
  let! completed := expect (Request.redeem pending receipt) in
  let! bytes := HeapBuffer.as_slice (Request.d_buf completed) in
  do! assert_eq bytes (text "ququmatz") in
  drop completed.
(* src/src/owned/miri.rs:1058-1073 buffer_survives_the_ticket_moving_between_owners *)
Definition buffer_survives_the_ticket_moving_between_owners : Run unit :=
  let! cycle := Lifecycle.new in
  let! buf := HeapBuffer.with_capacity 32 in
  let! (kernel, pending) := Lifecycle.submit cycle (Request.read 3 buf 0) in
  let moved_again := moved pending in
  let! result := FakeKernel.complete_read kernel 90 in
  let receipt := FakeKernel.post_completion kernel (Lifecycle.ring cycle) result in
  let! completed := expect (Request.redeem moved_again receipt) in
  let! bytes := HeapBuffer.as_slice (Request.d_buf completed) in
  do! assert (all_are 90 bytes) in
  drop completed.
(* src/src/owned/miri.rs:1075-1095 dropping_a_pending_ticket_does_not_free_the_kernels_buffer *)
Definition dropping_a_pending_ticket_does_not_free_the_kernels_buffer : Run unit :=
  let! cycle := Lifecycle.new in
  let! buf := HeapBuffer.with_capacity 48 in
  let! (kernel, pending) := Lifecycle.submit cycle (Request.read 3 buf 0) in
  do! drop pending in
  let! written := FakeKernel.complete_read kernel 17 in
  do! assert_eq written 48 in
  let! seen := FakeKernel.observe_write kernel in
  do! assert (all_are 17 seen) in
  let! ptr := FakeKernel.published_ptr kernel in
  HeapBuffer.reclaim_leaked ptr 48.
(** `core::mem::forget` runs no destructor at all. *)
(* src/src/owned/miri.rs:1097-1111 forgetting_a_pending_ticket_degrades_the_same_way_as_dropping_it *)
Definition forgetting_a_pending_ticket_degrades_the_same_way_as_dropping_it : Run unit :=
  let! cycle := Lifecycle.new in
  let! buf := HeapBuffer.with_capacity 16 in
  let! (kernel, _) := Lifecycle.submit cycle (Request.read 3 buf 0) in
  let! written := FakeKernel.complete_read kernel 34 in
  do! assert_eq written 16 in
  let! seen := FakeKernel.observe_write kernel in
  do! assert (all_are 34 seen) in
  let! ptr := FakeKernel.published_ptr kernel in
  HeapBuffer.reclaim_leaked ptr 16.
(* src/src/owned/miri.rs:1113-1129 reclaiming_an_unpublished_request_returns_usable_storage *)
Definition reclaiming_an_unpublished_request_returns_usable_storage : Run unit :=
  let! cycle := Lifecycle.new in
  let! buf := HeapBuffer.with_capacity 24 in
  let! (kernel, pending) := Lifecycle.submit cycle (Request.write 1 buf 0) in
  let addr := FakeKernel.addr kernel in
  let recovered := Request.reclaim_unsubmitted pending in
  do! assert_eq (as_u64 (stable_ptr (Request.p_buf recovered))) addr in
  do! set_index (HeapBuffer.as_mut_slice (Request.p_buf recovered)) 0 255 in
  let buf := Request.into_buffer recovered in
  let! bytes := HeapBuffer.as_slice buf in
  let! b0 := at_index bytes 0 in
  do! assert_eq b0 255 in
  drop buf.
(* src/src/owned/miri.rs:1131-1152 a_rejected_receipt_leaves_the_ticket_and_its_buffer_intact *)
Definition a_rejected_receipt_leaves_the_ticket_and_its_buffer_intact : Run unit :=
  let! cycle := Lifecycle.new in
  let! buf := HeapBuffer.with_capacity 16 in
  let! (kernel, pending) := Lifecycle.submit cycle (Request.read 3 buf 0) in
  let wrong := mkReceipt (Lifecycle.ring cycle) (u64_add (Request.t_id pending) 1) 16 0 in
  let! (pending, _) := expect_err (Request.redeem pending wrong) in
  let! result := FakeKernel.complete_read kernel 51 in
  let receipt := FakeKernel.post_completion kernel (Lifecycle.ring cycle) result in
  let! completed := expect (Request.redeem pending receipt) in
  let! bytes := HeapBuffer.as_slice (Request.d_buf completed) in
  do! assert (all_are 51 bytes) in
  drop completed.
(* src/src/owned/miri.rs:1154-1169 transfer_length_bounds_what_the_kernel_may_touch *)
Definition transfer_length_bounds_what_the_kernel_may_touch : Run unit :=
  let! cycle := Lifecycle.new in
  let! buf := HeapBuffer.with_capacity 64 in
  let prepared := Request.with_len 5 (Request.write 1 buf 0) in
  let! (kernel, pending) := Lifecycle.submit cycle prepared in
  do! assert_eq (FakeKernel.len kernel) 5 in
  let! seen := FakeKernel.observe_write kernel in
  do! assert_eq (length seen) 5%nat in
  let receipt := FakeKernel.post_completion kernel (Lifecycle.ring cycle) 5 in
  let! completed := expect (Request.redeem pending receipt) in
  let! n := expect (Request.completed_result completed) in
  do! assert_eq n 5 in
  drop completed.

(** *** Zero-copy sends *)
(* src/src/owned/miri.rs:1171-1205 the_nic_may_still_read_a_zero_copy_buffer_after_the_send_cqe *)
Definition the_nic_may_still_read_a_zero_copy_buffer_after_the_send_cqe : Run unit :=
  let! cycle := Lifecycle.new in
  let! buf := HeapBuffer.with_capacity 8 in
  let prepared := Zc.send 9 buf 0 in
  do! copy_from_slice (HeapBuffer.as_mut_slice (Zc.p_buf prepared)) (text "ququmatz") in
  let! (kernel, pending) := Lifecycle.submit_zc cycle prepared in
  let! pending := expect (Zc.record_sent pending (FakeKernel.post_send kernel (Lifecycle.ring cycle) 8)) in
  do! assert_eq (Zc.t_sent pending) (Some 8) in
  let! seen := FakeKernel.observe_write kernel in
  do! assert_eq seen (text "ququmatz") in
  let! completed :=
    expect (Zc.redeem pending (FakeKernel.post_notification kernel (Lifecycle.ring cycle))) in
  let! n := expect (Zc.completed_result completed) in
  do! assert_eq n 8 in
  let! bytes := HeapBuffer.as_slice (Zc.d_buf completed) in
  do! assert_eq bytes (text "ququmatz") in
  drop completed.
(* src/src/owned/miri.rs:1207-1226 a_zero_copy_send_that_promises_no_notification_is_terminal_at_once *)
Definition a_zero_copy_send_that_promises_no_notification_is_terminal_at_once : Run unit :=
  let! cycle := Lifecycle.new in
  let! buf := HeapBuffer.with_capacity 4 in
  let! (kernel, pending) := Lifecycle.submit_zc cycle (Zc.send 9 buf 0) in
  let! completed :=
    expect (Zc.redeem pending (FakeKernel.post_completion kernel (Lifecycle.ring cycle) 4)) in
  do! assert_eq (Zc.d_sent completed) None in
  let! n := expect (Zc.completed_result completed) in
  do! assert_eq n 4 in
  drop completed.
(* src/src/owned/miri.rs:1228-1250 abandoning_a_zero_copy_send_leaks_rather_than_freeing_live_pages *)
Definition abandoning_a_zero_copy_send_leaks_rather_than_freeing_live_pages : Run unit :=
  let! cycle := Lifecycle.new in
  let! buf := HeapBuffer.with_capacity 16 in
  let! (kernel, pending) := Lifecycle.submit_zc cycle (Zc.send 9 buf 0) in
  let! pending := expect (Zc.record_sent pending (FakeKernel.post_send kernel (Lifecycle.ring cycle) 16)) in
  do! drop pending in
  let! seen := FakeKernel.observe_write kernel in
  do! assert_eq (length seen) 16%nat in
  let! ptr := FakeKernel.published_ptr kernel in
  HeapBuffer.reclaim_leaked ptr 16.
(* src/src/owned/miri.rs:1252-1280 a_send_notice_for_another_request_is_rejected_without_disturbing_the_ticket *)
Definition a_send_notice_for_another_request_is_rejected_without_disturbing_the_ticket : Run unit :=
  let! cycle := Lifecycle.new in
  let! buf := HeapBuffer.with_capacity 8 in
  let! (kernel, pending) := Lifecycle.submit_zc cycle (Zc.send 9 buf 0) in
  let wrong := PartialReceipt.mk (Lifecycle.ring cycle) (u64_add (Zc.t_id pending) 1) 8 CqeFlags.MORE in
  let! (pending, _) := expect_err (Zc.record_sent pending wrong) in
  do! assert_eq (Zc.t_sent pending) None in
  let! seen := FakeKernel.observe_write kernel in
  do! assert_eq (length seen) 8%nat in
  let! completed :=
    expect (Zc.redeem pending (FakeKernel.post_notification kernel (Lifecycle.ring cycle))) in
  drop completed.
(* src/src/owned/miri.rs:1282-1302 reclaiming_an_unpublished_zero_copy_send_returns_usable_storage *)
Definition reclaiming_an_unpublished_zero_copy_send_returns_usable_storage : Run unit :=
  let! cycle := Lifecycle.new in
  let! buf := HeapBuffer.with_capacity 12 in
  let! (kernel, pending) := Lifecycle.submit_zc cycle (Zc.send 9 buf 0) in
  let addr := FakeKernel.addr kernel in
  let recovered := Zc.reclaim_unsubmitted pending in
  do! assert_eq (as_u64 (stable_ptr (Zc.p_buf recovered))) addr in
  do! set_index (HeapBuffer.as_mut_slice (Zc.p_buf recovered)) 0 255 in
  let buf := Zc.into_buffer recovered in
  let! bytes := HeapBuffer.as_slice buf in
  let! b0 := at_index bytes 0 in
  do! assert_eq b0 255 in
  drop buf.

(** The requests of `many_concurrent_tickets`, in flight. *)
Fixpoint launch (cycle : Lifecycle.t) (fills : list Z)
  : Run (list (FakeKernel.t * Request.Pending HeapBuffer * Z)) :=
  match fills with
  | [] => ret []
  | i :: fills =>
      let! buf := HeapBuffer.with_capacity 8 in
      let! (kernel, pending) := Lifecycle.submit cycle (Request.read 3 buf 0) in
      let! _ := FakeKernel.complete_read kernel i in
      let! rest := launch cycle fills in ret ((kernel, pending, i) :: rest)
  end.
Fixpoint land (cycle : Lifecycle.t) (inflight : list (FakeKernel.t * Request.Pending HeapBuffer * Z))
  : Run unit :=
  match inflight with
  | [] => ret tt
  | (kernel, pending, fill) :: inflight =>
      let receipt := FakeKernel.post_completion kernel (Lifecycle.ring cycle) 8 in
      let! completed := expect (Request.redeem pending receipt) in
      do! assert match Request.d_direction completed with Read => true | Write => false end in
      let! bytes := HeapBuffer.as_slice (Request.d_buf completed) in
      do! assert (all_are fill bytes) in
      do! drop completed in land cycle inflight
  end.
(* src/src/owned/miri.rs:2982-3003 many_concurrent_tickets_keep_their_buffers_distinct *)
Definition many_concurrent_tickets_keep_their_buffers_distinct : Run unit :=
  let! cycle := Lifecycle.new in
  let! inflight := launch cycle (seqZ 0 16) in
  land cycle (reverse inflight).

(** *** Messages *)
(* src/src/owned/miri.rs:1746-1751 msg_region *)
Definition msg_region (n : Z) : Run HeapBuffer :=
  let needed := Z.of_nat (size_of MsgHdr) + Z.of_nat (size_of IoVec) * n
                + Z.of_nat (size_of SockAddrIn) in
  HeapBuffer.with_alignment needed (align_of MsgHdr).
(* src/src/owned/miri.rs:1754-1758 heap_filled *)
Definition heap_filled (bytes : list Z) : Run HeapBuffer :=
  let! buf := HeapBuffer.with_capacity (Z.of_nat (length bytes)) in
  do! copy_from_slice (HeapBuffer.as_mut_slice buf) bytes in ret buf.
Fixpoint heap_all (texts : list (list Z)) : Run (list HeapBuffer) :=
  match texts with
  | [] => ret []
  | t :: texts => let! b := heap_filled t in let! bs := heap_all texts in ret (b :: bs)
  end.
Fixpoint capacities (lens : list Z) : Run (list HeapBuffer) :=
  match lens with
  | [] => ret []
  | n :: lens => let! b := HeapBuffer.with_capacity n in let! bs := capacities lens in ret (b :: bs)
  end.
(* src/src/owned/miri.rs:1760-1791 the_kernel_reaches_a_messages_bytes_by_following_the_header_it_published *)
Definition the_kernel_reaches_a_messages_bytes_by_following_the_header_it_published : Run unit :=
  let! cycle := Lifecycle.new in
  let! bufs := heap_all [text "one"; text "two!"; text "five5"] in
  let! region := msg_region 3 in
  let! prepared := lib (Sendmsg.new 7 bufs region Sendmsg.Connected 0) in
  let! prepared := expect prepared in
  let! (kernel, pending) := Lifecycle.submit_sendmsg cycle prepared in
  let! seen := FakeKernel.observe_sendmsg kernel in
  do! assert_eq seen (text "onetwo!five5") in
  let! name := FakeKernel.message_name kernel in
  do! assert (match name with None => true | Some _ => false end) in
  let receipt := FakeKernel.post_completion kernel (Lifecycle.ring cycle) 12 in
  let! done := expect (Sendmsg.redeem pending receipt) in
  let! n := expect (Sendmsg.completed_result done) in
  do! assert_eq n 12 in
  let '(_, bufs, store) := Sendmsg.into_parts done in
  drop (bufs, store).
(* src/src/owned/miri.rs:1793-1831 a_messages_three_regions_survive_the_ticket_moving_between_owners *)
Definition a_messages_three_regions_survive_the_ticket_moving_between_owners : Run unit :=
  let! cycle := Lifecycle.new in
  let addr := v4 4242 127 0 0 1 in
  let! bufs := heap_all [text "travel"; text "ling"] in
  let! region := msg_region 2 in
  let! prepared := lib (Sendmsg.new 7 bufs region (Sendmsg.To addr) 0) in
  let! prepared := expect prepared in
  let! (kernel, pending) := Lifecycle.submit_sendmsg cycle prepared in
  let pending := moved pending in
  let! seen := FakeKernel.observe_sendmsg kernel in
  do! assert_eq seen (text "travelling") in
  let! name := FakeKernel.message_name kernel in
  let! name := expect_some name in
  do! assert (same_addr name addr) in
  let receipt := FakeKernel.post_completion kernel (Lifecycle.ring cycle) 10 in
  let! done := expect (Sendmsg.redeem pending receipt) in
  let '(_, bufs, store) := Sendmsg.into_parts done in
  drop (bufs, store).
(* src/src/owned/miri.rs:1833-1871 abandoning_a_sendmsg_leaks_every_region_rather_than_freeing_them *)
Definition abandoning_a_sendmsg_leaks_every_region_rather_than_freeing_them : Run unit :=
  let! cycle := Lifecycle.new in
  let! region := msg_region 2 in
  let! first := heap_filled (text "abandon") in
  let! second := heap_filled (text "ed") in
  let leaked_bufs := [place first; place second] in
  let! prepared := lib (Sendmsg.new 7 [first; second] region Sendmsg.Connected 0) in
  let! prepared := expect prepared in
  let! (kernel, pending) := Lifecycle.submit_sendmsg cycle prepared in
  do! drop pending in
  let! seen := FakeKernel.observe_sendmsg kernel in
  do! assert_eq seen (text "abandoned") in
  let! l := HeapBuffer.layout_of (HeapBuffer.len region) (HeapBuffer.align region) in
  do! dealloc (HeapBuffer.ptr region) (fst l) (snd l) in
  reclaim_each leaked_bufs.
(* src/src/owned/miri.rs:1873-1898 reclaiming_an_unpublished_sendmsg_returns_every_storage_and_its_header *)
Definition reclaiming_an_unpublished_sendmsg_returns_every_storage_and_its_header : Run unit :=
  let! cycle := Lifecycle.new in
  let! bufs := heap_all [text "unsent"] in
  let! region := msg_region 1 in
  let! prepared := lib (Sendmsg.new 7 bufs region Sendmsg.Connected MsgFlags.NOSIGNAL) in
  let! prepared := expect prepared in
  let! (_, pending) := Lifecycle.submit_sendmsg cycle prepared in
  let prepared := Sendmsg.reclaim_unsubmitted pending in
  do! assert_eq (Sendmsg.p_flags prepared) MsgFlags.NOSIGNAL in
  do! assert (negb (Sendmsg.is_to (Sendmsg.p_target prepared))) in
  let! hdr := peek (Sendmsg.published_header prepared) in
  do! assert_eq (msg_iovlen hdr) 1 in
  let! total := peek (Sendmsg.total_len prepared) in
  do! assert_eq total 6 in
  let '(bufs, store) := Sendmsg.prepared_into_parts prepared in
  drop (bufs, store).
(* src/src/owned/miri.rs:1900-1936 the_kernel_fills_a_receives_buffers_by_following_the_header_it_published *)
Definition the_kernel_fills_a_receives_buffers_by_following_the_header_it_published : Run unit :=
  let! cycle := Lifecycle.new in
  let! bufs := capacities [3; 4; 5] in
  let! region := msg_region 3 in
  let! prepared := lib (Recvmsg.new 7 bufs region Recvmsg.No 0) in
  let! prepared := expect prepared in
  let! (kernel, pending) := Lifecycle.submit_recvmsg cycle prepared in
  let! written := FakeKernel.deliver_recvmsg kernel (text "onetwo!five5") None in
  do! assert_eq written 12 in
  let receipt := FakeKernel.post_completion kernel (Lifecycle.ring cycle) 12 in
  let! done := expect (Recvmsg.redeem pending receipt) in
  let! received := peek (Recvmsg.received done) in
  let! received := expect received in
  do! assert_eq (Recvmsg.bytes received) 12 in
  do! assert (negb (Recvmsg.truncated received)) in
  let! parts := peek (Recvmsg.into_parts done) in
  let '(_, _, bufs, store) := parts in
  let! b0 := at_index bufs 0 in let! b1 := at_index bufs 1 in let! b2 := at_index bufs 2 in
  let! s0 := HeapBuffer.as_slice b0 in do! assert_eq s0 (text "one") in
  let! s1 := HeapBuffer.as_slice b1 in do! assert_eq s1 (text "two!") in
  let! s2 := HeapBuffer.as_slice b2 in do! assert_eq s2 (text "five5") in
  do! drop store in drop bufs.
(* src/src/owned/miri.rs:1938-1978 a_receives_three_regions_survive_the_ticket_moving_between_owners *)
Definition a_receives_three_regions_survive_the_ticket_moving_between_owners : Run unit :=
  let! cycle := Lifecycle.new in
  let! bufs := capacities [6; 4] in
  let! region := msg_region 2 in
  let! prepared := lib (Recvmsg.new 7 bufs region Recvmsg.Yes 0) in
  let! prepared := expect prepared in
  let! (kernel, pending) := Lifecycle.submit_recvmsg cycle prepared in
  let pending := moved pending in
  let peer := v4 4242 127 0 0 1 in
  let! written := FakeKernel.deliver_recvmsg kernel (text "travelling") (Some peer) in
  do! assert_eq written 10 in
  let receipt := FakeKernel.post_completion kernel (Lifecycle.ring cycle) 10 in
  let! done := expect (Recvmsg.redeem pending receipt) in
  let! seen := peek (Recvmsg.peer done) in
  let! seen := expect_some (Recvmsg.peer_v4 seen) in
  do! assert (same_addr seen peer) in
  let! parts := peek (Recvmsg.into_parts done) in
  let '(_, _, bufs, store) := parts in
  let! b0 := at_index bufs 0 in let! b1 := at_index bufs 1 in
  let! s0 := HeapBuffer.as_slice b0 in do! assert_eq s0 (text "travel") in
  let! s1 := HeapBuffer.as_slice b1 in do! assert_eq s1 (text "ling") in
  do! drop store in drop bufs.
(* src/src/owned/miri.rs:1980-2008 a_truncated_receive_reports_through_the_header_the_kernel_wrote *)
Definition a_truncated_receive_reports_through_the_header_the_kernel_wrote : Run unit :=
  let! cycle := Lifecycle.new in
  let! bufs := capacities [2] in
  let! region := msg_region 1 in
  let! prepared := lib (Recvmsg.new 7 bufs region Recvmsg.No 0) in
  let! prepared := expect prepared in
  let! (kernel, pending) := Lifecycle.submit_recvmsg cycle prepared in
  let! written := FakeKernel.deliver_recvmsg kernel (text "eleven byte") None in
  do! assert_eq written 2 in
  let receipt := FakeKernel.post_completion kernel (Lifecycle.ring cycle) 2 in
  let! done := expect (Recvmsg.redeem pending receipt) in
  let! received := peek (Recvmsg.received done) in
  let! received := expect received in
  do! assert_eq (Recvmsg.bytes received) 2 in
  do! assert (Recvmsg.truncated received) in
  let! parts := peek (Recvmsg.into_parts done) in
  let '(_, _, bufs, store) := parts in
  let! b0 := at_index bufs 0 in
  let! s0 := HeapBuffer.as_slice b0 in do! assert_eq s0 (text "el") in
  do! drop store in drop bufs.
(* src/src/owned/miri.rs:2010-2035 a_peer_too_large_for_the_slot_is_not_read_out_of_the_bytes_that_did_fit *)
Definition a_peer_too_large_for_the_slot_is_not_read_out_of_the_bytes_that_did_fit : Run unit :=
  let! cycle := Lifecycle.new in
  let! bufs := capacities [4] in
  let! region := msg_region 1 in
  let! prepared := lib (Recvmsg.new 7 bufs region Recvmsg.Yes 0) in
  let! prepared := expect prepared in
  let! (kernel, pending) := Lifecycle.submit_recvmsg cycle prepared in
  let! written := FakeKernel.deliver_oversized_peer kernel (text "six") 28 in
  do! assert_eq written 3 in
  let receipt := FakeKernel.post_completion kernel (Lifecycle.ring cycle) 3 in
  let! done := expect (Recvmsg.redeem pending receipt) in
  let! peer := peek (Recvmsg.peer done) in
  do! assert (Recvmsg.is_truncated peer) in
  do! assert (match Recvmsg.peer_v4 peer with None => true | Some _ => false end) in
  let! parts := peek (Recvmsg.into_parts done) in
  let '(_, _, bufs, store) := parts in drop (bufs, store).
(* src/src/owned/miri.rs:2037-2076 a_short_address_is_refused_even_when_the_bytes_present_look_like_ipv4 *)
Definition a_short_address_is_refused_even_when_the_bytes_present_look_like_ipv4 : Run unit :=
  let! cycle := Lifecycle.new in
  let! bufs := capacities [4] in
  let! region := msg_region 1 in
  let! prepared := lib (Recvmsg.new 7 bufs region Recvmsg.Yes 0) in
  let! prepared := expect prepared in
  let! (kernel, pending) := Lifecycle.submit_recvmsg cycle prepared in
  let looks_right := v4 9999 10 1 2 3 in
  let! written :=
    FakeKernel.deliver_with_reported_namelen kernel (text "four") 11 (Some looks_right) in
  do! assert_eq written 4 in
  let receipt := FakeKernel.post_completion kernel (Lifecycle.ring cycle) 4 in
  let! done := expect (Recvmsg.redeem pending receipt) in
  let! peer := peek (Recvmsg.peer done) in
  do! assert (match Recvmsg.peer_v4 peer with None => true | Some _ => false end) in
  do! assert (negb (Recvmsg.is_truncated peer)) in
  let! parts := peek (Recvmsg.into_parts done) in
  let '(_, _, bufs, store) := parts in drop (bufs, store).
(* src/src/owned/miri.rs:2078-2115 abandoning_a_recvmsg_leaks_every_region_rather_than_freeing_them *)
Definition abandoning_a_recvmsg_leaks_every_region_rather_than_freeing_them : Run unit :=
  let! cycle := Lifecycle.new in
  let! region := msg_region 2 in
  let! first := HeapBuffer.with_capacity 7 in
  let! second := HeapBuffer.with_capacity 2 in
  let leaked_bufs := [place first; place second] in
  let! prepared := lib (Recvmsg.new 7 [first; second] region Recvmsg.No 0) in
  let! prepared := expect prepared in
  let! (kernel, pending) := Lifecycle.submit_recvmsg cycle prepared in
  do! drop pending in
  let! written := FakeKernel.deliver_recvmsg kernel (text "abandoned") None in
  do! assert_eq written 9 in
  let! l := HeapBuffer.layout_of (HeapBuffer.len region) (HeapBuffer.align region) in
  do! dealloc (HeapBuffer.ptr region) (fst l) (snd l) in
  reclaim_each leaked_bufs.
(* src/src/owned/miri.rs:2117-2146 reclaiming_an_unpublished_recvmsg_returns_every_storage_and_its_header *)
Definition reclaiming_an_unpublished_recvmsg_returns_every_storage_and_its_header : Run unit :=
  let! cycle := Lifecycle.new in
  let! bufs := capacities [6] in
  let! region := msg_region 1 in
  let! prepared := lib (Recvmsg.new 7 bufs region Recvmsg.Yes MsgFlags.DONTWAIT) in
  let! prepared := expect prepared in
  let! (_, pending) := Lifecycle.submit_recvmsg cycle prepared in
  let prepared := Recvmsg.reclaim_unsubmitted pending in
  do! assert_eq (Recvmsg.p_flags prepared) MsgFlags.DONTWAIT in
  do! assert (match Recvmsg.p_peer prepared with Recvmsg.Yes => true | Recvmsg.No => false end) in
  let! hdr := peek (Region.header (Recvmsg.p_region prepared)) in
  do! assert_eq (msg_iovlen hdr) 1 in
  do! assert_eq (msg_namelen hdr) (Z.of_nat (size_of SockAddrIn)) in
  let! cap := peek (Recvmsg.capacity prepared) in
  do! assert_eq cap 6 in
  let '(bufs, store) := Recvmsg.prepared_into_parts prepared in
  drop (bufs, store).

Definition io_tests : list (Run unit) := [
  kernel_write_through_the_sqe_pointer_lands_in_the_owned_buffer;
  the_kernel_reaches_every_vectored_buffer_through_the_published_array;
  a_vectored_ticket_keeps_its_array_valid_across_moves;
  a_gather_write_publishes_the_bytes_each_buffer_staged;
  abandoning_a_vectored_ticket_leaks_rather_than_freeing_live_storage;
  reclaiming_an_unpublished_vectored_request_returns_usable_storage;
  kernel_reads_the_bytes_the_caller_staged_before_submission;
  buffer_survives_the_ticket_moving_between_owners;
  dropping_a_pending_ticket_does_not_free_the_kernels_buffer;
  forgetting_a_pending_ticket_degrades_the_same_way_as_dropping_it;
  reclaiming_an_unpublished_request_returns_usable_storage;
  a_rejected_receipt_leaves_the_ticket_and_its_buffer_intact;
  transfer_length_bounds_what_the_kernel_may_touch;
  the_nic_may_still_read_a_zero_copy_buffer_after_the_send_cqe;
  a_zero_copy_send_that_promises_no_notification_is_terminal_at_once;
  abandoning_a_zero_copy_send_leaks_rather_than_freeing_live_pages;
  a_send_notice_for_another_request_is_rejected_without_disturbing_the_ticket;
  reclaiming_an_unpublished_zero_copy_send_returns_usable_storage;
  many_concurrent_tickets_keep_their_buffers_distinct;
  the_kernel_reaches_a_messages_bytes_by_following_the_header_it_published;
  a_messages_three_regions_survive_the_ticket_moving_between_owners;
  abandoning_a_sendmsg_leaks_every_region_rather_than_freeing_them;
  reclaiming_an_unpublished_sendmsg_returns_every_storage_and_its_header;
  the_kernel_fills_a_receives_buffers_by_following_the_header_it_published;
  a_receives_three_regions_survive_the_ticket_moving_between_owners;
  a_truncated_receive_reports_through_the_header_the_kernel_wrote;
  a_peer_too_large_for_the_slot_is_not_read_out_of_the_bytes_that_did_fit;
  a_short_address_is_refused_even_when_the_bytes_present_look_like_ipv4;
  abandoning_a_recvmsg_leaks_every_region_rather_than_freeing_them;
  reclaiming_an_unpublished_recvmsg_returns_every_storage_and_its_header].
End Tests.
Lemma io_tests_pass {PW : PtrWidth} {TA : TargetArch} : forallb passes io_tests = true.
Proof. destruct PW as [b [->| ->]]; vm_compute; reflexivity. Qed.
