(* ===== verification/MiriPaths.v ===== *)
(** * The tests of owned/miri.rs: paths *)
From stdpp Require Import base numbers list option.
From Stdlib Require Import ZArith Lia.
From Stdlib Require String.
From S2P Require Import Prelude Flags Types UserMem Sqe Owned OwnedPath OwnedDirect OwnedMemory Miri.
Import String.StringSyntax.
Local Open Scope Z_scope.
Local Open Scope rust_scope.

#[local] Instance kind_eq_dec : EqDecision PathOp.Kind.
Proof. solve_decision. Defined.
#[local] Instance rename_mode_eq_dec : EqDecision Rename.Mode.
Proof. solve_decision. Defined.
#[local] Instance slot_target_eq_dec : EqDecision Slot.Target.
Proof. solve_decision. Defined.

Section Tests.
  Context {PW : PtrWidth} {TA : TargetArch}.
(* src/src/owned/miri.rs:1305-1315 heap_path *)
Definition heap_path (t : list Z) : Run (Path HeapBuffer) :=
  let! storage := HeapBuffer.with_capacity 64 in
  do! fill (HeapBuffer.as_mut_slice storage) 255 in
  let! path := lib (OwnedPath.copy_into storage t) in expect path.
(** `drop(path.into_storage())` *)
Definition drop_storage (p : Path HeapBuffer) : Run unit := drop (OwnedPath.into_storage p).
Definition path_is (p : Path HeapBuffer) (t : list Z) : Run unit :=
  let! bytes := peek (OwnedPath.as_bytes p) in assert_eq bytes t.
Definition resolves_to (kernel : FakeKernel.t) (t : list Z) : Run unit :=
  let! seen := FakeKernel.resolve_path kernel in assert_eq seen t.
Definition second_resolves_to (kernel : FakeKernel.t) (t : list Z) : Run unit :=
  let! seen := FakeKernel.resolve_second_path kernel in assert_eq seen t.

(* src/src/owned/miri.rs:1317-1342 the_kernel_scan_stops_inside_the_storage_the_ticket_owns *)
Definition the_kernel_scan_stops_inside_the_storage_the_ticket_owns : Run unit :=
  let! cycle := Lifecycle.new in
  let! path := heap_path (text "/etc/hostname") in
  let! (kernel, pending) := Lifecycle.submit_open cycle (Open.cwd path 0 0) in
  do! resolves_to kernel (text "/etc/hostname") in
  let! opened := expect (Open.redeem pending (FakeKernel.post_open kernel (Lifecycle.ring cycle) 5)) in
  do! assert (Open.is_ok opened) in
  let '(file, path) := Open.into_parts opened in
  do! path_is path (text "/etc/hostname") in
  let! _ := expect_some file in
  drop path.
(* src/src/owned/miri.rs:1344-1368 a_path_stays_readable_while_the_ticket_moves_between_owners *)
Definition a_path_stays_readable_while_the_ticket_moves_between_owners : Run unit :=
  let! cycle := Lifecycle.new in
  let! path := heap_path (text "/tmp/moved") in
  let! (kernel, pending) :=
    Lifecycle.submit_open cycle (Open.cwd path OpenFlags.CREAT FileMode.OWNER_READ) in
  let pending := moved pending in
  do! resolves_to kernel (text "/tmp/moved") in
  let! opened := expect (Open.redeem pending (FakeKernel.post_open kernel (Lifecycle.ring cycle) 9)) in
  let! _ := expect_some (Open.into_file opened) in
  drop (Open.d_path opened).
(* src/src/owned/miri.rs:1370-1392 a_failed_open_leaves_no_descriptor_to_leak *)
Definition a_failed_open_leaves_no_descriptor_to_leak : Run unit :=
  let! cycle := Lifecycle.new in
  let! path := heap_path (text "/nope") in
  let! (kernel, pending) := Lifecycle.submit_open cycle (Open.cwd path 0 0) in
  let! opened := expect (Open.redeem pending (FakeKernel.post_open kernel (Lifecycle.ring cycle) (-2))) in
  do! assert (negb (Open.is_ok opened)) in
  let '(file, path) := Open.into_parts opened in
  do! assert_eq file None in
  do! path_is path (text "/nope") in
  drop_storage path.
(* src/src/owned/miri.rs:1394-1416 abandoning_an_open_ticket_leaks_rather_than_freeing_the_path *)
Definition abandoning_an_open_ticket_leaks_rather_than_freeing_the_path : Run unit :=
  let! cycle := Lifecycle.new in
  let! storage := HeapBuffer.with_capacity 64 in
  let leaked := place storage in
  let! path := lib (OwnedPath.copy_into storage (text "/tmp/abandoned")) in
  let! path := expect path in
  let! (kernel, pending) := Lifecycle.submit_open cycle (Open.cwd path 0 0) in
  do! drop pending in
  do! resolves_to kernel (text "/tmp/abandoned") in
  HeapBuffer.reclaim_leaked (fst leaked) (snd leaked).
(* src/src/owned/miri.rs:1418-1434 a_path_ops_path_is_scanned_within_the_storage_the_ticket_owns *)
Definition a_path_ops_path_is_scanned_within_the_storage_the_ticket_owns : Run unit :=
  let! cycle := Lifecycle.new in
  let! path := heap_path (text "/tmp/doomed") in
  let! (kernel, pending) := Lifecycle.submit_path_op cycle (PathOp.unlink_cwd path) in
  do! resolves_to kernel (text "/tmp/doomed") in
  let! done := expect (PathOp.redeem pending (FakeKernel.post_status kernel (Lifecycle.ring cycle) 0)) in
  do! assert (PathOp.is_ok done) in
  drop_storage (PathOp.into_path done).
(* src/src/owned/miri.rs:1436-1454 a_path_op_keeps_its_path_readable_while_the_ticket_moves *)
Definition a_path_op_keeps_its_path_readable_while_the_ticket_moves : Run unit :=
  let! cycle := Lifecycle.new in
  let! path := heap_path (text "/tmp/fresh") in
  let! (kernel, pending) := Lifecycle.submit_path_op cycle (PathOp.mkdir_cwd path FileMode.OWNER_READ) in
  let pending := moved pending in
  do! resolves_to kernel (text "/tmp/fresh") in
  let! done := expect (PathOp.redeem pending (FakeKernel.post_status kernel (Lifecycle.ring cycle) 0)) in
  do! assert_eq (PathOp.d_kind done) (PathOp.Mkdir FileMode.OWNER_READ) in
  drop_storage (PathOp.into_path done).
(* src/src/owned/miri.rs:1456-1476 abandoning_a_path_op_leaks_rather_than_freeing_the_path *)
Definition abandoning_a_path_op_leaks_rather_than_freeing_the_path : Run unit :=
  let! cycle := Lifecycle.new in
  let! storage := HeapBuffer.with_capacity 64 in
  let leaked := place storage in
  let! path := lib (OwnedPath.copy_into storage (text "/tmp/abandoned")) in
  let! path := expect path in
  let! (kernel, pending) := Lifecycle.submit_path_op cycle (PathOp.rmdir_cwd path) in
  do! drop pending in
  do! resolves_to kernel (text "/tmp/abandoned") in
  HeapBuffer.reclaim_leaked (fst leaked) (snd leaked).
(* src/src/owned/miri.rs:1478-1490 reclaiming_an_unpublished_path_op_returns_the_path_and_its_kind *)
Definition reclaiming_an_unpublished_path_op_returns_the_path_and_its_kind : Run unit :=
  let! cycle := Lifecycle.new in
  let! path := heap_path (text "/tmp/never_sent") in
  let! (_, pending) := Lifecycle.submit_path_op cycle (PathOp.rmdir_cwd path) in
  let prepared := PathOp.reclaim_unsubmitted pending in
  do! assert_eq (PathOp.p_kind prepared) PathOp.Rmdir in
  do! path_is (PathOp.p_path prepared) (text "/tmp/never_sent") in
  drop_storage (PathOp.prepared_into_path prepared).

(** *** Renames *)
(* src/src/owned/miri.rs:1492-1516 a_rename_keeps_both_paths_readable_at_once *)
Definition a_rename_keeps_both_paths_readable_at_once : Run unit :=
  let! cycle := Lifecycle.new in
  let! from := heap_path (text "/tmp/source") in
  let! to := heap_path (text "/tmp/destination") in
  let! (kernel, pending) := Lifecycle.submit_rename cycle (Rename.cwd from to Rename.NoReplace) in
  do! resolves_to kernel (text "/tmp/source") in
  do! second_resolves_to kernel (text "/tmp/destination") in
  let! done := expect (Rename.redeem pending (FakeKernel.post_status kernel (Lifecycle.ring cycle) 0)) in
  let '(from, to) := Rename.into_paths done in
  do! path_is from (text "/tmp/source") in
  do! path_is to (text "/tmp/destination") in
  drop (OwnedPath.into_storage from, OwnedPath.into_storage to).
(* src/src/owned/miri.rs:1518-1541 a_renames_two_paths_survive_the_ticket_moving_between_owners *)
Definition a_renames_two_paths_survive_the_ticket_moving_between_owners : Run unit :=
  let! cycle := Lifecycle.new in
  let! from := heap_path (text "/tmp/moving_from") in
  let! to := heap_path (text "/tmp/moving_to") in
  let! (kernel, pending) := Lifecycle.submit_rename cycle (Rename.cwd from to Rename.Exchange) in
  let pending := moved pending in
  do! resolves_to kernel (text "/tmp/moving_from") in
  do! second_resolves_to kernel (text "/tmp/moving_to") in
  let! done := expect (Rename.redeem pending (FakeKernel.post_status kernel (Lifecycle.ring cycle) 0)) in
  let '(from, to) := Rename.into_paths done in
  drop (OwnedPath.into_storage from, OwnedPath.into_storage to).
(* src/src/owned/miri.rs:1543-1571 abandoning_a_rename_leaks_both_paths_rather_than_freeing_them *)
Definition abandoning_a_rename_leaks_both_paths_rather_than_freeing_them : Run unit :=
  let! cycle := Lifecycle.new in
  let! from_storage := HeapBuffer.with_capacity 64 in
  let! to_storage := HeapBuffer.with_capacity 64 in
  let leaked := [place from_storage; place to_storage] in
  let! from := lib (OwnedPath.copy_into from_storage (text "/tmp/left")) in
  let! from := expect from in
  let! to := lib (OwnedPath.copy_into to_storage (text "/tmp/right")) in
  let! to := expect to in
  let! (kernel, pending) := Lifecycle.submit_rename cycle (Rename.cwd from to Rename.Replace) in
  do! drop pending in
  do! resolves_to kernel (text "/tmp/left") in
  do! second_resolves_to kernel (text "/tmp/right") in
  reclaim_each leaked.
(* src/src/owned/miri.rs:1573-1591 reclaiming_an_unpublished_rename_returns_both_paths_and_its_mode *)
Definition reclaiming_an_unpublished_rename_returns_both_paths_and_its_mode : Run unit :=
  let! cycle := Lifecycle.new in
  let! from := heap_path (text "/tmp/unsent_from") in
  let! to := heap_path (text "/tmp/unsent_to") in
  let! (_, pending) := Lifecycle.submit_rename cycle (Rename.cwd from to Rename.NoReplace) in
  let prepared := Rename.reclaim_unsubmitted pending in
  do! assert_eq (Rename.p_mode prepared) Rename.NoReplace in
  let '(from, to) := Rename.prepared_into_paths prepared in
  do! path_is from (text "/tmp/unsent_from") in
  do! path_is to (text "/tmp/unsent_to") in
  drop (OwnedPath.into_storage from, OwnedPath.into_storage to).

(** *** openat2 *)
(* src/src/owned/miri.rs:1594-1596 how_store *)
Definition how_store : Run HeapBuffer :=
  HeapBuffer.with_alignment (Z.of_nat (size_of OpenHow)) (align_of OpenHow).
(* src/src/owned/miri.rs:1598-1606 prepared_openat2 *)
Definition prepared_openat2 (path : list Z) (mode : Openat2.Mode) (resolve : Z)
  : Run (Openat2.Prepared HeapBuffer HeapBuffer) :=
  let! path := heap_path path in
  let! store := how_store in
  let! prepared := lib (Openat2.cwd path OpenFlags.RDWR mode resolve store) in expect prepared.
(* src/src/owned/miri.rs:1608-1643 an_openat2_keeps_its_path_and_its_open_how_readable_at_once *)
Definition an_openat2_keeps_its_path_and_its_open_how_readable_at_once : Run unit :=
  let! cycle := Lifecycle.new in
  let! prepared := prepared_openat2 (text "/tmp/two_regions") (Openat2.Create FileMode.OWNER_READ)
                     ResolveFlags.NO_SYMLINKS in
  let! (kernel, pending) := Lifecycle.submit_openat2 cycle prepared in
  do! resolves_to kernel (text "/tmp/two_regions") in
  let! how := FakeKernel.read_open_how kernel in
  do! assert_eq (how_flags how) (OpenFlags.RDWR ||| OpenFlags.CREAT) in
  do! assert_eq (how_mode how) FileMode.OWNER_READ in
  do! assert_eq (how_resolve how) ResolveFlags.NO_SYMLINKS in
  do! assert_eq (FakeKernel.published_how_size kernel) (Z.of_nat (size_of OpenHow)) in
  let! done := expect (Openat2.redeem pending (FakeKernel.post_open kernel (Lifecycle.ring cycle) 7)) in
  let '(file, path, store) := Openat2.into_parts done in
  do! path_is path (text "/tmp/two_regions") in
  drop (OwnedPath.into_storage path, store).
(* src/src/owned/miri.rs:1645-1671 an_openat2s_two_regions_survive_the_ticket_moving_between_owners *)
Definition an_openat2s_two_regions_survive_the_ticket_moving_between_owners : Run unit :=
  let! cycle := Lifecycle.new in
  let! prepared := prepared_openat2 (text "/tmp/travelling") (Openat2.Tmpfile FileMode.OWNER_WRITE)
                     ResolveFlags.BENEATH in
  let! (kernel, pending) := Lifecycle.submit_openat2 cycle prepared in
  let pending := moved pending in
  do! resolves_to kernel (text "/tmp/travelling") in
  let! how := FakeKernel.read_open_how kernel in
  do! assert_eq (how_resolve how) ResolveFlags.BENEATH in
  let! done := expect (Openat2.redeem pending (FakeKernel.post_open kernel (Lifecycle.ring cycle) 9)) in
  let '(file, path, store) := Openat2.into_parts done in
  drop (OwnedPath.into_storage path, store).
(* src/src/owned/miri.rs:1673-1709 abandoning_an_openat2_leaks_both_regions_rather_than_freeing_them *)
Definition abandoning_an_openat2_leaks_both_regions_rather_than_freeing_them : Run unit :=
  let! cycle := Lifecycle.new in
  let! path_storage := HeapBuffer.with_capacity 64 in
  let! how_storage := how_store in
  let leaked_path := place path_storage in
  let! path := lib (OwnedPath.copy_into path_storage (text "/tmp/dropped")) in
  let! path := expect path in
  let! prepared := lib (Openat2.cwd path OpenFlags.RDWR (Openat2.Create FileMode.OWNER_READ) 0 how_storage) in
  let! prepared := expect prepared in
  let! (kernel, pending) := Lifecycle.submit_openat2 cycle prepared in
  do! drop pending in
  do! resolves_to kernel (text "/tmp/dropped") in
  let! how := FakeKernel.read_open_how kernel in
  do! assert_eq (how_mode how) 256 in
  do! HeapBuffer.reclaim_leaked (fst leaked_path) (snd leaked_path) in
  let! l := HeapBuffer.layout_of (HeapBuffer.len how_storage) (HeapBuffer.align how_storage) in
  dealloc (HeapBuffer.ptr how_storage) (fst l) (snd l).
(* src/src/owned/miri.rs:1711-1738 reclaiming_an_unpublished_openat2_returns_both_storages_and_its_mode *)
Definition reclaiming_an_unpublished_openat2_returns_both_storages_and_its_mode : Run unit :=
  let! cycle := Lifecycle.new in
  let! prepared := prepared_openat2 (text "/tmp/unsent") (Openat2.CreateNew FileMode.OWNER_WRITE)
                     ResolveFlags.IN_ROOT in
  let! (_, pending) := Lifecycle.submit_openat2 cycle prepared in
  let prepared := Openat2.reclaim_unsubmitted pending in
  do! assert_eq (Openat2.p_mode prepared) (Openat2.CreateNew FileMode.OWNER_WRITE) in
  do! assert_eq (Openat2.p_resolve prepared) ResolveFlags.IN_ROOT in
  let! how := peek (Openat2.published_how prepared) in
  do! assert_eq (how_resolve how) ResolveFlags.IN_ROOT in
  do! path_is (Openat2.p_path prepared) (text "/tmp/unsent") in
  let '(path, store) := Openat2.prepared_into_parts prepared in
  drop (OwnedPath.into_storage path, store).

(** *** statx *)
(* src/src/owned/miri.rs:2149-2151 statx_dest *)
Definition statx_dest : Run HeapBuffer :=
  HeapBuffer.with_alignment (Z.of_nat (size_of Statx)) (align_of Statx).
(* src/src/owned/miri.rs:2153-2178 the_kernel_writes_a_whole_statx_into_storage_the_ticket_keeps_alive *)
Definition the_kernel_writes_a_whole_statx_into_storage_the_ticket_keeps_alive : Run unit :=
  let! cycle := Lifecycle.new in
  let! path := heap_path (text "/etc/hostname") in
  let! dest := statx_dest in
  let! prepared := expect (StatxOp.cwd path 0 StatxMask.BASIC_STATS dest) in
  let! (kernel, pending) := Lifecycle.submit_statx cycle prepared in
  do! resolves_to kernel (text "/etc/hostname") in
  let! receipt := FakeKernel.complete_statx kernel (Lifecycle.ring cycle) StatxMask.BASIC_STATS 4096 in
  let! done := expect (StatxOp.redeem pending receipt) in
  let! stat := peek (StatxOp.stat done) in
  let! stat := expect_some stat in
  do! assert_eq (statx_size stat) (Some 4096) in
  do! assert_eq (statx_nlink stat) (Some 1) in
  let '(path, dest) := StatxOp.into_parts done in
  do! path_is path (text "/etc/hostname") in
  drop (OwnedPath.into_storage path, dest).
(* src/src/owned/miri.rs:2180-2207 a_statx_destination_stays_writable_while_the_ticket_moves *)
Definition a_statx_destination_stays_writable_while_the_ticket_moves : Run unit :=
  let! cycle := Lifecycle.new in
  let! path := heap_path (text "/tmp/moved") in
  let! dest := statx_dest in
  let! prepared := expect (StatxOp.cwd path 0 StatxMask.SIZE dest) in
  let! (kernel, pending) := Lifecycle.submit_statx cycle prepared in
  let pending := moved pending in
  do! resolves_to kernel (text "/tmp/moved") in
  let! receipt := FakeKernel.complete_statx kernel (Lifecycle.ring cycle) StatxMask.SIZE 17 in
  let! done := expect (StatxOp.redeem pending receipt) in
  let! stat := peek (StatxOp.stat done) in
  let! stat := expect_some stat in
  do! assert_eq (statx_size stat) (Some 17) in
  let '(path, dest) := StatxOp.into_parts done in
  drop (OwnedPath.into_storage path, dest).
(* src/src/owned/miri.rs:2209-2235 a_failed_statx_reads_nothing_from_the_untouched_destination *)
Definition a_failed_statx_reads_nothing_from_the_untouched_destination : Run unit :=
  let! cycle := Lifecycle.new in
  let! path := heap_path (text "/nope") in
  let! dest := statx_dest in
  let! prepared := expect (StatxOp.cwd path 0 StatxMask.BASIC_STATS dest) in
  let! (kernel, pending) := Lifecycle.submit_statx cycle prepared in
  let receipt := mkReceipt (Lifecycle.ring cycle) (FakeKernel.user_data kernel) (-2) 0 in
  let! done := expect (StatxOp.redeem pending receipt) in
  do! assert (negb (StatxOp.is_ok done)) in
  let! stat := peek (StatxOp.stat done) in
  do! assert (match stat with None => true | Some _ => false end) in
  let '(path, dest) := StatxOp.into_parts done in
  drop (OwnedPath.into_storage path, dest).
(* src/src/owned/miri.rs:2237-2268 abandoning_a_statx_ticket_leaks_both_regions_rather_than_freeing_them *)
Definition abandoning_a_statx_ticket_leaks_both_regions_rather_than_freeing_them : Run unit :=
  let! cycle := Lifecycle.new in
  let! path_storage := HeapBuffer.with_capacity 64 in
  let leaked_path := place path_storage in
  let! dest := statx_dest in
  let leaked_dest := place dest in
  let! path := lib (OwnedPath.copy_into path_storage (text "/tmp/abandoned")) in
  let! path := expect path in
  let! prepared := expect (StatxOp.cwd path 0 StatxMask.SIZE dest) in
  let! (kernel, pending) := Lifecycle.submit_statx cycle prepared in
  do! drop pending in
  do! resolves_to kernel (text "/tmp/abandoned") in
  let! _ := FakeKernel.complete_statx kernel (Lifecycle.ring cycle) StatxMask.SIZE 1 in
  do! HeapBuffer.reclaim_leaked (fst leaked_path) (snd leaked_path) in
  let! l := HeapBuffer.layout_of (snd leaked_dest) (align_of Statx) in
  dealloc (fst leaked_dest) (fst l) (snd l).
(* src/src/owned/miri.rs:2270-2295 reclaiming_an_unpublished_statx_returns_both_storages_and_its_target *)
Definition reclaiming_an_unpublished_statx_returns_both_storages_and_its_target : Run unit :=
  let! cycle := Lifecycle.new in
  let! path := heap_path (text "/tmp/retry") in
  let! dest := statx_dest in
  let! prepared :=
    expect (StatxOp.at_ DirFd.Cwd path StatxFlags.SYMLINK_NOFOLLOW StatxMask.INO dest) in
  let! (_, pending) := Lifecycle.submit_statx cycle prepared in
  let recovered := StatxOp.reclaim_unsubmitted pending in
  do! path_is (StatxOp.p_path recovered) (text "/tmp/retry") in
  do! assert_eq (StatxOp.p_flags recovered) StatxFlags.SYMLINK_NOFOLLOW in
  do! assert_eq (StatxOp.p_mask recovered) StatxMask.INO in
  let '(path, dest) := StatxOp.prepared_into_parts recovered in
  drop (OwnedPath.into_storage path, dest).
(* src/src/owned/miri.rs:2297-2317 reclaiming_an_unpublished_open_returns_the_path_and_its_target *)
Definition reclaiming_an_unpublished_open_returns_the_path_and_its_target : Run unit :=
  let! cycle := Lifecycle.new in
  let! path := heap_path (text "/tmp/retry") in
  let flags := OpenFlags.CREAT ||| OpenFlags.RDWR in
  let! (_, pending) := Lifecycle.submit_open cycle (Open.cwd path flags FileMode.OWNER_WRITE) in
  let recovered := Open.reclaim_unsubmitted pending in
  do! path_is (Open.p_path recovered) (text "/tmp/retry") in
  do! assert_eq (Open.p_flags recovered) flags in
  do! assert_eq (Open.p_mode recovered) FileMode.OWNER_WRITE in
  drop_storage (Open.prepared_into_path recovered).

(** *** Direct opens *)
(* src/src/owned/miri.rs:2320-2329 direct_open *)
Definition direct_open (t : list Z) (target : Slot.Target) : Run (DirectOpen.Prepared HeapBuffer) :=
  let! path := heap_path t in expect (DirectOpen.cwd path 0 0 target).
(* src/src/owned/miri.rs:2331-2350 a_direct_opens_path_is_scanned_within_the_storage_the_ticket_owns *)
Definition a_direct_opens_path_is_scanned_within_the_storage_the_ticket_owns : Run unit :=
  let! cycle := Lifecycle.new in
  let! prepared := direct_open (text "/etc/hosts") Slot.Auto in
  let! (kernel, pending) := Lifecycle.submit_direct_open cycle prepared in
  do! resolves_to kernel (text "/etc/hosts") in
  let! opened := expect (DirectOpen.redeem pending (FakeKernel.post_open kernel (Lifecycle.ring cycle) 3)) in
  do! assert (DirectOpen.is_ok opened) in
  let '(slot, path) := DirectOpen.into_parts opened in
  let! slot := expect_some slot in
  do! assert_eq (Slot.ds_index slot) 3 in
  do! path_is path (text "/etc/hosts") in
  drop_storage path.
(** A slot has no destructor. *)
(* src/src/owned/miri.rs:2352-2375 a_direct_slot_needs_no_descriptor_to_be_released *)
Definition a_direct_slot_needs_no_descriptor_to_be_released : Run unit :=
  let! cycle := Lifecycle.new in
  let! prepared := direct_open (text "/tmp/slotted") Slot.Auto in
  let! (kernel, pending) := Lifecycle.submit_direct_open cycle prepared in
  let! opened := expect (DirectOpen.redeem pending (FakeKernel.post_open kernel (Lifecycle.ring cycle) 2)) in
  let '(_, path) := DirectOpen.into_parts opened in
  drop_storage path.
(* src/src/owned/miri.rs:2377-2405 an_abandoned_direct_open_leaks_its_path_like_any_other_ticket *)
Definition an_abandoned_direct_open_leaks_its_path_like_any_other_ticket : Run unit :=
  let! cycle := Lifecycle.new in
  let! storage := HeapBuffer.with_capacity 64 in
  do! fill (HeapBuffer.as_mut_slice storage) 255 in
  let leaked := place storage in
  let! path := lib (OwnedPath.copy_into storage (text "/tmp/dropped")) in
  let! path := expect path in
  let! target := expect_some (Slot.exact 1) in
  let! prepared := expect (DirectOpen.cwd path 0 0 target) in
  let! (kernel, pending) := Lifecycle.submit_direct_open cycle prepared in
  do! drop pending in
  do! resolves_to kernel (text "/tmp/dropped") in
  HeapBuffer.reclaim_leaked (fst leaked) (snd leaked).
(* src/src/owned/miri.rs:2407-2422 reclaiming_an_unpublished_direct_open_keeps_its_target *)
Definition reclaiming_an_unpublished_direct_open_keeps_its_target : Run unit :=
  let! cycle := Lifecycle.new in
  let! target := expect_some (Slot.exact 4) in
  let! prepared := direct_open (text "/tmp/again") target in
  let! (_, pending) := Lifecycle.submit_direct_open cycle prepared in
  let recovered := DirectOpen.reclaim_unsubmitted pending in
  do! assert_eq (DirectOpen.p_target recovered) target in
  do! path_is (DirectOpen.p_path recovered) (text "/tmp/again") in
  drop_storage (DirectOpen.prepared_into_path recovered).

Definition path_tests : list (Run unit) := [
  the_kernel_scan_stops_inside_the_storage_the_ticket_owns;
  a_path_stays_readable_while_the_ticket_moves_between_owners;
  a_failed_open_leaves_no_descriptor_to_leak;
  abandoning_an_open_ticket_leaks_rather_than_freeing_the_path;
  a_path_ops_path_is_scanned_within_the_storage_the_ticket_owns;
  a_path_op_keeps_its_path_readable_while_the_ticket_moves;
  abandoning_a_path_op_leaks_rather_than_freeing_the_path;
  reclaiming_an_unpublished_path_op_returns_the_path_and_its_kind;
  a_rename_keeps_both_paths_readable_at_once;
  a_renames_two_paths_survive_the_ticket_moving_between_owners;
  abandoning_a_rename_leaks_both_paths_rather_than_freeing_them;
  reclaiming_an_unpublished_rename_returns_both_paths_and_its_mode;
  an_openat2_keeps_its_path_and_its_open_how_readable_at_once;
  an_openat2s_two_regions_survive_the_ticket_moving_between_owners;
  abandoning_an_openat2_leaks_both_regions_rather_than_freeing_them;
  reclaiming_an_unpublished_openat2_returns_both_storages_and_its_mode;
  the_kernel_writes_a_whole_statx_into_storage_the_ticket_keeps_alive;
  a_statx_destination_stays_writable_while_the_ticket_moves;
  a_failed_statx_reads_nothing_from_the_untouched_destination;
  abandoning_a_statx_ticket_leaks_both_regions_rather_than_freeing_them;
  reclaiming_an_unpublished_statx_returns_both_storages_and_its_target;
  reclaiming_an_unpublished_open_returns_the_path_and_its_target;
  a_direct_opens_path_is_scanned_within_the_storage_the_ticket_owns;
  a_direct_slot_needs_no_descriptor_to_be_released;
  an_abandoned_direct_open_leaks_its_path_like_any_other_ticket;
  reclaiming_an_unpublished_direct_open_keeps_its_target].
End Tests.
Lemma path_tests_pass {PW : PtrWidth} {TA : TargetArch} : forallb passes path_tests = true.
Proof. destruct PW as [b [->| ->]]; vm_compute; reflexivity. Qed.
