(* ===== verification/MiriStaged.v ===== *)
(** * The tests of owned/miri.rs: published values, arrays and addresses *)
From stdpp Require Import base numbers list option.
From Stdlib Require Import ZArith Lia.
From S2P Require Import Prelude Flags Types UserMem Sqe Owned OwnedDirect OwnedStaged OwnedArrays OwnedMemory Miri.
Local Open Scope Z_scope.
Local Open Scope rust_scope.

#[local] Instance expiry_eq_dec : EqDecision Timeout.Expiry.
Proof. solve_decision. Defined.
#[local] Instance update_eq_dec : EqDecision FilesUpdate.Update.
Proof. solve_decision. Defined.
#[local] Instance epoll_outcome_eq_dec : EqDecision EpollCtl.Outcome.
Proof. solve_decision. Defined.
#[local] Instance bind_outcome_eq_dec : EqDecision Bind.Outcome.
Proof. solve_decision. Defined.
#[local] Instance connect_outcome_eq_dec : EqDecision Connect.Outcome.
Proof. solve_decision. Defined.

Section Tests.
  Context {PW : PtrWidth} {TA : TargetArch}.
(** *** Timeouts *)
(* src/src/owned/miri.rs:2428-2430 timespec_store *)
Definition timespec_store : Run HeapBuffer :=
  HeapBuffer.with_alignment (Z.of_nat (size_of Timespec)) (align_of Timespec).
(* src/src/owned/miri.rs:2432-2456 the_kernel_reads_a_timeouts_duration_from_storage_the_ticket_owns *)
Definition the_kernel_reads_a_timeouts_duration_from_storage_the_ticket_owns : Run unit :=
  let! cycle := Lifecycle.new in
  let! duration := expect_some (timespec_new 9 12345) in
  let! store := timespec_store in
  let! prepared := lib (Timeout.after duration (Timeout.Completions 4) store) in
  let! prepared := expect prepared in
  let! (kernel, pending) := Lifecycle.submit_timeout cycle prepared in
  let! seen := FakeKernel.read_timespec kernel in
  do! assert_eq (tv_sec seen) 9 in
  do! assert_eq (tv_nsec seen) 12345 in
  do! assert_eq (FakeKernel.published_count kernel) 4 in
  let receipt := FakeKernel.post_status kernel (Lifecycle.ring cycle) (-62) in
  let! done := expect (Timeout.redeem pending receipt) in
  do! assert_eq (Timeout.expiry done) Timeout.Expired in
  drop (Timeout.into_store done).
(* src/src/owned/miri.rs:2458-2479 a_timeouts_duration_survives_the_ticket_moving_between_owners *)
Definition a_timeouts_duration_survives_the_ticket_moving_between_owners : Run unit :=
  let! cycle := Lifecycle.new in
  let! duration := expect_some (timespec_new 3 7) in
  let! store := timespec_store in
  let! prepared := lib (Timeout.after duration Timeout.Timer store) in
  let! prepared := expect prepared in
  let! (kernel, pending) := Lifecycle.submit_timeout cycle prepared in
  let pending := moved pending in
  let! seen := FakeKernel.read_timespec kernel in
  do! assert_eq (tv_sec seen) 3 in
  do! assert_eq (tv_nsec seen) 7 in
  let receipt := FakeKernel.post_status kernel (Lifecycle.ring cycle) (-62) in
  let! done := expect (Timeout.redeem pending receipt) in
  drop (Timeout.into_store done).
(* src/src/owned/miri.rs:2481-2506 abandoning_a_timeout_leaks_rather_than_freeing_the_duration *)
Definition abandoning_a_timeout_leaks_rather_than_freeing_the_duration : Run unit :=
  let! cycle := Lifecycle.new in
  let! store := timespec_store in
  let addr := stable_ptr store in
  let! duration := expect_some (timespec_new 1 2) in
  let! prepared := lib (Timeout.after duration Timeout.Timer store) in
  let! prepared := expect prepared in
  let! (kernel, pending) := Lifecycle.submit_timeout cycle prepared in
  do! drop pending in
  let! seen := FakeKernel.read_timespec kernel in
  do! assert_eq (tv_sec seen) 1 in
  HeapBuffer.reclaim_aligned addr (Z.of_nat (size_of Timespec)) (align_of Timespec).
(* src/src/owned/miri.rs:2508-2530 reclaiming_an_unpublished_timeout_returns_the_storage_and_its_count *)
Definition reclaiming_an_unpublished_timeout_returns_the_storage_and_its_count : Run unit :=
  let! cycle := Lifecycle.new in
  let! deadline := expect_some (timespec_new 50 500) in
  let! store := timespec_store in
  let! prepared := lib (Timeout.at_ deadline (Timeout.Completions 2) store) in
  let! prepared := expect prepared in
  let! (_, pending) := Lifecycle.submit_timeout cycle prepared in
  let prepared := Timeout.reclaim_unsubmitted pending in
  let! seen := peek (Value.published prepared) in
  do! assert_eq (tv_sec seen) 50 in
  do! assert_eq (tv_nsec seen) 500 in
  do! assert_eq (Timeout.c_count (Value.p_ctx prepared)) (Timeout.Completions 2) in
  do! assert (Timeout.is_absolute prepared) in
  drop (Timeout.prepared_into_store prepared).

(** *** Table updates *)
(* src/src/owned/miri.rs:2533-2535 fd_array_store *)
Definition fd_array_store (n : Z) : Run HeapBuffer :=
  HeapBuffer.with_alignment (Z.of_nat (size_of Z) * n) (align_of Z).
(* src/src/owned/miri.rs:2538-2540 slot_index *)
Definition slot_index (index : Z) : Run Z := expect_some (Slot.index_new index).
(* src/src/owned/miri.rs:2542-2568 the_kernel_walks_the_fd_array_inside_storage_the_ticket_owns *)
Definition the_kernel_walks_the_fd_array_inside_storage_the_ticket_owns : Run unit :=
  let! cycle := Lifecycle.new in
  let! index := slot_index 4 in
  let! store := fd_array_store 3 in
  let! prepared := lib (FilesUpdate.at_ index
    [FilesUpdate.Install 11; FilesUpdate.Clear; FilesUpdate.Install 13] store) in
  let! prepared := expect prepared in
  let! (kernel, pending) := Lifecycle.submit_files_update cycle prepared in
  let! seen := FakeKernel.read_fd_array kernel in
  do! assert_eq seen [11; -1; 13] in
  do! assert_eq (FakeKernel.published_offset kernel) 4 in
  let receipt := FakeKernel.post_status kernel (Lifecycle.ring cycle) 3 in
  let! done := expect (FilesUpdate.redeem pending receipt) in
  do! assert_eq (FilesUpdate.update done) (FilesUpdate.All 3) in
  drop (FilesUpdate.into_store done).
(* src/src/owned/miri.rs:2570-2593 an_arrays_storage_survives_the_ticket_moving_between_owners *)
Definition an_arrays_storage_survives_the_ticket_moving_between_owners : Run unit :=
  let! cycle := Lifecycle.new in
  let! index := slot_index 0 in
  let! store := fd_array_store 2 in
  let! prepared := lib (FilesUpdate.at_ index [FilesUpdate.Install 21; FilesUpdate.Clear] store) in
  let! prepared := expect prepared in
  let! (kernel, pending) := Lifecycle.submit_files_update cycle prepared in
  let pending := moved pending in
  let! seen := FakeKernel.read_fd_array kernel in
  do! assert_eq seen [21; -1] in
  let receipt := FakeKernel.post_status kernel (Lifecycle.ring cycle) 2 in
  let! done := expect (FilesUpdate.redeem pending receipt) in
  drop (FilesUpdate.into_store done).
(* src/src/owned/miri.rs:2595-2623 abandoning_a_files_update_leaks_rather_than_freeing_the_array *)
Definition abandoning_a_files_update_leaks_rather_than_freeing_the_array : Run unit :=
  let! cycle := Lifecycle.new in
  let! store := fd_array_store 2 in
  let addr := stable_ptr store in
  let! index := slot_index 0 in
  let! prepared := lib (FilesUpdate.at_ index [FilesUpdate.Install 31; FilesUpdate.Clear] store) in
  let! prepared := expect prepared in
  let! (kernel, pending) := Lifecycle.submit_files_update cycle prepared in
  do! drop pending in
  let! seen := FakeKernel.read_fd_array kernel in
  do! assert_eq seen [31; -1] in
  HeapBuffer.reclaim_aligned addr (Z.of_nat (size_of Z) * 2) (align_of Z).
(* src/src/owned/miri.rs:2625-2645 reclaiming_an_unpublished_files_update_returns_the_array_and_its_offset *)
Definition reclaiming_an_unpublished_files_update_returns_the_array_and_its_offset : Run unit :=
  let! cycle := Lifecycle.new in
  let! index := slot_index 6 in
  let! store := fd_array_store 1 in
  let! prepared := lib (FilesUpdate.at_ index [FilesUpdate.Install 41] store) in
  let! prepared := expect prepared in
  let! (_, pending) := Lifecycle.submit_files_update cycle prepared in
  let prepared := FilesUpdate.reclaim_unsubmitted pending in
  let! seen := peek (FilesUpdate.published prepared) in
  do! assert_eq seen [41] in
  do! assert_eq (FilesUpdate.p_offset prepared) 6 in
  drop (FilesUpdate.prepared_into_store prepared).

(** *** epoll_ctl *)
(* src/src/owned/miri.rs:2648-2650 epoll_event_store *)
Definition epoll_event_store : Run HeapBuffer :=
  HeapBuffer.with_alignment (Z.of_nat (size_of EpollEvent)) (align_of EpollEvent).
(* src/src/owned/miri.rs:2652-2679 the_kernel_reads_an_epoll_event_from_storage_the_ticket_owns *)
Definition the_kernel_reads_an_epoll_event_from_storage_the_ticket_owns : Run unit :=
  let! cycle := Lifecycle.new in
  let! store := epoll_event_store in
  let! prepared := lib (EpollCtl.new 3 9 (EpollCtl.Add EpollEvents.IN 305419896) store) in
  let! prepared := expect prepared in
  let! (kernel, pending) := Lifecycle.submit_epoll_ctl cycle prepared in
  let! seen := FakeKernel.read_epoll_event kernel in
  do! assert_eq (ee_events seen) EpollEvents.IN in
  do! assert_eq (ee_data seen) 305419896 in
  do! assert_eq (FakeKernel.published_epoll_op kernel) 1 in
  let receipt := FakeKernel.post_status kernel (Lifecycle.ring cycle) 0 in
  let! done := expect (EpollCtl.redeem pending receipt) in
  do! assert_eq (EpollCtl.outcome done) EpollCtl.Applied in
  drop (EpollCtl.into_store done).
(* src/src/owned/miri.rs:2681-2706 a_dels_storage_is_live_even_though_the_kernel_reads_nothing *)
Definition a_dels_storage_is_live_even_though_the_kernel_reads_nothing : Run unit :=
  let! cycle := Lifecycle.new in
  let! store := epoll_event_store in
  let! prepared := lib (EpollCtl.new 3 9 EpollCtl.Del store) in
  let! prepared := expect prepared in
  let! (kernel, pending) := Lifecycle.submit_epoll_ctl cycle prepared in
  let! seen := FakeKernel.read_epoll_event kernel in
  do! assert_eq (ee_events seen) 0 in
  do! assert_eq (FakeKernel.published_epoll_op kernel) 2 in
  let receipt := FakeKernel.post_status kernel (Lifecycle.ring cycle) 0 in
  let! done := expect (EpollCtl.redeem pending receipt) in
  drop (EpollCtl.into_store done).
(* src/src/owned/miri.rs:2708-2738 an_events_storage_survives_the_ticket_moving_between_owners *)
Definition an_events_storage_survives_the_ticket_moving_between_owners : Run unit :=
  let! cycle := Lifecycle.new in
  let! store := epoll_event_store in
  let! prepared := lib (EpollCtl.new 3 9 (EpollCtl.Mod EpollEvents.OUT 77) store) in
  let! prepared := expect prepared in
  let! (kernel, pending) := Lifecycle.submit_epoll_ctl cycle prepared in
  let pending := moved pending in
  let! seen := FakeKernel.read_epoll_event kernel in
  do! assert_eq (ee_events seen) EpollEvents.OUT in
  do! assert_eq (ee_data seen) 77 in
  let receipt := FakeKernel.post_status kernel (Lifecycle.ring cycle) 0 in
  let! done := expect (EpollCtl.redeem pending receipt) in
  drop (EpollCtl.into_store done).
(* src/src/owned/miri.rs:2740-2774 abandoning_an_epoll_ctl_leaks_rather_than_freeing_the_event *)
Definition abandoning_an_epoll_ctl_leaks_rather_than_freeing_the_event : Run unit :=
  let! cycle := Lifecycle.new in
  let! store := epoll_event_store in
  let addr := stable_ptr store in
  let! prepared := lib (EpollCtl.new 3 9 (EpollCtl.Add EpollEvents.IN 5) store) in
  let! prepared := expect prepared in
  let! (kernel, pending) := Lifecycle.submit_epoll_ctl cycle prepared in
  do! drop pending in
  let! seen := FakeKernel.read_epoll_event kernel in
  do! assert_eq (ee_data seen) 5 in
  HeapBuffer.reclaim_aligned addr (Z.of_nat (size_of EpollEvent)) (align_of EpollEvent).
(* src/src/owned/miri.rs:2776-2804 reclaiming_an_unpublished_epoll_ctl_returns_the_storage_and_its_change *)
Definition reclaiming_an_unpublished_epoll_ctl_returns_the_storage_and_its_change : Run unit :=
  let! cycle := Lifecycle.new in
  let change := EpollCtl.Mod EpollEvents.HUP 321 in
  let! store := epoll_event_store in
  let! prepared := lib (EpollCtl.new 3 9 change store) in
  let! prepared := expect prepared in
  let! (_, pending) := Lifecycle.submit_epoll_ctl cycle prepared in
  let prepared := EpollCtl.reclaim_unsubmitted pending in
  do! assert_eq (EpollCtl.c_change (Value.p_ctx prepared)) change in
  let! seen := peek (Value.published prepared) in
  do! assert_eq (ee_events seen) EpollEvents.HUP in
  do! assert_eq (ee_data seen) 321 in
  drop (EpollCtl.prepared_into_store prepared).

(** *** Addresses *)
(* src/src/owned/miri.rs:2807-2809 bind_addr_store *)
Definition bind_addr_store : Run HeapBuffer := HeapBuffer.with_capacity (Z.of_nat (size_of SockAddrIn)).
(* src/src/owned/miri.rs:2812-2819 miri_loopback *)
Definition miri_loopback (port : Z) : SockAddrIn := v4 port 127 0 0 1.
(* src/src/owned/miri.rs:2821-2840 the_kernel_reads_a_sock_addr_from_storage_the_ticket_owns *)
Definition the_kernel_reads_a_sock_addr_from_storage_the_ticket_owns : Run unit :=
  let! cycle := Lifecycle.new in
  let! store := bind_addr_store in
  let! prepared := lib (Bind.new 3 (miri_loopback 8080) store) in
  let! prepared := expect prepared in
  let! (kernel, pending) := Lifecycle.submit_bind cycle prepared in
  let! seen := FakeKernel.read_sock_addr kernel in
  do! assert_eq seen (to_bytes (miri_loopback 8080)) in
  do! assert_eq (FakeKernel.published_addr_len kernel) (Z.of_nat (size_of SockAddrIn)) in
  let receipt := FakeKernel.post_status kernel (Lifecycle.ring cycle) 0 in
  let! done := expect (Bind.redeem pending receipt) in
  do! assert_eq (Bind.outcome done) Bind.Bound in
  drop (Bind.into_store done).
(* src/src/owned/miri.rs:2842-2861 an_addresss_storage_survives_the_ticket_moving_between_owners *)
Definition an_addresss_storage_survives_the_ticket_moving_between_owners : Run unit :=
  let! cycle := Lifecycle.new in
  let! store := bind_addr_store in
  let! prepared := lib (Bind.new 3 (miri_loopback 443) store) in
  let! prepared := expect prepared in
  let! (kernel, pending) := Lifecycle.submit_bind cycle prepared in
  let pending := moved pending in
  let! seen := FakeKernel.read_sock_addr kernel in
  do! assert_eq seen (to_bytes (miri_loopback 443)) in
  let receipt := FakeKernel.post_status kernel (Lifecycle.ring cycle) 0 in
  let! done := expect (Bind.redeem pending receipt) in
  drop (Bind.into_store done).
(* src/src/owned/miri.rs:2863-2883 abandoning_a_bind_leaks_rather_than_freeing_the_address *)
Definition abandoning_a_bind_leaks_rather_than_freeing_the_address : Run unit :=
  let! cycle := Lifecycle.new in
  let! store := bind_addr_store in
  let addr := stable_ptr store in
  let! prepared := lib (Bind.new 3 (miri_loopback 9999) store) in
  let! prepared := expect prepared in
  let! (kernel, pending) := Lifecycle.submit_bind cycle prepared in
  do! drop pending in
  let! seen := FakeKernel.read_sock_addr kernel in
  do! assert_eq seen (to_bytes (miri_loopback 9999)) in
  HeapBuffer.reclaim_leaked addr (Z.of_nat (size_of SockAddrIn)).
(* src/src/owned/miri.rs:2885-2901 reclaiming_an_unpublished_bind_returns_the_storage_and_its_address *)
Definition reclaiming_an_unpublished_bind_returns_the_storage_and_its_address : Run unit :=
  let! cycle := Lifecycle.new in
  let! store := bind_addr_store in
  let! prepared := lib (Bind.new 3 (miri_loopback 1234) store) in
  let! prepared := expect prepared in
  let! (_, pending) := Lifecycle.submit_bind cycle prepared in
  let prepared := Bind.reclaim_unsubmitted pending in
  do! assert (same_addr (Addr.p_addr prepared) (miri_loopback 1234)) in
  let! seen := peek (Addr.published prepared) in
  do! assert_eq seen (to_bytes (miri_loopback 1234)) in
  drop (Bind.prepared_into_store prepared).
(* src/src/owned/miri.rs:2903-2921 the_kernel_reads_a_connect_address_from_storage_the_ticket_owns *)
Definition the_kernel_reads_a_connect_address_from_storage_the_ticket_owns : Run unit :=
  let! cycle := Lifecycle.new in
  let! store := bind_addr_store in
  let! prepared := lib (Connect.new 3 (miri_loopback 8080) store) in
  let! prepared := expect prepared in
  let! (kernel, pending) := Lifecycle.submit_connect cycle prepared in
  let! seen := FakeKernel.read_sock_addr kernel in
  do! assert_eq seen (to_bytes (miri_loopback 8080)) in
  do! assert_eq (FakeKernel.published_addr_len kernel) (Z.of_nat (size_of SockAddrIn)) in
  let receipt := FakeKernel.post_status kernel (Lifecycle.ring cycle) 0 in
  let! done := expect (Connect.redeem pending receipt) in
  do! assert_eq (Connect.outcome done) Connect.Connected in
  drop (Connect.into_store done).
(* src/src/owned/miri.rs:2923-2942 a_connect_address_survives_the_ticket_moving_between_owners *)
Definition a_connect_address_survives_the_ticket_moving_between_owners : Run unit :=
  let! cycle := Lifecycle.new in
  let! store := bind_addr_store in
  let! prepared := lib (Connect.new 3 (miri_loopback 443) store) in
  let! prepared := expect prepared in
  let! (kernel, pending) := Lifecycle.submit_connect cycle prepared in
  let pending := moved pending in
  let! seen := FakeKernel.read_sock_addr kernel in
  do! assert_eq seen (to_bytes (miri_loopback 443)) in
  let receipt := FakeKernel.post_status kernel (Lifecycle.ring cycle) 0 in
  let! done := expect (Connect.redeem pending receipt) in
  drop (Connect.into_store done).
(* src/src/owned/miri.rs:2944-2964 abandoning_a_connect_leaks_rather_than_freeing_the_address *)
Definition abandoning_a_connect_leaks_rather_than_freeing_the_address : Run unit :=
  let! cycle := Lifecycle.new in
  let! store := bind_addr_store in
  let addr := stable_ptr store in
  let! prepared := lib (Connect.new 3 (miri_loopback 9999) store) in
  let! prepared := expect prepared in
  let! (kernel, pending) := Lifecycle.submit_connect cycle prepared in
  do! drop pending in
  let! seen := FakeKernel.read_sock_addr kernel in
  do! assert_eq seen (to_bytes (miri_loopback 9999)) in
  HeapBuffer.reclaim_leaked addr (Z.of_nat (size_of SockAddrIn)).
(* src/src/owned/miri.rs:2966-2980 reclaiming_an_unpublished_connect_returns_the_storage_and_its_address *)
Definition reclaiming_an_unpublished_connect_returns_the_storage_and_its_address : Run unit :=
  let! cycle := Lifecycle.new in
  let! store := bind_addr_store in
  let! prepared := lib (Connect.new 3 (miri_loopback 1234) store) in
  let! prepared := expect prepared in
  let! (_, pending) := Lifecycle.submit_connect cycle prepared in
  let prepared := Connect.reclaim_unsubmitted pending in
  do! assert (same_addr (Addr.p_addr prepared) (miri_loopback 1234)) in
  let! seen := peek (Addr.published prepared) in
  do! assert_eq seen (to_bytes (miri_loopback 1234)) in
  drop (Connect.prepared_into_store prepared).

Definition staged_tests : list (Run unit) := [
  the_kernel_reads_a_timeouts_duration_from_storage_the_ticket_owns;
  a_timeouts_duration_survives_the_ticket_moving_between_owners;
  abandoning_a_timeout_leaks_rather_than_freeing_the_duration;
  reclaiming_an_unpublished_timeout_returns_the_storage_and_its_count;
  the_kernel_walks_the_fd_array_inside_storage_the_ticket_owns;
  an_arrays_storage_survives_the_ticket_moving_between_owners;
  abandoning_a_files_update_leaks_rather_than_freeing_the_array;
  reclaiming_an_unpublished_files_update_returns_the_array_and_its_offset;
  the_kernel_reads_an_epoll_event_from_storage_the_ticket_owns;
  a_dels_storage_is_live_even_though_the_kernel_reads_nothing;
  an_events_storage_survives_the_ticket_moving_between_owners;
  abandoning_an_epoll_ctl_leaks_rather_than_freeing_the_event;
  reclaiming_an_unpublished_epoll_ctl_returns_the_storage_and_its_change;
  the_kernel_reads_a_sock_addr_from_storage_the_ticket_owns;
  an_addresss_storage_survives_the_ticket_moving_between_owners;
  abandoning_a_bind_leaks_rather_than_freeing_the_address;
  reclaiming_an_unpublished_bind_returns_the_storage_and_its_address;
  the_kernel_reads_a_connect_address_from_storage_the_ticket_owns;
  a_connect_address_survives_the_ticket_moving_between_owners;
  abandoning_a_connect_leaks_rather_than_freeing_the_address;
  reclaiming_an_unpublished_connect_returns_the_storage_and_its_address].
End Tests.
Lemma staged_tests_pass {PW : PtrWidth} {TA : TargetArch} : forallb passes staged_tests = true.
Proof. destruct PW as [b [->| ->]], TA as [[]]; vm_compute; reflexivity. Qed.
