(* ===== verification/MiriTests.v ===== *)
(** * The tests of owned/miri.rs pass, and what they rest on

    Every test passes on every target ([lifecycle_tests_pass]).  That says something
    because of what the machine lets the stand-in kernel do: whatever entry it
    holds, it reads and changes live memory only, or the run ends
    ([kernel_confined]), and a path is scanned to its end ([scan_finds]); and a
    method of the library that stays in a live block is never stopped
    ([touches_storage]), while one that does not is.  [read_lands] is the first test for all lengths, contents and heaps. *)
From stdpp Require Import base numbers list option gmap gmultiset.
From Stdlib Require Import ZArith Lia.
From S2P Require Import Prelude Flags Types UserMem Sqe SqeFile Resources Layout Pbuf Owned OwnedPath OwnedMemory Footprint Miri.
From S2P Require Import MiriIo MiriPaths MiriStaged.
Local Open Scope Z_scope.
Local Open Scope rust_scope.

Definition all_tests {PW : PtrWidth} {TA : TargetArch} : list (Run unit) :=
  io_tests ++ path_tests ++ staged_tests.

(** ** What the stand-in kernel can touch *)
(** A run that leaves the heap alone and changes bytes of live blocks only. *)
Definition confined {A} (f : Run A) : Prop := forall m r m', f m = (r, m') ->
  os m' = os m /\ ids m' = ids m /\ rings m' = rings m /\
  forall x, in_live x 1 m = false -> bytes m' x = bytes m x.
Create HintDb confined.
Create HintDb kernel.

Lemma confined_ret {A} (x : A) : confined (ret x).
Proof. intros m r m' [= <- <-]. done. Qed.
Lemma confined_throw {A} e : confined (throw e : Run A).
Proof. intros m r m' [= <- <-]. done. Qed.
Lemma in_live_os a n m m' : os m' = os m -> in_live a n m' = in_live a n m.
Proof. unfold in_live. by intros ->. Qed.
Lemma confined_bind {A B} (f : Run A) (k : A -> Run B) :
  confined f -> (forall x, confined (k x)) -> confined (bind f k).
Proof.
  intros Hf Hk m r m' H. unfold bind in H. destruct (f m) as [[x|e] m1] eqn:E.
  - destruct (Hf _ _ _ E) as (O1 & I1 & R1 & B1), (Hk _ _ _ _ H) as (O2 & I2 & R2 & B2).
    rewrite O2, I2, R2, O1, I1, R1. split_and!; try done. intros y Hy. rewrite B2, B1; [done|done|].
    by rewrite (in_live_os _ _ m).
  - injection H as <- <-. by apply (Hf _ _ _ E).
Qed.
Lemma in_live_narrow a n b k m :
  in_live a n m = true -> a <= b -> b + k <= a + n -> in_live b k m = true.
Proof.
  unfold in_live. rewrite !existsb_exists. intros ([c l] & Hin & Hb) H1 H2. exists (c, l).
  split; [done|]. apply andb_true_iff in Hb as [?%Z.leb_le ?%Z.leb_le].
  apply andb_true_iff. split; apply Z.leb_le; lia.
Qed.
Lemma in_live_sub a n x m :
  in_live a n m = true -> a <= x < a + n -> in_live x 1 m = true.
Proof. intros Hl Hx. apply (in_live_narrow a n); [done|lia|lia]. Qed.
Lemma confined_load a n : confined (load_bytes a n).
Proof. intros m r m'. unfold load_bytes. by destruct (in_live _ _ _); intros [= <- <-]. Qed.
Lemma confined_store a bs : confined (store_bytes a bs).
Proof.
  intros m r m'. unfold store_bytes. destruct (in_live _ _ _) eqn:E; intros [= <- <-]; [|done].
  split_and!; try done. intros x Hx. cbn. apply (write_bytes_within a bs (bytes m)).
  destruct (Z.lt_ge_cases x a) as [|Ha]; [by left|right].
  destruct (Z.le_gt_cases (a + Z.of_nat (length bs)) x) as [|Hb]; [done|].
  rewrite (in_live_sub _ _ _ _ E) in Hx; [done|lia].
Qed.
Lemma confined_assert b : confined (assert b).
Proof. destruct b; [apply confined_ret|apply confined_throw]. Qed.
#[export] Hint Resolve confined_ret confined_throw confined_bind confined_load confined_store
  confined_assert : confined.
(** Goes through binds, conditionals and matches. *)
Ltac confine :=
  repeat first
    [ progress eauto 2 with confined
    | apply confined_bind; [|intros ?]
    | match goal with
      | |- context [match ?x with _ => _ end] => destruct x
      end ].
#[export] Hint Unfold FakeKernel.complete_read FakeKernel.observe_write FakeKernel.complete_readv
  FakeKernel.observe_writev FakeKernel.descriptor FakeKernel.observe_sendmsg FakeKernel.message_name
  FakeKernel.deliver_with_reported_namelen FakeKernel.complete_statx FakeKernel.published_dest
  FakeKernel.resolve_path FakeKernel.resolve_second_path FakeKernel.read_open_how
  FakeKernel.read_timespec FakeKernel.read_fd_array FakeKernel.read_epoll_event
  FakeKernel.read_sock_addr FakeKernel.published_ptr assert_eq : kernel.
Section Kernel.
  Context {PW : PtrWidth} {TA : TargetArch}.
Lemma confined_load_as T `{Repr T} a : confined (load_as T a).
Proof. unfold load_as, aligned. confine. Qed.
Lemma confined_store_as {T} `{Repr T} a (x : T) : confined (store_as a x).
Proof. unfold store_as, aligned. confine. Qed.
Lemma confined_pointer a : confined (FakeKernel.pointer a).
Proof. unfold FakeKernel.pointer. confine. Qed.
#[local] Hint Resolve confined_load_as confined_store_as confined_pointer : confined.
Lemma confined_write_each n : forall a v, confined (FakeKernel.write_each a v n).
Proof. induction n; intros a v; cbn [FakeKernel.write_each]; unfold store_byte; confine. Qed.
Lemma confined_read_each n : forall a, confined (FakeKernel.read_each a n).
Proof. induction n; intros a; cbn [FakeKernel.read_each]; unfold load_byte; confine. Qed.
Lemma confined_load_each T `{Repr T} n : forall a, confined (FakeKernel.load_each T a n).
Proof. induction n; intros a; cbn [FakeKernel.load_each]; confine. Qed.
Lemma confined_fill_from n : forall a p, confined (FakeKernel.fill_from a n p).
Proof. induction n; intros a [|b p]; cbn [FakeKernel.fill_from]; unfold store_byte; confine. Qed.
Lemma confined_scan n : forall a, confined (FakeKernel.scan n a).
Proof. induction n; intros a; cbn [FakeKernel.scan]; unfold load_byte; confine. Qed.
Lemma confined_scan_live a : confined (FakeKernel.scan_live a).
Proof. intros m. apply confined_scan. Qed.
#[local] Hint Resolve confined_write_each confined_read_each confined_load_each confined_fill_from
  confined_scan_live : confined.
Lemma confined_read_msghdr k : confined (FakeKernel.read_msghdr k).
Proof. unfold FakeKernel.read_msghdr, FakeKernel.published_ptr. confine. Qed.
#[local] Hint Resolve confined_read_msghdr : confined.
Lemma confined_descriptor k i : confined (FakeKernel.message_descriptor k i).
Proof. unfold FakeKernel.message_descriptor. confine. Qed.
#[local] Hint Resolve confined_descriptor : confined.
Lemma confined_gather k idx : confined (FakeKernel.gather k idx).
Proof. induction idx; cbn [FakeKernel.gather]; confine. Qed.
Lemma confined_scatter k idx : forall p, confined (FakeKernel.scatter k idx p).
Proof. induction idx; intros p; cbn [FakeKernel.scatter]; confine. Qed.
#[local] Hint Resolve confined_gather confined_scatter : confined.
Lemma confined_deliver k p a : confined (FakeKernel.deliver_recvmsg k p a).
Proof. unfold FakeKernel.deliver_recvmsg, FakeKernel.published_ptr. confine. Qed.
#[local] Hint Resolve confined_deliver : confined.

(** Whatever entry the stand-in kernel holds, none of its methods allocates, frees
    or mints an identity, and none changes a byte outside the live blocks: it
    reaches exactly the memory that is allocated, or the run ends. *)
Theorem kernel_confined k ring :
  (forall v, confined (FakeKernel.complete_read k v)) /\
  confined (FakeKernel.observe_write k) /\
  (forall i v, confined (FakeKernel.complete_readv k i v)) /\
  (forall i, confined (FakeKernel.observe_writev k i)) /\
  confined (FakeKernel.observe_sendmsg k) /\ confined (FakeKernel.message_name k) /\
  (forall p a, confined (FakeKernel.deliver_recvmsg k p a)) /\
  (forall p n a, confined (FakeKernel.deliver_with_reported_namelen k p n a)) /\
  (forall mask size, confined (FakeKernel.complete_statx k ring mask size)) /\
  confined (FakeKernel.resolve_path k) /\ confined (FakeKernel.resolve_second_path k) /\
  confined (FakeKernel.read_open_how k) /\ confined (FakeKernel.read_timespec k) /\
  confined (FakeKernel.read_fd_array k) /\ confined (FakeKernel.read_epoll_event k) /\
  confined (FakeKernel.read_sock_addr k).
Proof.
  split_and!; intros; autounfold with kernel; confine.
Qed.
End Kernel.

(** ** What the library can touch *)
Lemma poisoned_at p m x : poisoned p m x = if in_live x 1 m then bytes m x else p.
Proof. done. Qed.
Lemma poisoned_agree a n p q m : in_live a n m = true -> agree a n (poisoned p m) (poisoned q m).
Proof. intros Hl x Hx. by rewrite !poisoned_at, (in_live_sub _ _ _ _ Hl Hx). Qed.
(** A method of the library whose footprint is in a live block is not stopped: it
    answers what it answers on any memory with those bytes, and the machine is the one
    before but for them.  With [storage_only] this is every method of the requests,
    on every heap that holds their storage. *)
Theorem touches_storage {R} `{EqDecision R} (f : UMem -> R * UMem) a n m :
  footprint a n f -> in_live a n m = true ->
  lib f m = (Ok (fst (f (bytes m))), set_bytes (snd (f (bytes m))) m) /\
  only_within a n (bytes m) (snd (f (bytes m))).
Proof.
  intros [Hr [Hw He]] Hl. split; [|apply Hw].
  assert (well_behaved f m = true) as Hok; [|unfold lib; rewrite Hok; by destruct (f (bytes m))].
  unfold well_behaved. pose proof (poisoned_agree a n 85 170 m Hl) as Hp.
  pose proof (Hr _ _ Hp) as Hv. specialize (He _ _ Hp).
  pose proof (Hw (poisoned 85 m)) as W1. pose proof (Hw (poisoned 170 m)) as W2.
  cbv beta in *.
  destruct (f (poisoned 85 m)) as [r1 b1], (f (poisoned 170 m)) as [r2 b2]. cbn [fst snd] in *. subst r2.
  rewrite bool_decide_eq_true_2 by done. apply forallb_forall. intros x _.
  assert (a <= x < a + n \/ (x < a \/ a + n <= x)) as [Hx|Hx] by lia.
  - rewrite (in_live_sub _ _ _ _ Hl Hx). by apply Z.eqb_eq, He.
  - rewrite W1, W2, !poisoned_at by done. destruct (in_live x 1 m); [apply Z.eqb_refl|done].
Qed.

(** ** Paths *)
Lemma live_fuel a n m : 0 <= n -> in_live a n m = true -> (Z.to_nat n <= FakeKernel.live_bytes m)%nat.
Proof.
  unfold in_live, FakeKernel.live_bytes. rewrite existsb_exists. intros Hn ([b l] & Hin & Hb).
  apply andb_true_iff in Hb as [?%Z.leb_le ?%Z.leb_le].
  apply list_elem_of_In in Hin. revert Hin. induction (elements (live (os m))) as [|[b' l'] rest IH].
  - by intros ?%elem_of_nil.
  - intros [[= -> ->]|Hin]%elem_of_cons; cbn; [lia|]. specialize (IH Hin). lia.
Qed.
Lemma load_byte_live a m : in_live a 1 m = true -> load_byte a m = (Ok (bytes m a), m).
Proof.
  intros Hl. unfold load_byte, bind, load_bytes. rewrite Hl. unfold ret, read_bytes.
  change (seq 0 (Z.to_nat 1)) with [0%nat]. cbn [fmap list_fmap nth].
  change (Z.of_nat 0) with 0. by rewrite Z.add_0_r.
Qed.
(** A NUL-terminated path inside a live block is read to its end and no further. *)
Lemma scan_finds path : forall fuel a m,
  Forall (fun b => b <> 0) path -> read_bytes a (length path) (bytes m) = path ->
  bytes m (a + Z.of_nat (length path)) = 0 ->
  in_live a (Z.of_nat (length path) + 1) m = true -> (length path < fuel)%nat ->
  FakeKernel.scan fuel a m = (Ok path, m).
Proof.
  induction path as [|b path IH]; intros [|fuel] a m Hp Hr Hz Hl Hf; cbn in Hf; try lia.
  - cbn [FakeKernel.scan]. rewrite (bind_ok _ _ _ _ _ (load_byte_live a m Hl)).
    cbn in Hz. rewrite Z.add_0_r in Hz. by rewrite Hz.
  - apply Forall_cons_1 in Hp as [Hb Hp]. rewrite (read_bytes_app a 1 (length path)) in Hr.
    injection Hr as Hb0 Hr. rewrite Z.add_0_r in Hb0. cbn [length] in Hz, Hl.
    assert (in_live a 1 m = true) as Hl1 by (apply (in_live_sub _ _ a _ Hl); lia).
    cbn [FakeKernel.scan]. rewrite (bind_ok _ _ _ _ _ (load_byte_live a m Hl1)), Hb0.
    destruct (Z.eqb_spec b 0) as [|_]; [done|].
    assert (in_live (a + 1) (Z.of_nat (length path) + 1) m = true) as Hl2.
    { apply (in_live_narrow _ _ _ _ _ Hl); lia. }
    rewrite (bind_ok _ _ _ _ _
      (IH fuel (a + 1) m Hp Hr ltac:(by rewrite <- Hz; f_equal; lia) Hl2 ltac:(lia))).
    done.
Qed.

(** A path copied into storage anywhere in the heap is the path the stand-in
    kernel resolves through the entry of any request that publishes it, however
    long it is and whatever the storage held before. *)
Theorem path_resolves {PW : PtrWidth} (storage : HeapBuffer) path m p b k :
  OwnedPath.copy_into storage path (bytes m) = (Ok p, b) ->
  in_live (HeapBuffer.ptr storage) (HeapBuffer.len storage) m = true ->
  FakeKernel.addr k = path_ptr p -> in_u usize_bits (path_ptr p) ->
  FakeKernel.resolve_path k (set_bytes b m) = (Ok path, set_bytes b m) /\
  OwnedPath.as_bytes p b = path /\ os (set_bytes b m) = os m.
Proof.
  unfold OwnedPath.copy_into. destruct (Nat.eqb_spec (length path) 0) as [|Hne]; [done|].
  destruct (existsb (Z.eqb 0) path) eqn:Hz; [done|].
  destruct (Z.ltb_spec (stable_len storage) (Z.of_nat (length path) + 1)) as [|Hlen]; [done|].
  intros [= <- <-] Hl Ha Hu. set (a := stable_ptr storage) in *. set (b1 := write_bytes a path (bytes m)).
  assert (read_bytes a (length path) (write_bytes (a + Z.of_nat (length path)) [0] b1) = path) as Hr.
  { rewrite (read_bytes_apart a (length path) (a + Z.of_nat (length path)) 1 b1);
      [apply read_write_same|apply (write_bytes_within _ [0])|unfold apart; lia]. }
  split; [|split; [|done]].
  - unfold FakeKernel.resolve_path, FakeKernel.published_ptr, FakeKernel.pointer. rewrite Ha.
    match goal with |- context [Z.ltb ?x ?y] => destruct (Z.ltb_spec x y) as [_|Hge] end;
      [|unfold in_u in Hu; lia].
    cbn [bind ret]. unfold bind, ret, FakeKernel.scan_live, path_ptr. cbn [OwnedPath.storage]. fold a.
    assert (in_live a (Z.of_nat (length path) + 1)
      (set_bytes (write_bytes (a + Z.of_nat (length path)) [0] b1) m) = true) as Hl'.
    { rewrite (in_live_os _ _ m) by done. apply (in_live_narrow _ _ _ _ _ Hl); [done|].
      subst a. cbn in Hlen |- *. lia. }
    apply scan_finds; [|done| |done|].
    + apply Forall_forall. intros x Hx ->.
      assert (existsb (Z.eqb 0) path = true); [|congruence]. apply existsb_exists. exists 0. by split.
    + pose proof (read_write_same (a + Z.of_nat (length path)) [0] b1) as Hw.
      injection Hw as Hw. by rewrite Z.add_0_r in Hw.
    + pose proof (live_fuel _ (Z.of_nat (length path) + 1) _ ltac:(lia) Hl') as Hf.
      unfold FakeKernel.live_bytes in *. cbn [os set_bytes] in *. lia.
  - unfold OwnedPath.as_bytes. cbn. by rewrite Nat2Z.id.
Qed.

(** ** A read, for every length and heap *)
Section Cycle.
  Context {PW : PtrWidth}.
Definition start_read (fd len offset : Z)
  : Run (Lifecycle.t * HeapBuffer * FakeKernel.t * Request.Pending HeapBuffer) :=
  let! cycle := Lifecycle.new in
  let! buf := HeapBuffer.with_capacity len in
  let! (kernel, pending) := Lifecycle.submit cycle (Request.read fd buf offset) in
  ret (cycle, buf, kernel, pending).
(** The first test: the kernel writes, the receipt buys the buffer back. *)
Definition read_cycle (fd len offset v : Z) : Run (result Z Error * list Z) :=
  let! (cycle, buf, kernel, pending) := start_read fd len offset in
  let! result := FakeKernel.complete_read kernel v in
  let receipt := FakeKernel.post_completion kernel (Lifecycle.ring cycle) result in
  let! completed := expect (Request.redeem pending receipt) in
  let! bytes := HeapBuffer.as_slice (Request.d_buf completed) in
  do! drop completed in ret (Request.completed_result completed, bytes).
(** The ticket is dropped before the kernel writes. *)
Definition abandoned_read (fd len offset v : Z) : Run (list Z) :=
  let! (cycle, buf, kernel, pending) := start_read fd len offset in
  do! drop pending in
  let! _ := FakeKernel.complete_read kernel v in FakeKernel.observe_write kernel.
(** What a ticket that freed its storage would lead to. *)
Definition freed_read (fd len offset v : Z) : Run Z :=
  let! (cycle, buf, kernel, pending) := start_read fd len offset in
  do! HeapBuffer.drop buf in FakeKernel.complete_read kernel v.

(** Blocks lie below the next address. *)
Definition heap_ok (m : Machine) : Prop :=
  0 <= brk (oracle (os m)) /\ forall b l, (b, l) ∈ live (os m) -> b + l <= brk (oracle (os m)).
Definition next_block (m : Machine) : Z := next_multiple_of (brk (oracle (os m))) 2 + 1.

Lemma write_each_ok n : forall a v m, in_live a (Z.of_nat n) m = true ->
  exists m', FakeKernel.write_each a v n m = (Ok tt, m') /\ os m' = os m /\
    read_bytes a n (bytes m') = replicate n v /\
    only_within a (Z.of_nat n) (bytes m) (bytes m').
Proof.
  induction n as [|n IH]; intros a v m Hl.
  - exists m. by split_and!.
  - cbn [FakeKernel.write_each].
    assert (store_byte a v m = (Ok tt, set_bytes (write_bytes a [v] (bytes m)) m)) as Hs.
    { assert (in_live a 1 m = true) as Hl1 by (apply (in_live_sub _ _ a _ Hl); lia).
      unfold store_byte, store_bytes. cbn [length]. change (Z.of_nat 1) with 1. by rewrite Hl1. }
    rewrite (bind_ok _ _ _ _ _ Hs).
    destruct (IH (a + 1) v (set_bytes (write_bytes a [v] (bytes m)) m)) as (m' & E & Ho & Hr & Hw).
    { apply (in_live_narrow _ _ _ _ _ Hl); lia. }
    exists m'. split; [done|]. split; [done|]. split.
    + rewrite (read_bytes_app a 1 n). cbn [replicate].
      change (v :: replicate n v) with ([v] ++ replicate n v).
      f_equal; [|exact Hr].
      rewrite (read_bytes_apart a 1 (a + 1) (Z.of_nat n) (bytes (set_bytes (write_bytes a [v] (bytes m)) m)));
        [apply (read_write_same a [v])|done|unfold apart; lia].
    + intros x Hx. rewrite Hw by lia. apply (write_bytes_within a [v]). cbn. lia.
Qed.
Lemma read_each_ok n : forall a m, in_live a (Z.of_nat n) m = true ->
  FakeKernel.read_each a n m = (Ok (read_bytes a n (bytes m)), m).
Proof.
  induction n as [|n IH]; intros a m Hl; [done|]. cbn [FakeKernel.read_each].
  assert (in_live a 1 m = true) as Hl1 by (apply (in_live_sub _ _ a _ Hl); lia).
  rewrite (bind_ok _ _ _ _ _ (load_byte_live a m Hl1)).
  assert (in_live (a + 1) (Z.of_nat n) m = true) as Hl2.
  { apply (in_live_narrow _ _ _ _ _ Hl); lia. }
  rewrite (bind_ok _ _ _ _ _ (IH (a + 1) m Hl2)), (read_bytes_app a 1 n).
  unfold ret. do 3 f_equal. unfold read_bytes. change (seq 0 1) with [0%nat]. cbn [fmap list_fmap app].
  change (Z.of_nat 0) with 0. by rewrite Z.add_0_r.
Qed.
Lemma next_block_above m : heap_ok m -> brk (oracle (os m)) < next_block m.
Proof.
  intros [Hb _]. unfold next_block, next_multiple_of. destruct (_ =? _); [lia|].
  pose proof (Z.mod_pos_bound (brk (oracle (os m))) 2). lia.
Qed.
Lemma layout_byte len : 0 < len < 2 ^ 31 -> HeapBuffer.layout_of len 1 = ret (len, 1).
Proof.
  intros Hl. unfold HeapBuffer.layout_of, next_multiple_of. rewrite Z.mod_1_r. cbn [Z.eqb].
  replace (is_power_of_two 1) with true by done.
  destruct (Z.leb_spec len (2 ^ (usize_bits - 1) - 1)) as [|H]; [done|].
  destruct usize_cases as [E|E]; rewrite E in H; cbn in H; lia.
Qed.
(** The heap with one more block. *)
Definition grown (len : Z) (m : Machine) : Os Heap :=
  mkOs (live (os m) ⊎ {[+ (next_block m, len) +]}) (fds (os m)) (pages (os m)) (faults (os m))
    (mkHeap (next_block m + len + 1) (<[next_block m := 1]> (aligns (oracle (os m))))).
Lemma with_capacity_ok len m : heap_ok m -> 0 < len < 2 ^ 31 ->
  exists b, HeapBuffer.with_capacity len m =
    (Ok (HeapBuffer.mk (next_block m) len 1), mkMachine b (grown len m) (ids m) (rings m)).
Proof.
  intros Hok Hl. pose proof (next_block_above m Hok) as Hb. destruct Hok as [H0 _].
  unfold HeapBuffer.with_capacity, HeapBuffer.with_alignment. rewrite (layout_byte len Hl).
  destruct (Z.gtb_spec len 0) as [_|]; [|lia]. unfold bind, assert, alloc_zeroed, ret.
  cbv beta iota zeta. cbn [fst snd]. change (2 * 1) with 2. fold (next_block m).
  destruct (Z.eqb_spec (next_block m) 0) as [|_]; [lia|]. cbn [negb]. by eexists.
Qed.
(** The request in flight: its entry names the block, and so does its ticket. *)
Definition flying (fd len offset ptr ring : Z) : FakeKernel.t * Request.Pending HeapBuffer :=
  (FakeKernel.mk (Modifiers.with_user_data (FileOps.read_ptr fd ptr len offset) 1),
   Request.mkPending (HeapBuffer.mk ptr len 1) ring 1 fd offset len Read ptr).
Lemma start_read_ok fd len offset m : heap_ok m -> 0 < len < 2 ^ 31 ->
  exists b ids rings, start_read fd len offset m =
    (Ok (Lifecycle.mk (Miri.rings m), HeapBuffer.mk (next_block m) len 1,
         fst (flying fd len offset (next_block m) (Miri.rings m)),
         snd (flying fd len offset (next_block m) (Miri.rings m))),
     mkMachine b (grown len m) ids rings).
Proof.
  intros Hok Hl. unfold start_read.
  set (m0 := mkMachine (bytes m) (os m) RequestIdSource.new (u32_add (rings m) 1)).
  assert (Lifecycle.new m = (Ok (Lifecycle.mk (rings m)), m0)) as Hn by done.
  rewrite (bind_ok _ _ _ _ _ Hn).
  destruct (with_capacity_ok len m0 Hok Hl) as [b Hw]. rewrite (bind_ok _ _ _ _ _ Hw).
  assert (clamp_len len = len) as Hc.
  { unfold clamp_len. destruct (Z.gtb_spec len 4294967295); [lia|]. apply wrap_small. unfold in_u. lia. }
  unfold Request.read. cbn [stable_len stable_ptr heap_stable HeapBuffer.len HeapBuffer.ptr]. rewrite Hc.
  by do 3 eexists.
Qed.

Lemma grown_live len m b i r : in_live (next_block m) len (mkMachine b (grown len m) i r) = true.
Proof.
  unfold in_live. apply existsb_exists. exists (next_block m, len). split.
  - apply list_elem_of_In, gmultiset_elem_of_elements. cbn. multiset_solver.
  - apply andb_true_iff. split; apply Z.leb_le; lia.
Qed.
Lemma dealloc_grown len m b i r :
  dealloc (next_block m) len 1 (mkMachine b (grown len m) i r) =
  (Ok tt, mkMachine b (mkOs (live (os m)) (fds (os m)) (pages (os m)) (faults (os m))
                         (oracle (grown len m))) i r).
Proof.
  unfold dealloc, grown. cbn [os live oracle aligns].
  rewrite bool_decide_eq_true_2 by multiset_solver. rewrite bool_decide_eq_true_2 by apply lookup_insert_eq.
  cbn [andb]. unfold set_os, new_region. cbn. by rewrite munmap_live.
Qed.
Lemma published_flying fd len offset ptr ring m : in_u usize_bits ptr ->
  FakeKernel.published_ptr (fst (flying fd len offset ptr ring)) m = (Ok ptr, m).
Proof.
  intros Hp. unfold FakeKernel.published_ptr, FakeKernel.pointer.
  change (FakeKernel.addr (fst (flying fd len offset ptr ring))) with (as_u64 ptr).
  assert (as_u64 ptr = ptr) as ->.
  { apply wrap_small. unfold in_u in *. destruct usize_cases as [E|E]; rewrite E in Hp; lia. }
  destruct (Z.ltb_spec ptr (2 ^ usize_bits)) as [_|]; [done|unfold in_u in Hp; lia].
Qed.
Lemma complete_flying fd len offset ptr ring v m :
  0 < len < 2 ^ 31 -> in_u usize_bits ptr -> in_live ptr len m = true ->
  exists m', FakeKernel.complete_read (fst (flying fd len offset ptr ring)) v m = (Ok len, m') /\
    os m' = os m /\ read_bytes ptr (Z.to_nat len) (bytes m') = replicate (Z.to_nat len) v.
Proof.
  intros Hl Hp Hlive. unfold FakeKernel.complete_read.
  rewrite (bind_ok _ _ _ _ _ (published_flying fd len offset ptr ring m Hp)).
  change (FakeKernel.len (fst (flying fd len offset ptr ring))) with len.
  destruct (write_each_ok (Z.to_nat len) ptr v m) as (m' & E & Ho & Hr & _); [by rewrite Z2Nat.id by lia|].
  exists m'. split; [|done]. unfold bind, ret. rewrite E.
  destruct (Z.ltb_spec len (2 ^ 31)); [done|lia].
Qed.

Lemma observe_flying fd len offset ptr ring m :
  0 < len < 2 ^ 31 -> in_u usize_bits ptr -> in_live ptr len m = true ->
  FakeKernel.observe_write (fst (flying fd len offset ptr ring)) m =
    (Ok (read_bytes ptr (Z.to_nat len) (bytes m)), m).
Proof.
  intros Hl Hp Hlive. unfold FakeKernel.observe_write.
  rewrite (bind_ok _ _ _ _ _ (published_flying fd len offset ptr ring m Hp)).
  apply read_each_ok. change (FakeKernel.len (fst (flying fd len offset ptr ring))) with len.
  by rewrite Z2Nat.id by lia.
Qed.
Lemma write_dead fd len offset ptr ring v m :
  0 < len < 2 ^ 31 -> in_u usize_bits ptr -> in_live ptr 1 m = false ->
  fst (FakeKernel.complete_read (fst (flying fd len offset ptr ring)) v m) = Err Undefined.
Proof.
  intros Hl Hp Hdead. unfold FakeKernel.complete_read.
  rewrite (bind_ok _ _ _ _ _ (published_flying fd len offset ptr ring m Hp)).
  change (FakeKernel.len (fst (flying fd len offset ptr ring))) with len.
  destruct (Z.to_nat len) as [|n] eqn:E; [lia|]. unfold bind. cbn [FakeKernel.write_each].
  unfold bind, store_byte, store_bytes. cbn [length]. change (Z.of_nat 1) with 1. by rewrite Hdead.
Qed.
Lemma redeem_flying fd len offset ptr ring :
  Request.redeem (snd (flying fd len offset ptr ring))
    (FakeKernel.post_completion (fst (flying fd len offset ptr ring)) ring len) =
  Ok (Request.mkCompleted (HeapBuffer.mk ptr len 1) 1 Read len).
Proof.
  unfold Request.redeem. replace (Request.matches _ _) with true; [done|].
  unfold Request.matches. cbn. by rewrite Z.eqb_refl.
Qed.
Lemma drop_grown len m b i r :
  0 < len < 2 ^ 31 ->
  HeapBuffer.drop (HeapBuffer.mk (next_block m) len 1) (mkMachine b (grown len m) i r) =
  (Ok tt, mkMachine b (mkOs (live (os m)) (fds (os m)) (pages (os m)) (faults (os m))
                         (oracle (grown len m))) i r).
Proof.
  intros Hl. unfold HeapBuffer.drop, HeapBuffer.layout. cbn [HeapBuffer.ptr HeapBuffer.len HeapBuffer.align].
  rewrite (layout_byte len Hl), (bind_ok _ _ _ _ _ (eq_refl : ret (len, 1) _ = _)). apply dealloc_grown.
Qed.
Lemma result_of_len len : 0 < len < 2 ^ 31 -> result_of len = Ok len.
Proof.
  intros Hl. unfold result_of, from_failed_cqe. destruct (Z.ltb_spec len 0); [lia|].
  f_equal. apply (wrap_small 32). unfold in_u. lia.
Qed.
(** Nothing lives at the next block's address. *)
Lemma next_block_dead m i b r o : heap_ok m -> live o = live (os m) ->
  in_live (next_block m) 1 (mkMachine b o i r) = false.
Proof.
  intros Hok Ho. pose proof (next_block_above m Hok) as Hb. destruct Hok as [_ Hok].
  unfold in_live. cbn [os]. rewrite Ho. apply not_true_is_false. rewrite existsb_exists.
  intros ([c l] & Hin & Hc). apply list_elem_of_In, gmultiset_elem_of_elements, Hok in Hin.
  apply andb_true_iff in Hc as [?%Z.leb_le ?%Z.leb_le]. lia.
Qed.

(** C31. The first test of the lifecycle, for every length, position in the heap and
    byte written.  The bytes the kernel writes through the entry's address are the
    buffer's, the receipt buys it back with the length, and the heap is left as it
    was.  If the ticket is dropped first, the kernel still finds its storage, which
    stays allocated; had the drop freed it, the kernel's write would be an access
    to dead memory. *)
Theorem read_lands fd len offset v m :
  0 < len < 2 ^ 31 -> heap_ok m -> next_block m + len < 2 ^ usize_bits ->
  (exists m', read_cycle fd len offset v m = (Ok (Ok len, replicate (Z.to_nat len) v), m') /\
     live (os m') = live (os m) /\ faults (os m') = faults (os m)) /\
  (exists m', abandoned_read fd len offset v m = (Ok (replicate (Z.to_nat len) v), m') /\
     live (os m') = live (os m) ⊎ {[+ (next_block m, len) +]} /\ faults (os m') = faults (os m)) /\
  fst (freed_read fd len offset v m) = Err Undefined.
Proof.
  intros Hl Hok Hfit. pose proof (next_block_above m Hok) as Hb.
  assert (in_u usize_bits (next_block m)) as Hp by (destruct Hok; unfold in_u; lia).
  destruct (start_read_ok fd len offset m Hok Hl) as (b & i & r & Hs).
  destruct (complete_flying fd len offset _ (Miri.rings m) v _ Hl Hp (grown_live len m b i r))
    as ([b' o' i' r'] & Hc & Ho & Hr). cbn [os bytes] in Ho, Hr. subst o'.
  split; [|split].
  - eexists. split.
    + unfold read_cycle. rewrite (bind_ok _ _ _ _ _ Hs). cbv beta iota. rewrite (bind_ok _ _ _ _ _ Hc).
      cbn [Lifecycle.ring]. rewrite redeem_flying. cbn [expect].
      rewrite (bind_ok _ _ _ _ _ (eq_refl : ret _ _ = _)). cbn [Request.d_buf].
      assert (HeapBuffer.as_slice (HeapBuffer.mk (next_block m) len 1) (mkMachine b' (grown len m) i' r') =
              (Ok (replicate (Z.to_nat len) v), mkMachine b' (grown len m) i' r')) as Hsl.
      { unfold HeapBuffer.as_slice, load_bytes. cbn [HeapBuffer.ptr HeapBuffer.len bytes].
        by rewrite grown_live, Hr. }
      rewrite (bind_ok _ _ _ _ _ Hsl).
      assert (drop (Request.mkCompleted (HeapBuffer.mk (next_block m) len 1) 1 Read len)
                (mkMachine b' (grown len m) i' r') = _) as Hd by apply (drop_grown len m b' i' r' Hl).
      rewrite (bind_ok _ _ _ _ _ Hd). unfold ret, Request.completed_result. cbn [Request.d_result].
      rewrite (result_of_len len Hl). reflexivity.
    + done.
  - exists (mkMachine b' (grown len m) i' r'). split; [|done].
    unfold abandoned_read. rewrite (bind_ok _ _ _ _ _ Hs). cbv beta iota.
    assert (drop (snd (flying fd len offset (next_block m) (rings m))) (mkMachine b (grown len m) i r) =
            (Ok tt, mkMachine b (grown len m) i r)) as Hd by done.
    rewrite (bind_ok _ _ _ _ _ Hd).
    rewrite (bind_ok _ _ _ _ _ Hc).
    rewrite observe_flying; [cbn [bytes]; by rewrite Hr|done|done|apply grown_live].
  - unfold freed_read. rewrite (bind_ok _ _ _ _ _ Hs). cbv beta iota.
    rewrite (bind_ok _ _ _ _ _ (drop_grown len m b i r Hl)).
    apply write_dead; [done|done|by apply next_block_dead].
Qed.
End Cycle.

Lemma boot_ok : heap_ok boot.
Proof. split; [done|]. intros b l Hin. cbn in Hin. multiset_solver. Qed.
Lemma read_lands_witness :
  fst (@read_cycle ptr64 7 64 0 171 boot) = Ok (Ok 64, replicate 64 171) /\
  fst (@freed_read ptr64 7 64 0 171 boot) = Err Undefined.
Proof.
  destruct (@read_lands ptr64 7 64 0 171 boot) as [(m' & H & _) [_ Hf]];
    [lia|apply boot_ok|vm_compute; reflexivity|].
  split; [by rewrite H|exact Hf].
Defined.

(** ** The tests *)
(** Every test of the harness passes, on 32- and 64-bit targets and on either
    architecture: all 77 run to their end, so every assertion in them holds, no
    access of theirs, of the stand-in kernel's or, as far as [lib] sees, of the
    library's falls outside a live block, none of the first two is misaligned, every release names a live block and its layout, and when a test
    ends nothing is left allocated. *)
Theorem lifecycle_tests_pass {PW : PtrWidth} {TA : TargetArch} :
  length all_tests = 77%nat /\ Forall (fun test => exists m,
    test boot = (Ok tt, m) /\ live (os m) = ∅ /\ faults (os m) = 0%nat) all_tests.
Proof.
  split; [done|]. apply Forall_forall. intros test Hin.
  assert (forallb passes all_tests = true) as Hall.
  { unfold all_tests. by rewrite !forallb_app, io_tests_pass, path_tests_pass, staged_tests_pass. }
  rewrite forallb_forall in Hall. apply Hall in Hin. unfold passes in Hin.
  destruct (test boot) as [[[]|e] m]; [|done]. exists m.
  apply andb_true_iff in Hin as [?%bool_decide_eq_true ?%Nat.eqb_eq]. done.
Qed.
